(* ===== verification/_CoqProject ===== *)
-Q . S2P
Prelude.v
Host.v
Text.v
Crc.v
Layouts.v
Ring.v
Mailbox.v
Capability.v
CapabilityPolicy.v
CapabilityEngines.v
Memory.v
Sim.v
System.v
BibFormat.v
BibBuilder.v
BibReader.v
BibLayouts.v
SimBib.v
BibDump.v
BibDumpTool.v
BibText.v
BibEvidence.v
Registries.v
Discovery.v
DiscoveryParser.v
DiscoveryCatalog.v
MkDiscovery.v
MkDiscoveryTool.v
Agreement.v
TestVectors.v
