(* ===== verification/Prelude.v ===== *)
(** * Verification of the ATARIX reference library

    ATARIX is an experimental workstation architecture; its repository holds a C
    library of the wire formats and decision procedures the platform agrees on
    ([include/atarix], [src]) and two tools ([tools]). This development models
    that C code and proves what it computes. The program's parts, the file that
    models each, and how they call one another:

    - [Prelude] (this file): machine integers as [Z] with explicit wrap-around
      ([u8] to [u64]), memory as a list of bytes whose accesses return [None]
      outside it, little-endian encoding, and the lemmas, tactics and hint
      database [atarix] the other files share. [Crc]: the two 32-bit CRCs as one
      shift register, and the interface [Checksum32] (a 32-bit value that
      changes when at most four consecutive bytes do) through which the formats
      use them. [Layouts]: the packed structures of all headers as lists of named
      members.
    - [Ring] ([src/ring/ring.c]): privilege rings and the access decision.
    - [Mailbox] ([src/mailbox/mailbox.c], uses Crc and Ring): message headers,
      receive windows, ring authorization of messages.
    - [Capability] ([src/capability], uses Ring): capability records, delegation,
      policy evaluation, the evaluator of a capability table; [CapabilityPolicy]
      specifies what a request needs and what a delegated capability may carry, on
      identifiers, bits and rings, without the code's predicates;
      [CapabilityEngines] compares what the two evaluators grant.
    - [Memory] ([src/memory.c]): memory movement descriptors.
    - [Sim] ([src/sim/sim_node.c], [sim_fabric.c], [sim_mailbox.c], uses Mailbox):
      nodes shared through pointers, the fabric's registry, endpoints; the model
      keeps nodes and payload buffers in one store, so that aliasing is the C's.
      [System] drives any number of these objects with any sequence of calls.
    - [BibFormat], [BibBuilder], [BibReader], [SimBib] ([include/atarix/bib*.h],
      [src/bib], [src/sim/sim_bib.c]): the Boot Information Block, written into a
      caller's buffer and read back through views of a caller's memory. [BibLayouts]
      relates their byte positions to the structures [bib.h] declares. [BibDump]
      ([dump_bib] of [tools/bibdump]) prints one; [BibDumpTool] has the printed
      text and the tool around it ([read_file], [main]); [Text] (lemmas on printed
      text) and [BibText] determine what that text discloses; [BibEvidence] follows
      a block from its capture to the printed text, and checks the model against
      the run recorded in [evidence/atx-bib-001].
    - [Registries]: the identifier numbers, flags and address ranges.
    - [Discovery], [DiscoveryParser], [DiscoveryCatalog] ([src/discovery]): handle
      packing and the database of caller-provided tables; checksums, validation,
      iteration and parsing of an image; the abstract catalog that parsing
      builds. [MkDiscovery] ([build_profile] of [tools/mkdiscovery]) generates
      images, [MkDiscoveryTool] ([main]) writes them to a file.
    - [Host]: the calls of the C library that the two tools make, as traces of
      events, and the conversions of [printf]. [Agreement]: the checksums that parts
      duplicate without calling each other agree, what the headers assert about
      structures holds, and the encodings of the model are those structures.
    - [TestVectors]: the assertions of the repository's test programs, evaluated on
      the model.

    Conventions. A definition has the name of the C function it translates. A
    pointer argument is an [option], [None] being NULL, or an offset into the
    memory; a result [None] is an access outside the memory or the arrays given,
    or a loop that did not end within its fuel, and theorems show when neither
    happens. An object written through a pointer is returned. C enumerations of
    results are inductive types; those read from memory are integers. What the
    environment decides (files, allocations, short reads and writes) is a record
    given to the tools' [main].

    What the theorems show.
    - Formats: the reader accepts exactly the valid blocks
      ([BibReader.reader_open_accepts_iff]) and the validator exactly the valid
      images ([DiscoveryParser.discovery_validate_accepts_iff]), where validity is
      stated on decoded headers and records; both answer on every input without
      leaving the buffer; blocks and images with up to four consecutive bytes
      changed are refused; what the builder writes, and what the generator writes for
      the profiles whose handles are distinct, is read back
      ([SimBib.builder_reader_roundtrip], [MkDiscovery.mkdiscovery_parse_roundtrip]).
    - Refinement of an abstract specification: a builder session is a bounded
      list of records ([BibBuilder.builder_session_refines]), the memory of a
      simulated fabric, driven by any calls, a network of stations, a finite map of
      identifiers and runs of delivered numbers
      ([System.system_refines_network]), policy evaluation an access policy
      whose first unmet condition is the status
      ([CapabilityPolicy.policy_evaluate_refines_policy]), parsing the
      addition of records to a catalog ([DiscoveryCatalog.discovery_parse_refines]).
    - Protocol and security: chains of delegations reach exactly the capabilities
      confined to their root, which permit nothing the root does not while it has not
      expired, the fabric ring apart
      ([CapabilityPolicy.delegation_chain_confined]); an endpoint
      delivers in order and at most once whatever the network loses, repeats,
      reorders or forges, and nothing but what was sent unless it was forged
      ([System.system_delivers_in_order]), and a channel can always deliver what
      continues its run ([Sim.channel_delivers_iff_consecutive]); on any bytes at all
      the parser keeps the handles of the database unique and its entries, or
      over-reads one short record ([DiscoveryCatalog.discovery_parse_invariant]); the
      printer discloses the public view of a block and nothing else: two blocks print
      the same text exactly when their views are equal
      ([BibText.bibdump_discloses_public_view]).
    - Tools, end to end: in any environment they terminate, release what they
      hold, and exit with the code of their outcome
      ([BibDumpTool.bibdump_tool_exit], [MkDiscoveryTool.mkdiscovery_tool_exit]); a
      captured block is printed as its configuration
      ([BibEvidence.bib_capture_printed]).
    - Agreement: duplicated checksums compute the same, the bytes that the builder
      stores and the reader loads are the declared members, by name
      ([BibLayouts.bib_code_follows_layouts]), and the two
      authorization engines differ in exactly three cases
      ([CapabilityEngines.engines_compared]).
    - Defects, as theorems about the code as it is: two generated profiles that
      the parser refuses ([MkDiscovery.mkdiscovery_duplicate_handle]), an
      over-read of short records ([DiscoveryCatalog.discovery_short_record_overread]),
      images over 512 bytes whose checksum is not verified, delegation into the
      FABRIC ring, capabilities that lose their expiry, revoked requesters that
      pass trust requirements, references printed with the fields of the first of
      their type ([BibDump.bibdump_prints_first_reference]), sensitive references
      printed, a generator that does not notice a lost write
      ([MkDiscoveryTool.mkdiscovery_tool_lost_write]); and refusals reported in
      another order than the capability evaluation document has
      ([CapabilityPolicy.policy_order_differs]).

    Fuel. The record loops of the reader and of the printer get one more than the
    block's total length, the walks over a discovery image one more than its
    length: every record is at least eight bytes long, so the fuel suffices
    ([reader_memory_safe], [discovery_validate_total], [bibdump_tool_exit]); for the
    parser, whose only missing result is the over-read of a short record, that is
    [discovery_parse_invariant]. The argument loop of the generator gets the number of
    arguments, and moves on by one at least.

    Not modelled: failures of [printf] and of closing a file that was read; the
    alignment of pointers and the atomicity of accesses; the FPGA sources ([rtl]),
    and the documentation tooling. The structures of [directory.h], [index.h] and
    [identity_eeprom.h] have a layout and no operations, since no code uses them.
    The integrity data a reference record may carry is not interpreted by the code
    either. *)

From stdpp Require Export base list numbers option relations.
From Stdlib Require Export ZArith Lia.

#[global] Open Scope Z_scope.

(** ** Machine integers *)

(** Conversion of an integer to a [w]-bit unsigned C type. *)
Definition uint (w x : Z) : Z := x mod 2 ^ w.

Abbreviation u8 := (uint 8).
Abbreviation u16 := (uint 16).
Abbreviation u32 := (uint 32).
Abbreviation u64 := (uint 64).

(** C operators on unsigned values. *)
Declare Scope atarix_scope.
Delimit Scope atarix_scope with atarix.
Notation "x .& y" := (Z.land x y) (at level 40, left associativity) : atarix_scope.
Notation "x .| y" := (Z.lor x y) (at level 50, left associativity) : atarix_scope.
Notation "x .^ y" := (Z.lxor x y) (at level 45, left associativity) : atarix_scope.
Notation "x .>> n" := (Z.shiftr x n) (at level 38, left associativity) : atarix_scope.
Notation "x .<< n" := (Z.shiftl x n) (at level 38, left associativity) : atarix_scope.
#[global] Open Scope atarix_scope.

Definition UINT32_MAX : Z := 2 ^ 32 - 1.
Definition UINT64_MAX : Z := 2 ^ 64 - 1.

(** [fits w x]: the value [x] is representable in a [w]-bit unsigned type. *)
Definition fits (w x : Z) : Prop := 0 <= x < 2 ^ w.

#[global] Instance fits_dec w x : Decision (fits w x).
Proof. unfold fits. apply _. Defined.

(** [flag_set flags bit]: the C test [(flags & bit) != 0]. *)
Definition flag_set (flags bit : Z) : bool := negb (flags .& bit =? 0).

(** Eight-byte alignment, the C test [(x & 7u) == 0u]. *)
Definition aligned8 (x : Z) : bool := x .& 7 =? 0.

(** ** Byte memory

    A region of memory is the list of its bytes, a pointer into it an offset.
    An access outside the region has no value ([None]), which stands for the
    undefined behaviour of the C access. *)

Abbreviation bytes := (list Z).

Definition byte_ok (b : Z) : Prop := fits 8 b.
Abbreviation bytes_ok := (Forall byte_ok).

#[global] Instance byte_ok_dec b : Decision (byte_ok b).
Proof. unfold byte_ok. apply _. Defined.

Definition blen (m : bytes) : Z := Z.of_nat (length m).

Definition load8 (m : bytes) (p : Z) : option Z :=
  if decide (0 <= p) then m !! Z.to_nat p else None.

Definition store8 (m : bytes) (p v : Z) : option bytes :=
  if decide (0 <= p < blen m) then Some (<[Z.to_nat p := u8 v]> m) else None.

Definition load_bytes (m : bytes) (p n : Z) : option bytes :=
  if decide (0 <= p /\ 0 <= n /\ p + n <= blen m)
  then Some (take (Z.to_nat n) (drop (Z.to_nat p) m)) else None.

(** [memcpy(m + p, bs, len)]. *)
Definition store_bytes (m : bytes) (p : Z) (bs : bytes) : option bytes :=
  if decide (0 <= p /\ p + blen bs <= blen m)
  then Some (take (Z.to_nat p) m ++ bs ++ drop (Z.to_nat p + length bs) m)
  else None.

(** [memset(m + p, v, n)]. *)
Definition memset (m : bytes) (p v n : Z) : option bytes :=
  store_bytes m p (replicate (Z.to_nat n) (u8 v)).

(** Little-endian value of a byte string and its inverse at a given width. *)
Fixpoint le_value (bs : bytes) : Z :=
  match bs with
  | [] => 0
  | b :: bs' => b + 256 * le_value bs'
  end.

Fixpoint le_bytes (n : nat) (v : Z) : bytes :=
  match n with
  | O => []
  | S n' => v mod 256 :: le_bytes n' (v / 256)
  end.

(** A member of a packed struct at offset [p], on a little-endian host. *)
Definition load_le (n : Z) (m : bytes) (p : Z) : option Z :=
  le_value <$> load_bytes m p n.

Definition store_le (n : Z) (m : bytes) (p v : Z) : option bytes :=
  store_bytes m p (le_bytes (Z.to_nat n) v).

(** The loop [for (i = 0; i < length; ++i) acc = step(acc, data[i])],
    entered at index [i] with [n] iterations to go. *)
Fixpoint for_bytes (step : Z -> Z -> Z) (n : nat) (data : bytes) (i acc : Z)
  : option Z :=
  match n with
  | O => Some acc
  | S n' => b ← load8 data i; for_bytes step n' data (i + 1) (step acc b)
  end.

(** ** Automation *)

Create HintDb atarix discriminated.

(** Goals about lengths of concatenations, then linear arithmetic. *)
Create Rewrite HintDb blen.
Ltac blen_lia := unfold blen in *; autorewrite with blen in *; cbn [length] in *; lia.

(** Splits the [match]es and [if]s of a hypothesis about an [option]
    computation and keeps the branches that return a value. *)
Ltac inv_opt := repeat (progress simplify_option_eq || case_match); try done.

#[export] Hint Rewrite @length_app @length_replicate @length_take @length_drop
  @length_insert @length_cons : blen.

(** ** Machine integers: lemmas *)

Lemma uint_range w x : 0 <= w -> fits w (uint w x).
Proof. intros. unfold fits, uint. apply Z.mod_pos_bound. lia. Qed.

Lemma uint_small w x : fits w x -> uint w x = x.
Proof. intros. unfold uint. by apply Z.mod_small. Qed.

Lemma fits_weaken v w x : v <= w -> fits v x -> fits w x.
Proof.
  unfold fits. intros. assert (2 ^ v <= 2 ^ w) by (apply Z.pow_le_mono_r; lia). lia.
Qed.

Lemma testbit_fits w x i : 0 <= w <= i -> fits w x -> Z.testbit x i = false.
Proof.
  intros [Hw Hi] Hx. rewrite <-(Z.mod_small _ _ Hx). apply Z.mod_pow2_bits_high. lia.
Qed.

Lemma fits_testbit w x :
  0 <= w -> (forall i, w <= i -> Z.testbit x i = false) -> fits w x.
Proof.
  intros Hw H. replace x with (uint w x); [by apply uint_range|].
  apply Z.bits_inj'. intros i Hi. unfold uint.
  destruct (decide (i < w)); [apply Z.mod_pow2_bits_low; lia|].
  rewrite Z.mod_pow2_bits_high by lia. symmetry. apply H. lia.
Qed.

Lemma fits_lxor w x y : 0 <= w -> fits w x -> fits w y -> fits w (x .^ y).
Proof.
  intros. apply fits_testbit; [done|]. intros i Hi.
  rewrite Z.lxor_spec, !(testbit_fits w); (done || lia).
Qed.

Lemma fits_lor w x y : 0 <= w -> fits w x -> fits w y -> fits w (x .| y).
Proof.
  intros. apply fits_testbit; [done|]. intros i Hi.
  rewrite Z.lor_spec, !(testbit_fits w); (done || lia).
Qed.

Lemma fits_land_l w x y : 0 <= w -> fits w x -> fits w (x .& y).
Proof.
  intros. apply fits_testbit; [done|]. intros i Hi.
  rewrite Z.land_spec, (testbit_fits w); (done || lia).
Qed.

(** Disjoint bit patterns add up: the link between the shift-and-or code
    and positional arithmetic. *)
Lemma lor_shiftl_add w x y : 0 <= w -> fits w x -> x .| (y .<< w) = x + 2 ^ w * y.
Proof.
  intros Hw Hx. rewrite (Z.mul_comm (2 ^ w)), <-Z.shiftl_mul_pow2 by done.
  rewrite <-Z.lxor_lor; [rewrite Z.add_nocarry_lxor; [done|]|].
  all: apply Z.bits_inj'; intros i Hi; rewrite Z.land_spec, Z.bits_0.
  all: destruct (decide (i < w));
    [rewrite (Z.shiftl_spec_low y) by lia; by rewrite andb_false_r
    |by rewrite (testbit_fits w x) by (done || lia)].
Qed.

Lemma lxor_shiftl_add w x y : 0 <= w -> fits w x -> x .^ (y .<< w) = x + 2 ^ w * y.
Proof.
  intros Hw Hx. rewrite (Z.mul_comm (2 ^ w)), <-Z.shiftl_mul_pow2 by done.
  rewrite Z.add_nocarry_lxor; [done|].
  apply Z.bits_inj'; intros i Hi; rewrite Z.land_spec, Z.bits_0.
  destruct (decide (i < w));
    [rewrite (Z.shiftl_spec_low y) by lia; by rewrite andb_false_r
    |by rewrite (testbit_fits w x) by (done || lia)].
Qed.

Lemma aligned8_mod x : aligned8 x = (x mod 8 =? 0).
Proof. unfold aligned8. by change 7 with (Z.ones 3); rewrite Z.land_ones. Qed.

Lemma aligned8_spec x : aligned8 x = true <-> (8 | x).
Proof.
  rewrite aligned8_mod, Z.eqb_eq. apply Z.mod_divide. lia.
Qed.

Lemma aligned8_add x y :
  aligned8 x = true -> aligned8 y = true -> aligned8 (x + y) = true.
Proof. rewrite !aligned8_spec. apply Z.divide_add_r. Qed.

#[export] Hint Resolve uint_range aligned8_add : atarix.

(** ** Byte memory: lemmas *)

Lemma blen_nonneg m : 0 <= blen m.
Proof. unfold blen. lia. Qed.

Lemma blen_app m1 m2 : blen (m1 ++ m2) = blen m1 + blen m2.
Proof. unfold blen. rewrite length_app. lia. Qed.

Lemma blen_cons b m : blen (b :: m) = 1 + blen m.
Proof. unfold blen. rewrite length_cons. lia. Qed.

Lemma blen_replicate n b : blen (replicate n b) = Z.of_nat n.
Proof. unfold blen. by rewrite length_replicate. Qed.

Lemma load_bytes_app pre bs post p n :
  p = blen pre -> n = blen bs -> load_bytes (pre ++ bs ++ post) p n = Some bs.
Proof.
  intros -> ->. unfold load_bytes. rewrite decide_True by blen_lia.
  unfold blen. by rewrite !Nat2Z.id, drop_app_length, take_app_length.
Qed.

Lemma store_bytes_app pre old post p bs :
  p = blen pre -> length old = length bs ->
  store_bytes (pre ++ old ++ post) p bs = Some (pre ++ bs ++ post).
Proof.
  intros -> Hl. unfold store_bytes. rewrite decide_True by blen_lia.
  unfold blen. rewrite !Nat2Z.id, take_app_length, <-Hl.
  by rewrite <-drop_drop, drop_app_length, drop_app_length.
Qed.

(** Every in-range load is of the form above. *)
Lemma load_bytes_inv m p n bs :
  load_bytes m p n = Some bs ->
  exists pre post, m = pre ++ bs ++ post /\ p = blen pre /\ n = blen bs.
Proof.
  unfold load_bytes. case_decide; [|done]. intros [= <-].
  exists (take (Z.to_nat p) m), (drop (Z.to_nat p + Z.to_nat n) m).
  rewrite <-drop_drop, !take_drop. unfold blen in *.
  rewrite !length_take, length_drop. split_and!; [done|lia..].
Qed.

Lemma load_bytes_in_range m p n :
  0 <= p -> 0 <= n -> p + n <= blen m ->
  exists bs, load_bytes m p n = Some bs /\ blen bs = n.
Proof.
  intros. unfold load_bytes. rewrite decide_True by done. eexists. split; [done|].
  unfold blen in *. rewrite length_take, length_drop. lia.
Qed.

Lemma load_bytes_length m p n bs : load_bytes m p n = Some bs -> blen bs = n.
Proof. by intros (? & ? & _ & _ & ->)%load_bytes_inv. Qed.

Lemma load_bytes_0 m p : 0 <= p <= blen m -> load_bytes m p 0 = Some [].
Proof. intros. unfold load_bytes. rewrite decide_True by lia. done. Qed.

Lemma load8_app pre b post p : p = blen pre -> load8 (pre ++ b :: post) p = Some b.
Proof.
  intros ->. unfold load8, blen. rewrite decide_True by lia.
  rewrite Nat2Z.id. by apply list_lookup_middle.
Qed.

Lemma load8_in_range m p : 0 <= p < blen m -> is_Some (load8 m p).
Proof.
  intros. unfold load8. rewrite decide_True by lia. apply lookup_lt_is_Some_2.
  unfold blen in *. lia.
Qed.

Lemma load8_Some m p b : load8 m p = Some b -> 0 <= p < blen m.
Proof.
  unfold load8. case_decide; [|done]. intros ?%lookup_lt_Some. unfold blen. lia.
Qed.

Lemma load8_app_l m1 m2 p : p < blen m1 -> load8 (m1 ++ m2) p = load8 m1 p.
Proof.
  intros. unfold load8. case_decide; [|done]. apply lookup_app_l.
  unfold blen in *. lia.
Qed.

Lemma load8_byte_ok m p b : bytes_ok m -> load8 m p = Some b -> byte_ok b.
Proof.
  unfold load8. case_decide; [|done]. intros Hm Hb. by eapply Forall_lookup_1.
Qed.

Lemma load_bytes_cons m p n bs :
  0 <= n ->
  load_bytes m p (1 + n) = Some bs <->
  exists b bs', bs = b :: bs' /\ load8 m p = Some b /\ load_bytes m (p + 1) n = Some bs'.
Proof.
  intros Hn. split.
  - intros (pre & post & -> & -> & Hl)%load_bytes_inv.
    destruct bs as [|b bs']; [blen_lia|]. rewrite blen_cons in Hl.
    exists b, bs'. split; [done|]. split; [by apply load8_app|].
    replace (pre ++ (b :: bs') ++ post) with ((pre ++ [b]) ++ bs' ++ post)
      by (by rewrite <-app_assoc).
    apply load_bytes_app; [rewrite blen_app; done|lia].
  - intros (b & bs' & -> & Hb & (pre & post & -> & Hp & ->)%load_bytes_inv).
    assert (exists pre', pre = pre' ++ [b] /\ p = blen pre') as (pre' & -> & ->).
    { pose proof (load8_Some _ _ _ Hb). destruct pre as [|x pre _] using rev_ind.
      { unfold blen in *; simpl in *; lia. }
      rewrite blen_app in Hp. change (blen [x]) with 1 in Hp.
      exists pre. rewrite <-!app_assoc in Hb. simpl in Hb.
      rewrite load8_app in Hb by lia. simplify_eq. split; [done|lia]. }
    rewrite <-app_assoc. apply (load_bytes_app pre' (b :: bs')); [done|].
    by rewrite blen_cons.
Qed.

Lemma load_bytes_ok m p n bs : bytes_ok m -> load_bytes m p n = Some bs -> bytes_ok bs.
Proof.
  intros Hm (? & ? & -> & _)%load_bytes_inv.
  apply Forall_app in Hm as [_ Hm]. by apply Forall_app in Hm as [? _].
Qed.

(** Loads do not see what lies beyond the range they cover. *)
Lemma load_bytes_app_l m1 m2 p n :
  p + n <= blen m1 -> load_bytes (m1 ++ m2) p n = load_bytes m1 p n.
Proof.
  intros H. unfold load_bytes. rewrite blen_app. pose proof (blen_nonneg m2).
  repeat case_decide; try done; try lia. f_equal.
  unfold blen in *. rewrite drop_app_le by lia. rewrite take_app_le; [done|].
  rewrite length_drop. lia.
Qed.

(** ** Byte loops *)

Lemma for_bytes_fold step data n i acc bs :
  load_bytes data i (Z.of_nat n) = Some bs ->
  for_bytes step n data i acc = Some (fold_left step bs acc).
Proof.
  revert i acc bs. induction n as [|n IH]; intros i acc bs H.
  { apply load_bytes_length in H. by destruct bs; [|unfold blen in H; simpl in H; lia]. }
  rewrite Nat2Z.inj_succ, <-Z.add_1_l in H.
  apply load_bytes_cons in H as (b & bs' & -> & Hb & Hbs); [|lia].
  cbn [for_bytes fold_left]. rewrite Hb. by apply IH.
Qed.

(** The loop faults unless the bytes are there. *)
Lemma for_bytes_bound step data n i acc r :
  for_bytes step n data i acc = Some r -> n <> O -> i + Z.of_nat n <= blen data.
Proof.
  revert i acc. induction n as [|n IH]; intros i acc Hr; [done|]. intros _. cbn [for_bytes] in Hr.
  destruct (load8 data i) as [b|] eqn:Hb; cbn in Hr; [|done].
  apply load8_Some in Hb. destruct n as [|n]; [lia|]. apply IH in Hr; [lia|done].
Qed.

(** ** Little-endian encoding *)

Lemma length_le_bytes n v : length (le_bytes n v) = n.
Proof. revert v. induction n; intros; simpl; auto. Qed.

Lemma blen_le_bytes n v : blen (le_bytes n v) = Z.of_nat n.
Proof. unfold blen. by rewrite length_le_bytes. Qed.

Lemma le_bytes_ok n v : bytes_ok (le_bytes n v).
Proof.
  revert v. induction n; intros v; simpl; constructor; [|done].
  unfold byte_ok, fits. apply Z.mod_pos_bound. lia.
Qed.

Lemma le_value_bytes n v : le_value (le_bytes n v) = v mod 256 ^ Z.of_nat n.
Proof.
  revert v. induction n as [|n IH]; intros v; [simpl; by rewrite Z.mod_1_r|].
  cbn [le_bytes le_value]. rewrite IH, Nat2Z.inj_succ, Z.pow_succ_r by lia.
  rewrite Z.rem_mul_r; [done|lia|]. apply Z.pow_pos_nonneg; lia.
Qed.

Lemma le_value_range bs : bytes_ok bs -> 0 <= le_value bs < 256 ^ blen bs.
Proof.
  induction 1 as [|b bs Hb _ IH]; [done|].
  unfold byte_ok, fits in Hb. simpl le_value. rewrite blen_cons.
  rewrite Z.pow_add_r by (pose proof (blen_nonneg bs); lia).
  change (256 ^ 1) with 256. lia.
Qed.

Lemma le_bytes_value bs : bytes_ok bs -> le_bytes (length bs) (le_value bs) = bs.
Proof.
  induction 1 as [|b bs Hb _ IH]; [done|]. unfold byte_ok, fits in Hb.
  cbn [le_value length le_bytes]. rewrite (Z.mul_comm 256).
  rewrite Z.mod_add, Z.mod_small, Z.div_add, Z.div_small by lia. by rewrite Z.add_0_l, IH.
Qed.

Lemma le_value_inj bs1 bs2 :
  bytes_ok bs1 -> bytes_ok bs2 -> length bs1 = length bs2 ->
  le_value bs1 = le_value bs2 -> bs1 = bs2.
Proof.
  intros H1 H2 Hl Hv. rewrite <-(le_bytes_value bs1), <-(le_bytes_value bs2) by done.
  congruence.
Qed.

Lemma le_value_zero n : le_value (replicate n 0) = 0.
Proof. induction n; simpl; lia. Qed.

Lemma le_value_app bs1 bs2 :
  le_value (bs1 ++ bs2) = le_value bs1 + 256 ^ blen bs1 * le_value bs2.
Proof.
  induction bs1 as [|b bs1 IH]; [simpl le_value; unfold blen; simpl; lia|].
  rewrite blen_cons, <-app_comm_cons. cbn [le_value].
  rewrite Z.pow_add_r, IH by (pose proof (blen_nonneg bs1); lia).
  change (256 ^ 1) with 256. lia.
Qed.

#[export] Hint Rewrite blen_app blen_cons blen_replicate blen_le_bytes
  length_le_bytes : blen.
#[export] Hint Resolve le_bytes_ok blen_nonneg : atarix.

(** ** Stores: composition and framing *)

Lemma store8_app pre b post p v :
  p = blen pre -> store8 (pre ++ b :: post) p v = Some (pre ++ u8 v :: post).
Proof.
  intros ->. unfold store8. rewrite decide_True by blen_lia. f_equal.
  unfold blen. rewrite Nat2Z.id.
  rewrite insert_app_r_alt by lia. by rewrite Nat.sub_diag.
Qed.

(** An in-range position splits the memory there. *)
Lemma split_at m p :
  0 <= p < blen m -> exists pre b post, m = pre ++ b :: post /\ p = blen pre.
Proof.
  intros H. destruct (lookup_lt_is_Some_2 m (Z.to_nat p)) as [b Hb].
  { unfold blen in H. lia. }
  exists (take (Z.to_nat p) m), b, (drop (S (Z.to_nat p)) m).
  rewrite take_drop_middle by done. split; [done|].
  unfold blen in *. rewrite length_take. lia.
Qed.

Lemma store_bytes_nil m p : 0 <= p <= blen m -> store_bytes m p [] = Some m.
Proof.
  intros. unfold store_bytes. rewrite decide_True by (unfold blen in *; simpl; lia).
  simpl. by rewrite Nat.add_0_r, take_drop.
Qed.

Lemma blen_store_bytes m p bs m' : store_bytes m p bs = Some m' -> blen m' = blen m.
Proof.
  unfold store_bytes. case_decide as Hd; [|done]. intros [= <-].
  unfold blen in *. rewrite !length_app, length_take, length_drop. lia.
Qed.

Lemma store_bytes_inv m p bs m' :
  store_bytes m p bs = Some m' ->
  exists pre old post, m = pre ++ old ++ post /\ p = blen pre /\
    length old = length bs /\ m' = pre ++ bs ++ post.
Proof.
  unfold store_bytes. case_decide as Hd; [|done]. intros [= <-].
  exists (take (Z.to_nat p) m), (take (length bs) (drop (Z.to_nat p) m)),
    (drop (Z.to_nat p + length bs) m).
  rewrite <-drop_drop, !take_drop. unfold blen in *.
  rewrite !length_take, length_drop. split_and!; [done|lia|lia|done].
Qed.

Lemma store_bytes_None m p bs :
  store_bytes m p bs = None <-> ~ (0 <= p /\ p + blen bs <= blen m).
Proof. unfold store_bytes. by case_decide. Qed.

(** A store of a concatenation is two stores. *)
Lemma store_bytes_concat m p bs1 bs2 :
  store_bytes m p (bs1 ++ bs2) =
  m' ← store_bytes m p bs1; store_bytes m' (p + blen bs1) bs2.
Proof.
  destruct (store_bytes m p (bs1 ++ bs2)) as [m'|] eqn:H.
  - apply store_bytes_inv in H as (pre & old & post & -> & -> & Hl & ->).
    rewrite length_app in Hl.
    rewrite <-(take_drop (length bs1) old), <-!app_assoc.
    rewrite store_bytes_app by (rewrite ?length_take; (done || lia)). simpl.
    rewrite (app_assoc pre bs1 (drop _ _ ++ _)), store_bytes_app;
      [by rewrite <-!app_assoc|by rewrite blen_app|]. rewrite length_drop. lia.
  - apply store_bytes_None in H. rewrite blen_app in H.
    destruct (store_bytes m p bs1) as [m'|] eqn:H1; [|done]. simpl.
    apply blen_store_bytes in H1 as Hl. apply store_bytes_inv in H1 as (? & ? & ? & ? & ? & _).
    symmetry. apply store_bytes_None. rewrite Hl.
    pose proof (blen_nonneg bs1). subst p. pose proof (blen_nonneg x). lia.
Qed.

Lemma store8_store_bytes m p v : store8 m p v = store_bytes m p [u8 v].
Proof.
  unfold store8. case_decide as Hd.
  - destruct (split_at m p Hd) as (pre & b & post & -> & ->).
    rewrite (store_bytes_app pre [b] post) by done. f_equal.
    unfold blen. rewrite Nat2Z.id, insert_app_r_alt by lia. by rewrite Nat.sub_diag.
  - symmetry. apply store_bytes_None. change (blen [u8 v]) with 1. lia.
Qed.

(** Stores that stay inside a prefix, or start after it, leave the rest. *)
Lemma store_bytes_app_l m1 m2 p bs :
  p + blen bs <= blen m1 ->
  store_bytes (m1 ++ m2) p bs = m ← store_bytes m1 p bs; Some (m ++ m2).
Proof.
  intros H. destruct (store_bytes m1 p bs) as [m|] eqn:H1; simpl.
  - apply store_bytes_inv in H1 as (pre & old & post & -> & -> & Hl & ->).
    rewrite <-!app_assoc. by apply store_bytes_app.
  - apply store_bytes_None in H1. apply store_bytes_None. rewrite blen_app.
    intros [? _]. apply H1. lia.
Qed.

Lemma store_bytes_app_r m1 m2 q bs :
  0 <= q -> store_bytes (m1 ++ m2) (blen m1 + q) bs =
  m ← store_bytes m2 q bs; Some (m1 ++ m).
Proof.
  intros Hq. destruct (store_bytes m2 q bs) as [m|] eqn:H1; simpl.
  - apply store_bytes_inv in H1 as (pre & old & post & -> & -> & Hl & ->).
    rewrite (app_assoc m1 pre), store_bytes_app;
      [by rewrite <-!app_assoc|by rewrite blen_app|done].
  - apply store_bytes_None in H1. apply store_bytes_None. rewrite blen_app.
    pose proof (blen_nonneg m1). lia.
Qed.

Lemma le_bytes_mod n v : le_bytes n (v mod 256 ^ Z.of_nat n) = le_bytes n v.
Proof.
  rewrite <-le_value_bytes. rewrite <-(length_le_bytes n v) at 1.
  apply le_bytes_value, le_bytes_ok.
Qed.

Lemma le_bytes_add n k v :
  le_bytes (n + k) v = le_bytes n v ++ le_bytes k (v / 256 ^ Z.of_nat n).
Proof.
  revert v. induction n as [|n IH]; intros v; [simpl; by rewrite Z.div_1_r|].
  cbn [Nat.add le_bytes app]. rewrite IH. do 3 f_equal.
  rewrite Nat2Z.inj_succ, Z.pow_succ_r by lia.
  rewrite Z.div_div; [done|lia|]. apply Z.pow_pos_nonneg; lia.
Qed.

Lemma replicate_split (k n : nat) (x : Z) :
  (k <= n)%nat -> replicate n x = replicate k x ++ replicate (n - k) x.
Proof. intros. rewrite <-replicate_add. f_equal. lia. Qed.


Lemma memset_app pre old post p v n :
  p = blen pre -> n = blen old ->
  memset (pre ++ old ++ post) p v n =
  Some (pre ++ replicate (Z.to_nat n) (u8 v) ++ post).
Proof.
  intros -> ->. unfold memset. apply store_bytes_app; [done|].
  unfold blen. by rewrite length_replicate, Nat2Z.id.
Qed.

Lemma memset_prefix m v n :
  0 <= n <= blen m ->
  memset m 0 v n = Some (replicate (Z.to_nat n) (u8 v) ++ drop (Z.to_nat n) m).
Proof.
  intros Hn. rewrite <-(take_drop (Z.to_nat n) m) at 1.
  apply (memset_app []); [done|]. unfold blen in *. rewrite length_take. lia.
Qed.

(** Loads from a block in the middle of the memory. *)
Lemma load_bytes_block pre b post k n :
  0 <= k -> k + n <= blen b ->
  load_bytes (pre ++ b ++ post) (blen pre + k) n = load_bytes b k n.
Proof.
  intros Hk Hn. destruct (decide (0 <= n)) as [Hn0|]; cycle 1.
  { unfold load_bytes. rewrite !decide_False by lia. done. }
  destruct (load_bytes_in_range b k n) as (bs & Hbs & _); [done..|].
  rewrite Hbs. apply load_bytes_inv in Hbs as (b1 & b2 & -> & -> & ->).
  rewrite <-!app_assoc, (app_assoc pre b1). by apply load_bytes_app; [rewrite blen_app|].
Qed.

Lemma load8_block pre b post k :
  0 <= k < blen b -> load8 (pre ++ b ++ post) (blen pre + k) = load8 b k.
Proof.
  intros Hk. destruct (split_at b k Hk) as (b1 & x & b2 & -> & ->).
  rewrite <-app_assoc, <-app_comm_cons, app_assoc.
  rewrite !load8_app; rewrite ?blen_app; done.
Qed.

(** The first [n] bytes of a long enough string are an encoded integer. *)
Lemma take_le n bs :
  bytes_ok bs -> Z.of_nat n <= blen bs ->
  exists v rest, bs = le_bytes n v ++ rest /\ fits (8 * Z.of_nat n) v.
Proof.
  intros Hbs Hn. exists (le_value (take n bs)), (drop n bs).
  assert (Hok : bytes_ok (take n bs)) by (by apply Forall_take).
  assert (Hl : length (take n bs) = n) by (rewrite length_take; unfold blen in Hn; lia).
  split.
  - rewrite <-Hl at 1. by rewrite le_bytes_value, take_drop.
  - pose proof (le_value_range _ Hok) as Hr. unfold blen in Hr. rewrite Hl in Hr.
    unfold fits. by rewrite Z.pow_mul_r by lia.
Qed.

Lemma b2z_range b : 0 <= Z.b2z b <= 1.
Proof. by destruct b. Qed.

(** Splits an encoded integer off the front of the byte string [b]. *)
Ltac take_next n b v b' :=
  let Hv := fresh "Hv" in
  match goal with
  | Hb : bytes_ok b, Hl : context [blen b] |- _ =>
    destruct (take_le n b) as (v & b' & -> & Hv); [exact Hb|lia|];
    apply Forall_app in Hb as [_ Hb]; rewrite blen_app, blen_le_bytes in Hl
  end.

Lemma app_regroup {A} (p a b c d e : list A) :
  p ++ (a ++ (b ++ c) ++ d) ++ e = p ++ (a ++ b ++ c) ++ d ++ e.
Proof. by rewrite <-!app_assoc. Qed.

(** Two ways to cut a list, the first cut coming first. *)
Lemma app_eq_prefix {A} (l1 l2 k1 k2 : list A) :
  l1 ++ l2 = k1 ++ k2 -> (length k1 <= length l1)%nat ->
  exists k, l1 = k1 ++ k /\ k2 = k ++ l2.
Proof.
  intros [(k & -> & ->)|(k & -> & ->)]%app_eq_inv Hl; [by exists k|].
  rewrite length_app in Hl. destruct k; [|simpl in Hl; lia].
  exists []. by rewrite !app_nil_r.
Qed.

(** [Forall] over a concatenation, piece by piece. *)
Ltac split_app :=
  repeat match goal with |- Forall _ (_ ++ _) => apply Forall_app; split end.

(** An encoded integer inside a byte string. *)
Definition le_at (n : Z) (b : bytes) (k : Z) : Z :=
  le_value (take (Z.to_nat n) (drop (Z.to_nat k) b)).

Lemma le_at_load n b k :
  bytes_ok b -> 0 <= k -> 0 <= n -> k + n <= blen b ->
  load_bytes b k n = Some (le_bytes (Z.to_nat n) (le_at n b k)) /\
  fits (8 * n) (le_at n b k).
Proof.
  intros Hok Hk Hn Hl. unfold load_bytes, le_at. rewrite decide_True by done.
  set (bs := take _ _).
  assert (Hbs : bytes_ok bs) by (by apply Forall_take, Forall_drop).
  assert (Hlen : length bs = Z.to_nat n)
    by (unfold bs, blen in *; rewrite length_take, length_drop; lia).
  split; [by rewrite <-Hlen, le_bytes_value|].
  pose proof (le_value_range _ Hbs) as Hr. unfold blen in Hr.
  rewrite Hlen, Z2Nat.id in Hr by done. unfold fits. by rewrite Z.pow_mul_r.
Qed.

Lemma load_bytes_prefix b post n : n = blen b -> load_bytes (b ++ post) 0 n = Some b.
Proof. by apply (load_bytes_app []). Qed.

Lemma load_bytes_whole m n : n = blen m -> load_bytes m 0 n = Some m.
Proof. intros. rewrite <-(app_nil_r m) at 1. by apply load_bytes_prefix. Qed.

(** The unit law as a rewrite rule, for values that must not be computed. *)
Lemma bind_some {A B} (x : A) (f : A -> option B) : Some x ≫= f = f x.
Proof. done. Qed.

Lemma load_le_in_range m p k :
  0 <= p -> 0 <= k -> p + k <= blen m -> exists v, load_le k m p = Some v.
Proof.
  intros. destruct (load_bytes_in_range m p k) as (bs & Hbs & _); [done..|].
  exists (le_value bs). unfold load_le. by rewrite Hbs.
Qed.

(** Loads of an integer inside a block of memory. *)
Lemma load_le_block n pre b post k v :
  0 <= k -> k + Z.of_nat n <= blen b -> load_bytes b k (Z.of_nat n) = Some (le_bytes n v) ->
  fits (8 * Z.of_nat n) v ->
  load_le (Z.of_nat n) (pre ++ b ++ post) (blen pre + k) = Some v.
Proof.
  intros Hk Hb Hl Hv. unfold load_le. rewrite load_bytes_block, Hl by done.
  cbn [fmap option_fmap option_map]. rewrite le_value_bytes. f_equal. apply Z.mod_small.
  unfold fits in Hv. by rewrite Z.pow_mul_r in Hv by lia.
Qed.

Lemma load_le_at n pre b post k :
  bytes_ok b -> 0 <= k -> 0 <= n -> k + n <= blen b ->
  load_le n (pre ++ b ++ post) (blen pre + k) = Some (le_at n b k).
Proof.
  intros Hb Hk Hn Hl. unfold load_le. rewrite load_bytes_block by done.
  unfold load_bytes. rewrite decide_True by done. done.
Qed.
