(* ===== verification/Host.v ===== *)
(** * What the command line tools use of the C library

    The calls of [stdio.h] and [stdlib.h] that [tools/bibdump/bibdump.c] and
    [tools/mkdiscovery/mkdiscovery.c] make, as a trace of events, and the
    conversions of [printf] they use. The outcome of a call that the environment
    decides (a file that cannot be opened, an allocation that fails, a short read
    or write) is a member of a record that the tool takes as an argument. *)

From S2P Require Import Prelude.
From stdpp Require Import strings pretty.
#[local] Open Scope Z_scope.

(** ** Traces *)

Inductive event : Type :=
| Fopen (path : string)
| Fclose
| Malloc (size : Z)
| Free
| Stdout (text : string)
| Stderr (text : string).

(** The streams and the blocks held after an event; [None] for closing or freeing
    what is not held. *)
Definition hold (e : event) (held : nat * nat) : option (nat * nat) :=
  let '(streams, blocks) := held in
  match e with
  | Fopen _ => Some (S streams, blocks)
  | Fclose => match streams with O => None | S n => Some (n, blocks) end
  | Malloc _ => Some (streams, S blocks)
  | Free => match blocks with O => None | S n => Some (streams, n) end
  | Stdout _ | Stderr _ => Some held
  end.

Fixpoint holds (trace : list event) (held : nat * nat) : option (nat * nat) :=
  match trace with
  | [] => Some held
  | e :: rest => held ← hold e held; holds rest held
  end.

(** Everything opened is closed once, everything allocated freed once. *)
Definition no_leak (trace : list event) : Prop := holds trace (0%nat, 0%nat) = Some (0%nat, 0%nat).

Definition text_concat (l : list string) : string := foldr String.append EmptyString l.

Definition stdout_text (trace : list event) : string :=
  text_concat (omap (fun e => match e with Stdout s => Some s | _ => None end) trace).

Definition stderr_text (trace : list event) : string :=
  text_concat (omap (fun e => match e with Stderr s => Some s | _ => None end) trace).

(** Writing does not change what is held. *)
Definition is_text (e : event) : Prop :=
  match e with Stdout _ | Stderr _ => True | _ => False end.

Lemma holds_app t1 t2 held : holds (t1 ++ t2) held = (held' ← holds t1 held; holds t2 held').
Proof. revert held. induction t1 as [|e t1 IH]; intros held; [done|].
  cbn [holds app]. destruct (hold e held); [|done]. by rewrite !bind_some. Qed.

Lemma holds_text trace held : Forall is_text trace -> holds trace held = Some held.
Proof.
  induction 1 as [|e trace He _ IH]; [done|]. cbn [holds].
  destruct e, held; cbn [hold is_text] in *; (done || by rewrite bind_some).
Qed.

Lemma string_app_nil (s : string) : (s +:+ EmptyString)%string = s.
Proof. induction s as [|c s IH]; [done|]. exact (f_equal (String c) IH). Qed.

Lemma string_app_assoc (a b c : string) : ((a +:+ b) +:+ c = a +:+ (b +:+ c))%string.
Proof. induction a as [|x a IH]; [done|]. exact (f_equal (String x) IH). Qed.

Lemma concat_app (l1 l2 : list string) :
  text_concat (l1 ++ l2) = (text_concat l1 +:+ text_concat l2)%string.
Proof.
  induction l1 as [|s l1 IH]; [done|].
  change (s +:+ text_concat (l1 ++ l2) = (s +:+ text_concat l1) +:+ text_concat l2)%string.
  by rewrite IH, string_app_assoc.
Qed.

Lemma stdout_app t1 t2 : stdout_text (t1 ++ t2) = (stdout_text t1 +:+ stdout_text t2)%string.
Proof. unfold stdout_text. by rewrite omap_app, concat_app. Qed.

Lemma stderr_app t1 t2 : stderr_text (t1 ++ t2) = (stderr_text t1 +:+ stderr_text t2)%string.
Proof. unfold stderr_text. by rewrite omap_app, concat_app. Qed.

(** ** Conversions of [printf] *)

Definition newline : string := String (Ascii.ascii_of_nat 10) EmptyString.

Definition hex_digit (d : Z) : Ascii.ascii :=
  Ascii.ascii_of_nat (Z.to_nat (if d <? 10 then 48 + d else 87 + d)).

(** [%0nx], for a value of at most [n] hexadecimal digits. *)
Fixpoint hex (n : nat) (v : Z) : string :=
  match n with
  | O => EmptyString
  | S n' => hex n' (v / 16) +:+ String (hex_digit (v mod 16)) EmptyString
  end.

(** [%u], and [%d] for a value that is not negative. *)
Definition dec (v : Z) : string := pretty (Z.to_N v).

Lemma dec_inj v v' : 0 <= v -> 0 <= v' -> dec v = dec v' -> v = v'.
Proof. unfold dec. intros ?? H%(inj pretty). lia. Qed.

Lemma hex_digit_inj d d' : 0 <= d < 16 -> 0 <= d' < 16 -> hex_digit d = hex_digit d' -> d = d'.
Proof.
  unfold hex_digit. intros Hd Hd' H%(f_equal Ascii.nat_of_ascii).
  rewrite !Ascii.nat_ascii_embedding in H
    by (destruct (Z.ltb_spec d 10), (Z.ltb_spec d' 10); lia).
  destruct (Z.ltb_spec d 10), (Z.ltb_spec d' 10); lia.
Qed.
