(* ===== verification/Text.v ===== *)
(** * Text that can be read back

    The lemmas by which printed text determines what was printed: characters that
    a string does not contain and splitting at them, the conversions [%u] and
    [%0nx] on the values they are used for, and lines. *)

From S2P Require Import Prelude Host.
From stdpp Require Import strings pretty.
#[local] Open Scope Z_scope.
#[local] Open Scope string_scope.

(** [c] does not occur in [s]. *)
Fixpoint free (c : Ascii.ascii) (s : string) : bool :=
  match s with
  | EmptyString => true
  | String d s' => negb (bool_decide (d = c)) && free c s'
  end.

Lemma free_app c s s' : free c (s +:+ s') = free c s && free c s'.
Proof.
  induction s as [|d s IH]; [done|]. change (String d s +:+ s') with (String d (s +:+ s')).
  cbn [free]. by rewrite IH, andb_assoc.
Qed.

(** The first occurrence of a character splits a string. *)
Lemma split_at_char c a b x y :
  free c a = true -> free c b = true -> a +:+ String c x = b +:+ String c y -> a = b /\ x = y.
Proof.
  revert b. induction a as [|d a IH]; intros [|e b] Ha Hb Heq; cbn [free] in *.
  - by injection Heq as ->.
  - injection Heq as -> _. by rewrite bool_decide_true in Hb.
  - injection Heq as -> _. by rewrite bool_decide_true in Ha.
  - apply andb_true_iff in Ha as [_ Ha], Hb as [_ Hb].
    injection Heq as -> Heq. by destruct (IH b Ha Hb Heq) as [-> ->].
Qed.

Lemma append_snoc_inj a b x y :
  a +:+ String x EmptyString = b +:+ String y EmptyString -> a = b /\ x = y.
Proof.
  revert b. induction a as [|d a IH]; intros [|e b] Heq.
  - by injection Heq as ->.
  - injection Heq as _ Heq. by destruct b.
  - injection Heq as _ Heq. by destruct a.
  - injection Heq as -> Heq. by destruct (IH b Heq) as [-> ->].
Qed.

Lemma append_cons c x y : String c x +:+ y = String c (x +:+ y).
Proof. reflexivity. Qed.

Lemma append_inj_l a x y : a +:+ x = a +:+ y -> x = y.
Proof. induction a as [|d a IH]; [done|]. intros [= Heq]. by apply IH. Qed.

(** ** Numbers *)

(** Not a character of a number in either base. *)
Definition delimiter (c : Ascii.ascii) : Prop := forall d, 0 <= d < 16 -> hex_digit d <> c.

Lemma pretty_char_digit d : (d < 10)%N -> pretty_N_char d = hex_digit (Z.of_N d).
Proof.
  intros Hd. assert (d = 0 \/ d = 1 \/ d = 2 \/ d = 3 \/ d = 4 \/ d = 5 \/ d = 6 \/ d = 7 \/
    d = 8 \/ d = 9)%N as Hcases by lia.
  by repeat destruct Hcases as [-> |Hcases]; subst.
Qed.

Lemma pretty_go_free c n s :
  delimiter c -> free c (pretty_N_go n s) = free c s.
Proof.
  intros Hc. revert s. induction (N.lt_wf_0 n) as [n _ IH]. intros s.
  destruct (decide (n = 0%N)) as [->|Hn]; [by rewrite pretty_N_go_0|].
  rewrite pretty_N_go_step by lia.
  rewrite IH by (apply N.div_lt; lia). cbn [free].
  rewrite bool_decide_false; [done|].
  rewrite pretty_char_digit by (apply N.mod_lt; lia). apply Hc.
  pose proof (N.mod_lt n 10 ltac:(done)) as Hm. revert Hm. generalize (n `mod` 10)%N. lia.
Qed.

Lemma dec_free c v : delimiter c -> free c (dec v) = true.
Proof.
  intros Hc. unfold dec, pretty, pretty_N. case_decide; [|by rewrite pretty_go_free].
  cbn [free]. rewrite bool_decide_false; [done|]. by apply (Hc 0).
Qed.

Lemma hex_free c n v : delimiter c -> free c (hex n v) = true.
Proof.
  intros Hc. revert v. induction n as [|n IH]; intros v; [done|]. cbn [hex].
  rewrite free_app, IH. cbn [free]. rewrite bool_decide_false; [done|].
  apply Hc, Z.mod_pos_bound. lia.
Qed.

Lemma hex_inj n v v' :
  0 <= v < 16 ^ Z.of_nat n -> 0 <= v' < 16 ^ Z.of_nat n -> hex n v = hex n v' -> v = v'.
Proof.
  revert v v'. induction n as [|n IH]; intros v v' Hv Hv' Heq; [cbn in *; lia|].
  rewrite Nat2Z.inj_succ, Z.pow_succ_r in Hv, Hv' by lia.
  cbn [hex] in Heq. apply append_snoc_inj in Heq as [Hq Hr].
  apply hex_digit_inj in Hr; [|apply Z.mod_pos_bound; lia..].
  apply IH in Hq; [|split; [apply Z.div_pos|apply Z.div_lt_upper_bound]; lia..].
  rewrite (Z.div_mod v 16), (Z.div_mod v' 16) by lia. by rewrite Hq, Hr.
Qed.

(** Numbers of the same width before other text. *)
Lemma hex_app_inj n v v' x y : hex n v +:+ x = hex n v' +:+ y -> hex n v = hex n v' /\ x = y.
Proof.
  revert v v' x y. induction n as [|n IH]; intros v v' x y Heq; [done|]. cbn [hex] in *.
  rewrite !string_app_assoc in Heq. apply IH in Heq as [Hq Heq].
  change (String (hex_digit (v mod 16)) x = String (hex_digit (v' mod 16)) y) in Heq.
  injection Heq as Hd Hx. by rewrite Hq, Hd.
Qed.

(** ** Lines *)

Definition newline_char : Ascii.ascii := Ascii.ascii_of_nat 10.

(** Lines of text determine the text and are determined by it. *)
Lemma lines_inj (l l' : list string) :
  Forall (fun s => free newline_char s = true) l -> Forall (fun s => free newline_char s = true) l' ->
  text_concat (map (fun s => s +:+ newline) l) = text_concat (map (fun s => s +:+ newline) l') ->
  l = l'.
Proof.
  intros Hl. revert l'. induction Hl as [|s l Hs Hl IH]; intros l' Hl' Heq.
  - destruct l' as [|s' l']; [done|]. by destruct s'.
  - destruct Hl' as [|s' l' Hs' Hl']; [by destruct s|].
    cbn [map text_concat foldr] in Heq. rewrite !string_app_assoc in Heq.
    apply (split_at_char newline_char) in Heq as [-> Heq]; [|done..]. f_equal. by apply IH.
Qed.

(** Membership of a character in the sixteen digits is decided by listing them. *)
Lemma delimiter_dec c :
  forallb (fun d => negb (bool_decide (hex_digit (Z.of_nat d) = c))) (seq 0 16) = true -> delimiter c.
Proof.
  intros Hall d Hd Heq. rewrite forallb_forall in Hall.
  specialize (Hall (Z.to_nat d)). rewrite Z2Nat.id, Heq, bool_decide_true in Hall by (done || lia).
  discriminate Hall. apply in_seq. lia.
Qed.
