(* ===== verification/Crc.v ===== *)
(** * Reflected 32-bit cyclic redundancy checks

    The repository computes two CRCs in four places: CRC-32/ISO-HDLC in
    [src/mailbox/mailbox.c], [src/discovery/discovery_validate.c] and
    [tools/mkdiscovery/mkdiscovery.c], and CRC-32C in [src/bib/bib_builder.c]
    and [src/bib/bib_reader.c], each with its own bit loop. This file holds the
    reference both are compared with (the shift register of a reflected
    polynomial), its theory, and the interface [Checksum32] through which the
    message formats use a checksum: a 32-bit value that changes whenever at
    most four consecutive bytes of the message change. *)

From S2P Require Import Prelude.

(** One shift of the register: the bit that leaves selects the polynomial. *)
Definition crc_bit (poly crc : Z) : Z :=
  (crc .>> 1) .^ (if Z.testbit crc 0 then poly else 0).

Definition crc_byte (poly crc b : Z) : Z :=
  Nat.iter 8 (crc_bit poly) (crc .^ b).

Definition crc_run (poly crc : Z) (bs : bytes) : Z :=
  fold_left (crc_byte poly) bs crc.

(** When comparing registers, unfold the byte step before the bit steps. *)
#[global] Strategy expand [crc_byte].

(** Register preset to ones, result complemented. *)
Definition crc_of (poly : Z) (bs : bytes) : Z :=
  crc_run poly UINT32_MAX bs .^ UINT32_MAX.

(** What a message format relies on. *)
Class Checksum32 (f : bytes -> Z) := {
  checksum_fits bs : bytes_ok bs -> fits 32 (f bs);
  checksum_burst pre xs ys post :
    bytes_ok pre -> bytes_ok xs -> bytes_ok ys -> bytes_ok post ->
    length xs = length ys -> (length xs <= 4)%nat -> xs <> ys ->
    f (pre ++ xs ++ post) <> f (pre ++ ys ++ post)
}.

(** A polynomial whose reflected form has degree exactly 32. *)
Class Poly32 (poly : Z) := {
  poly_fits : fits 32 poly;
  poly_top : Z.testbit poly 31 = true
}.

Section fold_state.
Context {A B : Type} (g : A -> B -> A) (P : A -> Prop) (Q : B -> Prop)
  (g_P : forall a b, P a -> Q b -> P (g a b)).

Lemma fold_left_P bs a : Forall Q bs -> P a -> P (fold_left g bs a).
Proof. intros Hbs. revert a. induction Hbs; simpl; auto. Qed.

(** A step that can be undone makes the whole run injective in the state. *)
Lemma fold_left_inj bs a a' :
  (forall a a' b, P a -> P a' -> Q b -> g a b = g a' b -> a = a') ->
  Forall Q bs -> P a -> P a' -> fold_left g bs a = fold_left g bs a' -> a = a'.
Proof.
  intros Hg Hbs. revert a a'.
  induction Hbs as [|b bs Hb _ IH]; intros a a' Ha Ha' Heq; [done|].
  apply (Hg a a' b); auto.
Qed.
End fold_state.

(** A linear shift register, whatever its feedback. Keeping the feedback
    abstract here keeps the kernel from computing with it. *)
Section linear_register.
Context (f : Z -> Z)
  (f_linear : forall a b, f (a .^ b) = f a .^ f b)
  (f_shiftl : forall a, f (a .<< 1) = a).

Let step crc b := Nat.iter 8 f (crc .^ b).

Lemma iter_linear n a b :
  Nat.iter n f (a .^ b) = Nat.iter n f a .^ Nat.iter n f b.
Proof. induction n as [|n IH]; simpl; [done|]. by rewrite IH, f_linear. Qed.

Lemma iter_shiftl n a : Nat.iter n f (a .<< Z.of_nat n) = a.
Proof.
  revert a. induction n as [|n IH]; intros a; [apply Z.shiftl_0_r|].
  rewrite Nat2Z.inj_succ, <-Z.add_1_l, <-Z.shiftl_shiftl by lia.
  simpl. by rewrite IH.
Qed.

(** Processing a block byte by byte is the same as adding the whole block
    into the register first. *)
Lemma fold_block crc bs :
  bytes_ok bs ->
  fold_left step bs crc = Nat.iter (8 * length bs) f (crc .^ le_value bs).
Proof.
  intros Hbs. revert crc. induction Hbs as [|b bs Hb _ IH]; intros crc.
  { simpl. by rewrite Z.lxor_0_r. }
  cbn [fold_left length le_value]. rewrite IH.
  replace (8 * S (length bs))%nat with (8 * length bs + 8)%nat by lia.
  rewrite (Nat.iter_add _ 8). f_equal. unfold step.
  change 256 with (2 ^ 8). rewrite <-lxor_shiftl_add by (done || lia).
  rewrite <-Z.lxor_assoc, (iter_linear 8 (crc .^ b)). f_equal.
  symmetry. apply (iter_shiftl 8).
Qed.
End linear_register.

Section register.
Context (poly : Z) `{!Poly32 poly}.

Lemma crc_bit_fits crc : fits 32 crc -> fits 32 (crc_bit poly crc).
Proof.
  intros Hc. unfold crc_bit. apply fits_lxor; [lia| |].
  - unfold fits in *. rewrite Z.shiftr_div_pow2 by lia. split.
    + apply Z.div_pos; lia.
    + apply Z.div_lt_upper_bound; lia.
  - destruct (Z.testbit crc 0); [apply poly_fits|done].
Qed.

Lemma crc_bit_linear a b :
  crc_bit poly (a .^ b) = crc_bit poly a .^ crc_bit poly b.
Proof.
  unfold crc_bit. rewrite Z.shiftr_lxor, Z.lxor_spec.
  rewrite !Z.lxor_assoc. f_equal. rewrite <-!Z.lxor_assoc, (Z.lxor_comm _ (b .>> 1)).
  rewrite !Z.lxor_assoc. f_equal.
  destruct (Z.testbit a 0), (Z.testbit b 0); simpl;
    by rewrite ?Z.lxor_0_r, ?Z.lxor_0_l, ?Z.lxor_nilpotent.
Qed.

Lemma crc_bit_shiftl a : crc_bit poly (a .<< 1) = a.
Proof.
  unfold crc_bit. rewrite Z.shiftl_spec_low, Z.lxor_0_r by lia.
  rewrite Z.shiftr_shiftl_l by lia. apply Z.shiftl_0_r.
Qed.

(** The top bit of the new register tells which bit was shifted out. *)
Lemma crc_bit_top crc : fits 32 crc -> Z.testbit (crc_bit poly crc) 31 = Z.testbit crc 0.
Proof.
  intros Hc. unfold crc_bit. rewrite Z.lxor_spec, Z.shiftr_spec by lia.
  rewrite (testbit_fits 32) by (done || lia).
  destruct (Z.testbit crc 0); [by rewrite poly_top|done].
Qed.

Lemma crc_bit_inj a b :
  fits 32 a -> fits 32 b -> crc_bit poly a = crc_bit poly b -> a = b.
Proof.
  intros Ha Hb Heq.
  assert (H0 : Z.testbit a 0 = Z.testbit b 0)
    by (rewrite <-!crc_bit_top by done; by f_equal).
  unfold crc_bit in Heq. rewrite H0 in Heq. apply (f_equal (fun z => z .^ (if Z.testbit b 0 then poly else 0))) in Heq.
  rewrite !Z.lxor_assoc, !Z.lxor_nilpotent, !Z.lxor_0_r in Heq.
  apply Z.bits_inj'. intros i Hi. destruct (decide (i = 0)) as [->|]; [done|].
  apply (f_equal (fun z => Z.testbit z (i - 1))) in Heq.
  rewrite !Z.shiftr_spec in Heq by lia. by replace (i - 1 + 1) with i in Heq by lia.
Qed.

Lemma iter_crc_bit_fits n crc : fits 32 crc -> fits 32 (Nat.iter n (crc_bit poly) crc).
Proof. induction n; simpl; auto using crc_bit_fits. Qed.

Lemma iter_crc_bit_inj n a b :
  fits 32 a -> fits 32 b ->
  Nat.iter n (crc_bit poly) a = Nat.iter n (crc_bit poly) b -> a = b.
Proof.
  intros Ha Hb. induction n as [|n IH]; simpl; [done|]. intros Heq. apply IH.
  apply crc_bit_inj; auto using iter_crc_bit_fits.
Qed.

Lemma crc_byte_fits crc b : fits 32 crc -> byte_ok b -> fits 32 (crc_byte poly crc b).
Proof.
  intros. apply iter_crc_bit_fits, fits_lxor; [lia|done|].
  by apply (fits_weaken 8).
Qed.

Lemma crc_run_fits bs crc : bytes_ok bs -> fits 32 crc -> fits 32 (crc_run poly crc bs).
Proof. apply (fold_left_P _ (fits 32) byte_ok), crc_byte_fits. Qed.

Lemma crc_run_app crc bs1 bs2 :
  crc_run poly crc (bs1 ++ bs2) = crc_run poly (crc_run poly crc bs1) bs2.
Proof. apply fold_left_app. Qed.

Lemma crc_run_block crc bs :
  bytes_ok bs ->
  crc_run poly crc bs =
  Nat.iter (8 * length bs) (crc_bit poly) (crc .^ le_value bs).
Proof. apply fold_block; [apply crc_bit_linear|apply crc_bit_shiftl]. Qed.

Lemma crc_byte_inj a b x :
  fits 32 a -> fits 32 b -> byte_ok x ->
  crc_byte poly a x = crc_byte poly b x -> a = b.
Proof.
  intros Ha Hb Hx Heq. apply iter_crc_bit_inj in Heq;
    [|apply fits_lxor; [lia|done|by apply (fits_weaken 8)]..].
  apply (f_equal (fun z => z .^ x)) in Heq.
  by rewrite !Z.lxor_assoc, !Z.lxor_nilpotent, !Z.lxor_0_r in Heq.
Qed.

Lemma crc_run_inj_state bs a b :
  bytes_ok bs -> fits 32 a -> fits 32 b ->
  crc_run poly a bs = crc_run poly b bs -> a = b.
Proof.
  apply (fold_left_inj _ (fits 32) byte_ok); [apply crc_byte_fits|].
  intros. by eapply crc_byte_inj.
Qed.

Lemma le_value_fits32 bs : bytes_ok bs -> (length bs <= 4)%nat -> fits 32 (le_value bs).
Proof.
  intros Hbs Hl. pose proof (le_value_range bs Hbs). unfold fits.
  assert (256 ^ blen bs <= 256 ^ 4) by (apply Z.pow_le_mono_r; unfold blen; lia).
  change (2 ^ 32) with (256 ^ 4). lia.
Qed.

Lemma crc_run_burst crc xs ys :
  fits 32 crc -> bytes_ok xs -> bytes_ok ys ->
  length xs = length ys -> (length xs <= 4)%nat ->
  crc_run poly crc xs = crc_run poly crc ys -> xs = ys.
Proof.
  intros Hc Hxs Hys Hl H4 Heq. apply le_value_inj; [done..|].
  rewrite !crc_run_block, Hl in Heq by done.
  apply iter_crc_bit_inj in Heq;
    [|apply fits_lxor; [lia|done|apply le_value_fits32; (done || lia)]..].
  apply (f_equal (Z.lxor crc)) in Heq.
  by rewrite <-!Z.lxor_assoc, !Z.lxor_nilpotent, !Z.lxor_0_l in Heq.
Qed.

#[export] Instance crc_of_checksum : Checksum32 (crc_of poly).
Proof.
  split.
  - intros bs Hbs. apply fits_lxor; [lia|by apply crc_run_fits|done].
  - intros pre xs ys post Hpre Hxs Hys Hpost Hl H4 Hne Heq. apply Hne.
    unfold crc_of in Heq. apply (f_equal (Z.lxor UINT32_MAX)) in Heq.
    rewrite !(Z.lxor_comm UINT32_MAX), !Z.lxor_assoc, Z.lxor_nilpotent, !Z.lxor_0_r in Heq.
    rewrite !crc_run_app in Heq.
    assert (fits 32 (crc_run poly UINT32_MAX pre)) by (by apply crc_run_fits).
    apply crc_run_inj_state in Heq; [|done|by apply crc_run_fits..].
    by apply crc_run_burst in Heq.
Qed.
End register.

(** The two polynomials in use. *)
Definition poly_iso_hdlc : Z := 0xEDB88320.
Definition poly_castagnoli : Z := 0x82F63B78.

#[export] Instance poly_iso_hdlc_poly32 : Poly32 poly_iso_hdlc.
Proof. by split. Qed.

#[export] Instance poly_castagnoli_poly32 : Poly32 poly_castagnoli.
Proof. by split. Qed.

(** Published check values: the CRC of the ASCII string "123456789". *)
Example crc_iso_hdlc_check :
  crc_of poly_iso_hdlc [49; 50; 51; 52; 53; 54; 55; 56; 57] = 0xCBF43926.
Proof. by vm_compute. Qed.

Example crc_castagnoli_check :
  crc_of poly_castagnoli [49; 50; 51; 52; 53; 54; 55; 56; 57] = 0xE3069283.
Proof. by vm_compute. Qed.

(** ** From the bit loops of the code to the reference *)

Lemma land_1_testbit x : x .& 1 = if Z.testbit x 0 then 1 else 0.
Proof.
  transitivity (x mod 2); [apply (Z.land_ones x 1); lia|].
  rewrite <-Z.bit0_mod. by destruct (Z.testbit x 0).
Qed.

Lemma fold_left_ext {A B} (f g : A -> B -> A) bs a :
  (forall a b, f a b = g a b) -> fold_left f bs a = fold_left g bs a.
Proof. intros H. revert a. induction bs; intros; simpl; [done|]. by rewrite H. Qed.

Lemma iter_ext {A} (f g : A -> A) n a :
  (forall x, f x = g x) -> Nat.iter n f a = Nat.iter n g a.
Proof. intros H. induction n; simpl; [done|]. by rewrite H, IHn. Qed.

Lemma crc_byte_bits poly bit crc b :
  (forall x, bit x = crc_bit poly x) -> Nat.iter 8 bit (crc .^ b) = crc_byte poly crc b.
Proof. intros. unfold crc_byte. by apply iter_ext. Qed.

Lemma crc_run_cons poly crc b bs :
  crc_run poly crc (b :: bs) = crc_run poly (crc_byte poly crc b) bs.
Proof. done. Qed.

(** A byte loop whose bit step is the reference step computes the reference. *)
Lemma for_bytes_crc poly bit n data crc bs :
  (forall x, bit x = crc_bit poly x) ->
  load_bytes data 0 (Z.of_nat n) = Some bs ->
  for_bytes (fun crc b => Nat.iter 8 bit (crc .^ b)) n data 0 crc =
  Some (crc_run poly crc bs).
Proof.
  intros Hbit Hbs. rewrite (for_bytes_fold _ _ _ _ _ bs) by done. f_equal.
  apply fold_left_ext. intros. by apply iter_ext.
Qed.
