(* ===== verification/Layouts.v ===== *)
(** * Layout of the wire structures

    The packed structures of [include/atarix]: a layout lists the members with
    their widths in bytes, in declaration order; an array of bytes is one member.
    With [#pragma pack(push, 1)] a member's offset is the sum of the widths before
    it, which the headers check with [_Static_assert]. The structures are read and
    written as little-endian memory, and the file shows that doing so member by
    member loses nothing. *)

From S2P Require Import Prelude.
From stdpp Require Import strings.
#[local] Open Scope Z_scope.

Definition layout : Type := list (string * Z).

(** The members of a structure that is itself a member. *)
Definition in_struct (name : string) (l : layout) : layout :=
  map (fun f => ((name +:+ "." +:+ f.1)%string, f.2)) l.

Definition sizeof (l : layout) : Z := foldr (fun f size => f.2 + size) 0 l.

Fixpoint offsetof (l : layout) (name : string) : option Z :=
  match l with
  | [] => None
  | (n, w) :: l' =>
    if decide (n = name) then Some 0 else offset ← offsetof l' name; Some (w + offset)
  end.

Fixpoint width_of (l : layout) (name : string) : option Z :=
  match l with
  | [] => None
  | (n, w) :: l' => if decide (n = name) then Some w else width_of l' name
  end.

(** The value of a member in a structure given by its members' values. *)
Fixpoint member_value (l : layout) (vs : list Z) (name : string) : option Z :=
  match l, vs with
  | (n, _) :: l', v :: vs' => if decide (n = name) then Some v else member_value l' vs' name
  | _, _ => None
  end.

(** The bytes of a structure, and reading one at an address. *)
Fixpoint encode (l : layout) (vs : list Z) : bytes :=
  match l, vs with
  | (_, w) :: l', v :: vs' => le_bytes (Z.to_nat w) v ++ encode l' vs'
  | _, _ => []
  end.

Fixpoint decode (l : layout) (m : bytes) (p : Z) : option (list Z) :=
  match l with
  | [] => Some []
  | (_, w) :: l' => v ← load_le w m p; vs ← decode l' m (p + w); Some (v :: vs)
  end.

(** The member [name] of the structure at address [p]. *)
Definition read_member (l : layout) (m : bytes) (p : Z) (name : string) : option Z :=
  offset ← offsetof l name;
  w ← width_of l name;
  load_le w m (p + offset).

(** ** mailbox.h *)

Definition atarix_mailbox_header_v1_layout : layout :=
  [("magic", 4); ("type", 2); ("length", 2); ("sequence", 4); ("crc32", 4)].

(** ** capability.h *)

Definition atarix_capability_record_v1_layout : layout :=
  [("capability_id", 4); ("operation_id", 4); ("target_handle", 8);
   ("minimum_ring", 2); ("maximum_ring", 2); ("flags", 4); ("delegation_mask", 8);
   ("expiration_or_lifetime", 8); ("issuer_handle", 8); ("trust_requirement", 4);
   ("reserved", 4)].

(** ** memory.h *)

Definition atarix_memory_descriptor_v1_layout : layout :=
  [("magic", 4); ("version", 2); ("reserved", 2); ("flags", 4); ("source_object", 4);
   ("source_offset", 4); ("destination_object", 4); ("destination_offset", 4);
   ("length", 4); ("capability_id", 4); ("generation", 4); ("audit_hint", 4)].

(** ** bib.h *)

Definition atarix_bib_header_v1_layout : layout :=
  [("magic", 8); ("version_major", 2); ("version_minor", 2); ("header_length", 2);
   ("flags", 2); ("total_length", 4); ("crc32c", 4); ("boot_id", 8);
   ("producer_id", 8); ("created_counter", 8); ("tlv_offset", 4); ("tlv_count", 4);
   ("reserved", 8)].

Definition atarix_bib_tlv_header_v1_layout : layout :=
  [("type", 2); ("flags", 2); ("length", 4); ("payload_length", 4); ("reserved", 4)].

Definition atarix_bib_reference_fixed_v1_layout : layout :=
  [("object_id", 8); ("address", 8); ("length", 8); ("format_major", 4);
   ("format_minor", 4); ("integrity_kind", 4); ("integrity_length", 4)].

Definition atarix_bib_identity_fixed_v1_layout : layout :=
  [("object_id", 8); ("identity_kind", 4); ("identity_length", 4)].

(** ** discovery.h *)

Definition atarix_discovery_header_v1_layout : layout :=
  [("magic", 4); ("version_major", 2); ("version_minor", 2); ("total_length", 4);
   ("record_count", 4); ("provider_id", 4); ("flags", 4); ("header_crc32", 4);
   ("image_crc32", 4)].

Definition atarix_discovery_record_header_v1_layout : layout :=
  [("type", 2); ("version", 2); ("length", 4)].

Definition atarix_discovery_resource_record_v1_layout : layout :=
  in_struct "header" atarix_discovery_record_header_v1_layout ++
  [("resource_type_id", 2); ("resource_version", 2); ("resource_flags", 4);
   ("resource_handle", 8); ("provider_id", 4); ("instance_id", 4)].

Definition atarix_discovery_service_record_v1_layout : layout :=
  in_struct "header" atarix_discovery_record_header_v1_layout ++
  [("service_id", 2); ("service_version", 2); ("service_flags", 4);
   ("service_handle", 8); ("provider_id", 4); ("instance_id", 4)].

Definition atarix_discovery_provider_record_fixed_v1_layout : layout :=
  in_struct "header" atarix_discovery_record_header_v1_layout ++
  [("provider_id", 4); ("provider_version", 4); ("provider_flags", 4);
   ("name_length", 4)].

Definition atarix_discovery_dependency_record_v1_layout : layout :=
  in_struct "header" atarix_discovery_record_header_v1_layout ++
  [("consumer_handle", 8); ("provider_handle", 8); ("dependency_type", 2);
   ("dependency_version", 2); ("dependency_flags", 4)].

Definition atarix_discovery_instrumentation_record_v1_layout : layout :=
  in_struct "header" atarix_discovery_record_header_v1_layout ++
  [("instrumentation_type", 2); ("instrumentation_version", 2);
   ("instrumentation_flags", 4); ("instrumentation_handle", 8); ("observed_handle", 8)].

(** ** directory.h *)

Definition atarix_directory_header_v1_layout : layout :=
  [("magic", 4); ("version_major", 2); ("version_minor", 2); ("total_length", 4);
   ("entry_count", 4); ("flags", 4); ("header_crc32", 4); ("directory_crc32", 4);
   ("reserved", 4)].

Definition atarix_directory_entry_v1_layout : layout :=
  [("service_handle", 8); ("provider_handle", 8); ("service_id", 4);
   ("provider_id", 4); ("flags", 4); ("binding_type", 4); ("binding_handle", 8);
   ("required_capability_handle", 8); ("minimum_ring", 4); ("reserved", 4)].

(** ** index.h *)

Definition atarix_payload_index_query_v1_layout : layout :=
  [("registry_id", 4); ("key_hash", 4); ("expected_generation", 4); ("query_type", 1);
   ("probe_limit", 1); ("projection_flags", 1); ("reserved", 1)].

Definition atarix_payload_index_reply_v1_layout : layout :=
  [("resolved_id", 4); ("resolved_generation", 4); ("status", 1); ("match_offset", 1);
   ("audit_window_id", 2); ("reserved", 4)].

(** ** identity_eeprom.h *)

Definition atarix_identity_eeprom_v1_layout : layout :=
  [("magic", 4); ("format_version", 2); ("header_length", 2);
   ("total_record_length", 4); ("vendor_id", 4); ("device_id", 4);
   ("serial_number", 8); ("board_revision", 2); ("board_class", 2); ("trust_class", 2);
   ("reserved_alignment", 2); ("manufacture_timestamp", 8);
   ("boot_firmware_revision", 4); ("provisioning_tool_revision", 4);
   ("capability_flags", 8); ("board_name", 32); ("provisioning_revision", 4);
   ("provisioning_timestamp", 8); ("factory_test_signature", 8); ("crc32", 4);
   ("reserved", 396)].

(** ** The structures as a whole *)

Definition wire_layouts : list layout :=
  [atarix_mailbox_header_v1_layout;
   atarix_capability_record_v1_layout;
   atarix_memory_descriptor_v1_layout;
   atarix_bib_header_v1_layout;
   atarix_bib_tlv_header_v1_layout;
   atarix_bib_reference_fixed_v1_layout;
   atarix_bib_identity_fixed_v1_layout;
   atarix_discovery_header_v1_layout;
   atarix_discovery_record_header_v1_layout;
   atarix_discovery_resource_record_v1_layout;
   atarix_discovery_service_record_v1_layout;
   atarix_discovery_provider_record_fixed_v1_layout;
   atarix_discovery_dependency_record_v1_layout;
   atarix_discovery_instrumentation_record_v1_layout;
   atarix_directory_header_v1_layout;
   atarix_directory_entry_v1_layout;
   atarix_payload_index_query_v1_layout;
   atarix_payload_index_reply_v1_layout;
   atarix_identity_eeprom_v1_layout].

(** The size and offset assertions of the headers hold. *)
Theorem wire_static_asserts :
  sizeof atarix_mailbox_header_v1_layout = 16 /\
  sizeof atarix_capability_record_v1_layout = 56 /\
  sizeof atarix_memory_descriptor_v1_layout = 44 /\
  sizeof atarix_bib_header_v1_layout = 64 /\
  offsetof atarix_bib_header_v1_layout "magic" = Some 0 /\
  offsetof atarix_bib_header_v1_layout "version_major" = Some 8 /\
  offsetof atarix_bib_header_v1_layout "version_minor" = Some 10 /\
  offsetof atarix_bib_header_v1_layout "header_length" = Some 12 /\
  offsetof atarix_bib_header_v1_layout "flags" = Some 14 /\
  offsetof atarix_bib_header_v1_layout "total_length" = Some 16 /\
  offsetof atarix_bib_header_v1_layout "crc32c" = Some 20 /\
  offsetof atarix_bib_header_v1_layout "boot_id" = Some 24 /\
  offsetof atarix_bib_header_v1_layout "producer_id" = Some 32 /\
  offsetof atarix_bib_header_v1_layout "created_counter" = Some 40 /\
  offsetof atarix_bib_header_v1_layout "tlv_offset" = Some 48 /\
  offsetof atarix_bib_header_v1_layout "tlv_count" = Some 52 /\
  offsetof atarix_bib_header_v1_layout "reserved" = Some 56 /\
  sizeof atarix_bib_tlv_header_v1_layout = 16 /\
  offsetof atarix_bib_tlv_header_v1_layout "type" = Some 0 /\
  offsetof atarix_bib_tlv_header_v1_layout "flags" = Some 2 /\
  offsetof atarix_bib_tlv_header_v1_layout "length" = Some 4 /\
  offsetof atarix_bib_tlv_header_v1_layout "payload_length" = Some 8 /\
  offsetof atarix_bib_tlv_header_v1_layout "reserved" = Some 12 /\
  sizeof atarix_bib_reference_fixed_v1_layout = 40 /\
  sizeof atarix_bib_identity_fixed_v1_layout = 16 /\
  sizeof atarix_discovery_header_v1_layout = 32 /\
  sizeof atarix_discovery_record_header_v1_layout = 8 /\
  sizeof atarix_discovery_resource_record_v1_layout = 32 /\
  sizeof atarix_discovery_service_record_v1_layout = 32 /\
  sizeof atarix_discovery_dependency_record_v1_layout = 32 /\
  sizeof atarix_discovery_instrumentation_record_v1_layout = 32 /\
  sizeof atarix_directory_header_v1_layout = 32 /\
  sizeof atarix_directory_entry_v1_layout = 56 /\
  sizeof atarix_payload_index_query_v1_layout = 16 /\
  sizeof atarix_payload_index_reply_v1_layout = 16 /\
  sizeof atarix_identity_eeprom_v1_layout = 512.
Proof. by vm_compute. Qed.

(** ** Reading what was written *)

Definition layout_wf (l : layout) : Prop := Forall (fun f => 0 <= f.2) l.

(** A value for each member, within its width. *)
Definition values_fit (l : layout) (vs : list Z) : Prop :=
  Forall2 (fun f v => fits (8 * f.2) v) l vs.

Lemma sizeof_nonneg l : layout_wf l -> 0 <= sizeof l.
Proof. induction 1; cbn [sizeof foldr] in *; [lia|]. unfold sizeof in *. lia. Qed.

Lemma sizeof_cons n w l : sizeof ((n, w) :: l) = w + sizeof l.
Proof. done. Qed.

Lemma blen_encode l vs : layout_wf l -> values_fit l vs -> blen (encode l vs) = sizeof l.
Proof.
  intros Hl Hvs. induction Hvs as [|[n w] v l vs _ _ IH]; [done|].
  apply Forall_cons_iff in Hl as [Hw Hl]. cbn [encode snd] in *.
  rewrite blen_app, blen_le_bytes, Z2Nat.id, IH by done. done.
Qed.

Lemma encode_ok l vs : bytes_ok (encode l vs).
Proof.
  revert vs. induction l as [|[n w] l IH]; intros [|v vs]; cbn [encode]; try constructor.
  apply Forall_app. auto with atarix.
Qed.

Lemma load_le_bytes pre w v post :
  0 <= w -> fits (8 * w) v ->
  load_le w (pre ++ le_bytes (Z.to_nat w) v ++ post) (blen pre) = Some v.
Proof.
  intros Hw Hv. unfold load_le.
  rewrite load_bytes_app by (rewrite ?blen_le_bytes; lia). cbn.
  rewrite le_value_bytes, Z2Nat.id by done. f_equal. apply Z.mod_small.
  unfold fits in Hv. by rewrite Z.pow_mul_r in Hv by lia.
Qed.

Lemma decode_encode l vs pre post :
  layout_wf l -> values_fit l vs -> decode l (pre ++ encode l vs ++ post) (blen pre) = Some vs.
Proof.
  intros Hl Hvs. revert pre. induction Hvs as [|[n w] v l vs Hv _ IH]; intros pre; [done|].
  apply Forall_cons_iff in Hl as [Hw Hl]. cbn [encode decode snd] in *.
  rewrite <-app_assoc, load_le_bytes, bind_some by done.
  replace (blen pre + w) with (blen (pre ++ le_bytes (Z.to_nat w) v))
    by (rewrite blen_app, blen_le_bytes; lia).
  by rewrite app_assoc, IH.
Qed.

(** Values of any size are reduced to the widths of their members. *)
Fixpoint reduced (l : layout) (vs : list Z) : list Z :=
  match l, vs with
  | (_, w) :: l', v :: vs' => uint (8 * w) v :: reduced l' vs'
  | _, _ => []
  end.

Lemma encode_reduced l vs : layout_wf l -> encode l (reduced l vs) = encode l vs.
Proof.
  intros Hl. revert vs. induction Hl as [|[n w] l Hw _ IH]; intros [|v vs]; try done.
  cbn [reduced encode snd] in *. rewrite IH. f_equal.
  rewrite <-(le_bytes_mod (Z.to_nat w) v). unfold uint. do 2 f_equal.
  rewrite Z2Nat.id by done. by rewrite Z.pow_mul_r by lia.
Qed.

Lemma reduced_fit l vs : layout_wf l -> length l = length vs -> values_fit l (reduced l vs).
Proof.
  intros Hl. revert vs. induction Hl as [|[n w] l Hw _ IH]; intros [|v vs]; try done.
  { intros _. constructor. }
  cbn [reduced length snd] in *. intros [= Hlen]. constructor; [|by apply IH].
  cbn [snd]. apply uint_range. lia.
Qed.

Lemma decode_reduced l vs pre post :
  layout_wf l -> length l = length vs ->
  decode l (pre ++ encode l vs ++ post) (blen pre) = Some (reduced l vs).
Proof.
  intros Hl Hlen. rewrite <-encode_reduced by done. apply decode_encode; [done|].
  by apply reduced_fit.
Qed.

Lemma load_le_inv w m p v :
  bytes_ok m -> load_le w m p = Some v ->
  load_bytes m p w = Some (le_bytes (Z.to_nat w) v) /\ fits (8 * w) v /\ 0 <= w.
Proof.
  intros Hm. unfold load_le. destruct (load_bytes m p w) as [bs|] eqn:Hbs; [|done].
  intros [= <-]. pose proof (load_bytes_ok _ _ _ _ Hm Hbs) as Hok.
  apply load_bytes_length in Hbs as Hl. pose proof (blen_nonneg bs).
  subst w. unfold blen. rewrite Nat2Z.id, le_bytes_value by done.
  pose proof (le_value_range bs Hok). unfold fits, blen in *.
  rewrite Z.pow_mul_r by lia. done.
Qed.

Lemma load_bytes_concat m p n1 n2 b1 b2 :
  load_bytes m p n1 = Some b1 -> load_bytes m (p + n1) n2 = Some b2 ->
  load_bytes m p (n1 + n2) = Some (b1 ++ b2).
Proof.
  intros (pre & post & -> & -> & ->)%load_bytes_inv H2.
  apply load_bytes_inv in H2 as (pre' & post' & Heq & Hp & ->).
  rewrite app_assoc in Heq.
  apply app_inj_1 in Heq as [<- ->];
    [|unfold blen in Hp; rewrite length_app in *; lia].
  rewrite (app_assoc b1). apply load_bytes_app; [done|by rewrite blen_app].
Qed.

Lemma encode_decode l m p vs :
  bytes_ok m -> 0 <= p <= blen m -> decode l m p = Some vs ->
  load_bytes m p (sizeof l) = Some (encode l vs) /\ values_fit l vs.
Proof.
  intros Hm. revert p vs. induction l as [|[n w] l IH]; intros p vs Hp; cbn [decode].
  { intros [= <-]. split; [|constructor]. unfold load_bytes, sizeof. cbn [foldr].
    by rewrite decide_True by lia. }
  destruct (load_le w m p) as [v|] eqn:Hv; [|done]. rewrite bind_some.
  apply load_le_inv in Hv as (Hb & Hfit & Hw); [|done].
  destruct (decode l m (p + w)) as [vs'|] eqn:Hvs; [|done]. rewrite bind_some. intros [= <-].
  apply IH in Hvs as [Hrest Hfits].
  - split; [|by constructor]. rewrite sizeof_cons. cbn [encode]. by apply load_bytes_concat.
  - apply load_bytes_inv in Hb as (a & b & -> & -> & _).
    rewrite !blen_app, blen_le_bytes. pose proof (blen_nonneg a). pose proof (blen_nonneg b). lia.
Qed.

(** Reading one member is reading the structure and taking the member. *)
Lemma read_member_decode l m p vs name v :
  decode l m p = Some vs -> member_value l vs name = Some v -> read_member l m p name = Some v.
Proof.
  unfold read_member. revert p vs. induction l as [|[n w] l IH]; intros p vs; [by intros [= <-]|].
  cbn [decode offsetof width_of]. destruct (load_le w m p) as [v'|] eqn:Hv; [|done].
  rewrite bind_some. destruct (decode l m (p + w)) as [vs'|] eqn:Hvs; [|done].
  rewrite bind_some. intros [= <-]. cbn [member_value].
  destruct (decide (n = name)).
  - intros [= ->]. rewrite !bind_some. by rewrite Z.add_0_r.
  - intros Hname. specialize (IH _ _ Hvs Hname).
    destruct (offsetof l name) as [o|]; [|done]. rewrite !bind_some in IH |- *.
    destruct (width_of l name) as [w'|]; [|done]. rewrite !bind_some in IH |- *.
    by rewrite Z.add_assoc.
Qed.

(** What the members of the structure at [p] are, by name. *)
Definition members_at (l : layout) (m : bytes) (p : Z) (fields : list (string * Z)) : Prop :=
  Forall (fun f => read_member l m p f.1 = Some f.2) fields.

Lemma members_decode l m p vs fields :
  decode l m p = Some vs -> Forall (fun f => member_value l vs f.1 = Some f.2) fields ->
  members_at l m p fields.
Proof.
  intros Hd Hf. eapply Forall_impl; [exact Hf|]. intros f. by apply read_member_decode.
Qed.

Lemma wire_layouts_wf : Forall layout_wf wire_layouts.
Proof. by apply (bool_decide_unpack _); vm_compute. Qed.

(** The wire structures round trip: for every packed structure of the
    headers, values that fit its members are read back unchanged from the bytes
    written for them, as a whole and member by member, anywhere in memory; and
    reading a structure from any bytes and writing it again gives those bytes. *)
Theorem wire_structs_roundtrip l :
  l ∈ wire_layouts ->
  (forall vs pre post, values_fit l vs ->
     blen (encode l vs) = sizeof l /\
     decode l (pre ++ encode l vs ++ post) (blen pre) = Some vs /\
     forall name v, member_value l vs name = Some v ->
       read_member l (pre ++ encode l vs ++ post) (blen pre) name = Some v) /\
  (forall m p vs, bytes_ok m -> 0 <= p <= blen m -> decode l m p = Some vs ->
     load_bytes m p (sizeof l) = Some (encode l vs) /\ values_fit l vs).
Proof.
  intros Hl. pose proof (proj1 (Forall_forall _ _) wire_layouts_wf l Hl) as Hwf. split.
  - intros vs pre post Hvs. split; [by apply blen_encode|].
    split; [by apply decode_encode|]. intros name v. by apply read_member_decode, decode_encode.
  - intros m p vs. apply encode_decode.
Qed.

Lemma wire_structs_roundtrip_witness :
  decode atarix_mailbox_header_v1_layout
    ([7] ++ encode atarix_mailbox_header_v1_layout [0x58424D41; 1; 0; 5; 0] ++ []) 1 =
  Some [0x58424D41; 1; 0; 5; 0].
Proof.
  refine (proj1 (proj2 (proj1 (wire_structs_roundtrip atarix_mailbox_header_v1_layout _)
    [0x58424D41; 1; 0; 5; 0] [7] [] _))); [left|].
  unfold values_fit, atarix_mailbox_header_v1_layout.
  repeat (apply Forall2_cons; split; [split; vm_compute; (congruence || reflexivity)|]).
  constructor.
Defined.
