(* ===== verification/Ring.v ===== *)
(** * Privilege rings

    [include/atarix/rings.h], [include/atarix/ring.h] and [src/ring/ring.c]:
    the ring numbers and their wire encoding, and the access decision between
    two rings. A C enumeration value is an integer; the validity tests of the
    code are what restricts it. *)

From S2P Require Import Prelude.

(** ** rings.h *)

Definition ATARIX_RING_SUPERVISOR : Z := -2.
Definition ATARIX_RING_FABRIC : Z := -1.
Definition ATARIX_RING_KERNEL : Z := 0.
Definition ATARIX_RING_DRIVER : Z := 1.
Definition ATARIX_RING_SERVICE : Z := 2.
Definition ATARIX_RING_APPLICATION : Z := 3.
Definition ATARIX_RING_QUARANTINE : Z := 4.

Definition ATARIX_RING_WIRE_SUPERVISOR : Z := 0xFFFE.
Definition ATARIX_RING_WIRE_FABRIC : Z := 0xFFFF.
Definition ATARIX_RING_WIRE_KERNEL : Z := 0x0000.
Definition ATARIX_RING_WIRE_DRIVER : Z := 0x0001.
Definition ATARIX_RING_WIRE_SERVICE : Z := 0x0002.
Definition ATARIX_RING_WIRE_APPLICATION : Z := 0x0003.
Definition ATARIX_RING_WIRE_QUARANTINE : Z := 0x0004.

Definition atarix_ring_to_wire (ring : Z) : Z :=
  if ring =? ATARIX_RING_SUPERVISOR then ATARIX_RING_WIRE_SUPERVISOR
  else if ring =? ATARIX_RING_FABRIC then ATARIX_RING_WIRE_FABRIC
  else if ring =? ATARIX_RING_KERNEL then ATARIX_RING_WIRE_KERNEL
  else if ring =? ATARIX_RING_DRIVER then ATARIX_RING_WIRE_DRIVER
  else if ring =? ATARIX_RING_SERVICE then ATARIX_RING_WIRE_SERVICE
  else if ring =? ATARIX_RING_APPLICATION then ATARIX_RING_WIRE_APPLICATION
  else if ring =? ATARIX_RING_QUARANTINE then ATARIX_RING_WIRE_QUARANTINE
  else ATARIX_RING_WIRE_APPLICATION.

(** ** ring.h *)

Definition ATARIX_RING_OPERATION_OBSERVE : Z := 0.
Definition ATARIX_RING_OPERATION_REQUEST : Z := 1.
Definition ATARIX_RING_OPERATION_MANAGE : Z := 2.
Definition ATARIX_RING_OPERATION_QUARANTINE : Z := 3.
Definition ATARIX_RING_OPERATION_RECOVER : Z := 4.

Inductive atarix_ring_status_t : Type :=
| ATARIX_RING_STATUS_ALLOW
| ATARIX_RING_STATUS_DENY
| ATARIX_RING_STATUS_INVALID_RING
| ATARIX_RING_STATUS_INVALID_OPERATION.

#[export] Instance atarix_ring_status_eq_dec : EqDecision atarix_ring_status_t.
Proof. solve_decision. Defined.

(** ** ring.c *)

Definition atarix_ring_is_valid (ring : Z) : bool :=
  (ATARIX_RING_SUPERVISOR <=? ring) && (ring <=? ATARIX_RING_QUARANTINE).

Definition atarix_ring_operation_is_valid (operation : Z) : bool :=
  (ATARIX_RING_OPERATION_OBSERVE <=? operation) &&
  (operation <=? ATARIX_RING_OPERATION_RECOVER).

Definition atarix_ring_can_access (requester target operation : Z)
  : atarix_ring_status_t :=
  if negb (atarix_ring_is_valid requester) || negb (atarix_ring_is_valid target)
  then ATARIX_RING_STATUS_INVALID_RING
  else if negb (atarix_ring_operation_is_valid operation)
  then ATARIX_RING_STATUS_INVALID_OPERATION
  else if requester =? ATARIX_RING_QUARANTINE then ATARIX_RING_STATUS_DENY
  else if target =? ATARIX_RING_QUARANTINE
  then if requester =? ATARIX_RING_SUPERVISOR
       then ATARIX_RING_STATUS_ALLOW else ATARIX_RING_STATUS_DENY
  else if requester =? target then ATARIX_RING_STATUS_ALLOW
  else if target <? requester then ATARIX_RING_STATUS_DENY
  else if (operation =? ATARIX_RING_OPERATION_MANAGE) ||
          (operation =? ATARIX_RING_OPERATION_QUARANTINE) ||
          (operation =? ATARIX_RING_OPERATION_RECOVER)
  then if requester =? ATARIX_RING_SUPERVISOR
       then ATARIX_RING_STATUS_ALLOW else ATARIX_RING_STATUS_DENY
  else ATARIX_RING_STATUS_ALLOW.

(** ** What the decision means *)

Abbreviation ring_grants requester target operation :=
  (atarix_ring_can_access requester target operation = ATARIX_RING_STATUS_ALLOW).

(** The rings that take part in the hierarchy. *)
Definition ring_active (ring : Z) : Prop :=
  ATARIX_RING_SUPERVISOR <= ring < ATARIX_RING_QUARANTINE.

(** The operations that change another ring's state. *)
Definition ring_operation_intrusive (operation : Z) : bool :=
  (operation =? ATARIX_RING_OPERATION_MANAGE) ||
  (operation =? ATARIX_RING_OPERATION_QUARANTINE) ||
  (operation =? ATARIX_RING_OPERATION_RECOVER).

(** Unfolds the ring constants and splits on every comparison. *)
Ltac ring_cases :=
  unfold atarix_ring_can_access, atarix_ring_is_valid,
    atarix_ring_operation_is_valid, ring_operation_intrusive, ring_active,
    ATARIX_RING_SUPERVISOR, ATARIX_RING_FABRIC, ATARIX_RING_KERNEL,
    ATARIX_RING_DRIVER, ATARIX_RING_SERVICE, ATARIX_RING_APPLICATION,
    ATARIX_RING_QUARANTINE, ATARIX_RING_OPERATION_OBSERVE,
    ATARIX_RING_OPERATION_REQUEST, ATARIX_RING_OPERATION_MANAGE,
    ATARIX_RING_OPERATION_QUARANTINE, ATARIX_RING_OPERATION_RECOVER in *.

Ltac ring_lia := ring_cases; repeat case_match; (done || lia || naive_solver lia).

(** The decision table in closed form: who may reach whom. *)
Lemma ring_grants_iff requester target operation :
  ring_grants requester target operation <->
  ring_active requester /\ atarix_ring_is_valid target = true /\
  atarix_ring_operation_is_valid operation = true /\
  (requester = ATARIX_RING_SUPERVISOR \/ requester = target \/
   (requester < target < ATARIX_RING_QUARANTINE /\
    ring_operation_intrusive operation = false)).
Proof. ring_cases. repeat case_match; split; intros; try done; lia. Qed.

(** C40. Nothing is reached upwards: an allowed access goes to the same or a
    less privileged ring; an operation that changes another ring's state comes
    from the supervisor; the quarantine ring reaches nothing and is reached by
    the supervisor alone. *)
Theorem ring_access_hierarchy requester target operation :
  ring_grants requester target operation ->
  requester <= target /\ requester <> ATARIX_RING_QUARANTINE /\
  (target = ATARIX_RING_QUARANTINE -> requester = ATARIX_RING_SUPERVISOR) /\
  (ring_operation_intrusive operation = true -> requester <> target ->
   requester = ATARIX_RING_SUPERVISOR).
Proof.
  rewrite ring_grants_iff. ring_cases. intros. split_and!; intros; try lia.
  all: destruct_and!; destruct_or!; try lia; destruct_and!; congruence.
Qed.

Lemma ring_access_hierarchy_witness :
  ring_grants ATARIX_RING_DRIVER ATARIX_RING_SERVICE ATARIX_RING_OPERATION_REQUEST /\
  ATARIX_RING_DRIVER <= ATARIX_RING_SERVICE.
Proof.
  split; [reflexivity|].
  apply (ring_access_hierarchy ATARIX_RING_DRIVER ATARIX_RING_SERVICE
           ATARIX_RING_OPERATION_REQUEST). reflexivity.
Defined.

(** For every valid operation the access relation is a partial order on
    the active rings: reflexive, antisymmetric and transitive, so no chain of
    allowed accesses goes round in a circle or reaches what the first ring
    could not reach itself. *)
Theorem ring_access_partial_order operation :
  atarix_ring_operation_is_valid operation = true ->
  (forall r, ring_active r -> ring_grants r r operation) /\
  (forall r s, ring_grants r s operation -> ring_grants s r operation -> r = s) /\
  (forall r s t, ring_grants r s operation -> ring_grants s t operation ->
     ring_grants r t operation).
Proof.
  intros Hop. split_and!.
  - intros r Hr. apply ring_grants_iff. split_and!; try done; [|by auto].
    revert Hr. ring_cases. lia.
  - intros r s H1%ring_grants_iff H2%ring_grants_iff. revert H1 H2. ring_cases. lia.
  - intros r s t H1%ring_grants_iff H2%ring_grants_iff. apply ring_grants_iff.
    destruct H1 as (Hr & _ & _ & H1), H2 as (Hs & Ht & _ & H2).
    split; [done|]. split; [done|]. split; [done|].
    destruct H1 as [|[|[]]], H2 as [|[|[]]]; subst; auto.
    + exfalso. revert Hr. ring_cases. lia.
    + right; right. split; [lia|done].
Qed.

Lemma ring_access_partial_order_witness :
  atarix_ring_operation_is_valid ATARIX_RING_OPERATION_MANAGE = true /\
  ring_grants ATARIX_RING_KERNEL ATARIX_RING_KERNEL ATARIX_RING_OPERATION_MANAGE.
Proof.
  split; [reflexivity|].
  apply (ring_access_partial_order ATARIX_RING_OPERATION_MANAGE); [reflexivity|].
  unfold ring_active, ATARIX_RING_KERNEL, ATARIX_RING_SUPERVISOR, ATARIX_RING_QUARANTINE.
  lia.
Defined.

(** The wire encoding loses nothing and fits 16 bits. *)
Lemma atarix_ring_to_wire_fits ring : fits 16 (atarix_ring_to_wire ring).
Proof. unfold atarix_ring_to_wire. repeat case_match; by compute. Qed.

Lemma atarix_ring_to_wire_inj r s :
  atarix_ring_is_valid r = true -> atarix_ring_is_valid s = true ->
  atarix_ring_to_wire r = atarix_ring_to_wire s -> r = s.
Proof.
  intros Hr Hs. unfold atarix_ring_to_wire.
  repeat case_match; rewrite ?Z.eqb_eq, ?Z.eqb_neq in *; intros; subst; try done;
    exfalso; ring_cases; lia.
Qed.

(** Which rings have a given wire value. *)
Lemma atarix_ring_to_wire_cases ring :
  (ring = ATARIX_RING_SUPERVISOR /\ atarix_ring_to_wire ring = ATARIX_RING_WIRE_SUPERVISOR) \/
  (ring = ATARIX_RING_FABRIC /\ atarix_ring_to_wire ring = ATARIX_RING_WIRE_FABRIC) \/
  (ring <> ATARIX_RING_SUPERVISOR /\ ring <> ATARIX_RING_FABRIC /\
   0 <= atarix_ring_to_wire ring <= 4).
Proof.
  unfold atarix_ring_to_wire.
  repeat case_match; rewrite ?Z.eqb_eq, ?Z.eqb_neq in *; subst; auto;
    right; right; split_and!; by try compute.
Qed.
