(* ===== verification/Mailbox.v ===== *)
(** * Mailbox transport

    [include/atarix/mailbox.h] and [src/mailbox/mailbox.c]: message headers
    with a CRC-32 over the payload, the receive window of sequence numbers, and
    the ring check of a message. A pointer argument is an [option] ([None] is
    NULL); the outer [option] of a result is the memory fault of an
    out-of-range read. *)

From S2P Require Import Prelude Crc Ring.

(** ** mailbox.h *)

Definition ATARIX_MAILBOX_MAGIC_V1 : Z := 0x58424D41.
Definition ATARIX_MAILBOX_HEADER_SIZE_V1 : Z := 16.
Definition ATARIX_MAILBOX_MAX_PAYLOAD_V1 : Z := 4096.

Inductive atarix_mailbox_status_t : Type :=
| ATARIX_MAILBOX_STATUS_OK
| ATARIX_MAILBOX_STATUS_NULL
| ATARIX_MAILBOX_STATUS_INVALID_HEADER
| ATARIX_MAILBOX_STATUS_INVALID_LENGTH
| ATARIX_MAILBOX_STATUS_CRC_MISMATCH
| ATARIX_MAILBOX_STATUS_SEQUENCE_ERROR
| ATARIX_MAILBOX_STATUS_DUPLICATE
| ATARIX_MAILBOX_STATUS_OUT_OF_ORDER
| ATARIX_MAILBOX_STATUS_UNKNOWN_TYPE
| ATARIX_MAILBOX_STATUS_RING_DENIED
| ATARIX_MAILBOX_STATUS_POLICY_DENIED
| ATARIX_MAILBOX_STATUS_CAPABILITY_DENIED
| ATARIX_MAILBOX_STATUS_QUARANTINED
| ATARIX_MAILBOX_STATUS_BUSY
| ATARIX_MAILBOX_STATUS_TIMEOUT.

#[export] Instance atarix_mailbox_status_eq_dec : EqDecision atarix_mailbox_status_t.
Proof. solve_decision. Defined.

Definition ATARIX_MAILBOX_MESSAGE_INVALID : Z := 0x0000.
Definition ATARIX_MAILBOX_MESSAGE_PING : Z := 0x0001.
Definition ATARIX_MAILBOX_MESSAGE_PONG : Z := 0x0002.
Definition ATARIX_MAILBOX_MESSAGE_VERSION_QUERY : Z := 0x0003.
Definition ATARIX_MAILBOX_MESSAGE_VERSION_REPLY : Z := 0x0004.
Definition ATARIX_MAILBOX_MESSAGE_STATUS_QUERY : Z := 0x0005.
Definition ATARIX_MAILBOX_MESSAGE_STATUS_REPLY : Z := 0x0006.
Definition ATARIX_MAILBOX_MESSAGE_READ_REGISTER : Z := 0x0007.
Definition ATARIX_MAILBOX_MESSAGE_WRITE_REGISTER : Z := 0x0008.
Definition ATARIX_MAILBOX_MESSAGE_RESET_REQUEST : Z := 0x0009.
Definition ATARIX_MAILBOX_MESSAGE_FAULT_REPORT : Z := 0x000A.
Definition ATARIX_MAILBOX_MESSAGE_DISCOVERY_RECORD_PUSH : Z := 0x000B.
Definition ATARIX_MAILBOX_MESSAGE_CAPABILITY_EVALUATE : Z := 0x000C.
Definition ATARIX_MAILBOX_MESSAGE_INDEX_QUERY : Z := 0x0020.
Definition ATARIX_MAILBOX_MESSAGE_INDEX_MUTATE : Z := 0x0021.
Definition ATARIX_MAILBOX_MESSAGE_INDEX_RECOVER : Z := 0x0022.
Definition ATARIX_MAILBOX_MESSAGE_INDEX_STATUS : Z := 0x0023.

Record atarix_mailbox_header_v1_t : Type := MailboxHeader {
  mh_magic : Z;
  mh_type : Z;
  mh_length : Z;
  mh_sequence : Z;
  mh_crc32 : Z
}.

Record atarix_mailbox_sequence_window_t : Type := SequenceWindow {
  last_sequence : Z;
  initialized : Z
}.

(** ** mailbox.c *)

Definition crc32_update_bit (crc : Z) : Z :=
  if negb (crc .& 1 =? 0) then (crc .>> 1) .^ 0xEDB88320 else crc .>> 1.

Definition crc32_update (crc : Z) (data : bytes) (length : Z) : option Z :=
  for_bytes (fun crc b => Nat.iter 8 crc32_update_bit (crc .^ b))
    (Z.to_nat length) data 0 crc.

Definition atarix_mailbox_crc32 (data : option bytes) (length : Z) : option Z :=
  if bool_decide (data = None) && negb (length =? 0) then Some 0
  else crc ← crc32_update 0xFFFFFFFF (default [] data) length;
       Some (crc .^ 0xFFFFFFFF).

Definition atarix_mailbox_message_type_known (type : Z) : bool :=
  (type =? ATARIX_MAILBOX_MESSAGE_PING) ||
  (type =? ATARIX_MAILBOX_MESSAGE_PONG) ||
  (type =? ATARIX_MAILBOX_MESSAGE_VERSION_QUERY) ||
  (type =? ATARIX_MAILBOX_MESSAGE_VERSION_REPLY) ||
  (type =? ATARIX_MAILBOX_MESSAGE_STATUS_QUERY) ||
  (type =? ATARIX_MAILBOX_MESSAGE_STATUS_REPLY) ||
  (type =? ATARIX_MAILBOX_MESSAGE_READ_REGISTER) ||
  (type =? ATARIX_MAILBOX_MESSAGE_WRITE_REGISTER) ||
  (type =? ATARIX_MAILBOX_MESSAGE_RESET_REQUEST) ||
  (type =? ATARIX_MAILBOX_MESSAGE_FAULT_REPORT) ||
  (type =? ATARIX_MAILBOX_MESSAGE_DISCOVERY_RECORD_PUSH) ||
  (type =? ATARIX_MAILBOX_MESSAGE_CAPABILITY_EVALUATE).

(** Returns the status and the header left behind the pointer. *)
Definition atarix_mailbox_build_header (header : option atarix_mailbox_header_v1_t)
    (type sequence : Z) (payload : option bytes) (payload_length : Z)
  : option (atarix_mailbox_status_t * option atarix_mailbox_header_v1_t) :=
  if bool_decide (header = None) ||
     (bool_decide (payload = None) && negb (payload_length =? 0))
  then Some (ATARIX_MAILBOX_STATUS_NULL, header)
  else if negb (atarix_mailbox_message_type_known type)
  then Some (ATARIX_MAILBOX_STATUS_UNKNOWN_TYPE, header)
  else if ATARIX_MAILBOX_MAX_PAYLOAD_V1 <? payload_length
  then Some (ATARIX_MAILBOX_STATUS_INVALID_LENGTH, header)
  else
    crc ← atarix_mailbox_crc32 payload payload_length;
    Some (ATARIX_MAILBOX_STATUS_OK,
          Some (MailboxHeader ATARIX_MAILBOX_MAGIC_V1 type payload_length sequence crc)).

Definition atarix_mailbox_validate_header (header : option atarix_mailbox_header_v1_t)
    (payload : option bytes) (payload_length : Z) : option atarix_mailbox_status_t :=
  if bool_decide (payload = None) && negb (payload_length =? 0)
  then Some ATARIX_MAILBOX_STATUS_NULL
  else match header with
  | None => Some ATARIX_MAILBOX_STATUS_NULL
  | Some h =>
    if negb (mh_magic h =? ATARIX_MAILBOX_MAGIC_V1)
    then Some ATARIX_MAILBOX_STATUS_INVALID_HEADER
    else if negb (atarix_mailbox_message_type_known (mh_type h))
    then Some ATARIX_MAILBOX_STATUS_UNKNOWN_TYPE
    else if (ATARIX_MAILBOX_MAX_PAYLOAD_V1 <? mh_length h) ||
            negb (mh_length h =? payload_length)
    then Some ATARIX_MAILBOX_STATUS_INVALID_LENGTH
    else
      crc ← atarix_mailbox_crc32 payload payload_length;
      if negb (crc =? mh_crc32 h) then Some ATARIX_MAILBOX_STATUS_CRC_MISMATCH
      else Some ATARIX_MAILBOX_STATUS_OK
  end.

Definition atarix_mailbox_sequence_accept
    (window : option atarix_mailbox_sequence_window_t) (sequence : Z)
  : atarix_mailbox_status_t * option atarix_mailbox_sequence_window_t :=
  match window with
  | None => (ATARIX_MAILBOX_STATUS_NULL, None)
  | Some w =>
    if initialized w =? 0
    then (ATARIX_MAILBOX_STATUS_OK, Some (SequenceWindow sequence 1))
    else if sequence =? last_sequence w
    then (ATARIX_MAILBOX_STATUS_DUPLICATE, Some w)
    else if sequence <? last_sequence w
    then (ATARIX_MAILBOX_STATUS_OUT_OF_ORDER, Some w)
    else if negb (sequence =? u32 (last_sequence w + 1))
    then (ATARIX_MAILBOX_STATUS_SEQUENCE_ERROR, Some w)
    else (ATARIX_MAILBOX_STATUS_OK, Some (SequenceWindow sequence (initialized w)))
  end.

Definition atarix_mailbox_ring_authorize (source_ring target_ring message_type : Z)
  : atarix_mailbox_status_t :=
  if negb (atarix_mailbox_message_type_known message_type)
  then ATARIX_MAILBOX_STATUS_UNKNOWN_TYPE
  else match atarix_ring_can_access source_ring target_ring
               ATARIX_RING_OPERATION_REQUEST with
  | ATARIX_RING_STATUS_ALLOW => ATARIX_MAILBOX_STATUS_OK
  | _ => ATARIX_MAILBOX_STATUS_RING_DENIED
  end.

(** ** The payload checksum *)

Abbreviation payload_crc := (crc_of poly_iso_hdlc).

Lemma crc32_update_bit_spec crc : crc32_update_bit crc = crc_bit poly_iso_hdlc crc.
Proof.
  unfold crc32_update_bit, crc_bit. rewrite land_1_testbit.
  destruct (Z.testbit crc 0); [done|]. simpl. by rewrite Z.lxor_0_r.
Qed.

(** The mailbox checksum routine is CRC-32/ISO-HDLC of the first [length]
    bytes, for every buffer that holds them. *)
Lemma atarix_mailbox_crc32_spec data length bs :
  load_bytes data 0 length = Some bs ->
  atarix_mailbox_crc32 (Some data) length = Some (payload_crc bs).
Proof.
  intros Hbs. unfold atarix_mailbox_crc32, crc32_update. simpl.
  rewrite (for_bytes_crc poly_iso_hdlc crc32_update_bit _ _ _ bs);
    [done|apply crc32_update_bit_spec|].
  apply load_bytes_length in Hbs as Hl. pose proof (blen_nonneg bs).
  by rewrite Z2Nat.id by lia.
Qed.

(** ** Headers *)

(** The NULL payload is accepted with length zero only and stands for the
    empty payload. *)
Definition payload_at (payload : option bytes) (n : Z) (bs : bytes) : Prop :=
  match payload with
  | Some data => load_bytes data 0 n = Some bs
  | None => n = 0 /\ bs = []
  end.

Lemma payload_at_crc payload n bs :
  payload_at payload n bs -> atarix_mailbox_crc32 payload n = Some (payload_crc bs).
Proof.
  destruct payload as [data|]; [apply atarix_mailbox_crc32_spec|].
  intros [-> ->]. by vm_compute.
Qed.

Lemma payload_at_not_null payload n bs :
  payload_at payload n bs ->
  bool_decide (payload = None) && negb (n =? 0) = false.
Proof. destruct payload; [done|]. by intros [-> _]. Qed.

(** The builder always leaves a header behind a non-NULL pointer, and on success
    it carries the sequence number it was given. *)
Lemma build_header_inv h0 type sequence payload n st o :
  atarix_mailbox_build_header (Some h0) type sequence payload n = Some (st, o) ->
  exists h, o = Some h /\ (st = ATARIX_MAILBOX_STATUS_OK -> mh_sequence h = sequence).
Proof.
  unfold atarix_mailbox_build_header. simpl. intros Hb.
  repeat case_match; try (injection Hb as <- <-; by eexists).
  destruct (atarix_mailbox_crc32 _ _); simpl in Hb; [|done].
  injection Hb as <- <-. by eexists.
Qed.

(** The conditions a header meets when it is accepted for payload [bs]. *)
Definition header_matches (h : atarix_mailbox_header_v1_t) (bs : bytes) : Prop :=
  mh_magic h = ATARIX_MAILBOX_MAGIC_V1 /\
  atarix_mailbox_message_type_known (mh_type h) = true /\
  mh_length h = blen bs /\ blen bs <= ATARIX_MAILBOX_MAX_PAYLOAD_V1 /\
  mh_crc32 h = payload_crc bs.

Lemma payload_at_blen payload n bs : payload_at payload n bs -> n = blen bs.
Proof.
  destruct payload; [by intros <-%load_bytes_length|]. by intros [-> ->].
Qed.

(** Validation never reads outside the payload and accepts exactly the
    matching headers. *)
Lemma validate_header_iff h payload n bs :
  payload_at payload n bs ->
  exists status,
    atarix_mailbox_validate_header (Some h) payload n = Some status /\
    (status = ATARIX_MAILBOX_STATUS_OK <-> header_matches h bs).
Proof.
  intros Hp. unfold atarix_mailbox_validate_header, header_matches.
  rewrite (payload_at_not_null _ _ _ Hp), (payload_at_crc _ _ _ Hp).
  apply payload_at_blen in Hp as ->. simpl.
  repeat case_match; eexists; (split; [done|]); split; intros Hs; try done;
    destruct_and?; rewrite ?negb_true_iff, ?negb_false_iff, ?orb_true_iff, ?orb_false_iff,
      ?Z.eqb_eq, ?Z.eqb_neq in *; try congruence; try lia.
  split_and!; try done; try lia; by symmetry.
Qed.

(** C28. Building and validating agree: for every known type and every payload
    of at most 4096 bytes the builder succeeds, and the header it writes is
    accepted with that payload. Unknown types and longer payloads are refused
    and leave the header as it was. *)
Theorem mailbox_build_validate old type sequence payload n bs :
  payload_at payload n bs ->
  exists status h,
    atarix_mailbox_build_header (Some old) type sequence payload n =
      Some (status, Some h) /\
    (atarix_mailbox_message_type_known type = true /\
     n <= ATARIX_MAILBOX_MAX_PAYLOAD_V1 ->
     status = ATARIX_MAILBOX_STATUS_OK /\ mh_type h = type /\
     mh_sequence h = sequence /\
     atarix_mailbox_validate_header (Some h) payload n = Some ATARIX_MAILBOX_STATUS_OK) /\
    (atarix_mailbox_message_type_known type = false ->
     status = ATARIX_MAILBOX_STATUS_UNKNOWN_TYPE /\ h = old) /\
    (atarix_mailbox_message_type_known type = true ->
     ATARIX_MAILBOX_MAX_PAYLOAD_V1 < n ->
     status = ATARIX_MAILBOX_STATUS_INVALID_LENGTH /\ h = old).
Proof.
  intros Hp. unfold atarix_mailbox_build_header.
  rewrite (payload_at_not_null _ _ _ Hp), (payload_at_crc _ _ _ Hp). simpl.
  destruct (atarix_mailbox_message_type_known type) eqn:Ht; simpl;
    [|by eexists _, _; split_and!; intros; destruct_and?].
  destruct (Z.ltb_spec ATARIX_MAILBOX_MAX_PAYLOAD_V1 n);
    [eexists _, _; split_and!; intros; destruct_and?; (done || lia)|].
  eexists _, _. split_and!; [done| |done|lia]. intros _. split_and!; try done.
  edestruct validate_header_iff as (status & -> & Hok); [done|].
  f_equal. apply Hok. rewrite (payload_at_blen _ _ _ Hp) in *. by split_and!.
Qed.

Definition null_header : atarix_mailbox_header_v1_t := MailboxHeader 0 0 0 0 0.

Lemma mailbox_build_validate_witness :
  exists status h,
    atarix_mailbox_build_header (Some null_header) ATARIX_MAILBOX_MESSAGE_PING 7
      (Some [1; 2; 3]) 3 = Some (status, Some h) /\
    atarix_mailbox_validate_header (Some h) (Some [1; 2; 3]) 3 =
      Some ATARIX_MAILBOX_STATUS_OK.
Proof.
  destruct (mailbox_build_validate null_header ATARIX_MAILBOX_MESSAGE_PING 7
    (Some [1; 2; 3]) 3 [1; 2; 3]) as (status & h & Hb & Hok & _); [reflexivity|].
  exists status, h. split; [exact Hb|]. apply Hok. split; [reflexivity|].
  unfold ATARIX_MAILBOX_MAX_PAYLOAD_V1. lia.
Defined.

(** C29. Corruption of at most four consecutive payload bytes never goes
    unnoticed: if a header is accepted with a payload, the same header with
    the altered payload is refused with CRC_MISMATCH. *)
Theorem mailbox_corruption_detected h pre xs ys post payload payload' n :
  payload_at payload n (pre ++ xs ++ post) ->
  payload_at payload' n (pre ++ ys ++ post) ->
  bytes_ok (pre ++ xs ++ post) -> bytes_ok ys ->
  (length xs <= 4)%nat -> xs <> ys ->
  atarix_mailbox_validate_header (Some h) payload n = Some ATARIX_MAILBOX_STATUS_OK ->
  atarix_mailbox_validate_header (Some h) payload' n =
    Some ATARIX_MAILBOX_STATUS_CRC_MISMATCH.
Proof.
  intros Hp Hp' Hok Hys H4 Hne Hv.
  assert (Hl : length xs = length ys).
  { apply payload_at_blen in Hp, Hp'. subst n. rewrite !blen_app in Hp'.
    unfold blen in Hp'. lia. }
  apply Forall_app in Hok as [Hpre Hok]. apply Forall_app in Hok as [Hxs Hpost].
  destruct (validate_header_iff h payload n _ Hp) as (status & Hs & Hiff).
  rewrite Hv in Hs. injection Hs as <-.
  destruct (proj1 Hiff eq_refl) as (Hm & Ht & Hlen & Hmax & Hcrc).
  pose proof (checksum_burst (f := payload_crc) pre xs ys post
    Hpre Hxs Hys Hpost Hl H4 Hne) as Hburst.
  pose proof (payload_at_blen _ _ _ Hp) as Hn.
  unfold atarix_mailbox_validate_header.
  rewrite (payload_at_not_null _ _ _ Hp'), (payload_at_crc _ _ _ Hp').
  cbn [mbind option_bind]. rewrite Hm, Z.eqb_refl, Ht, Hlen, Hcrc, Hn, Z.eqb_refl. simpl.
  rewrite (proj2 (Z.ltb_ge _ _)) by lia. simpl.
  rewrite (proj2 (Z.eqb_neq _ _)); [done|]. congruence.
Qed.

Lemma mailbox_corruption_detected_witness :
  atarix_mailbox_validate_header
    (Some (MailboxHeader ATARIX_MAILBOX_MAGIC_V1 1 3 0 0x55BC801D)) (Some [1; 9; 3]) 3 =
  Some ATARIX_MAILBOX_STATUS_CRC_MISMATCH.
Proof.
  apply (mailbox_corruption_detected _ [1] [2] [9] [3] (Some [1; 2; 3])).
  - reflexivity.
  - reflexivity.
  - by repeat constructor.
  - by repeat constructor.
  - simpl. lia.
  - intros H. discriminate H.
  - vm_compute. reflexivity.
Defined.

(** ** Sequence windows *)

(** The receiver over a whole stream of sequence numbers: the final window and
    the numbers it accepted, in the order they were accepted. *)
Fixpoint window_run (w : atarix_mailbox_sequence_window_t) (seqs : list Z)
  : atarix_mailbox_sequence_window_t * list Z :=
  match seqs with
  | [] => (w, [])
  | s :: rest =>
    match atarix_mailbox_sequence_accept (Some w) s with
    | (ATARIX_MAILBOX_STATUS_OK, Some w') =>
      let (w'', acc) := window_run w' rest in (w'', s :: acc)
    | (_, Some w') => window_run w' rest
    | (_, None) => (w, [])
    end
  end.

Lemma sequence_accept_window w s st o :
  atarix_mailbox_sequence_accept (Some w) s = (st, o) -> is_Some o.
Proof. unfold atarix_mailbox_sequence_accept. intros. by repeat case_match; simplify_eq. Qed.

Ltac refused := right; split; [lia|eexists; split; [|reflexivity]; done].

(** One step of an initialized window. *)
Lemma sequence_accept_initialized w s :
  initialized w <> 0 -> fits 32 s -> fits 32 (last_sequence w) ->
  (s = last_sequence w + 1 /\
   atarix_mailbox_sequence_accept (Some w) s =
     (ATARIX_MAILBOX_STATUS_OK, Some (SequenceWindow s (initialized w)))) \/
  (s <> last_sequence w + 1 /\
   exists status, status <> ATARIX_MAILBOX_STATUS_OK /\
     atarix_mailbox_sequence_accept (Some w) s = (status, Some w)).
Proof.
  unfold fits, atarix_mailbox_sequence_accept, uint. intros Hi Hs Hl.
  rewrite (proj2 (Z.eqb_neq _ _) Hi).
  destruct (Z.eqb_spec s (last_sequence w)); [refused|].
  destruct (Z.ltb_spec s (last_sequence w)); [refused|].
  rewrite Z.mod_small by lia.
  destruct (Z.eqb_spec s (last_sequence w + 1)); simpl; [by left|refused].
Qed.

Lemma window_run_initialized w seqs :
  initialized w <> 0 -> fits 32 (last_sequence w) -> Forall (fits 32) seqs ->
  exists k, snd (window_run w seqs) = seqZ (last_sequence w + 1) k /\
    0 <= k /\ last_sequence w + k < 2 ^ 32 /\
    fst (window_run w seqs) = SequenceWindow (last_sequence w + k) (initialized w).
Proof.
  intros Hi Hl Hs. revert w Hi Hl. induction Hs as [|s seqs Hs _ IH]; intros w Hi Hl.
  { exists 0. unfold fits in Hl. rewrite Z.add_0_r. split_and!; [done|lia|lia|by destruct w]. }
  cbn [window_run]. destruct (sequence_accept_initialized w s Hi Hs Hl)
    as [[Heq ->]|(_ & status & Hne & ->)].
  - edestruct (IH (SequenceWindow s (initialized w))) as (k & Hk & ? & ? & Hw); [done..|].
    simpl in *. exists (1 + k). rewrite Z.add_assoc, <-Heq.
    destruct (window_run _ seqs) as [w' acc]. simpl in *. subst acc w'.
    split_and!; [|lia..|done]. rewrite (seqZ_cons s) by lia. by f_equal; f_equal; lia.
  - by destruct status; try done; apply IH.
Qed.

(** The receive window delivers in order and at most once: whatever
    32-bit sequence numbers arrive, the accepted ones are the consecutive run
    that starts at the first arrival and stays below 2^32; and a stream that
    arrives in order is accepted whole. *)
Theorem sequence_window_in_order s seqs :
  fits 32 s -> Forall (fits 32) seqs ->
  (exists k, snd (window_run (SequenceWindow 0 0) (s :: seqs)) = seqZ s k /\
     1 <= k /\ s + k <= 2 ^ 32 /\
     NoDup (snd (window_run (SequenceWindow 0 0) (s :: seqs)))) /\
  (forall k, 1 <= k -> s + k <= 2 ^ 32 ->
     snd (window_run (SequenceWindow 0 0) (seqZ s k)) = seqZ s k).
Proof.
  intros Hs Hseqs. split.
  - simpl. destruct (window_run_initialized (SequenceWindow s 1) seqs) as (k & Hk & ? & ? & _);
      [done..|]. destruct (window_run _ seqs) as [w acc]. simpl in *. subst acc.
    assert (Hc : s :: seqZ (s + 1) k = seqZ s (1 + k)).
    { rewrite (seqZ_cons s (1 + k)) by lia. by f_equal; f_equal; lia. }
    exists (1 + k). rewrite Hc. split_and!; [done|lia|lia|apply NoDup_seqZ].
  - intros k Hk Hb. rewrite (seqZ_cons s) by lia. simpl.
    cut (forall n w, initialized w <> 0 -> fits 32 (last_sequence w) ->
      last_sequence w + Z.of_nat n < 2 ^ 32 ->
      snd (window_run w (seqZ (last_sequence w + 1) (Z.of_nat n))) =
      seqZ (last_sequence w + 1) (Z.of_nat n)).
    { intros Hn. specialize (Hn (Z.to_nat (k - 1)) (SequenceWindow s 1)). simpl in Hn.
      rewrite Z2Nat.id in Hn by lia. rewrite <-Z.add_1_r.
      replace (Z.pred k) with (k - 1) by lia.
      destruct (window_run _ _). simpl in *. f_equal. apply Hn; [done|done|lia]. }
    clear. unfold fits. induction n as [|n IH]; intros w Hi Hl Hb; [done|].
    rewrite (seqZ_cons (last_sequence w + 1)) by lia. cbn [window_run].
    destruct (sequence_accept_initialized w (last_sequence w + 1)) as [[_ ->]|[? _]];
      [done|unfold fits; lia|done| |lia].
    specialize (IH (SequenceWindow (last_sequence w + 1) (initialized w))). simpl in IH.
    replace (Z.pred (Z.of_nat (S n))) with (Z.of_nat n) by lia. rewrite <-Z.add_1_r.
    destruct (window_run _ _). simpl in *. f_equal. apply IH; [done|lia|lia].
Qed.

Lemma sequence_window_in_order_witness :
  fits 32 5 /\ Forall (fits 32) [5; 7; 6; 6; 7] /\
  exists k, snd (window_run (SequenceWindow 0 0) [5; 5; 7; 6; 6; 7]) = seqZ 5 k.
Proof.
  split; [unfold fits; lia|]. split; [repeat constructor; unfold fits; lia|].
  destruct (sequence_window_in_order 5 [5; 7; 6; 6; 7]) as [(k & Hk & _) _];
    [unfold fits; lia|repeat constructor; unfold fits; lia|].
  by exists k.
Defined.

(** The window has no wraparound: once 2^32 - 1 has been accepted every
    further 32-bit sequence number, the successor 0 included, is refused as
    duplicate or out of order and the window never moves again. *)
Theorem sequence_window_exhausted w seqs :
  initialized w <> 0 -> last_sequence w = UINT32_MAX -> Forall (fits 32) seqs ->
  window_run w seqs = (w, []) /\
  Forall (fun s => (atarix_mailbox_sequence_accept (Some w) s).1 =
    if s =? UINT32_MAX then ATARIX_MAILBOX_STATUS_DUPLICATE
    else ATARIX_MAILBOX_STATUS_OUT_OF_ORDER) seqs.
Proof.
  intros Hi Hl Hs. induction Hs as [|s seqs Hs _ [IHr IHf]]; [done|].
  unfold fits in Hs. split; [|constructor; [|done]].
  - cbn [window_run]. destruct (sequence_accept_initialized w s)
      as [[Heq _]|(_ & status & Hne & ->)];
      [done|done|rewrite Hl; done|rewrite Hl in Heq; unfold UINT32_MAX in Heq; lia|].
    by destruct status.
  - unfold atarix_mailbox_sequence_accept. rewrite (proj2 (Z.eqb_neq _ _) Hi), Hl.
    destruct (Z.eqb_spec s UINT32_MAX); [done|].
    rewrite (proj2 (Z.ltb_lt _ _)); [done|]. unfold UINT32_MAX in *. lia.
Qed.

Lemma sequence_window_exhausted_witness :
  window_run (SequenceWindow UINT32_MAX 1) [0; 1; UINT32_MAX] =
  (SequenceWindow UINT32_MAX 1, []).
Proof.
  apply (sequence_window_exhausted (SequenceWindow UINT32_MAX 1) [0; 1; UINT32_MAX]).
  - discriminate.
  - reflexivity.
  - repeat constructor; unfold fits, UINT32_MAX; lia.
Defined.

(** ** Ring authorization and message types *)

(** A message is authorized exactly when its type is known and its source
    ring may send requests to its target ring: no message goes upwards, none
    leaves quarantine, and only the supervisor sends into quarantine. *)
Theorem mailbox_ring_authorize_iff source target type :
  atarix_mailbox_ring_authorize source target type = ATARIX_MAILBOX_STATUS_OK <->
  atarix_mailbox_message_type_known type = true /\
  ring_active source /\ atarix_ring_is_valid target = true /\
  source <= target /\
  (target = ATARIX_RING_QUARANTINE -> source = ATARIX_RING_SUPERVISOR).
Proof.
  unfold atarix_mailbox_ring_authorize.
  destruct (atarix_mailbox_message_type_known type); simpl; [|by split; intros; destruct_and?].
  transitivity (ring_grants source target ATARIX_RING_OPERATION_REQUEST);
    [by destruct (atarix_ring_can_access _ _ _)|].
  rewrite ring_grants_iff. ring_cases. split; intros; split_and!; lia.
Qed.

(** The four lookup-acceleration messages the header enumerates are unknown
    to the code: building, validating and authorizing them all fail. *)
Theorem mailbox_index_messages_unknown type header h payload n source target :
  ATARIX_MAILBOX_MESSAGE_INDEX_QUERY <= type <= ATARIX_MAILBOX_MESSAGE_INDEX_STATUS ->
  mh_type h = type -> mh_magic h = ATARIX_MAILBOX_MAGIC_V1 ->
  atarix_mailbox_build_header (Some header) type 0 (Some payload) n =
    Some (ATARIX_MAILBOX_STATUS_UNKNOWN_TYPE, Some header) /\
  atarix_mailbox_validate_header (Some h) (Some payload) n =
    Some ATARIX_MAILBOX_STATUS_UNKNOWN_TYPE /\
  atarix_mailbox_ring_authorize source target type = ATARIX_MAILBOX_STATUS_UNKNOWN_TYPE.
Proof.
  unfold ATARIX_MAILBOX_MESSAGE_INDEX_QUERY, ATARIX_MAILBOX_MESSAGE_INDEX_STATUS.
  intros Ht Hh Hm. assert (Hk : atarix_mailbox_message_type_known type = false).
  { assert (type = 0x20 \/ type = 0x21 \/ type = 0x22 \/ type = 0x23) as Hc by lia.
    by destruct Hc as [->|[->|[->| ->]]]. }
  unfold atarix_mailbox_build_header, atarix_mailbox_validate_header,
    atarix_mailbox_ring_authorize. simpl. by rewrite Hh, Hm, Hk.
Qed.

Lemma mailbox_index_messages_unknown_witness :
  atarix_mailbox_ring_authorize ATARIX_RING_SUPERVISOR ATARIX_RING_KERNEL
    ATARIX_MAILBOX_MESSAGE_INDEX_QUERY = ATARIX_MAILBOX_STATUS_UNKNOWN_TYPE.
Proof.
  apply (mailbox_index_messages_unknown ATARIX_MAILBOX_MESSAGE_INDEX_QUERY null_header
    (MailboxHeader ATARIX_MAILBOX_MAGIC_V1 ATARIX_MAILBOX_MESSAGE_INDEX_QUERY 0 0 0) [] 0).
  - unfold ATARIX_MAILBOX_MESSAGE_INDEX_QUERY, ATARIX_MAILBOX_MESSAGE_INDEX_STATUS. lia.
  - reflexivity.
  - reflexivity.
Defined.
