(* ===== verification/Capability.v ===== *)
(** * Capabilities: records, policy evaluation, delegation, evaluation tables

    [include/atarix/capability.h], [capability_policy.h], [capability_engine.h],
    [operations.h], [src/capability/capability_policy.c] and
    [src/capability/capability_evaluator.c]. Pointers to records are [option]s;
    a pointer into a caller's array is the index it points at. *)

From S2P Require Import Prelude Ring.

(** ** operations.h *)

Definition ATARIX_OPERATION_INVALID : Z := 0x00000000.
Definition ATARIX_OPERATION_READ : Z := 0x00000001.
Definition ATARIX_OPERATION_WRITE : Z := 0x00000002.
Definition ATARIX_OPERATION_CONTROL : Z := 0x00000003.
Definition ATARIX_OPERATION_EXPERIMENTAL_BEGIN : Z := 0x80000000.

Definition atarix_operation_is_experimental (operation_id : Z) : bool :=
  ATARIX_OPERATION_EXPERIMENTAL_BEGIN <=? operation_id.

(** ** capability.h *)

Definition ATARIX_CAPABILITY_RECORD_SIZE_V1 : Z := 56.

Definition ATARIX_TRUST_UNTRUSTED : Z := 0.
Definition ATARIX_TRUST_IDENTIFIED : Z := 1.
Definition ATARIX_TRUST_VALIDATED : Z := 2.
Definition ATARIX_TRUST_TRUSTED : Z := 3.
Definition ATARIX_TRUST_PRIVILEGED : Z := 4.
Definition ATARIX_TRUST_RESERVED5 : Z := 5.
Definition ATARIX_TRUST_RESERVED6 : Z := 6.
Definition ATARIX_TRUST_REVOKED : Z := 7.

Definition ATARIX_CAPABILITY_FLAG_READ_ALLOWED : Z := 1.
Definition ATARIX_CAPABILITY_FLAG_WRITE_ALLOWED : Z := 2.
Definition ATARIX_CAPABILITY_FLAG_CONTROL_ALLOWED : Z := 4.
Definition ATARIX_CAPABILITY_FLAG_DELEGATION_ALLOWED : Z := 8.
Definition ATARIX_CAPABILITY_FLAG_REVOCATION_SUPPORTED : Z := 16.
Definition ATARIX_CAPABILITY_FLAG_TIME_LIMITED : Z := 32.
Definition ATARIX_CAPABILITY_FLAG_DEVELOPMENT_ONLY : Z := 64.
Definition ATARIX_CAPABILITY_FLAG_RECOVERY_ONLY : Z := 128.
Definition ATARIX_CAPABILITY_FLAG_DESTRUCTIVE_OPERATION : Z := 256.
Definition ATARIX_CAPABILITY_FLAG_REQUIRES_SUPERVISOR_APPROVAL : Z := 512.

Record atarix_capability_record_v1_t : Type := CapabilityRecord {
  capability_id : Z;
  operation_id : Z;
  target_handle : Z;
  minimum_ring : Z;
  maximum_ring : Z;
  flags : Z;
  delegation_mask : Z;
  expiration_or_lifetime : Z;
  issuer_handle : Z;
  trust_requirement : Z;
  reserved : Z
}.

Definition atarix_capability_is_destructive (flags : Z) : bool :=
  flag_set flags ATARIX_CAPABILITY_FLAG_DESTRUCTIVE_OPERATION.

Definition atarix_capability_requires_supervisor (flags : Z) : bool :=
  flag_set flags ATARIX_CAPABILITY_FLAG_REQUIRES_SUPERVISOR_APPROVAL.

(** ** capability_policy.h *)

Definition ATARIX_POLICY_REQUEST_FLAG_CAPABILITY_REVOKED : Z := 1.

Inductive atarix_policy_status_t : Type :=
| ATARIX_POLICY_STATUS_OK
| ATARIX_POLICY_STATUS_NULL
| ATARIX_POLICY_STATUS_INVALID_REQUEST
| ATARIX_POLICY_STATUS_INVALID_CAPABILITY
| ATARIX_POLICY_STATUS_UNTRUSTED_ISSUER
| ATARIX_POLICY_STATUS_UNTRUSTED_OWNER
| ATARIX_POLICY_STATUS_REVOKED
| ATARIX_POLICY_STATUS_EXPIRED
| ATARIX_POLICY_STATUS_RING_DENIED
| ATARIX_POLICY_STATUS_OWNER_MISMATCH
| ATARIX_POLICY_STATUS_DELEGATION_DENIED
| ATARIX_POLICY_STATUS_RESOURCE_DENIED
| ATARIX_POLICY_STATUS_OPERATION_DENIED.

#[export] Instance atarix_policy_status_eq_dec : EqDecision atarix_policy_status_t.
Proof. solve_decision. Defined.

Inductive atarix_policy_decision_t : Type :=
| ATARIX_POLICY_DECISION_DENY
| ATARIX_POLICY_DECISION_ALLOW
| ATARIX_POLICY_DECISION_RESTRICT
| ATARIX_POLICY_DECISION_RECOVERY_ONLY.

#[export] Instance atarix_policy_decision_eq_dec : EqDecision atarix_policy_decision_t.
Proof. solve_decision. Defined.

Record atarix_policy_request_t : Type := PolicyRequest {
  caller_principal_id : Z;
  owner_principal_id : Z;
  issuer_principal_id : Z;
  caller_ring : Z;
  issuer_trust : Z;
  owner_trust : Z;
  request_target_handle : Z;
  request_operation_id : Z;
  current_time : Z;
  request_flags : Z;
  request_capability : option atarix_capability_record_v1_t
}.

Record atarix_policy_result_t : Type := PolicyResult {
  result_decision : atarix_policy_decision_t;
  result_status : atarix_policy_status_t;
  result_matched_capability : option atarix_capability_record_v1_t
}.

(** ** capability_policy.c *)

Definition trust_is_usable (trust : Z) : bool :=
  negb (trust =? ATARIX_TRUST_UNTRUSTED) && negb (trust =? ATARIX_TRUST_REVOKED).

Definition capability_ring_range_valid (capability : atarix_capability_record_v1_t) : bool :=
  if minimum_ring capability =? ATARIX_RING_WIRE_SUPERVISOR
  then maximum_ring capability =? ATARIX_RING_WIRE_SUPERVISOR
  else if minimum_ring capability =? ATARIX_RING_WIRE_FABRIC
  then (maximum_ring capability =? ATARIX_RING_WIRE_FABRIC) ||
       (maximum_ring capability <=? ATARIX_RING_WIRE_APPLICATION)
  else (minimum_ring capability <=? maximum_ring capability) &&
       (maximum_ring capability <=? ATARIX_RING_WIRE_APPLICATION).

Definition ring_in_capability_range (ring : Z)
    (capability : atarix_capability_record_v1_t) : bool :=
  let caller := atarix_ring_to_wire ring in
  if minimum_ring capability =? ATARIX_RING_WIRE_SUPERVISOR
  then caller =? ATARIX_RING_WIRE_SUPERVISOR
  else if minimum_ring capability =? ATARIX_RING_WIRE_FABRIC
  then caller =? ATARIX_RING_WIRE_FABRIC
  else (minimum_ring capability <=? caller) && (caller <=? maximum_ring capability).

Definition capability_uses_supervisor_authority
    (capability : atarix_capability_record_v1_t) : bool :=
  (minimum_ring capability =? ATARIX_RING_WIRE_SUPERVISOR) ||
  (maximum_ring capability =? ATARIX_RING_WIRE_SUPERVISOR).

Definition request_capability_revoked (request : atarix_policy_request_t) : bool :=
  flag_set (request_flags request) ATARIX_POLICY_REQUEST_FLAG_CAPABILITY_REVOKED.

(** The code reads the capability through the request; the caller has checked
    that the pointer is not NULL. *)
Definition request_capability_expired (request : atarix_policy_request_t)
    (capability : atarix_capability_record_v1_t) : bool :=
  if negb (flag_set (flags capability) ATARIX_CAPABILITY_FLAG_TIME_LIMITED) then false
  else if expiration_or_lifetime capability =? 0 then true
  else expiration_or_lifetime capability <? current_time request.

Definition atarix_capability_record_validate
    (capability : option atarix_capability_record_v1_t) : atarix_policy_status_t :=
  match capability with
  | None => ATARIX_POLICY_STATUS_NULL
  | Some c =>
    if capability_id c =? 0 then ATARIX_POLICY_STATUS_INVALID_CAPABILITY
    else if operation_id c =? ATARIX_OPERATION_INVALID
    then ATARIX_POLICY_STATUS_INVALID_CAPABILITY
    else if negb (capability_ring_range_valid c)
    then ATARIX_POLICY_STATUS_INVALID_CAPABILITY
    else if target_handle c =? 0 then ATARIX_POLICY_STATUS_INVALID_CAPABILITY
    else if issuer_handle c =? 0 then ATARIX_POLICY_STATUS_INVALID_CAPABILITY
    else ATARIX_POLICY_STATUS_OK
  end.

Definition atarix_capability_record_allows_operation
    (capability : option atarix_capability_record_v1_t) (operation : Z) : bool :=
  match capability with
  | None => false
  | Some c =>
    if negb (operation_id c =? operation) then false
    else if operation =? ATARIX_OPERATION_READ
    then flag_set (flags c) ATARIX_CAPABILITY_FLAG_READ_ALLOWED
    else if operation =? ATARIX_OPERATION_WRITE
    then flag_set (flags c) ATARIX_CAPABILITY_FLAG_WRITE_ALLOWED
    else if operation =? ATARIX_OPERATION_CONTROL
    then flag_set (flags c) ATARIX_CAPABILITY_FLAG_CONTROL_ALLOWED
    else true
  end.

Definition atarix_capability_delegation_validate
    (parent child : option atarix_capability_record_v1_t) : atarix_policy_status_t :=
  match parent, child with
  | Some p, Some c =>
    match atarix_capability_record_validate parent with
    | ATARIX_POLICY_STATUS_OK =>
      match atarix_capability_record_validate child with
      | ATARIX_POLICY_STATUS_OK =>
        if negb (flag_set (flags p) ATARIX_CAPABILITY_FLAG_DELEGATION_ALLOWED)
        then ATARIX_POLICY_STATUS_DELEGATION_DENIED
        else if capability_uses_supervisor_authority p ||
                capability_uses_supervisor_authority c
        then ATARIX_POLICY_STATUS_DELEGATION_DENIED
        else if negb (target_handle p =? target_handle c)
        then ATARIX_POLICY_STATUS_RESOURCE_DENIED
        else if negb (operation_id p =? operation_id c)
        then ATARIX_POLICY_STATUS_OPERATION_DENIED
        else if negb (flags c .& u32 (Z.lnot (flags p)) =? 0)
        then ATARIX_POLICY_STATUS_DELEGATION_DENIED
        else if (minimum_ring c <? minimum_ring p) ||
                (maximum_ring c <? minimum_ring p)
        then ATARIX_POLICY_STATUS_DELEGATION_DENIED
        else if maximum_ring p <? maximum_ring c
        then ATARIX_POLICY_STATUS_DELEGATION_DENIED
        else ATARIX_POLICY_STATUS_OK
      | status => status
      end
    | status => status
    end
  | _, _ => ATARIX_POLICY_STATUS_NULL
  end.

(** Returns the status and the result left behind the pointer. *)
Definition atarix_policy_evaluate (request : option atarix_policy_request_t)
    (result : option atarix_policy_result_t)
  : atarix_policy_status_t * option atarix_policy_result_t :=
  match request, result with
  | Some req, Some _ =>
    match request_capability req with
    | None =>
      (ATARIX_POLICY_STATUS_NULL,
       Some (PolicyResult ATARIX_POLICY_DECISION_DENY ATARIX_POLICY_STATUS_NULL None))
    | Some cap =>
      match atarix_capability_record_validate (Some cap) with
      | ATARIX_POLICY_STATUS_OK =>
        let deny status :=
          (status, Some (PolicyResult ATARIX_POLICY_DECISION_DENY status (Some cap))) in
        if request_capability_revoked req then deny ATARIX_POLICY_STATUS_REVOKED
        else if request_capability_expired req cap then deny ATARIX_POLICY_STATUS_EXPIRED
        else if negb (trust_is_usable (issuer_trust req))
        then deny ATARIX_POLICY_STATUS_UNTRUSTED_ISSUER
        else if negb (trust_is_usable (owner_trust req))
        then deny ATARIX_POLICY_STATUS_UNTRUSTED_OWNER
        else if negb (caller_principal_id req =? owner_principal_id req)
        then deny ATARIX_POLICY_STATUS_OWNER_MISMATCH
        else if negb (ring_in_capability_range (caller_ring req) cap)
        then deny ATARIX_POLICY_STATUS_RING_DENIED
        else if negb (request_target_handle req =? target_handle cap)
        then deny ATARIX_POLICY_STATUS_RESOURCE_DENIED
        else if negb (atarix_capability_record_allows_operation (Some cap)
                        (request_operation_id req))
        then deny ATARIX_POLICY_STATUS_OPERATION_DENIED
        else (ATARIX_POLICY_STATUS_OK,
              Some (PolicyResult ATARIX_POLICY_DECISION_ALLOW
                      ATARIX_POLICY_STATUS_OK (Some cap)))
      | status =>
        (status, Some (PolicyResult ATARIX_POLICY_DECISION_DENY status None))
      end
    end
  | _, _ => (ATARIX_POLICY_STATUS_NULL, result)
  end.

(** ** capability_engine.h and capability_evaluator.c *)

Inductive atarix_decision_t : Type :=
| ATARIX_DECISION_ALLOW
| ATARIX_DECISION_DENY
| ATARIX_DECISION_RESTRICT
| ATARIX_DECISION_RECOVERY_ONLY.

#[export] Instance atarix_decision_eq_dec : EqDecision atarix_decision_t.
Proof. solve_decision. Defined.

Record atarix_capability_request_t : Type := CapabilityRequest {
  req_target_handle : Z;
  req_operation_id : Z;
  requester_ring : Z;
  trust_level : Z;
  req_flags : Z
}.

(** The matched capability is the index it has in the caller's array. *)
Record atarix_capability_evaluation_t : Type := CapabilityEvaluation {
  eval_decision : atarix_decision_t;
  eval_matched_capability : option nat;
  eval_reason_code : Z
}.

Definition ring_allows (minimum_ring_wire maximum_ring_wire ring : Z) : bool :=
  let requester := atarix_ring_to_wire ring in
  if minimum_ring_wire =? ATARIX_RING_WIRE_SUPERVISOR
  then requester =? ATARIX_RING_WIRE_SUPERVISOR
  else if minimum_ring_wire =? ATARIX_RING_WIRE_FABRIC
  then (requester =? ATARIX_RING_WIRE_SUPERVISOR) ||
       (requester =? ATARIX_RING_WIRE_FABRIC)
  else (minimum_ring_wire <=? requester) && (requester <=? maximum_ring_wire).

(** The loop over [capabilities], at index [i] with [n] entries to go. An index
    outside the array has no value. *)
Fixpoint evaluate_from (n : nat) (i : nat) (capabilities : list atarix_capability_record_v1_t)
    (request : atarix_capability_request_t) : option atarix_capability_evaluation_t :=
  match n with
  | O => Some (CapabilityEvaluation ATARIX_DECISION_DENY None 3)
  | S n' =>
    cap ← capabilities !! i;
    if negb (target_handle cap =? req_target_handle request)
    then evaluate_from n' (S i) capabilities request
    else if negb (operation_id cap =? req_operation_id request)
    then evaluate_from n' (S i) capabilities request
    else if trust_level request <? trust_requirement cap
    then Some (CapabilityEvaluation ATARIX_DECISION_RESTRICT (Some i) 1)
    else if negb (ring_allows (minimum_ring cap) (maximum_ring cap) (requester_ring request))
    then Some (CapabilityEvaluation ATARIX_DECISION_DENY (Some i) 2)
    else Some (CapabilityEvaluation
                 (if flag_set (flags cap) ATARIX_CAPABILITY_FLAG_RECOVERY_ONLY
                  then ATARIX_DECISION_RECOVERY_ONLY else ATARIX_DECISION_ALLOW)
                 (Some i) 0)
  end.

Definition atarix_capability_evaluate
    (capabilities : option (list atarix_capability_record_v1_t)) (capability_count : Z)
    (request : option atarix_capability_request_t)
    (evaluation : option atarix_capability_evaluation_t)
  : option (Z * option atarix_capability_evaluation_t) :=
  match capabilities, request, evaluation with
  | Some caps, Some req, Some _ =>
    ev ← evaluate_from (Z.to_nat capability_count) 0 caps req;
    Some (0, Some ev)
  | _, _, _ => Some (-1, evaluation)
  end.

(** ** The evaluator in closed form

    What the lemmas about the evaluator use: its own checks as a list. What a request
    has to satisfy, independent of the code, is in [CapabilityPolicy]. *)

Definition record_valid (c : atarix_capability_record_v1_t) : bool :=
  bool_decide (atarix_capability_record_validate (Some c) = ATARIX_POLICY_STATUS_OK).

(** All checks of the code succeed. *)
Record checks_pass (req : atarix_policy_request_t)
    (c : atarix_capability_record_v1_t) : Prop := {
  pass_valid : record_valid c = true;
  pass_not_revoked : request_capability_revoked req = false;
  pass_not_expired : request_capability_expired req c = false;
  pass_issuer : trust_is_usable (issuer_trust req) = true;
  pass_owner : trust_is_usable (owner_trust req) = true;
  pass_caller : caller_principal_id req = owner_principal_id req;
  pass_ring : ring_in_capability_range (caller_ring req) c = true;
  pass_target : request_target_handle req = target_handle c;
  pass_operation :
    atarix_capability_record_allows_operation (Some c) (request_operation_id req) = true
}.

(** The guards of the evaluator, with the code's own predicates, in the order in
    which it tests them: a form of the code to reason with. What the guards mean is
    specified in [CapabilityPolicy]. *)
Definition evaluator_guards (req : atarix_policy_request_t)
    (c : atarix_capability_record_v1_t) : list (bool * atarix_policy_status_t) :=
  [ (record_valid c, atarix_capability_record_validate (Some c));
    (negb (request_capability_revoked req), ATARIX_POLICY_STATUS_REVOKED);
    (negb (request_capability_expired req c), ATARIX_POLICY_STATUS_EXPIRED);
    (trust_is_usable (issuer_trust req), ATARIX_POLICY_STATUS_UNTRUSTED_ISSUER);
    (trust_is_usable (owner_trust req), ATARIX_POLICY_STATUS_UNTRUSTED_OWNER);
    (caller_principal_id req =? owner_principal_id req,
       ATARIX_POLICY_STATUS_OWNER_MISMATCH);
    (ring_in_capability_range (caller_ring req) c, ATARIX_POLICY_STATUS_RING_DENIED);
    (request_target_handle req =? target_handle c, ATARIX_POLICY_STATUS_RESOURCE_DENIED);
    (atarix_capability_record_allows_operation (Some c) (request_operation_id req),
       ATARIX_POLICY_STATUS_OPERATION_DENIED) ].

Fixpoint first_failure (checks : list (bool * atarix_policy_status_t))
  : atarix_policy_status_t :=
  match checks with
  | [] => ATARIX_POLICY_STATUS_OK
  | (true, _) :: rest => first_failure rest
  | (false, status) :: _ => status
  end.

Definition with_capability (req : atarix_policy_request_t)
    (c : atarix_capability_record_v1_t) : atarix_policy_request_t :=
  PolicyRequest (caller_principal_id req) (owner_principal_id req)
    (issuer_principal_id req) (caller_ring req) (issuer_trust req) (owner_trust req)
    (request_target_handle req) (request_operation_id req) (current_time req)
    (request_flags req) (Some c).

Definition at_time (req : atarix_policy_request_t) (t : Z) : atarix_policy_request_t :=
  PolicyRequest (caller_principal_id req) (owner_principal_id req)
    (issuer_principal_id req) (caller_ring req) (issuer_trust req) (owner_trust req)
    (request_target_handle req) (request_operation_id req) t
    (request_flags req) (request_capability req).

(** The evaluator in closed form. *)
Lemma policy_evaluate_first_failure req c old :
  request_capability req = Some c ->
  atarix_policy_evaluate (Some req) (Some old) =
  let status := first_failure (evaluator_guards req c) in
  (status,
   Some (PolicyResult
     (if decide (status = ATARIX_POLICY_STATUS_OK)
      then ATARIX_POLICY_DECISION_ALLOW else ATARIX_POLICY_DECISION_DENY)
     status (if record_valid c then Some c else None))).
Proof.
  intros Hc. unfold atarix_policy_evaluate, evaluator_guards, record_valid. rewrite Hc.
  destruct (atarix_capability_record_validate (Some c)) eqn:Hv; simpl; try done.
  unfold negb. by repeat case_match.
Qed.

Lemma first_failure_ok checks :
  Forall (fun p => p.2 <> ATARIX_POLICY_STATUS_OK \/ p.1 = true) checks ->
  first_failure checks = ATARIX_POLICY_STATUS_OK <-> Forall (fun p => p.1 = true) checks.
Proof.
  induction 1 as [|[b s] checks Hs _ IH]; [by split|]. rewrite Forall_cons_iff. simpl in *.
  destruct b; [tauto|]. destruct Hs; [|done]. split; [done|by intros []].
Qed.

Lemma evaluator_guards_ok req c :
  first_failure (evaluator_guards req c) = ATARIX_POLICY_STATUS_OK <-> checks_pass req c.
Proof.
  rewrite first_failure_ok.
  - unfold evaluator_guards. split.
    + intros H. repeat (apply Forall_cons_iff in H as [? H]). simpl in *.
      rewrite ?negb_true_iff, ?Z.eqb_eq in *. by constructor.
    + intros []. repeat constructor; simpl; by rewrite ?negb_true_iff, ?Z.eqb_eq.
  - unfold evaluator_guards, record_valid.
    repeat (apply Forall_cons_iff; split); simpl; try done; try (by left).
    case_bool_decide; auto.
Qed.

(** A concrete grant used by the witnesses: the application rings may read. *)
Definition sample_capability : atarix_capability_record_v1_t :=
  CapabilityRecord 101 ATARIX_OPERATION_READ 0x300010001
    ATARIX_RING_WIRE_KERNEL ATARIX_RING_WIRE_APPLICATION
    (ATARIX_CAPABILITY_FLAG_READ_ALLOWED .| ATARIX_CAPABILITY_FLAG_DELEGATION_ALLOWED
     .| ATARIX_CAPABILITY_FLAG_TIME_LIMITED)
    0 1000 0x100010001 ATARIX_TRUST_IDENTIFIED 0.

Definition sample_request (c : atarix_capability_record_v1_t) : atarix_policy_request_t :=
  PolicyRequest 7 7 1 ATARIX_RING_SERVICE ATARIX_TRUST_TRUSTED ATARIX_TRUST_TRUSTED
    0x300010001 ATARIX_OPERATION_READ 500 0 (Some c).

Definition blank_result : atarix_policy_result_t :=
  PolicyResult ATARIX_POLICY_DECISION_DENY ATARIX_POLICY_STATUS_NULL None.

(** Expiry is permanent: a request that is refused as expired is refused
    as expired at every later time, and time alone never turns a refusal into
    a grant. *)
Theorem policy_expiry_monotone req c old t t' :
  request_capability req = Some c -> 0 <= t <= t' ->
  ((atarix_policy_evaluate (Some (at_time req t)) (Some old)).1 =
     ATARIX_POLICY_STATUS_EXPIRED ->
   (atarix_policy_evaluate (Some (at_time req t')) (Some old)).1 =
     ATARIX_POLICY_STATUS_EXPIRED) /\
  ((atarix_policy_evaluate (Some (at_time req t')) (Some old)).1 =
     ATARIX_POLICY_STATUS_OK ->
   (atarix_policy_evaluate (Some (at_time req t)) (Some old)).1 =
     ATARIX_POLICY_STATUS_OK).
Proof.
  intros Hc Ht. rewrite !(policy_evaluate_first_failure _ c) by done.
  unfold evaluator_guards, record_valid, request_capability_expired.
  destruct (atarix_capability_record_validate (Some c)); simpl; try (by split).
  change (request_capability_revoked (at_time req _)) with (request_capability_revoked req).
  destruct (request_capability_revoked req); simpl; [by split|].
  destruct (flag_set _ _); simpl; [|by split].
  destruct (expiration_or_lifetime c =? 0); simpl; [by split|].
  destruct (Z.ltb_spec (expiration_or_lifetime c) t),
    (Z.ltb_spec (expiration_or_lifetime c) t'); simpl; try (by split); lia.
Qed.

Lemma policy_expiry_monotone_witness :
  (atarix_policy_evaluate (Some (at_time (sample_request sample_capability) 1001))
     (Some blank_result)).1 = ATARIX_POLICY_STATUS_EXPIRED /\
  (atarix_policy_evaluate (Some (at_time (sample_request sample_capability) 5000))
     (Some blank_result)).1 = ATARIX_POLICY_STATUS_EXPIRED.
Proof.
  split; [reflexivity|].
  refine (proj1 (policy_expiry_monotone (sample_request sample_capability) sample_capability
    blank_result 1001 5000 eq_refl _) _); [lia|reflexivity].
Defined.

(** ** Delegation *)

Abbreviation delegates p c :=
  (atarix_capability_delegation_validate (Some p) (Some c) = ATARIX_POLICY_STATUS_OK).

(** Everything a successful delegation check establishes. *)
Record delegation_facts (p c : atarix_capability_record_v1_t) : Prop := {
  dl_parent : record_valid p = true;
  dl_child : record_valid c = true;
  dl_flag : flag_set (flags p) ATARIX_CAPABILITY_FLAG_DELEGATION_ALLOWED = true;
  dl_super_p : capability_uses_supervisor_authority p = false;
  dl_super_c : capability_uses_supervisor_authority c = false;
  dl_target : target_handle p = target_handle c;
  dl_operation : operation_id p = operation_id c;
  dl_flags : flags c .& u32 (Z.lnot (flags p)) = 0;
  dl_min : minimum_ring p <= minimum_ring c;
  dl_max_min : minimum_ring p <= maximum_ring c;
  dl_max : maximum_ring c <= maximum_ring p
}.

Lemma delegates_iff p c : delegates p c <-> delegation_facts p c.
Proof.
  unfold atarix_capability_delegation_validate. split.
  - intros H. unfold negb in H. repeat case_match; try done.
    rewrite ?orb_false_iff, ?Z.ltb_ge, ?Z.eqb_eq in *. destruct_and?.
    constructor; unfold record_valid; try done; by apply bool_decide_true.
  - intros [Hp Hc Hf Hsp Hsc Ht Ho Hfl H1 H2 H3]. unfold record_valid in *.
    apply bool_decide_eq_true in Hp, Hc. rewrite Hp, Hc, Hf, Hsp, Hsc, Ht, Ho, Hfl, !Z.eqb_refl.
    simpl. by rewrite !(proj2 (Z.ltb_ge _ _)) by lia.
Qed.

(** Flags that are a subset carry over bit by bit. *)
Lemma flag_subset x y b :
  fits 32 x -> fits 32 y -> x .& u32 (Z.lnot y) = 0 -> flag_set x b = true -> flag_set y b = true.
Proof.
  intros Hx Hy Hs. unfold flag_set. rewrite !negb_true_iff, !Z.eqb_neq. intros Hb Hyb.
  apply Hb, Z.bits_inj'. intros i Hi.
  apply (f_equal (fun z => Z.testbit z i)) in Hs, Hyb.
  unfold uint in Hs. rewrite ?Z.land_spec, ?Z.bits_0 in *.
  destruct (decide (i < 32)).
  - rewrite Z.mod_pow2_bits_low, Z.lnot_spec in Hs by lia.
    destruct (Z.testbit x i), (Z.testbit y i), (Z.testbit b i); done.
  - by rewrite (testbit_fits 32 x) by (done || lia).
Qed.

Lemma allows_operation_delegated p c op :
  delegation_facts p c -> fits 32 (flags p) -> fits 32 (flags c) ->
  atarix_capability_record_allows_operation (Some c) op = true ->
  atarix_capability_record_allows_operation (Some p) op = true.
Proof.
  intros Hd Hp Hc. unfold atarix_capability_record_allows_operation.
  rewrite (dl_operation _ _ Hd). pose proof (dl_flags _ _ Hd) as Hfl.
  repeat case_match; try done; by apply flag_subset.
Qed.

(** What the ring check of a valid, non-supervisor capability decides. *)
Lemma ring_range_ordinary ring c :
  record_valid c = true -> capability_uses_supervisor_authority c = false ->
  ring_in_capability_range ring c =
  if minimum_ring c =? ATARIX_RING_WIRE_FABRIC
  then atarix_ring_to_wire ring =? ATARIX_RING_WIRE_FABRIC
  else (minimum_ring c <=? atarix_ring_to_wire ring) &&
       (atarix_ring_to_wire ring <=? maximum_ring c).
Proof.
  intros _ Hs. unfold ring_in_capability_range, capability_uses_supervisor_authority in *.
  apply orb_false_iff in Hs as [-> _]. done.
Qed.

Lemma record_valid_ring_range c :
  record_valid c = true -> capability_ring_range_valid c = true.
Proof.
  unfold record_valid, atarix_capability_record_validate.
  rewrite bool_decide_eq_true. by repeat case_match; rewrite ?negb_false_iff in *.
Qed.

(** A delegated range is inside the delegator's, unless the child names the
    fabric ring (whose wire number is the largest of all) as its minimum. *)
Lemma ring_range_delegated p c ring :
  delegation_facts p c ->
  (minimum_ring c = ATARIX_RING_WIRE_FABRIC -> minimum_ring p = ATARIX_RING_WIRE_FABRIC) ->
  fits 16 (minimum_ring c) ->
  ring_in_capability_range ring c = true -> ring_in_capability_range ring p = true.
Proof.
  intros Hd Hf Hc16. rewrite !ring_range_ordinary by apply Hd.
  pose proof (dl_min _ _ Hd). pose proof (dl_max _ _ Hd).
  destruct (Z.eqb_spec (minimum_ring c) ATARIX_RING_WIRE_FABRIC) as [Hc|Hc].
  { by rewrite Hf, Z.eqb_refl. }
  destruct (Z.eqb_spec (minimum_ring p) ATARIX_RING_WIRE_FABRIC) as [Hp|Hp].
  { exfalso. unfold fits, ATARIX_RING_WIRE_FABRIC in *. lia. }
  rewrite !andb_true_iff, !Z.leb_le. lia.
Qed.

(** C21. Delegation does not amplify authority: whatever request a delegated
    capability is granted for, the delegator's own capability would be granted
    for, or has expired. The one exception is a child whose minimum ring is
    the fabric ring while the parent's is not. *)
Theorem delegation_no_amplification p c req old :
  delegates p c ->
  fits 32 (flags p) -> fits 32 (flags c) -> fits 16 (minimum_ring c) ->
  (minimum_ring c = ATARIX_RING_WIRE_FABRIC -> minimum_ring p = ATARIX_RING_WIRE_FABRIC) ->
  (atarix_policy_evaluate (Some (with_capability req c)) (Some old)).1 =
    ATARIX_POLICY_STATUS_OK ->
  (atarix_policy_evaluate (Some (with_capability req p)) (Some old)).1 =
    if request_capability_expired req p
    then ATARIX_POLICY_STATUS_EXPIRED else ATARIX_POLICY_STATUS_OK.
Proof.
  intros Hd%delegates_iff Hp Hc H16 Hf.
  rewrite (policy_evaluate_first_failure _ c), (policy_evaluate_first_failure _ p) by done.
  cbn [fst]. rewrite evaluator_guards_ok. intros [_ Hr _ Hi Ho Hca Hring Ht Hop].
  change (request_capability_expired req p) with
    (request_capability_expired (with_capability req p) p).
  destruct (request_capability_expired (with_capability req p) p) eqn:He.
  - unfold evaluator_guards. rewrite (dl_parent _ _ Hd), He.
    change (request_capability_revoked (with_capability req p)) with
      (request_capability_revoked (with_capability req c)). by rewrite Hr.
  - apply evaluator_guards_ok. simpl in *. constructor; try done.
    + apply Hd.
    + by eapply ring_range_delegated.
    + simpl. by rewrite (dl_target _ _ Hd).
    + by eapply allows_operation_delegated.
Qed.

(** A child of [sample_capability] for the application ring only. *)
Definition sample_child : atarix_capability_record_v1_t :=
  CapabilityRecord 102 ATARIX_OPERATION_READ 0x300010001
    ATARIX_RING_WIRE_SERVICE ATARIX_RING_WIRE_APPLICATION
    ATARIX_CAPABILITY_FLAG_READ_ALLOWED 0 0 0x100010001 ATARIX_TRUST_IDENTIFIED 0.

Lemma delegation_no_amplification_witness :
  delegates sample_capability sample_child /\
  (atarix_policy_evaluate (Some (sample_request sample_capability)) (Some blank_result)).1 =
    ATARIX_POLICY_STATUS_OK.
Proof.
  split; [reflexivity|].
  apply (delegation_no_amplification sample_capability sample_child
    (sample_request sample_child) blank_result).
  - reflexivity.
  - vm_compute. split; [discriminate|reflexivity].
  - vm_compute. split; [discriminate|reflexivity].
  - vm_compute. split; [discriminate|reflexivity].
  - intros H. discriminate H.
  - reflexivity.
Defined.

Lemma delegates_trans p c g : delegates p c -> delegates c g -> delegates p g.
Proof.
  rewrite !delegates_iff. intros Hp Hc.
  constructor; try apply Hp; try apply Hc.
  - by rewrite (dl_target _ _ Hp), (dl_target _ _ Hc).
  - by rewrite (dl_operation _ _ Hp), (dl_operation _ _ Hc).
  - pose proof (dl_flags _ _ Hp) as H1. pose proof (dl_flags _ _ Hc) as H2.
    apply Z.bits_inj'. intros i Hi.
    apply (f_equal (fun z => Z.testbit z i)) in H1, H2. unfold uint in *.
    rewrite ?Z.land_spec, ?Z.bits_0 in *. destruct (decide (i < 32)).
    + rewrite Z.mod_pow2_bits_low, Z.lnot_spec in * by lia.
      destruct (Z.testbit (flags g) i), (Z.testbit (flags c) i); try done.
    + by rewrite Z.mod_pow2_bits_high, andb_false_r by lia.
  - pose proof (dl_min _ _ Hp). pose proof (dl_min _ _ Hc). lia.
  - pose proof (dl_min _ _ Hp). pose proof (dl_max_min _ _ Hc). lia.
  - pose proof (dl_max _ _ Hp). pose proof (dl_max _ _ Hc). lia.
Qed.

Definition sample_grandchild : atarix_capability_record_v1_t :=
  CapabilityRecord 103 ATARIX_OPERATION_READ 0x300010001
    ATARIX_RING_WIRE_APPLICATION ATARIX_RING_WIRE_APPLICATION
    ATARIX_CAPABILITY_FLAG_READ_ALLOWED 0 0 0x100010001 ATARIX_TRUST_IDENTIFIED 0.

Definition sample_delegable_child : atarix_capability_record_v1_t :=
  CapabilityRecord 104 ATARIX_OPERATION_READ 0x300010001
    ATARIX_RING_WIRE_SERVICE ATARIX_RING_WIRE_APPLICATION
    (ATARIX_CAPABILITY_FLAG_READ_ALLOWED .| ATARIX_CAPABILITY_FLAG_DELEGATION_ALLOWED)
    0 0 0x100010001 ATARIX_TRUST_IDENTIFIED 0.

(** The same grant with another ring range or other flags. *)
Definition with_minimum_ring (c : atarix_capability_record_v1_t) (m : Z) :=
  CapabilityRecord (capability_id c) (operation_id c) (target_handle c) m
    (maximum_ring c) (flags c) (delegation_mask c) (expiration_or_lifetime c)
    (issuer_handle c) (trust_requirement c) (reserved c).

Definition with_flags (c : atarix_capability_record_v1_t) (f : Z) :=
  CapabilityRecord (capability_id c) (operation_id c) (target_handle c)
    (minimum_ring c) (maximum_ring c) f (delegation_mask c) (expiration_or_lifetime c)
    (issuer_handle c) (trust_requirement c) (reserved c).

(** A capability that may be delegated and is meant for rings 0 to 3. *)
Definition delegable_ordinary (p : atarix_capability_record_v1_t) : Prop :=
  record_valid p = true /\
  flag_set (flags p) ATARIX_CAPABILITY_FLAG_DELEGATION_ALLOWED = true /\
  0 <= minimum_ring p <= ATARIX_RING_WIRE_APPLICATION.

Lemma delegable_ordinary_max p :
  delegable_ordinary p ->
  minimum_ring p <= maximum_ring p <= ATARIX_RING_WIRE_APPLICATION.
Proof.
  intros (Hv & _ & Hm). apply record_valid_ring_range in Hv.
  unfold capability_ring_range_valid, ATARIX_RING_WIRE_SUPERVISOR,
    ATARIX_RING_WIRE_FABRIC, ATARIX_RING_WIRE_APPLICATION in *.
  repeat case_match; lia.
Qed.

Lemma flags_self_subset f : f .& u32 (Z.lnot f) = 0.
Proof.
  apply Z.bits_inj'. intros i Hi. unfold uint. rewrite Z.land_spec, Z.bits_0.
  destruct (decide (i < 32)).
  - rewrite Z.mod_pow2_bits_low, Z.lnot_spec by lia. by destruct (Z.testbit f i).
  - by rewrite Z.mod_pow2_bits_high, andb_false_r by lia.
Qed.

Lemma delegable_ordinary_not_supervisor p :
  delegable_ordinary p -> capability_uses_supervisor_authority p = false.
Proof.
  intros Hp. pose proof (delegable_ordinary_max p Hp). destruct Hp as (_ & _ & Hm).
  unfold capability_uses_supervisor_authority, ATARIX_RING_WIRE_SUPERVISOR,
    ATARIX_RING_WIRE_APPLICATION in *. lia.
Qed.

(** Any delegable capability may pass on a copy of itself. *)
Lemma delegable_ordinary_self p : delegable_ordinary p -> delegation_facts p p.
Proof.
  intros Hp. pose proof (delegable_ordinary_max p Hp).
  pose proof (delegable_ordinary_not_supervisor p Hp). destruct Hp as (Hv & Hf & Hm).
  constructor; auto using flags_self_subset; lia.
Qed.

Lemma with_fabric_minimum_valid p :
  delegable_ordinary p ->
  record_valid (with_minimum_ring p ATARIX_RING_WIRE_FABRIC) = true.
Proof.
  intros Hp. pose proof (delegable_ordinary_max p Hp) as Hm. destruct Hp as (Hv & _ & _).
  revert Hv. unfold record_valid, atarix_capability_record_validate.
  rewrite !bool_decide_eq_true.
  assert (capability_ring_range_valid (with_minimum_ring p ATARIX_RING_WIRE_FABRIC) = true) as ->.
  { unfold capability_ring_range_valid, ATARIX_RING_WIRE_FABRIC,
      ATARIX_RING_WIRE_SUPERVISOR, ATARIX_RING_WIRE_APPLICATION in *. simpl. lia. }
  simpl. by repeat case_match.
Qed.

(** C38. Delegation reaches upwards into the fabric ring: every delegable
    capability for rings 0 to 3, even one for applications only, validates a
    child whose minimum ring is the fabric ring, and that child admits fabric
    callers the parent refuses. The comparison is on wire numbers, where the
    fabric ring -1 is 0xFFFF. *)
Theorem delegation_fabric_escalation p :
  delegable_ordinary p ->
  let c := with_minimum_ring p ATARIX_RING_WIRE_FABRIC in
  delegates p c /\
  ring_in_capability_range ATARIX_RING_FABRIC c = true /\
  ring_in_capability_range ATARIX_RING_FABRIC p = false.
Proof.
  intros Hp. pose proof (delegable_ordinary_max p Hp) as Hmax.
  pose proof (delegable_ordinary_self p Hp) as [Hv _ Hf Hs _ _ _ Hfl _ _ _].
  pose proof (with_fabric_minimum_valid p Hp). destruct Hp as (_ & _ & Hm). cbv zeta.
  unfold ATARIX_RING_WIRE_APPLICATION in *. split; [|split; [reflexivity|]].
  - apply delegates_iff. constructor; simpl; try done; try lia.
    + revert Hs. unfold capability_uses_supervisor_authority. simpl. lia.
    + unfold ATARIX_RING_WIRE_FABRIC. lia.
  - rewrite ring_range_ordinary by done.
    change (atarix_ring_to_wire ATARIX_RING_FABRIC) with ATARIX_RING_WIRE_FABRIC.
    unfold ATARIX_RING_WIRE_FABRIC. rewrite (proj2 (Z.eqb_neq _ _)) by lia. lia.
Qed.

Lemma delegation_fabric_escalation_witness :
  delegable_ordinary sample_delegable_child /\
  delegates sample_delegable_child
    (with_minimum_ring sample_delegable_child ATARIX_RING_WIRE_FABRIC).
Proof.
  assert (delegable_ordinary sample_delegable_child) as H.
  { split; [reflexivity|]. split; [reflexivity|]. by vm_compute. }
  split; [exact H|]. exact (proj1 (delegation_fabric_escalation _ H)).
Defined.

(** Delegation sheds expiry: the child that drops the time-limit flag of
    its parent validates, and it is never expired, whatever the clock says. *)
Theorem delegation_sheds_expiry p req :
  delegable_ordinary p ->
  let c := with_flags p (flags p .& u32 (Z.lnot ATARIX_CAPABILITY_FLAG_TIME_LIMITED)) in
  delegates p c /\ request_capability_expired req c = false.
Proof.
  intros Hp%delegable_ordinary_self. cbv zeta. split.
  - apply delegates_iff. destruct Hp. constructor; simpl; try done.
    rewrite <-Z.land_assoc, (Z.land_comm (u32 _)), Z.land_assoc, flags_self_subset.
    apply Z.land_0_l.
  - unfold request_capability_expired, flag_set. simpl. by rewrite <-Z.land_assoc, Z.land_0_r.
Qed.

Lemma delegation_sheds_expiry_witness :
  request_capability_expired
    (at_time (sample_request sample_capability) UINT64_MAX) sample_capability = true /\
  request_capability_expired
    (at_time (sample_request sample_capability) UINT64_MAX)
    (with_flags sample_capability
      (flags sample_capability .& u32 (Z.lnot ATARIX_CAPABILITY_FLAG_TIME_LIMITED))) = false.
Proof.
  split; [reflexivity|].
  refine (proj2 (delegation_sheds_expiry sample_capability
    (at_time (sample_request sample_capability) UINT64_MAX) _)).
  split; [reflexivity|]. split; [reflexivity|]. by vm_compute.
Defined.

(** ** Evaluation tables *)

Definition cap_matches (req : atarix_capability_request_t)
    (c : atarix_capability_record_v1_t) : Prop :=
  target_handle c = req_target_handle req /\ operation_id c = req_operation_id req.

#[export] Instance cap_matches_dec req c : Decision (cap_matches req c).
Proof. unfold cap_matches. apply _. Defined.

(** The verdict on the entry the scan stops at. *)
Definition entry_verdict (req : atarix_capability_request_t) (j : nat)
    (c : atarix_capability_record_v1_t) : atarix_capability_evaluation_t :=
  if trust_level req <? trust_requirement c
  then CapabilityEvaluation ATARIX_DECISION_RESTRICT (Some j) 1
  else if negb (ring_allows (minimum_ring c) (maximum_ring c) (requester_ring req))
  then CapabilityEvaluation ATARIX_DECISION_DENY (Some j) 2
  else CapabilityEvaluation
         (if flag_set (flags c) ATARIX_CAPABILITY_FLAG_RECOVERY_ONLY
          then ATARIX_DECISION_RECOVERY_ONLY else ATARIX_DECISION_ALLOW) (Some j) 0.

Lemma evaluate_from_skip n i caps req c :
  caps !! i = Some c -> ~ cap_matches req c ->
  evaluate_from (S n) i caps req = evaluate_from n (S i) caps req.
Proof.
  intros Hc Hm. cbn [evaluate_from]. rewrite Hc. cbn [mbind option_bind].
  destruct (Z.eqb_spec (target_handle c) (req_target_handle req)); [|done].
  destruct (Z.eqb_spec (operation_id c) (req_operation_id req)); [|done].
  by destruct Hm.
Qed.

Lemma evaluate_from_stop n i caps req c :
  caps !! i = Some c -> cap_matches req c ->
  evaluate_from (S n) i caps req = Some (entry_verdict req i c).
Proof.
  intros Hc [Ht Ho]. cbn [evaluate_from]. rewrite Hc. cbn [mbind option_bind].
  rewrite Ht, Ho, !Z.eqb_refl. unfold entry_verdict. simpl. by repeat case_match.
Qed.

Lemma evaluate_from_spec n i caps req :
  (i + n <= length caps)%nat ->
  (exists j c, (i <= j < i + n)%nat /\ caps !! j = Some c /\ cap_matches req c /\
     (forall k d, (i <= k < j)%nat -> caps !! k = Some d -> ~ cap_matches req d) /\
     evaluate_from n i caps req = Some (entry_verdict req j c)) \/
  ((forall k d, (i <= k < i + n)%nat -> caps !! k = Some d -> ~ cap_matches req d) /\
   evaluate_from n i caps req = Some (CapabilityEvaluation ATARIX_DECISION_DENY None 3)).
Proof.
  revert i. induction n as [|n IH]; intros i Hl.
  { right. split; [|done]. intros; lia. }
  destruct (lookup_lt_is_Some_2 caps i) as [c Hc]; [lia|].
  destruct (decide (cap_matches req c)) as [Hm|Hm].
  { left. exists i, c. rewrite (evaluate_from_stop _ _ _ _ c) by done.
    split_and!; try done; try lia. }
  rewrite (evaluate_from_skip _ _ _ _ c) by done.
  assert (Hskip : forall j, (forall k d, (S i <= k < j)%nat -> caps !! k = Some d ->
    ~ cap_matches req d) -> forall k d, (i <= k < j)%nat -> caps !! k = Some d ->
    ~ cap_matches req d).
  { intros j H k d Hk Hd. destruct (decide (k = i)) as [->|]; [congruence|].
    apply (H k d); [lia|done]. }
  destruct (IH (S i)) as [(j & c' & Hj & Hc' & Hm' & Hb & He)|[Hn He]]; [lia| |].
  - left. exists j, c'. split_and!; try done; try lia. by apply Hskip.
  - right. split; [|done]. apply Hskip. intros k d Hk. apply Hn. lia.
Qed.

(** C37. The evaluation table is first match, default deny: within the given
    count the first entry for the requested target and operation alone
    decides, by trust, then ring, then the recovery flag; with no such entry
    the answer is DENY, and no entry outside the array is ever read. *)
Theorem capability_evaluate_first_match caps count req old :
  0 <= count <= Z.of_nat (length caps) ->
  exists ev,
    atarix_capability_evaluate (Some caps) count (Some req) (Some old) = Some (0, Some ev) /\
    (forall j, eval_matched_capability ev = Some j <->
       Z.of_nat j < count /\ (exists c, caps !! j = Some c /\ cap_matches req c /\
         ev = entry_verdict req j c) /\
       (forall k d, (k < j)%nat -> caps !! k = Some d -> ~ cap_matches req d)) /\
    (eval_matched_capability ev = None -> eval_decision ev = ATARIX_DECISION_DENY) /\
    (eval_decision ev = ATARIX_DECISION_ALLOW ->
       exists j c, caps !! j = Some c /\ cap_matches req c /\
         trust_requirement c <= trust_level req /\
         ring_allows (minimum_ring c) (maximum_ring c) (requester_ring req) = true /\
         flag_set (flags c) ATARIX_CAPABILITY_FLAG_RECOVERY_ONLY = false).
Proof.
  intros Hcount. unfold atarix_capability_evaluate.
  destruct (evaluate_from_spec (Z.to_nat count) 0 caps req)
    as [(j & c & Hj & Hc & Hm & Hb & ->)|[Hn ->]]; [lia| |]; eexists; (split; [done|]).
  - assert (Hev : eval_matched_capability (entry_verdict req j c) = Some j)
      by (unfold entry_verdict; by repeat case_match).
    rewrite Hev. split_and!; [|done|].
    + intros j'. split.
      * intros [= <-]. split_and!; [lia|by exists c|]. intros k d Hk. apply Hb. lia.
      * intros (Hj' & (c' & Hc' & Hm' & _) & Hb'). f_equal.
        destruct (Nat.lt_total j j') as [|[|]]; [|done|].
        -- by destruct (Hb' j c).
        -- destruct (Hb j' c'); [lia|done..].
    + unfold entry_verdict. intros Hd. exists j, c.
      repeat case_match; try done. rewrite negb_false_iff, Z.ltb_ge in *. by split_and!.
  - split_and!; [|done|done]. intros j. split; [done|].
    intros (Hj & (c & Hc & Hm & _) & _). by destruct (Hn j c); [lia|..].
Qed.

Definition sample_table_request (ring trust : Z) : atarix_capability_request_t :=
  CapabilityRequest 0x300010001 ATARIX_OPERATION_READ ring trust 0.

Definition blank_evaluation : atarix_capability_evaluation_t :=
  CapabilityEvaluation ATARIX_DECISION_DENY None 0.

Lemma capability_evaluate_first_match_witness :
  exists ev, atarix_capability_evaluate (Some [sample_capability]) 1
    (Some (sample_table_request ATARIX_RING_SERVICE ATARIX_TRUST_TRUSTED))
    (Some blank_evaluation) = Some (0, Some ev).
Proof.
  destruct (capability_evaluate_first_match [sample_capability] 1
    (sample_table_request ATARIX_RING_SERVICE ATARIX_TRUST_TRUSTED) blank_evaluation)
    as (ev & He & _); [simpl; lia|]. exists ev. exact He.
Defined.

(** Revoked is the highest trust: the table compares trust levels as
    numbers, so a requester marked REVOKED (7) meets every defined trust
    requirement and is given the decision a fully trusted one would be given. *)
Theorem capability_evaluate_revoked_requester c req old :
  cap_matches req c -> trust_level req = ATARIX_TRUST_REVOKED ->
  0 <= trust_requirement c <= ATARIX_TRUST_REVOKED ->
  ring_allows (minimum_ring c) (maximum_ring c) (requester_ring req) = true ->
  flag_set (flags c) ATARIX_CAPABILITY_FLAG_RECOVERY_ONLY = false ->
  atarix_capability_evaluate (Some [c]) 1 (Some req) (Some old) =
    Some (0, Some (CapabilityEvaluation ATARIX_DECISION_ALLOW (Some 0%nat) 0)).
Proof.
  intros Hm Ht Hr Hring Hrec. unfold atarix_capability_evaluate.
  change (Z.to_nat 1) with 1%nat. rewrite (evaluate_from_stop 0 0 [c] req c) by done.
  unfold entry_verdict. by rewrite (proj2 (Z.ltb_ge _ _)), Hring, Hrec by lia.
Qed.

Lemma capability_evaluate_revoked_requester_witness :
  atarix_capability_evaluate (Some [sample_capability]) 1
    (Some (sample_table_request ATARIX_RING_SERVICE ATARIX_TRUST_REVOKED))
    (Some blank_evaluation) =
  Some (0, Some (CapabilityEvaluation ATARIX_DECISION_ALLOW (Some 0%nat) 0)).
Proof.
  apply capability_evaluate_revoked_requester.
  - split; reflexivity.
  - reflexivity.
  - vm_compute. split; discriminate.
  - reflexivity.
  - reflexivity.
Defined.
