(* ===== verification/CapabilityPolicy.v ===== *)
(** * The access policy and delegated authority

    What capability evaluation and delegation are for, stated without the code's
    predicates: which requests a capability permits, in which order a refusal is
    reported, and which capabilities can be reached from a root by delegations.
    [Capability] is shown to decide exactly that. *)

From S2P Require Import Prelude Ring Capability.

(** ** A capability and a request, in their own terms *)

(** The ring ranges a capability may name, on wire numbers. *)
Definition ring_range_wf (minimum maximum : Z) : Prop :=
  (minimum = ATARIX_RING_WIRE_SUPERVISOR /\ maximum = ATARIX_RING_WIRE_SUPERVISOR) \/
  (minimum = ATARIX_RING_WIRE_FABRIC /\
   (maximum = ATARIX_RING_WIRE_FABRIC \/ maximum <= ATARIX_RING_WIRE_APPLICATION)) \/
  (minimum <= maximum <= ATARIX_RING_WIRE_APPLICATION).

Record capability_wf (c : atarix_capability_record_v1_t) : Prop := {
  cw_id : capability_id c <> 0;
  cw_operation : operation_id c <> 0;
  cw_target : target_handle c <> 0;
  cw_issuer : issuer_handle c <> 0;
  cw_rings : ring_range_wf (minimum_ring c) (maximum_ring c)
}.

(** The ring a caller acts in; a number that is no ring counts as application. *)
Definition effective_ring (ring : Z) : Z :=
  if decide (ATARIX_RING_SUPERVISOR <= ring <= ATARIX_RING_QUARANTINE)
  then ring else ATARIX_RING_APPLICATION.

(** A capability of the supervisor or of the fabric is for that ring alone; every
    other is for the rings between its bounds. *)
Definition ring_admitted (c : atarix_capability_record_v1_t) (ring : Z) : Prop :=
  let r := effective_ring ring in
  if decide (minimum_ring c = ATARIX_RING_WIRE_SUPERVISOR) then r = ATARIX_RING_SUPERVISOR
  else if decide (minimum_ring c = ATARIX_RING_WIRE_FABRIC) then r = ATARIX_RING_FABRIC
  else ATARIX_RING_KERNEL <= r /\ minimum_ring c <= r <= maximum_ring c.

(** Bit 5, the time limit: with it, the expiration is a time not yet passed. *)
Definition in_time (req : atarix_policy_request_t) (c : atarix_capability_record_v1_t) : Prop :=
  Z.testbit (flags c) 5 = true ->
  expiration_or_lifetime c <> 0 /\ current_time req <= expiration_or_lifetime c.

Definition trusted (trust : Z) : Prop :=
  trust <> ATARIX_TRUST_UNTRUSTED /\ trust <> ATARIX_TRUST_REVOKED.

(** Bits 0 to 2, the permissions of the three basic operations. *)
Definition operation_permitted (c : atarix_capability_record_v1_t) (operation : Z) : Prop :=
  operation_id c = operation /\
  (operation = ATARIX_OPERATION_READ -> Z.testbit (flags c) 0 = true) /\
  (operation = ATARIX_OPERATION_WRITE -> Z.testbit (flags c) 1 = true) /\
  (operation = ATARIX_OPERATION_CONTROL -> Z.testbit (flags c) 2 = true).

(** Access is granted under all of these conditions. *)
Record policy_permits (req : atarix_policy_request_t)
    (c : atarix_capability_record_v1_t) : Prop := {
  permits_wf : capability_wf c;
  permits_not_revoked : Z.testbit (request_flags req) 0 = false;
  permits_in_time : in_time req c;
  permits_issuer : trusted (issuer_trust req);
  permits_owner : trusted (owner_trust req);
  permits_caller : caller_principal_id req = owner_principal_id req;
  permits_ring : ring_admitted c (caller_ring req);
  permits_target : request_target_handle req = target_handle c;
  permits_operation : operation_permitted c (request_operation_id req)
}.

(** The conditions in the order in which the code reports a refusal. *)
Definition policy_conditions (req : atarix_policy_request_t)
    (c : atarix_capability_record_v1_t) : list (Prop * atarix_policy_status_t) :=
  [ (capability_wf c, ATARIX_POLICY_STATUS_INVALID_CAPABILITY);
    (Z.testbit (request_flags req) 0 = false, ATARIX_POLICY_STATUS_REVOKED);
    (in_time req c, ATARIX_POLICY_STATUS_EXPIRED);
    (trusted (issuer_trust req), ATARIX_POLICY_STATUS_UNTRUSTED_ISSUER);
    (trusted (owner_trust req), ATARIX_POLICY_STATUS_UNTRUSTED_OWNER);
    (caller_principal_id req = owner_principal_id req, ATARIX_POLICY_STATUS_OWNER_MISMATCH);
    (ring_admitted c (caller_ring req), ATARIX_POLICY_STATUS_RING_DENIED);
    (request_target_handle req = target_handle c, ATARIX_POLICY_STATUS_RESOURCE_DENIED);
    (operation_permitted c (request_operation_id req), ATARIX_POLICY_STATUS_OPERATION_DENIED) ].

(** The same conditions in the order of docs/adr/ADR-00X-capability-evaluation-model.md. *)
Definition documented_conditions (req : atarix_policy_request_t)
    (c : atarix_capability_record_v1_t) : list (Prop * atarix_policy_status_t) :=
  [ (capability_wf c, ATARIX_POLICY_STATUS_INVALID_CAPABILITY);
    (trusted (issuer_trust req), ATARIX_POLICY_STATUS_UNTRUSTED_ISSUER);
    (trusted (owner_trust req), ATARIX_POLICY_STATUS_UNTRUSTED_OWNER);
    (Z.testbit (request_flags req) 0 = false, ATARIX_POLICY_STATUS_REVOKED);
    (in_time req c, ATARIX_POLICY_STATUS_EXPIRED);
    (ring_admitted c (caller_ring req), ATARIX_POLICY_STATUS_RING_DENIED);
    (caller_principal_id req = owner_principal_id req, ATARIX_POLICY_STATUS_OWNER_MISMATCH);
    (request_target_handle req = target_handle c, ATARIX_POLICY_STATUS_RESOURCE_DENIED);
    (operation_permitted c (request_operation_id req), ATARIX_POLICY_STATUS_OPERATION_DENIED) ].

(** The status of the first condition that does not hold. *)
Inductive first_unmet : list (Prop * atarix_policy_status_t) -> atarix_policy_status_t -> Prop :=
| all_met : first_unmet [] ATARIX_POLICY_STATUS_OK
| unmet (P : Prop) status rest : ~ P -> first_unmet ((P, status) :: rest) status
| met (P : Prop) status rest status' :
    P -> first_unmet rest status' -> first_unmet ((P, status) :: rest) status'.

(** ** The code's predicates decide these conditions *)

Lemma flag_set_bit x k : 0 <= k -> flag_set x (2 ^ k) = Z.testbit x k.
Proof.
  intros Hk. unfold flag_set. destruct (Z.testbit x k) eqn:Hb.
  - apply negb_true_iff, Z.eqb_neq. intros H0. apply (f_equal (fun z => Z.testbit z k)) in H0.
    rewrite Z.land_spec, Hb, Z.pow2_bits_true, Z.bits_0 in H0 by done. done.
  - apply negb_false_iff, Z.eqb_eq, Z.bits_inj'. intros i Hi.
    rewrite Z.land_spec, Z.bits_0, Z.pow2_bits_eqb by done.
    destruct (Z.eqb_spec k i) as [<-|]; [by rewrite Hb|by rewrite andb_false_r].
Qed.

(** Numbers of rings and operations, for [lia]. *)
Ltac policy_numbers :=
  unfold ATARIX_RING_WIRE_SUPERVISOR, ATARIX_RING_WIRE_FABRIC, ATARIX_RING_WIRE_KERNEL,
    ATARIX_RING_WIRE_DRIVER, ATARIX_RING_WIRE_SERVICE, ATARIX_RING_WIRE_APPLICATION,
    ATARIX_RING_WIRE_QUARANTINE, ATARIX_RING_SUPERVISOR, ATARIX_RING_FABRIC, ATARIX_RING_KERNEL,
    ATARIX_RING_DRIVER, ATARIX_RING_SERVICE, ATARIX_RING_APPLICATION, ATARIX_RING_QUARANTINE,
    ATARIX_OPERATION_INVALID, ATARIX_OPERATION_READ, ATARIX_OPERATION_WRITE,
    ATARIX_OPERATION_CONTROL in *.

Lemma ring_range_valid_spec c :
  capability_ring_range_valid c = true <-> ring_range_wf (minimum_ring c) (maximum_ring c).
Proof.
  unfold capability_ring_range_valid, ring_range_wf. policy_numbers.
  repeat case_match; lia.
Qed.

Lemma record_valid_spec c : record_valid c = true <-> capability_wf c.
Proof.
  unfold record_valid, atarix_capability_record_validate. rewrite bool_decide_eq_true.
  pose proof (ring_range_valid_spec c) as Hr. policy_numbers. split.
  - intros H. repeat case_match; try done. rewrite negb_false_iff, ?Z.eqb_neq in *.
    constructor; try done. by apply Hr.
  - intros [H1 H2 H3 H4 H5%Hr]. rewrite H5.
    by rewrite !(proj2 (Z.eqb_neq _ _)).
Qed.

(** A refusal of the structure is always the same status. *)
Lemma record_validate_status c :
  atarix_capability_record_validate (Some c) =
  if record_valid c then ATARIX_POLICY_STATUS_OK else ATARIX_POLICY_STATUS_INVALID_CAPABILITY.
Proof. unfold record_valid, atarix_capability_record_validate. by repeat case_match. Qed.

Lemma expired_spec req c : request_capability_expired req c = false <-> in_time req c.
Proof.
  unfold request_capability_expired, in_time.
  change ATARIX_CAPABILITY_FLAG_TIME_LIMITED with (2 ^ 5). rewrite flag_set_bit by done.
  destruct (Z.testbit (flags c) 5); cbn [negb]; [|by split].
  destruct (Z.eqb_spec (expiration_or_lifetime c) 0); [split; [done|tauto]|].
  rewrite Z.ltb_ge. split; [by split|]. by intros [_ H].
Qed.

Lemma trusted_spec trust : trust_is_usable trust = true <-> trusted trust.
Proof.
  unfold trust_is_usable, trusted.
  by rewrite andb_true_iff, !negb_true_iff, !Z.eqb_neq.
Qed.

Lemma to_wire_effective ring :
  atarix_ring_to_wire ring =
  let r := effective_ring ring in
  if decide (r = ATARIX_RING_SUPERVISOR) then ATARIX_RING_WIRE_SUPERVISOR
  else if decide (r = ATARIX_RING_FABRIC) then ATARIX_RING_WIRE_FABRIC else r.
Proof.
  unfold atarix_ring_to_wire, effective_ring. policy_numbers.
  repeat (case_match; try lia).
Qed.

Lemma ring_admitted_spec ring c :
  capability_wf c -> ring_in_capability_range ring c = true <-> ring_admitted c ring.
Proof.
  intros [_ _ _ _ Hwf]. unfold ring_in_capability_range, ring_admitted, ring_range_wf in *.
  rewrite to_wire_effective. cbv zeta.
  assert (-2 <= effective_ring ring <= 4)
    by (unfold effective_ring; policy_numbers; case_decide; lia).
  generalize dependent (effective_ring ring). intros r Hr. policy_numbers.
  repeat case_match; lia.
Qed.

Lemma operation_permitted_spec c operation :
  atarix_capability_record_allows_operation (Some c) operation = true <->
  operation_permitted c operation.
Proof.
  unfold atarix_capability_record_allows_operation, operation_permitted.
  change ATARIX_CAPABILITY_FLAG_READ_ALLOWED with (2 ^ 0).
  change ATARIX_CAPABILITY_FLAG_WRITE_ALLOWED with (2 ^ 1).
  change ATARIX_CAPABILITY_FLAG_CONTROL_ALLOWED with (2 ^ 2).
  rewrite !flag_set_bit by done. policy_numbers.
  destruct (Z.eqb_spec (operation_id c) operation) as [->|]; cbn [negb]; [|intuition done].
  destruct (Z.eqb_spec operation 1); [intuition lia|].
  destruct (Z.eqb_spec operation 2); [intuition lia|].
  destruct (Z.eqb_spec operation 3); intuition lia.
Qed.

Lemma first_failure_met status rest : first_failure ((true, status) :: rest) = first_failure rest.
Proof. done. Qed.

(** A list of checks that decide conditions stops at the first that is unmet. *)
Lemma first_failure_unmet checks conditions :
  Forall2 (fun k p => k.2 = p.2 /\ (k.1 = true <-> p.1)) checks conditions ->
  first_unmet conditions (first_failure checks).
Proof.
  induction 1 as [|[b s] [P s'] checks conditions [Hs Hb] _ IH]; cbn in *; [constructor|].
  subst s'. destruct b; [by constructor; [apply Hb|]|]. constructor. intros HP%Hb. done.
Qed.

Lemma first_unmet_cons (P : Prop) s rest status :
  first_unmet ((P, s) :: rest) status <-> (~ P /\ status = s) \/ (P /\ first_unmet rest status).
Proof.
  split; [inversion 1; by auto|]. intros [[HP ->]|[HP Hrest]]; [by apply unmet|by apply met].
Qed.

(** The code's checks are the conditions of the policy, in order. *)
Lemma evaluator_unmet req c : first_unmet (policy_conditions req c) (first_failure (evaluator_guards req c)).
Proof.
  unfold evaluator_guards, policy_conditions. rewrite record_validate_status.
  destruct (record_valid c) eqn:Hv.
  - apply record_valid_spec in Hv. rewrite first_failure_met. apply met; [done|].
    apply first_failure_unmet. repeat (apply Forall2_cons; split); [..|constructor];
      (split; [done|]); cbn [fst]; rewrite ?negb_true_iff, ?Z.eqb_eq, ?expired_spec,
        ?trusted_spec, ?operation_permitted_spec; try done.
    + unfold request_capability_revoked.
      change ATARIX_POLICY_REQUEST_FLAG_CAPABILITY_REVOKED with (2 ^ 0). by rewrite flag_set_bit.
    + by apply ring_admitted_spec.
  - apply unmet. by rewrite <-record_valid_spec, Hv.
Qed.

Lemma first_unmet_met conditions status :
  first_unmet conditions status -> Forall (fun p => p.2 <> ATARIX_POLICY_STATUS_OK) conditions ->
  status = ATARIX_POLICY_STATUS_OK <-> Forall fst conditions.
Proof.
  induction 1 as [|P s rest HP|P s rest s' HP _ IH]; rewrite ?Forall_cons_iff; cbn [fst snd];
    [by split|tauto|tauto].
Qed.

Lemma policy_conditions_met req c : Forall fst (policy_conditions req c) <-> policy_permits req c.
Proof.
  unfold policy_conditions. rewrite !Forall_cons_iff. cbn [fst]. split.
  - intros (?&?&?&?&?&?&?&?&?&_). by constructor.
  - intros []. split_and!; done.
Qed.

Lemma policy_permits_iff req c :
  first_failure (evaluator_guards req c) = ATARIX_POLICY_STATUS_OK <-> policy_permits req c.
Proof.
  rewrite <-policy_conditions_met. apply first_unmet_met; [apply evaluator_unmet|].
  by repeat constructor.
Qed.

(** ** Policy evaluation *)

(** C3. Policy evaluation is complete mediation: a request with a capability is
    answered ALLOW exactly when the policy permits it and DENY exactly when it does
    not, the policy being stated on identifiers, bits of the flags, times and rings;
    the status, which the result repeats, is that of the first unmet condition in
    the code's order: structure, revocation, expiration, trust in the issuer and in
    the owner, ownership, ring, target, operation. (The decision does not depend
    on the order; the one ADR-00X prescribes is another, see [policy_order_differs].)
    The result refers to the capability exactly if it is well formed. A request
    without a capability is denied. *)
Theorem policy_evaluate_refines_policy req old :
  exists status decision matched,
    atarix_policy_evaluate (Some req) (Some old) =
      (status, Some (PolicyResult decision status matched)) /\
    match request_capability req with
    | Some c =>
      first_unmet (policy_conditions req c) status /\
      (decision = ATARIX_POLICY_DECISION_ALLOW <-> policy_permits req c) /\
      (decision = ATARIX_POLICY_DECISION_DENY <-> ~ policy_permits req c) /\
      (capability_wf c -> matched = Some c) /\ (~ capability_wf c -> matched = None)
    | None =>
      status = ATARIX_POLICY_STATUS_NULL /\ decision = ATARIX_POLICY_DECISION_DENY /\ matched = None
    end.
Proof.
  destruct (request_capability req) as [c|] eqn:Hc.
  - rewrite (policy_evaluate_first_failure _ _ _ Hc). cbv zeta.
    do 3 eexists. split; [done|]. split; [apply evaluator_unmet|].
    rewrite <-policy_permits_iff, <-record_valid_spec.
    destruct (decide _), (record_valid c); split_and!; try split; intros;
      (done || congruence || by exfalso).
  - unfold atarix_policy_evaluate. rewrite Hc. do 3 eexists. by split_and!.
Qed.

(** The documented order of the checks is not the code's: a request that names a
    revoked capability of an issuer that is not trusted is reported as revoked, where
    the document has the issuer's trust validated first; and one of another principal
    from a ring the capability does not admit is reported as a mismatch of owners,
    where the document has the ring checked first. *)
Theorem policy_order_differs req c old :
  request_capability req = Some c -> capability_wf c ->
  (Z.testbit (request_flags req) 0 = true -> ~ trusted (issuer_trust req) ->
   (atarix_policy_evaluate (Some req) (Some old)).1 = ATARIX_POLICY_STATUS_REVOKED /\
   first_unmet (documented_conditions req c) ATARIX_POLICY_STATUS_UNTRUSTED_ISSUER) /\
  (Z.testbit (request_flags req) 0 = false -> in_time req c ->
   trusted (issuer_trust req) -> trusted (owner_trust req) ->
   caller_principal_id req <> owner_principal_id req -> ~ ring_admitted c (caller_ring req) ->
   (atarix_policy_evaluate (Some req) (Some old)).1 = ATARIX_POLICY_STATUS_OWNER_MISMATCH /\
   first_unmet (documented_conditions req c) ATARIX_POLICY_STATUS_RING_DENIED).
Proof.
  intros Hc Hwf. rewrite (policy_evaluate_first_failure _ _ _ Hc). cbn [fst].
  pose proof (evaluator_unmet req c) as Hu. revert Hu.
  generalize (first_failure (evaluator_guards req c)). unfold policy_conditions. intros status Hu. split.
  - intros Hr Hi. unfold documented_conditions. rewrite Hr in Hu. rewrite !first_unmet_cons in *.
    intuition done.
  - intros. unfold documented_conditions. rewrite !first_unmet_cons in *. tauto.
Qed.

Lemma sample_capability_wf : capability_wf sample_capability.
Proof. by apply record_valid_spec. Qed.

(** The sample request is permitted; the same request at a time past the expiration
    is refused as expired. *)
Lemma policy_evaluate_refines_policy_witness :
  policy_permits (sample_request sample_capability) sample_capability /\
  first_unmet (policy_conditions (at_time (sample_request sample_capability) 1001) sample_capability)
    ATARIX_POLICY_STATUS_EXPIRED.
Proof.
  split.
  - destruct (policy_evaluate_refines_policy (sample_request sample_capability) blank_result)
      as (st & d & m & He & _ & Hallow & _). vm_compute in He. injection He as <- <- _ <-.
    by apply Hallow.
  - destruct (policy_evaluate_refines_policy (at_time (sample_request sample_capability) 1001)
      blank_result) as (st & d & m & He & Hst & _). vm_compute in He. injection He as <- <- _ <-. exact Hst.
Defined.

(** ** Delegation *)

(** What a root capability can pass on: itself well formed and marked as delegable
    (bit 3 of the flags), to a well-formed capability for the same target and
    operation with no flag that the root lacks and a range of rings inside the
    root's on wire numbers; neither names the supervisor ring. *)
Record confined (root leaf : atarix_capability_record_v1_t) : Prop := {
  cf_root : capability_wf root;
  cf_leaf : capability_wf leaf;
  cf_delegable : Z.testbit (flags root) 3 = true;
  cf_root_rings : minimum_ring root <> ATARIX_RING_WIRE_SUPERVISOR /\
    maximum_ring root <> ATARIX_RING_WIRE_SUPERVISOR;
  cf_leaf_rings : minimum_ring leaf <> ATARIX_RING_WIRE_SUPERVISOR /\
    maximum_ring leaf <> ATARIX_RING_WIRE_SUPERVISOR;
  cf_target : target_handle leaf = target_handle root;
  cf_operation : operation_id leaf = operation_id root;
  cf_flags i : 0 <= i < 32 -> Z.testbit (flags leaf) i = true -> Z.testbit (flags root) i = true;
  cf_minimum : minimum_ring root <= minimum_ring leaf;
  cf_maximum : minimum_ring root <= maximum_ring leaf <= maximum_ring root
}.

Lemma flags_subset_bits x y :
  x .& u32 (Z.lnot y) = 0 <->
  forall i, 0 <= i < 32 -> Z.testbit x i = true -> Z.testbit y i = true.
Proof.
  split.
  - intros H i Hi Hx. apply (f_equal (fun z => Z.testbit z i)) in H. unfold uint in H.
    rewrite Z.land_spec, Hx, Z.mod_pow2_bits_low, Z.lnot_spec, Z.bits_0 in H by lia.
    by destruct (Z.testbit y i).
  - intros H. apply Z.bits_inj'. intros i Hi. unfold uint. rewrite Z.land_spec, Z.bits_0.
    destruct (decide (i < 32)); [|by rewrite Z.mod_pow2_bits_high, andb_false_r by lia].
    rewrite Z.mod_pow2_bits_low, Z.lnot_spec by lia. specialize (H i).
    destruct (Z.testbit x i); [|done]. rewrite H; (done || lia).
Qed.

Lemma supervisor_authority_spec c :
  capability_uses_supervisor_authority c = false <->
  minimum_ring c <> ATARIX_RING_WIRE_SUPERVISOR /\ maximum_ring c <> ATARIX_RING_WIRE_SUPERVISOR.
Proof. unfold capability_uses_supervisor_authority. by rewrite orb_false_iff, !Z.eqb_neq. Qed.

(** One delegation is validated exactly if the child is confined. *)
Lemma delegates_confined root leaf : delegates root leaf <-> confined root leaf.
Proof.
  rewrite delegates_iff. split.
  - intros [Hp Hc Hf Hsp Hsc Ht Ho Hfl Hmin Hmm Hmax].
    constructor; try (by symmetry); try (by apply record_valid_spec);
      try (by apply supervisor_authority_spec); try done.
    + by rewrite <-flag_set_bit.
    + by apply flags_subset_bits.
  - intros [Hp Hc Hf Hsp Hsc Ht Ho Hfl Hmin [Hmm Hmax]].
    constructor; try (by symmetry); try (by apply record_valid_spec);
      try (by apply supervisor_authority_spec); try done.
    + change ATARIX_CAPABILITY_FLAG_DELEGATION_ALLOWED with (2 ^ 3). by rewrite flag_set_bit.
    + by apply flags_subset_bits.
Qed.

(** A confined capability admits only rings the root admits, unless it names the
    fabric, whose wire number is the largest of all. *)
Lemma confined_ring root leaf ring :
  confined root leaf ->
  (minimum_ring leaf = ATARIX_RING_WIRE_FABRIC -> minimum_ring root = ATARIX_RING_WIRE_FABRIC) ->
  ring_admitted leaf ring -> ring_admitted root ring.
Proof.
  intros [[_ _ _ _ Hr] [_ _ _ _ Hl] _ Hrs Hls _ _ _ Hmin Hmax] Hf.
  unfold ring_admitted, ring_range_wf in *. cbv zeta. policy_numbers.
  repeat case_decide; lia.
Qed.

Lemma confined_operation root leaf operation :
  confined root leaf -> operation_permitted leaf operation -> operation_permitted root operation.
Proof.
  intros Hc (Ho & Hr & Hw & Hk). pose proof (cf_flags _ _ Hc) as Hf.
  split; [by rewrite <-(cf_operation _ _ Hc)|].
  split_and!; intros He; (apply Hf; [lia|]); auto.
Qed.

(** C6. Delegation confines. What can be reached from a root capability by any number
    of validated delegations is exactly what is confined to it: both are well formed,
    the root is marked delegable, no supervisor ring occurs, target and operation are
    the root's, every flag is one of the root's, and the ring range lies in the root's
    on wire numbers. And it carries no authority of its own: what the policy permits
    with the last capability of the chain it permits with the root, as long as the
    root has not expired, unless the chain has moved into the fabric ring. *)
Theorem delegation_chain_confined root leaf :
  (tc (fun p c => atarix_capability_delegation_validate (Some p) (Some c) =
         ATARIX_POLICY_STATUS_OK) root leaf <-> confined root leaf) /\
  (confined root leaf ->
   (minimum_ring leaf = ATARIX_RING_WIRE_FABRIC -> minimum_ring root = ATARIX_RING_WIRE_FABRIC) ->
   forall req, in_time req root -> policy_permits req leaf -> policy_permits req root).
Proof.
  split.
  - rewrite <-delegates_confined. split; [|by constructor].
    induction 1 as [p c|p c g]; [done|]. by eapply delegates_trans.
  - intros Hc Hf req Ht [_ Hrev _ Hi Ho Hcaller Hring Htarget Hop].
    constructor; try done; [apply Hc|by eapply confined_ring| |by eapply confined_operation].
    by rewrite Htarget, (cf_target _ _ Hc).
Qed.

Lemma delegation_chain_confined_witness :
  confined sample_capability sample_grandchild /\
  policy_permits (sample_request sample_capability) sample_capability.
Proof.
  pose proof (delegation_chain_confined sample_capability sample_grandchild) as [Hchain _].
  split.
  - apply Hchain. apply (tc_l _ _ sample_delegable_child); [reflexivity|].
    apply tc_once. reflexivity.
  - refine (proj2 (delegation_chain_confined sample_capability sample_child) _ _
      (sample_request sample_capability) _ _).
    + apply delegates_confined. reflexivity.
    + intros H. discriminate H.
    + apply expired_spec. reflexivity.
    + apply policy_permits_iff. reflexivity.
Defined.
