(* ===== verification/CapabilityEngines.v ===== *)
(** * The two authorization engines

    The policy evaluator ([src/capability/capability_policy.c]) and the table
    evaluator ([src/capability/capability_evaluator.c]) decide about the same
    capability records without calling each other. What each grants is compared
    here, for one capability and one access. *)

From S2P Require Import Prelude Ring Capability.

(** The same access, asked of both: of the policy for the capability it carries,
    of the table for an entry. *)
Record same_access (req : atarix_policy_request_t) (treq : atarix_capability_request_t) : Prop := {
  sa_target : req_target_handle treq = request_target_handle req;
  sa_operation : req_operation_id treq = request_operation_id req;
  sa_ring : requester_ring treq = caller_ring req
}.

(** The parts of the policy that the table has no counterpart of. *)
Record principals_ok (req : atarix_policy_request_t) : Prop := {
  po_revoked : request_capability_revoked req = false;
  po_issuer : trust_is_usable (issuer_trust req) = true;
  po_owner : trust_is_usable (owner_trust req) = true;
  po_caller : caller_principal_id req = owner_principal_id req
}.

(** The permission flag of a standard operation. *)
Definition permission_missing (c : atarix_capability_record_v1_t) : bool :=
  ((operation_id c =? ATARIX_OPERATION_READ) &&
     negb (flag_set (flags c) ATARIX_CAPABILITY_FLAG_READ_ALLOWED)) ||
  ((operation_id c =? ATARIX_OPERATION_WRITE) &&
     negb (flag_set (flags c) ATARIX_CAPABILITY_FLAG_WRITE_ALLOWED)) ||
  ((operation_id c =? ATARIX_OPERATION_CONTROL) &&
     negb (flag_set (flags c) ATARIX_CAPABILITY_FLAG_CONTROL_ALLOWED)).

(** The supervisor asks for a capability of the fabric. *)
Definition fabric_override (ring : Z) (c : atarix_capability_record_v1_t) : bool :=
  (minimum_ring c =? ATARIX_RING_WIRE_FABRIC) &&
  (atarix_ring_to_wire ring =? ATARIX_RING_WIRE_SUPERVISOR).

(** What the table answers when its only entry is [c]. *)
Definition table_grants (treq : atarix_capability_request_t) (c : atarix_capability_record_v1_t)
  : Prop :=
  forall old, atarix_capability_evaluate (Some [c]) 1 (Some treq) (Some old) =
    Some (0, Some (CapabilityEvaluation
      (if flag_set (flags c) ATARIX_CAPABILITY_FLAG_RECOVERY_ONLY
       then ATARIX_DECISION_RECOVERY_ONLY else ATARIX_DECISION_ALLOW) (Some 0%nat) 0)).

Lemma table_grants_iff treq c :
  table_grants treq c <->
  target_handle c = req_target_handle treq /\ operation_id c = req_operation_id treq /\
  trust_requirement c <= trust_level treq /\
  ring_allows (minimum_ring c) (maximum_ring c) (requester_ring treq) = true.
Proof.
  unfold table_grants, atarix_capability_evaluate. change (Z.to_nat 1) with 1%nat.
  cbn [evaluate_from lookup list_lookup mbind option_bind].
  destruct (Z.eqb_spec (target_handle c) (req_target_handle treq)); cbn [negb];
    [|split; [intros H; by specialize (H blank_evaluation)|tauto]].
  destruct (Z.eqb_spec (operation_id c) (req_operation_id treq)); cbn [negb];
    [|split; [intros H; by specialize (H blank_evaluation)|tauto]].
  destruct (Z.ltb_spec (trust_level treq) (trust_requirement c));
    [split; [intros H'; by specialize (H' blank_evaluation)|lia]|].
  destruct (ring_allows _ _ _); cbn [negb]; [done|].
  split; [intros H'; by specialize (H' blank_evaluation)|by intros (_ & _ & _ & ?)].
Qed.

(** The table lets the supervisor use a capability of the fabric. *)
Lemma ring_allows_range ring c :
  ring_allows (minimum_ring c) (maximum_ring c) ring =
  ring_in_capability_range ring c || fabric_override ring c.
Proof.
  unfold ring_allows, ring_in_capability_range, fabric_override.
  destruct (Z.eqb_spec (minimum_ring c) ATARIX_RING_WIRE_SUPERVISOR) as [->|]; cbv zeta.
  - by rewrite orb_false_r.
  - destruct (minimum_ring c =? ATARIX_RING_WIRE_FABRIC); cbn [andb];
      [apply orb_comm|by rewrite orb_false_r].
Qed.

Lemma allows_operation_permission c op :
  operation_id c = op ->
  atarix_capability_record_allows_operation (Some c) op = negb (permission_missing c).
Proof.
  intros <-. unfold atarix_capability_record_allows_operation, permission_missing.
  rewrite Z.eqb_refl. cbn [negb].
  unfold ATARIX_OPERATION_READ, ATARIX_OPERATION_WRITE, ATARIX_OPERATION_CONTROL.
  destruct (Z.eqb_spec (operation_id c) 1), (Z.eqb_spec (operation_id c) 2),
    (Z.eqb_spec (operation_id c) 3); try lia; cbn [andb orb];
    by rewrite ?orb_false_r, ?negb_involutive.
Qed.

(** C36. The two engines, compared exactly. What the policy allows the table grants
    to a requester of the required trust; and for a valid capability and a request
    whose principals are in order, what the table grants the policy allows except
    in three cases, in which it answers with their status: the capability has
    expired, the supervisor uses a capability of the fabric, or the capability
    lacks the permission flag of its own operation. *)
Theorem engines_compared req treq c old :
  request_capability req = Some c -> same_access req treq ->
  (fst (atarix_policy_evaluate (Some req) (Some old)) = ATARIX_POLICY_STATUS_OK ->
   trust_requirement c <= trust_level treq -> table_grants treq c) /\
  (record_valid c = true -> principals_ok req -> table_grants treq c ->
   fst (atarix_policy_evaluate (Some req) (Some old)) =
   if request_capability_expired req c then ATARIX_POLICY_STATUS_EXPIRED
   else if fabric_override (caller_ring req) c then ATARIX_POLICY_STATUS_RING_DENIED
   else if permission_missing c then ATARIX_POLICY_STATUS_OPERATION_DENIED
   else ATARIX_POLICY_STATUS_OK).
Proof.
  intros Hc [Ht Ho Hr]. rewrite (policy_evaluate_first_failure req c old Hc). cbn [fst].
  rewrite table_grants_iff, Ht, Ho, Hr, ring_allows_range. split.
  - intros [_ _ _ _ _ _ Hring Htarget Hop]%evaluator_guards_ok Htrust.
    rewrite Hring. split_and!; try done.
    unfold atarix_capability_record_allows_operation in Hop.
    destruct (Z.eqb_spec (operation_id c) (request_operation_id req)); done.
  - intros Hv [Hrev Hi Hown Hcaller] (Htarget & Hop & _ & Hring). unfold evaluator_guards.
    rewrite Hv, Hrev, Hi, Hown, Hcaller, Z.eqb_refl, Htarget, Z.eqb_refl.
    rewrite (allows_operation_permission c _ Hop). cbn [first_failure negb].
    destruct (request_capability_expired req c); cbn [first_failure negb]; [done|].
    destruct (fabric_override (caller_ring req) c) eqn:Hf.
    + replace (ring_in_capability_range (caller_ring req) c) with false; [done|].
      unfold fabric_override in Hf. apply andb_true_iff in Hf as [Hm%Z.eqb_eq Hw%Z.eqb_eq].
      unfold ring_in_capability_range. by rewrite Hm, Hw.
    + rewrite orb_false_r in Hring. rewrite Hring. by destruct (permission_missing c).
Qed.

Lemma engines_compared_witness :
  fst (atarix_policy_evaluate (Some (sample_request sample_capability)) (Some blank_result)) =
    ATARIX_POLICY_STATUS_OK /\
  table_grants (sample_table_request (caller_ring (sample_request sample_capability))
    ATARIX_TRUST_TRUSTED) sample_capability.
Proof.
  assert (Hok : fst (atarix_policy_evaluate (Some (sample_request sample_capability))
    (Some blank_result)) = ATARIX_POLICY_STATUS_OK) by (vm_compute; reflexivity).
  split; [exact Hok|].
  apply (proj1 (engines_compared (sample_request sample_capability)
    (sample_table_request (caller_ring (sample_request sample_capability)) ATARIX_TRUST_TRUSTED)
    sample_capability blank_result eq_refl ltac:(split; reflexivity)) Hok).
  vm_compute. discriminate.
Defined.

(** ** Members that no decision reads *)

Definition with_mask_and_trust (c : atarix_capability_record_v1_t) (mask trust : Z)
  : atarix_capability_record_v1_t :=
  CapabilityRecord (capability_id c) (operation_id c) (target_handle c) (minimum_ring c)
    (maximum_ring c) (flags c) mask (expiration_or_lifetime c) (issuer_handle c) trust (reserved c).

(** Neither the delegation mask nor the trust requirement has an influence on
    delegation, nor the trust requirement on the policy: a zero mask does not
    prevent delegation, a child can require less trust than its parent, and a
    capability that requires a trusted issuer is accepted from any usable one. *)
Theorem mask_and_trust_not_read p c req old m1 t1 m2 t2 :
  atarix_capability_delegation_validate (Some (with_mask_and_trust p m1 t1))
    (Some (with_mask_and_trust c m2 t2)) = atarix_capability_delegation_validate (Some p) (Some c) /\
  fst (atarix_policy_evaluate (Some (with_capability req (with_mask_and_trust c m2 t2))) (Some old)) =
    fst (atarix_policy_evaluate (Some (with_capability req c)) (Some old)).
Proof.
  split; [reflexivity|].
  rewrite (policy_evaluate_first_failure (with_capability req c) c old eq_refl).
  by rewrite (policy_evaluate_first_failure (with_capability req (with_mask_and_trust c m2 t2))
    (with_mask_and_trust c m2 t2) old eq_refl).
Qed.
