(* ===== verification/Memory.v ===== *)
(** * Memory movement descriptors

    [include/atarix/memory.h] and [src/memory.c]: the 44-byte descriptor of a
    requested data movement and its validation. *)

From S2P Require Import Prelude.

(** ** memory.h *)

Definition ATARIX_MEMORY_DESCRIPTOR_MAGIC_V1 : Z := 0x584D454D.
Definition ATARIX_MEMORY_DESCRIPTOR_VERSION_V1 : Z := 1.
Definition ATARIX_MEMORY_DESCRIPTOR_MAGIC : Z := ATARIX_MEMORY_DESCRIPTOR_MAGIC_V1.
Definition ATARIX_MEMORY_DESCRIPTOR_VER_1 : Z := ATARIX_MEMORY_DESCRIPTOR_VERSION_V1.
Definition ATARIX_MEMORY_DESCRIPTOR_MAX_LENGTH_V1 : Z := 0x00100000.

Inductive atarix_memory_status_t : Type :=
| ATARIX_MEMORY_STATUS_OK
| ATARIX_MEMORY_STATUS_NULL_DESCRIPTOR
| ATARIX_MEMORY_STATUS_BAD_MAGIC
| ATARIX_MEMORY_STATUS_BAD_VERSION
| ATARIX_MEMORY_STATUS_ZERO_LENGTH
| ATARIX_MEMORY_STATUS_MISSING_CAPABILITY
| ATARIX_MEMORY_STATUS_MISSING_SOURCE
| ATARIX_MEMORY_STATUS_MISSING_DESTINATION
| ATARIX_MEMORY_STATUS_BAD_FLAGS
| ATARIX_MEMORY_STATUS_LENGTH_EXCEEDED.

#[export] Instance atarix_memory_status_eq_dec : EqDecision atarix_memory_status_t.
Proof. solve_decision. Defined.

Definition ATARIX_MEMORY_MOVE_COPY : Z := 0x01.
Definition ATARIX_MEMORY_MOVE_MOVE : Z := 0x02.
Definition ATARIX_MEMORY_MOVE_MAP : Z := 0x04.
Definition ATARIX_MEMORY_MOVE_SHARE : Z := 0x08.
Definition ATARIX_MEMORY_MOVE_FABRIC : Z := 0x10.
Definition ATARIX_MEMORY_MOVE_ZERO_COPY : Z := 0x20.

Definition ATARIX_MEMORY_MOVE_FORM_MASK : Z :=
  ATARIX_MEMORY_MOVE_COPY .| ATARIX_MEMORY_MOVE_MOVE .| ATARIX_MEMORY_MOVE_MAP
  .| ATARIX_MEMORY_MOVE_SHARE .| ATARIX_MEMORY_MOVE_FABRIC
  .| ATARIX_MEMORY_MOVE_ZERO_COPY.

Record atarix_memory_descriptor_v1_t : Type := MemoryDescriptor {
  md_magic : Z;
  md_version : Z;
  md_reserved : Z;
  md_flags : Z;
  md_source_object : Z;
  md_source_offset : Z;
  md_destination_object : Z;
  md_destination_offset : Z;
  md_length : Z;
  md_capability_id : Z;
  md_generation : Z;
  md_audit_hint : Z
}.

(** ** memory.c *)

Definition atarix_memory_exactly_one_move_form (flags : Z) : bool :=
  let forms := flags .& ATARIX_MEMORY_MOVE_FORM_MASK in
  negb (forms =? 0) && (forms .& u32 (forms - 1) =? 0) &&
  (flags .& u32 (Z.lnot ATARIX_MEMORY_MOVE_FORM_MASK) =? 0).

Definition atarix_memory_descriptor_validate
    (descriptor : option atarix_memory_descriptor_v1_t) : atarix_memory_status_t :=
  match descriptor with
  | None => ATARIX_MEMORY_STATUS_NULL_DESCRIPTOR
  | Some d =>
    if negb (md_magic d =? ATARIX_MEMORY_DESCRIPTOR_MAGIC_V1)
    then ATARIX_MEMORY_STATUS_BAD_MAGIC
    else if negb (md_version d =? ATARIX_MEMORY_DESCRIPTOR_VERSION_V1)
    then ATARIX_MEMORY_STATUS_BAD_VERSION
    else if md_length d =? 0 then ATARIX_MEMORY_STATUS_ZERO_LENGTH
    else if ATARIX_MEMORY_DESCRIPTOR_MAX_LENGTH_V1 <? md_length d
    then ATARIX_MEMORY_STATUS_LENGTH_EXCEEDED
    else if md_capability_id d =? 0 then ATARIX_MEMORY_STATUS_MISSING_CAPABILITY
    else if md_source_object d =? 0 then ATARIX_MEMORY_STATUS_MISSING_SOURCE
    else if md_destination_object d =? 0
    then ATARIX_MEMORY_STATUS_MISSING_DESTINATION
    else if negb (atarix_memory_exactly_one_move_form (md_flags d))
    then ATARIX_MEMORY_STATUS_BAD_FLAGS
    else ATARIX_MEMORY_STATUS_OK
  end.

(** Compatibility alias. *)
Definition atarix_validate_descriptor
    (descriptor : option atarix_memory_descriptor_v1_t) : atarix_memory_status_t :=
  atarix_memory_descriptor_validate descriptor.

(** ** Properties *)

(** The six movement forms. *)
Definition move_forms : list Z :=
  [ATARIX_MEMORY_MOVE_COPY; ATARIX_MEMORY_MOVE_MOVE; ATARIX_MEMORY_MOVE_MAP;
   ATARIX_MEMORY_MOVE_SHARE; ATARIX_MEMORY_MOVE_FABRIC; ATARIX_MEMORY_MOVE_ZERO_COPY].

(** A flags word without bits above the mask is below 64. *)
Lemma flags_in_mask flags :
  fits 32 flags -> flags .& u32 (Z.lnot ATARIX_MEMORY_MOVE_FORM_MASK) = 0 ->
  0 <= flags < 64.
Proof.
  intros Hf Hm. apply (fits_testbit 6); [lia|]. intros i Hi.
  destruct (decide (i < 32)); [|apply (testbit_fits 32); (done || lia)].
  apply (f_equal (fun z => Z.testbit z i)) in Hm. unfold uint in Hm.
  rewrite Z.land_spec, Z.bits_0, Z.mod_pow2_bits_low, Z.lnot_spec in Hm by lia.
  change ATARIX_MEMORY_MOVE_FORM_MASK with (Z.ones 6) in Hm.
  rewrite Z.ones_spec_high in Hm by lia. by rewrite andb_true_r in Hm.
Qed.

(** The bit trick decides membership in the six forms, by exhaustion. *)
Lemma exactly_one_move_form_iff flags :
  fits 32 flags ->
  atarix_memory_exactly_one_move_form flags = true <-> flags ∈ move_forms.
Proof.
  intros Hf. split.
  - intros H. assert (Hr : 0 <= flags < 64).
    { apply flags_in_mask; [done|]. unfold atarix_memory_exactly_one_move_form in H.
      apply andb_true_iff in H as [_ H]. by apply Z.eqb_eq. }
    assert (Hall : forallb (fun f => implb (atarix_memory_exactly_one_move_form f)
      (bool_decide (f ∈ move_forms))) (seqZ 0 64) = true) by (by vm_compute).
    rewrite forallb_forall in Hall. specialize (Hall flags).
    rewrite <-list_elem_of_In, elem_of_seqZ, H in Hall.
    specialize (Hall Hr). cbn [implb] in Hall. by apply bool_decide_eq_true in Hall.
  - unfold move_forms. rewrite !list_elem_of_In. simpl.
    intros [<-|[<-|[<-|[<-|[<-|[<-|[]]]]]]]; by vm_compute.
Qed.

(** What an accepted descriptor guarantees. *)
Record descriptor_wf (d : atarix_memory_descriptor_v1_t) : Prop := {
  wf_magic : md_magic d = ATARIX_MEMORY_DESCRIPTOR_MAGIC_V1;
  wf_version : md_version d = ATARIX_MEMORY_DESCRIPTOR_VERSION_V1;
  wf_length : 1 <= md_length d <= 2 ^ 20;
  wf_capability : md_capability_id d <> 0;
  wf_source : md_source_object d <> 0;
  wf_destination : md_destination_object d <> 0;
  wf_form : md_flags d ∈ move_forms
}.

(** C39. A descriptor is accepted exactly when it is well formed: right magic
    and version, a length from 1 byte to 1 MiB, a capability, a source and a
    destination, and exactly one of the six movement forms with no other flag
    bit (which the bit-trick test of the code decides). The alias gives the
    same answer. *)
Theorem memory_descriptor_validate_iff d :
  fits 32 (md_flags d) -> 0 <= md_length d ->
  (atarix_memory_descriptor_validate (Some d) = ATARIX_MEMORY_STATUS_OK <->
   descriptor_wf d) /\
  atarix_validate_descriptor (Some d) = atarix_memory_descriptor_validate (Some d).
Proof.
  intros Hf Hl. split; [|done]. pose proof (exactly_one_move_form_iff _ Hf) as Hone.
  unfold atarix_memory_descriptor_validate, ATARIX_MEMORY_DESCRIPTOR_MAX_LENGTH_V1. split.
  - unfold negb. repeat case_match; try done. intros _.
    rewrite ?Z.eqb_eq, ?Z.eqb_neq, ?Z.ltb_ge in *. constructor; try done; [lia|by apply Hone].
  - intros [Hm Hv Hlen Hc Hs Hd Hform].
    apply Hone in Hform. rewrite Hm, Hv, Hform, !Z.eqb_refl. simpl.
    rewrite (proj2 (Z.ltb_ge _ _)) by lia.
    by rewrite !(proj2 (Z.eqb_neq _ _)) by (done || lia).
Qed.

Definition sample_descriptor : atarix_memory_descriptor_v1_t :=
  MemoryDescriptor ATARIX_MEMORY_DESCRIPTOR_MAGIC_V1 1 0 ATARIX_MEMORY_MOVE_SHARE
    10 0 20 0 4096 30 1 0.

Lemma memory_descriptor_validate_iff_witness :
  atarix_memory_descriptor_validate (Some sample_descriptor) = ATARIX_MEMORY_STATUS_OK /\
  descriptor_wf sample_descriptor.
Proof.
  split; [reflexivity|].
  refine (proj1 (proj1 (memory_descriptor_validate_iff sample_descriptor _ _)) _).
  - vm_compute. split; [discriminate|reflexivity].
  - vm_compute. discriminate.
  - reflexivity.
Defined.
