(* ===== verification/Sim.v ===== *)
(** * Simulated fabric: nodes, registry, mailbox endpoints

    [include/atarix/sim_node.h], [sim_fabric.h], [sim_mailbox.h] and
    [src/sim/sim_node.c], [sim_fabric.c], [sim_mailbox.c]. Nodes and payload
    buffers are shared objects: the fabric table, the endpoints and the callers
    hold pointers to the same node, and a packet holds a pointer to a payload
    its sender still owns. They live in a store ([world]) and pointers are
    keys of that store, so that aliasing is what it is in C. A pointer that is
    neither NULL nor in the store is a memory fault ([None]). *)

From S2P Require Import Prelude Crc Ring Mailbox.
From stdpp Require Import gmap strings.
#[local] Open Scope Z_scope.

Abbreviation loc := positive.

(** ** The store *)

Record atarix_sim_node_t : Type := SimNode {
  node_id : Z;
  node_name : option string;
  tx_count : Z;
  rx_count : Z
}.

Record world : Type := World {
  nodes : gmap loc atarix_sim_node_t;
  buffers : gmap loc bytes
}.

Definition set_node (w : world) (l : loc) (n : atarix_sim_node_t) : world :=
  World (<[l := n]> (nodes w)) (buffers w).

(** ** sim_node.c *)

Definition atarix_sim_node_init (node : option loc) (id : Z) (name : option string)
    (w : world) : option world :=
  match node with
  | None => Some w
  | Some l => _ ← nodes w !! l; Some (set_node w l (SimNode id name 0 0))
  end.

Definition atarix_sim_node_record_tx (node : option loc) (w : world) : option world :=
  match node with
  | None => Some w
  | Some l =>
    n ← nodes w !! l;
    Some (set_node w l (SimNode (node_id n) (node_name n) (u32 (tx_count n + 1)) (rx_count n)))
  end.

Definition atarix_sim_node_record_rx (node : option loc) (w : world) : option world :=
  match node with
  | None => Some w
  | Some l =>
    n ← nodes w !! l;
    Some (set_node w l (SimNode (node_id n) (node_name n) (tx_count n) (u32 (rx_count n + 1))))
  end.

(** ** sim_fabric.h and sim_fabric.c *)

Definition ATARIX_SIM_FABRIC_MAX_NODES : nat := 256.

Inductive atarix_sim_fabric_status_t : Type :=
| ATARIX_SIM_FABRIC_STATUS_OK
| ATARIX_SIM_FABRIC_STATUS_NULL
| ATARIX_SIM_FABRIC_STATUS_DUPLICATE_NODE
| ATARIX_SIM_FABRIC_STATUS_FULL
| ATARIX_SIM_FABRIC_STATUS_NOT_FOUND.

#[export] Instance atarix_sim_fabric_status_eq_dec : EqDecision atarix_sim_fabric_status_t.
Proof. solve_decision. Defined.

Record atarix_sim_fabric_slot_t : Type := FabricSlot {
  slot_node_id : Z;
  slot_node : option loc
}.

(** [slots] is the array of 256 slots. *)
Record atarix_sim_fabric_t : Type := SimFabric {
  slots : list atarix_sim_fabric_slot_t;
  node_count : nat
}.

(** [memset(fabric, 0, sizeof *fabric)]. *)
Definition atarix_sim_fabric_init (fabric : option atarix_sim_fabric_t)
  : option atarix_sim_fabric_t :=
  match fabric with
  | None => None
  | Some _ =>
    Some (SimFabric (replicate ATARIX_SIM_FABRIC_MAX_NODES (FabricSlot 0 None)) 0)
  end.

(** The scan [for (i = 0; i < node_count; ++i)] both operations make for the
    slot of an identifier: entered at [i] with [n] slots to go, it gives the
    index of the slot it stops at. *)
Fixpoint scan_slots (n i : nat) (sl : list atarix_sim_fabric_slot_t) (id : Z)
  : option (option nat) :=
  match n with
  | O => Some None
  | S n' =>
    s ← sl !! i;
    if slot_node_id s =? id then Some (Some i) else scan_slots n' (S i) sl id
  end.

Definition atarix_sim_fabric_attach (fabric : option atarix_sim_fabric_t)
    (node : option loc) (w : world)
  : option (atarix_sim_fabric_status_t * option atarix_sim_fabric_t) :=
  match fabric, node with
  | Some f, Some l =>
    n ← nodes w !! l;
    found ← scan_slots (node_count f) 0 (slots f) (node_id n);
    match found with
    | Some _ => Some (ATARIX_SIM_FABRIC_STATUS_DUPLICATE_NODE, fabric)
    | None =>
      if bool_decide (ATARIX_SIM_FABRIC_MAX_NODES <= node_count f)%nat
      then Some (ATARIX_SIM_FABRIC_STATUS_FULL, fabric)
      else
        _ ← slots f !! node_count f;
        Some (ATARIX_SIM_FABRIC_STATUS_OK,
              Some (SimFabric
                (<[node_count f := FabricSlot (node_id n) (Some l)]> (slots f))
                (S (node_count f))))
    end
  | _, _ => Some (ATARIX_SIM_FABRIC_STATUS_NULL, fabric)
  end.

Definition atarix_sim_fabric_lookup (fabric : option atarix_sim_fabric_t) (id : Z)
  : option (option loc) :=
  match fabric with
  | None => Some None
  | Some f =>
    found ← scan_slots (node_count f) 0 (slots f) id;
    match found with
    | Some i => s ← slots f !! i; Some (slot_node s)
    | None => Some None
    end
  end.

Definition atarix_sim_fabric_node_count (fabric : option atarix_sim_fabric_t) : nat :=
  match fabric with None => 0%nat | Some f => node_count f end.

(** ** sim_mailbox.h and sim_mailbox.c *)

Record atarix_sim_mailbox_packet_t : Type := SimPacket {
  pk_header : atarix_mailbox_header_v1_t;
  pk_payload : option loc;
  pk_payload_length : Z
}.

Record atarix_sim_mailbox_endpoint_t : Type := SimEndpoint {
  ep_node : option loc;
  ep_rx_window : atarix_mailbox_sequence_window_t
}.

Definition atarix_sim_mailbox_endpoint_init (endpoint : option atarix_sim_mailbox_endpoint_t)
    (node : option loc) : option atarix_sim_mailbox_endpoint_t :=
  match endpoint with
  | None => None
  | Some _ => Some (SimEndpoint node (SequenceWindow 0 0))
  end.

(** The bytes a payload pointer points at now; nothing can be read through a
    dangling pointer. *)
Definition payload_bytes (w : world) (payload : option loc) : option bytes :=
  match payload with
  | None => None
  | Some l => Some (default [] (buffers w !! l))
  end.

Definition atarix_sim_mailbox_send (source : option loc)
    (packet : option atarix_sim_mailbox_packet_t) (type sequence : Z)
    (payload : option loc) (payload_length : Z) (w : world)
  : option (atarix_mailbox_status_t * world * option atarix_sim_mailbox_packet_t) :=
  match source, packet with
  | Some _, Some p =>
    if bool_decide (payload = None) && negb (payload_length =? 0)
    then Some (ATARIX_MAILBOX_STATUS_NULL, w, packet)
    else
      r ← atarix_mailbox_build_header (Some (pk_header p)) type sequence
            (payload_bytes w payload) payload_length;
      match r with
      | (ATARIX_MAILBOX_STATUS_OK, Some h) =>
        w' ← atarix_sim_node_record_tx source w;
        Some (ATARIX_MAILBOX_STATUS_OK, w', Some (SimPacket h payload payload_length))
      | (status, _) => Some (status, w, packet)
      end
  | _, _ => Some (ATARIX_MAILBOX_STATUS_NULL, w, packet)
  end.

Definition atarix_sim_mailbox_receive (destination : option atarix_sim_mailbox_endpoint_t)
    (packet : option atarix_sim_mailbox_packet_t) (w : world)
  : option (atarix_mailbox_status_t * world * option atarix_sim_mailbox_endpoint_t) :=
  match destination, packet with
  | Some ep, Some p =>
    if bool_decide (ep_node ep = None)
    then Some (ATARIX_MAILBOX_STATUS_NULL, w, destination)
    else
      status ← atarix_mailbox_validate_header (Some (pk_header p))
                 (payload_bytes w (pk_payload p)) (pk_payload_length p);
      match status with
      | ATARIX_MAILBOX_STATUS_OK =>
        match atarix_mailbox_sequence_accept (Some (ep_rx_window ep))
                (mh_sequence (pk_header p)) with
        | (ATARIX_MAILBOX_STATUS_OK, Some win) =>
          w' ← atarix_sim_node_record_rx (ep_node ep) w;
          Some (ATARIX_MAILBOX_STATUS_OK, w', Some (SimEndpoint (ep_node ep) win))
        | (status', _) => Some (status', w, destination)
        end
      | _ => Some (status, w, destination)
      end
  | _, _ => Some (ATARIX_MAILBOX_STATUS_NULL, w, destination)
  end.

(** ** The fabric registry *)

Lemma scan_slots_spec n i sl id :
  (i + n <= length sl)%nat ->
  (exists j s, scan_slots n i sl id = Some (Some j) /\ (i <= j < i + n)%nat /\
     sl !! j = Some s /\ slot_node_id s = id) \/
  (scan_slots n i sl id = Some None /\
   forall j s, (i <= j < i + n)%nat -> sl !! j = Some s -> slot_node_id s <> id).
Proof.
  revert i. induction n as [|n IH]; intros i Hl; simpl.
  { right. split; [done|]. intros; lia. }
  destruct (lookup_lt_is_Some_2 sl i) as [s Hs]; [lia|]. rewrite Hs. simpl.
  destruct (Z.eqb_spec (slot_node_id s) id) as [Heq|Hne].
  { left. exists i, s. split_and!; try done; lia. }
  destruct (IH (S i)) as [(j & s' & ? & ? & ? & ?)|[Hn Hall]]; [lia| |].
  - left. exists j, s'. split_and!; try done; lia.
  - right. split; [done|]. intros j s' Hj Hs'.
    destruct (decide (j = i)) as [->|]; [congruence|]. apply (Hall j s'); [lia|done].
Qed.

(** Abstract specification: a finite map from identifiers to nodes with room
    for 256 entries. *)
Definition registry_attach (m : gmap Z loc) (id : Z) (l : loc)
  : atarix_sim_fabric_status_t * gmap Z loc :=
  if decide (is_Some (m !! id)) then (ATARIX_SIM_FABRIC_STATUS_DUPLICATE_NODE, m)
  else if decide (ATARIX_SIM_FABRIC_MAX_NODES <= size m)%nat
  then (ATARIX_SIM_FABRIC_STATUS_FULL, m)
  else (ATARIX_SIM_FABRIC_STATUS_OK, <[id := l]> m).

(** The table represents the map: the first [node_count] slots are its entries,
    with distinct identifiers. *)
Record fabric_repr (f : atarix_sim_fabric_t) (m : gmap Z loc) : Prop := {
  fr_length : length (slots f) = ATARIX_SIM_FABRIC_MAX_NODES;
  fr_count : node_count f = size m;
  fr_bound : (node_count f <= ATARIX_SIM_FABRIC_MAX_NODES)%nat;
  fr_distinct i j s t :
    (i < node_count f)%nat -> (j < node_count f)%nat ->
    slots f !! i = Some s -> slots f !! j = Some t ->
    slot_node_id s = slot_node_id t -> i = j;
  fr_entries id l :
    m !! id = Some l <->
    exists i, (i < node_count f)%nat /\ slots f !! i = Some (FabricSlot id (Some l));
  fr_nodes i s : (i < node_count f)%nat -> slots f !! i = Some s -> is_Some (slot_node s)
}.

Lemma fabric_init_repr f : exists f',
  atarix_sim_fabric_init (Some f) = Some f' /\ fabric_repr f' ∅.
Proof.
  eexists. split; [done|]. constructor; simpl; try done; try lia.
  intros id l. rewrite lookup_empty. split; [done|]. intros (i & ? & _). lia.
Qed.

Lemma fabric_repr_found f m id i s :
  fabric_repr f m -> (i < node_count f)%nat -> slots f !! i = Some s ->
  slot_node_id s = id -> m !! id = slot_node s.
Proof.
  intros Hr Hi Hs Hid. destruct (fr_nodes _ _ Hr i s Hi Hs) as [l Hl].
  rewrite Hl. apply (fr_entries _ _ Hr). exists i. split; [done|].
  destruct s. simpl in *. by subst.
Qed.

Lemma fabric_repr_not_found f m id :
  fabric_repr f m ->
  (forall j s, (0 <= j < 0 + node_count f)%nat -> slots f !! j = Some s -> slot_node_id s <> id) ->
  m !! id = None.
Proof.
  intros Hr Hn. destruct (m !! id) eqn:Hm; [|done].
  apply (fr_entries _ _ Hr) in Hm as (i & Hi & Hs). exfalso. by apply (Hn i _ ltac:(lia) Hs).
Qed.

Lemma fabric_lookup_repr f m id :
  fabric_repr f m -> atarix_sim_fabric_lookup (Some f) id = Some (m !! id).
Proof.
  intros Hr. unfold atarix_sim_fabric_lookup.
  destruct (scan_slots_spec (node_count f) 0 (slots f) id)
    as [(j & s & -> & Hj & Hs & Hid)|[-> Hn]].
  - rewrite (fr_length _ _ Hr). apply Hr.
  - cbn [mbind option_bind]. rewrite Hs. simpl.
    by rewrite (fabric_repr_found f m id j s) by (done || lia).
  - simpl. by rewrite (fabric_repr_not_found f m id).
Qed.

(** Appending a fresh slot adds one entry to the map. *)
Lemma fabric_repr_insert f m id l :
  fabric_repr f m -> m !! id = None -> (node_count f < ATARIX_SIM_FABRIC_MAX_NODES)%nat ->
  fabric_repr (SimFabric (<[node_count f := FabricSlot id (Some l)]> (slots f))
    (S (node_count f))) (<[id := l]> m).
Proof.
  intros Hr Hid Hlt. pose proof (fr_length _ _ Hr) as Hlen.
  assert (Hnew : forall i s, (i < S (node_count f))%nat ->
    <[node_count f := FabricSlot id (Some l)]> (slots f) !! i = Some s ->
    (i = node_count f /\ s = FabricSlot id (Some l)) \/
    ((i < node_count f)%nat /\ slots f !! i = Some s /\ slot_node_id s <> id)).
  { intros i s Hi. destruct (decide (i = node_count f)) as [->|Hne].
    - rewrite list_lookup_insert_eq by lia. intros [= <-]. by left.
    - rewrite list_lookup_insert_ne by done. intros Hs. right. split_and!; [lia|done|].
      intros Heq. destruct (fr_nodes _ _ Hr i s) as [k Hk]; [lia|done|].
      rewrite (fabric_repr_found f m id i s) in Hid by (done || lia). congruence. }
  constructor; simpl.
  - by rewrite length_insert.
  - rewrite map_size_insert_None by done. f_equal. apply Hr.
  - lia.
  - intros i j s t Hi Hj Hs Ht Heq.
    destruct (Hnew i s Hi Hs) as [[-> ->]|(? & ? & ?)],
      (Hnew j t Hj Ht) as [[-> ->]|(? & ? & ?)]; simpl in *; try congruence.
    by apply (fr_distinct _ _ Hr i j s t).
  - intros id' l'. destruct (decide (id' = id)) as [->|Hne].
    + rewrite lookup_insert_eq. split.
      * intros [= <-]. exists (node_count f). split; [lia|]. by rewrite list_lookup_insert_eq by lia.
      * intros (i & Hi & Hs). destruct (Hnew _ _ Hi Hs) as [[_ [= ->]]|(_ & _ & [])]; done.
    + rewrite lookup_insert_ne by done. rewrite (fr_entries _ _ Hr id' l'). split.
      * intros (i & Hi & Hs). exists i. split; [lia|].
        by rewrite list_lookup_insert_ne by lia.
      * intros (i & Hi & Hs). destruct (Hnew _ _ Hi Hs) as [[_ [= -> ->]]|(? & ? & _)];
          [done|by exists i].
  - intros i s Hi Hs. destruct (Hnew i s Hi Hs) as [[_ ->]|(? & ? & _)]; [done|].
    by apply (fr_nodes _ _ Hr i).
Qed.

Lemma fabric_attach_repr f m l n w :
  fabric_repr f m -> nodes w !! l = Some n ->
  exists f', atarix_sim_fabric_attach (Some f) (Some l) w =
      Some ((registry_attach m (node_id n) l).1, Some f') /\
    fabric_repr f' (registry_attach m (node_id n) l).2.
Proof.
  intros Hr Hn. unfold atarix_sim_fabric_attach, registry_attach. rewrite Hn.
  cbn [mbind option_bind].
  destruct (scan_slots_spec (node_count f) 0 (slots f) (node_id n))
    as [(j & s & -> & Hj & Hs & Hid)|[-> Hnf]].
  - rewrite (fr_length _ _ Hr). apply Hr.
  - exists f. cbn [mbind option_bind].
    rewrite decide_True; [done|].
    rewrite (fabric_repr_found f m (node_id n) j s) by (done || lia).
    apply (fr_nodes _ _ Hr j); [lia|done].
  - apply (fabric_repr_not_found f m) in Hnf as Hm; [|done].
    rewrite Hm, decide_False by (by intros []). cbn [mbind option_bind].
    rewrite <-(fr_count _ _ Hr). case_bool_decide; case_decide; try done; [by exists f|].
    destruct (lookup_lt_is_Some_2 (slots f) (node_count f)) as [s ->].
    { rewrite (fr_length _ _ Hr). lia. }
    eexists. split; [done|]. apply fabric_repr_insert; [done|done|lia].
Qed.

(** A history of attach calls, each made in the store of its moment: the
    statuses returned and the final table. *)
Fixpoint attach_all (f : atarix_sim_fabric_t) (calls : list (world * loc))
  : option (list atarix_sim_fabric_status_t * atarix_sim_fabric_t) :=
  match calls with
  | [] => Some ([], f)
  | (w, l) :: rest =>
    r ← atarix_sim_fabric_attach (Some f) (Some l) w;
    match r with
    | (st, Some f') => r' ← attach_all f' rest; Some (st :: r'.1, r'.2)
    | (_, None) => None
    end
  end.

Fixpoint registry_all (m : gmap Z loc) (calls : list (world * loc))
  : list atarix_sim_fabric_status_t * gmap Z loc :=
  match calls with
  | [] => ([], m)
  | (w, l) :: rest =>
    let r := registry_attach m (from_option node_id 0 (nodes w !! l)) l in
    let r' := registry_all r.2 rest in (r.1 :: r'.1, r'.2)
  end.

Lemma attach_all_repr calls f m :
  fabric_repr f m -> Forall (fun c => is_Some (nodes c.1 !! c.2)) calls ->
  exists f', attach_all f calls = Some ((registry_all m calls).1, f') /\
    fabric_repr f' (registry_all m calls).2.
Proof.
  intros Hr Hc. revert f m Hr.
  induction Hc as [|[w l] calls [n Hn] _ IH]; intros f m Hr; [by exists f|].
  cbn [attach_all registry_all fst snd] in *. rewrite Hn. cbn [from_option].
  destruct (fabric_attach_repr f m l n w Hr Hn) as (f' & -> & Hr').
  destruct (IH _ _ Hr') as (f'' & He & Hr''). exists f''. simpl. by rewrite He.
Qed.

(** The fabric table implements a finite map with 256 entries: after any
    history of attach calls on existing nodes, starting from an initialized
    table, the statuses are those of the map, every lookup returns the node
    the map holds (NULL when there is none), the count is the size of the map,
    and no slot outside the array was touched. *)
Theorem fabric_refines_registry garbage calls :
  Forall (fun c => is_Some (nodes c.1 !! c.2)) calls ->
  exists f0 f,
    atarix_sim_fabric_init (Some garbage) = Some f0 /\
    attach_all f0 calls = Some ((registry_all ∅ calls).1, f) /\
    (forall id, atarix_sim_fabric_lookup (Some f) id = Some ((registry_all ∅ calls).2 !! id)) /\
    atarix_sim_fabric_node_count (Some f) = size (registry_all ∅ calls).2 /\
    (size (registry_all ∅ calls).2 <= ATARIX_SIM_FABRIC_MAX_NODES)%nat.
Proof.
  intros Hc. destruct (fabric_init_repr garbage) as (f0 & Hi & Hr).
  destruct (attach_all_repr calls f0 ∅ Hr Hc) as (f & Ha & Hr').
  exists f0, f. split_and!; try done.
  - intros id. by apply fabric_lookup_repr.
  - apply Hr'.
  - rewrite <-(fr_count _ _ Hr'). apply Hr'.
Qed.

Definition sample_world : world :=
  World {[ 1%positive := SimNode 0x100 None 0 0; 2%positive := SimNode 0x200 None 0 0;
           3%positive := SimNode 0x100 None 0 0 ]} {[ 9%positive := [1; 2; 3] ]}.

Lemma fabric_refines_registry_witness :
  exists f, attach_all (SimFabric (replicate 256 (FabricSlot 0 None)) 0)
      [(sample_world, 1%positive); (sample_world, 2%positive); (sample_world, 3%positive)] =
    Some ([ATARIX_SIM_FABRIC_STATUS_OK; ATARIX_SIM_FABRIC_STATUS_OK;
           ATARIX_SIM_FABRIC_STATUS_DUPLICATE_NODE], f) /\
    atarix_sim_fabric_lookup (Some f) 0x200 = Some (Some 2%positive).
Proof.
  destruct (fabric_refines_registry (SimFabric [] 0)
    [(sample_world, 1%positive); (sample_world, 2%positive); (sample_world, 3%positive)])
    as (f0 & f & Hi & Ha & Hl & _).
  { repeat constructor; eexists; reflexivity. }
  injection Hi as <-. exists f. split; [exact Ha|]. rewrite Hl. reflexivity.
Defined.

(** ** Transport between two nodes *)

(** Closed form of a receive: the packet is accepted exactly when its header
    matches the payload as it is now and its sequence number is the expected
    one; every other packet changes nothing. *)
Lemma sim_receive_spec ep p w bs l n :
  ep_node ep = Some l -> nodes w !! l = Some n ->
  payload_at (payload_bytes w (pk_payload p)) (pk_payload_length p) bs ->
  exists status,
    (status = ATARIX_MAILBOX_STATUS_OK /\ header_matches (pk_header p) bs /\
     exists win,
       atarix_mailbox_sequence_accept (Some (ep_rx_window ep)) (mh_sequence (pk_header p)) =
         (ATARIX_MAILBOX_STATUS_OK, Some win) /\
       atarix_sim_mailbox_receive (Some ep) (Some p) w =
         Some (status,
           set_node w l (SimNode (node_id n) (node_name n) (tx_count n) (u32 (rx_count n + 1))),
           Some (SimEndpoint (Some l) win))) \/
    (status <> ATARIX_MAILBOX_STATUS_OK /\
     atarix_sim_mailbox_receive (Some ep) (Some p) w = Some (status, w, Some ep)).
Proof.
  intros Hep Hn Hp. unfold atarix_sim_mailbox_receive.
  rewrite Hep, bool_decide_false by done.
  destruct (validate_header_iff (pk_header p) _ _ bs Hp) as (status & -> & Hiff).
  cbn [mbind option_bind].
  destruct (decide (status = ATARIX_MAILBOX_STATUS_OK)) as [->|Hne].
  - destruct (atarix_mailbox_sequence_accept _ _) as [st o] eqn:Hacc.
    destruct (decide (st = ATARIX_MAILBOX_STATUS_OK)) as [->|Hst].
    + apply sequence_accept_window in Hacc as Ho. destruct Ho as [win ->].
      exists ATARIX_MAILBOX_STATUS_OK. left. split_and!; [done|by apply Hiff|].
      exists win. split; [done|]. cbn. by rewrite Hn.
    + exists st. right. split; [done|]. by destruct st.
  - exists status. right. split; [done|]. by destruct status.
Qed.

(** A payload altered in flight is not delivered: a packet that was built
    by send and whose payload buffer has since been changed in at most four
    consecutive bytes is answered CRC_MISMATCH, and neither the endpoint nor
    any node changes. *)
Theorem sim_receive_rejects_corruption ep l p w bl pre xs ys post :
  ep_node ep = Some l -> pk_payload p = Some bl ->
  buffers w !! bl = Some (pre ++ ys ++ post) ->
  pk_payload_length p = blen (pre ++ ys ++ post) ->
  header_matches (pk_header p) (pre ++ xs ++ post) ->
  bytes_ok (pre ++ xs ++ post) -> bytes_ok ys ->
  length xs = length ys -> (length xs <= 4)%nat -> xs <> ys ->
  atarix_sim_mailbox_receive (Some ep) (Some p) w =
    Some (ATARIX_MAILBOX_STATUS_CRC_MISMATCH, w, Some ep).
Proof.
  intros Hep Hpl Hb Hl (Hm & Ht & Hlen & Hmax & Hcrc) Hok Hys Hxy H4 Hne.
  unfold atarix_sim_mailbox_receive. rewrite Hep, bool_decide_false by done.
  assert (Hp : payload_at (payload_bytes w (pk_payload p)) (pk_payload_length p)
    (pre ++ ys ++ post)).
  { rewrite Hpl, Hl. simpl. rewrite Hb. simpl.
    rewrite <-(app_nil_r (pre ++ ys ++ post)) at 1. by apply (load_bytes_app []). }
  apply Forall_app in Hok as [Hpre Hok]. apply Forall_app in Hok as [Hxs Hpost].
  pose proof (checksum_burst (f := payload_crc) pre xs ys post) as Hburst.
  unfold atarix_mailbox_validate_header.
  rewrite (payload_at_not_null _ _ _ Hp), (payload_at_crc _ _ _ Hp).
  cbn [mbind option_bind]. rewrite Hm, Z.eqb_refl, Ht, Hlen, Hcrc, Hl. cbn [negb].
  assert (blen (pre ++ xs ++ post) = blen (pre ++ ys ++ post)) as Hbl.
  { rewrite !blen_app. unfold blen at 2 5. by rewrite Hxy. }
  rewrite <-Hbl, Z.eqb_refl, (proj2 (Z.ltb_ge _ _)) by exact Hmax. cbn [negb orb].
  rewrite (proj2 (Z.eqb_neq _ _)); [done|]. apply not_eq_sym. by apply Hburst.
Qed.

Lemma sim_receive_rejects_corruption_witness :
  atarix_sim_mailbox_receive (Some (SimEndpoint (Some 2%positive) (SequenceWindow 0 0)))
    (Some (SimPacket (MailboxHeader ATARIX_MAILBOX_MAGIC_V1 1 3 0 0xB64859D6)
             (Some 9%positive) 3)) sample_world =
  Some (ATARIX_MAILBOX_STATUS_CRC_MISMATCH, sample_world,
        Some (SimEndpoint (Some 2%positive) (SequenceWindow 0 0))).
Proof.
  apply (sim_receive_rejects_corruption _ 2%positive _ _ 9%positive [1] [9] [2] [3]).
  - reflexivity.
  - reflexivity.
  - reflexivity.
  - reflexivity.
  - vm_compute. repeat split; discriminate.
  - by repeat constructor.
  - by repeat constructor.
  - reflexivity.
  - simpl. lia.
  - intros H. discriminate H.
Defined.

(** *** Runs of sequence numbers *)

Definition packet_sequence (p : atarix_sim_mailbox_packet_t) : Z :=
  mh_sequence (pk_header p).

(** The window has accepted exactly the delivered run. *)
Definition window_after (delivered : list Z) (win : atarix_mailbox_sequence_window_t)
  : Prop :=
  match delivered with
  | [] => initialized win = 0
  | first :: _ =>
    initialized win <> 0 /\ fits 32 (last_sequence win) /\
    delivered = seqZ first (last_sequence win - first + 1)
  end.

Lemma window_after_accept delivered win sq win' :
  window_after delivered win -> fits 32 sq ->
  atarix_mailbox_sequence_accept (Some win) sq = (ATARIX_MAILBOX_STATUS_OK, Some win') ->
  window_after (delivered ++ [sq]) win'.
Proof.
  intros Hw Hs Hacc. destruct delivered as [|first delivered].
  - unfold window_after in Hw. unfold atarix_mailbox_sequence_accept in Hacc.
    rewrite Hw in Hacc. injection Hacc as <-. simpl. split_and!; try done.
    by rewrite Z.sub_diag.
  - destruct Hw as (Hi & Hf & Hd).
    destruct (sequence_accept_initialized win sq Hi Hs Hf)
      as [[Heq Hok]|(_ & status & Hne & Hok)]; rewrite Hok in Hacc; [|congruence].
    injection Hacc as <-. simpl. split_and!; try done.
    rewrite app_comm_cons, Hd.
    assert (0 < last_sequence win - first + 1).
    { destruct (decide (0 < last_sequence win - first + 1)); [done|].
      by rewrite seqZ_nil in Hd by lia. }
    subst sq. replace (last_sequence win + 1 - first + 1)
      with (last_sequence win - first + 1 + 1) by lia.
    rewrite (seqZ_app first (last_sequence win - first + 1) 1) by lia. f_equal.
    replace (first + (last_sequence win - first + 1)) with (last_sequence win + 1) by lia.
    by rewrite (seqZ_cons _ 1) by lia.
Qed.

Lemma u32_succ n : u32 (u32 (Z.of_nat n) + 1) = u32 (Z.of_nat (S n)).
Proof. unfold uint. rewrite Z.add_mod_idemp_l by lia. f_equal. lia. Qed.

(** The packet verifies against the memory it refers to. *)
Definition intact (w : world) (p : atarix_sim_mailbox_packet_t) : Prop :=
  atarix_mailbox_validate_header (Some (pk_header p)) (payload_bytes w (pk_payload p))
    (pk_payload_length p) = Some ATARIX_MAILBOX_STATUS_OK.

(** The sequence numbers are one consecutive run. *)
Definition consecutive (ps : list atarix_sim_mailbox_packet_t) : Prop :=
  exists first k, packet_sequence <$> ps = seqZ first k.

(** The window accepts the number that continues the run. *)
Lemma window_accepts_next delivered win sq l first k :
  window_after delivered win -> fits 32 sq -> delivered ++ sq :: l = seqZ first k ->
  exists win', atarix_mailbox_sequence_accept (Some win) sq = (ATARIX_MAILBOX_STATUS_OK, Some win').
Proof.
  intros Hw Hs Hrun. destruct delivered as [|d delivered].
  - unfold window_after in Hw. unfold atarix_mailbox_sequence_accept. rewrite Hw. by eexists.
  - destruct Hw as (Hi & Hf & Hd).
    assert (Hlast : 0 < last_sequence win - d + 1).
    { destruct (decide (0 < last_sequence win - d + 1)); [done|]. by rewrite seqZ_nil in Hd by lia. }
    assert (d = first) as ->.
    { assert (H0 : seqZ first k !! 0%nat = Some d) by (by rewrite <-Hrun).
      apply lookup_seqZ in H0 as [-> _]. lia. }
    assert (Hsq : seqZ first k !! length (first :: delivered) = Some sq)
      by (by rewrite <-Hrun, lookup_app_r, Nat.sub_diag by lia).
    apply lookup_seqZ in Hsq as [Hsq _]. rewrite Hd, length_seqZ in Hsq.
    destruct (sequence_accept_initialized win sq Hi Hs Hf) as [[_ ->]|[Hn _]]; [by eexists|].
    lia.
Qed.

(** *** A lossy, duplicating, reordering, corrupting network *)

Section channel.
Context (src dst : loc) (src_dst : src <> dst).

(** The sending and receiving nodes' store, the receiving endpoint, every
    packet ever sent (any of which the network may deliver any number of
    times, or never), and the packets delivered so far, oldest first. *)
Record net : Type := Net {
  net_world : world;
  net_endpoint : atarix_sim_mailbox_endpoint_t;
  net_sent : list atarix_sim_mailbox_packet_t;
  net_delivered : list atarix_sim_mailbox_packet_t
}.

Inductive net_step : net -> net -> Prop :=
| net_send s p0 type sequence payload len w' p :
    fits 32 sequence ->
    atarix_sim_mailbox_send (Some src) (Some p0) type sequence payload len (net_world s) =
      Some (ATARIX_MAILBOX_STATUS_OK, w', Some p) ->
    net_step s (Net w' (net_endpoint s) (p :: net_sent s) (net_delivered s))
| net_receive s p w' ep' :
    p ∈ net_sent s ->
    atarix_sim_mailbox_receive (Some (net_endpoint s)) (Some p) (net_world s) =
      Some (ATARIX_MAILBOX_STATUS_OK, w', Some ep') ->
    net_step s (Net w' ep' (net_sent s) (net_delivered s ++ [p]))
| net_refuse s p status w' ep' :
    p ∈ net_sent s -> status <> ATARIX_MAILBOX_STATUS_OK ->
    atarix_sim_mailbox_receive (Some (net_endpoint s)) (Some p) (net_world s) =
      Some (status, w', Some ep') ->
    net_step s (Net w' ep' (net_sent s) (net_delivered s))
| net_write s l data :
    net_step s (Net (World (nodes (net_world s)) (<[l := data]> (buffers (net_world s))))
      (net_endpoint s) (net_sent s) (net_delivered s)).

(** Both nodes attached with zero counters, a fresh endpoint on [dst]. *)
Definition net_initial (s : net) : Prop :=
  (exists n, nodes (net_world s) !! src = Some n /\ tx_count n = 0) /\
  (exists n, nodes (net_world s) !! dst = Some n /\ rx_count n = 0) /\
  Some (net_endpoint s) =
    atarix_sim_mailbox_endpoint_init (Some (net_endpoint s)) (Some dst) /\
  net_sent s = [] /\ net_delivered s = [].

Record net_inv (s : net) : Prop := {
  ni_src : exists n, nodes (net_world s) !! src = Some n /\
    tx_count n = u32 (Z.of_nat (length (net_sent s)));
  ni_dst : exists n, nodes (net_world s) !! dst = Some n /\
    rx_count n = u32 (Z.of_nat (length (net_delivered s)));
  ni_ep : ep_node (net_endpoint s) = Some dst;
  ni_sub : Forall (fun p => p ∈ net_sent s) (net_delivered s);
  ni_fits : Forall (fun p => fits 32 (packet_sequence p)) (net_sent s);
  ni_window : window_after (packet_sequence <$> net_delivered s)
    (ep_rx_window (net_endpoint s))
}.

Lemma send_inv w p0 type sequence payload len w' p :
  atarix_sim_mailbox_send (Some src) (Some p0) type sequence payload len w =
    Some (ATARIX_MAILBOX_STATUS_OK, w', Some p) ->
  packet_sequence p = sequence /\
  exists n, nodes w !! src = Some n /\
    w' = set_node w src (SimNode (node_id n) (node_name n) (u32 (tx_count n + 1)) (rx_count n)).
Proof.
  unfold atarix_sim_mailbox_send. case_match; [done|]. intros Hs.
  destruct (atarix_mailbox_build_header _ _ _ _ _) as [[st o]|] eqn:Hb; simpl in Hs; [|done].
  apply build_header_inv in Hb as (h & -> & Hseq).
  destruct st; try done. destruct (nodes w !! src) as [n|]; simpl in Hs; [|done].
  injection Hs as <- <-. split; [by apply Hseq|by eexists].
Qed.

Lemma receive_inv ep p w status w' ep' :
  ep_node ep = Some dst ->
  atarix_sim_mailbox_receive (Some ep) (Some p) w = Some (status, w', Some ep') ->
  (status <> ATARIX_MAILBOX_STATUS_OK /\ w' = w /\ ep' = ep) \/
  (status = ATARIX_MAILBOX_STATUS_OK /\ exists win n,
    atarix_mailbox_sequence_accept (Some (ep_rx_window ep)) (packet_sequence p) =
      (ATARIX_MAILBOX_STATUS_OK, Some win) /\ nodes w !! dst = Some n /\
    w' = set_node w dst (SimNode (node_id n) (node_name n) (tx_count n) (u32 (rx_count n + 1))) /\
    ep' = SimEndpoint (Some dst) win).
Proof.
  intros Hep. unfold atarix_sim_mailbox_receive, packet_sequence.
  rewrite Hep, bool_decide_false by done.
  destruct (atarix_mailbox_validate_header _ _ _) as [st|]; cbn [mbind option_bind]; [|done].
  destruct st; try (intros [= <- <- <-]; left; by split_and!).
  destruct (atarix_mailbox_sequence_accept (Some (ep_rx_window ep)) _) as [st o] eqn:Hacc.
  apply sequence_accept_window in Hacc as Ho. destruct Ho as [win ->].
  destruct st; try (intros [= <- <- <-]; left; by split_and!).
  cbn [atarix_sim_node_record_rx].
  destruct (nodes w !! dst) as [n|] eqn:Hn; cbn [mbind option_bind]; [|done].
  intros [= <- <- <-]. right. split; [done|]. by exists win, n.
Qed.

Lemma net_initial_inv s : net_initial s -> net_inv s.
Proof.
  intros ((n & Hn & Ht) & (m & Hm & Hr) & Hep & Hs & Hd). injection Hep as Hep.
  constructor; rewrite ?Hs, ?Hd, ?Hep; try done; [by exists n|by exists m].
Qed.

Lemma net_step_inv s s' : net_inv s -> net_step s s' -> net_inv s'.
Proof.
  intros [(n & Hn & Ht) (m & Hm & Hr) Hep Hsub Hfits Hwin] Hstep.
  destruct Hstep as [s p0 type sq payload len w' p Hsq Hsend|s p w' ep' Hp Hrec|
    s p status w' ep' Hp Hne Hrec|s l data]; simpl in *.
  - apply send_inv in Hsend as (Hseq & n' & Hn' & ->). simplify_eq.
    constructor; simpl; try done.
    + eexists. rewrite lookup_insert_eq. split; [done|]. simpl. by rewrite Ht, u32_succ.
    + exists m. by rewrite lookup_insert_ne by done.
    + eapply Forall_impl; [exact Hsub|]. simpl. intros q Hq. by apply elem_of_cons; right.
    + constructor; done.
  - apply (receive_inv _ _ _ _ _ _ Hep) in Hrec as [(? & _)|(_ & win & m' & Hacc & Hm' & -> & ->)];
      [done|]. simplify_eq. constructor; simpl; try done.
    + exists n. by rewrite lookup_insert_ne by done.
    + eexists. rewrite lookup_insert_eq. split; [done|]. simpl.
      by rewrite Hr, u32_succ, length_app, Nat.add_comm.
    + apply Forall_app. split; [done|]. by constructor.
    + rewrite fmap_app. simpl. eapply window_after_accept; [done| |done].
      rewrite Forall_forall in Hfits. by apply Hfits.
  - apply (receive_inv _ _ _ _ _ _ Hep) in Hrec as [(_ & -> & ->)|(? & _)]; [|done].
    constructor; simpl; try done; [by exists n|by exists m].
  - constructor; simpl; try done; [by exists n|by exists m].
Qed.

Lemma net_reachable_inv s0 s : net_initial s0 -> rtc net_step s0 s -> net_inv s.
Proof.
  intros Hi H. apply net_initial_inv in Hi. induction H; [done|]. eauto using net_step_inv.
Qed.

(** An intact packet that continues the run can be delivered now, and that
    leaves the memory and the sent packets as they are. *)
Lemma deliver_next s p l :
  net_inv s -> p ∈ net_sent s -> intact (net_world s) p -> consecutive (net_delivered s ++ p :: l) ->
  exists s', net_step s s' /\ net_delivered s' = net_delivered s ++ [p] /\
    net_sent s' = net_sent s /\ buffers (net_world s') = buffers (net_world s).
Proof.
  intros [_ (n & Hn & _) Hep _ Hfits Hw] Hp Hintact (first & k & Hrun).
  rewrite fmap_app, fmap_cons in Hrun. rewrite Forall_forall in Hfits.
  destruct (window_accepts_next _ _ _ _ _ _ Hw (Hfits p Hp) Hrun) as (win & Hacc).
  eexists. split; [|split; [|split]]; cycle 1.
  - instantiate (1 := Net (set_node (net_world s) dst _) (SimEndpoint (Some dst) win) (net_sent s)
      (net_delivered s ++ [p])). done.
  - done.
  - done.
  - apply net_receive; [done|]. unfold atarix_sim_mailbox_receive.
    rewrite Hep, bool_decide_false, Hintact by done. cbn [mbind option_bind].
    unfold packet_sequence in Hacc. rewrite Hacc. unfold atarix_sim_node_record_rx.
    rewrite Hn. done.
Qed.

Lemma deliver_run ps s :
  net_inv s -> Forall (fun p => p ∈ net_sent s) ps -> Forall (intact (net_world s)) ps ->
  consecutive (net_delivered s ++ ps) ->
  exists s', rtc net_step s s' /\ net_delivered s' = net_delivered s ++ ps.
Proof.
  revert s. induction ps as [|p ps IH]; intros s Hinv Hsent Hintact Hrun.
  { exists s. by rewrite app_nil_r. }
  apply Forall_cons in Hsent as [Hp Hsent]. apply Forall_cons in Hintact as [Hip Hintact].
  destruct (deliver_next s p ps Hinv Hp Hip Hrun) as (s1 & Hstep & Hd & Hs & Hb).
  pose proof (net_step_inv s s1 Hinv Hstep) as Hinv1.
  destruct (IH s1 Hinv1) as (s' & Hsteps & Hd').
  - by rewrite Hs.
  - eapply Forall_impl; [exact Hintact|]. intros q. unfold intact, payload_bytes. by rewrite Hb.
  - by rewrite Hd, <-app_assoc.
  - exists s'. split; [by apply rtc_l with s1|]. by rewrite Hd', Hd, <-app_assoc.
Qed.

Lemma delivered_consecutive s : net_inv s -> consecutive (net_delivered s).
Proof.
  intros [_ _ _ _ _ Hw]. unfold consecutive.
  destruct (packet_sequence <$> net_delivered s) as [|first l]; [by exists 0, 0|].
  destruct Hw as (_ & _ & Hw). by eexists _, _.
Qed.
End channel.

(** Delivery is in order and at most once over any network that loses,
    duplicates, reorders or corrupts packets: in every reachable state the
    delivered sequence numbers are one consecutive run without repetition,
    every delivered packet was sent, and the two node counters count exactly
    the packets sent and the packets delivered (modulo 2^32). *)
Theorem channel_in_order_at_most_once src dst s0 s :
  src <> dst -> net_initial src dst s0 -> rtc (net_step src) s0 s ->
  (exists first k, packet_sequence <$> net_delivered s = seqZ first k) /\
  NoDup (packet_sequence <$> net_delivered s) /\
  Forall (fun p => p ∈ net_sent s) (net_delivered s) /\
  (exists n, nodes (net_world s) !! src = Some n /\
     tx_count n = u32 (Z.of_nat (length (net_sent s)))) /\
  (exists n, nodes (net_world s) !! dst = Some n /\
     rx_count n = u32 (Z.of_nat (length (net_delivered s)))).
Proof.
  intros Hne Hi Hr.
  destruct (net_reachable_inv src dst Hne s0 s Hi Hr) as [Hs Hd _ Hsub _ Hw].
  destruct (delivered_consecutive src dst s (net_reachable_inv src dst Hne s0 s Hi Hr))
    as (first & k & Hrun).
  split; [by exists first, k|]. rewrite Hrun. split; [apply NoDup_seqZ|done].
Qed.

(** C9. What can still be delivered: in every reachable state, whatever was lost,
    duplicated or refused before, a list of packets that were sent and whose
    payloads are intact can be delivered next, in that order, if and only if its
    sequence numbers continue the run delivered so far; a lost packet therefore
    blocks its successors until it is sent again, and nothing else does. *)
Theorem channel_delivers_iff_consecutive src dst s0 s ps :
  src <> dst -> net_initial src dst s0 -> rtc (net_step src) s0 s ->
  Forall (fun p => p ∈ net_sent s) ps -> Forall (intact (net_world s)) ps ->
  (exists s', rtc (net_step src) s s' /\ net_delivered s' = net_delivered s ++ ps) <->
  consecutive (net_delivered s ++ ps).
Proof.
  intros Hne Hi Hr Hsent Hintact.
  pose proof (net_reachable_inv src dst Hne s0 s Hi Hr) as Hinv. split.
  - intros (s' & Hsteps & <-). apply (delivered_consecutive src dst).
    apply (net_reachable_inv src dst Hne s0 s' Hi). by transitivity s.
  - by apply (deliver_run src dst Hne ps s Hinv).
Qed.

Definition sample_net : net :=
  Net sample_world (SimEndpoint (Some 2%positive) (SequenceWindow 0 0)) [] [].

Definition sample_packet : atarix_sim_mailbox_packet_t :=
  SimPacket (MailboxHeader ATARIX_MAILBOX_MAGIC_V1 ATARIX_MAILBOX_MESSAGE_PING 3 41 0x55BC801D)
    (Some 9%positive) 3.

Definition sample_world_sent : world :=
  set_node sample_world 1%positive (SimNode 0x100 None 1 0).

Definition sample_net_sent : net :=
  Net sample_world_sent (SimEndpoint (Some 2%positive) (SequenceWindow 0 0))
    [sample_packet] [].

Definition sample_net_delivered : net :=
  Net (set_node sample_world_sent 2%positive (SimNode 0x200 None 0 1))
    (SimEndpoint (Some 2%positive) (SequenceWindow 41 1)) [sample_packet] [sample_packet].

Lemma sample_run : rtc (net_step 1%positive) sample_net sample_net_delivered.
Proof.
  apply (rtc_l _ _ sample_net_sent).
  { apply (net_send 1%positive sample_net (SimPacket null_header None 0)
      ATARIX_MAILBOX_MESSAGE_PING 41 (Some 9%positive) 3 sample_world_sent sample_packet).
    - unfold fits. lia.
    - by vm_compute. }
  apply rtc_once. apply (net_receive 1%positive sample_net_sent sample_packet).
  - apply elem_of_cons. by left.
  - by vm_compute.
Qed.

Lemma channel_in_order_at_most_once_witness :
  rtc (net_step 1%positive) sample_net sample_net_delivered /\
  NoDup (packet_sequence <$> net_delivered sample_net_delivered).
Proof.
  split; [exact sample_run|].
  refine (proj1 (proj2 (channel_in_order_at_most_once 1%positive 2%positive
    sample_net sample_net_delivered _ _ sample_run))); [discriminate|].
  split; [eexists; split; reflexivity|]. split; [eexists; split; reflexivity|].
  split; [reflexivity|]. split; reflexivity.
Defined.

Lemma channel_delivers_iff_consecutive_witness :
  exists s', rtc (net_step 1%positive) sample_net_sent s' /\ net_delivered s' = [sample_packet].
Proof.
  refine (proj2 (channel_delivers_iff_consecutive 1%positive 2%positive sample_net sample_net_sent
    [sample_packet] _ _ _ _ _) _).
  - discriminate.
  - split; [eexists; split; reflexivity|]. split; [eexists; split; reflexivity|].
    split; [reflexivity|]. split; reflexivity.
  - apply rtc_once, (net_send 1%positive sample_net (SimPacket null_header None 0)
      ATARIX_MAILBOX_MESSAGE_PING 41 (Some 9%positive) 3 sample_world_sent sample_packet).
    + unfold fits. lia.
    + vm_compute. reflexivity.
  - apply Forall_singleton, elem_of_cons. by left.
  - apply Forall_singleton. vm_compute. reflexivity.
  - by exists 41, 1.
Defined.
