(* ===== verification/System.v ===== *)
(** * A whole simulated fabric under arbitrary traffic

    The operations of [src/sim] composed: any number of nodes, endpoints, packets
    and payload buffers that share one memory, driven by any sequence of calls. A
    packet is an object its sender fills in and a network then hands to endpoints,
    copies, overwrites or forges; a NULL pointer is a call's argument like any
    other. The memory is compared with a network in which counters do not wrap,
    the fabric table is a finite map, and an endpoint is the list of sequence
    numbers it has delivered. *)

From S2P Require Import Prelude Crc Ring Mailbox Sim.
From stdpp Require Import gmap strings.
#[local] Open Scope Z_scope.

(** ** The memory and the calls *)

Record system : Type := System {
  sys_world : world;
  sys_fabric : atarix_sim_fabric_t;
  sys_packets : gmap loc atarix_sim_mailbox_packet_t;
  sys_endpoints : gmap loc atarix_sim_mailbox_endpoint_t
}.

Inductive request : Type :=
| NodeInit (node : option loc) (id : Z) (name : option string)
| RecordTx (node : option loc)
| RecordRx (node : option loc)
| EndpointInit (endpoint : option loc) (node : option loc)
| FabricInit
| FabricAttach (node : option loc)
| FabricLookup (id : Z)
| FabricCount
| MailboxSend (source packet : option loc) (type sequence : Z) (payload : option loc) (length : Z)
| MailboxReceive (destination packet : option loc)
(** What is not a call: a caller writes a buffer, the network copies a packet, or
    makes one up. *)
| WriteBuffer (buffer : loc) (data : bytes)
| CopyPacket (from to : loc)
| ForgePacket (to : loc) (packet : atarix_sim_mailbox_packet_t).

Inductive response : Type :=
| Done
| AttachStatus (status : atarix_sim_fabric_status_t)
| FoundNode (node : option loc)
| NodeCount (count : nat)
| MailboxStatus (status : atarix_mailbox_status_t).

#[export] Instance request_eq_dec : EqDecision request.
Proof.
  assert (EqDecision atarix_mailbox_header_v1_t) by (unfold EqDecision; solve_decision).
  assert (EqDecision atarix_sim_mailbox_packet_t) by (unfold EqDecision; solve_decision).
  solve_decision.
Defined.

#[export] Instance response_eq_dec : EqDecision response.
Proof. solve_decision. Defined.

(** The object behind a pointer, [Some None] for NULL. *)
Definition pointed {A} (m : gmap loc A) (pointer : option loc) : option (option A) :=
  match pointer with None => Some None | Some l => x ← m !! l; Some (Some x) end.

(** The memory after a call has left [o] behind the pointer. *)
Definition put {A} (m : gmap loc A) (pointer : option loc) (o : option A) : gmap loc A :=
  match pointer, o with Some l, Some x => <[l := x]> m | _, _ => m end.

Definition with_world (s : system) (w : world) : system :=
  System w (sys_fabric s) (sys_packets s) (sys_endpoints s).

Definition with_fabric (s : system) (f : atarix_sim_fabric_t) : system :=
  System (sys_world s) f (sys_packets s) (sys_endpoints s).

Definition with_packets (s : system) ps : system :=
  System (sys_world s) (sys_fabric s) ps (sys_endpoints s).

Definition with_endpoints (s : system) es : system :=
  System (sys_world s) (sys_fabric s) (sys_packets s) es.

(** One call, [None] when it faults. *)
Definition perform (s : system) (r : request) : option (response * system) :=
  match r with
  | NodeInit node id name =>
    w ← atarix_sim_node_init node id name (sys_world s); Some (Done, with_world s w)
  | RecordTx node => w ← atarix_sim_node_record_tx node (sys_world s); Some (Done, with_world s w)
  | RecordRx node => w ← atarix_sim_node_record_rx node (sys_world s); Some (Done, with_world s w)
  | FabricInit =>
    Some (Done, with_fabric s (default (sys_fabric s) (atarix_sim_fabric_init (Some (sys_fabric s)))))
  | EndpointInit endpoint node =>
    ep ← pointed (sys_endpoints s) endpoint;
    Some (Done, with_endpoints s
      (put (sys_endpoints s) endpoint (atarix_sim_mailbox_endpoint_init ep node)))
  | FabricAttach node =>
    '(status, f) ← atarix_sim_fabric_attach (Some (sys_fabric s)) node (sys_world s);
    Some (AttachStatus status, with_fabric s (default (sys_fabric s) f))
  | FabricLookup id =>
    node ← atarix_sim_fabric_lookup (Some (sys_fabric s)) id; Some (FoundNode node, s)
  | FabricCount => Some (NodeCount (atarix_sim_fabric_node_count (Some (sys_fabric s))), s)
  | MailboxSend source packet type sequence payload length =>
    p ← pointed (sys_packets s) packet;
    '(status, w, p') ← atarix_sim_mailbox_send source p type sequence payload length (sys_world s);
    Some (MailboxStatus status,
          with_packets (with_world s w) (put (sys_packets s) packet p'))
  | MailboxReceive destination packet =>
    ep ← pointed (sys_endpoints s) destination;
    p ← pointed (sys_packets s) packet;
    '(status, w, ep') ← atarix_sim_mailbox_receive ep p (sys_world s);
    Some (MailboxStatus status,
          with_endpoints (with_world s w) (put (sys_endpoints s) destination ep'))
  | WriteBuffer buffer data =>
    Some (Done, with_world s (World (nodes (sys_world s)) (<[buffer := data]> (buffers (sys_world s)))))
  | CopyPacket from to =>
    p ← sys_packets s !! from; Some (Done, with_packets s (<[to := p]> (sys_packets s)))
  | ForgePacket to packet => Some (Done, with_packets s (<[to := packet]> (sys_packets s)))
  end.

(** A call, the memory it was made in, and its result. *)
Record step : Type := Step { st_before : system; st_request : request; st_response : response }.

Fixpoint run (s : system) (rs : list request) : option (list step * system) :=
  match rs with
  | [] => Some ([], s)
  | r :: rs' =>
    '(o, s1) ← perform s r;
    '(trace, s2) ← run s1 rs';
    Some (Step s r o :: trace, s2)
  end.

(** ** The network it implements *)

Record station : Type := Station {
  sn_id : Z;
  sn_name : option string;
  sn_sent : nat;
  sn_received : nat
}.

Record network : Type := Network {
  nw_stations : gmap loc station;
  nw_buffers : gmap loc bytes;
  nw_registry : gmap Z loc;
  nw_packets : gmap loc atarix_sim_mailbox_packet_t;
  nw_endpoints : gmap loc (option loc * list Z)
}.

(** The answer to a sequence number, when [run] has been delivered. *)
Definition run_answer (run : list Z) (sequence : Z) : atarix_mailbox_status_t :=
  match last run with
  | None => ATARIX_MAILBOX_STATUS_OK
  | Some x =>
    if decide (sequence = x) then ATARIX_MAILBOX_STATUS_DUPLICATE
    else if decide (sequence < x) then ATARIX_MAILBOX_STATUS_OUT_OF_ORDER
    else if decide (sequence = x + 1) then ATARIX_MAILBOX_STATUS_OK
    else ATARIX_MAILBOX_STATUS_SEQUENCE_ERROR
  end.

(** The answer to an attempt to send, before the payload is read. *)
Definition send_refusal (type : Z) (payload : option loc) (length : Z)
  : option atarix_mailbox_status_t :=
  if decide (payload = None /\ length <> 0) then Some ATARIX_MAILBOX_STATUS_NULL
  else if negb (atarix_mailbox_message_type_known type) then Some ATARIX_MAILBOX_STATUS_UNKNOWN_TYPE
  else if decide (ATARIX_MAILBOX_MAX_PAYLOAD_V1 < length) then Some ATARIX_MAILBOX_STATUS_INVALID_LENGTH
  else None.

(** The payload that a packet refers to, as it is now. *)
Definition payload_now (bs : gmap loc bytes) (payload : option loc) (length : Z) : option bytes :=
  match payload with
  | None => Some []
  | Some l => load_bytes (default [] (bs !! l)) 0 length
  end.

Definition count_sent (e : station) : station :=
  Station (sn_id e) (sn_name e) (S (sn_sent e)) (sn_received e).

Definition count_received (e : station) : station :=
  Station (sn_id e) (sn_name e) (sn_sent e) (S (sn_received e)).

Definition set_station (n : network) (l : loc) (e : station) : network :=
  Network (<[l := e]> (nw_stations n)) (nw_buffers n) (nw_registry n) (nw_packets n)
    (nw_endpoints n).

(** A call that counts at a node; nothing for NULL. *)
Definition network_count (n : network) (node : option loc) (f : station -> station)
  : option (response * network) :=
  match node with
  | None => Some (Done, n)
  | Some l => e ← nw_stations n !! l; Some (Done, set_station n l (f e))
  end.

Definition network_send (n : network) (source packet : loc) (type sequence : Z)
    (payload : option loc) (length : Z) : option (response * network) :=
  _ ← nw_packets n !! packet;
  match send_refusal type payload length with
  | Some status => Some (MailboxStatus status, n)
  | None =>
    bs ← payload_now (nw_buffers n) payload length;
    e ← nw_stations n !! source;
    let header := MailboxHeader ATARIX_MAILBOX_MAGIC_V1 type length sequence (payload_crc bs) in
    Some (MailboxStatus ATARIX_MAILBOX_STATUS_OK,
      Network (<[source := count_sent e]> (nw_stations n)) (nw_buffers n) (nw_registry n)
        (<[packet := SimPacket header payload length]> (nw_packets n)) (nw_endpoints n))
  end.

Definition network_receive (n : network) (destination packet : loc) : option (response * network) :=
  '(node, run) ← nw_endpoints n !! destination;
  p ← nw_packets n !! packet;
  match node with
  | None => Some (MailboxStatus ATARIX_MAILBOX_STATUS_NULL, n)
  | Some l =>
    let sequence := mh_sequence (pk_header p) in
    status ← atarix_mailbox_validate_header (Some (pk_header p))
               ((fun l => default [] (nw_buffers n !! l)) <$> pk_payload p) (pk_payload_length p);
    if decide (status <> ATARIX_MAILBOX_STATUS_OK) then Some (MailboxStatus status, n)
    else if decide (run_answer run sequence <> ATARIX_MAILBOX_STATUS_OK)
    then Some (MailboxStatus (run_answer run sequence), n)
    else
      e ← nw_stations n !! l;
      Some (MailboxStatus ATARIX_MAILBOX_STATUS_OK,
        Network (<[l := count_received e]> (nw_stations n)) (nw_buffers n) (nw_registry n)
          (nw_packets n) (<[destination := (node, run ++ [sequence])]> (nw_endpoints n)))
  end.

Definition network_perform (n : network) (r : request) : option (response * network) :=
  match r with
  | NodeInit node id name => network_count n node (fun _ => Station id name 0 0)
  | RecordTx node => network_count n node count_sent
  | RecordRx node => network_count n node count_received
  | FabricInit =>
    Some (Done, Network (nw_stations n) (nw_buffers n) ∅ (nw_packets n) (nw_endpoints n))
  | EndpointInit None _ => Some (Done, n)
  | EndpointInit (Some e) node =>
    _ ← nw_endpoints n !! e;
    Some (Done, Network (nw_stations n) (nw_buffers n) (nw_registry n) (nw_packets n)
      (<[e := (node, [])]> (nw_endpoints n)))
  | FabricAttach None => Some (AttachStatus ATARIX_SIM_FABRIC_STATUS_NULL, n)
  | FabricAttach (Some l) =>
    e ← nw_stations n !! l;
    let '(status, registry) := registry_attach (nw_registry n) (sn_id e) l in
    Some (AttachStatus status, Network (nw_stations n) (nw_buffers n) registry (nw_packets n)
      (nw_endpoints n))
  | FabricLookup id => Some (FoundNode (nw_registry n !! id), n)
  | FabricCount => Some (NodeCount (size (nw_registry n)), n)
  | MailboxSend (Some source) (Some packet) type sequence payload length =>
    network_send n source packet type sequence payload length
  | MailboxSend _ packet _ _ _ _ =>
    _ ← pointed (nw_packets n) packet; Some (MailboxStatus ATARIX_MAILBOX_STATUS_NULL, n)
  | MailboxReceive (Some destination) (Some packet) => network_receive n destination packet
  | MailboxReceive destination packet =>
    _ ← pointed (nw_endpoints n) destination;
    _ ← pointed (nw_packets n) packet;
    Some (MailboxStatus ATARIX_MAILBOX_STATUS_NULL, n)
  | WriteBuffer buffer data =>
    Some (Done, Network (nw_stations n) (<[buffer := data]> (nw_buffers n)) (nw_registry n)
      (nw_packets n) (nw_endpoints n))
  | CopyPacket from to =>
    p ← nw_packets n !! from;
    Some (Done, Network (nw_stations n) (nw_buffers n) (nw_registry n)
      (<[to := p]> (nw_packets n)) (nw_endpoints n))
  | ForgePacket to packet =>
    Some (Done, Network (nw_stations n) (nw_buffers n) (nw_registry n)
      (<[to := packet]> (nw_packets n)) (nw_endpoints n))
  end.

Fixpoint network_run (n : network) (rs : list request) : option (list response * network) :=
  match rs with
  | [] => Some ([], n)
  | r :: rs' =>
    '(o, n1) ← network_perform n r;
    '(os, n2) ← network_run n1 rs';
    Some (o :: os, n2)
  end.

(** ** How the memory represents the network *)

Definition node_of (e : station) : atarix_sim_node_t :=
  SimNode (sn_id e) (sn_name e) (u32 (Z.of_nat (sn_sent e))) (u32 (Z.of_nat (sn_received e))).

Definition endpoint_repr (ep : atarix_sim_mailbox_endpoint_t) (a : option loc * list Z) : Prop :=
  ep_node ep = a.1 /\ window_after a.2 (ep_rx_window ep).

Record system_repr (s : system) (n : network) : Prop := {
  sr_nodes : nodes (sys_world s) = node_of <$> nw_stations n;
  sr_buffers : buffers (sys_world s) = nw_buffers n;
  sr_fabric : fabric_repr (sys_fabric s) (nw_registry n);
  sr_packets : sys_packets s = nw_packets n;
  sr_sequences : map_Forall (fun _ p => fits 32 (packet_sequence p)) (nw_packets n);
  sr_endpoints e : option_Forall2 endpoint_repr (sys_endpoints s !! e) (nw_endpoints n !! e)
}.

(** Same answer, and memories that still correspond; or both fault. *)
Definition agree {A} (x : option (A * system)) (y : option (A * network)) : Prop :=
  option_Forall2 (fun a b => a.1 = b.1 /\ system_repr a.2 b.2) x y.

(** The arguments have the types of the C parameters they are passed for. *)
Definition request_ok (r : request) : Prop :=
  match r with
  | MailboxSend _ _ type sequence _ length => fits 16 type /\ fits 32 sequence /\ fits 16 length
  | ForgePacket _ p => fits 32 (packet_sequence p)
  | _ => True
  end.

Lemma agree_some {A} (o : A) s n : system_repr s n -> agree (Some (o, s)) (Some (o, n)).
Proof. intros H. by constructor. Qed.

Lemma agree_none {A} : agree (A := A) None None.
Proof. constructor. Qed.

Lemma agree_bind {A B} (x : option (A * system)) (y : option (A * network))
    (f : A * system -> option (B * system)) (g : A * network -> option (B * network)) :
  agree x y -> (forall o s n, system_repr s n -> agree (f (o, s)) (g (o, n))) ->
  agree (x ≫= f) (y ≫= g).
Proof. intros [[o s] [o' n] [Ho Hr]|] Hf; cbn in *; [subst; by apply Hf|constructor]. Qed.

#[local] Hint Resolve agree_some agree_none : core.

(** A receive window answers as the run it has accepted. *)
Lemma window_answer run win sequence :
  window_after run win -> fits 32 sequence ->
  exists win', atarix_mailbox_sequence_accept (Some win) sequence =
    (run_answer run sequence, Some win') /\
    (run_answer run sequence = ATARIX_MAILBOX_STATUS_OK -> window_after (run ++ [sequence]) win') /\
    (run_answer run sequence <> ATARIX_MAILBOX_STATUS_OK -> win' = win).
Proof.
  intros Hw Hs.
  assert (Ha : fst (atarix_mailbox_sequence_accept (Some win) sequence) = run_answer run sequence).
  { destruct run as [|first run].
    - unfold window_after in Hw. unfold atarix_mailbox_sequence_accept. by rewrite Hw.
    - destruct Hw as (Hi & Hf & Hd). unfold run_answer. rewrite Hd, last_lookup, length_seqZ.
      assert (0 < last_sequence win - first + 1).
      { destruct (decide (0 < last_sequence win - first + 1)); [done|].
        by rewrite seqZ_nil in Hd by lia. }
      rewrite (proj2 (lookup_seqZ _ _ _ (last_sequence win))) by lia.
      unfold atarix_mailbox_sequence_accept. rewrite (proj2 (Z.eqb_neq _ _) Hi).
      unfold fits in *. destruct (Z.eqb_spec sequence (last_sequence win));
        [by rewrite decide_True|rewrite decide_False by done].
      destruct (Z.ltb_spec sequence (last_sequence win));
        [by rewrite decide_True|rewrite decide_False by lia].
      rewrite uint_small by (unfold fits; lia).
      destruct (Z.eqb_spec sequence (last_sequence win + 1));
        [by rewrite decide_True|by rewrite decide_False]. }
  destruct (atarix_mailbox_sequence_accept (Some win) sequence) as [st o] eqn:Hacc.
  destruct (sequence_accept_window _ _ _ _ Hacc) as [win' ->]. cbn in Ha. subst st.
  exists win'. split; [done|]. split.
  - intros Hok. rewrite Hok in Hacc. by eapply window_after_accept.
  - intros Hne. unfold atarix_mailbox_sequence_accept in Hacc.
    repeat case_match; simplify_eq; done.
Qed.

Lemma with_world_same s : with_world s (sys_world s) = s.
Proof. by destruct s. Qed.

Lemma with_fabric_same s : with_fabric s (sys_fabric s) = s.
Proof. by destruct s. Qed.

Lemma with_packets_same s : with_packets s (sys_packets s) = s.
Proof. by destruct s. Qed.

Lemma with_endpoints_same s : with_endpoints s (sys_endpoints s) = s.
Proof. by destruct s. Qed.

(** What a call leaves as it was. *)
Ltac unchanged :=
  cbn [put mbind option_bind default]; cbn -[agree]; rewrite ?insert_id by done;
  rewrite ?with_world_same, ?with_fabric_same, ?with_packets_same, ?with_endpoints_same;
  solve [auto using agree_some].

Section updates.
Context (s : system) (n : network) (Hr : system_repr s n).

Lemma set_node_repr l e :
  system_repr (with_world s (set_node (sys_world s) l (node_of e)))
    (set_station n l e).
Proof.
  destruct Hr as [Hn Hb Hf Hp Hs He]. constructor; try done. cbn. by rewrite Hn, fmap_insert.
Qed.

Lemma set_packet_repr l p :
  fits 32 (packet_sequence p) ->
  system_repr (with_packets s (<[l := p]> (sys_packets s)))
    (Network (nw_stations n) (nw_buffers n) (nw_registry n) (<[l := p]> (sys_packets s))
      (nw_endpoints n)).
Proof.
  intros Hq. destruct Hr as [Hn Hb Hf Hp Hs He]. constructor; try done; cbn.
  rewrite Hp. by apply map_Forall_insert_2.
Qed.

Lemma set_endpoint_repr l ep a :
  endpoint_repr ep a ->
  system_repr (with_endpoints s (<[l := ep]> (sys_endpoints s)))
    (Network (nw_stations n) (nw_buffers n) (nw_registry n) (nw_packets n)
      (<[l := a]> (nw_endpoints n))).
Proof.
  intros Hq. destruct Hr as [Hn Hb Hf Hp Hs He]. constructor; try done; cbn.
  intros l'. destruct (decide (l = l')) as [->|]; [|by rewrite !lookup_insert_ne].
  rewrite !lookup_insert_eq. by constructor.
Qed.

End updates.

Section simulation.
Context (s : system) (n : network) (Hr : system_repr s n).

Lemma node_lookup l : nodes (sys_world s) !! l = node_of <$> (nw_stations n !! l).
Proof. by rewrite (sr_nodes _ _ Hr), lookup_fmap. Qed.

Lemma endpoint_cases l :
  (exists ep a, sys_endpoints s !! l = Some ep /\ nw_endpoints n !! l = Some a /\ endpoint_repr ep a) \/
  (sys_endpoints s !! l = None /\ nw_endpoints n !! l = None).
Proof. destruct (sr_endpoints _ _ Hr l) as [ep a H|]; [left|by right]. by exists ep, a. Qed.

(** A call that replaces a node by a function of it. *)
Lemma count_agrees node f g :
  (forall e, f (node_of e) = node_of (g e)) ->
  agree
    (w ← match node with
         | None => Some (sys_world s)
         | Some l => x ← nodes (sys_world s) !! l; Some (set_node (sys_world s) l (f x))
         end; Some (Done, with_world s w))
    (network_count n node g).
Proof.
  intros Hfg. destruct node as [l|]; cbn; [|unchanged].
  rewrite node_lookup. destruct (nw_stations n !! l) as [e|]; cbn; [|auto].
  rewrite Hfg. by apply agree_some, set_node_repr.
Qed.

Lemma node_of_sent e :
  SimNode (sn_id e) (sn_name e) (u32 (u32 (Z.of_nat (sn_sent e)) + 1)) (u32 (Z.of_nat (sn_received e))) =
  node_of (count_sent e).
Proof. unfold node_of. cbn. by rewrite u32_succ. Qed.

Lemma node_of_received e :
  SimNode (sn_id e) (sn_name e) (u32 (Z.of_nat (sn_sent e))) (u32 (u32 (Z.of_nat (sn_received e)) + 1)) =
  node_of (count_received e).
Proof. unfold node_of. cbn. by rewrite u32_succ. Qed.

Lemma node_call_agrees r node :
  (exists id name, r = NodeInit node id name) \/ r = RecordTx node \/ r = RecordRx node ->
  agree (perform s r) (network_perform n r).
Proof.
  intros [(id & name & ->)|[->| ->]].
  - by apply (count_agrees node (fun _ => SimNode id name 0 0) (fun _ => Station id name 0 0)).
  - apply (count_agrees node (fun n =>
      SimNode (node_id n) (node_name n) (u32 (tx_count n + 1)) (rx_count n)) count_sent), node_of_sent.
  - apply (count_agrees node (fun n =>
      SimNode (node_id n) (node_name n) (tx_count n) (u32 (rx_count n + 1))) count_received),
      node_of_received.
Qed.

Lemma fabric_init_agrees : agree (perform s FabricInit) (network_perform n FabricInit).
Proof.
  destruct (fabric_init_repr (sys_fabric s)) as (f & Hf & Hr'). cbn [perform]. rewrite Hf.
  apply agree_some. by destruct Hr.
Qed.

Lemma endpoint_init_agrees endpoint node :
  agree (perform s (EndpointInit endpoint node)) (network_perform n (EndpointInit endpoint node)).
Proof.
  destruct endpoint as [l|]; cbn; [|unchanged].
  destruct (endpoint_cases l) as [(ep & a & -> & -> & _)|[-> ->]]; cbn; [|auto].
  apply agree_some, (set_endpoint_repr _ _ Hr). by split.
Qed.

Lemma attach_agrees node :
  agree (perform s (FabricAttach node)) (network_perform n (FabricAttach node)).
Proof.
  destruct node as [l|]; cbn -[atarix_sim_fabric_attach];
    [|unchanged].
  pose proof (node_lookup l) as Hl.
  destruct (nw_stations n !! l) as [e|]; cbn -[atarix_sim_fabric_attach] in *.
  - destruct (fabric_attach_repr _ _ _ _ _ (sr_fabric _ _ Hr) Hl) as (f & -> & Hf).
    cbn in *. destruct (registry_attach _ _ _) as [status registry]. cbn in *.
    apply agree_some. by destruct Hr.
  - unfold atarix_sim_fabric_attach. rewrite Hl. auto.
Qed.

Lemma lookup_agrees id : agree (perform s (FabricLookup id)) (network_perform n (FabricLookup id)).
Proof.
  unfold perform. rewrite (fabric_lookup_repr _ _ id (sr_fabric _ _ Hr)). cbn. auto.
Qed.

Lemma node_count_agrees : agree (perform s FabricCount) (network_perform n FabricCount).
Proof. cbn. rewrite (fr_count _ _ (sr_fabric _ _ Hr)). auto. Qed.

(** *** Sending *)

Lemma payload_now_at payload length bs :
  (payload = None -> length = 0) -> payload_now (nw_buffers n) payload length = Some bs ->
  payload_at (payload_bytes (sys_world s) payload) length bs.
Proof.
  intros Hz. destruct payload as [l|]; cbn; [by rewrite (sr_buffers _ _ Hr)|].
  intros [= <-]. by rewrite Hz.
Qed.

(** The checksum is read exactly where the payload can be. *)
Lemma payload_now_fault payload length :
  0 <= length -> payload_now (nw_buffers n) payload length = None ->
  atarix_mailbox_crc32 (payload_bytes (sys_world s) payload) length = None.
Proof.
  intros Hl. destruct payload as [l|]; [|done]. cbn [payload_now payload_bytes].
  rewrite (sr_buffers _ _ Hr). generalize (default [] (nw_buffers n !! l)). intros data Hd.
  unfold atarix_mailbox_crc32. rewrite bool_decide_false by done. cbn [negb andb default id].
  cbn [id]. destruct (crc32_update 0xFFFFFFFF data length) as [crc|] eqn:Hc; [|done].
  exfalso. unfold crc32_update in Hc. apply for_bytes_bound in Hc; [|intros Hz].
  - unfold load_bytes in Hd. rewrite decide_True in Hd by lia. done.
  - unfold load_bytes in Hd. pose proof (blen_nonneg data). rewrite decide_True in Hd by lia. done.
Qed.

(** What [atarix_sim_mailbox_send] does with a packet behind its pointer. *)
Lemma send_result l p type sequence payload length :
  0 <= length ->
  atarix_sim_mailbox_send (Some l) (Some p) type sequence payload length (sys_world s) =
  match send_refusal type payload length with
  | Some status => Some (status, sys_world s, Some p)
  | None =>
    bs ← payload_now (nw_buffers n) payload length;
    e ← nw_stations n !! l;
    Some (ATARIX_MAILBOX_STATUS_OK, set_node (sys_world s) l (node_of (count_sent e)),
      Some (SimPacket (MailboxHeader ATARIX_MAILBOX_MAGIC_V1 type length sequence (payload_crc bs))
        payload length))
  end.
Proof.
  intros Hlen. unfold atarix_sim_mailbox_send, send_refusal.
  assert (Hnull : bool_decide (payload = None) && negb (length =? 0) =
    bool_decide (payload = None /\ length <> 0)).
  { symmetry. destruct (Z.eqb_spec length 0); cbn [negb]; [rewrite andb_false_r|rewrite andb_true_r].
    - apply bool_decide_false. by intros [_ ?].
    - apply bool_decide_ext. split; [by intros [? _]|done]. }
  rewrite Hnull. destruct (decide (payload = None /\ length <> 0)) as [Hp|Hp];
    [by rewrite bool_decide_true|rewrite bool_decide_false by done].
  unfold atarix_mailbox_build_header. rewrite bool_decide_false by done.
  assert (Hnull' : bool_decide (payload_bytes (sys_world s) payload = None) &&
    negb (length =? 0) = false).
  { rewrite (bool_decide_false _ Hp) in Hnull. rewrite <-Hnull. f_equal. apply bool_decide_ext.
    by destruct payload. }
  rewrite Hnull'. cbn [orb]. destruct (atarix_mailbox_message_type_known type); cbn [negb]; [|done].
  destruct (Z.ltb_spec ATARIX_MAILBOX_MAX_PAYLOAD_V1 length);
    [by rewrite decide_True|rewrite decide_False by lia].
  destruct (payload_now (nw_buffers n) payload length) as [bs|] eqn:Hbs.
  - erewrite payload_at_crc; [|eapply payload_now_at, Hbs; lia || (intros ->; destruct (decide (length = 0)); naive_solver)].
    cbn [mbind option_bind atarix_sim_node_record_tx]. rewrite node_lookup.
    destruct (nw_stations n !! l) as [e|]; [|done]. cbn [fmap option_fmap option_map mbind option_bind].
    cbn. by rewrite node_of_sent.
  - rewrite payload_now_fault by done. done.
Qed.

Lemma send_agrees source packet type sequence payload length :
  fits 32 sequence -> 0 <= length ->
  agree (perform s (MailboxSend source packet type sequence payload length))
    (network_perform n (MailboxSend source packet type sequence payload length)).
Proof.
  intros Hseq Hlen. cbn [perform network_perform].
  destruct packet as [k|]; cbn [pointed mbind option_bind]; [|destruct source; unchanged].
  pose proof (sr_packets _ _ Hr) as Hp. unfold network_send. rewrite <-Hp.
  destruct (sys_packets s !! k) as [p|] eqn:Hk; cbn [mbind option_bind];
    [|by destruct source; constructor].
  destruct source as [l|]; [|unchanged].
  rewrite send_result by done.
  destruct (send_refusal type payload length) as [status|]; cbn [mbind option_bind]; [unchanged|].
  destruct (payload_now _ _ _) as [bs|]; cbn [mbind option_bind]; [|auto].
  destruct (nw_stations n !! l) as [e|]; cbn [mbind option_bind put]; [|auto].
  apply agree_some.
  by apply (set_packet_repr _ _ (set_node_repr _ _ Hr l (count_sent e))).
Qed.

(** *** Receiving *)

Lemma payload_bytes_buffers payload :
  payload_bytes (sys_world s) payload = (fun l => default [] (nw_buffers n !! l)) <$> payload.
Proof. destruct payload; [|done]. cbn. by rewrite (sr_buffers _ _ Hr). Qed.

Lemma receive_agrees destination packet :
  agree (perform s (MailboxReceive destination packet))
    (network_perform n (MailboxReceive destination packet)).
Proof.
  cbn [perform network_perform]. pose proof (sr_packets _ _ Hr) as Hp. rewrite <-Hp.
  destruct destination as [d|]; cbn [pointed mbind option_bind]; cycle 1.
  { destruct packet as [k|]; cbn; [destruct (sys_packets s !! k); cbn|]; unchanged. }
  unfold network_receive. rewrite <-Hp.
  destruct (endpoint_cases d) as [(ep & [node delivered] & Hd & Hd' & [Hnode Hw])|[-> ->]];
    [|by destruct packet; constructor].
  rewrite Hd, Hd'. cbn [mbind option_bind fst snd] in *.
  destruct packet as [k|]; cbn [pointed mbind option_bind]; [|unchanged].
  destruct (sys_packets s !! k) as [p|] eqn:Hk; cbn [mbind option_bind]; [|auto].
  assert (Hseq : fits 32 (packet_sequence p))
    by (apply (map_Forall_lookup_1 _ _ k p (sr_sequences _ _ Hr)); by rewrite <-Hp).
  unfold atarix_sim_mailbox_receive. rewrite Hnode, payload_bytes_buffers.
  destruct node as [l|]; [rewrite bool_decide_false by done|unchanged].
  destruct (atarix_mailbox_validate_header _ _ _) as [status|]; cbn [mbind option_bind]; [|auto].
  destruct (decide (status <> ATARIX_MAILBOX_STATUS_OK)) as [Hne|Hok].
  { destruct status; cbn [mbind option_bind]; try done; unchanged. }
  assert (status = ATARIX_MAILBOX_STATUS_OK) as -> by (by apply dec_stable).
  destruct (window_answer _ _ _ Hw Hseq) as (win & Hacc & Hnext & Hsame).
  unfold packet_sequence in Hacc, Hnext, Hsame. rewrite Hacc.
  destruct (decide (run_answer delivered _ <> _)) as [Hne|Heq].
  { destruct (run_answer delivered _); cbn [mbind option_bind]; try done; unchanged. }
  assert (Hans : run_answer delivered (mh_sequence (pk_header p)) = ATARIX_MAILBOX_STATUS_OK)
    by (by apply dec_stable).
  rewrite Hans. cbn [atarix_sim_node_record_rx]. rewrite node_lookup.
  destruct (nw_stations n !! l) as [e|]; cbn [fmap option_fmap option_map mbind option_bind put]; [|auto].
  apply agree_some. cbn [node_of sn_id sn_name sn_sent sn_received node_id node_name tx_count rx_count].
  rewrite u32_succ, Hp.
  apply (set_endpoint_repr _ _ (set_node_repr _ _ Hr l (count_received e))). split; [done|]. by apply Hnext.
Qed.

(** *** Every call *)

Lemma perform_agrees r : request_ok r -> agree (perform s r) (network_perform n r).
Proof.
  destruct r as [node id name|node|node|endpoint node| |node|id| |source packet type sequence payload length|
    destination packet|buffer data|from to|to packet]; intros Hok.
  - apply (node_call_agrees _ node). eauto.
  - apply (node_call_agrees _ node). eauto.
  - apply (node_call_agrees _ node). eauto.
  - apply endpoint_init_agrees.
  - apply fabric_init_agrees.
  - apply attach_agrees.
  - apply lookup_agrees.
  - apply node_count_agrees.
  - destruct Hok as (_ & Hs & Hl). apply send_agrees; [done|apply Hl].
  - apply receive_agrees.
  - apply agree_some. destruct Hr as [Hn Hb Hf Hp Hs He]. constructor; try done. cbn. by rewrite Hb.
  - cbn. pose proof (sr_packets _ _ Hr) as Hp. rewrite <-Hp.
    destruct (sys_packets s !! from) as [p|] eqn:Hk; cbn; [|auto]. apply agree_some.
    apply (set_packet_repr _ _ Hr). apply (map_Forall_lookup_1 _ _ from p (sr_sequences _ _ Hr)).
    by rewrite <-Hp.
  - cbn [network_perform]. rewrite <-(sr_packets _ _ Hr). by apply agree_some, (set_packet_repr _ _ Hr).
Qed.
End simulation.

Definition responses (trace : list step) : list response := map st_response trace.

(** The answers of a run, without the memories it went through. *)
Definition answers (r : option (list step * system)) : option (list response * system) :=
  match r with Some (trace, s) => Some (responses trace, s) | None => None end.

Lemma run_agrees rs s n :
  system_repr s n -> Forall request_ok rs -> agree (answers (run s rs)) (network_run n rs).
Proof.
  intros Hr Hrs. revert s n Hr. induction Hrs as [|r rs Hr Hrs IH]; intros s n Hrep.
  { by apply agree_some. }
  cbn [run network_run]. destruct (perform_agrees s n Hrep r Hr) as [[o s1] [o' n1] [Ho H1]|];
    [|constructor].
  cbn in Ho, H1. subst o'. cbn [mbind option_bind].
  specialize (IH s1 n1 H1). destruct (run s1 rs) as [[trace s2]|]; cbn in *;
    inversion IH as [? [os n2] [Hos H2]|]; subst; cbn in *; [|constructor].
  subst os. by constructor.
Qed.

(** *** The memory at the start *)

(** Every integer in the memory has the type of its member. *)
Record memory_ok (s : system) : Prop := {
  mo_nodes : map_Forall (fun _ n => fits 32 (tx_count n) /\ fits 32 (rx_count n)) (nodes (sys_world s));
  mo_packets : map_Forall (fun _ p => fits 32 (packet_sequence p)) (sys_packets s);
  mo_windows : map_Forall (fun _ ep => fits 32 (last_sequence (ep_rx_window ep))) (sys_endpoints s)
}.

Definition station_of (n : atarix_sim_node_t) : station :=
  Station (node_id n) (node_name n) (Z.to_nat (tx_count n)) (Z.to_nat (rx_count n)).

Definition endpoint_of (ep : atarix_sim_mailbox_endpoint_t) : option loc * list Z :=
  (ep_node ep, if initialized (ep_rx_window ep) =? 0 then [] else [last_sequence (ep_rx_window ep)]).

(** The network that a memory with an empty fabric stands for, whatever the
    objects in it hold. *)
Definition network_of (s : system) : network :=
  Network (station_of <$> nodes (sys_world s)) (buffers (sys_world s)) ∅ (sys_packets s)
    (endpoint_of <$> sys_endpoints s).

Lemma node_of_station n : fits 32 (tx_count n) -> fits 32 (rx_count n) -> node_of (station_of n) = n.
Proof.
  intros Ht Hx. unfold node_of. cbn. unfold fits in *. rewrite !Z2Nat.id by lia.
  rewrite !uint_small by done. by destruct n.
Qed.

Lemma endpoint_of_repr ep :
  fits 32 (last_sequence (ep_rx_window ep)) -> endpoint_repr ep (endpoint_of ep).
Proof.
  intros Hf. split; [done|]. cbn. destruct (Z.eqb_spec (initialized (ep_rx_window ep)) 0); [done|].
  cbn. split_and!; try done. rewrite Z.sub_diag. by rewrite (seqZ_cons _ (0 + 1)) by lia.
Qed.

Lemma network_of_repr s :
  memory_ok s -> fabric_repr (sys_fabric s) ∅ -> system_repr s (network_of s).
Proof.
  intros [Hn Hp Hw] Hf. constructor; try done; cbn.
  - rewrite <-map_fmap_compose. symmetry. rewrite <-(map_fmap_id (nodes _)) at 2.
    apply map_fmap_ext. intros l n Hl. cbn. apply (map_Forall_lookup_1 _ _ _ _ Hn) in Hl as [? ?].
    by apply node_of_station.
  - intros e. rewrite lookup_fmap. destruct (sys_endpoints s !! e) as [ep|] eqn:He; [|constructor].
    constructor. apply endpoint_of_repr. by apply (map_Forall_lookup_1 _ _ _ _ Hw He).
Qed.

(** The fabric has just been initialized. *)
Definition fabric_fresh (s : system) : Prop :=
  exists garbage, atarix_sim_fabric_init (Some garbage) = Some (sys_fabric s).

Lemma fabric_fresh_repr s : fabric_fresh s -> fabric_repr (sys_fabric s) ∅.
Proof.
  intros [garbage Hi]. destruct (fabric_init_repr garbage) as (f & Hf & Hr). by simplify_eq.
Qed.

(** C7. The simulated fabric implements its network: from any memory with a
    freshly initialized table, any sequence of calls (with NULL pointers, wrong
    lengths, unknown types, packets copied or made up, buffers overwritten) gives
    on the C structures the answers of the network in which the table is a finite
    map with 256 entries, an endpoint the list of the sequence numbers it has
    delivered, and a counter the number of events, and faults exactly where the
    network has no object or no payload to read; at the end the memory still
    represents the network, counters modulo 2^32. *)
Theorem system_refines_network s rs :
  memory_ok s -> fabric_fresh s -> Forall request_ok rs ->
  match run s rs, network_run (network_of s) rs with
  | Some (trace, s'), Some (os, n') => responses trace = os /\ system_repr s' n'
  | None, None => True
  | _, _ => False
  end.
Proof.
  intros Hm Hf Hrs.
  pose proof (run_agrees rs s _ (network_of_repr s Hm (fabric_fresh_repr s Hf)) Hrs) as H.
  destruct (run s rs) as [[trace s']|]; cbn in H; by inversion H as [? [] []|].
Qed.

(** ** What is delivered *)

(** The packet that a call delivered to an endpoint. *)
Definition delivery (e : loc) (st : step) : option atarix_sim_mailbox_packet_t :=
  match st_request st, st_response st with
  | MailboxReceive (Some d) (Some k), MailboxStatus ATARIX_MAILBOX_STATUS_OK =>
    if decide (d = e) then sys_packets (st_before st) !! k else None
  | _, _ => None
  end.

Definition deliveries (e : loc) (trace : list step) : list atarix_sim_mailbox_packet_t :=
  omap (delivery e) trace.

(** What a call counts for a node: a packet sent from it, or accepted by an
    endpoint on it, or a direct call of the counting function. *)
Definition sent_from (l : loc) (st : step) : nat :=
  match st_request st, st_response st with
  | MailboxSend (Some l') _ _ _ _ _, MailboxStatus ATARIX_MAILBOX_STATUS_OK
  | RecordTx (Some l'), _ => if decide (l' = l) then 1 else 0
  | _, _ => 0
  end.

Definition received_at (l : loc) (st : step) : nat :=
  match st_request st, st_response st with
  | MailboxReceive (Some d) _, MailboxStatus ATARIX_MAILBOX_STATUS_OK =>
    if decide (ep_node <$> sys_endpoints (st_before st) !! d = Some (Some l)) then 1 else 0
  | RecordRx (Some l'), _ => if decide (l' = l) then 1 else 0
  | _, _ => 0
  end.

(** The packet is what a send of the trace wrote: its header is over the payload
    as it was then. *)
Definition sent_as (p : atarix_sim_mailbox_packet_t) (st : step) : Prop :=
  match st_request st, st_response st with
  | MailboxSend (Some _) (Some _) type sequence payload length,
    MailboxStatus ATARIX_MAILBOX_STATUS_OK =>
    exists bs, payload_now (buffers (sys_world (st_before st))) payload length = Some bs /\
      p = SimPacket (MailboxHeader ATARIX_MAILBOX_MAGIC_V1 type length sequence (payload_crc bs))
            payload length
  | _, _ => False
  end.

Definition forges (r : request) : bool :=
  match r with ForgePacket _ _ => true | _ => false end.

(** A call whose effect the network explains. *)
Lemma perform_network s n r o s1 :
  system_repr s n -> request_ok r -> perform s r = Some (o, s1) ->
  exists n1, network_perform n r = Some (o, n1) /\ system_repr s1 n1.
Proof.
  intros Hr Hok Hp. pose proof (perform_agrees s n Hr r Hok) as H. rewrite Hp in H.
  inversion H as [? [o' n1] [Ho H1]|]. cbn in *. subst. by exists n1.
Qed.

(** The calls by what they do to the network. *)
Ltac call_cases Hp :=
  match type of Hp with network_perform _ ?r = _ => destruct r as
    [[?l|] ?id ?name|[?l|]|[?l|]|[?e'|] ?node'| |[?l|]|?id| |[?l|] [?k|] ?type ?sequence ?payload ?length|
     [?d|] [?k|]|?buffer ?data|?from ?to|?to ?packet] end;
  cbn [network_perform pointed] in Hp; unfold network_count, set_station, network_send, network_receive in Hp;
  repeat (case_match || simplify_option_eq).

Lemma refused_delivers_nothing e s d k status :
  status <> ATARIX_MAILBOX_STATUS_OK ->
  delivery e (Step s (MailboxReceive d k) (MailboxStatus status)) = None.
Proof. unfold delivery; cbn. by destruct d, k, status. Qed.

Lemma refused_counts_nothing l s r status :
  status <> ATARIX_MAILBOX_STATUS_OK -> (forall node, r <> RecordTx node /\ r <> RecordRx node) ->
  sent_from l (Step s r (MailboxStatus status)) = 0%nat /\
  received_at l (Step s r (MailboxStatus status)) = 0%nat.
Proof. unfold sent_from, received_at; cbn. intros ? Hr.
  destruct r as [| node|node| | | | | | | | | |]; try by destruct status; repeat case_match.
  all: by destruct (Hr node).
Qed.

Lemma send_refusal_refuses type payload length status :
  send_refusal type payload length = Some status -> status <> ATARIX_MAILBOX_STATUS_OK.
Proof. unfold send_refusal. intros H. repeat case_match; by simplify_eq. Qed.

Lemma station_eta e : Station (sn_id e) (sn_name e) (sn_sent e + 0) (sn_received e + 0) = e.
Proof. rewrite !Nat.add_0_r. by destruct e. Qed.

Section one_call.
Context (s : system) (n n1 : network) (r : request) (o : response) (Hr : system_repr s n)
  (Hp : network_perform n r = Some (o, n1)).

(** An endpoint's run grows by what the call delivers to it. *)
Lemma run_grows e node run :
  (forall node', r <> EndpointInit (Some e) node') ->
  nw_endpoints n !! e = Some (node, run) ->
  nw_endpoints n1 !! e =
    Some (node, run ++ option_list (packet_sequence <$> delivery e (Step s r o))).
Proof.
  pose proof (sr_packets _ _ Hr) as Hpk.
  intros Hne He. call_cases Hp;
    rewrite ?refused_delivers_nothing by done; rewrite ?app_nil_r; try done.
  - rewrite lookup_insert_ne; [done|]. intros ->. by edestruct Hne.
  - unfold delivery. cbn [st_request st_response st_before]. rewrite Hpk.
    case_decide as Hd; [|rewrite app_nil_r, lookup_insert_ne by done; done].
    subst e. rewrite lookup_insert_eq. simplify_option_eq.
    done.
Qed.

(** What is delivered is intact. *)
Lemma delivery_intact e p :
  delivery e (Step s r o) = Some p -> intact (sys_world s) p.
Proof.
  pose proof (sr_packets _ _ Hr) as Hpk.
  call_cases Hp; rewrite ?refused_delivers_nothing by done; try done.
  unfold delivery, intact. cbn [st_request st_response st_before]. case_decide; [|done].
  rewrite Hpk. intros Hk. rewrite payload_bytes_buffers with (n := n) by done. simplify_option_eq.
  done.
Qed.

Lemma packet_origin k p :
  forges r = false -> nw_packets n1 !! k = Some p ->
  (exists k', nw_packets n !! k' = Some p) \/ sent_as p (Step s r o).
Proof.
  intros Hf Hk. call_cases Hp; try done; try (left; by eexists).
  - apply lookup_insert_Some in Hk as [[_ <-]|[_ ?]]; [right|left; by eexists].
    unfold sent_as. cbn. rewrite (sr_buffers _ _ Hr). by eexists.
  - apply lookup_insert_Some in Hk as [[_ <-]|[_ ?]]; left; by eexists.
Qed.

(** A call that counts at [l0], seen from [l]. *)
Ltac counted :=
  cbn; case_decide; [subst; rewrite lookup_insert_eq; simplify_option_eq;
                     unfold count_sent, count_received; by rewrite Nat.add_0_r, Nat.add_1_r
                    |by rewrite lookup_insert_ne, station_eta].

Lemma station_counts l e :
  (forall id name, r <> NodeInit (Some l) id name) -> nw_stations n !! l = Some e ->
  nw_stations n1 !! l = Some (Station (sn_id e) (sn_name e)
    (sn_sent e + sent_from l (Step s r o)) (sn_received e + received_at l (Step s r o))).
Proof.
  intros Hne Hl.
  call_cases Hp; try match goal with
    | |- context [Step s ?r (MailboxStatus ?status)] =>
      destruct (refused_counts_nothing l s r status) as [-> ->];
        [first [done|by eapply send_refusal_refuses]|done|] end;
    try (rewrite station_eta; done); try (cbn; rewrite station_eta; done).
  - rewrite lookup_insert_ne; [cbn; by rewrite station_eta|]. intros ->. by edestruct Hne.
  - counted.
  - counted.
  - counted.
  - destruct (endpoint_cases s n Hr d) as [(ep & a & He & Ha & [Hnode _])|[_ Ha]]; [|congruence].
    simplify_option_eq. cbn in Hnode. unfold received_at. cbn. rewrite He. cbn. rewrite Hnode.
    case_decide as Hd; [injection Hd as ->|].
    + rewrite lookup_insert_eq. simplify_option_eq. unfold count_received.
      by rewrite Nat.add_0_r, Nat.add_1_r.
    + rewrite lookup_insert_ne, station_eta by congruence. done.
Qed.
End one_call.

(** ** Whole runs *)

Lemma run_delivers rs s n trace s' e node delivered :
  system_repr s n -> Forall request_ok rs -> run s rs = Some (trace, s') ->
  Forall (fun r => forall node', r <> EndpointInit (Some e) node') rs ->
  nw_endpoints n !! e = Some (node, delivered) ->
  exists n', system_repr s' n' /\
    nw_endpoints n' !! e = Some (node, delivered ++ (packet_sequence <$> deliveries e trace)) /\
    Forall (fun st => forall p, delivery e st = Some p -> intact (sys_world (st_before st)) p) trace.
Proof.
  intros Hr Hrs Hrun Hne. revert s n delivered trace Hr Hrun Hne.
  induction Hrs as [|r rs Hok Hrs IH]; intros s n delivered trace Hr Hrun Hne He.
  { injection Hrun as <- <-. exists n. split; [done|]. by rewrite app_nil_r. }
  cbn [run] in Hrun. destruct (perform s r) as [[o s1]|] eqn:Hp; [|done]. cbn in Hrun.
  destruct (run s1 rs) as [[trace1 s2]|] eqn:Hrun1; [|done]. injection Hrun as <- <-.
  apply Forall_cons in Hne as [Hne1 Hne].
  destruct (perform_network s n r o s1 Hr Hok Hp) as (n1 & Hp1 & Hr1).
  pose proof (run_grows s n n1 r o Hr Hp1 e node delivered Hne1 He) as He1.
  destruct (IH s1 n1 _ _ Hr1 Hrun1 Hne He1) as (n' & Hr' & He' & Hint).
  exists n'. split; [done|]. split.
  - rewrite He', <-app_assoc. unfold deliveries. cbn [omap list_omap].
    by destruct (delivery e (Step s r o)).
  - constructor; [|done]. intros p. by apply (delivery_intact s n n1 r o Hr Hp1).
Qed.

Lemma run_counts rs s n trace s' l e :
  system_repr s n -> Forall request_ok rs -> run s rs = Some (trace, s') ->
  Forall (fun r => forall id name, r <> NodeInit (Some l) id name) rs ->
  nw_stations n !! l = Some e ->
  exists n', system_repr s' n' /\
    nw_stations n' !! l = Some (Station (sn_id e) (sn_name e)
      (sn_sent e + sum_list_with (sent_from l) trace)
      (sn_received e + sum_list_with (received_at l) trace)).
Proof.
  intros Hr Hrs Hrun Hne. revert s n e trace Hr Hrun Hne.
  induction Hrs as [|r rs Hok Hrs IH]; intros s n e trace Hr Hrun Hne He.
  { injection Hrun as <- <-. exists n. split; [done|]. cbn. by rewrite station_eta. }
  cbn [run] in Hrun. destruct (perform s r) as [[o s1]|] eqn:Hp; [|done]. cbn in Hrun.
  destruct (run s1 rs) as [[trace1 s2]|] eqn:Hrun1; [|done]. injection Hrun as <- <-.
  apply Forall_cons in Hne as [Hne1 Hne].
  destruct (perform_network s n r o s1 Hr Hok Hp) as (n1 & Hp1 & Hr1).
  pose proof (station_counts s n n1 r o Hr Hp1 l e Hne1 He) as He1.
  destruct (IH s1 n1 _ _ Hr1 Hrun1 Hne He1) as (n' & Hr' & He').
  exists n'. split; [done|]. rewrite He'. cbn [sn_id sn_name sn_sent sn_received sum_list_with].
  by rewrite !Nat.add_assoc.
Qed.

Lemma run_origin rs s n trace s' e :
  system_repr s n -> Forall request_ok rs -> run s rs = Some (trace, s') ->
  Forall (fun r => forges r = false) rs ->
  Forall (fun p => (exists k, sys_packets s !! k = Some p) \/ Exists (sent_as p) trace)
    (deliveries e trace).
Proof.
  intros Hr Hrs Hrun Hnf. revert s n trace Hr Hrun Hnf.
  induction Hrs as [|r rs Hok Hrs IH]; intros s n trace Hr Hrun Hnf.
  { by injection Hrun as <- <-. }
  cbn [run] in Hrun. destruct (perform s r) as [[o s1]|] eqn:Hp; [|done]. cbn in Hrun.
  destruct (run s1 rs) as [[trace1 s2]|] eqn:Hrun1; [|done]. injection Hrun as <- <-.
  apply Forall_cons in Hnf as [Hnf1 Hnf].
  destruct (perform_network s n r o s1 Hr Hok Hp) as (n1 & Hp1 & Hr1).
  specialize (IH s1 n1 _ Hr1 Hrun1 Hnf).
  assert (Hrest : Forall (fun p => (exists k, sys_packets s !! k = Some p) \/
    Exists (sent_as p) (Step s r o :: trace1)) (deliveries e trace1)).
  { eapply Forall_impl; [exact IH|]. intros p [[k Hk]|Hex]; [|right; by constructor].
    rewrite (sr_packets _ _ Hr1) in Hk.
    destruct (packet_origin s n n1 r o Hr Hp1 k p Hnf1 Hk) as [[k' Hk']|Hs];
      [left; exists k'; by rewrite (sr_packets _ _ Hr)|right; by constructor]. }
  unfold deliveries. cbn [omap list_omap].
  destruct (delivery e (Step s r o)) as [p|] eqn:Hd; [|done]. constructor; [|done]. left.
  unfold delivery in Hd. repeat case_match; simplify_eq; by eexists.
Qed.

Lemma run_reaches s rs trace s' :
  memory_ok s -> fabric_fresh s -> Forall request_ok rs -> run s rs = Some (trace, s') ->
  exists n, system_repr s' n.
Proof.
  intros Hm Hf Hrs Hrun.
  pose proof (run_agrees rs s _ (network_of_repr s Hm (fabric_fresh_repr s Hf)) Hrs) as H.
  rewrite Hrun in H. inversion H as [? [os n] [_ Hr]|]. by exists n.
Qed.

(** After [EndpointInit] an endpoint delivers one run. *)
Lemma endpoint_delivers s n e node rs trace s' :
  system_repr s n -> Forall request_ok rs -> run s (EndpointInit (Some e) node :: rs) = Some (trace, s') ->
  Forall (fun r => forall node', r <> EndpointInit (Some e) node') rs ->
  consecutive (deliveries e trace) /\
  Forall (fun st => forall p, delivery e st = Some p -> intact (sys_world (st_before st)) p) trace.
Proof.
  intros Hr Hrs Hrun Hne. cbn [run] in Hrun.
  destruct (perform s _) as [[o s1]|] eqn:Hp; [|done]. cbn in Hrun.
  destruct (run s1 rs) as [[trace1 s2]|] eqn:Hrun1; [|done]. injection Hrun as <- <-.
  destruct (perform_network s n (EndpointInit (Some e) node) o s1 Hr I Hp) as (n1 & Hp1 & Hr1).
  assert (He : nw_endpoints n1 !! e = Some (node, [])).
  { cbn in Hp1. destruct (nw_endpoints n !! e); [|done]. cbn in Hp1. injection Hp1 as _ <-.
    apply lookup_insert_eq. }
  destruct (run_delivers rs s1 n1 trace1 s2 e node [] Hr1 Hrs Hrun1 Hne He) as (n' & Hr' & He' & Hint).
  split; [|by constructor]. change (deliveries e _) with (deliveries e trace1).
  pose proof (sr_endpoints _ _ Hr' e) as Hep. rewrite He' in Hep.
  inversion Hep as [ep ? [_ Hw] Hs'|]; subst. cbn in Hw. unfold consecutive.
  destruct (packet_sequence <$> deliveries e trace1) as [|first l]; [by exists 0, 0|].
  destruct Hw as (_ & _ & Hw). by eexists _, _.
Qed.

(** The counters of a node over a run. *)
Lemma node_counters s n rs trace s' l nd :
  system_repr s n -> Forall request_ok rs -> run s rs = Some (trace, s') ->
  nodes (sys_world s) !! l = Some nd ->
  Forall (fun r => forall id name, r <> NodeInit (Some l) id name) rs ->
  exists n', nodes (sys_world s') !! l = Some n' /\
    tx_count n' = u32 (tx_count nd + Z.of_nat (sum_list_with (sent_from l) trace)) /\
    rx_count n' = u32 (rx_count nd + Z.of_nat (sum_list_with (received_at l) trace)).
Proof.
  intros Hr Hrs Hrun Hl Hne. rewrite (node_lookup s n Hr) in Hl.
  destruct (nw_stations n !! l) as [e|] eqn:He; [|done]. injection Hl as <-.
  destruct (run_counts rs s n trace s' l e Hr Hrs Hrun Hne He) as (n' & Hr' & He').
  rewrite (node_lookup s' n' Hr'), He'. eexists. split; [done|].
  cbn. unfold uint. rewrite !Zplus_mod_idemp_l, !Nat2Z.inj_add. done.
Qed.

(** C8. Delivery is in order and at most once in the whole fabric: take any memory
    reached by calls, initialize an endpoint, and let any further calls happen,
    on this and on other endpoints, with packets lost, copied, reordered, forged
    or their payloads overwritten, that do not initialize it again. Then the
    packets it has accepted have one consecutive run of sequence numbers without
    repetition, every one was intact when it was accepted, and without forgery
    every one was in the memory at the start or is, header and checksum, what an
    earlier send wrote. The counters of every node have grown by the packets sent
    from it and the packets accepted at the endpoints on it (and by direct calls of
    the counting functions), modulo 2^32. *)
Theorem system_delivers_in_order s rs0 trace0 s0 e node rs trace s' :
  memory_ok s -> fabric_fresh s -> Forall request_ok rs0 -> Forall request_ok rs ->
  run s rs0 = Some (trace0, s0) -> run s0 (EndpointInit (Some e) node :: rs) = Some (trace, s') ->
  Forall (fun r => forall node', r <> EndpointInit (Some e) node') rs ->
  let ps := deliveries e trace in
  consecutive ps /\ NoDup (packet_sequence <$> ps) /\
  Forall (fun st => forall p, delivery e st = Some p -> intact (sys_world (st_before st)) p) trace /\
  (Forall (fun r => forges r = false) rs ->
   Forall (fun p => (exists k, sys_packets s0 !! k = Some p) \/ Exists (sent_as p) trace) ps) /\
  (forall l n, nodes (sys_world s0) !! l = Some n ->
   Forall (fun r => forall id name, r <> NodeInit (Some l) id name) rs ->
   exists n', nodes (sys_world s') !! l = Some n' /\
     tx_count n' = u32 (tx_count n + Z.of_nat (sum_list_with (sent_from l) trace)) /\
     rx_count n' = u32 (rx_count n + Z.of_nat (sum_list_with (received_at l) trace))).
Proof.
  intros Hm Hf Hrs0 Hrs Hrun0 Hrun Hne. cbn zeta.
  destruct (run_reaches s rs0 trace0 s0 Hm Hf Hrs0 Hrun0) as [n0 Hr0].
  assert (Hall : Forall request_ok (EndpointInit (Some e) node :: rs)) by by constructor.
  destruct (endpoint_delivers s0 n0 e node rs trace s' Hr0 Hrs Hrun Hne) as [Hrun' Hint].
  split; [done|]. split; [destruct Hrun' as (first & k & Hps); rewrite Hps; apply NoDup_seqZ|].
  split; [done|].
  split.
  - intros Hnf. apply (run_origin (EndpointInit (Some e) node :: rs) s0 n0 trace s' e); try done.
    by constructor.
  - intros l n Hl Hni. apply (node_counters s0 n0 (EndpointInit (Some e) node :: rs)); try done.
    by constructor.
Qed.

(** The programs of the repository's simulator tests: two nodes, two endpoints,
    two packets and two payloads in uninitialized memory. *)
Definition test_memory : system :=
  System (World {[ 1%positive := SimNode 77 None 8 9; 2%positive := SimNode 0 None 1 1 ]}
           {[ 8%positive := [1; 2; 3; 4]; 9%positive := [5; 6; 7; 8] ]})
    (SimFabric (replicate 256 (FabricSlot 0 None)) 0)
    {[ 5%positive := SimPacket null_header None 0; 6%positive := SimPacket null_header None 0 ]}
    {[ 3%positive := SimEndpoint None (SequenceWindow 5 1);
       4%positive := SimEndpoint None (SequenceWindow 0 0) ]}.

Lemma test_memory_ok : memory_ok test_memory.
Proof.
  assert (Hsplit : forall A (P : A -> Prop) (k1 k2 : loc) (x y : A), P x -> P y ->
    map_Forall (fun _ => P) ({[ k1 := x; k2 := y ]} : gmap loc A))
    by (intros; by apply map_Forall_insert_2, map_Forall_singleton).
  split; apply Hsplit; unfold fits; cbn; lia.
Qed.

Lemma test_memory_fresh : fabric_fresh test_memory.
Proof. by exists (SimFabric [] 3). Qed.

(** [test_sim_ping_pong]. *)
Definition ping_pong : list request :=
  [NodeInit (Some 1%positive) 0 (Some "supervisor"%string);
   NodeInit (Some 2%positive) 1 (Some "fabric"%string);
   EndpointInit (Some 3%positive) (Some 1%positive);
   EndpointInit (Some 4%positive) (Some 2%positive);
   MailboxSend (Some 1%positive) (Some 5%positive) ATARIX_MAILBOX_MESSAGE_PING 1 (Some 8%positive) 4;
   MailboxReceive (Some 4%positive) (Some 5%positive);
   MailboxSend (Some 2%positive) (Some 6%positive) ATARIX_MAILBOX_MESSAGE_PONG 1 (Some 9%positive) 4;
   MailboxReceive (Some 3%positive) (Some 6%positive);
   MailboxReceive (Some 4%positive) (Some 5%positive)].

Lemma ping_pong_ok : Forall request_ok ping_pong.
Proof. unfold ping_pong. repeat constructor; unfold ATARIX_MAILBOX_MESSAGE_PING, ATARIX_MAILBOX_MESSAGE_PONG; lia. Qed.

(** The test's expected statuses, from the network. *)
Definition ping_pong_answers : list response :=
  [Done; Done; Done; Done] ++ replicate 4 (MailboxStatus ATARIX_MAILBOX_STATUS_OK) ++
  [MailboxStatus ATARIX_MAILBOX_STATUS_DUPLICATE].

Lemma ping_pong_network :
  match network_run (network_of test_memory) ping_pong with
  | Some (os, n) => os = ping_pong_answers /\
      nw_stations n !! 1%positive = Some (Station 0 (Some "supervisor"%string) 1 1)
  | None => False
  end.
Proof. vm_compute. by split. Qed.

Lemma system_refines_network_witness :
  exists trace s', run test_memory ping_pong = Some (trace, s') /\
    responses trace = ping_pong_answers /\
    nodes (sys_world s') !! 1%positive = Some (SimNode 0 (Some "supervisor"%string) 1 1).
Proof.
  pose proof (system_refines_network test_memory ping_pong test_memory_ok test_memory_fresh
    ping_pong_ok) as H.
  pose proof ping_pong_network as Hn. revert H Hn.
  destruct (run test_memory ping_pong) as [[trace s']|];
    destruct (network_run _ _) as [[os n']|]; intros H Hn; try contradiction.
  destruct H as [Hos Hr], Hn as [-> Hn]. exists trace, s'. split; [reflexivity|].
  split; [exact Hos|]. rewrite (node_lookup s' n' Hr), Hn. reflexivity.
Defined.

(** The test from the initialization of the second endpoint on. *)
Lemma system_delivers_in_order_witness :
  exists trace s', run test_memory (drop 3 ping_pong) = Some (trace, s') /\
    packet_sequence <$> deliveries 4%positive trace = [1] /\
    NoDup (packet_sequence <$> deliveries 4%positive trace).
Proof.
  destruct (run test_memory (drop 3 ping_pong)) as [[trace s']|] eqn:Hrun;
    [|vm_compute in Hrun; discriminate].
  exists trace, s'. split; [reflexivity|]. split.
  - revert Hrun. vm_compute. intros [= <- _]. reflexivity.
  - refine (proj1 (proj2 (system_delivers_in_order test_memory [] [] test_memory 4%positive
      (Some 2%positive) (drop 4 ping_pong) trace s' test_memory_ok test_memory_fresh _ _ _ Hrun _))).
    + constructor.
    + exact (Forall_drop _ 4 _ ping_pong_ok).
    + reflexivity.
    + repeat constructor; intros node'; discriminate.
Defined.
