(* ===== verification/BibFormat.v ===== *)
(** * Boot Information Block: the serialized format

    [include/atarix/bib.h]: constants, error codes, structure layouts and the
    inline predicates; and, as the abstract syntax the reader and the builder
    are compared with, headers and TLV records with their encoding. *)

From S2P Require Import Prelude Crc.

(** ** bib.h *)

Definition ATARIX_BIB_VERSION_MAJOR_V1 : Z := 1.
Definition ATARIX_BIB_VERSION_MINOR_V0 : Z := 0.
Definition ATARIX_BIB_HEADER_SIZE_V1 : Z := 64.
Definition ATARIX_BIB_TLV_HEADER_SIZE_V1 : Z := 16.
Definition ATARIX_BIB_REFERENCE_FIXED_SIZE_V1 : Z := 40.
Definition ATARIX_BIB_IDENTITY_FIXED_SIZE_V1 : Z := 16.
Definition ATARIX_BIB_ALIGNMENT_V1 : Z := 8.
Definition ATARIX_BIB_RECOMMENDED_MAX_SIZE_V1 : Z := 64 * 1024.

(** ATARXBIB *)
Definition ATARIX_BIB_MAGIC : bytes := [65; 84; 65; 82; 88; 66; 73; 66].

Definition ATARIX_BIB_HEADER_KNOWN_FLAGS_V1 : Z := 0x000F.
Definition ATARIX_BIB_TLV_KNOWN_FLAGS_V1 : Z := 0x0003.

Definition ATARIX_BIB_FLAG_RECOVERY_BOOT : Z := 1.
Definition ATARIX_BIB_FLAG_DEGRADED_BOOT : Z := 2.
Definition ATARIX_BIB_FLAG_SECURE_POLICY_ACTIVE : Z := 4.
Definition ATARIX_BIB_FLAG_DIAGNOSTIC_BOOT : Z := 8.

Definition ATARIX_BIB_TLV_FLAG_MANDATORY : Z := 1.
Definition ATARIX_BIB_TLV_FLAG_SENSITIVE : Z := 2.

Definition ATARIX_BIB_TLV_RESERVED : Z := 0x0000.
Definition ATARIX_BIB_TLV_SERVICE_DIRECTORY_REFERENCE : Z := 0x0001.
Definition ATARIX_BIB_TLV_MEMORY_MAP_REFERENCE : Z := 0x0002.
Definition ATARIX_BIB_TLV_BOOT_DEVICE_IDENTITY : Z := 0x0003.
Definition ATARIX_BIB_TLV_BOOT_IMAGE_IDENTITY : Z := 0x0004.
Definition ATARIX_BIB_TLV_BOOT_ARGUMENTS : Z := 0x0005.
Definition ATARIX_BIB_TLV_CONSOLE_SERVICE_IDENTITY : Z := 0x0006.
Definition ATARIX_BIB_TLV_SUPERVISOR_SERVICE_IDENTITY : Z := 0x0007.
Definition ATARIX_BIB_TLV_AUDIT_LOG_REFERENCE : Z := 0x0008.
Definition ATARIX_BIB_TLV_FIRMWARE_BUILD_IDENTITY : Z := 0x0009.
Definition ATARIX_BIB_TLV_ENTROPY_SEED_REFERENCE : Z := 0x000A.
Definition ATARIX_BIB_TLV_EXPERIMENTAL_BEGIN : Z := 0x8000.
Definition ATARIX_BIB_TLV_EXPERIMENTAL_END : Z := 0xFFFF.

Inductive atarix_bib_error_t : Type :=
| ATARIX_BIB_OK
| ATARIX_BIB_E_WINDOW
| ATARIX_BIB_E_MAGIC
| ATARIX_BIB_E_VERSION
| ATARIX_BIB_E_HEADER_LENGTH
| ATARIX_BIB_E_TOTAL_LENGTH
| ATARIX_BIB_E_CRC
| ATARIX_BIB_E_HEADER_RESERVED
| ATARIX_BIB_E_TLV_BOUNDS
| ATARIX_BIB_E_TLV_RESERVED
| ATARIX_BIB_E_UNKNOWN_MANDATORY
| ATARIX_BIB_E_REQUIRED_RECORD
| ATARIX_BIB_E_REFERENCE_OVERFLOW
| ATARIX_BIB_E_REFERENCE_AUTHORITY
| ATARIX_BIB_E_REFERENCE_INTEGRITY.

#[export] Instance atarix_bib_error_eq_dec : EqDecision atarix_bib_error_t.
Proof. solve_decision. Defined.

(** [magic] points at eight bytes of the memory [m]; the comparisons are made in
    order and stop at the first difference. *)
Fixpoint magic_bytes_match (m : bytes) (p : Z) (expected : bytes) : option bool :=
  match expected with
  | [] => Some true
  | e :: rest =>
    b ← load8 m p;
    if b =? e then magic_bytes_match m (p + 1) rest else Some false
  end.

Definition atarix_bib_magic_is_valid (m : bytes) (magic : option Z) : option bool :=
  match magic with
  | None => Some false
  | Some p => magic_bytes_match m p ATARIX_BIB_MAGIC
  end.

Definition atarix_bib_length_is_aligned (length : Z) : bool :=
  length .& (ATARIX_BIB_ALIGNMENT_V1 - 1) =? 0.

Definition atarix_bib_header_flags_are_known (flags : Z) : bool :=
  flags .& u16 (Z.lnot ATARIX_BIB_HEADER_KNOWN_FLAGS_V1) =? 0.

Definition atarix_bib_tlv_flags_are_known (flags : Z) : bool :=
  flags .& u16 (Z.lnot ATARIX_BIB_TLV_KNOWN_FLAGS_V1) =? 0.

Definition atarix_bib_tlv_type_is_experimental (type : Z) : bool :=
  ATARIX_BIB_TLV_EXPERIMENTAL_BEGIN <=? type.

(** The variable members of [struct atarix_bib_header_v1]; magic, major version,
    header length and the reserved member have one value in version 1 and are
    written out by [enc_header]. *)
Record bib_header : Type := BibHeader {
  bh_version_minor : Z;
  bh_flags : Z;
  bh_total_length : Z;
  bh_crc32c : Z;
  bh_boot_id : Z;
  bh_producer_id : Z;
  bh_created_counter : Z;
  bh_tlv_offset : Z;
  bh_tlv_count : Z
}.

(** ** Encoding *)

(** The 64 bytes of a version 1 header. *)
Definition enc_header (h : bib_header) : bytes :=
  ATARIX_BIB_MAGIC ++
  le_bytes 2 ATARIX_BIB_VERSION_MAJOR_V1 ++ le_bytes 2 (bh_version_minor h) ++
  le_bytes 2 ATARIX_BIB_HEADER_SIZE_V1 ++ le_bytes 2 (bh_flags h) ++
  le_bytes 4 (bh_total_length h) ++ le_bytes 4 (bh_crc32c h) ++
  le_bytes 8 (bh_boot_id h) ++ le_bytes 8 (bh_producer_id h) ++
  le_bytes 8 (bh_created_counter h) ++
  le_bytes 4 (bh_tlv_offset h) ++ le_bytes 4 (bh_tlv_count h) ++
  le_bytes 8 0.

(** A TLV record: meaningful payload, then padding up to the record length. *)
Record tlv : Type := Tlv {
  t_type : Z;
  t_flags : Z;
  t_payload : bytes;
  t_padding : bytes
}.

Definition tlv_length (t : tlv) : Z :=
  ATARIX_BIB_TLV_HEADER_SIZE_V1 + blen (t_payload t) + blen (t_padding t).

Definition enc_tlv_header (t : tlv) : bytes :=
  le_bytes 2 (t_type t) ++ le_bytes 2 (t_flags t) ++ le_bytes 4 (tlv_length t) ++
  le_bytes 4 (blen (t_payload t)) ++ le_bytes 4 0.

Definition enc_tlv (t : tlv) : bytes := enc_tlv_header t ++ t_payload t ++ t_padding t.

Definition enc_tlvs (ts : list tlv) : bytes := concat (map enc_tlv ts).

Record tlv_wf (t : tlv) : Prop := {
  tw_type : fits 16 (t_type t);
  tw_flags : fits 16 (t_flags t);
  tw_length : fits 32 (tlv_length t);
  tw_known_flags : atarix_bib_tlv_flags_are_known (t_flags t) = true;
  tw_aligned : (8 | tlv_length t);
  tw_payload : bytes_ok (t_payload t);
  tw_padding : bytes_ok (t_padding t)
}.

Record header_wf (h : bib_header) : Prop := {
  hw_minor : fits 16 (bh_version_minor h);
  hw_flags : fits 16 (bh_flags h);
  hw_total : fits 32 (bh_total_length h);
  hw_crc : fits 32 (bh_crc32c h);
  hw_boot : fits 64 (bh_boot_id h);
  hw_producer : fits 64 (bh_producer_id h);
  hw_created : fits 64 (bh_created_counter h);
  hw_offset : fits 32 (bh_tlv_offset h);
  hw_count : fits 32 (bh_tlv_count h)
}.

(** The header as it is while the checksum is computed. *)
Definition zero_crc (h : bib_header) : bib_header :=
  BibHeader (bh_version_minor h) (bh_flags h) (bh_total_length h) 0 (bh_boot_id h)
    (bh_producer_id h) (bh_created_counter h) (bh_tlv_offset h) (bh_tlv_count h).

(** CRC-32C, the checksum of the block. *)
Abbreviation bib_crc := (crc_of poly_castagnoli).

(** The fixed part of a reference record's payload. *)
Definition enc_reference (object_id address length format_major format_minor : Z) : bytes :=
  le_bytes 8 object_id ++ le_bytes 8 address ++ le_bytes 8 length ++
  le_bytes 4 format_major ++ le_bytes 4 format_minor ++ replicate 8 0.

#[global] Arguments enc_header : simpl never.
#[global] Arguments enc_tlv : simpl never.
#[global] Arguments enc_tlv_header : simpl never.
#[global] Arguments enc_tlvs : simpl never.
#[global] Arguments enc_reference : simpl never.

Lemma blen_enc_header h : blen (enc_header h) = 64.
Proof. reflexivity. Qed.

Lemma enc_header_ok h : bytes_ok (enc_header h).
Proof.
  unfold enc_header. repeat (apply Forall_app; split); auto with atarix.
  by repeat constructor.
Qed.

Lemma blen_enc_tlv_header t : blen (enc_tlv_header t) = 16.
Proof. reflexivity. Qed.

Lemma blen_enc_tlv t : blen (enc_tlv t) = tlv_length t.
Proof.
  unfold enc_tlv, tlv_length. rewrite !blen_app, blen_enc_tlv_header.
  unfold ATARIX_BIB_TLV_HEADER_SIZE_V1. lia.
Qed.

Lemma tlv_length_ge t : 16 <= tlv_length t.
Proof.
  unfold tlv_length, ATARIX_BIB_TLV_HEADER_SIZE_V1.
  pose proof (blen_nonneg (t_payload t)). pose proof (blen_nonneg (t_padding t)). lia.
Qed.

Lemma enc_tlv_ok t : tlv_wf t -> bytes_ok (enc_tlv t).
Proof.
  intros [_ _ _ _ _ Hp Hq]. unfold enc_tlv, enc_tlv_header.
  repeat (apply Forall_app; split); auto with atarix.
Qed.

Lemma enc_tlvs_cons t ts : enc_tlvs (t :: ts) = enc_tlv t ++ enc_tlvs ts.
Proof. done. Qed.

Lemma enc_tlvs_app ts us : enc_tlvs (ts ++ us) = enc_tlvs ts ++ enc_tlvs us.
Proof. unfold enc_tlvs. by rewrite map_app, concat_app. Qed.

Lemma enc_tlvs_ok ts : Forall tlv_wf ts -> bytes_ok (enc_tlvs ts).
Proof.
  induction 1; [constructor|]. rewrite enc_tlvs_cons. apply Forall_app.
  auto using enc_tlv_ok.
Qed.

Lemma length_is_aligned_spec n : atarix_bib_length_is_aligned n = true <-> (8 | n).
Proof. apply aligned8_spec. Qed.

#[export] Hint Rewrite blen_enc_header blen_enc_tlv_header blen_enc_tlv : blen.
#[export] Hint Resolve enc_header_ok : atarix.

Lemma blen_enc_reference o a l x y : blen (enc_reference o a l x y) = 40.
Proof. reflexivity. Qed.

Lemma enc_reference_ok o a l x y : bytes_ok (enc_reference o a l x y).
Proof.
  unfold enc_reference. repeat (apply Forall_app; split); auto with atarix.
  by repeat constructor.
Qed.

#[export] Hint Rewrite blen_enc_reference : blen.
#[export] Hint Resolve enc_reference_ok : atarix.
