(* ===== verification/BibBuilder.v ===== *)
(** * Boot Information Block: the builder

    [include/atarix/bib_builder.h] and [src/bib/bib_builder.c]. The builder
    writes into a buffer its caller owns; the model keeps the contents of that
    buffer in the builder record, so an operation returns the builder with the
    buffer as the code leaves it. An argument pointer is an [option], [None] in
    the result is a write or read outside the buffers. *)

From S2P Require Import Prelude Crc BibFormat.

(** ** Little-endian stores *)

Definition write_le16 (m : bytes) (p value : Z) : option bytes :=
  m ← store8 m p value;
  store8 m (p + 1) (value .>> 8).

Definition write_le32 (m : bytes) (p value : Z) : option bytes :=
  m ← store8 m p value;
  m ← store8 m (p + 1) (value .>> 8);
  m ← store8 m (p + 2) (value .>> 16);
  store8 m (p + 3) (value .>> 24).

Definition write_le64 (m : bytes) (p value : Z) : option bytes :=
  m ← write_le32 m p (u32 value);
  write_le32 m (p + 4) (u32 (value .>> 32)).

(** ** CRC-32C *)

Definition crc32c_bit (crc : Z) : Z :=
  (crc .>> 1) .^ (if negb (crc .& 1 =? 0) then 0x82F63B78 else 0).

Definition crc32c (data : bytes) (length : Z) : option Z :=
  crc ← for_bytes (fun crc b => Nat.iter 8 crc32c_bit (crc .^ b))
          (Z.to_nat length) data 0 UINT32_MAX;
  Some (crc .^ UINT32_MAX).

(** Rounds up to the next multiple of eight; [None] is the return value 0, the
    rounded value does not fit. *)
Definition align8_u32 (value : Z) : option Z :=
  if UINT32_MAX - 7 <? value then None
  else Some (u32 (value + 7) .& u32 (Z.lnot 7)).

(** ** Builder state *)

Inductive atarix_bib_builder_result_t : Type :=
| ATARIX_BIB_BUILDER_OK
| ATARIX_BIB_BUILDER_E_ARGUMENT
| ATARIX_BIB_BUILDER_E_CAPACITY
| ATARIX_BIB_BUILDER_E_STATE
| ATARIX_BIB_BUILDER_E_FLAGS
| ATARIX_BIB_BUILDER_E_LENGTH.

#[export] Instance atarix_bib_builder_result_eq_dec : EqDecision atarix_bib_builder_result_t.
Proof. solve_decision. Defined.

Record atarix_bib_builder_t : Type := BibBuilder {
  bb_buffer : option bytes;
  bb_capacity : Z;
  bb_length : Z;
  bb_tlv_count : Z;
  bb_sealed : Z
}.

(** ** Operations *)

(** The stores of [atarix_bib_builder_init] on the caller's buffer. *)
Definition init_buffer (p : bytes) (capacity header_flags boot_id producer_id created_counter : Z)
  : option bytes :=
  p ← memset p 0 0 capacity;
  p ← store_bytes p 0 ATARIX_BIB_MAGIC;
  p ← write_le16 p 8 ATARIX_BIB_VERSION_MAJOR_V1;
  p ← write_le16 p 10 ATARIX_BIB_VERSION_MINOR_V0;
  p ← write_le16 p 12 ATARIX_BIB_HEADER_SIZE_V1;
  p ← write_le16 p 14 header_flags;
  p ← write_le64 p 24 boot_id;
  p ← write_le64 p 32 producer_id;
  p ← write_le64 p 40 created_counter;
  write_le32 p 48 ATARIX_BIB_HEADER_SIZE_V1.

Definition atarix_bib_builder_init (builder : option atarix_bib_builder_t)
    (buffer : option bytes)
    (capacity header_flags boot_id producer_id created_counter : Z)
  : option (atarix_bib_builder_result_t * option atarix_bib_builder_t) :=
  match builder, buffer with
  | Some _, Some p =>
    if (capacity <? ATARIX_BIB_HEADER_SIZE_V1) || (UINT32_MAX <? capacity)
    then Some (ATARIX_BIB_BUILDER_E_ARGUMENT, builder)
    else if negb (atarix_bib_header_flags_are_known header_flags)
    then Some (ATARIX_BIB_BUILDER_E_FLAGS, builder)
    else
      p ← init_buffer p capacity header_flags boot_id producer_id created_counter;
      Some (ATARIX_BIB_BUILDER_OK,
            Some (BibBuilder (Some p) capacity ATARIX_BIB_HEADER_SIZE_V1 0 0))
  | _, _ => Some (ATARIX_BIB_BUILDER_E_ARGUMENT, builder)
  end.

(** The record written at [record] by [atarix_bib_builder_add_tlv]. *)
Definition write_record (m : bytes) (record type flags : Z) (payload : option bytes)
    (payload_length record_length : Z) : option bytes :=
  m ← memset m record 0 record_length;
  m ← write_le16 m (record + 0) type;
  m ← write_le16 m (record + 2) flags;
  m ← write_le32 m (record + 4) record_length;
  m ← write_le32 m (record + 8) payload_length;
  if negb (payload_length =? 0) then
    src ← payload;
    bs ← load_bytes src 0 payload_length;
    store_bytes m (record + ATARIX_BIB_TLV_HEADER_SIZE_V1) bs
  else Some m.

Definition atarix_bib_builder_add_tlv (builder : option atarix_bib_builder_t)
    (type flags : Z) (payload : option bytes) (payload_length : Z)
  : option (atarix_bib_builder_result_t * option atarix_bib_builder_t) :=
  match builder with
  | None => Some (ATARIX_BIB_BUILDER_E_ARGUMENT, builder)
  | Some b =>
    match bb_buffer b with
    | None => Some (ATARIX_BIB_BUILDER_E_ARGUMENT, builder)
    | Some m =>
      if negb (payload_length =? 0) && bool_decide (payload = None)
      then Some (ATARIX_BIB_BUILDER_E_ARGUMENT, builder)
      else if negb (bb_sealed b =? 0)
      then Some (ATARIX_BIB_BUILDER_E_STATE, builder)
      else if negb (atarix_bib_tlv_flags_are_known flags)
      then Some (ATARIX_BIB_BUILDER_E_FLAGS, builder)
      else if UINT32_MAX - ATARIX_BIB_TLV_HEADER_SIZE_V1 <? payload_length
      then Some (ATARIX_BIB_BUILDER_E_LENGTH, builder)
      else
        match align8_u32 (u32 (ATARIX_BIB_TLV_HEADER_SIZE_V1 + payload_length)) with
        | None => Some (ATARIX_BIB_BUILDER_E_LENGTH, builder)
        | Some record_length =>
          if (bb_capacity b <? bb_length b) ||
             (bb_capacity b - bb_length b <? record_length)
          then Some (ATARIX_BIB_BUILDER_E_CAPACITY, builder)
          else
            m ← write_record m (bb_length b) type flags payload payload_length record_length;
            Some (ATARIX_BIB_BUILDER_OK,
                  Some (BibBuilder (Some m) (bb_capacity b)
                          (u32 (bb_length b + record_length))
                          (u32 (bb_tlv_count b + 1)) (bb_sealed b)))
        end
    end
  end.

(** The 40-byte payload assembled on the stack. *)
Definition reference_payload (object_id address length format_major format_minor : Z)
  : option bytes :=
  payload ← memset (replicate 40 0) 0 0 ATARIX_BIB_REFERENCE_FIXED_SIZE_V1;
  payload ← write_le64 payload 0 object_id;
  payload ← write_le64 payload 8 address;
  payload ← write_le64 payload 16 length;
  payload ← write_le32 payload 24 format_major;
  write_le32 payload 28 format_minor.

Definition atarix_bib_builder_add_reference (builder : option atarix_bib_builder_t)
    (type flags object_id address length format_major format_minor : Z)
  : option (atarix_bib_builder_result_t * option atarix_bib_builder_t) :=
  payload ← reference_payload object_id address length format_major format_minor;
  atarix_bib_builder_add_tlv builder type flags (Some payload)
    ATARIX_BIB_REFERENCE_FIXED_SIZE_V1.

(** Returns the result, the builder and what is behind [serialized_length]. *)
Definition atarix_bib_builder_seal (builder : option atarix_bib_builder_t)
    (serialized_length : option Z)
  : option (atarix_bib_builder_result_t * option atarix_bib_builder_t * option Z) :=
  match builder with
  | None => Some (ATARIX_BIB_BUILDER_E_ARGUMENT, builder, serialized_length)
  | Some b =>
    match bb_buffer b with
    | None => Some (ATARIX_BIB_BUILDER_E_ARGUMENT, builder, serialized_length)
    | Some m =>
      if negb (bb_sealed b =? 0)
      then Some (ATARIX_BIB_BUILDER_E_STATE, builder, serialized_length)
      else
        m ← write_le32 m 16 (bb_length b);
        m ← write_le32 m 20 0;
        m ← write_le32 m 52 (bb_tlv_count b);
        crc ← crc32c m (bb_length b);
        m ← write_le32 m 20 crc;
        Some (ATARIX_BIB_BUILDER_OK,
              Some (BibBuilder (Some m) (bb_capacity b) (bb_length b)
                      (bb_tlv_count b) 1),
              match serialized_length with
              | Some _ => Some (bb_length b)
              | None => None
              end)
    end
  end.

(** ** The stores write the little-endian encoding *)

Lemma u8_shiftr v k : 0 <= k -> u8 (v .>> k) = v / 2 ^ k mod 256.
Proof. intros. unfold uint. by rewrite Z.shiftr_div_pow2. Qed.

Lemma write_le16_store m p v : write_le16 m p v = store_bytes m p (le_bytes 2 v).
Proof.
  unfold write_le16. change (le_bytes 2 v) with ([u8 v] ++ [v / 256 mod 256]).
  rewrite store_bytes_concat, store8_store_bytes.
  destruct (store_bytes m p [u8 v]) as [m'|]; [|done]. cbn [mbind option_bind].
  by rewrite store8_store_bytes, u8_shiftr.
Qed.

Lemma write_le32_store m p v : write_le32 m p v = store_bytes m p (le_bytes 4 v).
Proof.
  unfold write_le32.
  change (le_bytes 4 v) with
    ([u8 v] ++ [v / 256 mod 256] ++ [v / 256 / 256 mod 256] ++ [v / 256 / 256 / 256 mod 256]).
  rewrite !store_bytes_concat, store8_store_bytes.
  destruct (store_bytes m p _) as [m1|]; [|done]. cbn [mbind option_bind].
  rewrite !store_bytes_concat, store8_store_bytes, u8_shiftr by lia.
  change (2 ^ 8) with 256. change (blen [u8 v]) with 1.
  destruct (store_bytes m1 _ _) as [m2|]; [|done]. cbn [mbind option_bind].
  change (blen [v / 256 mod 256]) with 1. change (blen [v / 256 / 256 mod 256]) with 1.
  rewrite !store_bytes_concat, store8_store_bytes, u8_shiftr by lia.
  replace (p + 1 + 1) with (p + 2) by lia.
  rewrite !Z.div_div by lia. change (2 ^ 16) with (256 * 256).
  destruct (store_bytes m2 _ _) as [m3|]; [|done]. cbn [mbind option_bind].
  change (blen [v / (256 * 256) mod 256]) with 1.
  rewrite store8_store_bytes, u8_shiftr by lia.
  by replace (p + 2 + 1) with (p + 3) by lia.
Qed.

Lemma write_le64_store m p v : write_le64 m p v = store_bytes m p (le_bytes 8 v).
Proof.
  unfold write_le64. rewrite (le_bytes_add 4 4), store_bytes_concat, write_le32_store.
  unfold uint. change (2 ^ 32) with (256 ^ Z.of_nat 4). rewrite !le_bytes_mod.
  destruct (store_bytes m p _) as [m'|]; [|done]. cbn [mbind option_bind].
  by rewrite write_le32_store, le_bytes_mod, Z.shiftr_div_pow2 by lia.
Qed.

(** Turns the first store of a sequence into [store_bytes] and moves past it. *)
Ltac store_steps :=
  repeat (rewrite ?write_le16_store, ?write_le32_store, ?write_le64_store;
    first [done|destruct (store_bytes _ _ _); [cbn [mbind option_bind]|done]]).

Lemma crc32c_bit_spec crc : crc32c_bit crc = crc_bit poly_castagnoli crc.
Proof.
  unfold crc32c_bit, crc_bit. rewrite land_1_testbit. by destruct (Z.testbit crc 0).
Qed.

Lemma crc32c_spec data n bs :
  load_bytes data 0 n = Some bs -> crc32c data n = Some (bib_crc bs).
Proof.
  intros Hbs. unfold crc32c.
  rewrite (for_bytes_crc poly_castagnoli crc32c_bit _ _ _ bs);
    [done|apply crc32c_bit_spec|].
  apply load_bytes_length in Hbs as Hl. pose proof (blen_nonneg bs).
  by rewrite Z2Nat.id by lia.
Qed.

(** ** Alignment *)

Lemma land_lnot_7 x : fits 32 x -> x .& u32 (Z.lnot 7) = x - x mod 8.
Proof.
  intros Hx. transitivity (Z.ldiff x 7).
  - apply Z.bits_inj'. intros i Hi. unfold uint. rewrite Z.land_spec, Z.ldiff_spec.
    destruct (decide (i < 32)).
    + rewrite Z.mod_pow2_bits_low by lia. by rewrite Z.lnot_spec.
    + by rewrite (testbit_fits 32 x) by (done || lia).
  - change 7 with (Z.ones 3). rewrite Z.ldiff_ones_r by lia.
    rewrite Z.shiftr_div_pow2, Z.shiftl_mul_pow2 by lia. change (2 ^ 3) with 8.
    pose proof (Z.div_mod x 8). lia.
Qed.

(** Rounding up gives the least multiple of eight not below the value, unless
    that multiple does not fit 32 bits. *)
Lemma align8_u32_spec value :
  fits 32 value ->
  (align8_u32 value = None /\ UINT32_MAX - 7 < value) \/
  (exists r, align8_u32 value = Some r /\ value <= UINT32_MAX - 7 /\
     value <= r < value + 8 /\ (8 | r) /\ fits 32 r).
Proof.
  unfold fits, align8_u32, UINT32_MAX. intros Hv.
  destruct (Z.ltb_spec (2 ^ 32 - 1 - 7) value); [by left|]. right.
  rewrite (uint_small 32 (value + 7)), land_lnot_7 by (unfold fits; lia).
  pose proof (Z.mod_pos_bound (value + 7) 8). pose proof (Z.div_mod (value + 7) 8).
  eexists. split; [done|].
  assert (8 | value + 7 - (value + 7) mod 8) by (exists ((value + 7) / 8); lia).
  repeat split; (done || lia).
Qed.

(** ** What a builder under construction represents *)

(** The header of a block under construction. *)
Definition fresh_header (header_flags boot_id producer_id created_counter : Z) : bib_header :=
  BibHeader ATARIX_BIB_VERSION_MINOR_V0 header_flags 0 0 boot_id producer_id
    created_counter ATARIX_BIB_HEADER_SIZE_V1 0.

(** The sealed header. *)
Definition sealed_header (h : bib_header) (total crc count : Z) : bib_header :=
  BibHeader (bh_version_minor h) (bh_flags h) total crc (bh_boot_id h)
    (bh_producer_id h) (bh_created_counter h) (bh_tlv_offset h) count.

(** An open builder holds the fresh header, the records added so far, zeros up
    to the capacity, and beyond it memory it never touches. *)
Record builder_repr (b : atarix_bib_builder_t) (h : bib_header) (ts : list tlv)
    (tail : bytes) : Prop := {
  br_buffer : bb_buffer b =
    Some (enc_header h ++ enc_tlvs ts ++
          replicate (Z.to_nat (bb_capacity b - bb_length b)) 0 ++ tail);
  br_length : bb_length b = 64 + blen (enc_tlvs ts);
  br_capacity : bb_length b <= bb_capacity b <= UINT32_MAX;
  br_count : bb_tlv_count b = Z.of_nat (length ts);
  br_open : bb_sealed b = 0
}.

(** Evaluates stores at known offsets into a known prefix of the memory. *)
Ltac compute_stores :=
  repeat (rewrite store_bytes_app_l by done;
    match goal with |- context [store_bytes ?m ?p ?bs] =>
      let m' := eval cbv -[Z.modulo Z.div] in (store_bytes m p bs) in
      replace (store_bytes m p bs) with m' by reflexivity
    end; cbn [mbind option_bind]).

(** Stores into the 64 bytes of a header, whatever the values stored. *)
Lemma store_total_length h v :
  store_bytes (enc_header h) 16 (le_bytes 4 v) =
  Some (enc_header (BibHeader (bh_version_minor h) (bh_flags h) v (bh_crc32c h) (bh_boot_id h)
    (bh_producer_id h) (bh_created_counter h) (bh_tlv_offset h) (bh_tlv_count h))).
Proof. reflexivity. Qed.

Lemma store_crc32c h v :
  store_bytes (enc_header h) 20 (le_bytes 4 v) =
  Some (enc_header (BibHeader (bh_version_minor h) (bh_flags h) (bh_total_length h) v
    (bh_boot_id h) (bh_producer_id h) (bh_created_counter h) (bh_tlv_offset h)
    (bh_tlv_count h))).
Proof. reflexivity. Qed.

Lemma store_tlv_count h v :
  store_bytes (enc_header h) 52 (le_bytes 4 v) =
  Some (enc_header (BibHeader (bh_version_minor h) (bh_flags h) (bh_total_length h)
    (bh_crc32c h) (bh_boot_id h) (bh_producer_id h) (bh_created_counter h)
    (bh_tlv_offset h) v)).
Proof. reflexivity. Qed.

(** On 64 zero bytes the initial stores give the fresh header. *)
Lemma init_buffer_header flags boot producer created rest :
  (p ← store_bytes (replicate 64 0 ++ rest) 0 ATARIX_BIB_MAGIC;
   p ← store_bytes p 8 (le_bytes 2 ATARIX_BIB_VERSION_MAJOR_V1);
   p ← store_bytes p 10 (le_bytes 2 ATARIX_BIB_VERSION_MINOR_V0);
   p ← store_bytes p 12 (le_bytes 2 ATARIX_BIB_HEADER_SIZE_V1);
   p ← store_bytes p 14 (le_bytes 2 flags);
   p ← store_bytes p 24 (le_bytes 8 boot);
   p ← store_bytes p 32 (le_bytes 8 producer);
   p ← store_bytes p 40 (le_bytes 8 created);
   store_bytes p 48 (le_bytes 4 ATARIX_BIB_HEADER_SIZE_V1)) =
  Some (enc_header (fresh_header flags boot producer created) ++ rest).
Proof.
  compute_stores.
  reflexivity.
Qed.

(** ** Initialization *)

Lemma init_buffer_spec m capacity flags boot producer created :
  64 <= capacity <= blen m ->
  init_buffer m capacity flags boot producer created =
  Some (enc_header (fresh_header flags boot producer created) ++
        replicate (Z.to_nat (capacity - 64)) 0 ++ drop (Z.to_nat capacity) m).
Proof.
  intros Hc. unfold init_buffer. rewrite memset_prefix by lia.
  change (u8 0) with 0. cbn [mbind option_bind].
  rewrite (replicate_split 64) by lia. rewrite <-app_assoc.
  replace (Z.to_nat capacity - 64)%nat with (Z.to_nat (capacity - 64)) by lia.
  rewrite <-init_buffer_header.
  store_steps.
Qed.

(** ** Adding a record *)

(** The bytes a caller passes: nothing is read when the length is zero. *)
Definition payload_bytes (payload : option bytes) (payload_length : Z) : option bytes :=
  if payload_length =? 0 then Some [] else src ← payload; load_bytes src 0 payload_length.

(** Padding after a payload of [n] bytes. *)
Definition pad_length (n : Z) : Z := (- n) mod 8.

Lemma pad_length_spec n : 0 <= pad_length n < 8 /\ (8 | 16 + n + pad_length n).
Proof.
  unfold pad_length. split; [apply Z.mod_pos_bound; lia|].
  pose proof (Z.div_mod (- n) 8). exists (2 - (- n) / 8). lia.
Qed.

(** The record [add_tlv] is asked to append. *)
Definition padded_tlv (type flags : Z) (bs : bytes) : tlv :=
  Tlv type flags bs (replicate (Z.to_nat (pad_length (blen bs))) 0).

Lemma padded_tlv_length type flags bs :
  tlv_length (padded_tlv type flags bs) = 16 + blen bs + pad_length (blen bs).
Proof.
  unfold tlv_length, padded_tlv. simpl. rewrite blen_replicate.
  pose proof (pad_length_spec (blen bs)). unfold ATARIX_BIB_TLV_HEADER_SIZE_V1. lia.
Qed.

Lemma align8_record_length n :
  0 <= n <= UINT32_MAX - 16 ->
  align8_u32 (u32 (ATARIX_BIB_TLV_HEADER_SIZE_V1 + n)) =
  if UINT32_MAX - 23 <? n then None else Some (16 + n + pad_length n).
Proof.
  unfold UINT32_MAX, ATARIX_BIB_TLV_HEADER_SIZE_V1. intros Hn.
  rewrite uint_small by (unfold fits; lia).
  destruct (align8_u32_spec (16 + n)) as [[-> H]|(r & -> & H & Hr & Hd & _)];
    [unfold fits; lia|..]; unfold UINT32_MAX in *.
  - by destruct (Z.ltb_spec (2 ^ 32 - 1 - 23) n); [|lia].
  - destruct (Z.ltb_spec (2 ^ 32 - 1 - 23) n); [lia|]. f_equal.
    pose proof (pad_length_spec n) as [? [k Hk]]. destruct Hd as [j ->]. lia.
Qed.

Lemma tlv_header_stores type flags record_length payload_length rest :
  (m ← store_bytes (replicate 16 0 ++ rest) 0 (le_bytes 2 type);
   m ← store_bytes m 2 (le_bytes 2 flags);
   m ← store_bytes m 4 (le_bytes 4 record_length);
   store_bytes m 8 (le_bytes 4 payload_length)) =
  Some ((le_bytes 2 type ++ le_bytes 2 flags ++ le_bytes 4 record_length ++
         le_bytes 4 payload_length ++ le_bytes 4 0) ++ rest).
Proof. compute_stores. reflexivity. Qed.

Lemma write_record_spec m pre old post type flags payload n bs :
  m = pre ++ old ++ post -> payload_bytes payload n = Some bs ->
  blen old = tlv_length (padded_tlv type flags bs) ->
  write_record m (blen pre) type flags payload n (blen old) =
  Some (pre ++ enc_tlv (padded_tlv type flags bs) ++ post).
Proof.
  intros -> Hbs Hold.
  assert (Hn : n = blen bs).
  { unfold payload_bytes in Hbs. destruct (Z.eqb_spec n 0); [by simplify_eq|].
    destruct payload; [|done]. by apply load_bytes_length in Hbs. }
  unfold write_record. rewrite (memset_app pre old post) by done.
  set (t := padded_tlv type flags bs) in *. change (u8 0) with 0.
  pose proof (pad_length_spec (blen bs)) as [Hpad _].
  rewrite Hold. pose proof (padded_tlv_length type flags bs) as Ht. fold t in Ht.
  replace (Z.to_nat (tlv_length t)) with
    (16 + (length bs + Z.to_nat (pad_length (blen bs))))%nat
    by (rewrite Ht; unfold blen in *; lia).
  rewrite !replicate_add, <-!app_assoc. cbn [mbind option_bind].
  set (rest := replicate (length bs) 0 ++ replicate (Z.to_nat (pad_length (blen bs))) 0 ++ post).
  assert (Hheader :
    (m ← write_le16 (pre ++ replicate 16 0 ++ rest) (blen pre + 0) type;
     m ← write_le16 m (blen pre + 2) flags;
     m ← write_le32 m (blen pre + 4) (tlv_length t);
     write_le32 m (blen pre + 8) n) = Some (pre ++ enc_tlv_header t ++ rest)).
  { pose proof (tlv_header_stores type flags (tlv_length t) n rest) as H.
    repeat (rewrite ?write_le16_store, ?write_le32_store, store_bytes_app_r by lia;
      destruct (store_bytes _ _ _); cbn [mbind option_bind] in H |- *; [|done]).
    subst n. by simplify_eq. }
  destruct (write_le16 _ (_ + 0) _) as [m1|]; [|done]. cbn [mbind option_bind] in *.
  destruct (write_le16 _ (_ + 2) _) as [m2|]; [|done]. cbn [mbind option_bind] in *.
  destruct (write_le32 _ (_ + 4) _) as [m3|]; [|done]. cbn [mbind option_bind] in *.
  rewrite Hheader. cbn [mbind option_bind].
  change (enc_tlv t) with (enc_tlv_header t ++ bs ++ replicate (Z.to_nat (pad_length (blen bs))) 0).
  unfold payload_bytes in Hbs. subst rest. destruct (Z.eqb_spec n 0) as [|Hz]; cbn [negb].
  { injection Hbs as <-. by rewrite <-!app_assoc. }
  destruct payload as [src|]; [|done]. cbn [mbind option_bind] in *. rewrite Hbs.
  cbn [mbind option_bind]. rewrite (app_assoc pre).
  rewrite (store_bytes_app (pre ++ _) (replicate (length bs) 0));
    [by rewrite <-!app_assoc|by rewrite blen_app|by rewrite length_replicate].
Qed.


Lemma reference_payload_spec o a l x y :
  reference_payload o a l x y = Some (enc_reference o a l x y).
Proof.
  unfold reference_payload. rewrite (memset_prefix (replicate 40 0)) by done.
  change (replicate _ (u8 0) ++ drop _ _) with (replicate 40 0 ++ []).
  cbn [mbind option_bind].
  transitivity
    (m ← store_bytes (replicate 40 0 ++ []) 0 (le_bytes 8 o);
     m ← store_bytes m 8 (le_bytes 8 a); m ← store_bytes m 16 (le_bytes 8 l);
     m ← store_bytes m 24 (le_bytes 4 x); store_bytes m 28 (le_bytes 4 y)).
  - store_steps.
  - compute_stores. reflexivity.
Qed.

(** ** Specification: a builder is a bounded list of records *)

Definition spec_add (capacity : Z) (ts : list tlv) (type flags : Z) (bs : bytes)
  : atarix_bib_builder_result_t * list tlv :=
  let ts' := ts ++ [padded_tlv type flags bs] in
  if negb (atarix_bib_tlv_flags_are_known flags) then (ATARIX_BIB_BUILDER_E_FLAGS, ts)
  else if UINT32_MAX - 23 <? blen bs then (ATARIX_BIB_BUILDER_E_LENGTH, ts)
  else if capacity <? 64 + blen (enc_tlvs ts') then (ATARIX_BIB_BUILDER_E_CAPACITY, ts)
  else (ATARIX_BIB_BUILDER_OK, ts').

Lemma blen_enc_tlvs_count ts : 16 * Z.of_nat (length ts) <= blen (enc_tlvs ts).
Proof.
  induction ts as [|t ts IH]; [done|]. rewrite enc_tlvs_cons, blen_app, blen_enc_tlv.
  pose proof (tlv_length_ge t). cbn [length]. lia.
Qed.

Lemma blen_enc_tlvs_snoc ts t :
  blen (enc_tlvs (ts ++ [t])) = blen (enc_tlvs ts) + tlv_length t.
Proof.
  rewrite enc_tlvs_app, blen_app, enc_tlvs_cons, blen_app, blen_enc_tlv.
  change (blen (enc_tlvs [])) with 0. lia.
Qed.

Lemma payload_bytes_length payload n bs : payload_bytes payload n = Some bs -> n = blen bs.
Proof.
  unfold payload_bytes. destruct (Z.eqb_spec n 0); [by intros; simplify_eq|].
  destruct payload; [|done]. by intros ?%load_bytes_length.
Qed.

(** A record that fits goes where the zeros start. *)
Lemma write_record_repr b h ts tail type flags payload n bs :
  let t := padded_tlv type flags bs in
  builder_repr b h ts tail -> payload_bytes payload n = Some bs ->
  bb_length b + tlv_length t <= bb_capacity b ->
  exists m m', bb_buffer b = Some m /\
    write_record m (bb_length b) type flags payload n (tlv_length t) = Some m' /\
    builder_repr (BibBuilder (Some m') (bb_capacity b) (u32 (bb_length b + tlv_length t))
      (u32 (bb_tlv_count b + 1)) (bb_sealed b)) h (ts ++ [t]) tail.
Proof.
  intros t [Hbuf Hlen Hcap Hcount Hopen] Hbs Hfit.
  pose proof (tlv_length_ge t) as Hge. pose proof (blen_nonneg (enc_tlvs ts)).
  pose proof (blen_enc_tlvs_count ts). unfold UINT32_MAX in Hcap.
  do 2 eexists. split; [exact Hbuf|].
  set (pre := enc_header h ++ enc_tlvs ts).
  set (old := replicate (Z.to_nat (tlv_length t)) 0).
  set (post := replicate (Z.to_nat (bb_capacity b - (bb_length b + tlv_length t))) 0 ++ tail).
  assert (Hpre : bb_length b = blen pre)
    by (unfold pre; rewrite blen_app, blen_enc_header; lia).
  assert (Hold : blen old = tlv_length t) by (unfold old; rewrite blen_replicate; lia).
  split.
  - rewrite <-Hold, Hpre.
    apply (write_record_spec _ pre old post); [|done|done].
    rewrite <-Hpre. unfold pre, old, post. rewrite <-app_assoc. do 2 f_equal.
    rewrite (app_assoc (replicate _ _)), <-replicate_add. do 2 f_equal. lia.
  - rewrite !uint_small by (unfold fits; lia).
    split; cbn [bb_buffer bb_length bb_capacity bb_tlv_count bb_sealed]; unfold UINT32_MAX;
      rewrite ?blen_enc_tlvs_snoc, ?length_app; cbn [length]; try lia.
    + unfold pre, post. rewrite enc_tlvs_app, enc_tlvs_cons.
      change (enc_tlvs []) with (@nil Z). rewrite app_nil_r.
      by rewrite <-(app_assoc (enc_header h)), <-(app_assoc (enc_tlvs ts)).
Qed.

Lemma add_tlv_spec b h ts tail type flags payload n bs :
  builder_repr b h ts tail -> payload_bytes payload n = Some bs ->
  let '(r, ts') := spec_add (bb_capacity b) ts type flags bs in
  exists b', atarix_bib_builder_add_tlv (Some b) type flags payload n = Some (r, Some b') /\
    builder_repr b' h ts' tail /\ bb_capacity b' = bb_capacity b /\
    (r <> ATARIX_BIB_BUILDER_OK -> b' = b).
Proof.
  intros Hb Hbs. pose proof (payload_bytes_length _ _ _ Hbs) as Hn.
  pose proof (padded_tlv_length type flags bs) as Ht.
  unfold spec_add, atarix_bib_builder_add_tlv. rewrite blen_enc_tlvs_snoc.
  pose proof (br_buffer _ _ _ _ Hb) as Hbuf. rewrite Hbuf.
  replace (negb (n =? 0) && bool_decide (payload = None)) with false
    by (unfold payload_bytes in Hbs; destruct (n =? 0), payload; done).
  rewrite (br_open _ _ _ _ Hb). cbn [negb Z.eqb].
  destruct (atarix_bib_tlv_flags_are_known flags); cbn [negb]; [|by eexists].
  pose proof (br_length _ _ _ _ Hb) as Hlen. pose proof (br_capacity _ _ _ _ Hb) as Hcap.
  pose proof (pad_length_spec n) as [Hp _]. pose proof (blen_nonneg bs).
  change (UINT32_MAX - ATARIX_BIB_TLV_HEADER_SIZE_V1) with (UINT32_MAX - 16).
  rewrite <-Hn in *.
  destruct (Z.ltb_spec (UINT32_MAX - 16) n).
  { destruct (Z.ltb_spec (UINT32_MAX - 23) n); [by eexists|lia]. }
  rewrite align8_record_length by lia.
  destruct (Z.ltb_spec (UINT32_MAX - 23) n); [by eexists|]. rewrite <-Ht.
  destruct (Z.ltb_spec (bb_capacity b) (bb_length b)); [lia|]. cbn [orb].
  destruct (Z.ltb_spec (bb_capacity b - bb_length b) (tlv_length (padded_tlv type flags bs)));
    destruct (Z.ltb_spec (bb_capacity b)
      (64 + (blen (enc_tlvs ts) + tlv_length (padded_tlv type flags bs)))); try lia;
    [by eexists|].
  destruct (write_record_repr b h ts tail type flags payload n bs) as (m & m' & Hm & Hw & Hr);
    [done|done|lia|].
  rewrite Hbuf in Hm. apply (inj Some) in Hm. subst m.
  rewrite (br_open _ _ _ _ Hb) in Hr. rewrite Hw. eexists. by split_and!.
Qed.

(** ** Sealing *)

(** The image of a block: the sealed header, then the records. *)
Definition built_header (h : bib_header) (ts : list tlv) : bib_header :=
  let total := 64 + blen (enc_tlvs ts) in
  let count := Z.of_nat (length ts) in
  sealed_header h total
    (bib_crc (enc_header (sealed_header h total 0 count) ++ enc_tlvs ts)) count.

Definition built_image (h : bib_header) (ts : list tlv) : bytes :=
  enc_header (built_header h ts) ++ enc_tlvs ts.

Lemma blen_built_image h ts : blen (built_image h ts) = 64 + blen (enc_tlvs ts).
Proof. unfold built_image. by rewrite blen_app, blen_enc_header. Qed.

Lemma seal_spec b h ts tail out :
  builder_repr b h ts tail ->
  atarix_bib_builder_seal (Some b) out =
  Some (ATARIX_BIB_BUILDER_OK,
        Some (BibBuilder (Some (built_image h ts ++
                replicate (Z.to_nat (bb_capacity b - bb_length b)) 0 ++ tail))
                (bb_capacity b) (bb_length b) (bb_tlv_count b) 1),
        const (64 + blen (enc_tlvs ts)) <$> out).
Proof.
  intros [Hbuf Hlen Hcap Hcount Hopen]. unfold atarix_bib_builder_seal.
  rewrite Hbuf, Hopen. cbn [negb Z.eqb]. rewrite !write_le32_store.
  set (rest := enc_tlvs ts ++ replicate (Z.to_nat (bb_capacity b - bb_length b)) 0 ++ tail).
  rewrite store_bytes_app_l, store_total_length by done. cbn [mbind option_bind].
  rewrite write_le32_store, store_bytes_app_l, store_crc32c by done. cbn [mbind option_bind].
  rewrite write_le32_store, store_bytes_app_l, store_tlv_count by done. cbn [mbind option_bind].
  unfold rest. rewrite (app_assoc (enc_header _) (enc_tlvs ts)).
  rewrite (crc32c_spec _ _ (enc_header (sealed_header h (bb_length b) 0 (bb_tlv_count b)) ++ enc_tlvs ts)).
  - cbn [mbind option_bind]. rewrite <-app_assoc.
    rewrite write_le32_store, store_bytes_app_l, store_crc32c by done. cbn [mbind option_bind].
    unfold built_image, built_header. rewrite <-app_assoc, <-Hlen, <-Hcount. by destruct out.
  - apply (load_bytes_app []); [done|]. by rewrite blen_app, blen_enc_header.
Qed.

(** ** Whole sessions *)

(** A call of one of the two functions that append. *)
Inductive builder_request : Type :=
| AddTlv (type flags : Z) (payload : option bytes) (payload_length : Z)
| AddReference (type flags object_id address length format_major format_minor : Z).

Definition serve (b : atarix_bib_builder_t) (rq : builder_request)
  : option (atarix_bib_builder_result_t * option atarix_bib_builder_t) :=
  match rq with
  | AddTlv type flags payload n => atarix_bib_builder_add_tlv (Some b) type flags payload n
  | AddReference type flags o a l x y =>
    atarix_bib_builder_add_reference (Some b) type flags o a l x y
  end.

Fixpoint serve_all (b : atarix_bib_builder_t) (rqs : list builder_request)
  : option (list atarix_bib_builder_result_t * atarix_bib_builder_t) :=
  match rqs with
  | [] => Some ([], b)
  | rq :: rqs' =>
    '(r, b') ← serve b rq;
    b' ← b';
    '(rs, b') ← serve_all b' rqs';
    Some (r :: rs, b')
  end.

Definition spec_request (capacity : Z) (ts : list tlv) (rq : builder_request)
  : atarix_bib_builder_result_t * list tlv :=
  match rq with
  | AddTlv type flags payload n =>
    match payload_bytes payload n with
    | Some bs => spec_add capacity ts type flags bs
    | None => (ATARIX_BIB_BUILDER_E_ARGUMENT, ts)
    end
  | AddReference type flags o a l x y =>
    spec_add capacity ts type flags (enc_reference o a l x y)
  end.

Fixpoint spec_requests (capacity : Z) (ts : list tlv) (rqs : list builder_request)
  : list atarix_bib_builder_result_t * list tlv :=
  match rqs with
  | [] => ([], ts)
  | rq :: rqs' =>
    let '(r, ts') := spec_request capacity ts rq in
    let '(rs, ts') := spec_requests capacity ts' rqs' in
    (r :: rs, ts')
  end.

(** The caller's side: a payload pointer, if any, has the bytes it promises. *)
Definition request_ok (rq : builder_request) : Prop :=
  match rq with
  | AddTlv _ _ payload n =>
    match payload with Some src => 0 <= n <= blen src | None => True end
  | AddReference _ _ _ _ _ _ _ => True
  end.

Lemma serve_spec b h ts tail rq :
  builder_repr b h ts tail -> request_ok rq ->
  let '(r, ts') := spec_request (bb_capacity b) ts rq in
  exists b', serve b rq = Some (r, Some b') /\
    builder_repr b' h ts' tail /\ bb_capacity b' = bb_capacity b.
Proof.
  intros Hb Hrq. destruct rq as [type flags payload n|type flags o a l x y]; simpl.
  - destruct (payload_bytes payload n) as [bs|] eqn:Hbs.
    + pose proof (add_tlv_spec b h ts tail type flags payload n bs Hb Hbs) as H.
      destruct (spec_add _ _ _ _ _) as [r ts']. destruct H as (b' & ? & ? & ? & _). by exists b'.
    + exists b. split; [|done]. unfold atarix_bib_builder_add_tlv.
      rewrite (br_buffer _ _ _ _ Hb). unfold payload_bytes in Hbs.
      destruct (n =? 0); [done|]. destruct payload as [src|]; [|done].
      simpl in Hrq, Hbs. unfold load_bytes in Hbs. rewrite decide_True in Hbs by lia. done.
  - unfold atarix_bib_builder_add_reference. rewrite reference_payload_spec.
    cbn [mbind option_bind].
    pose proof (add_tlv_spec b h ts tail type flags (Some (enc_reference o a l x y)) 40
      (enc_reference o a l x y) Hb) as H.
    destruct (spec_add _ _ _ _ _) as [r ts'].
    destruct H as (b' & ? & ? & ? & _); [done|]. by exists b'.
Qed.

Lemma serve_all_spec b h ts tail rqs :
  builder_repr b h ts tail -> Forall request_ok rqs ->
  let '(rs, ts') := spec_requests (bb_capacity b) ts rqs in
  exists b', serve_all b rqs = Some (rs, b') /\
    builder_repr b' h ts' tail /\ bb_capacity b' = bb_capacity b.
Proof.
  intros Hb Hrqs. revert b ts Hb. induction Hrqs as [|rq rqs Hrq _ IH]; intros b ts Hb.
  { by exists b. }
  cbn [spec_requests serve_all]. pose proof (serve_spec b h ts tail rq Hb Hrq) as H.
  destruct (spec_request _ _ _) as [r ts1]. destruct H as (b1 & Hs & Hb1 & Hc).
  specialize (IH b1 ts1 Hb1). rewrite Hc in IH.
  destruct (spec_requests _ _ _) as [rs ts2]. destruct IH as (b2 & Hs2 & Hb2 & Hc2).
  exists b2. rewrite Hs. cbn [mbind option_bind]. rewrite Hs2. by cbn.
Qed.

Lemma init_spec m capacity flags boot producer created b0 :
  64 <= capacity <= UINT32_MAX -> capacity <= blen m ->
  atarix_bib_header_flags_are_known flags = true ->
  exists b, atarix_bib_builder_init (Some b0) (Some m) capacity flags boot producer created =
    Some (ATARIX_BIB_BUILDER_OK, Some b) /\ bb_capacity b = capacity /\
    builder_repr b (fresh_header flags boot producer created) [] (drop (Z.to_nat capacity) m).
Proof.
  intros Hc Hm Hf. unfold atarix_bib_builder_init. rewrite Hf.
  unfold ATARIX_BIB_HEADER_SIZE_V1.
  destruct (Z.ltb_spec capacity 64), (Z.ltb_spec UINT32_MAX capacity); try lia. cbn [orb negb].
  rewrite init_buffer_spec by lia. cbn [mbind option_bind].
  eexists. split; [done|]. split; [done|]. by split.
Qed.

(** ** The records a builder appends are well formed *)

Lemma padded_tlv_wf type flags bs :
  fits 16 type -> fits 16 flags -> bytes_ok bs ->
  atarix_bib_tlv_flags_are_known flags = true -> blen bs <= UINT32_MAX - 23 ->
  tlv_wf (padded_tlv type flags bs).
Proof.
  intros Ht Hf Hbs Hk Hl. pose proof (pad_length_spec (blen bs)) as [Hp Hd].
  pose proof (blen_nonneg bs). unfold UINT32_MAX in Hl.
  split; rewrite ?padded_tlv_length; try done; unfold padded_tlv; cbn [t_padding].
  - unfold fits. lia.
  - apply Forall_replicate. unfold byte_ok, fits. lia.
Qed.

Lemma enc_tlvs_aligned ts : Forall tlv_wf ts -> (8 | blen (enc_tlvs ts)).
Proof.
  induction 1 as [|t ts [_ _ _ _ Hd _ _] _ IH]; [by exists 0|].
  rewrite enc_tlvs_cons, blen_app, blen_enc_tlv. by apply Z.divide_add_r.
Qed.

(** ** Properties *)

(** C10. A builder session is the bounded list of records of its
    specification: initialized in a buffer of at least [capacity] bytes, and
    asked to append any sequence of records and references, the builder answers
    each request as the specification does (OK, or the error with no effect),
    and sealing leaves in the buffer exactly the header with total length,
    record count and CRC-32C filled in, the encoded records in order, zeros up
    to the capacity, and the caller's own bytes beyond the capacity. No access
    leaves the buffers. *)
Theorem builder_session_refines m capacity flags boot producer created b0 rqs out :
  64 <= capacity <= UINT32_MAX -> capacity <= blen m ->
  atarix_bib_header_flags_are_known flags = true -> Forall request_ok rqs ->
  let '(rs, ts) := spec_requests capacity [] rqs in
  let image := built_image (fresh_header flags boot producer created) ts in
  exists b b' b'',
    atarix_bib_builder_init (Some b0) (Some m) capacity flags boot producer created =
      Some (ATARIX_BIB_BUILDER_OK, Some b) /\
    serve_all b rqs = Some (rs, b') /\
    atarix_bib_builder_seal (Some b') (Some out) =
      Some (ATARIX_BIB_BUILDER_OK, Some b'', Some (blen image)) /\
    blen image <= capacity /\
    bb_buffer b'' = Some (image ++ replicate (Z.to_nat (capacity - blen image)) 0 ++
                          drop (Z.to_nat capacity) m) /\
    bb_sealed b'' = 1.
Proof.
  intros Hc Hm Hf Hrqs.
  destruct (init_spec m capacity flags boot producer created b0) as (b & Hi & Hbc & Hb);
    [done..|].
  pose proof (serve_all_spec b _ _ _ rqs Hb Hrqs) as H. rewrite Hbc in H.
  destruct (spec_requests _ _ _) as [rs ts]. destruct H as (b' & Hs & Hb' & Hc').
  pose proof (br_length _ _ _ _ Hb') as Hl. pose proof (br_capacity _ _ _ _ Hb').
  pose proof (seal_spec b' _ _ _ (Some out) Hb') as Hseal.
  rewrite Hc' in *. rewrite Hl in Hseal. cbv zeta. rewrite blen_built_image.
  exists b, b'. eexists. split; [done|]. split; [done|]. split; [exact Hseal|].
  split; [lia|]. by split.
Qed.

(** Two references and a record with an unknown flag, in a dirty buffer. *)
Definition sample_requests : list builder_request :=
  [AddReference ATARIX_BIB_TLV_SERVICE_DIRECTORY_REFERENCE 1 17 0x10000 0x400 1 0;
   AddTlv ATARIX_BIB_TLV_BOOT_ARGUMENTS 4 (Some [1; 2; 3]) 3;
   AddReference ATARIX_BIB_TLV_MEMORY_MAP_REFERENCE 1 18 0x20000 0x400 1 0].

Lemma builder_session_refines_witness :
  exists b b' b'',
    atarix_bib_builder_init (Some (BibBuilder None 0 0 0 0)) (Some (replicate 200 7)) 192
      ATARIX_BIB_FLAG_RECOVERY_BOOT 1 2 3 = Some (ATARIX_BIB_BUILDER_OK, Some b) /\
    serve_all b sample_requests =
      Some ([ATARIX_BIB_BUILDER_OK; ATARIX_BIB_BUILDER_E_FLAGS; ATARIX_BIB_BUILDER_OK], b') /\
    atarix_bib_builder_seal (Some b') (Some 0) =
      Some (ATARIX_BIB_BUILDER_OK, Some b'', Some 176).
Proof.
  destruct (builder_session_refines (replicate 200 7) 192 1 1 2 3 (BibBuilder None 0 0 0 0)
    sample_requests 0) as (b & b' & b'' & Hi & Hs & Hq & _).
  - by unfold UINT32_MAX.
  - done.
  - done.
  - by repeat constructor.
  - exists b, b', b''. by split_and!.
Defined.

(** A sealed block is final: every later append and seal is refused
    with the state error and changes nothing. *)
Theorem builder_sealed_final b type flags payload n m :
  bb_buffer b = Some m -> bb_sealed b <> 0 -> (n <> 0 -> payload <> None) ->
  atarix_bib_builder_add_tlv (Some b) type flags payload n =
    Some (ATARIX_BIB_BUILDER_E_STATE, Some b) /\
  forall out, atarix_bib_builder_seal (Some b) out =
    Some (ATARIX_BIB_BUILDER_E_STATE, Some b, out).
Proof.
  intros Hm Hs Hp. apply Z.eqb_neq in Hs as Hs'.
  unfold atarix_bib_builder_add_tlv, atarix_bib_builder_seal. rewrite Hm, Hs'. split; [|done].
  destruct (Z.eqb_spec n 0); [done|]. rewrite bool_decide_eq_false_2 by auto. done.
Qed.

Lemma builder_sealed_final_witness :
  let b := BibBuilder (Some (replicate 64 0)) 64 64 0 1 in
  atarix_bib_builder_add_tlv (Some b) ATARIX_BIB_TLV_BOOT_ARGUMENTS 0 (Some [1]) 1 =
    Some (ATARIX_BIB_BUILDER_E_STATE, Some b) /\
  forall out, atarix_bib_builder_seal (Some b) out =
    Some (ATARIX_BIB_BUILDER_E_STATE, Some b, out).
Proof. by apply (builder_sealed_final _ _ _ _ _ (replicate 64 0)). Defined.
