(* ===== verification/BibReader.v ===== *)
(** * Boot Information Block: the reader

    [include/atarix/bib_reader.h] and [src/bib/bib_reader.c]. A view does not
    own the bytes it was opened on: it keeps a pointer into the caller's memory,
    which every operation reads again. The model passes that memory [m] to each
    operation; a pointer is an offset into [m], a null pointer is [None]. The
    result [None] of an operation is a read outside [m], or a loop that did not
    end within its fuel: [reader_memory_safe] shows that neither happens. *)

From S2P Require Import Prelude Crc BibFormat BibBuilder.

(** ** Little-endian loads *)

Definition read_le16 (m : bytes) (p : Z) : option Z :=
  b0 ← load8 m p;
  b1 ← load8 m (p + 1);
  Some (b0 .| (b1 .<< 8)).

Definition read_le32 (m : bytes) (p : Z) : option Z :=
  b0 ← load8 m p;
  b1 ← load8 m (p + 1);
  b2 ← load8 m (p + 2);
  b3 ← load8 m (p + 3);
  Some (b0 .| (b1 .<< 8) .| (b2 .<< 16) .| (b3 .<< 24)).

Definition read_le64 (m : bytes) (p : Z) : option Z :=
  lo ← read_le32 m p;
  hi ← read_le32 m (p + 4);
  Some (lo .| (hi .<< 32)).

(** ** CRC-32C with the checksum field taken as zero *)

(** The loop over [i], entered at index [i] with [n] iterations to go. *)
Fixpoint zeroed_field_loop (n : nat) (m : bytes) (data i crc : Z) : option Z :=
  match n with
  | O => Some crc
  | S n' =>
    byte ← (if (20 <=? i) && (i <? 24) then Some 0 else load8 m (data + i));
    zeroed_field_loop n' m data (i + 1) (Nat.iter 8 crc32c_bit (crc .^ byte))
  end.

Definition crc32c_with_zeroed_field (m : bytes) (data length : Z) : option Z :=
  crc ← zeroed_field_loop (Z.to_nat length) m data 0 UINT32_MAX;
  Some (crc .^ UINT32_MAX).

Definition known_type (type : Z) : bool :=
  (ATARIX_BIB_TLV_SERVICE_DIRECTORY_REFERENCE <=? type) &&
  (type <=? ATARIX_BIB_TLV_ENTROPY_SEED_REFERENCE).

(** ** Views *)

Record atarix_bib_view_t : Type := BibView {
  bv_buffer : option Z;
  bv_total_length : Z;
  bv_tlv_offset : Z;
  bv_tlv_count : Z;
  bv_flags : Z;
  bv_boot_id : Z;
  bv_producer_id : Z;
  bv_created_counter : Z
}.

(** [memset(view, 0, sizeof( *view))] *)
Definition zero_view : atarix_bib_view_t := BibView None 0 0 0 0 0 0 0.

Record atarix_bib_record_view_t : Type := BibRecordView {
  rv_type : Z;
  rv_flags : Z;
  rv_payload : Z;
  rv_payload_length : Z;
  rv_serialized_length : Z
}.

Record atarix_bib_reference_view_t : Type := BibReferenceView {
  ref_object_id : Z;
  ref_address : Z;
  ref_length : Z;
  ref_format_major : Z;
  ref_format_minor : Z;
  ref_integrity_kind : Z;
  ref_integrity : Z;
  ref_integrity_length : Z
}.

(** ** Operations *)

(** An error, or [ATARIX_BIB_OK] with the record that was filled in. The buffer
    of the view is not null at any call. *)
Definition record_at_offset (m : bytes) (view : atarix_bib_view_t) (offset : Z)
  : option (atarix_bib_error_t + atarix_bib_record_view_t) :=
  if (bv_total_length view <? offset) ||
     (bv_total_length view - offset <? ATARIX_BIB_TLV_HEADER_SIZE_V1)
  then Some (inl ATARIX_BIB_E_TLV_BOUNDS)
  else
    buffer ← bv_buffer view;
    let p := buffer + offset in
    length ← read_le32 m (p + 4);
    payload_length ← read_le32 m (p + 8);
    if (length <? ATARIX_BIB_TLV_HEADER_SIZE_V1) ||
       negb (atarix_bib_length_is_aligned length) ||
       (bv_total_length view - offset <? length) ||
       (length - ATARIX_BIB_TLV_HEADER_SIZE_V1 <? payload_length)
    then Some (inl ATARIX_BIB_E_TLV_BOUNDS)
    else
      flags ← read_le16 m (p + 2);
      if negb (atarix_bib_tlv_flags_are_known flags)
      then Some (inl ATARIX_BIB_E_TLV_RESERVED)
      else
        reserved ← read_le32 m (p + 12);
        if negb (reserved =? 0) then Some (inl ATARIX_BIB_E_TLV_RESERVED)
        else
          type ← read_le16 m p;
          Some (inr (BibRecordView type flags (p + ATARIX_BIB_TLV_HEADER_SIZE_V1)
                       payload_length length)).

Definition is_required_reference (type : Z) : bool :=
  (type =? ATARIX_BIB_TLV_SERVICE_DIRECTORY_REFERENCE) ||
  (type =? ATARIX_BIB_TLV_MEMORY_MAP_REFERENCE).

(** The checks of one iteration after the record is read; [None] for "go on". *)
Definition check_record (m : bytes) (record : atarix_bib_record_view_t)
  : option (option atarix_bib_error_t) :=
  if negb (known_type (rv_type record)) &&
     flag_set (rv_flags record) ATARIX_BIB_TLV_FLAG_MANDATORY
  then Some (Some ATARIX_BIB_E_UNKNOWN_MANDATORY)
  else if is_required_reference (rv_type record) then
    if rv_payload_length record <? ATARIX_BIB_REFERENCE_FIXED_SIZE_V1
    then Some (Some ATARIX_BIB_E_TLV_BOUNDS)
    else
      address ← read_le64 m (rv_payload record + 8);
      length ← read_le64 m (rv_payload record + 16);
      if UINT64_MAX - length <? address
      then Some (Some ATARIX_BIB_E_REFERENCE_OVERFLOW)
      else Some None
  else Some None.

(** The scan of [atarix_bib_reader_open]; on success the final offset and the
    two counters. *)
Fixpoint open_loop (fuel : nat) (m : bytes) (view : atarix_bib_view_t)
    (index offset service_count memory_count : Z)
  : option (atarix_bib_error_t + Z * Z * Z) :=
  if index <? bv_tlv_count view then
    match fuel with
    | O => None
    | S fuel' =>
      result ← record_at_offset m view offset;
      match result with
      | inl error => Some (inl error)
      | inr record =>
        verdict ← check_record m record;
        match verdict with
        | Some error => Some (inl error)
        | None =>
          open_loop fuel' m view (u32 (index + 1))
            (u32 (offset + rv_serialized_length record))
            (u32 (service_count +
               Z.b2z (rv_type record =? ATARIX_BIB_TLV_SERVICE_DIRECTORY_REFERENCE)))
            (u32 (memory_count +
               Z.b2z (rv_type record =? ATARIX_BIB_TLV_MEMORY_MAP_REFERENCE)))
        end
      end
    end
  else Some (inr (offset, service_count, memory_count)).

(** Iterations of the record loops: every record takes sixteen bytes at least. *)
Definition record_fuel (view : atarix_bib_view_t) : nat :=
  S (Z.to_nat (bv_total_length view)).

(** Returns the error and what is behind [view]. *)
Definition atarix_bib_reader_open (view : option atarix_bib_view_t) (m : bytes)
    (buffer : option Z) (window_length : Z)
  : option (atarix_bib_error_t * option atarix_bib_view_t) :=
  match view, buffer with
  | Some _, Some p =>
    if window_length <? ATARIX_BIB_HEADER_SIZE_V1 then Some (ATARIX_BIB_E_WINDOW, view)
    else
      let fail error := Some (error, Some zero_view) in
      magic_ok ← atarix_bib_magic_is_valid m (Some p);
      if negb magic_ok then fail ATARIX_BIB_E_MAGIC else
      major ← read_le16 m (p + 8);
      if negb (major =? ATARIX_BIB_VERSION_MAJOR_V1) then fail ATARIX_BIB_E_VERSION else
      header_length ← read_le16 m (p + 12);
      if negb (header_length =? ATARIX_BIB_HEADER_SIZE_V1)
      then fail ATARIX_BIB_E_HEADER_LENGTH else
      total_length ← read_le32 m (p + 16);
      if (total_length <? ATARIX_BIB_HEADER_SIZE_V1) || (window_length <? total_length) ||
         (ATARIX_BIB_RECOMMENDED_MAX_SIZE_V1 <? total_length) ||
         negb (atarix_bib_length_is_aligned total_length)
      then fail ATARIX_BIB_E_TOTAL_LENGTH else
      stored ← read_le32 m (p + 20);
      computed ← crc32c_with_zeroed_field m p total_length;
      if negb (stored =? computed) then fail ATARIX_BIB_E_CRC else
      flags ← read_le16 m (p + 14);
      if negb (atarix_bib_header_flags_are_known flags)
      then fail ATARIX_BIB_E_HEADER_RESERVED else
      reserved ← read_le64 m (p + 56);
      if negb (reserved =? 0) then fail ATARIX_BIB_E_HEADER_RESERVED else
      tlv_offset ← read_le32 m (p + 48);
      tlv_count ← read_le32 m (p + 52);
      boot_id ← read_le64 m (p + 24);
      producer_id ← read_le64 m (p + 32);
      created_counter ← read_le64 m (p + 40);
      let v := BibView (Some p) total_length tlv_offset tlv_count flags boot_id
                 producer_id created_counter in
      if (tlv_offset <? ATARIX_BIB_HEADER_SIZE_V1) || (total_length <? tlv_offset) ||
         negb (atarix_bib_length_is_aligned tlv_offset)
      then fail ATARIX_BIB_E_TLV_BOUNDS else
      result ← open_loop (record_fuel v) m v 0 tlv_offset 0 0;
      match result with
      | inl error => fail error
      | inr (offset, service_count, memory_count) =>
        if negb (offset =? total_length) then fail ATARIX_BIB_E_TLV_BOUNDS
        else if negb (service_count =? 1) || negb (memory_count =? 1)
        then fail ATARIX_BIB_E_REQUIRED_RECORD
        else Some (ATARIX_BIB_OK, Some v)
      end
  | _, _ => Some (ATARIX_BIB_E_WINDOW, view)
  end.

(** The loop that skips [index] records; on success the offset reached. *)
Fixpoint skip_loop (fuel : nat) (m : bytes) (view : atarix_bib_view_t)
    (current index offset : Z) : option (atarix_bib_error_t + Z) :=
  if current <? index then
    match fuel with
    | O => None
    | S fuel' =>
      result ← record_at_offset m view offset;
      match result with
      | inl error => Some (inl error)
      | inr skip =>
        skip_loop fuel' m view (u32 (current + 1)) index
          (u32 (offset + rv_serialized_length skip))
      end
    end
  else Some (inr offset).

(** Returns the error and what is behind [record]. *)
Definition atarix_bib_reader_record (view : option atarix_bib_view_t) (m : bytes) (index : Z)
    (record : option atarix_bib_record_view_t)
  : option (atarix_bib_error_t * option atarix_bib_record_view_t) :=
  match view, record with
  | Some v, Some _ =>
    if bool_decide (bv_buffer v = None) || (bv_tlv_count v <=? index)
    then Some (ATARIX_BIB_E_TLV_BOUNDS, record)
    else
      skipped ← skip_loop (record_fuel v) m v 0 index (bv_tlv_offset v);
      match skipped with
      | inl error => Some (error, record)
      | inr offset =>
        result ← record_at_offset m v offset;
        match result with
        | inl error => Some (error, record)
        | inr r => Some (ATARIX_BIB_OK, Some r)
        end
      end
  | _, _ => Some (ATARIX_BIB_E_TLV_BOUNDS, record)
  end.

(** The reference of a record of the requested type. *)
Definition read_reference (m : bytes) (record : atarix_bib_record_view_t)
  : option (atarix_bib_error_t + atarix_bib_reference_view_t) :=
  let payload := rv_payload record in
  if rv_payload_length record <? ATARIX_BIB_REFERENCE_FIXED_SIZE_V1
  then Some (inl ATARIX_BIB_E_TLV_BOUNDS)
  else
    integrity_length ← read_le32 m (payload + 36);
    if rv_payload_length record - ATARIX_BIB_REFERENCE_FIXED_SIZE_V1 <? integrity_length
    then Some (inl ATARIX_BIB_E_REFERENCE_INTEGRITY)
    else
      object_id ← read_le64 m (payload + 0);
      address ← read_le64 m (payload + 8);
      length ← read_le64 m (payload + 16);
      format_major ← read_le32 m (payload + 24);
      format_minor ← read_le32 m (payload + 28);
      integrity_kind ← read_le32 m (payload + 32);
      Some (inr (BibReferenceView object_id address length format_major format_minor
                   integrity_kind (payload + ATARIX_BIB_REFERENCE_FIXED_SIZE_V1)
                   integrity_length)).

(** A record view left uninitialized by the declaration. *)
Definition fresh_record : atarix_bib_record_view_t := BibRecordView 0 0 0 0 0.

Fixpoint find_loop (fuel : nat) (m : bytes) (view : atarix_bib_view_t) (index type : Z)
  : option (atarix_bib_error_t + atarix_bib_reference_view_t) :=
  if index <? bv_tlv_count view then
    match fuel with
    | O => None
    | S fuel' =>
      result ← atarix_bib_reader_record (Some view) m index (Some fresh_record);
      match result with
      | (ATARIX_BIB_OK, Some record) =>
        if rv_type record =? type then read_reference m record
        else find_loop fuel' m view (u32 (index + 1)) type
      | (error, _) => Some (inl error)
      end
    end
  else Some (inl ATARIX_BIB_E_REQUIRED_RECORD).

(** Returns the error and what is behind [reference]. *)
Definition atarix_bib_reader_find_reference (view : option atarix_bib_view_t) (m : bytes)
    (type : Z) (reference : option atarix_bib_reference_view_t)
  : option (atarix_bib_error_t * option atarix_bib_reference_view_t) :=
  match view, reference with
  | Some v, Some _ =>
    result ← find_loop (record_fuel v) m v 0 type;
    match result with
    | inl error => Some (error, reference)
    | inr r => Some (ATARIX_BIB_OK, Some r)
    end
  | _, _ => Some (ATARIX_BIB_E_WINDOW, reference)
  end.

(** ** The loads read the little-endian encoding *)

Lemma lor_bytes_le b0 b1 b2 b3 :
  byte_ok b0 -> byte_ok b1 -> byte_ok b2 -> byte_ok b3 ->
  b0 .| (b1 .<< 8) .| (b2 .<< 16) .| (b3 .<< 24) = le_value [b0; b1; b2; b3].
Proof.
  unfold byte_ok. intros H0 H1 H2 H3.
  rewrite (lor_shiftl_add 8) by (done || lia).
  rewrite (lor_shiftl_add 16) by (unfold fits in *; lia).
  rewrite (lor_shiftl_add 24) by (unfold fits in *; lia). simpl le_value. lia.
Qed.

Lemma read_le16_block pre b post k v :
  0 <= k -> k + 2 <= blen b -> load_bytes b k 2 = Some (le_bytes 2 v) -> fits 16 v ->
  read_le16 (pre ++ b ++ post) (blen pre + k) = Some v.
Proof.
  intros Hk Hb Hl Hv. rewrite <-(load_bytes_block pre b post) in Hl by done.
  change 2 with (1 + (1 + 0)) in Hl.
  pose proof (le_bytes_ok 2 v) as Hok. pose proof (le_value_bytes 2 v) as Hval.
  apply load_bytes_cons in Hl as (b0 & r & E & H0 & Hl); [|done].
  apply load_bytes_cons in Hl as (b1 & r' & -> & H1 & Hl); [|done].
  apply load_bytes_length in Hl. destruct r'; [|unfold blen in Hl; simpl in Hl; lia].
  unfold read_le16. rewrite H0, H1. cbn [mbind option_bind]. f_equal.
  rewrite E in Hok, Hval. rewrite !Forall_cons_iff in Hok. destruct Hok as (? & ? & _).
  rewrite lor_shiftl_add by (done || lia).
  transitivity (le_value [b0; b1]); [simpl; lia|]. rewrite Hval. by apply Z.mod_small.
Qed.

Lemma read_le32_block pre b post k v :
  0 <= k -> k + 4 <= blen b -> load_bytes b k 4 = Some (le_bytes 4 v) -> fits 32 v ->
  read_le32 (pre ++ b ++ post) (blen pre + k) = Some v.
Proof.
  intros Hk Hb Hl Hv. rewrite <-(load_bytes_block pre b post) in Hl by done.
  change 4 with (1 + (1 + (1 + (1 + 0)))) in Hl.
  pose proof (le_bytes_ok 4 v) as Hok. pose proof (le_value_bytes 4 v) as Hval.
  apply load_bytes_cons in Hl as (b0 & r & E & H0 & Hl); [|done].
  apply load_bytes_cons in Hl as (b1 & r' & -> & H1 & Hl); [|done].
  apply load_bytes_cons in Hl as (b2 & r'' & -> & H2 & Hl); [|done].
  apply load_bytes_cons in Hl as (b3 & r''' & -> & H3 & Hl); [|done].
  apply load_bytes_length in Hl. destruct r'''; [|unfold blen in Hl; simpl in Hl; lia].
  unfold read_le32. replace (blen pre + k + 2) with (blen pre + k + 1 + 1) by lia.
  replace (blen pre + k + 3) with (blen pre + k + 1 + 1 + 1) by lia.
  rewrite H0, H1, H2, H3. cbn [mbind option_bind]. f_equal.
  rewrite E in Hok, Hval. rewrite !Forall_cons_iff in Hok.
  destruct Hok as (? & ? & ? & ? & _).
  rewrite lor_bytes_le, Hval by done. by apply Z.mod_small.
Qed.

Lemma read_le64_block pre b post k v :
  0 <= k -> k + 8 <= blen b -> load_bytes b k 8 = Some (le_bytes 8 v) -> fits 64 v ->
  read_le64 (pre ++ b ++ post) (blen pre + k) = Some v.
Proof.
  intros Hk Hb Hl Hv. rewrite (le_bytes_add 4 4) in Hl.
  apply load_bytes_inv in Hl as (b1 & b2 & -> & -> & _).
  set (lo := v mod 2 ^ 32). set (hi := v / 256 ^ Z.of_nat 4) in *.
  assert (Hlo : fits 32 lo) by (apply Z.mod_pos_bound; lia).
  assert (Hhi : fits 32 hi).
  { unfold fits in *. subst hi. split; [apply Z.div_pos; lia|].
    apply Z.div_lt_upper_bound; lia. }
  rewrite <-(le_bytes_mod 4 v) in *. change (v mod 256 ^ Z.of_nat 4) with lo in *.
  unfold read_le64. rewrite <-!app_assoc.
  rewrite (app_assoc pre b1), <-(blen_app pre b1).
  pose proof (read_le32_block (pre ++ b1) (le_bytes 4 lo) (le_bytes 4 hi ++ b2 ++ post) 0 lo) as H1.
  rewrite Z.add_0_r in H1. rewrite H1 by done. cbn [mbind option_bind].
  rewrite (app_assoc (pre ++ b1)).
  replace (blen (pre ++ b1) + 4) with (blen ((pre ++ b1) ++ le_bytes 4 lo) + 0)
    by (rewrite (blen_app _ (le_bytes 4 lo)), blen_le_bytes; lia).
  rewrite (read_le32_block _ (le_bytes 4 hi) (b2 ++ post) 0 hi) by done.
  cbn [mbind option_bind]. rewrite lor_shiftl_add by (done || lia). f_equal.
  pose proof (Z.div_mod v (2 ^ 32)). unfold lo, hi. change (256 ^ Z.of_nat 4) with (2 ^ 32). lia.
Qed.

Lemma read_le32_at pre b post k :
  bytes_ok b -> 0 <= k -> k + 4 <= blen b ->
  read_le32 (pre ++ b ++ post) (blen pre + k) = Some (le_at 4 b k).
Proof. intros. by apply read_le32_block; try apply (le_at_load 4). Qed.

Lemma read_le64_at pre b post k :
  bytes_ok b -> 0 <= k -> k + 8 <= blen b ->
  read_le64 (pre ++ b ++ post) (blen pre + k) = Some (le_at 8 b k).
Proof. intros. by apply read_le64_block; try apply (le_at_load 8). Qed.

(** ** One record *)

Definition raw_tlv_header (type flags length payload_length reserved : Z) : bytes :=
  le_bytes 2 type ++ le_bytes 2 flags ++ le_bytes 4 length ++
  le_bytes 4 payload_length ++ le_bytes 4 reserved.

Lemma raw_tlv_split b :
  bytes_ok b -> 16 <= blen b ->
  exists type flags length payload_length reserved rest,
    b = raw_tlv_header type flags length payload_length reserved ++ rest /\
    fits 16 type /\ fits 16 flags /\ fits 32 length /\ fits 32 payload_length /\
    fits 32 reserved.
Proof.
  intros Hb Hl.
  take_next 2%nat b type b1. take_next 2%nat b1 flags b2. take_next 4%nat b2 len b3.
  take_next 4%nat b3 plen b4. take_next 4%nat b4 res b5.
  exists type, flags, len, plen, res, b5. split; [|done].
  unfold raw_tlv_header. by rewrite <-!app_assoc.
Qed.

(** A raw header whose lengths fit what follows is the encoding of a record. *)
Lemma raw_tlv_decode type flags len plen rest :
  fits 16 type -> fits 16 flags -> fits 32 len -> fits 32 plen -> bytes_ok rest ->
  atarix_bib_tlv_flags_are_known flags = true -> (8 | len) ->
  16 <= len <= 16 + blen rest -> plen <= len - 16 ->
  exists t rest', raw_tlv_header type flags len plen 0 ++ rest = enc_tlv t ++ rest' /\
    tlv_wf t /\ t_type t = type /\ t_flags t = flags /\ blen (t_payload t) = plen /\
    tlv_length t = len.
Proof.
  intros Htype Hflags Hlen Hplen Hok Hf Hal Hr Hp. unfold fits in *.
  set (payload := take (Z.to_nat plen) rest).
  set (padding := take (Z.to_nat (len - 16 - plen)) (drop (Z.to_nat plen) rest)).
  set (rest' := drop (Z.to_nat (len - 16 - plen)) (drop (Z.to_nat plen) rest)).
  assert (Hrest : rest = payload ++ padding ++ rest')
    by (unfold payload, padding, rest'; by rewrite !take_drop).
  assert (Hpay : blen payload = plen)
    by (unfold payload, blen in *; rewrite length_take; lia).
  assert (Hpad : blen padding = len - 16 - plen)
    by (unfold padding, blen in *; rewrite length_take, length_drop; lia).
  set (t := Tlv type flags payload padding).
  assert (Ht : tlv_length t = len)
    by (unfold tlv_length, ATARIX_BIB_TLV_HEADER_SIZE_V1; simpl; lia).
  exists t, rest'. split; [|split; [|done]].
  - unfold enc_tlv, enc_tlv_header, raw_tlv_header.
    rewrite Ht, Hrest. cbn [t t_type t_flags t_payload t_padding].
    rewrite Hpay. by rewrite <-!app_assoc.
  - rewrite Hrest in Hok. apply Forall_app in Hok as [? [? ?]%Forall_app].
    by split; rewrite ?Ht.
Qed.

(** The record view of a record that starts at [offset] of the block. *)
Definition view_record (base offset : Z) (t : tlv) : atarix_bib_record_view_t :=
  BibRecordView (t_type t) (t_flags t) (base + offset + 16) (blen (t_payload t)) (tlv_length t).

(** A view of the bytes [img], found in memory between [pre] and [post]. *)
Record view_of (v : atarix_bib_view_t) (pre img : bytes) : Prop := {
  vo_buffer : bv_buffer v = Some (blen pre);
  vo_total : bv_total_length v = blen img;
  vo_small : blen img <= UINT32_MAX;
  vo_ok : bytes_ok img
}.

(** What [atarix_bib_reader_open] requires of one record. *)
Definition check_tlv (t : tlv) : option atarix_bib_error_t :=
  if negb (known_type (t_type t)) && flag_set (t_flags t) ATARIX_BIB_TLV_FLAG_MANDATORY
  then Some ATARIX_BIB_E_UNKNOWN_MANDATORY
  else if is_required_reference (t_type t) then
    if blen (t_payload t) <? 40 then Some ATARIX_BIB_E_TLV_BOUNDS
    else if UINT64_MAX - le_at 8 (t_payload t) 16 <? le_at 8 (t_payload t) 8
    then Some ATARIX_BIB_E_REFERENCE_OVERFLOW else None
  else None.

(** The number of records of a type. *)
Definition count_type (type : Z) (ts : list tlv) : Z :=
  Z.of_nat (length (filter (fun t => t_type t = type) ts)).

Lemma count_type_cons type t ts :
  count_type type (t :: ts) = Z.b2z (t_type t =? type) + count_type type ts.
Proof.
  unfold count_type. rewrite filter_cons.
  destruct (Z.eqb_spec (t_type t) type); [rewrite decide_True by done|rewrite decide_False by done];
    cbn [length Z.b2z]; lia.
Qed.

Lemma count_type_nonneg type ts : 0 <= count_type type ts.
Proof. unfold count_type. lia. Qed.

Section scan.
Context (m pre img post : bytes) (v : atarix_bib_view_t)
  (Hm : m = pre ++ img ++ post) (Hv : view_of v pre img).

Lemma record_at_offset_short offset :
  blen img < offset + 16 ->
  record_at_offset m v offset = Some (inl ATARIX_BIB_E_TLV_BOUNDS).
Proof.
  intros Ho. unfold record_at_offset, ATARIX_BIB_TLV_HEADER_SIZE_V1.
  rewrite (vo_total _ _ _ Hv).
  destruct (Z.ltb_spec (blen img) offset), (Z.ltb_spec (blen img - offset) 16);
    (done || lia).
Qed.

Lemma record_at_offset_raw a type flags len plen res rest :
  img = a ++ raw_tlv_header type flags len plen res ++ rest ->
  fits 16 type -> fits 16 flags -> fits 32 len -> fits 32 plen -> fits 32 res ->
  record_at_offset m v (blen a) = Some
    (if (len <? 16) || negb (atarix_bib_length_is_aligned len) ||
        (16 + blen rest <? len) || (len - 16 <? plen)
     then inl ATARIX_BIB_E_TLV_BOUNDS
     else if negb (atarix_bib_tlv_flags_are_known flags) || negb (res =? 0)
     then inl ATARIX_BIB_E_TLV_RESERVED
     else inr (BibRecordView type flags (blen pre + blen a + 16) plen len)).
Proof.
  intros Himg Htype Hflags Hlen Hplen Hres.
  unfold record_at_offset, ATARIX_BIB_TLV_HEADER_SIZE_V1.
  rewrite (vo_total _ _ _ Hv), (vo_buffer _ _ _ Hv). cbn [mbind option_bind].
  set (raw := raw_tlv_header type flags len plen res) in *.
  assert (Hraw : blen raw = 16) by done.
  assert (Hi : blen img = blen a + (16 + blen rest))
    by (rewrite Himg, !blen_app; lia).
  pose proof (blen_nonneg a). pose proof (blen_nonneg rest).
  replace (blen img - blen a) with (16 + blen rest) by lia.
  destruct (Z.ltb_spec (blen img) (blen a)); [lia|].
  destruct (Z.ltb_spec (16 + blen rest) 16); [lia|]. cbn [orb].
  assert (Hm' : m = (pre ++ a) ++ raw ++ rest ++ post)
    by (rewrite Hm, Himg, <-!app_assoc; done).
  rewrite <-blen_app, Hm'.
  rewrite (read_le32_block _ raw _ 4 len), (read_le32_block _ raw _ 8 plen) by done.
  cbn [mbind option_bind]. destruct (_ || _); [done|].
  rewrite (read_le16_block _ raw _ 2 flags) by done. cbn [mbind option_bind].
  destruct (atarix_bib_tlv_flags_are_known flags); [|done]. cbn [negb orb].
  rewrite (read_le32_block _ raw _ 12 res) by done. cbn [mbind option_bind].
  destruct (res =? 0); [|done]. cbn [negb].
  pose proof (read_le16_block (pre ++ a) raw (rest ++ post) 0 type) as Ht.
  rewrite Z.add_0_r in Ht. by rewrite Ht.
Qed.

Lemma offset_split offset :
  0 <= offset -> offset + 16 <= blen img ->
  exists a type flags len plen res rest,
    img = a ++ raw_tlv_header type flags len plen res ++ rest /\ offset = blen a /\
    fits 16 type /\ fits 16 flags /\ fits 32 len /\ fits 32 plen /\ fits 32 res /\
    bytes_ok rest.
Proof.
  intros Ho Hs. set (a := take (Z.to_nat offset) img).
  set (b := drop (Z.to_nat offset) img).
  assert (Hab : img = a ++ b) by (symmetry; apply take_drop).
  assert (Ha : offset = blen a)
    by (unfold a, blen in *; rewrite length_take; lia).
  pose proof (vo_ok _ _ _ Hv) as Hok. rewrite Hab in Hok.
  apply Forall_app in Hok as [_ Hok].
  destruct (raw_tlv_split b) as (type & flags & len & plen & res & rest & Hb & ? & ? & ? & ? & ?);
    [done|rewrite Hab, blen_app in *; lia|].
  rewrite Hb in Hok. apply Forall_app in Hok as [_ Hok].
  exists a, type, flags, len, plen, res, rest. rewrite <-Hb. by split_and!.
Qed.

(** The code finds a record exactly where one is encoded. *)
Lemma record_at_offset_inv offset r :
  0 <= offset ->
  record_at_offset m v offset = Some (inr r) ->
  exists a t rest, img = a ++ enc_tlv t ++ rest /\ offset = blen a /\ tlv_wf t /\
    r = view_record (blen pre) offset t.
Proof.
  intros Ho Hr. destruct (decide (blen img < offset + 16)).
  { by rewrite record_at_offset_short in Hr. }
  destruct (offset_split offset)
    as (a & type & flags & len & plen & res & rest & Hi & -> & ? & ? & ? & ? & ? & ?);
    [done|lia|].
  rewrite (record_at_offset_raw a type flags len plen res rest) in Hr by done.
  destruct (Z.ltb_spec len 16); [done|].
  destruct (atarix_bib_length_is_aligned len) eqn:Hal; [|done].
  destruct (Z.ltb_spec (16 + blen rest) len); [done|].
  destruct (Z.ltb_spec (len - 16) plen); [done|].
  destruct (atarix_bib_tlv_flags_are_known flags) eqn:Hf; [|done].
  destruct (Z.eqb_spec res 0) as [->|]; [|done]. cbn [negb orb] in Hr.
  apply (inj Some), (inj inr) in Hr. subst r.
  destruct (raw_tlv_decode type flags len plen rest) as (t & rest' & Ht & Hwf & <- & <- & <- & <-);
    [done..|by apply length_is_aligned_spec|lia|lia|].
  exists a, t, rest'. split; [congruence|]. done.
Qed.

Lemma record_at_offset_next a b r :
  img = a ++ b -> record_at_offset m v (blen a) = Some (inr r) ->
  exists t rest, b = enc_tlv t ++ rest /\ tlv_wf t /\
    r = view_record (blen pre) (blen a) t.
Proof.
  intros Himg Hr.
  apply record_at_offset_inv in Hr as (a0 & t & rest & Himg' & Ha & Ht & ->);
    [|apply blen_nonneg].
  rewrite Himg in Himg'. apply app_inj_1 in Himg' as [-> ->]; [|unfold blen in Ha; lia].
  by exists t, rest.
Qed.

Lemma record_at_offset_enc a t rest :
  img = a ++ enc_tlv t ++ rest -> tlv_wf t ->
  record_at_offset m v (blen a) = Some (inr (view_record (blen pre) (blen a) t)).
Proof.
  intros Himg [Ht1 Ht2 Ht3 Ht4 Ht5 Ht6 Ht7].
  pose proof (tlv_length_ge t).
  assert (Hlen : tlv_length t = 16 + blen (t_payload t) + blen (t_padding t)) by done.
  pose proof (blen_nonneg (t_payload t)). pose proof (blen_nonneg (t_padding t)).
  pose proof (blen_nonneg rest).
  rewrite (record_at_offset_raw a (t_type t) (t_flags t) (tlv_length t)
    (blen (t_payload t)) 0 ((t_payload t ++ t_padding t) ++ rest));
    [|rewrite Himg; unfold enc_tlv; by rewrite <-!app_assoc|unfold fits in *; (done || lia)..].
  apply length_is_aligned_spec in Ht5. rewrite Ht5, Ht4, !blen_app. cbn [negb].
  destruct (Z.ltb_spec (tlv_length t) 16); [lia|].
  destruct (Z.ltb_spec (16 + (blen (t_payload t) + blen (t_padding t) + blen rest)) (tlv_length t));
    [lia|].
  destruct (Z.ltb_spec (tlv_length t - 16) (blen (t_payload t))); [lia|]. done.
Qed.

Lemma record_at_offset_total offset :
  0 <= offset -> is_Some (record_at_offset m v offset).
Proof.
  intros Ho. destruct (decide (blen img < offset + 16)).
  { by rewrite record_at_offset_short. }
  destruct (offset_split offset)
    as (a & type & flags & len & plen & res & rest & Hi & -> & ? & ? & ? & ? & ? & ?);
    [done|lia|].
  rewrite (record_at_offset_raw a type flags len plen res rest) by done. by eexists.
Qed.

Lemma check_record_spec a t rest :
  img = a ++ enc_tlv t ++ rest -> tlv_wf t ->
  check_record m (view_record (blen pre) (blen a) t) = Some (check_tlv t).
Proof.
  intros Himg Ht. unfold check_record, check_tlv, ATARIX_BIB_REFERENCE_FIXED_SIZE_V1.
  cbn [view_record rv_type rv_flags rv_payload rv_payload_length].
  destruct (negb _ && _); [done|]. destruct (is_required_reference _); [|done].
  destruct (Z.ltb_spec (blen (t_payload t)) 40); [done|].
  assert (Hm' : m = (pre ++ a ++ enc_tlv_header t) ++ t_payload t ++ t_padding t ++ rest ++ post)
    by (rewrite Hm, Himg; unfold enc_tlv; by rewrite <-!app_assoc).
  replace (blen pre + blen a + 16) with (blen (pre ++ a ++ enc_tlv_header t))
    by (rewrite !blen_app, blen_enc_tlv_header; lia).
  rewrite Hm', !read_le64_at by (apply Ht || lia). cbn [mbind option_bind].
  by destruct (_ <? _).
Qed.

Lemma open_loop_enc fuel a ts rest index s c :
  img = a ++ enc_tlvs ts ++ rest -> Forall tlv_wf ts ->
  Forall (fun t => check_tlv t = None) ts ->
  bv_tlv_count v = index + Z.of_nat (length ts) -> fits 32 (bv_tlv_count v) -> 0 <= index ->
  0 <= s <= index -> 0 <= c <= index -> (length ts < fuel)%nat ->
  open_loop fuel m v index (blen a) s c =
  Some (inr (blen a + blen (enc_tlvs ts),
             s + count_type ATARIX_BIB_TLV_SERVICE_DIRECTORY_REFERENCE ts,
             c + count_type ATARIX_BIB_TLV_MEMORY_MAP_REFERENCE ts)).
Proof.
  intros Himg Hwf Hck Hcount Hfit Hi Hs Hc Hfuel.
  revert fuel a index s c Himg Hck Hcount Hi Hs Hc Hfuel.
  induction Hwf as [|t ts Ht _ IH]; intros fuel a index s c Himg Hck Hcount Hi Hs Hc Hfuel;
    (destruct fuel as [|fuel]; [simpl in Hfuel; lia|]);
    cbn [open_loop length] in *; destruct (Z.ltb_spec index (bv_tlv_count v)); try lia.
  { do 3 f_equal; [f_equal|]; unfold count_type; change (blen (enc_tlvs [])) with 0; simpl; lia. }
  rewrite enc_tlvs_cons, <-app_assoc in Himg. apply Forall_cons_iff in Hck as [Hck1 Hck].
  rewrite (record_at_offset_enc a t (enc_tlvs ts ++ rest)) by done. cbn [mbind option_bind].
  rewrite (check_record_spec a t (enc_tlvs ts ++ rest)), Hck1 by done. cbn [mbind option_bind].
  cbn [view_record rv_type rv_serialized_length].
  pose proof (vo_small _ _ _ Hv) as Hsm. unfold UINT32_MAX, fits in *.
  assert (Hlen : blen img = blen a + tlv_length t + blen (enc_tlvs ts) + blen rest)
    by (rewrite Himg, !blen_app, blen_enc_tlv; lia).
  pose proof (blen_nonneg a). pose proof (blen_nonneg (enc_tlvs ts)). pose proof (blen_nonneg rest).
  pose proof (tlv_length_ge t).
  pose proof (b2z_range (t_type t =? ATARIX_BIB_TLV_SERVICE_DIRECTORY_REFERENCE)).
  pose proof (b2z_range (t_type t =? ATARIX_BIB_TLV_MEMORY_MAP_REFERENCE)).
  rewrite !uint_small by (unfold fits; lia).
  replace (blen a + tlv_length t) with (blen (a ++ enc_tlv t)) by (by rewrite blen_app, blen_enc_tlv).
  rewrite IH; [|by rewrite <-app_assoc|done|lia..].
  rewrite !count_type_cons, enc_tlvs_cons, !blen_app, blen_enc_tlv.
  do 3 f_equal; [f_equal|]; lia.
Qed.

(** A loop iteration that goes on has read a record. *)
Lemma open_loop_inv fuel a b index s c off s' c' :
  img = a ++ b -> fits 32 (bv_tlv_count v) ->
  0 <= index -> 0 <= s <= index -> 0 <= c <= index ->
  open_loop fuel m v index (blen a) s c = Some (inr (off, s', c')) ->
  exists ts rest, b = enc_tlvs ts ++ rest /\ Forall tlv_wf ts /\
    Forall (fun t => check_tlv t = None) ts /\
    Z.of_nat (length ts) = Z.max 0 (bv_tlv_count v - index) /\
    off = blen a + blen (enc_tlvs ts) /\
    s' = s + count_type ATARIX_BIB_TLV_SERVICE_DIRECTORY_REFERENCE ts /\
    c' = c + count_type ATARIX_BIB_TLV_MEMORY_MAP_REFERENCE ts.
Proof.
  intros Himg Hfit. revert a b index s c Himg.
  induction fuel as [|fuel IH]; intros a b index s c Himg Hi Hs Hc Hrun;
    cbn [open_loop] in Hrun; destruct (Z.ltb_spec index (bv_tlv_count v)); try done.
  1, 3: simplify_eq; exists [], b; rewrite !Z.add_0_r; split_and!; (done || simpl; lia).
  destruct (record_at_offset m v (blen a)) as [[|r]|] eqn:Hr; [done| |done].
  apply (record_at_offset_next a b) in Hr as (t & rest & -> & Ht & ->); [|done].
  cbn [mbind option_bind] in Hrun. rewrite (check_record_spec a t rest) in Hrun by done.
  cbn [mbind option_bind] in Hrun. destruct (check_tlv t) eqn:Hck; [done|].
  cbn [view_record rv_type rv_serialized_length] in Hrun.
  pose proof (vo_small _ _ _ Hv) as Hsm. unfold UINT32_MAX, fits in *.
  assert (Hlen : blen img = blen a + tlv_length t + blen rest)
    by (rewrite Himg, !blen_app, blen_enc_tlv; lia).
  pose proof (blen_nonneg a). pose proof (blen_nonneg rest). pose proof (tlv_length_ge t).
  pose proof (b2z_range (t_type t =? ATARIX_BIB_TLV_SERVICE_DIRECTORY_REFERENCE)).
  pose proof (b2z_range (t_type t =? ATARIX_BIB_TLV_MEMORY_MAP_REFERENCE)).
  rewrite !uint_small in Hrun by (unfold fits; lia).
  replace (blen a + tlv_length t) with (blen (a ++ enc_tlv t)) in Hrun
    by (by rewrite blen_app, blen_enc_tlv).
  apply IH with (b := rest) in Hrun as (ts & rest' & -> & Hts & Hcks & Hn & -> & -> & ->);
    [|by rewrite <-app_assoc|lia..].
  exists (t :: ts), rest'.
  rewrite !count_type_cons, enc_tlvs_cons, !blen_app, blen_enc_tlv, <-app_assoc.
  split; [done|]. split; [by constructor|]. split; [by constructor|].
  cbn [length]. split_and!; lia.
Qed.

Lemma open_loop_total fuel a b index s c :
  img = a ++ b -> blen b < 16 * Z.of_nat fuel ->
  is_Some (open_loop fuel m v index (blen a) s c).
Proof.
  revert a b index s c. induction fuel as [|fuel IH]; intros a b index s c Himg Hfuel.
  { pose proof (blen_nonneg b). lia. }
  cbn [open_loop]. destruct (index <? bv_tlv_count v); [|by eexists].
  destruct (record_at_offset_total (blen a)) as [res Hr]; [apply blen_nonneg|].
  rewrite Hr. cbn [mbind option_bind]. destruct res as [|r]; [by eexists|].
  apply (record_at_offset_next a b) in Hr as (t & rest & -> & Ht & ->); [|done].
  rewrite (check_record_spec a t rest) by done. cbn [mbind option_bind].
  destruct (check_tlv t); [by eexists|]. cbn [view_record rv_serialized_length].
  pose proof (vo_small _ _ _ Hv) as Hsm. unfold UINT32_MAX in Hsm.
  rewrite Himg, !blen_app, blen_enc_tlv in Hsm. rewrite blen_app, blen_enc_tlv in Hfuel.
  pose proof (blen_nonneg a). pose proof (blen_nonneg rest). pose proof (tlv_length_ge t).
  rewrite (uint_small 32 (blen a + _)) by (unfold fits; lia).
  replace (blen a + tlv_length t) with (blen (a ++ enc_tlv t))
    by (by rewrite blen_app, blen_enc_tlv).
  apply (IH _ rest); [by rewrite <-app_assoc|lia].
Qed.

Lemma skip_loop_enc fuel a ts rest current s :
  img = a ++ enc_tlvs ts ++ rest -> Forall tlv_wf ts ->
  0 <= current -> s = current + Z.of_nat (length ts) -> fits 32 s ->
  (length ts < fuel)%nat ->
  skip_loop fuel m v current s (blen a) = Some (inr (blen (a ++ enc_tlvs ts))).
Proof.
  intros Himg Hwf Hc Hs Hfit Hfuel. revert fuel a current Himg Hc Hs Hfuel.
  induction Hwf as [|t ts Ht _ IH]; intros fuel a current Himg Hc Hs Hfuel;
    (destruct fuel as [|fuel]; [simpl in Hfuel; lia|]);
    cbn [skip_loop length] in *; destruct (Z.ltb_spec current s); try lia.
  { change (enc_tlvs []) with (@nil Z). by rewrite app_nil_r. }
  rewrite enc_tlvs_cons, <-app_assoc in Himg.
  rewrite (record_at_offset_enc a t (enc_tlvs ts ++ rest)) by done.
  cbn [mbind option_bind view_record rv_serialized_length].
  pose proof (vo_small _ _ _ Hv) as Hsm. unfold UINT32_MAX, fits in *.
  assert (Hlen : blen img = blen a + tlv_length t + blen (enc_tlvs ts) + blen rest)
    by (rewrite Himg, !blen_app, blen_enc_tlv; lia).
  pose proof (blen_nonneg a). pose proof (blen_nonneg (enc_tlvs ts)). pose proof (blen_nonneg rest).
  pose proof (tlv_length_ge t). rewrite !uint_small by (unfold fits; lia).
  replace (blen a + tlv_length t) with (blen (a ++ enc_tlv t)) by (by rewrite blen_app, blen_enc_tlv).
  rewrite IH by (rewrite <-?app_assoc; (done || lia)).
  by rewrite enc_tlvs_cons, <-app_assoc.
Qed.

Lemma skip_loop_total fuel a b current s :
  img = a ++ b -> blen b < 16 * Z.of_nat fuel ->
  exists res, skip_loop fuel m v current s (blen a) = Some res /\
    match res with inr off => 0 <= off | inl _ => True end.
Proof.
  revert a b current. induction fuel as [|fuel IH]; intros a b current Himg Hfuel.
  { pose proof (blen_nonneg b). lia. }
  cbn [skip_loop]. destruct (current <? s);
    [|eexists; split; [done|apply blen_nonneg]].
  destruct (record_at_offset_total (blen a)) as [res Hr]; [apply blen_nonneg|].
  rewrite Hr. cbn [mbind option_bind]. destruct res as [|r]; [by eexists|].
  apply (record_at_offset_next a b) in Hr as (t & rest & -> & Ht & ->); [|done].
  cbn [view_record rv_serialized_length].
  pose proof (vo_small _ _ _ Hv) as Hsm. unfold UINT32_MAX in Hsm.
  rewrite Himg, !blen_app, blen_enc_tlv in Hsm. rewrite blen_app, blen_enc_tlv in Hfuel.
  pose proof (blen_nonneg a). pose proof (blen_nonneg rest). pose proof (tlv_length_ge t).
  rewrite (uint_small 32 (blen a + _)) by (unfold fits; lia).
  replace (blen a + tlv_length t) with (blen (a ++ enc_tlv t))
    by (by rewrite blen_app, blen_enc_tlv).
  apply (IH _ rest); [by rewrite <-app_assoc|lia].
Qed.
End scan.

(** ** The header *)

Definition raw_header (magic : bytes)
    (major minor header_length flags total crc boot producer created offset count reserved : Z)
  : bytes :=
  magic ++ le_bytes 2 major ++ le_bytes 2 minor ++ le_bytes 2 header_length ++
  le_bytes 2 flags ++ le_bytes 4 total ++ le_bytes 4 crc ++ le_bytes 8 boot ++
  le_bytes 8 producer ++ le_bytes 8 created ++ le_bytes 4 offset ++ le_bytes 4 count ++
  le_bytes 8 reserved.

Lemma raw_header_split b :
  bytes_ok b -> 64 <= blen b ->
  exists magic major minor hlen h reserved rest,
    b = raw_header magic major minor hlen (bh_flags h) (bh_total_length h) (bh_crc32c h)
          (bh_boot_id h) (bh_producer_id h) (bh_created_counter h) (bh_tlv_offset h)
          (bh_tlv_count h) reserved ++ rest /\
    length magic = 8%nat /\ fits 16 major /\ bh_version_minor h = minor /\ fits 16 hlen /\
    header_wf h /\ fits 64 reserved /\ bytes_ok rest.
Proof.
  intros Hb Hl.
  take_next 8%nat b mg b0. take_next 2%nat b0 major b1. take_next 2%nat b1 minor b2.
  take_next 2%nat b2 hlen b3. take_next 2%nat b3 flags b4. take_next 4%nat b4 tot b5.
  take_next 4%nat b5 crc b6. take_next 8%nat b6 boot b7. take_next 8%nat b7 producer b8.
  take_next 8%nat b8 created b9. take_next 4%nat b9 offset b10. take_next 4%nat b10 count b11.
  take_next 8%nat b11 reserved b12.
  exists (le_bytes 8 mg), major, minor, hlen,
    (BibHeader minor flags tot crc boot producer created offset count), reserved, b12.
  split; [unfold raw_header; by rewrite <-!app_assoc|]. by split_and!.
Qed.

Lemma zeroed_field_loop_add n1 n2 m data i crc :
  zeroed_field_loop (n1 + n2) m data i crc =
  crc' ← zeroed_field_loop n1 m data i crc;
  zeroed_field_loop n2 m data (i + Z.of_nat n1) crc'.
Proof.
  revert i crc. induction n1 as [|n1 IH]; intros i crc.
  { cbn [Nat.add zeroed_field_loop mbind option_bind]. by rewrite Z.add_0_r. }
  cbn [Nat.add zeroed_field_loop].
  destruct (if (20 <=? i) && (i <? 24) then Some 0 else load8 m (data + i)) as [b|]; [|done].
  cbn [mbind option_bind]. rewrite IH.
  by replace (i + 1 + Z.of_nat n1) with (i + Z.of_nat (S n1)) by lia.
Qed.

(** Away from the checksum field the loop is the plain one. *)
Lemma zeroed_field_loop_plain n m data i crc :
  i + Z.of_nat n <= 20 \/ 24 <= i ->
  zeroed_field_loop n m data i crc =
  for_bytes (fun crc b => Nat.iter 8 crc32c_bit (crc .^ b)) n m (data + i) crc.
Proof.
  revert i crc. induction n as [|n IH]; intros i crc Hi; [done|].
  cbn [zeroed_field_loop for_bytes].
  replace ((20 <=? i) && (i <? 24)) with false
    by (destruct (Z.leb_spec 20 i), (Z.ltb_spec i 24); (done || lia)).
  destruct (load8 m (data + i)); [|done]. cbn [mbind option_bind].
  rewrite IH by lia. by replace (data + (i + 1)) with (data + i + 1) by lia.
Qed.

(** Inside it the bytes are zeros, whatever the memory holds. *)
Lemma zeroed_field_loop_zero n m data i crc :
  20 <= i -> i + Z.of_nat n <= 24 ->
  zeroed_field_loop n m data i crc = Some (crc_run poly_castagnoli crc (replicate n 0)).
Proof.
  revert i crc. induction n as [|n IH]; intros i crc Hi Hn; [done|].
  cbn [zeroed_field_loop replicate].
  replace ((20 <=? i) && (i <? 24)) with true
    by (destruct (Z.leb_spec 20 i), (Z.ltb_spec i 24); (done || lia)).
  cbn [mbind option_bind]. rewrite IH by lia.
  by rewrite crc_run_cons, (crc_byte_bits poly_castagnoli) by apply crc32c_bit_spec.
Qed.

Lemma for_bytes_crc32c n m p crc bs :
  load_bytes m p (Z.of_nat n) = Some bs ->
  for_bytes (fun crc b => Nat.iter 8 crc32c_bit (crc .^ b)) n m p crc =
  Some (crc_run poly_castagnoli crc bs).
Proof.
  intros Hbs. rewrite (for_bytes_fold _ _ _ _ _ bs) by done. f_equal.
  apply fold_left_ext. intros. apply iter_ext, crc32c_bit_spec.
Qed.

Lemma crc32c_with_zeroed_field_spec pre a c b post n :
  blen a = 20 -> blen c = 4 -> n = 24 + blen b ->
  crc32c_with_zeroed_field (pre ++ (a ++ c ++ b) ++ post) (blen pre) n =
  Some (bib_crc (a ++ replicate 4 0 ++ b)).
Proof.
  intros Ha Hc ->. unfold crc32c_with_zeroed_field. pose proof (blen_nonneg b).
  replace (Z.to_nat (24 + blen b)) with (20 + (4 + length b))%nat by (unfold blen; lia).
  rewrite zeroed_field_loop_add, zeroed_field_loop_plain, Z.add_0_r by lia.
  rewrite (for_bytes_crc32c _ _ _ _ a) by (rewrite <-app_assoc; by apply load_bytes_app).
  cbn [mbind option_bind]. rewrite zeroed_field_loop_add.
  set (s := crc_run poly_castagnoli UINT32_MAX a).
  rewrite zeroed_field_loop_zero by lia.
  cbn [mbind option_bind]. rewrite zeroed_field_loop_plain by lia.
  rewrite (for_bytes_crc32c _ _ _ _ b).
  - cbn [mbind option_bind]. unfold crc_of. by rewrite !crc_run_app.
  - rewrite <-!app_assoc, (app_assoc pre), (app_assoc (pre ++ a)).
    apply load_bytes_app; [rewrite !blen_app; lia|done].
Qed.

Lemma magic_bytes_match_spec pre mg post expected :
  length mg = length expected ->
  magic_bytes_match (pre ++ mg ++ post) (blen pre) expected = Some (bool_decide (mg = expected)).
Proof.
  revert pre mg. induction expected as [|e expected IH]; intros pre mg Hl.
  { by destruct mg. }
  destruct mg as [|b mg]; [done|]. cbn [magic_bytes_match].
  rewrite <-app_comm_cons, load8_app by done. cbn [mbind option_bind].
  destruct (Z.eqb_spec b e) as [->|]; [|by rewrite bool_decide_eq_false_2 by congruence].
  rewrite cons_middle, app_assoc.
  replace (blen pre + 1) with (blen (pre ++ [e])) by (by rewrite blen_app).
  rewrite IH by (by injection Hl). f_equal. apply bool_decide_ext.
  split; [by intros ->|by injection 1].
Qed.

(** ** What the reader accepts *)

Definition view_header (p : Z) (h : bib_header) : atarix_bib_view_t :=
  BibView (Some p) (bh_total_length h) (bh_tlv_offset h) (bh_tlv_count h) (bh_flags h)
    (bh_boot_id h) (bh_producer_id h) (bh_created_counter h).

(** A valid block: a version 1 header, [gap] up to the first record, records
    up to the end. *)
Record bib_valid (h : bib_header) (gap : bytes) (ts : list tlv) : Prop := {
  bvd_header : header_wf h;
  bvd_gap : bytes_ok gap;
  bvd_records : Forall tlv_wf ts;
  bvd_total : bh_total_length h = 64 + blen gap + blen (enc_tlvs ts);
  bvd_max : bh_total_length h <= ATARIX_BIB_RECOMMENDED_MAX_SIZE_V1;
  bvd_aligned : (8 | bh_total_length h);
  bvd_crc : bh_crc32c h = bib_crc (enc_header (zero_crc h) ++ gap ++ enc_tlvs ts);
  bvd_flags : atarix_bib_header_flags_are_known (bh_flags h) = true;
  bvd_offset : bh_tlv_offset h = 64 + blen gap;
  bvd_gap_aligned : (8 | bh_tlv_offset h);
  bvd_count : bh_tlv_count h = Z.of_nat (length ts);
  bvd_checks : Forall (fun t => check_tlv t = None) ts;
  bvd_service : count_type ATARIX_BIB_TLV_SERVICE_DIRECTORY_REFERENCE ts = 1;
  bvd_memory : count_type ATARIX_BIB_TLV_MEMORY_MAP_REFERENCE ts = 1
}.

Definition bib_image (h : bib_header) (gap : bytes) (ts : list tlv) : bytes :=
  enc_header h ++ gap ++ enc_tlvs ts.

(** The checks of [atarix_bib_reader_open] on the decoded header, in order;
    [scan] is the record loop. *)
Definition header_verdict (window : Z) (magic : bytes) (major hlen : Z) (h : bib_header)
    (reserved computed : Z) (scan : option (atarix_bib_error_t + Z * Z * Z)) (v : atarix_bib_view_t)
  : option (atarix_bib_error_t * option atarix_bib_view_t) :=
  let fail error := Some (error, Some zero_view) in
  let total := bh_total_length h in
  if negb (bool_decide (magic = ATARIX_BIB_MAGIC)) then fail ATARIX_BIB_E_MAGIC
  else if negb (major =? 1) then fail ATARIX_BIB_E_VERSION
  else if negb (hlen =? 64) then fail ATARIX_BIB_E_HEADER_LENGTH
  else if (total <? 64) || (window <? total) || (64 * 1024 <? total) ||
          negb (atarix_bib_length_is_aligned total) then fail ATARIX_BIB_E_TOTAL_LENGTH
  else if negb (bh_crc32c h =? computed) then fail ATARIX_BIB_E_CRC
  else if negb (atarix_bib_header_flags_are_known (bh_flags h)) || negb (reserved =? 0)
  then fail ATARIX_BIB_E_HEADER_RESERVED
  else if (bh_tlv_offset h <? 64) || (total <? bh_tlv_offset h) ||
          negb (atarix_bib_length_is_aligned (bh_tlv_offset h)) then fail ATARIX_BIB_E_TLV_BOUNDS
  else
    result ← scan;
    match result with
    | inl error => fail error
    | inr (offset, service_count, memory_count) =>
      if negb (offset =? total) then fail ATARIX_BIB_E_TLV_BOUNDS
      else if negb (service_count =? 1) || negb (memory_count =? 1)
      then fail ATARIX_BIB_E_REQUIRED_RECORD
      else Some (ATARIX_BIB_OK, Some v)
    end.

Section header.
Context (m pre win post : bytes) (Hm : m = pre ++ win ++ post).
Context (magic : bytes) (major hlen : Z) (h : bib_header) (reserved : Z) (rest : bytes).

Let raw (crc : Z) : bytes :=
  raw_header magic major (bh_version_minor h) hlen (bh_flags h) (bh_total_length h) crc
    (bh_boot_id h) (bh_producer_id h) (bh_created_counter h) (bh_tlv_offset h)
    (bh_tlv_count h) reserved.

Context (Hwin : win = raw (bh_crc32c h) ++ rest) (Hmagic : length magic = 8%nat)
  (Hmajor : fits 16 major) (Hhlen : fits 16 hlen) (Hh : header_wf h)
  (Hreserved : fits 64 reserved).

(** The bytes of the block after the header. *)
Let body : bytes := take (Z.to_nat (bh_total_length h - 64)) rest.

Lemma raw_length crc : blen (raw crc) = 64.
Proof.
  unfold raw, raw_header. rewrite !blen_app, !blen_le_bytes. unfold blen. rewrite Hmagic. done.
Qed.

Lemma window_split : m = pre ++ raw (bh_crc32c h) ++ rest ++ post.
Proof. by rewrite Hm, Hwin, <-app_assoc. Qed.

(** Every read of the header returns the member at its offset. *)
Lemma header_reads :
  atarix_bib_magic_is_valid m (Some (blen pre)) =
    Some (bool_decide (magic = ATARIX_BIB_MAGIC)) /\
  read_le16 m (blen pre + 8) = Some major /\
  read_le16 m (blen pre + 12) = Some hlen /\
  read_le16 m (blen pre + 14) = Some (bh_flags h) /\
  read_le32 m (blen pre + 16) = Some (bh_total_length h) /\
  read_le32 m (blen pre + 20) = Some (bh_crc32c h) /\
  read_le64 m (blen pre + 24) = Some (bh_boot_id h) /\
  read_le64 m (blen pre + 32) = Some (bh_producer_id h) /\
  read_le64 m (blen pre + 40) = Some (bh_created_counter h) /\
  read_le32 m (blen pre + 48) = Some (bh_tlv_offset h) /\
  read_le32 m (blen pre + 52) = Some (bh_tlv_count h) /\
  read_le64 m (blen pre + 56) = Some reserved.
Proof.
  destruct Hh as [H1 H2 H3 H4 H5 H6 H7 H8 H9]. rewrite window_split. clear Hwin.
  destruct magic as [|m0 [|m1 [|m2 [|m3 [|m4 [|m5 [|m6 [|m7 [|]]]]]]]]]; try done.
  split.
  { apply (magic_bytes_match_spec pre [m0; m1; m2; m3; m4; m5; m6; m7]
      (drop 8 (raw (bh_crc32c h)) ++ rest ++ post)). done. }
  split_and!; (by apply read_le16_block) || (by apply read_le32_block) ||
    by apply read_le64_block.
Qed.

Lemma header_crc :
  64 <= bh_total_length h <= blen win ->
  crc32c_with_zeroed_field m (blen pre) (bh_total_length h) = Some (bib_crc (raw 0 ++ body)).
Proof.
  intros Ht. rewrite Hwin, blen_app, raw_length in Ht.
  set (a := magic ++ le_bytes 2 major ++ le_bytes 2 (bh_version_minor h) ++
    le_bytes 2 hlen ++ le_bytes 2 (bh_flags h) ++ le_bytes 4 (bh_total_length h)).
  set (b := le_bytes 8 (bh_boot_id h) ++ le_bytes 8 (bh_producer_id h) ++
    le_bytes 8 (bh_created_counter h) ++ le_bytes 4 (bh_tlv_offset h) ++
    le_bytes 4 (bh_tlv_count h) ++ le_bytes 8 reserved).
  assert (Hraw : forall crc, raw crc = a ++ le_bytes 4 crc ++ b)
    by (intros; unfold raw, raw_header, a, b; by rewrite <-!app_assoc).
  assert (Ha : blen a = 20)
    by (unfold a; rewrite !blen_app, !blen_le_bytes; unfold blen; rewrite Hmagic; done).
  assert (Hbody : rest = body ++ drop (Z.to_nat (bh_total_length h - 64)) rest)
    by (unfold body; by rewrite take_drop).
  rewrite window_split, Hbody, !Hraw, <-!app_assoc.
  replace (a ++ le_bytes 4 (bh_crc32c h) ++ b ++ body ++ drop _ rest ++ post) with
    ((a ++ le_bytes 4 (bh_crc32c h) ++ b ++ body) ++ drop (Z.to_nat (bh_total_length h - 64)) rest ++ post)
    by (by rewrite <-!app_assoc).
  apply crc32c_with_zeroed_field_spec; [done|done|].
  rewrite blen_app. change (blen b) with 40. unfold body, blen in *.
  rewrite length_take. lia.
Qed.

Lemma reader_open_header v0 :
  atarix_bib_reader_open (Some v0) m (Some (blen pre)) (blen win) =
  header_verdict (blen win) magic major hlen h reserved (bib_crc (raw 0 ++ body))
    (open_loop (record_fuel (view_header (blen pre) h)) m (view_header (blen pre) h) 0
       (bh_tlv_offset h) 0 0) (view_header (blen pre) h).
Proof.
  destruct header_reads as (R0 & R8 & R12 & R14 & R16 & R20 & R24 & R32 & R40 & R48 & R52 & R56).
  assert (Hwl : blen win = 64 + blen rest) by (by rewrite Hwin, blen_app, raw_length).
  pose proof (blen_nonneg rest). pose proof header_crc as Hcrc.
  unfold atarix_bib_reader_open, header_verdict, ATARIX_BIB_HEADER_SIZE_V1,
    ATARIX_BIB_VERSION_MAJOR_V1, ATARIX_BIB_RECOMMENDED_MAX_SIZE_V1. cbv zeta.
  destruct (Z.ltb_spec (blen win) 64); [lia|].
  rewrite R0. cbn [mbind option_bind]. destruct (bool_decide _); [cbn [negb]|done].
  rewrite R8. cbn [mbind option_bind]. destruct (major =? 1); [cbn [negb]|done].
  rewrite R12. cbn [mbind option_bind]. destruct (hlen =? 64); [cbn [negb]|done].
  rewrite R16. cbn [mbind option_bind].
  destruct (Z.ltb_spec (bh_total_length h) 64); [done|].
  destruct (Z.ltb_spec (blen win) (bh_total_length h)); [done|].
  destruct (_ || _); [done|]. rewrite R20, Hcrc by done. cbn [mbind option_bind].
  destruct (bh_crc32c h =? _); [cbn [negb]|done].
  rewrite R14. cbn [mbind option_bind]. destruct (atarix_bib_header_flags_are_known _); [cbn [negb orb]|done].
  rewrite R56. cbn [mbind option_bind]. destruct (reserved =? 0); [cbn [negb]|done].
  rewrite R48, R52, R24, R32, R40. cbn [mbind option_bind]. done.
Qed.
End header.

(** Errors are errors. *)
Lemma record_at_offset_error m v offset :
  record_at_offset m v offset <> Some (inl ATARIX_BIB_OK).
Proof. unfold record_at_offset. intros H. inv_opt. Qed.

Lemma check_record_error m r : check_record m r <> Some (Some ATARIX_BIB_OK).
Proof. unfold check_record. intros H. inv_opt. Qed.

Lemma open_loop_error fuel m v index offset s c :
  open_loop fuel m v index offset s c <> Some (inl ATARIX_BIB_OK).
Proof.
  revert index offset s c. induction fuel as [|fuel IH]; intros index offset s c H;
    cbn [open_loop] in H; destruct (index <? bv_tlv_count v); try done.
  destruct (record_at_offset m v offset) as [[e|r]|] eqn:Hr; [|cbn [mbind option_bind] in H|done].
  - simplify_eq/=. by apply record_at_offset_error in Hr.
  - destruct (check_record m r) as [[e|]|] eqn:Hc; [|by apply IH in H|done].
    simplify_eq/=. by apply check_record_error in Hc.
Qed.

Lemma header_verdict_ok window magic major hlen h reserved computed scan v v' :
  scan <> Some (inl ATARIX_BIB_OK) ->
  header_verdict window magic major hlen h reserved computed scan v =
    Some (ATARIX_BIB_OK, Some v') <->
  magic = ATARIX_BIB_MAGIC /\ major = 1 /\ hlen = 64 /\
  64 <= bh_total_length h <= window /\ bh_total_length h <= 64 * 1024 /\
  (8 | bh_total_length h) /\ bh_crc32c h = computed /\
  atarix_bib_header_flags_are_known (bh_flags h) = true /\ reserved = 0 /\
  64 <= bh_tlv_offset h <= bh_total_length h /\ (8 | bh_tlv_offset h) /\
  scan = Some (inr (bh_total_length h, 1, 1)) /\ v' = v.
Proof.
  intros Hscan. unfold header_verdict. cbv zeta. rewrite <-!length_is_aligned_spec. split.
  - intros H. destruct (bool_decide _) eqn:E1; [apply bool_decide_eq_true_1 in E1|done].
    destruct (Z.eqb_spec major 1); [|done]. destruct (Z.eqb_spec hlen 64); [|done].
    destruct (Z.ltb_spec (bh_total_length h) 64); [done|].
    destruct (Z.ltb_spec window (bh_total_length h)); [done|].
    destruct (Z.ltb_spec (64 * 1024) (bh_total_length h)); [done|].
    destruct (atarix_bib_length_is_aligned (bh_total_length h)); [|done].
    destruct (Z.eqb_spec (bh_crc32c h) computed); [|done].
    destruct (atarix_bib_header_flags_are_known _); [|done].
    destruct (Z.eqb_spec reserved 0); [|done].
    destruct (Z.ltb_spec (bh_tlv_offset h) 64); [done|].
    destruct (Z.ltb_spec (bh_total_length h) (bh_tlv_offset h)); [done|].
    destruct (atarix_bib_length_is_aligned (bh_tlv_offset h)); [|done].
    cbn [negb orb] in H. destruct scan as [[err|[[off s] c]]|]; [|cbn [mbind option_bind] in H|done].
    { cbn [mbind option_bind] in H. congruence. }
    cbn [mbind option_bind] in H.
    destruct (Z.eqb_spec off (bh_total_length h)), (Z.eqb_spec s 1), (Z.eqb_spec c 1);
      cbn [negb orb] in H; try done. apply (inj Some) in H. injection H as <-.
    subst. by split_and!.
  - intros (-> & -> & -> & [H1 H2] & H3 & -> & -> & -> & -> & [H4 H5] & -> & -> & ->).
    rewrite bool_decide_eq_true_2 by done.
    apply Z.ltb_ge in H1, H2, H3, H4, H5. rewrite H1, H2, H3, H4, H5, !Z.eqb_refl.
    cbn [negb orb mbind option_bind]. by rewrite Z.eqb_refl.
Qed.

Lemma raw_header_enc h crc :
  raw_header ATARIX_BIB_MAGIC 1 (bh_version_minor h) 64 (bh_flags h) (bh_total_length h) crc
    (bh_boot_id h) (bh_producer_id h) (bh_created_counter h) (bh_tlv_offset h)
    (bh_tlv_count h) 0 =
  enc_header (BibHeader (bh_version_minor h) (bh_flags h) (bh_total_length h) crc
    (bh_boot_id h) (bh_producer_id h) (bh_created_counter h) (bh_tlv_offset h) (bh_tlv_count h)).
Proof. reflexivity. Qed.

Lemma header_eta h :
  BibHeader (bh_version_minor h) (bh_flags h) (bh_total_length h) (bh_crc32c h)
    (bh_boot_id h) (bh_producer_id h) (bh_created_counter h) (bh_tlv_offset h)
    (bh_tlv_count h) = h.
Proof. by destruct h. Qed.

(** The image of a valid block is accepted. *)
Lemma reader_open_valid v0 m pre h gap ts rest :
  bib_valid h gap ts -> bytes_ok rest ->
  forall post, m = pre ++ (bib_image h gap ts ++ rest) ++ post ->
  atarix_bib_reader_open (Some v0) m (Some (blen pre)) (blen (bib_image h gap ts ++ rest)) =
  Some (ATARIX_BIB_OK, Some (view_header (blen pre) h)).
Proof.
  intros [Hh Hgap Hts Htot Hmax Hal Hcrc Hfl Hoff Hgal Hcount Hck Hs Hc] Hrest post Hm.
  assert (Himg : bib_image h gap ts ++ rest =
    raw_header ATARIX_BIB_MAGIC 1 (bh_version_minor h) 64 (bh_flags h) (bh_total_length h)
      (bh_crc32c h) (bh_boot_id h) (bh_producer_id h) (bh_created_counter h)
      (bh_tlv_offset h) (bh_tlv_count h) 0 ++ (gap ++ enc_tlvs ts) ++ rest).
  { rewrite raw_header_enc, header_eta. unfold bib_image.
    by rewrite <-(app_assoc (enc_header h)), <-(app_assoc gap). }
  rewrite (reader_open_header _ _ _ _ Hm _ _ _ _ _ _ Himg) by done.
  pose proof (blen_nonneg gap). pose proof (blen_nonneg (enc_tlvs ts)). pose proof (blen_nonneg rest).
  assert (Hbody : take (Z.to_nat (bh_total_length h - 64)) ((gap ++ enc_tlvs ts) ++ rest) =
    gap ++ enc_tlvs ts).
  { apply take_app_length'. rewrite length_app. unfold blen in *. lia. }
  unfold ATARIX_BIB_RECOMMENDED_MAX_SIZE_V1 in Hmax.
  apply header_verdict_ok; [apply open_loop_error|]. rewrite Hbody, raw_header_enc.
  unfold bib_image. rewrite !blen_app, blen_enc_header.
  split_and!; try (done || lia).
  rewrite Hoff. replace (64 + blen gap) with (blen (enc_header h ++ gap))
    by (by rewrite blen_app, blen_enc_header).
  rewrite (open_loop_enc m pre (bib_image h gap ts) (rest ++ post)
    (view_header (blen pre) h)) with (ts := ts) (rest := []).
  - rewrite Hs, Hc, blen_app, blen_enc_header. do 3 f_equal. f_equal. lia.
  - by rewrite Hm, <-!app_assoc.
  - split; try done; unfold bib_image; rewrite ?blen_app, ?blen_enc_header.
    + simpl. lia.
    + unfold UINT32_MAX. lia.
    + apply Forall_app; split; [apply enc_header_ok|].
      apply Forall_app; split; [done|by apply enc_tlvs_ok].
  - unfold bib_image. by rewrite app_nil_r, <-app_assoc.
  - done.
  - done.
  - done.
  - apply Hh.
  - lia.
  - lia.
  - lia.
  - unfold record_fuel. simpl. pose proof (blen_enc_tlvs_count ts). lia.
Qed.

(** The first [n] bytes of a window that is long enough. *)
Lemma prefix_split win n :
  0 <= n <= blen win -> exists a b, win = a ++ b /\ blen a = n.
Proof.
  intros Hn. exists (take (Z.to_nat n) win), (drop (Z.to_nat n) win).
  rewrite take_drop. unfold blen in *. rewrite length_take. split; [done|lia].
Qed.

Lemma reader_open_inv v0 m pre win post v :
  m = pre ++ win ++ post -> bytes_ok win ->
  atarix_bib_reader_open (Some v0) m (Some (blen pre)) (blen win) =
    Some (ATARIX_BIB_OK, Some v) ->
  exists h gap ts rest, win = bib_image h gap ts ++ rest /\ bib_valid h gap ts /\
    v = view_header (blen pre) h.
Proof.
  intros Hm Hok Hopen. destruct (decide (blen win < 64)) as [Hs|Hs].
  { unfold atarix_bib_reader_open, ATARIX_BIB_HEADER_SIZE_V1 in Hopen.
    apply Z.ltb_lt in Hs. by rewrite Hs in Hopen. }
  destruct (raw_header_split win) as
    (magic & major & minor & hlen & h & reserved & rest & Hwin & Hmagic & Hmajor & <- & Hhlen & Hh & Hres & Hrest);
    [done|lia|].
  rewrite (reader_open_header m pre win post Hm magic major hlen h reserved rest) in Hopen by done.
  apply header_verdict_ok in Hopen; [|apply open_loop_error].
  destruct Hopen as (-> & -> & -> & Htot & Hmax & Hal & Hcrc & Hfl & -> & Hoff & Hoal & Hscan & ->).
  rewrite raw_header_enc in Hwin, Hcrc. rewrite header_eta in Hwin.
  assert (Hwl : blen win = 64 + blen rest) by (by rewrite Hwin, blen_app, blen_enc_header).
  destruct (prefix_split rest (bh_total_length h - 64)) as (body & tail & -> & Hbl); [lia|].
  rewrite <-Hbl in Hcrc. unfold blen in Hcrc. rewrite Nat2Z.id, take_app_length in Hcrc.
  destruct (prefix_split body (bh_tlv_offset h - 64)) as (gap & b & -> & Hgl); [lia|].
  rewrite blen_app in Hbl. apply Forall_app in Hrest as [[Hgap Hb]%Forall_app Htail].
  replace (bh_tlv_offset h) with (blen (enc_header h ++ gap)) in Hscan
    by (rewrite blen_app, blen_enc_header; lia).
  apply (open_loop_inv m pre (enc_header h ++ gap ++ b) (tail ++ post)) with (b := b) in Hscan
    as (ts & rest & -> & Hts & Hcks & Hn & Hoff' & Hsv & Hmem).
  - rewrite !blen_app, blen_enc_header in *.
    assert (rest = []) as -> by (destruct rest; [done|]; rewrite blen_cons in *; pose proof (blen_nonneg rest); lia).
    cbn [view_header bv_tlv_count] in Hn. rewrite app_nil_r in *. destruct Hh.
    exists h, gap, ts, tail. split; [|split; [|done]].
    + rewrite Hwin. unfold bib_image. by rewrite <-(app_assoc (enc_header h)).
    + split; try done; try lia; unfold ATARIX_BIB_RECOMMENDED_MAX_SIZE_V1;
        change (blen []) with 0 in *; unfold fits in *; lia.
  - rewrite Hm, Hwin. apply app_regroup.
  - split; try done; rewrite ?blen_app, ?blen_enc_header.
    + simpl. lia.
    + unfold UINT32_MAX. lia.
    + apply Forall_app; split; [apply enc_header_ok|by apply Forall_app].
  - by rewrite <-app_assoc.
  - apply Hh.
  - lia.
  - lia.
  - lia.
Qed.

(** ** Opening always answers *)

Lemma open_result_total window magic major hlen h reserved computed scan v :
  (64 <= bh_total_length h <= window -> bh_total_length h <= 64 * 1024 ->
   64 <= bh_tlv_offset h <= bh_total_length h -> is_Some scan) ->
  scan <> Some (inl ATARIX_BIB_OK) ->
  exists e v', header_verdict window magic major hlen h reserved computed scan v = Some (e, Some v') /\
    (e <> ATARIX_BIB_OK -> v' = zero_view).
Proof.
  intros Hscan Hne. unfold header_verdict. cbv zeta.
  destruct (negb _); [by do 2 eexists|]. destruct (negb _); [by do 2 eexists|].
  destruct (negb _); [by do 2 eexists|].
  destruct (Z.ltb_spec (bh_total_length h) 64); [by do 2 eexists|].
  destruct (Z.ltb_spec window (bh_total_length h)); [by do 2 eexists|].
  destruct (Z.ltb_spec (64 * 1024) (bh_total_length h)); [by do 2 eexists|]. cbn [orb].
  destruct (negb _); [by do 2 eexists|]. destruct (negb _); [by do 2 eexists|].
  destruct (_ || _); [by do 2 eexists|].
  destruct (Z.ltb_spec (bh_tlv_offset h) 64); [by do 2 eexists|].
  destruct (Z.ltb_spec (bh_total_length h) (bh_tlv_offset h)); [by do 2 eexists|]. cbn [orb].
  destruct (negb _); [by do 2 eexists|].
  destruct Hscan as [[e|[[off s] c]] ->]; [done..|by do 2 eexists|].
  cbn [mbind option_bind]. destruct (negb _); [by do 2 eexists|].
  destruct (_ || _); by do 2 eexists.
Qed.

Lemma reader_open_total v0 m pre win post :
  m = pre ++ win ++ post -> bytes_ok win -> 64 <= blen win ->
  exists e v, atarix_bib_reader_open (Some v0) m (Some (blen pre)) (blen win) = Some (e, Some v) /\
    (e <> ATARIX_BIB_OK -> v = zero_view).
Proof.
  intros Hm Hok Hs. destruct (raw_header_split win) as
    (magic & major & minor & hlen & h & reserved & rest & Hwin & Hmagic & Hmajor & <- & Hhlen & Hh & Hres & Hrest);
    [done|lia|].
  rewrite (reader_open_header m pre win post Hm magic major hlen h reserved rest) by done.
  apply open_result_total; [|apply open_loop_error]. intros Htot Hmax Hoff.
  destruct (prefix_split win (bh_total_length h)) as (img & tail & Himg & Hil); [lia|].
  destruct (prefix_split img (bh_tlv_offset h)) as (a & b & Hab & Hal); [lia|].
  rewrite <-Hal. rewrite Himg in Hok. apply Forall_app in Hok as [Hok _].
  apply (open_loop_total m pre img (tail ++ post)) with (b := b).
  - by rewrite Hm, Himg, <-app_assoc.
  - split; try done; unfold UINT32_MAX; simpl; lia.
  - done.
  - unfold record_fuel. cbn [view_header bv_total_length].
    rewrite <-Hil, Hab, blen_app. pose proof (blen_nonneg a). pose proof (blen_nonneg b). lia.
Qed.

(** ** Records of an accepted block *)

Section records.
Context (m pre post : bytes) (h : bib_header) (gap : bytes) (ts : list tlv)
  (Hm : m = pre ++ bib_image h gap ts ++ post) (Hvalid : bib_valid h gap ts).

Lemma bib_image_length : blen (bib_image h gap ts) = bh_total_length h.
Proof.
  unfold bib_image. rewrite !blen_app, blen_enc_header, (bvd_total _ _ _ Hvalid). lia.
Qed.

Lemma valid_view : view_of (view_header (blen pre) h) pre (bib_image h gap ts).
Proof.
  destruct Hvalid. split; [done|by rewrite bib_image_length|rewrite bib_image_length|].
  - unfold ATARIX_BIB_RECOMMENDED_MAX_SIZE_V1, UINT32_MAX in *. lia.
  - unfold bib_image. apply Forall_app; split; [apply enc_header_ok|].
    apply Forall_app; split; [done|by apply enc_tlvs_ok].
Qed.

(** Where record [i] starts. *)
Definition record_start (i : nat) : Z :=
  bh_tlv_offset h + blen (enc_tlvs (take i ts)).

Lemma reader_record_valid i t r0 :
  ts !! i = Some t ->
  atarix_bib_reader_record (Some (view_header (blen pre) h)) m (Z.of_nat i) (Some r0) =
  Some (ATARIX_BIB_OK, Some (view_record (blen pre) (record_start i) t)).
Proof.
  intros Ht. pose proof (lookup_lt_Some _ _ _ Ht) as Hi.
  pose proof (bvd_count _ _ _ Hvalid) as Hcount. pose proof (bvd_records _ _ _ Hvalid) as Hwf.
  pose proof (hw_count _ (bvd_header _ _ _ Hvalid)) as Hfit.
  pose proof (bvd_total _ _ _ Hvalid). pose proof (blen_enc_tlvs_count ts).
  pose proof (blen_nonneg gap).
  unfold atarix_bib_reader_record. cbn [view_header bv_buffer bv_tlv_count bv_tlv_offset].
  rewrite bool_decide_eq_false_2 by done.
  destruct (Z.leb_spec (bh_tlv_count h) (Z.of_nat i)); [lia|]. cbn [orb].
  set (a := enc_header h ++ gap).
  assert (Ha : bh_tlv_offset h = blen a)
    by (unfold a; rewrite blen_app, blen_enc_header; apply Hvalid).
  assert (Himg : bib_image h gap ts = a ++ enc_tlvs (take i ts) ++ enc_tlv t ++ enc_tlvs (drop (S i) ts)).
  { unfold bib_image, a. rewrite <-(take_drop_middle ts i t Ht) at 1.
    rewrite enc_tlvs_app, enc_tlvs_cons. by rewrite <-app_assoc. }
  unfold record_start. rewrite Ha.
  rewrite (skip_loop_enc m pre (bib_image h gap ts) post _ Hm valid_view _ _ (take i ts)
    (enc_tlv t ++ enc_tlvs (drop (S i) ts))).
  - cbn [mbind option_bind].
    rewrite (record_at_offset_enc m pre (bib_image h gap ts) post _ Hm valid_view
      (a ++ enc_tlvs (take i ts)) t (enc_tlvs (drop (S i) ts))).
    + cbn [mbind option_bind]. by rewrite blen_app.
    + by rewrite <-app_assoc.
    + by eapply Forall_lookup_1.
  - done.
  - by apply Forall_take.
  - lia.
  - rewrite length_take. lia.
  - unfold fits in *. lia.
  - unfold record_fuel. simpl. rewrite length_take. lia.
Qed.

(** The reference that a record holds. *)
Definition reference_of (offset : Z) (t : tlv) : atarix_bib_error_t + atarix_bib_reference_view_t :=
  let payload := t_payload t in
  if blen payload <? 40 then inl ATARIX_BIB_E_TLV_BOUNDS
  else if blen payload - 40 <? le_at 4 payload 36 then inl ATARIX_BIB_E_REFERENCE_INTEGRITY
  else inr (BibReferenceView (le_at 8 payload 0) (le_at 8 payload 8) (le_at 8 payload 16)
              (le_at 4 payload 24) (le_at 4 payload 28) (le_at 4 payload 32)
              (blen pre + offset + 56) (le_at 4 payload 36)).

Lemma read_reference_valid i t :
  ts !! i = Some t ->
  read_reference m (view_record (blen pre) (record_start i) t) =
  Some (reference_of (record_start i) t).
Proof.
  intros Ht. assert (Hwf : tlv_wf t).
  { eapply Forall_lookup_1; [apply Hvalid|done]. }
  unfold read_reference, reference_of, ATARIX_BIB_REFERENCE_FIXED_SIZE_V1.
  cbn [view_record rv_payload rv_payload_length].
  destruct (Z.ltb_spec (blen (t_payload t)) 40); [done|].
  set (a := pre ++ (enc_header h ++ gap) ++ enc_tlvs (take i ts) ++ enc_tlv_header t).
  assert (Hm' : m = a ++ t_payload t ++ t_padding t ++ enc_tlvs (drop (S i) ts) ++ post).
  { rewrite Hm. unfold bib_image, a. rewrite <-(take_drop_middle ts i t Ht) at 1.
    rewrite enc_tlvs_app, enc_tlvs_cons. unfold enc_tlv. by rewrite <-!app_assoc. }
  assert (Hp : blen pre + record_start i + 16 = blen a).
  { unfold a, record_start. rewrite !blen_app, blen_enc_header, blen_enc_tlv_header.
    rewrite (bvd_offset _ _ _ Hvalid). lia. }
  rewrite Hp, Hm'. rewrite !read_le32_at by (apply Hwf || lia). cbn [mbind option_bind].
  destruct (_ <? _); [done|].
  rewrite !read_le64_at by (apply Hwf || lia). cbn [mbind option_bind].
  do 3 f_equal. lia.
Qed.

(** The search returns the reference of the first record of the type. *)
Definition find_spec (type : Z) : atarix_bib_error_t + atarix_bib_reference_view_t :=
  match list_find (fun t => t_type t = type) ts with
  | Some (i, t) => reference_of (record_start i) t
  | None => inl ATARIX_BIB_E_REQUIRED_RECORD
  end.

Lemma find_loop_valid fuel i type :
  (i <= length ts < i + fuel)%nat ->
  find_loop fuel m (view_header (blen pre) h) (Z.of_nat i) type =
  Some (match list_find (fun t => t_type t = type) (drop i ts) with
        | Some (j, t) => reference_of (record_start (i + j)) t
        | None => inl ATARIX_BIB_E_REQUIRED_RECORD
        end).
Proof.
  pose proof (bvd_count _ _ _ Hvalid) as Hcount.
  pose proof (hw_count _ (bvd_header _ _ _ Hvalid)) as Hfit.
  revert i. induction fuel as [|fuel IH]; intros i Hi; [lia|].
  cbn [find_loop]. cbn [view_header bv_tlv_count].
  destruct (Z.ltb_spec (Z.of_nat i) (bh_tlv_count h)); cycle 1.
  { by rewrite drop_ge by lia. }
  destruct (lookup_lt_is_Some_2 ts i) as [t Ht]; [lia|].
  pose proof (reader_record_valid i t fresh_record Ht) as Hr.
  cbn [view_header] in Hr. rewrite Hr. cbn [mbind option_bind view_record rv_type].
  rewrite (drop_S _ _ _ Ht). cbn [list_find].
  destruct (Z.eqb_spec (t_type t) type) as [E|E].
  - rewrite decide_True by done. rewrite Nat.add_0_r. by apply read_reference_valid.
  - rewrite decide_False by done.
    rewrite uint_small by (unfold fits in *; lia).
    replace (Z.of_nat i + 1) with (Z.of_nat (S i)) by lia. rewrite IH by lia.
    destruct (list_find _ _) as [[j u]|]; [|done]. cbn [fmap option_fmap option_map prod_map].
    cbn [fst snd id]. by replace (i + S j)%nat with (S i + j)%nat by lia.
Qed.

Lemma find_reference_valid type r0 :
  atarix_bib_reader_find_reference (Some (view_header (blen pre) h)) m type (Some r0) =
  Some (match find_spec type with
        | inl e => (e, Some r0)
        | inr r => (ATARIX_BIB_OK, Some r)
        end).
Proof.
  unfold atarix_bib_reader_find_reference, find_spec.
  change 0 with (Z.of_nat 0). rewrite find_loop_valid; cycle 1.
  { unfold record_fuel. cbn [view_header bv_total_length].
    pose proof (bvd_total _ _ _ Hvalid). pose proof (blen_enc_tlvs_count ts).
    pose proof (blen_nonneg gap). lia. }
  cbn [mbind option_bind]. rewrite drop_0. destruct (list_find _ _) as [[j u]|]; [|done].
  by destruct (reference_of _ _).
Qed.
End records.

(** ** What the builder produces is valid *)

Lemma built_image_valid flags boot producer created ts :
  fits 16 flags -> fits 64 boot -> fits 64 producer -> fits 64 created ->
  atarix_bib_header_flags_are_known flags = true ->
  Forall tlv_wf ts -> Forall (fun t => check_tlv t = None) ts ->
  count_type ATARIX_BIB_TLV_SERVICE_DIRECTORY_REFERENCE ts = 1 ->
  count_type ATARIX_BIB_TLV_MEMORY_MAP_REFERENCE ts = 1 ->
  64 + blen (enc_tlvs ts) <= ATARIX_BIB_RECOMMENDED_MAX_SIZE_V1 ->
  bib_valid (built_header (fresh_header flags boot producer created) ts) [] ts.
Proof.
  intros Hf Hb Hp Hc Hk Hwf Hck Hs Hm Hmax.
  pose proof (blen_nonneg (enc_tlvs ts)). pose proof (blen_enc_tlvs_count ts).
  unfold ATARIX_BIB_RECOMMENDED_MAX_SIZE_V1 in Hmax.
  assert (fits 32 (bib_crc (enc_header (sealed_header (fresh_header flags boot producer created)
    (64 + blen (enc_tlvs ts)) 0 (Z.of_nat (length ts))) ++ enc_tlvs ts))).
  { apply checksum_fits. apply Forall_app; split; [apply enc_header_ok|by apply enc_tlvs_ok]. }
  split; cbn [built_header sealed_header fresh_header bh_total_length bh_crc32c bh_flags
    bh_tlv_offset bh_tlv_count]; try done; change (blen []) with 0; try lia.
  - split; cbn [built_header sealed_header fresh_header bh_version_minor bh_flags
      bh_total_length bh_crc32c bh_boot_id bh_producer_id bh_created_counter bh_tlv_offset
      bh_tlv_count]; try done; unfold fits; lia.
  - apply Z.divide_add_r; [by exists 8|by apply enc_tlvs_aligned].
  - by exists 8.
Qed.

Lemma built_image_bib_image h ts : built_image h ts = bib_image (built_header h ts) [] ts.
Proof. done. Qed.

(** ** Memory safety on arbitrary memory *)

Section safety.
Context (m pre img post : bytes) (v : atarix_bib_view_t)
  (Hm : m = pre ++ img ++ post) (Hv : view_of v pre img).

(** A record found by skipping lies sixteen bytes further for every skip. *)
Lemma skip_loop_advance fuel current s offset off :
  0 <= current -> fits 32 s -> 0 <= offset ->
  skip_loop fuel m v current s offset = Some (inr off) ->
  offset + 16 * (s - current) <= off /\ 0 <= off.
Proof.
  intros Hc Hs Ho. revert current offset Hc Ho.
  induction fuel as [|fuel IH]; intros current offset Hc Ho Hrun; cbn [skip_loop] in Hrun;
    destruct (Z.ltb_spec current s); try done.
  1, 3: simplify_eq; lia.
  destruct (record_at_offset m v offset) as [[|r]|] eqn:Hr; [done| |done].
  apply (record_at_offset_inv m pre img post v Hm Hv) in Hr as (a & t & rest & Himg & -> & Ht & ->);
    [|done].
  cbn [mbind option_bind view_record rv_serialized_length] in Hrun.
  pose proof (vo_small _ _ _ Hv) as Hsm. unfold UINT32_MAX, fits in *.
  rewrite Himg, !blen_app, blen_enc_tlv in Hsm. pose proof (blen_nonneg rest).
  pose proof (tlv_length_ge t). rewrite !uint_small in Hrun by (unfold fits; lia).
  apply IH in Hrun; lia.
Qed.

Lemma skip_loop_safe index offset :
  0 <= offset -> exists res, skip_loop (record_fuel v) m v 0 index offset = Some res /\
    match res with inr off => 0 <= off | inl _ => True end.
Proof.
  intros Ho. pose proof (vo_total _ _ _ Hv) as Ht.
  destruct (decide (offset <= blen img)) as [Hle|Hgt].
  - destruct (prefix_split img offset) as (a & b & Hab & <-); [lia|].
    apply (skip_loop_total m pre img post v Hm Hv _ a b); [done|].
    unfold record_fuel. rewrite Ht, Hab, blen_app.
    pose proof (blen_nonneg a). pose proof (blen_nonneg b). lia.
  - unfold record_fuel. cbn [skip_loop]. destruct (0 <? index); [|by eexists].
    rewrite (record_at_offset_short _ pre img) by (done || lia). by eexists.
Qed.

Lemma reader_record_safe index r0 :
  0 <= bv_tlv_offset v ->
  exists e r, atarix_bib_reader_record (Some v) m index (Some r0) = Some (e, Some r) /\
    (e = ATARIX_BIB_OK -> exists a t rest, img = a ++ enc_tlv t ++ rest /\ tlv_wf t /\
      r = view_record (blen pre) (blen a) t /\ (fits 32 index -> 16 * index <= blen a)).
Proof.
  intros Ho. unfold atarix_bib_reader_record. destruct (_ || _); [by do 2 eexists|].
  destruct (skip_loop_safe index (bv_tlv_offset v) Ho) as (res & Hskip & Hres).
  rewrite Hskip. cbn [mbind option_bind]. destruct res as [e|off].
  { exists e, r0. split; [done|]. intros ->. exfalso. clear Hres. revert Hskip.
    generalize (record_fuel v), 0, (bv_tlv_offset v).
    intros fuel. induction fuel as [|fuel IH]; intros c o; cbn [skip_loop];
      destruct (c <? index); try done.
    destruct (record_at_offset m v o) as [[|]|] eqn:Hr; cbn [mbind option_bind];
      [intros [= ->]; by apply record_at_offset_error in Hr|apply IH|done]. }
  destruct (record_at_offset_total m pre img post v Hm Hv off Hres) as [[e|r] Hr];
    rewrite Hr; cbn [mbind option_bind].
  { do 2 eexists. split; [done|]. intros ->. by apply record_at_offset_error in Hr. }
  do 2 eexists. split; [done|]. intros _.
  apply (record_at_offset_inv m pre img post v Hm Hv) in Hr as (a & t & rest & Himg & -> & Ht & ->);
    [|done].
  exists a, t, rest. split_and!; try done. intros Hi.
  apply skip_loop_advance in Hskip; [|done..]. lia.
Qed.

Lemma read_reference_safe a t rest :
  img = a ++ enc_tlv t ++ rest -> tlv_wf t ->
  is_Some (read_reference m (view_record (blen pre) (blen a) t)).
Proof.
  intros Himg Ht. unfold read_reference, ATARIX_BIB_REFERENCE_FIXED_SIZE_V1.
  cbn [view_record rv_payload rv_payload_length].
  destruct (Z.ltb_spec (blen (t_payload t)) 40); [by eexists|].
  assert (Hm' : m = (pre ++ a ++ enc_tlv_header t) ++ t_payload t ++ t_padding t ++ rest ++ post)
    by (rewrite Hm, Himg; unfold enc_tlv; by rewrite <-!app_assoc).
  replace (blen pre + blen a + 16) with (blen (pre ++ a ++ enc_tlv_header t))
    by (rewrite !blen_app, blen_enc_tlv_header; lia).
  rewrite Hm', !read_le32_at by (apply Ht || lia). cbn [mbind option_bind].
  destruct (_ <? _); [by eexists|].
  rewrite !read_le64_at by (apply Ht || lia). by eexists.
Qed.

Lemma find_loop_safe fuel index type :
  0 <= bv_tlv_offset v -> fits 32 (bv_tlv_count v) ->
  0 <= index -> 16 * index <= blen img -> blen img < index + Z.of_nat fuel ->
  is_Some (find_loop fuel m v index type).
Proof.
  intros Ho Hcount. revert index. induction fuel as [|fuel IH]; intros index Hi Hb Hf;
    [lia|]. cbn [find_loop].
  destruct (Z.ltb_spec index (bv_tlv_count v)); [|by eexists].
  destruct (reader_record_safe index fresh_record Ho) as (e & r & Hr & Hok).
  rewrite Hr. cbn [mbind option_bind].
  destruct e; try by eexists.
  destruct Hok as (a & t & rest & Himg & Ht & -> & Hadv); [done|].
  destruct (_ =? _); [by apply (read_reference_safe a t rest)|].
  unfold fits in *. rewrite uint_small by (unfold fits; lia).
  assert (16 * index + 16 <= blen img).
  { rewrite Himg, !blen_app, blen_enc_tlv. pose proof (tlv_length_ge t).
    pose proof (blen_nonneg rest). lia. }
  apply IH; lia.
Qed.
End safety.

(** ** Properties *)

(** C1. The reader accepts exactly the valid blocks: on a window of the
    caller's memory, [atarix_bib_reader_open] returns OK if and only if the
    window starts with the serialized form of a header, alignment gap and record
    list that satisfy every requirement of [bib_valid] (lengths, alignment,
    CRC-32C, known flags, exactly one service directory and one memory map
    reference, no unknown mandatory record); the view is then that header. *)
Theorem reader_open_accepts_iff v0 m p window win v :
  bytes_ok m -> load_bytes m p window = Some win ->
  atarix_bib_reader_open (Some v0) m (Some p) window = Some (ATARIX_BIB_OK, Some v) <->
  exists h gap ts rest, win = bib_image h gap ts ++ rest /\ bib_valid h gap ts /\
    v = view_header p h.
Proof.
  intros Hok Hwin. pose proof (load_bytes_ok _ _ _ _ Hok Hwin) as Hwok.
  apply load_bytes_inv in Hwin as (pre & post & Hm & -> & ->). split.
  - by apply (reader_open_inv v0 m pre win post).
  - intros (h & gap & ts & rest & Hwin & Hvalid & ->). rewrite Hwin.
    apply (reader_open_valid v0 m pre h gap ts rest Hvalid) with (post := post).
    + rewrite Hwin in Hwok. by apply Forall_app in Hwok as [_ ?].
    + by rewrite Hm, Hwin.
Qed.

(** C19. Opening always answers and fails closed: on any window inside the
    memory (the memory may be just the window), whatever its bytes, the scan
    ends within its fuel and no byte outside is read; unless the answer is OK,
    the view is left all zero, or untouched with [ATARIX_BIB_E_WINDOW] when the
    window is shorter than a header. *)
Theorem reader_open_fails_closed v0 m p window :
  bytes_ok m -> 0 <= p -> 0 <= window -> p + window <= blen m ->
  exists e v, atarix_bib_reader_open (Some v0) m (Some p) window = Some (e, Some v) /\
    if window <? 64 then e = ATARIX_BIB_E_WINDOW /\ v = v0
    else e <> ATARIX_BIB_OK -> v = zero_view.
Proof.
  intros Hok Hp Hw Hl. destruct (Z.ltb_spec window 64) as [Hs|Hs].
  - unfold atarix_bib_reader_open, ATARIX_BIB_HEADER_SIZE_V1.
    apply Z.ltb_lt in Hs as ->. by do 2 eexists.
  - destruct (load_bytes_in_range m p window) as (win & Hwin & _); [done..|].
    pose proof (load_bytes_ok _ _ _ _ Hok Hwin).
    apply load_bytes_inv in Hwin as (pre & post & Hm & -> & ->).
    destruct (reader_open_total v0 m pre win post) as (e & v & ? & ?); [done..|].
    by exists e, v.
Qed.

(** The records of an accepted block are exactly the encoded ones: record
    [i] of the list is returned with its type, flags, payload position and
    lengths, and an index that is not below the record count is refused with
    [ATARIX_BIB_E_TLV_BOUNDS] and nothing written. *)
Theorem reader_record_spec m pre post h gap ts i r0 :
  bib_valid h gap ts -> m = pre ++ bib_image h gap ts ++ post ->
  atarix_bib_reader_record (Some (view_header (blen pre) h)) m (Z.of_nat i) (Some r0) =
  Some (match ts !! i with
        | Some t => (ATARIX_BIB_OK, Some (view_record (blen pre) (record_start h ts i) t))
        | None => (ATARIX_BIB_E_TLV_BOUNDS, Some r0)
        end).
Proof.
  intros Hvalid Hm. destruct (ts !! i) as [t|] eqn:Ht.
  - by apply (reader_record_valid m pre post h gap ts).
  - apply lookup_ge_None in Ht. pose proof (bvd_count _ _ _ Hvalid).
    unfold atarix_bib_reader_record. cbn [view_header bv_buffer bv_tlv_count].
    rewrite bool_decide_eq_false_2 by done.
    by destruct (Z.leb_spec (bh_tlv_count h) (Z.of_nat i)); [|lia].
Qed.

(** [atarix_bib_reader_find_reference] on an accepted block reads the first
    record of the requested type: it returns that record's reference members, or
    [ATARIX_BIB_E_TLV_BOUNDS] when its payload is shorter than a reference, or
    [ATARIX_BIB_E_REFERENCE_INTEGRITY] when the integrity data overruns the
    payload; without such a record it answers [ATARIX_BIB_E_REQUIRED_RECORD].
    On any error the output is not written. *)
Theorem reader_find_reference_spec m pre post h gap ts type r0 :
  bib_valid h gap ts -> m = pre ++ bib_image h gap ts ++ post ->
  atarix_bib_reader_find_reference (Some (view_header (blen pre) h)) m type (Some r0) =
  Some (match find_spec pre h ts type with
        | inl e => (e, Some r0)
        | inr r => (ATARIX_BIB_OK, Some r)
        end).
Proof. intros Hvalid Hm. by apply (find_reference_valid m pre post h gap ts). Qed.

(** C22. The reader delivers the contents of an accepted block, wherever it lies in
    memory. Record [i] is returned with its type, flags, payload position and
    lengths, and an index not below the count is refused with
    [ATARIX_BIB_E_TLV_BOUNDS]. A search answers with the reference members of the
    first record of the type, with [ATARIX_BIB_E_TLV_BOUNDS] when that record is
    shorter than a reference, [ATARIX_BIB_E_REFERENCE_INTEGRITY] when its integrity
    data overruns it, and [ATARIX_BIB_E_REQUIRED_RECORD] when there is no such record.
    On any error the output is not written. *)
Theorem reader_reads_spec m pre post h gap ts i type r0 f0 :
  bib_valid h gap ts -> m = pre ++ bib_image h gap ts ++ post ->
  atarix_bib_reader_record (Some (view_header (blen pre) h)) m (Z.of_nat i) (Some r0) =
  Some (match ts !! i with
        | Some t => (ATARIX_BIB_OK, Some (view_record (blen pre) (record_start h ts i) t))
        | None => (ATARIX_BIB_E_TLV_BOUNDS, Some r0)
        end) /\
  atarix_bib_reader_find_reference (Some (view_header (blen pre) h)) m type (Some f0) =
  Some (match find_spec pre h ts type with
        | inl e => (e, Some f0)
        | inr r => (ATARIX_BIB_OK, Some r)
        end).
Proof.
  intros Hvalid Hm. split.
  - by apply (reader_record_spec m pre post h gap ts).
  - by apply (reader_find_reference_spec m pre post h gap ts).
Qed.

(** C18. Reads through a view stay inside the block it was opened on even if the
    block is overwritten afterwards: for any contents of those bytes, getting a
    record by any index and searching a reference of any type end and touch no
    other byte, and a record returned as OK lies inside the block. *)
Theorem reader_memory_safe m pre img post v index type r0 f0 :
  m = pre ++ img ++ post -> view_of v pre img ->
  0 <= bv_tlv_offset v -> fits 32 (bv_tlv_count v) ->
  (exists e r, atarix_bib_reader_record (Some v) m index (Some r0) = Some (e, Some r) /\
    (e = ATARIX_BIB_OK ->
     blen pre + 16 <= rv_payload r /\
     rv_payload r + rv_payload_length r <= blen pre + blen img)) /\
  is_Some (atarix_bib_reader_find_reference (Some v) m type (Some f0)).
Proof.
  intros Hm Hv Ho Hc. split.
  - destruct (reader_record_safe m pre img post v Hm Hv index r0 Ho) as (e & r & Hr & Hok).
    exists e, r. split; [done|]. intros He.
    destruct (Hok He) as (a & t & rest & Himg & Ht & -> & _).
    cbn [view_record rv_payload rv_payload_length].
    rewrite Himg, !blen_app, blen_enc_tlv. unfold tlv_length, ATARIX_BIB_TLV_HEADER_SIZE_V1.
    pose proof (blen_nonneg a). pose proof (blen_nonneg rest).
    pose proof (blen_nonneg (t_padding t)). lia.
  - unfold atarix_bib_reader_find_reference.
    destruct (find_loop_safe m pre img post v Hm Hv (record_fuel v) 0 type) as [res ->];
      [done|done|lia|pose proof (blen_nonneg img); lia| |].
    { unfold record_fuel. rewrite (vo_total _ _ _ Hv). pose proof (blen_nonneg img). lia. }
    cbn [mbind option_bind]. by destruct res.
Qed.

(** The image of a block around its total length and checksum. *)
Definition image_front (h : bib_header) : bytes :=
  ATARIX_BIB_MAGIC ++ le_bytes 2 ATARIX_BIB_VERSION_MAJOR_V1 ++
  le_bytes 2 (bh_version_minor h) ++ le_bytes 2 ATARIX_BIB_HEADER_SIZE_V1 ++
  le_bytes 2 (bh_flags h).

Definition image_back (h : bib_header) (gap : bytes) (ts : list tlv) : bytes :=
  (le_bytes 8 (bh_boot_id h) ++ le_bytes 8 (bh_producer_id h) ++
   le_bytes 8 (bh_created_counter h) ++ le_bytes 4 (bh_tlv_offset h) ++
   le_bytes 4 (bh_tlv_count h) ++ le_bytes 8 0) ++ gap ++ enc_tlvs ts.

Lemma bib_image_parts h gap ts :
  bib_image h gap ts =
  image_front h ++ le_bytes 4 (bh_total_length h) ++ le_bytes 4 (bh_crc32c h) ++
  image_back h gap ts.
Proof.
  unfold bib_image, image_back, image_front, enc_header. by rewrite <-!app_assoc.
Qed.

Lemma blen_image_front h : blen (image_front h) = 16.
Proof. done. Qed.

Lemma image_parts_ok h gap ts :
  bib_valid h gap ts -> bytes_ok (image_front h) /\ bytes_ok (image_back h gap ts).
Proof.
  intros Hv. split.
  - unfold image_front. repeat (apply Forall_app; split); auto with atarix.
    by repeat constructor.
  - unfold image_back. repeat (apply Forall_app; split); auto with atarix;
      [apply Hv|apply enc_tlvs_ok; apply Hv].
Qed.

Lemma image_crc h gap ts :
  bib_valid h gap ts ->
  bh_crc32c h = bib_crc (image_front h ++ le_bytes 4 (bh_total_length h) ++
                         le_bytes 4 0 ++ image_back h gap ts).
Proof.
  intros Hv. rewrite (bvd_crc _ _ _ Hv) at 1.
  apply (f_equal (crc_of poly_castagnoli)), (bib_image_parts (zero_crc h) gap ts).
Qed.

(** Bytes that are accepted, cut at the total length and the checksum. *)
Lemma image_agree a t c b tail h gap ts rest :
  length a = 16%nat -> length t = 4%nat -> length c = 4%nat ->
  a ++ t ++ c ++ b ++ tail = bib_image h gap ts ++ rest ->
  bib_valid h gap ts -> le_value t = 24 + blen b ->
  a = image_front h /\ t = le_bytes 4 (bh_total_length h) /\
  c = le_bytes 4 (bh_crc32c h) /\ b = image_back h gap ts.
Proof.
  intros Ha Ht Hc Heq Hv Htot. rewrite bib_image_parts, <-!app_assoc in Heq.
  apply app_inj_1 in Heq as [-> Heq]; [|done].
  apply app_inj_1 in Heq as [-> Heq]; [|done].
  apply app_inj_1 in Heq as [-> Heq]; [|done].
  rewrite le_value_bytes, Z.mod_small in Htot by apply Hv.
  pose proof (bvd_total _ _ _ Hv) as Hl.
  assert (blen (image_back h gap ts) = 40 + blen gap + blen (enc_tlvs ts))
    by (unfold image_back; rewrite !blen_app, !blen_le_bytes; lia).
  apply app_inj_1 in Heq as [-> _]; [done|]. unfold blen in *. lia.
Qed.

(** A block and a corrupted copy with the same total length that are both
    accepted have different checksums unless they are equal elsewhere. *)
Lemma accepted_crc_agree h gap ts a' c' b' tail h' gap' ts' rest :
  bib_valid h gap ts -> bib_valid h' gap' ts' ->
  length a' = 16%nat -> length c' = 4%nat -> length b' = length (image_back h gap ts) ->
  a' ++ le_bytes 4 (bh_total_length h) ++ c' ++ b' ++ tail = bib_image h' gap' ts' ++ rest ->
  le_value c' =
    bib_crc (a' ++ le_bytes 4 (bh_total_length h) ++ le_bytes 4 0 ++ b').
Proof.
  intros Hv Hv' Ha Hc Hb Heq.
  assert (blen (image_back h gap ts) = 40 + blen gap + blen (enc_tlvs ts))
    by (unfold image_back; rewrite !blen_app, !blen_le_bytes; lia).
  apply image_agree in Heq as (-> & Ht & -> & ->); try done.
  - rewrite le_value_bytes, Z.mod_small by apply Hv'. rewrite Ht. by apply image_crc.
  - rewrite le_value_bytes, Z.mod_small by apply Hv. rewrite (bvd_total _ _ _ Hv).
    unfold blen in *. lia.
Qed.

Section burst.
Context (h h' : bib_header) (gap gap' : bytes) (ts ts' : list tlv) (a xs ys b tail rest : bytes)
  (Hv : bib_valid h gap ts) (Hv' : bib_valid h' gap' ts')
  (Hl : length xs = length ys) (H4 : (length xs <= 4)%nat) (Hne : xs <> ys) (Hys : bytes_ok ys)
  (Himg : image_front h ++ le_bytes 4 (bh_total_length h) ++ le_bytes 4 (bh_crc32c h) ++
          image_back h gap ts = a ++ xs ++ b)
  (Heq : a ++ ys ++ b ++ tail = bib_image h' gap' ts' ++ rest).

Lemma stored_crc : le_value (le_bytes 4 (bh_crc32c h)) = bh_crc32c h.
Proof. rewrite le_value_bytes. apply Z.mod_small, (bvd_header _ _ _ Hv). Qed.

Lemma burst_parts_ok : bytes_ok a /\ bytes_ok xs /\ bytes_ok b.
Proof.
  destruct (image_parts_ok _ _ _ Hv) as [Hfront Hback].
  pose proof (le_bytes_ok 4 (bh_total_length h)). pose proof (le_bytes_ok 4 (bh_crc32c h)).
  assert (Hok : bytes_ok (a ++ xs ++ b)) by (rewrite <-Himg; split_app; done).
  by apply Forall_app in Hok as [? [? ?]%Forall_app].
Qed.

(** A burst before the total length. *)
Lemma burst_front : blen a + blen xs <= 16 -> False.
Proof.
  unfold blen. intros Hpos. destruct burst_parts_ok as (Ha & Hxs & Hb).
  destruct (image_parts_ok _ _ _ Hv) as [Hfront Hback].
  pose proof (le_bytes_ok 4 (bh_total_length h)) as Htotal. pose proof (le_bytes_ok 4 0) as Hz.
  pose proof Himg as Himg'. rewrite (app_assoc a xs b) in Himg'.
  apply app_eq_prefix in Himg' as (f & Hf & Hb');
    [|rewrite length_app; change (length (image_front h)) with 16%nat; lia].
  assert (Hlf : length (a ++ ys ++ f) = 16%nat)
    by (change 16%nat with (length (image_front h)); rewrite Hf, !length_app; lia).
  pose proof (accepted_crc_agree h gap ts (a ++ ys ++ f) (le_bytes 4 (bh_crc32c h))
    (image_back h gap ts) tail h' gap' ts' rest Hv Hv' Hlf eq_refl eq_refl) as Hagree.
  ospecialize (Hagree _); [by rewrite <-Heq, Hb', <-!app_assoc|].
  rewrite stored_crc, (image_crc _ _ _ Hv), Hf in Hagree. rewrite <-!app_assoc in Hagree.
  apply (checksum_burst a xs ys) in Hagree; try done.
  rewrite Hf, !Forall_app in Hfront. split_app; (done || apply Hfront).
Qed.

(** A burst after the total length leaves front and total length alone. *)
Lemma burst_past_total :
  20 <= blen a -> exists c, a = (image_front h ++ le_bytes 4 (bh_total_length h)) ++ c /\
    le_bytes 4 (bh_crc32c h) ++ image_back h gap ts = c ++ xs ++ b.
Proof.
  intros Hpos. pose proof Himg as Himg'. rewrite (app_assoc (image_front h)) in Himg'. symmetry in Himg'.
  apply app_eq_prefix with (k1 := image_front h ++ le_bytes 4 (bh_total_length h)) in Himg'
    as (c & Ha & Hc); [by exists c|].
  rewrite length_app, length_le_bytes. change (length (image_front h)) with 16%nat.
  unfold blen in Hpos. lia.
Qed.

(** A burst inside the checksum. *)
Lemma burst_checksum : 20 <= blen a -> blen a + blen xs <= 24 -> False.
Proof.
  intros Hlo Hhi. destruct (burst_past_total Hlo) as (c1 & Ha & Hc).
  pose proof (le_bytes_ok 4 (bh_crc32c h)) as Hcb. rewrite Ha in Hhi.
  unfold blen in Hhi. rewrite !length_app, length_le_bytes in Hhi.
  change (length (image_front h)) with 16%nat in Hhi.
  rewrite (app_assoc c1) in Hc.
  apply app_eq_prefix in Hc as (c2 & Hc & Hb); [|rewrite !length_app, length_le_bytes; lia].
  assert (Hlc : length (c1 ++ ys ++ c2) = 4%nat).
  { apply (f_equal length) in Hc. rewrite !length_app, length_le_bytes in Hc.
    rewrite !length_app. lia. }
  pose proof (accepted_crc_agree h gap ts (image_front h) (c1 ++ ys ++ c2) (image_back h gap ts) tail
    h' gap' ts' rest Hv Hv' eq_refl Hlc eq_refl) as Hagree.
  ospecialize (Hagree _); [by rewrite <-Heq, Ha, Hb, <-!app_assoc|].
  rewrite <-(image_crc _ _ _ Hv), <-stored_crc, Hc, <-!app_assoc in Hagree.
  rewrite Hc, <-app_assoc in Hcb. apply Forall_app in Hcb as [Hc1 [Hxs Hc2]%Forall_app].
  apply le_value_inj in Hagree; [|split_app; done..|rewrite !length_app; lia].
  apply app_inv_head, app_inv_tail in Hagree. by symmetry in Hagree.
Qed.

(** A burst after the checksum. *)
Lemma burst_back : 24 <= blen a -> False.
Proof.
  intros Hpos. destruct (burst_past_total ltac:(lia)) as (a1 & Ha & Ha1).
  destruct burst_parts_ok as (Haok & Hxs & Hb). destruct (image_parts_ok _ _ _ Hv) as [Hfront Hback].
  pose proof (le_bytes_ok 4 (bh_total_length h)) as Htotal. pose proof (le_bytes_ok 4 0) as Hz.
  rewrite Ha in Hpos. unfold blen in Hpos. rewrite !length_app, length_le_bytes in Hpos.
  change (length (image_front h)) with 16%nat in Hpos. symmetry in Ha1.
  apply app_eq_prefix in Ha1 as (a2 & Ha2 & Hb2); [|rewrite length_le_bytes; lia].
  assert (Hlb : length (a2 ++ ys ++ b) = length (image_back h gap ts))
    by (rewrite Hb2, !length_app; lia).
  pose proof (accepted_crc_agree h gap ts (image_front h) (le_bytes 4 (bh_crc32c h)) (a2 ++ ys ++ b)
    tail h' gap' ts' rest Hv Hv' eq_refl eq_refl Hlb) as Hagree.
  ospecialize (Hagree _); [by rewrite <-Heq, Ha, Ha2, <-!app_assoc|].
  rewrite stored_crc, (image_crc _ _ _ Hv), Hb2 in Hagree.
  rewrite !(app_assoc (le_bytes 4 _)), !(app_assoc (image_front h)), !(app_assoc (_ ++ _) a2) in Hagree.
  rewrite Hb2 in Hback. apply Forall_app in Hback as [? _].
  apply (checksum_burst _ xs ys) in Hagree; try done. by split_app.
Qed.
End burst.

(** C16. The reader detects every burst: take a valid block and change any run of
    at most four consecutive bytes that does not touch the total length (bytes
    16 to 19) and lies before, inside or after the checksum field; the result is
    not accepted, wherever in memory and in however long a window it is read. *)
Theorem reader_rejects_corruption v0 v m pre post tail h gap ts a xs ys b :
  bib_valid h gap ts -> bib_image h gap ts = a ++ xs ++ b ->
  length xs = length ys -> (length xs <= 4)%nat -> xs <> ys -> bytes_ok ys -> bytes_ok tail ->
  blen a + blen xs <= 16 \/ (20 <= blen a /\ blen a + blen xs <= 24) \/ 24 <= blen a ->
  m = pre ++ ((a ++ ys ++ b) ++ tail) ++ post ->
  atarix_bib_reader_open (Some v0) m (Some (blen pre)) (blen ((a ++ ys ++ b) ++ tail)) <>
    Some (ATARIX_BIB_OK, Some v).
Proof.
  intros Hv Himg Hl H4 Hne Hys Htail Hpos Hm Hopen. rewrite bib_image_parts in Himg.
  destruct (burst_parts_ok h gap ts a xs b Hv Himg) as (Ha & Hxs & Hb).
  apply (reader_open_inv v0 m pre _ post) in Hopen as (h' & gap' & ts' & rest & Heq & Hv' & _);
    [|done|split_app; done].
  rewrite <-!app_assoc in Heq. destruct Hpos as [Hpos|[[Hlo Hhi]|Hpos]].
  - by apply (burst_front h h' gap gap' ts ts' a xs ys b tail rest).
  - by apply (burst_checksum h h' gap gap' ts ts' a xs ys b tail rest).
  - by apply (burst_back h h' gap gap' ts ts' a xs ys b tail rest).
Qed.

(** ** Witnesses *)

(** A block as the platform publishes it: the two mandatory references. *)
Definition sample_records : list tlv :=
  [padded_tlv ATARIX_BIB_TLV_SERVICE_DIRECTORY_REFERENCE 1 (enc_reference 17 0x10000 0x400 1 0);
   padded_tlv ATARIX_BIB_TLV_MEMORY_MAP_REFERENCE 1 (enc_reference 18 0x20000 0x400 1 0)].

Definition sample_header : bib_header :=
  built_header (fresh_header ATARIX_BIB_FLAG_RECOVERY_BOOT 1 2 3) sample_records.

Definition sample_block : bytes := bib_image sample_header [] sample_records.

Lemma sample_records_wf : Forall tlv_wf sample_records.
Proof.
  repeat (apply Forall_cons_2; [by apply padded_tlv_wf; auto with atarix|]). constructor.
Qed.

Lemma sample_valid : bib_valid sample_header [] sample_records.
Proof.
  apply built_image_valid; try done; [apply sample_records_wf|by repeat constructor].
Qed.

Lemma sample_block_ok : bytes_ok sample_block.
Proof.
  unfold sample_block, bib_image. split_app; auto using enc_tlvs_ok, sample_records_wf with atarix.
Qed.

Lemma reader_open_accepts_iff_witness :
  atarix_bib_reader_open (Some zero_view) sample_block (Some 0) 176 =
    Some (ATARIX_BIB_OK, Some (view_header 0 sample_header)).
Proof.
  apply (reader_open_accepts_iff zero_view sample_block 0 176 sample_block);
    [apply sample_block_ok|by vm_compute|].
  exists sample_header, [], sample_records, []. rewrite app_nil_r.
  by split_and!; [|apply sample_valid|].
Defined.

Lemma reader_open_fails_closed_witness :
  exists e v, atarix_bib_reader_open (Some zero_view) (replicate 100 0) (Some 4) 96 =
    Some (e, Some v) /\ (e <> ATARIX_BIB_OK -> v = zero_view).
Proof.
  by apply (reader_open_fails_closed zero_view (replicate 100 0) 4 96);
    [apply Forall_replicate| | |].
Defined.

Lemma reader_record_spec_witness :
  atarix_bib_reader_record (Some (view_header 0 sample_header)) sample_block 1 (Some fresh_record) =
    Some (ATARIX_BIB_OK, Some (BibRecordView 2 1 136 40 56)) /\
  atarix_bib_reader_record (Some (view_header 0 sample_header)) sample_block 2 (Some fresh_record) =
    Some (ATARIX_BIB_E_TLV_BOUNDS, Some fresh_record).
Proof.
  split.
  - apply (reader_record_spec sample_block [] [] sample_header [] sample_records 1 fresh_record);
      [apply sample_valid|by rewrite app_nil_r].
  - apply (reader_record_spec sample_block [] [] sample_header [] sample_records 2 fresh_record);
      [apply sample_valid|by rewrite app_nil_r].
Defined.

Definition fresh_reference : atarix_bib_reference_view_t := BibReferenceView 0 0 0 0 0 0 0 0.

Lemma reader_find_reference_spec_witness :
  atarix_bib_reader_find_reference (Some (view_header 0 sample_header)) sample_block
    ATARIX_BIB_TLV_MEMORY_MAP_REFERENCE (Some fresh_reference) =
  Some (ATARIX_BIB_OK, Some (BibReferenceView 18 0x20000 0x400 1 0 0 176 0)).
Proof.
  apply (reader_find_reference_spec sample_block [] [] sample_header [] sample_records
    ATARIX_BIB_TLV_MEMORY_MAP_REFERENCE fresh_reference);
    [apply sample_valid|by rewrite app_nil_r].
Defined.

Lemma reader_reads_spec_witness :
  atarix_bib_reader_record (Some (view_header 0 sample_header)) sample_block 1 (Some fresh_record) =
    Some (ATARIX_BIB_OK, Some (BibRecordView 2 1 136 40 56)) /\
  atarix_bib_reader_find_reference (Some (view_header 0 sample_header)) sample_block
    ATARIX_BIB_TLV_MEMORY_MAP_REFERENCE (Some fresh_reference) =
  Some (ATARIX_BIB_OK, Some (BibReferenceView 18 0x20000 0x400 1 0 0 176 0)).
Proof.
  apply (reader_reads_spec sample_block [] [] sample_header [] sample_records 1
    ATARIX_BIB_TLV_MEMORY_MAP_REFERENCE fresh_record fresh_reference);
    [apply sample_valid|by rewrite app_nil_r].
Defined.

(** The block has been overwritten with ones since it was opened. *)
Lemma reader_memory_safe_witness :
  (exists e r, atarix_bib_reader_record (Some (view_header 0 sample_header)) (replicate 176 1) 1
      (Some fresh_record) = Some (e, Some r) /\
    (e = ATARIX_BIB_OK -> 0 + 16 <= rv_payload r /\
       rv_payload r + rv_payload_length r <= 0 + 176)) /\
  is_Some (atarix_bib_reader_find_reference (Some (view_header 0 sample_header))
    (replicate 176 1) 1 (Some fresh_reference)).
Proof.
  apply (reader_memory_safe (replicate 176 1) [] (replicate 176 1) []); try done.
  - by split; [| | |apply Forall_replicate].
Defined.

(** One corrupted byte of the boot identifier. *)
Lemma reader_rejects_corruption_witness :
  atarix_bib_reader_open (Some zero_view) (<[24%nat := 9]> sample_block) (Some 0) 176 <>
    Some (ATARIX_BIB_OK, Some (view_header 0 sample_header)).
Proof.
  apply (reader_rejects_corruption zero_view _ (<[24%nat := 9]> sample_block) [] [] []
    sample_header [] sample_records (take 24 sample_block) [1] [9] (drop 25 sample_block)).
  - apply sample_valid.
  - by vm_compute.
  - done.
  - simpl. lia.
  - done.
  - by repeat constructor.
  - done.
  - by vm_compute; right; right.
  - by vm_compute.
Defined.
