(* ===== verification/BibLayouts.v ===== *)
(** * Boot Information Block: bytes and declared structures

    [bib.h] declares the header, the record header and the fixed part of a
    reference as packed structures, and asserts their sizes and offsets; the
    builder and the reader never use those structures: they store and load bytes at
    numbers of their own. The file proves that these numbers are the offsets of the
    declared members: what the builder's functions leave in the caller's buffer, and
    what the reader's functions take from it, are the members by name. *)

From S2P Require Import Prelude Crc Layouts BibFormat BibBuilder BibReader.
From stdpp Require Import strings.
#[local] Open Scope Z_scope.

Abbreviation header_layout := atarix_bib_header_v1_layout.
Abbreviation tlv_layout := atarix_bib_tlv_header_v1_layout.
Abbreviation reference_layout := atarix_bib_reference_fixed_v1_layout.

(** ** The members, by name *)

(** A header after initialization. *)
Definition initial_members (flags boot producer created : Z) : list (string * Z) :=
  [("magic", le_value ATARIX_BIB_MAGIC); ("version_major", ATARIX_BIB_VERSION_MAJOR_V1);
   ("version_minor", ATARIX_BIB_VERSION_MINOR_V0); ("header_length", sizeof header_layout);
   ("flags", u16 flags); ("total_length", 0); ("crc32c", 0); ("boot_id", u64 boot);
   ("producer_id", u64 producer); ("created_counter", u64 created);
   ("tlv_offset", sizeof header_layout); ("tlv_count", 0); ("reserved", 0)].

(** The length of the record appended for a payload of [n] bytes. *)
Definition appended_length (n : Z) : Z := sizeof tlv_layout + n + pad_length n.

Definition appended_members (type flags n : Z) : list (string * Z) :=
  [("type", u16 type); ("flags", u16 flags); ("length", appended_length n);
   ("payload_length", n); ("reserved", 0)].

Definition reference_fields (object_id address length major minor : Z) : list (string * Z) :=
  [("object_id", u64 object_id); ("address", u64 address); ("length", u64 length);
   ("format_major", u32 major); ("format_minor", u32 minor); ("integrity_kind", 0);
   ("integrity_length", 0)].

(** What sealing sets, and the members it does not. *)
Definition sealed_members (b : atarix_bib_builder_t) (crc : Z) : list (string * Z) :=
  [("total_length", u32 (bb_length b)); ("crc32c", u32 crc);
   ("tlv_count", u32 (bb_tlv_count b))].

Definition unsealed_members : list string :=
  ["magic"; "version_major"; "version_minor"; "header_length"; "flags"; "boot_id";
   "producer_id"; "created_counter"; "tlv_offset"; "reserved"].

(** A block that was opened, and a record that was read. *)
Definition view_members (v : atarix_bib_view_t) : list (string * Z) :=
  [("magic", le_value ATARIX_BIB_MAGIC); ("version_major", ATARIX_BIB_VERSION_MAJOR_V1);
   ("header_length", sizeof header_layout); ("flags", bv_flags v);
   ("total_length", bv_total_length v); ("boot_id", bv_boot_id v);
   ("producer_id", bv_producer_id v); ("created_counter", bv_created_counter v);
   ("tlv_offset", bv_tlv_offset v); ("tlv_count", bv_tlv_count v); ("reserved", 0)].

Definition record_view_members (r : atarix_bib_record_view_t) : list (string * Z) :=
  [("type", rv_type r); ("flags", rv_flags r); ("length", rv_serialized_length r);
   ("payload_length", rv_payload_length r); ("reserved", 0)].

(** The fixed members of a reference and its integrity data in the view. *)
Definition named_reference (m : bytes) (p : Z) : option atarix_bib_reference_view_t :=
  let member := read_member atarix_bib_reference_fixed_v1_layout m p in
  object_id ← member "object_id";
  address ← member "address";
  length ← member "length";
  format_major ← member "format_major";
  format_minor ← member "format_minor";
  integrity_kind ← member "integrity_kind";
  integrity_length ← member "integrity_length";
  Some (BibReferenceView object_id address length format_major format_minor integrity_kind
          (p + sizeof atarix_bib_reference_fixed_v1_layout) integrity_length).

(** ** Loads

    The byte by byte loads of the reader are loads of a member. *)
Lemma load8_outside m p : p < 0 \/ blen m <= p -> load8 m p = None.
Proof.
  intros Hp. destruct (load8 m p) as [b|] eqn:Hb; [|done]. apply load8_Some in Hb. lia.
Qed.

Lemma load_le_cases m p k :
  bytes_ok m -> 0 < k ->
  (p < 0 \/ blen m < p + k) /\ load_le k m p = None \/
  exists pre v post, m = pre ++ le_bytes (Z.to_nat k) v ++ post /\ p = blen pre /\
    fits (8 * k) v /\ load_le k m p = Some v.
Proof.
  intros Hm Hk. destruct (decide (0 <= p /\ p + k <= blen m)) as [Hin|Hout].
  - right. destruct (load_bytes_in_range m p k) as (bs & Hbs & _); [lia..|].
    assert (load_le k m p = Some (le_value bs)) as Hl by (unfold load_le; by rewrite Hbs).
    destruct (load_le_inv _ _ _ _ Hm Hl) as (Hb & Hfit & _).
    apply load_bytes_inv in Hb as (pre & post & Heq & Hp & _).
    by exists pre, (le_value bs), post.
  - left. split; [lia|]. destruct (load_le k m p) as [v|] eqn:Hl; [|done].
    destruct (load_le_inv _ _ _ _ Hm Hl) as (Hb & _).
    apply load_bytes_inv in Hb as (pre & post & -> & -> & Hlen).
    rewrite !blen_app, blen_le_bytes in Hout. pose proof (blen_nonneg pre).
    pose proof (blen_nonneg post). lia.
Qed.

Lemma read_le16_load m p : bytes_ok m -> read_le16 m p = load_le 2 m p.
Proof.
  intros Hm. destruct (load_le_cases m p 2 Hm) as [[Hout ->]|(pre & v & post & -> & -> & Hv & ->)];
    [lia| |].
  - unfold read_le16. destruct (load8 m p) as [b|] eqn:Hb; [|done]. apply load8_Some in Hb.
    rewrite bind_some, load8_outside by lia. done.
  - rewrite <-(Z.add_0_r (blen pre)). by apply (read_le16_block pre (le_bytes 2 v)).
Qed.

Lemma read_le32_load m p : bytes_ok m -> read_le32 m p = load_le 4 m p.
Proof.
  intros Hm. destruct (load_le_cases m p 4 Hm) as [[Hout ->]|(pre & v & post & -> & -> & Hv & ->)];
    [lia| |].
  - unfold read_le32. destruct (load8 m p) as [b|] eqn:Hb; [|done]. apply load8_Some in Hb.
    rewrite bind_some, (load8_outside _ (p + 3)) by lia.
    by destruct (load8 m (p + 1)), (load8 m (p + 2)).
  - rewrite <-(Z.add_0_r (blen pre)). by apply (read_le32_block pre (le_bytes 4 v)).
Qed.

Lemma read_le64_load m p : bytes_ok m -> read_le64 m p = load_le 8 m p.
Proof.
  intros Hm. destruct (load_le_cases m p 8 Hm) as [[Hout ->]|(pre & v & post & -> & -> & Hv & ->)];
    [lia| |].
  - unfold read_le64. rewrite !read_le32_load by done.
    destruct (load_le_cases m p 4 Hm) as [[_ ->]|(pre & v & post & -> & -> & _ & ->)]; [lia|done|].
    rewrite bind_some.
    destruct (load_le_cases _ (blen pre + 4) 4 Hm) as [[_ ->]|(pre' & v' & post' & Heq & Hp & _ & _)];
      [lia|done|].
    apply (f_equal blen) in Heq. rewrite !blen_app, !blen_le_bytes in *.
    pose proof (blen_nonneg pre). pose proof (blen_nonneg post'). lia.
  - rewrite <-(Z.add_0_r (blen pre)). by apply (read_le64_block pre (le_bytes 8 v)).
Qed.

(** ** Stores *)

Lemma load_stored m p bs m' :
  store_bytes m p bs = Some m' -> load_bytes m' p (blen bs) = Some bs.
Proof. intros (pre & old & post & -> & -> & _ & ->)%store_bytes_inv. by apply load_bytes_app. Qed.

Lemma load_beside m p bs m' q n :
  store_bytes m p bs = Some m' -> q + n <= p \/ p + blen bs <= q ->
  load_bytes m' q n = load_bytes m q n.
Proof.
  intros Hs Hq. apply blen_store_bytes in Hs as Hl. unfold load_bytes. rewrite Hl.
  case_decide as Hd; [|done]. f_equal.
  apply store_bytes_inv in Hs as (pre & old & post & -> & -> & Hold & ->).
  unfold blen in *. destruct Hq as [Hq|Hq].
  - rewrite !drop_app_le, !take_app_le by (rewrite ?length_drop; lia). done.
  - rewrite !(drop_app_ge pre), !drop_app_ge by lia. by rewrite Hold.
Qed.

Lemma load_le_stored k m p v m' :
  store_bytes m p (le_bytes k v) = Some m' ->
  load_le (Z.of_nat k) m' p = Some (uint (8 * Z.of_nat k) v).
Proof.
  intros Hs%load_stored. rewrite blen_le_bytes in Hs. unfold load_le. rewrite Hs.
  cbn [fmap option_fmap option_map]. rewrite le_value_bytes. unfold uint.
  by rewrite Z.pow_mul_r by lia.
Qed.

Lemma load_le_beside k m p bs m' q :
  store_bytes m p bs = Some m' -> q + k <= p \/ p + blen bs <= q ->
  load_le k m' q = load_le k m q.
Proof. intros Hs Hq. unfold load_le. by rewrite (load_beside _ _ _ _ _ _ Hs Hq). Qed.

(** A member read by name is the load at its offset. *)
Ltac members :=
  repeat match goal with
  | |- context [read_member ?l ?m ?p ?name] =>
    let place := eval vm_compute in (offsetof l name, width_of l name) in
    match place with
    | (Some ?offset, Some ?width) =>
      change (read_member l m p name) with (load_le width m (p + offset))
    end
  end.

(** ** Reading a reference *)

(** Reading a reference: the fixed members must be in the payload, and the
    integrity data after them too. *)
Definition reference_by_name (m : bytes) (record : atarix_bib_record_view_t)
  : option (atarix_bib_error_t + atarix_bib_reference_view_t) :=
  let fixed := sizeof atarix_bib_reference_fixed_v1_layout in
  if rv_payload_length record <? fixed then Some (inl ATARIX_BIB_E_TLV_BOUNDS)
  else
    r ← named_reference m (rv_payload record);
    if rv_payload_length record - fixed <? ref_integrity_length r
    then Some (inl ATARIX_BIB_E_REFERENCE_INTEGRITY) else Some (inr r).

Lemma read_reference_by_name m record :
  bytes_ok m -> 0 <= rv_payload record -> rv_payload record + rv_payload_length record <= blen m ->
  read_reference m record = reference_by_name m record.
Proof.
  intros Hm Hp Hend. unfold read_reference, reference_by_name, named_reference.
  change (sizeof atarix_bib_reference_fixed_v1_layout) with ATARIX_BIB_REFERENCE_FIXED_SIZE_V1.
  unfold ATARIX_BIB_REFERENCE_FIXED_SIZE_V1.
  destruct (Z.ltb_spec (rv_payload_length record) 40); [done|].
  rewrite !read_le64_load, !read_le32_load by done.
  members.
  repeat match goal with
  | |- context [load_le ?k m ?q] =>
    let v := fresh "v" in let Hv := fresh "Hv" in
    destruct (load_le_in_range m q k) as [v Hv]; [lia..|]; rewrite Hv, ?bind_some; clear Hv
  end.
  cbn [ref_integrity_length]. by destruct (_ <? _).
Qed.

(** ** The checksum field *)

(** The bytes with the four from 20 on, the checksum of a block, zeroed. *)
Definition zeroed_crc (img : bytes) : bytes := take 20 img ++ replicate 4 0 ++ drop 24 img.

Lemma split_crc (img : bytes) :
  24 <= blen img -> exists a c b, img = a ++ c ++ b /\ blen a = 20 /\ blen c = 4 /\
    zeroed_crc img = a ++ replicate 4 0 ++ b.
Proof.
  intros Hl. unfold blen in Hl.
  exists (take 20 img), (take 4 (drop 20 img)), (drop 24 img). split_and!.
  - rewrite <-(take_drop 20 img) at 1. f_equal.
    rewrite <-(take_drop 4 (drop 20 img)) at 1. by rewrite drop_drop.
  - unfold blen. rewrite length_take. lia.
  - unfold blen. rewrite length_take, length_drop. lia.
  - done.
Qed.


(** A block whose checksum field holds zeros, after its checksum is stored. *)
Lemma zeroed_crc_stored m v m' :
  store_bytes m 20 (le_bytes 4 v) = Some m' -> load_bytes m 20 4 = Some (replicate 4 0) ->
  zeroed_crc m' = m.
Proof.
  intros (pre & old & post & -> & Hp & Hold & ->)%store_bytes_inv Hl.
  rewrite length_le_bytes in Hold.
  rewrite (load_bytes_app pre old post) in Hl by (unfold blen in *; lia). injection Hl as ->.
  unfold zeroed_crc, blen in *.
  assert (length pre = 20%nat) as Hpre by lia.
  rewrite take_app_length' by lia. rewrite drop_app_ge by lia.
  rewrite drop_app_length'; [done|]. rewrite length_le_bytes. lia.
Qed.

(** ** What the builder leaves in the buffer *)

(** Lists of members, one at a time. *)
Ltac each_member :=
  unfold members_at, initial_members, appended_members, reference_fields, sealed_members,
    view_members, record_view_members;
  rewrite !Forall_cons; cbn [fst snd].

(** The members of an encoded structure, for values of any size. *)
Lemma members_encoded l pre vs post p fields :
  bool_decide (layout_wf l) = true -> length l = length vs -> p = blen pre ->
  Forall (fun f => member_value l (reduced l vs) f.1 = Some f.2) fields ->
  members_at l (pre ++ encode l vs ++ post) p fields.
Proof.
  intros Hl%bool_decide_eq_true Hlen ->. by apply members_decode, decode_reduced.
Qed.

Lemma memset_room m p v n m' :
  0 <= n -> memset m p v n = Some m' -> 0 <= p /\ p + n <= blen m.
Proof.
  unfold memset, store_bytes. intros Hn. case_decide as Hd; [|done]. intros _.
  rewrite blen_replicate in Hd. lia.
Qed.

Lemma init_members b0 m capacity flags boot producer created b :
  atarix_bib_builder_init (Some b0) (Some m) capacity flags boot producer created =
    Some (ATARIX_BIB_BUILDER_OK, Some b) ->
  exists m', bb_buffer b = Some m' /\ members_at header_layout m' 0
    (initial_members flags boot producer created).
Proof.
  unfold atarix_bib_builder_init, ATARIX_BIB_HEADER_SIZE_V1.
  destruct (Z.ltb_spec capacity 64) as [|Hc]; [done|]. cbn [orb].
  destruct (UINT32_MAX <? capacity); [done|].
  destruct (negb (atarix_bib_header_flags_are_known flags)); [done|].
  destruct (init_buffer m capacity flags boot producer created) as [m'|] eqn:Hm; [|done].
  rewrite bind_some. intros [= <-]. exists m'. split; [done|].
  assert (capacity <= blen m) as Hroom.
  { unfold init_buffer in Hm. destruct (memset m 0 0 capacity) eqn:Hs; [|done].
    apply memset_room in Hs; lia. }
  rewrite init_buffer_spec in Hm by lia. apply (inj Some) in Hm as <-.
  apply (members_encoded header_layout [] [le_value ATARIX_BIB_MAGIC;
    ATARIX_BIB_VERSION_MAJOR_V1; ATARIX_BIB_VERSION_MINOR_V0; 64; flags; 0; 0; boot;
    producer; created; 64; 0; 0]); [done..|]. by repeat constructor.
Qed.

Lemma memset_split m p v n m' :
  0 <= n -> memset m p v n = Some m' ->
  exists pre old post, m = pre ++ old ++ post /\ p = blen pre /\ blen old = n.
Proof.
  intros Hn (pre & old & post & -> & -> & Hold & _)%store_bytes_inv.
  exists pre, old, post. split_and!; [done..|].
  rewrite length_replicate in Hold. unfold blen. lia.
Qed.

Lemma write_record_payload m p type flags payload n len m' :
  write_record m p type flags payload n len = Some m' ->
  exists bs, payload_bytes payload n = Some bs.
Proof.
  unfold write_record, payload_bytes. destruct (n =? 0); cbn [negb]; [by eexists|].
  destruct (memset m p 0 len) as [m1|]; [rewrite bind_some|done].
  destruct (write_le16 m1 _ _) as [m2|]; [rewrite bind_some|done].
  destruct (write_le16 m2 _ _) as [m3|]; [rewrite bind_some|done].
  destruct (write_le32 m3 _ _) as [m4|]; [rewrite bind_some|done].
  destruct (write_le32 m4 _ _) as [m5|]; [rewrite bind_some|done].
  destruct payload as [src|]; [rewrite !bind_some|done].
  destruct (load_bytes src 0 n) as [bs|]; [by exists bs|done].
Qed.

Lemma add_tlv_members b m type flags payload n b' :
  bb_buffer b = Some m -> 0 <= n ->
  atarix_bib_builder_add_tlv (Some b) type flags payload n =
    Some (ATARIX_BIB_BUILDER_OK, Some b') ->
  exists m' bs, bb_buffer b' = Some m' /\ payload_bytes payload n = Some bs /\
    members_at tlv_layout m' (bb_length b) (appended_members type flags n) /\
    load_bytes m' (bb_length b + sizeof tlv_layout) n = Some bs /\
    bb_length b' = u32 (bb_length b + appended_length n) /\
    bb_tlv_count b' = u32 (bb_tlv_count b + 1).
Proof.
  intros Hm Hn. unfold atarix_bib_builder_add_tlv. rewrite Hm.
  do 3 (case_match; [done|]). destruct (Z.ltb_spec (UINT32_MAX - ATARIX_BIB_TLV_HEADER_SIZE_V1) n)
    as [|Hmax]; [done|].
  rewrite align8_record_length by (unfold UINT32_MAX, ATARIX_BIB_TLV_HEADER_SIZE_V1 in *; lia).
  destruct (Z.ltb_spec (UINT32_MAX - 23) n) as [|Hsmall]; [done|].
  change (16 + n + pad_length n) with (appended_length n). case_match; [done|].
  destruct (write_record m _ _ _ _ _ _) as [m'|] eqn:Hw; [|done]. rewrite bind_some.
  intros [= <-]. cbn [bb_buffer bb_length bb_tlv_count].
  pose proof (pad_length_spec n) as [Hpad _].
  destruct (write_record_payload _ _ _ _ _ _ _ _ Hw) as [bs Hbs].
  assert (exists pre old post, m = pre ++ old ++ post /\ bb_length b = blen pre /\
    blen old = appended_length n) as (pre & old & post & -> & Hpre & Hold).
  { unfold write_record in Hw. destruct (memset m _ 0 _) as [m1|] eqn:Hs; [|done].
    eapply memset_split; [|exact Hs]. unfold appended_length. change (sizeof tlv_layout) with 16.
    lia. }
  pose proof (payload_bytes_length _ _ _ Hbs) as Hnl.
  assert (blen old = tlv_length (padded_tlv type flags bs)) as Hlen
    by (rewrite padded_tlv_length, Hold, <-Hnl; done).
  rewrite <-Hold, Hpre in Hw. rewrite (write_record_spec _ pre old post _ _ _ _ bs) in Hw by done.
  apply (inj Some) in Hw as <-. rewrite Hpre.
  eexists _, bs. split; [done|]. split; [done|].
  split; [|split; [|done]]; change (enc_tlv (padded_tlv type flags bs)) with
    (enc_tlv_header (padded_tlv type flags bs) ++
     bs ++ replicate (Z.to_nat (pad_length (blen bs))) 0).
  - replace (enc_tlv_header (padded_tlv type flags bs)) with
      (encode tlv_layout [type; flags; appended_length n; n; 0])
      by (rewrite <-Hold, Hlen, Hnl; reflexivity).
    rewrite <-app_assoc. apply members_encoded; [done..|]. unfold UINT32_MAX in Hsmall.
    repeat constructor; cbn; f_equal; apply uint_small; unfold fits, appended_length;
      change (sizeof tlv_layout) with 16; lia.
  - rewrite <-!app_assoc, (app_assoc pre). by apply load_bytes_app; [rewrite blen_app|].
Qed.

Lemma reference_members object_id address length major minor :
  exists m, reference_payload object_id address length major minor = Some m /\
    blen m = sizeof reference_layout /\
    members_at reference_layout m 0 (reference_fields object_id address length major minor).
Proof.
  rewrite reference_payload_spec. eexists. split; [done|]. split; [done|].
  rewrite <-(app_nil_r (enc_reference _ _ _ _ _)).
  apply (members_encoded reference_layout [] [object_id; address; length; major; minor; 0; 0]);
    [done..|]. by repeat constructor.
Qed.

(** Loads beside and of the stores before them. *)
Ltac load_after_stores :=
  repeat match goal with
  | Hs : store_bytes _ ?p (le_bytes ?k ?v) = Some ?m' |- context [load_le ?w ?m' ?q] =>
    first
    [ rewrite (load_le_beside w _ _ _ _ q Hs) by (rewrite ?blen_le_bytes; lia)
    | change w with (Z.of_nat k); replace q with p by lia;
      rewrite (load_le_stored k _ p v m' Hs) ]
  end.

Lemma seal_members b m out b' out' :
  bb_buffer b = Some m ->
  atarix_bib_builder_seal (Some b) out = Some (ATARIX_BIB_BUILDER_OK, Some b', out') ->
  exists m' crc, bb_buffer b' = Some m' /\ bb_sealed b' = 1 /\
    crc32c (zeroed_crc m') (bb_length b) = Some crc /\
    members_at header_layout m' 0 (sealed_members b crc) /\
    (forall name, name ∈ unsealed_members ->
       read_member header_layout m' 0 name = read_member header_layout m 0 name) /\
    forall q n, sizeof header_layout <= q -> load_bytes m' q n = load_bytes m q n.
Proof.
  intros Hm. unfold atarix_bib_builder_seal. rewrite Hm. case_match; [done|].
  rewrite write_le32_store. destruct (store_bytes m 16 _) as [m1|] eqn:H1; [|done].
  rewrite bind_some, write_le32_store. destruct (store_bytes m1 20 _) as [m2|] eqn:H2; [|done].
  rewrite bind_some, write_le32_store. destruct (store_bytes m2 52 _) as [m3|] eqn:H3; [|done].
  rewrite bind_some. destruct (crc32c m3 _) as [crc|] eqn:Hcrc; [|done].
  rewrite bind_some, write_le32_store. destruct (store_bytes m3 20 _) as [m4|] eqn:H4; [|done].
  rewrite bind_some. intros [= <- <-]. cbn [bb_buffer bb_sealed]. exists m4, crc.
  assert (zeroed_crc m4 = m3) as Hzero.
  { apply (zeroed_crc_stored _ _ _ H4). rewrite (load_beside _ _ _ _ _ _ H3) by (left; lia).
    by apply load_stored in H2. }
  split_and!; [done|done|by rewrite Hzero| | |].
  - each_member.
    split_and!; members; by load_after_stores.
  - intros name Hname. unfold unsealed_members in Hname.
    repeat (apply elem_of_cons in Hname as [->|Hname]; [members; by load_after_stores|]).
    by apply elem_of_nil in Hname.
  - change (sizeof header_layout) with 64. intros q n Hq.
    rewrite (load_beside _ _ _ _ q n H4), (load_beside _ _ _ _ q n H3),
      (load_beside _ _ _ _ q n H2), (load_beside _ _ _ _ q n H1)
      by (rewrite blen_le_bytes; lia). done.
Qed.

(** ** What the reader takes from the block *)

Lemma required_members m r :
  bytes_ok m -> is_required_reference (rv_type r) = true -> check_record m r = Some None ->
  exists address length,
    members_at reference_layout m (rv_payload r) [("address", address); ("length", length)] /\
    address + length <= UINT64_MAX.
Proof.
  intros Hok Hr. unfold check_record. rewrite Hr, !read_le64_load by done.
  do 2 (case_match; [done|]).
  destruct (load_le 8 m (_ + 8)) as [a|] eqn:Ha; [rewrite bind_some|done].
  destruct (load_le 8 m (_ + 16)) as [l|] eqn:Hl; [rewrite bind_some|done].
  destruct (Z.ltb_spec (UINT64_MAX - l) a); [done|]. intros _. exists a, l. split; [|lia].
  each_member. members. by split_and!.
Qed.

Lemma magic_match_load m p expected :
  0 <= p <= blen m ->
  magic_bytes_match m p expected = Some true -> load_bytes m p (blen expected) = Some expected.
Proof.
  revert p. induction expected as [|e rest IH]; intros p Hp; cbn [magic_bytes_match].
  { intros _. by apply load_bytes_0. }
  destruct (load8 m p) as [b|] eqn:Hb; [|done]. rewrite bind_some.
  destruct (Z.eqb_spec b e) as [->|]; [|done]. apply load8_Some in Hb as Hlt.
  intros Hrest%IH; [|lia]. rewrite blen_cons. change (e :: rest) with ([e] ++ rest).
  apply load_bytes_concat; [|done]. unfold load8 in Hb. rewrite decide_True in Hb by lia.
  apply list_elem_of_split_length in Hb as (pre & post & -> & Hpre).
  change (e :: post) with ([e] ++ post). apply load_bytes_app; [unfold blen; lia|done].
Qed.

(** A load of the open function, with the error its failure would be. *)
Ltac next_load v Hv :=
  match goal with
  | |- context [load_le ?k ?m ?q] =>
    destruct (load_le k m q) as [v|] eqn:Hv; [rewrite bind_some|done]
  end.

Lemma record_members m view p offset r :
  bytes_ok m -> bv_buffer view = Some p ->
  record_at_offset m view offset = Some (inr r) ->
  members_at tlv_layout m (p + offset) (record_view_members r) /\
  rv_payload r = p + offset + sizeof tlv_layout.
Proof.
  intros Hok Hp. unfold record_at_offset. rewrite Hp, bind_some.
  rewrite !read_le32_load, !read_le16_load by done. case_match; [done|].
  next_load len Hlen. next_load plen Hplen. case_match; [done|].
  next_load flags Hflags. case_match; [done|]. next_load reserved Hreserved.
  destruct (Z.eqb_spec reserved 0) as [->|]; [|done]. cbn [negb].
  next_load type Htype. intros [= <-]. split; [|done].
  each_member. members. rewrite Z.add_0_r.
  cbn [rv_type rv_flags rv_serialized_length rv_payload_length]. by split_and!.
Qed.

Lemma open_members v0 m p window v :
  bytes_ok m -> 0 <= p <= blen m ->
  atarix_bib_reader_open (Some v0) m (Some p) window = Some (ATARIX_BIB_OK, Some v) ->
  bv_buffer v = Some p /\
  (exists crc, read_member header_layout m p "crc32c" = Some crc /\
     crc32c_with_zeroed_field m p (bv_total_length v) = Some crc) /\
  members_at header_layout m p (view_members v).
Proof.
  intros Hok Hp. unfold atarix_bib_reader_open. case_match; [done|].
  cbn [atarix_bib_magic_is_valid]. destruct (magic_bytes_match m p _) as [[]|] eqn:Hmagic;
    rewrite ?bind_some; cbn [negb]; try done. apply magic_match_load in Hmagic; [|done].
  rewrite !read_le16_load, !read_le32_load, !read_le64_load by done.
  next_load major Hmajor. destruct (Z.eqb_spec major ATARIX_BIB_VERSION_MAJOR_V1) as [->|];
    [cbn [negb]|done].
  next_load hlen Hhlen. destruct (Z.eqb_spec hlen ATARIX_BIB_HEADER_SIZE_V1) as [->|];
    [cbn [negb]|done].
  next_load tot Htotal. case_match; [done|]. next_load stored Hstored.
  destruct (crc32c_with_zeroed_field m p tot) as [crc|] eqn:Hcrc; [rewrite bind_some|done].
  destruct (Z.eqb_spec stored crc) as [->|]; [cbn [negb]|done].
  next_load flags Hflags. case_match; [done|]. next_load reserved Hreserved.
  destruct (Z.eqb_spec reserved 0) as [->|]; [cbn [negb]|done].
  next_load tlvs Htlvs. next_load count Hcount. next_load boot Hboot.
  next_load producer Hproducer. next_load created Hcreated. cbv zeta. case_match; [done|].
  destruct (open_loop _ _ _ _ _ _ _) as [[e|[[off sc] mc]]|] eqn:Hloop;
    rewrite ?bind_some; [|do 2 (case_match; [done|])|done].
  { intros [= -> _]. by apply open_loop_error in Hloop. }
  intros [= <-]. split; [done|]. split; [by exists crc|].
  each_member. members.
  cbn [bv_flags bv_total_length bv_boot_id bv_producer_id bv_created_counter bv_tlv_offset
    bv_tlv_count].
  split_and!; try done. unfold load_le. rewrite Z.add_0_r.
  change 8 with (blen ATARIX_BIB_MAGIC). by rewrite Hmagic.
Qed.

(** ** Properties *)

(** C25. The byte positions used by the builder and the reader of Boot
    Information Blocks are the members of the structures [bib.h] declares, whatever
    the values are. Whenever [init] answers OK the buffer's header has, by name, the
    magic, version 1.0, the header size, also as the offset of the records, the flags
    and identifiers of the caller, and zeros elsewhere. Whenever [add_tlv] answers OK the record at the old end has its
    type, flags, padded length, payload length and a zero reserved member, the
    payload right behind it, and length and count of the builder advance. The
    payload of [add_reference] has the members of a reference. Whenever [seal]
    answers OK total length, record count and checksum are set, the checksum being
    that of the block with its own field zeroed, and no other member and no byte
    behind the header changes. Whenever [open] answers OK the view holds the named
    members, the constant ones have their values and the stored checksum is the
    computed one. A record that is read is the named members of a record header,
    with its payload behind them; a required reference that passes the scan has
    named address and length that do not overflow; and a reference is read as its
    named members wherever the payload is inside the buffer. *)
Theorem bib_code_follows_layouts :
  (forall b0 m capacity flags boot producer created b,
     atarix_bib_builder_init (Some b0) (Some m) capacity flags boot producer created =
       Some (ATARIX_BIB_BUILDER_OK, Some b) ->
     exists m', bb_buffer b = Some m' /\
       members_at header_layout m' 0 (initial_members flags boot producer created)) /\
  (forall b m type flags payload n b',
     bb_buffer b = Some m -> 0 <= n ->
     atarix_bib_builder_add_tlv (Some b) type flags payload n =
       Some (ATARIX_BIB_BUILDER_OK, Some b') ->
     exists m' bs, bb_buffer b' = Some m' /\ payload_bytes payload n = Some bs /\
       members_at tlv_layout m' (bb_length b) (appended_members type flags n) /\
       load_bytes m' (bb_length b + sizeof tlv_layout) n = Some bs /\
       bb_length b' = u32 (bb_length b + appended_length n) /\
       bb_tlv_count b' = u32 (bb_tlv_count b + 1)) /\
  (forall object_id address length major minor,
     exists m, reference_payload object_id address length major minor = Some m /\
       blen m = sizeof reference_layout /\
       members_at reference_layout m 0 (reference_fields object_id address length major minor)) /\
  (forall b m out b' out',
     bb_buffer b = Some m ->
     atarix_bib_builder_seal (Some b) out = Some (ATARIX_BIB_BUILDER_OK, Some b', out') ->
     exists m' crc, bb_buffer b' = Some m' /\ bb_sealed b' = 1 /\
       crc32c (zeroed_crc m') (bb_length b) = Some crc /\
       members_at header_layout m' 0 (sealed_members b crc) /\
       (forall name, name ∈ unsealed_members ->
          read_member header_layout m' 0 name = read_member header_layout m 0 name) /\
       forall q n, sizeof header_layout <= q -> load_bytes m' q n = load_bytes m q n) /\
  (forall v0 m p window v,
     bytes_ok m -> 0 <= p <= blen m ->
     atarix_bib_reader_open (Some v0) m (Some p) window = Some (ATARIX_BIB_OK, Some v) ->
     bv_buffer v = Some p /\
     (exists crc, read_member header_layout m p "crc32c" = Some crc /\
        crc32c_with_zeroed_field m p (bv_total_length v) = Some crc) /\
     members_at header_layout m p (view_members v)) /\
  (forall m view p offset r,
     bytes_ok m -> bv_buffer view = Some p ->
     record_at_offset m view offset = Some (inr r) ->
     members_at tlv_layout m (p + offset) (record_view_members r) /\
     rv_payload r = p + offset + sizeof tlv_layout) /\
  (forall m r,
     bytes_ok m -> is_required_reference (rv_type r) = true -> check_record m r = Some None ->
     exists address length,
       members_at reference_layout m (rv_payload r) [("address", address); ("length", length)] /\
       address + length <= UINT64_MAX) /\
  (forall m r,
     bytes_ok m -> 0 <= rv_payload r -> rv_payload r + rv_payload_length r <= blen m ->
     read_reference m r = reference_by_name m r).
Proof.
  refine (conj _ (conj _ (conj _ (conj _ (conj _ (conj _ (conj _ _))))))).
  - exact init_members.
  - exact add_tlv_members.
  - exact reference_members.
  - exact seal_members.
  - exact open_members.
  - exact record_members.
  - exact required_members.
  - exact read_reference_by_name.
Qed.

(** An open builder with 32 bytes of room, and the block of the reader's examples. *)
Definition roomy_builder : atarix_bib_builder_t :=
  BibBuilder (Some (replicate 96 7)) 96 64 0 0.

Lemma bib_code_follows_layouts_witness :
  (exists b m,
     atarix_bib_builder_init (Some roomy_builder) (Some (replicate 96 7)) 96 1 1 2 3 =
       Some (ATARIX_BIB_BUILDER_OK, Some b) /\
     bb_buffer b = Some m /\ members_at header_layout m 0 (initial_members 1 1 2 3)) /\
  (exists b m,
     atarix_bib_builder_add_tlv (Some roomy_builder) ATARIX_BIB_TLV_BOOT_ARGUMENTS 0
       (Some [1; 2; 3]) 3 = Some (ATARIX_BIB_BUILDER_OK, Some b) /\
     bb_buffer b = Some m /\
     members_at tlv_layout m 64 (appended_members ATARIX_BIB_TLV_BOOT_ARGUMENTS 0 3) /\
     load_bytes m 80 3 = Some [1; 2; 3]) /\
  (exists b m crc,
     atarix_bib_builder_seal (Some roomy_builder) None =
       Some (ATARIX_BIB_BUILDER_OK, Some b, None) /\
     bb_buffer b = Some m /\ crc32c (zeroed_crc m) 64 = Some crc /\
     members_at header_layout m 0 (sealed_members roomy_builder crc)) /\
  members_at header_layout sample_block 0 (view_members (view_header 0 sample_header)).
Proof.
  destruct bib_code_follows_layouts as (Hinit & Hadd & _ & Hseal & Hopen & _).
  refine (conj _ (conj _ (conj _ _))).
  - edestruct (Hinit roomy_builder (replicate 96 7) 96 1 1 2 3) as (m & Hm & Hmembers);
      [vm_compute; reflexivity|].
    eexists _, m. split; [vm_compute; reflexivity|]. split; [exact Hm|exact Hmembers].
  - edestruct (Hadd roomy_builder (replicate 96 7) 5 0 (Some [1; 2; 3]) 3) as (m & bs & Hm & Hbs & Hmembers & Hload & _);
      [reflexivity| |vm_compute; reflexivity|].
    { by vm_compute. }
    vm_compute in Hbs. injection Hbs as <-.
    eexists _, m. split; [vm_compute; reflexivity|]. split; [exact Hm|].
    split; [exact Hmembers|exact Hload].
  - edestruct (Hseal roomy_builder (replicate 96 7) None) as (m & crc & Hm & _ & Hcrc & Hmembers & _);
      [reflexivity|vm_compute; reflexivity|].
    eexists _, m, crc. split; [vm_compute; reflexivity|]. split; [exact Hm|].
    split; [exact Hcrc|exact Hmembers].
  - apply (Hopen zero_view sample_block 0 176).
    + apply sample_block_ok.
    + by vm_compute.
    + vm_compute. reflexivity.
Defined.
