(* ===== verification/SimBib.v ===== *)
(** * Publishing a Boot Information Block

    [include/atarix/sim_bib.h] and [src/sim/sim_bib.c], the client of the
    builder, and the end-to-end theorems that put builder and reader together:
    what one side writes is what the other side reads. *)

From S2P Require Import Prelude Crc BibFormat BibBuilder BibReader.

Definition ATARIX_SIM_BIB_CAPTURE_SIZE : Z := 176.

Record atarix_sim_bib_capture_config_t : Type := SimBibConfig {
  sbc_header_flags : Z;
  sbc_boot_id : Z;
  sbc_producer_id : Z;
  sbc_created_counter : Z;
  sbc_service_object_id : Z;
  sbc_service_address : Z;
  sbc_service_length : Z;
  sbc_memory_object_id : Z;
  sbc_memory_address : Z;
  sbc_memory_length : Z
}.

(** The builder on the stack, before it is initialized. *)
Definition fresh_builder : atarix_bib_builder_t := BibBuilder None 0 0 0 0.

(** What is behind [buffer] once the local builder has worked on it. *)
Definition buffer_of (builder : option atarix_bib_builder_t) (buffer : option bytes)
  : option bytes :=
  match builder with
  | Some b => match bb_buffer b with Some m => Some m | None => buffer end
  | None => buffer
  end.

(** Returns the result, the buffer and what is behind [serialized_length]. *)
Definition atarix_sim_bib_capture (config : option atarix_sim_bib_capture_config_t)
    (buffer : option bytes) (capacity : Z) (serialized_length : option Z)
  : option (atarix_bib_builder_result_t * option bytes * option Z) :=
  match config, buffer, serialized_length with
  | Some c, Some _, Some _ =>
    '(result, builder) ← atarix_bib_builder_init (Some fresh_builder) buffer capacity
       (sbc_header_flags c) (sbc_boot_id c) (sbc_producer_id c) (sbc_created_counter c);
    if decide (result <> ATARIX_BIB_BUILDER_OK)
    then Some (result, buffer_of builder buffer, serialized_length)
    else
      '(result, builder) ← atarix_bib_builder_add_reference builder
         ATARIX_BIB_TLV_SERVICE_DIRECTORY_REFERENCE ATARIX_BIB_TLV_FLAG_MANDATORY
         (sbc_service_object_id c) (sbc_service_address c) (sbc_service_length c) 1 0;
      if decide (result <> ATARIX_BIB_BUILDER_OK)
      then Some (result, buffer_of builder buffer, serialized_length)
      else
        '(result, builder) ← atarix_bib_builder_add_reference builder
           ATARIX_BIB_TLV_MEMORY_MAP_REFERENCE ATARIX_BIB_TLV_FLAG_MANDATORY
           (sbc_memory_object_id c) (sbc_memory_address c) (sbc_memory_length c) 1 0;
        if decide (result <> ATARIX_BIB_BUILDER_OK)
        then Some (result, buffer_of builder buffer, serialized_length)
        else
          '(result, builder, out) ← atarix_bib_builder_seal builder serialized_length;
          Some (result, buffer_of builder buffer, out)
  | _, _, _ => Some (ATARIX_BIB_BUILDER_E_ARGUMENT, buffer, serialized_length)
  end.

(** ** From requests to well-formed records *)

(** Arguments of their declared widths. *)
Definition request_fits (rq : builder_request) : Prop :=
  match rq with
  | AddTlv type flags payload _ =>
    fits 16 type /\ fits 16 flags /\
    match payload with Some src => bytes_ok src | None => True end
  | AddReference type flags _ _ _ _ _ => fits 16 type /\ fits 16 flags
  end.

Lemma payload_bytes_ok payload n bs :
  match payload with Some src => bytes_ok src | None => True end ->
  payload_bytes payload n = Some bs -> bytes_ok bs.
Proof.
  unfold payload_bytes. intros Hp. destruct (n =? 0); [intros [= <-]; constructor|].
  destruct payload as [src|]; [|done]. by apply load_bytes_ok.
Qed.

Lemma spec_add_wf capacity ts type flags bs :
  fits 16 type -> fits 16 flags -> bytes_ok bs -> Forall tlv_wf ts ->
  Forall tlv_wf (spec_add capacity ts type flags bs).2.
Proof.
  intros Ht Hf Hbs Hts. unfold spec_add.
  destruct (atarix_bib_tlv_flags_are_known flags) eqn:Hk; [|done]. cbn [negb].
  destruct (Z.ltb_spec (UINT32_MAX - 23) (blen bs)); [done|].
  destruct (_ <? _); [done|]. apply Forall_app; split; [done|].
  apply Forall_singleton. by apply padded_tlv_wf.
Qed.

Lemma spec_requests_wf capacity ts rqs :
  Forall request_fits rqs -> Forall tlv_wf ts ->
  Forall tlv_wf (spec_requests capacity ts rqs).2.
Proof.
  intros Hrqs. revert ts. induction Hrqs as [|rq rqs Hrq _ IH]; intros ts Hts; [done|].
  cbn [spec_requests].
  assert (Hw : Forall tlv_wf (spec_request capacity ts rq).2).
  { destruct rq as [type flags payload n|type flags o a l x y]; simpl.
    - destruct Hrq as (? & ? & Hp). destruct (payload_bytes payload n) eqn:Hb; [|done].
      apply spec_add_wf; try done. by eapply payload_bytes_ok.
    - destruct Hrq. apply spec_add_wf; auto with atarix. }
  destruct (spec_request _ _ _) as [r ts1]. specialize (IH ts1 Hw).
  by destruct (spec_requests _ _ _).
Qed.

(** ** The two references of a capture *)

Lemma le_at_enc_reference o a l x y :
  fits 64 o -> fits 64 a -> fits 64 l -> fits 32 x -> fits 32 y ->
  le_at 8 (enc_reference o a l x y) 0 = o /\ le_at 8 (enc_reference o a l x y) 8 = a /\
  le_at 8 (enc_reference o a l x y) 16 = l /\ le_at 4 (enc_reference o a l x y) 24 = x /\
  le_at 4 (enc_reference o a l x y) 28 = y /\ le_at 4 (enc_reference o a l x y) 32 = 0 /\
  le_at 4 (enc_reference o a l x y) 36 = 0.
Proof.
  intros. unfold le_at.
  change (take _ (drop (Z.to_nat 0) _)) with (le_bytes 8 o).
  change (take _ (drop (Z.to_nat 8) _)) with (le_bytes 8 a).
  change (take _ (drop (Z.to_nat 16) _)) with (le_bytes 8 l).
  change (take _ (drop (Z.to_nat 24) _)) with (le_bytes 4 x).
  change (take _ (drop (Z.to_nat 28) _)) with (le_bytes 4 y).
  rewrite !le_value_bytes. split_and!; try done; by apply Z.mod_small.
Qed.

Lemma reference_of_reference pre offset type flags o a l x y :
  fits 64 o -> fits 64 a -> fits 64 l -> fits 32 x -> fits 32 y ->
  reference_of pre offset (padded_tlv type flags (enc_reference o a l x y)) =
  inr (BibReferenceView o a l x y 0 (blen pre + offset + 56) 0).
Proof.
  intros. destruct (le_at_enc_reference o a l x y) as (E0 & E8 & E16 & E24 & E28 & E32 & E36);
    [done..|].
  unfold reference_of, padded_tlv. cbn [t_payload]. rewrite blen_enc_reference.
  by rewrite E0, E8, E16, E24, E28, E32, E36.
Qed.

Definition service_tlv (c : atarix_sim_bib_capture_config_t) : tlv :=
  padded_tlv ATARIX_BIB_TLV_SERVICE_DIRECTORY_REFERENCE ATARIX_BIB_TLV_FLAG_MANDATORY
    (enc_reference (sbc_service_object_id c) (sbc_service_address c) (sbc_service_length c) 1 0).

Definition memory_tlv (c : atarix_sim_bib_capture_config_t) : tlv :=
  padded_tlv ATARIX_BIB_TLV_MEMORY_MAP_REFERENCE ATARIX_BIB_TLV_FLAG_MANDATORY
    (enc_reference (sbc_memory_object_id c) (sbc_memory_address c) (sbc_memory_length c) 1 0).

Definition capture_header (c : atarix_sim_bib_capture_config_t) : bib_header :=
  fresh_header (sbc_header_flags c) (sbc_boot_id c) (sbc_producer_id c) (sbc_created_counter c).

(** A configuration with members of their widths and ranges that do not wrap. *)
Record config_ok (c : atarix_sim_bib_capture_config_t) : Prop := {
  co_flags : fits 16 (sbc_header_flags c);
  co_boot : fits 64 (sbc_boot_id c);
  co_producer : fits 64 (sbc_producer_id c);
  co_created : fits 64 (sbc_created_counter c);
  co_service_id : fits 64 (sbc_service_object_id c);
  co_service_address : 0 <= sbc_service_address c;
  co_service_length : 0 <= sbc_service_length c;
  co_service_end : sbc_service_address c + sbc_service_length c <= UINT64_MAX;
  co_memory_id : fits 64 (sbc_memory_object_id c);
  co_memory_address : 0 <= sbc_memory_address c;
  co_memory_length : 0 <= sbc_memory_length c;
  co_memory_end : sbc_memory_address c + sbc_memory_length c <= UINT64_MAX
}.

(** The record of a range that does not wrap passes the reader's checks. *)
Lemma check_reference type o a l :
  is_required_reference type = true -> fits 64 o -> 0 <= a -> 0 <= l -> a + l <= UINT64_MAX ->
  check_tlv (padded_tlv type ATARIX_BIB_TLV_FLAG_MANDATORY (enc_reference o a l 1 0)) = None.
Proof.
  intros Ht Ho Ha Hl He. unfold UINT64_MAX in He. unfold check_tlv, padded_tlv. simpl t_type.
  assert (Hk : known_type type = true).
  { unfold is_required_reference in Ht. apply orb_true_iff in Ht as [->%Z.eqb_eq| ->%Z.eqb_eq]; done. }
  rewrite Hk, Ht. cbn [negb andb t_payload]. rewrite blen_enc_reference.
  destruct (le_at_enc_reference o a l 1 0) as (_ & -> & -> & _); try done; [unfold fits; lia..|].
  change (40 <? 40) with false. cbv iota. unfold UINT64_MAX.
  by destruct (Z.ltb_spec (2 ^ 64 - 1 - l) a); [lia|].
Qed.

Lemma capture_valid c :
  config_ok c -> atarix_bib_header_flags_are_known (sbc_header_flags c) = true ->
  bib_valid (built_header (capture_header c) [service_tlv c; memory_tlv c]) []
    [service_tlv c; memory_tlv c].
Proof.
  intros [] Hk. apply built_image_valid; try done.
  - repeat apply Forall_cons_2; try constructor; by apply padded_tlv_wf; auto with atarix.
  - repeat apply Forall_cons_2; try constructor; by apply check_reference.
Qed.

Lemma spec_add_reference capacity ts type o a l :
  spec_add capacity ts type ATARIX_BIB_TLV_FLAG_MANDATORY (enc_reference o a l 1 0) =
  let t := padded_tlv type ATARIX_BIB_TLV_FLAG_MANDATORY (enc_reference o a l 1 0) in
  if capacity <? 120 + blen (enc_tlvs ts) then (ATARIX_BIB_BUILDER_E_CAPACITY, ts)
  else (ATARIX_BIB_BUILDER_OK, ts ++ [t]).
Proof.
  unfold spec_add. rewrite blen_enc_tlvs_snoc, padded_tlv_length, blen_enc_reference.
  change (negb (atarix_bib_tlv_flags_are_known ATARIX_BIB_TLV_FLAG_MANDATORY)) with false.
  change (UINT32_MAX - 23 <? 40) with false. change (16 + 40 + pad_length 40) with 56.
  by replace (64 + (blen (enc_tlvs ts) + 56)) with (120 + blen (enc_tlvs ts)) by lia.
Qed.

Lemma add_reference_repr b h ts tail type o a l :
  builder_repr b h ts tail ->
  let '(r, ts') := spec_add (bb_capacity b) ts type ATARIX_BIB_TLV_FLAG_MANDATORY
                     (enc_reference o a l 1 0) in
  exists b', atarix_bib_builder_add_reference (Some b) type ATARIX_BIB_TLV_FLAG_MANDATORY o a l 1 0 =
      Some (r, Some b') /\
    builder_repr b' h ts' tail /\ bb_capacity b' = bb_capacity b.
Proof.
  intros Hb.
  exact (serve_spec b h ts tail (AddReference type ATARIX_BIB_TLV_FLAG_MANDATORY o a l 1 0) Hb I).
Qed.

(** The buffer an open builder leaves: its tail is the caller's. *)
Lemma builder_repr_tail b h ts capacity m m' :
  builder_repr b h ts (drop (Z.to_nat capacity) m) -> bb_capacity b = capacity ->
  capacity <= blen m -> bb_buffer b = Some m' ->
  blen m' = blen m /\ drop (Z.to_nat capacity) m' = drop (Z.to_nat capacity) m.
Proof.
  intros [Hbuf Hlen Hcap _ _] <- Hm Hm'. rewrite Hbuf in Hm'. apply (inj Some) in Hm' as <-.
  set (x := enc_header h). assert (Hx : blen x = 64) by apply blen_enc_header.
  pose proof (blen_nonneg (enc_tlvs ts)). unfold blen in *. rewrite !length_app.
  rewrite length_replicate, length_drop. split; [lia|].
  rewrite (app_assoc x), (app_assoc (x ++ _)).
  apply drop_app_length'. rewrite !length_app, length_replicate. lia.
Qed.

(** The capture past its argument checks: too small a buffer leaves an open
    builder's contents, otherwise the sealed block. *)
Lemma capture_run c m capacity out :
  64 <= capacity <= UINT32_MAX -> capacity <= blen m ->
  atarix_bib_header_flags_are_known (sbc_header_flags c) = true ->
  exists b ts, builder_repr b (capture_header c) ts (drop (Z.to_nat capacity) m) /\
    bb_capacity b = capacity /\
    atarix_sim_bib_capture (Some c) (Some m) capacity (Some out) =
    if capacity <? 176 then Some (ATARIX_BIB_BUILDER_E_CAPACITY, bb_buffer b, Some out)
    else Some (ATARIX_BIB_BUILDER_OK,
      Some (built_image (capture_header c) [service_tlv c; memory_tlv c] ++
            replicate (Z.to_nat (capacity - 176)) 0 ++ drop (Z.to_nat capacity) m), Some 176).
Proof.
  intros Hc Hm Hk. unfold atarix_sim_bib_capture.
  destruct (init_spec m capacity (sbc_header_flags c) (sbc_boot_id c) (sbc_producer_id c)
    (sbc_created_counter c) fresh_builder) as (b & -> & Hbc & Hb); [done..|].
  cbn [mbind option_bind]. rewrite decide_False by (intros H; by apply H).
  pose proof (add_reference_repr b _ _ _ ATARIX_BIB_TLV_SERVICE_DIRECTORY_REFERENCE
    (sbc_service_object_id c) (sbc_service_address c) (sbc_service_length c) Hb) as H1.
  rewrite spec_add_reference, Hbc in H1. cbv zeta in H1. change (blen (enc_tlvs [])) with 0 in H1.
  destruct (Z.ltb_spec capacity (120 + 0)).
  { destruct H1 as (b1 & -> & Hb1 & Hc1). exists b1, []. split; [done|]. split; [congruence|].
    destruct (Z.ltb_spec capacity 176); [|lia]. cbn [mbind option_bind].
    rewrite decide_True by done. unfold buffer_of. by rewrite (br_buffer _ _ _ _ Hb1). }
  destruct H1 as (b1 & -> & Hb1 & Hc1).
  cbn [mbind option_bind]. rewrite decide_False by (intros H'; by apply H').
  pose proof (add_reference_repr b1 _ _ _ ATARIX_BIB_TLV_MEMORY_MAP_REFERENCE
    (sbc_memory_object_id c) (sbc_memory_address c) (sbc_memory_length c) Hb1) as H2.
  rewrite spec_add_reference, Hc1 in H2. cbv zeta in H2.
  change (blen (enc_tlvs _)) with 56 in H2. change (120 + 56) with 176 in H2.
  destruct (Z.ltb_spec capacity 176); destruct H2 as (b2 & -> & Hb2 & Hc2); exists b2; eexists;
    (split; [exact Hb2|]); (split; [congruence|]); cbn [mbind option_bind].
  - rewrite decide_True by done. unfold buffer_of. by rewrite (br_buffer _ _ _ _ Hb2).
  - rewrite decide_False by (intros H'; by apply H').
    rewrite (seal_spec _ _ _ _ (Some out) Hb2). cbn [mbind option_bind buffer_of bb_buffer].
    rewrite (br_length _ _ _ _ Hb2), Hc2. done.
Qed.

(** ** Properties *)

(** The capture answers on every branch as its configuration says: argument
    error for a capacity below 64 or above 32 bits, flags error for unknown header flags,
    capacity error below 176 bytes, and otherwise OK with 176 as the serialized
    length; the length is written only on OK, and the caller's bytes beyond the
    capacity are never changed. *)
Theorem sim_bib_capture_result c m capacity out :
  capacity <= blen m ->
  let result :=
    if (capacity <? 64) || (UINT32_MAX <? capacity) then ATARIX_BIB_BUILDER_E_ARGUMENT
    else if negb (atarix_bib_header_flags_are_known (sbc_header_flags c))
    then ATARIX_BIB_BUILDER_E_FLAGS
    else if capacity <? ATARIX_SIM_BIB_CAPTURE_SIZE then ATARIX_BIB_BUILDER_E_CAPACITY
    else ATARIX_BIB_BUILDER_OK in
  exists m', atarix_sim_bib_capture (Some c) (Some m) capacity (Some out) =
    Some (result, Some m',
          Some (if decide (result = ATARIX_BIB_BUILDER_OK) then ATARIX_SIM_BIB_CAPTURE_SIZE
                else out)) /\
    blen m' = blen m /\ drop (Z.to_nat capacity) m' = drop (Z.to_nat capacity) m.
Proof.
  intros Hm. destruct ((capacity <? 64) || (UINT32_MAX <? capacity)) eqn:Hc.
  { exists m. unfold atarix_sim_bib_capture, atarix_bib_builder_init, ATARIX_BIB_HEADER_SIZE_V1.
    by rewrite Hc. }
  destruct (atarix_bib_header_flags_are_known (sbc_header_flags c)) eqn:Hk; cycle 1.
  { exists m. unfold atarix_sim_bib_capture, atarix_bib_builder_init, ATARIX_BIB_HEADER_SIZE_V1.
    by rewrite Hc, Hk. }
  apply orb_false_iff in Hc as [Hc1%Z.ltb_ge Hc2%Z.ltb_ge].
  destruct (capture_run c m capacity out) as (b & ts & Hb & Hbc & ->); [done..|].
  unfold ATARIX_SIM_BIB_CAPTURE_SIZE. cbn [negb]. destruct (Z.ltb_spec capacity 176).
  - eexists. rewrite (br_buffer _ _ _ _ Hb). split; [by rewrite decide_False|].
    by apply (builder_repr_tail b _ _ _ _ _ Hb), (br_buffer _ _ _ _ Hb).
  - eexists. split; [by rewrite decide_True|].
    assert (Hl : blen (built_image (capture_header c) [service_tlv c; memory_tlv c]) = 176)
      by done.
    unfold blen in *. rewrite app_assoc. split.
    + rewrite !length_app, length_replicate, length_drop. lia.
    + apply drop_app_length'. rewrite length_app, length_replicate. lia.
Qed.

(** What the capture publishes, the reader finds: for a configuration whose
    ranges do not wrap and a buffer of at least 176 bytes, the captured block
    opens, the view has the configured flags and identifiers, and searching it
    for the service directory and the memory map returns the configured object,
    address and length of each. *)
Theorem sim_bib_capture_roundtrip c m capacity out v0 r0 :
  config_ok c -> atarix_bib_header_flags_are_known (sbc_header_flags c) = true ->
  ATARIX_SIM_BIB_CAPTURE_SIZE <= capacity <= UINT32_MAX -> capacity <= blen m -> bytes_ok m ->
  exists m' v,
    atarix_sim_bib_capture (Some c) (Some m) capacity (Some out) =
      Some (ATARIX_BIB_BUILDER_OK, Some m', Some ATARIX_SIM_BIB_CAPTURE_SIZE) /\
    atarix_bib_reader_open (Some v0) m' (Some 0) capacity = Some (ATARIX_BIB_OK, Some v) /\
    bv_flags v = sbc_header_flags c /\ bv_boot_id v = sbc_boot_id c /\
    bv_producer_id v = sbc_producer_id c /\ bv_created_counter v = sbc_created_counter c /\
    bv_tlv_count v = 2 /\
    atarix_bib_reader_find_reference (Some v) m' ATARIX_BIB_TLV_SERVICE_DIRECTORY_REFERENCE (Some r0) =
      Some (ATARIX_BIB_OK, Some (BibReferenceView (sbc_service_object_id c)
        (sbc_service_address c) (sbc_service_length c) 1 0 0 120 0)) /\
    atarix_bib_reader_find_reference (Some v) m' ATARIX_BIB_TLV_MEMORY_MAP_REFERENCE (Some r0) =
      Some (ATARIX_BIB_OK, Some (BibReferenceView (sbc_memory_object_id c)
        (sbc_memory_address c) (sbc_memory_length c) 1 0 0 176 0)).
Proof.
  unfold ATARIX_SIM_BIB_CAPTURE_SIZE. intros Hok Hk Hc Hm Hbytes.
  pose proof (capture_valid c Hok Hk) as Hvalid.
  destruct (capture_run c m capacity out) as (b & ts & _ & _ & ->); [lia|done|done|].
  destruct (Z.ltb_spec capacity 176); [lia|].
  set (h := built_header (capture_header c) [service_tlv c; memory_tlv c]) in *.
  set (zeros := replicate (Z.to_nat (capacity - 176)) 0).
  set (tail := drop (Z.to_nat capacity) m).
  do 2 eexists. split; [done|]. split.
  { pose proof (reader_open_valid v0 (built_image (capture_header c) [service_tlv c; memory_tlv c] ++ zeros ++ tail)
      [] h [] [service_tlv c; memory_tlv c] zeros Hvalid) as Ho.
    replace capacity with (blen (bib_image h [] [service_tlv c; memory_tlv c] ++ zeros)) at 1.
    - apply Ho with (post := tail); [apply Forall_replicate; done|].
      cbn [app]. by rewrite <-app_assoc.
    - rewrite blen_app. unfold zeros. rewrite blen_replicate.
      change (blen (bib_image _ _ _)) with 176. lia. }
  do 5 (split; [done|]).
  rewrite !(find_reference_valid _ [] (zeros ++ tail) h [] [service_tlv c; memory_tlv c]) by done.
  destruct Hok. unfold UINT64_MAX in *. split.
  - change (find_spec [] h _ _) with (reference_of [] (record_start h [service_tlv c; memory_tlv c] 0)
      (service_tlv c)).
    unfold service_tlv at 2. by rewrite reference_of_reference by (done || unfold fits; lia).
  - change (find_spec [] h _ _) with (reference_of [] (record_start h [service_tlv c; memory_tlv c] 1)
      (memory_tlv c)).
    unfold memory_tlv at 2. by rewrite reference_of_reference by (done || unfold fits; lia).
Qed.

Definition sample_config : atarix_sim_bib_capture_config_t :=
  SimBibConfig ATARIX_BIB_FLAG_DIAGNOSTIC_BOOT 1 2 3 17 0x10000 0x400 18 0x20000 0x800.

Lemma sim_bib_capture_result_witness :
  exists m', atarix_sim_bib_capture (Some sample_config) (Some (replicate 130 7)) 128 (Some 5) =
    Some (ATARIX_BIB_BUILDER_E_CAPACITY, Some m', Some 5) /\
    blen m' = 130 /\ drop 128 m' = [7; 7].
Proof. by apply (sim_bib_capture_result sample_config (replicate 130 7) 128 5). Defined.

Lemma sim_bib_capture_roundtrip_witness :
  exists m' v,
    atarix_sim_bib_capture (Some sample_config) (Some (replicate 256 7)) 200 (Some 0) =
      Some (ATARIX_BIB_BUILDER_OK, Some m', Some 176) /\
    atarix_bib_reader_open (Some zero_view) m' (Some 0) 200 = Some (ATARIX_BIB_OK, Some v).
Proof.
  destruct (sim_bib_capture_roundtrip sample_config (replicate 256 7) 200 0 zero_view
    fresh_reference) as (m' & v & Hc & Ho & _).
  - by split.
  - done.
  - by unfold ATARIX_SIM_BIB_CAPTURE_SIZE, UINT32_MAX.
  - done.
  - by apply Forall_replicate.
  - exists m', v. split; [exact Hc|exact Ho].
Defined.

(** What a complete session leaves in its buffer. *)
Lemma session_sealed m capacity flags boot producer created rqs b rs b' b'' len m' :
  64 <= capacity <= UINT32_MAX -> capacity <= blen m ->
  atarix_bib_header_flags_are_known flags = true -> Forall request_ok rqs ->
  atarix_bib_builder_init (Some fresh_builder) (Some m) capacity flags boot producer created =
    Some (ATARIX_BIB_BUILDER_OK, Some b) ->
  serve_all b rqs = Some (rs, b') ->
  atarix_bib_builder_seal (Some b') (Some 0) = Some (ATARIX_BIB_BUILDER_OK, Some b'', Some len) ->
  bb_buffer b'' = Some m' ->
  let ts := (spec_requests capacity [] rqs).2 in
  len = 64 + blen (enc_tlvs ts) /\
  exists rest, m' = built_image (fresh_header flags boot producer created) ts ++ rest.
Proof.
  intros Hc Hm Hk Hrq Hinit Hserve Hseal Hbuf.
  destruct (init_spec m capacity flags boot producer created fresh_builder)
    as (b0 & Hi & Hbc & Hr); [done..|].
  rewrite Hi in Hinit. injection Hinit as <-.
  pose proof (serve_all_spec b0 _ _ _ rqs Hr Hrq) as H. rewrite Hbc in H.
  destruct (spec_requests capacity [] rqs) as [rs' ts]. cbn [snd].
  destruct H as (b1 & Hs1 & Hr1 & Hc1). rewrite Hs1 in Hserve. injection Hserve as <- <-.
  rewrite (seal_spec _ _ _ _ (Some 0) Hr1) in Hseal.
  cbn [fmap option_fmap option_map const] in Hseal. apply (inj Some) in Hseal.
  set (image := built_image _ _) in *. set (rest := replicate _ 0 ++ _) in *.
  assert (b'' = BibBuilder (Some (image ++ rest)) (bb_capacity b1) (bb_length b1)
    (bb_tlv_count b1) 1 /\ len = 64 + blen (enc_tlvs ts)) as [-> ->] by (split; congruence).
  cbn [bb_buffer] in Hbuf. apply (inj Some) in Hbuf. split; [done|]. by exists rest.
Qed.

Lemma record_payload_bytes m pre post h gap ts i t :
  m = pre ++ bib_image h gap ts ++ post -> bib_valid h gap ts -> ts !! i = Some t ->
  load_bytes m (blen pre + record_start h ts i + 16) (blen (t_payload t)) = Some (t_payload t).
Proof.
  intros -> Hv Ht.
  replace (pre ++ bib_image h gap ts ++ post) with
    ((pre ++ (enc_header h ++ gap) ++ enc_tlvs (take i ts) ++ enc_tlv_header t) ++
     t_payload t ++ t_padding t ++ enc_tlvs (drop (S i) ts) ++ post).
  - apply load_bytes_app; [|done]. rewrite !blen_app, blen_enc_header, blen_enc_tlv_header.
    unfold record_start. rewrite (bvd_offset _ _ _ Hv). lia.
  - unfold bib_image. rewrite <-(take_drop_middle ts i t Ht) at 3.
    rewrite enc_tlvs_app, enc_tlvs_cons. unfold enc_tlv. by rewrite <-!app_assoc.
Qed.

(** C2. Whatever a builder session appended, the reader reads back: seal a
    session whose accepted records satisfy the reader's checks, contain one
    service directory and one memory map reference and fit 64 KiB; then the
    sealed bytes open, the view has the session's header values, and record [i]
    has the type, flags and payload of the [i]-th accepted request. *)
Theorem builder_reader_roundtrip m capacity flags boot producer created rqs b rs b' b'' len m' v0 r0 :
  64 <= capacity <= UINT32_MAX -> capacity <= blen m ->
  fits 16 flags -> fits 64 boot -> fits 64 producer -> fits 64 created ->
  atarix_bib_header_flags_are_known flags = true ->
  Forall request_ok rqs -> Forall request_fits rqs ->
  let ts := (spec_requests capacity [] rqs).2 in
  Forall (fun t => check_tlv t = None) ts ->
  count_type ATARIX_BIB_TLV_SERVICE_DIRECTORY_REFERENCE ts = 1 ->
  count_type ATARIX_BIB_TLV_MEMORY_MAP_REFERENCE ts = 1 ->
  64 + blen (enc_tlvs ts) <= ATARIX_BIB_RECOMMENDED_MAX_SIZE_V1 ->
  atarix_bib_builder_init (Some fresh_builder) (Some m) capacity flags boot producer created =
    Some (ATARIX_BIB_BUILDER_OK, Some b) ->
  serve_all b rqs = Some (rs, b') ->
  atarix_bib_builder_seal (Some b') (Some 0) = Some (ATARIX_BIB_BUILDER_OK, Some b'', Some len) ->
  bb_buffer b'' = Some m' ->
  exists v, atarix_bib_reader_open (Some v0) m' (Some 0) len = Some (ATARIX_BIB_OK, Some v) /\
    bv_flags v = flags /\ bv_boot_id v = boot /\ bv_producer_id v = producer /\
    bv_created_counter v = created /\ bv_tlv_count v = Z.of_nat (length ts) /\
    forall i t, ts !! i = Some t ->
      exists r, atarix_bib_reader_record (Some v) m' (Z.of_nat i) (Some r0) =
          Some (ATARIX_BIB_OK, Some r) /\
        rv_type r = t_type t /\ rv_flags r = t_flags t /\
        load_bytes m' (rv_payload r) (rv_payload_length r) = Some (t_payload t).
Proof.
  intros Hc Hm Hf Hb Hp Hcr Hk Hrq Hrf ts Hck Hs Hmm Hmax Hinit Hserve Hseal Hbuf.
  assert (Hwf : Forall tlv_wf ts) by (apply spec_requests_wf; [done|constructor]).
  pose proof (built_image_valid flags boot producer created ts Hf Hb Hp Hcr Hk Hwf Hck Hs Hmm Hmax)
    as Hvalid.
  destruct (session_sealed m capacity flags boot producer created rqs b rs b' b'' len m')
    as (-> & rest & ->); [done..|]. fold ts.
  set (h := built_header (fresh_header flags boot producer created) ts) in *.
  exists (view_header 0 h). split.
  { rewrite <-(blen_built_image (fresh_header flags boot producer created) ts).
    rewrite <-(app_nil_r (built_image _ ts)) at 2.
    apply (reader_open_valid v0 _ [] h [] ts [] Hvalid) with (post := rest); [constructor|].
    by rewrite app_nil_r. }
  do 5 (split; [done|]). intros i t Ht. eexists. split.
  { by apply (reader_record_valid _ [] rest h [] ts). }
  split; [done|]. split; [done|].
  by apply (record_payload_bytes _ [] rest h [] ts).
Qed.

Lemma builder_reader_roundtrip_witness :
  exists b rs b' b'' len m' v,
    atarix_bib_builder_init (Some fresh_builder) (Some (replicate 200 7)) 192
      ATARIX_BIB_FLAG_RECOVERY_BOOT 1 2 3 = Some (ATARIX_BIB_BUILDER_OK, Some b) /\
    serve_all b sample_requests = Some (rs, b') /\
    atarix_bib_builder_seal (Some b') (Some 0) =
      Some (ATARIX_BIB_BUILDER_OK, Some b'', Some len) /\
    bb_buffer b'' = Some m' /\
    atarix_bib_reader_open (Some zero_view) m' (Some 0) len = Some (ATARIX_BIB_OK, Some v).
Proof.
  assert (Hrq : Forall request_ok sample_requests) by (by repeat constructor).
  destruct (init_spec (replicate 200 7) 192 ATARIX_BIB_FLAG_RECOVERY_BOOT 1 2 3 fresh_builder)
    as (b & Hi & Hbc & Hr); [by unfold UINT32_MAX|done|done|].
  pose proof (serve_all_spec b _ _ _ sample_requests Hr Hrq) as H. rewrite Hbc in H.
  destruct H as (b' & Hs & Hr' & Hc').
  pose proof (seal_spec b' _ _ _ (Some 0) Hr') as Hseal.
  cbn [fmap option_fmap option_map const] in Hseal.
  assert (Hck : Forall (fun t => check_tlv t = None) (spec_requests 192 [] sample_requests).2)
    by (by repeat constructor).
  assert (Hrf : Forall request_fits sample_requests) by (by repeat constructor).
  destruct (builder_reader_roundtrip (replicate 200 7) 192
    ATARIX_BIB_FLAG_RECOVERY_BOOT 1 2 3 sample_requests b _ b' _ _ _
    zero_view fresh_record ltac:(by unfold UINT32_MAX) ltac:(done) ltac:(done) ltac:(done)
    ltac:(done) ltac:(done) ltac:(done) Hrq Hrf Hck ltac:(by vm_compute)
    ltac:(by vm_compute) ltac:(by vm_compute) Hi Hs Hseal eq_refl) as (v & Ho & _).
  do 7 eexists. split; [exact Hi|]. split; [exact Hs|]. split; [exact Hseal|].
  split; [reflexivity|exact Ho].
Defined.
