(* ===== verification/BibDump.v ===== *)
(** * The Boot Information Block printer

    [tools/bibdump/bibdump.c]: what [atarix-bibdump] prints for a buffer. One
    constructor of [output] is one [printf] or [fprintf], applied to the values
    it prints; their text, and [main] and [read_file], are in BibDumpTool. The
    buffer starts at offset 0 of the memory. *)

From S2P Require Import Prelude Crc BibFormat BibBuilder BibReader.
From stdpp Require Import strings.
#[local] Open Scope Z_scope.

Definition error_name (error : atarix_bib_error_t) : string :=
  match error with
  | ATARIX_BIB_OK => "ok"
  | ATARIX_BIB_E_WINDOW => "invalid-window"
  | ATARIX_BIB_E_MAGIC => "invalid-magic"
  | ATARIX_BIB_E_VERSION => "unsupported-version"
  | ATARIX_BIB_E_HEADER_LENGTH => "invalid-header-length"
  | ATARIX_BIB_E_TOTAL_LENGTH => "invalid-total-length"
  | ATARIX_BIB_E_CRC => "crc-mismatch"
  | ATARIX_BIB_E_HEADER_RESERVED => "invalid-header-reserved"
  | ATARIX_BIB_E_TLV_BOUNDS => "invalid-tlv-bounds"
  | ATARIX_BIB_E_TLV_RESERVED => "invalid-tlv-reserved"
  | ATARIX_BIB_E_UNKNOWN_MANDATORY => "unknown-mandatory-record"
  | ATARIX_BIB_E_REQUIRED_RECORD => "required-record-error"
  | ATARIX_BIB_E_REFERENCE_OVERFLOW => "reference-overflow"
  | ATARIX_BIB_E_REFERENCE_AUTHORITY => "reference-authority-error"
  | ATARIX_BIB_E_REFERENCE_INTEGRITY => "reference-integrity-error"
  end.

Definition type_name (type : Z) : string :=
  if type =? ATARIX_BIB_TLV_RESERVED then "reserved"
  else if type =? ATARIX_BIB_TLV_SERVICE_DIRECTORY_REFERENCE then "service-directory-reference"
  else if type =? ATARIX_BIB_TLV_MEMORY_MAP_REFERENCE then "memory-map-reference"
  else if type =? ATARIX_BIB_TLV_BOOT_DEVICE_IDENTITY then "boot-device-identity"
  else if type =? ATARIX_BIB_TLV_BOOT_IMAGE_IDENTITY then "boot-image-identity"
  else if type =? ATARIX_BIB_TLV_BOOT_ARGUMENTS then "boot-arguments"
  else if type =? ATARIX_BIB_TLV_CONSOLE_SERVICE_IDENTITY then "console-service-identity"
  else if type =? ATARIX_BIB_TLV_SUPERVISOR_SERVICE_IDENTITY then "supervisor-service-identity"
  else if type =? ATARIX_BIB_TLV_AUDIT_LOG_REFERENCE then "audit-log-reference"
  else if type =? ATARIX_BIB_TLV_FIRMWARE_BUILD_IDENTITY then "firmware-build-identity"
  else if type =? ATARIX_BIB_TLV_ENTROPY_SEED_REFERENCE then "entropy-seed-reference"
  else if atarix_bib_tlv_type_is_experimental type then "experimental" else "unknown".

Definition is_reference_type (type : Z) : bool :=
  (type =? ATARIX_BIB_TLV_SERVICE_DIRECTORY_REFERENCE) ||
  (type =? ATARIX_BIB_TLV_MEMORY_MAP_REFERENCE) ||
  (type =? ATARIX_BIB_TLV_AUDIT_LOG_REFERENCE) ||
  (type =? ATARIX_BIB_TLV_ENTROPY_SEED_REFERENCE).

(** What is printed, in the order of the code: on stdout, and on stderr. *)
Inductive output : Type :=
| OutFormat
| OutVersion
| OutTotalLength (total_length : Z)
| OutHeaderFlags (flags : Z) (names : list string)
| OutBootId (boot_id : Z)
| OutProducerId (producer_id : Z)
| OutCreatedCounter (created_counter : Z)
| OutRecordCount (tlv_count : Z)
| OutType (index type : Z) (name : string)
| OutFlags (index flags : Z) (mandatory sensitive : bool)
| OutPayloadLength (index payload_length : Z)
| OutObjectId (index object_id : Z)
| OutAddress (index address : Z)
| OutLength (index length : Z)
| OutFormatVersion (index format_major format_minor : Z)
| OutIntegrityKind (index integrity_kind : Z)
| OutIntegrityLength (index integrity_length : Z)
| OutRedacted (index : Z)
| OutOpaque (index : Z)
| ErrInvalid (name : string) (error : atarix_bib_error_t)
| ErrRecord (index : Z) (name : string)
| ErrReference (index : Z) (name : string).

Definition print_header_flags (flags : Z) : output :=
  OutHeaderFlags flags
    ((if flags =? 0 then ["none"%string] else []) ++
     (if flag_set flags ATARIX_BIB_FLAG_RECOVERY_BOOT then ["recovery"%string] else []) ++
     (if flag_set flags ATARIX_BIB_FLAG_DEGRADED_BOOT then ["degraded"%string] else []) ++
     (if flag_set flags ATARIX_BIB_FLAG_SECURE_POLICY_ACTIVE then ["secure-policy"%string] else []) ++
     (if flag_set flags ATARIX_BIB_FLAG_DIAGNOSTIC_BOOT then ["diagnostic"%string] else [])).

(** The variables of the loop body before they are written. *)
Definition blank_reference : atarix_bib_reference_view_t := BibReferenceView 0 0 0 0 0 0 0 0.

(** The body of the loop: what it prints, and whether it returns 2. *)
Definition dump_record (m : bytes) (view : atarix_bib_view_t) (index : Z)
  : option (bool * list output) :=
  '(error, slot) ← atarix_bib_reader_record (Some view) m index (Some fresh_record);
  record ← slot;
  if decide (error <> ATARIX_BIB_OK) then Some (true, [ErrRecord index (error_name error)])
  else
    let sensitive := flag_set (rv_flags record) ATARIX_BIB_TLV_FLAG_SENSITIVE in
    let head :=
      [OutType index (rv_type record) (type_name (rv_type record));
       OutFlags index (rv_flags record)
         (flag_set (rv_flags record) ATARIX_BIB_TLV_FLAG_MANDATORY) sensitive;
       OutPayloadLength index (rv_payload_length record)] in
    if is_reference_type (rv_type record) then
      '(error, slot) ← atarix_bib_reader_find_reference (Some view) m (rv_type record)
                         (Some blank_reference);
      reference ← slot;
      if decide (error <> ATARIX_BIB_OK)
      then Some (true, head ++ [ErrReference index (error_name error)])
      else Some (false, head ++
        [OutObjectId index (ref_object_id reference);
         OutAddress index (ref_address reference);
         OutLength index (ref_length reference);
         OutFormatVersion index (ref_format_major reference) (ref_format_minor reference);
         OutIntegrityKind index (ref_integrity_kind reference);
         OutIntegrityLength index (ref_integrity_length reference)])
    else if sensitive then Some (false, head ++ [OutRedacted index])
    else Some (false, head ++ [OutOpaque index]).

Fixpoint dump_loop (fuel : nat) (m : bytes) (view : atarix_bib_view_t) (index : Z)
  : option (Z * list output) :=
  if index <? bv_tlv_count view then
    match fuel with
    | O => None
    | S fuel' =>
      '(stop, out) ← dump_record m view index;
      if (stop : bool) then Some (2, out)
      else
        '(result, rest) ← dump_loop fuel' m view (u32 (index + 1));
        Some (result, out ++ rest)
    end
  else Some (0, []).

(** The result and what was printed; the view is a local variable of any contents. *)
Definition dump_bib (m : bytes) (length : Z) : option (Z * list output) :=
  '(error, slot) ← atarix_bib_reader_open (Some zero_view) m (Some 0) length;
  view ← slot;
  if decide (error <> ATARIX_BIB_OK) then Some (2, [ErrInvalid (error_name error) error])
  else
    '(result, out) ← dump_loop (record_fuel view) m view 0;
    Some (result,
      [OutFormat; OutVersion; OutTotalLength (bv_total_length view);
       print_header_flags (bv_flags view); OutBootId (bv_boot_id view);
       OutProducerId (bv_producer_id view); OutCreatedCounter (bv_created_counter view);
       OutRecordCount (bv_tlv_count view)] ++ out).

(** ** What is printed for a valid block *)

Definition header_output (h : bib_header) : list output :=
  [OutFormat; OutVersion; OutTotalLength (bh_total_length h); print_header_flags (bh_flags h);
   OutBootId (bh_boot_id h); OutProducerId (bh_producer_id h);
   OutCreatedCounter (bh_created_counter h); OutRecordCount (bh_tlv_count h)].

Definition record_head (index : Z) (t : tlv) : list output :=
  [OutType index (t_type t) (type_name (t_type t));
   OutFlags index (t_flags t) (flag_set (t_flags t) ATARIX_BIB_TLV_FLAG_MANDATORY)
     (flag_set (t_flags t) ATARIX_BIB_TLV_FLAG_SENSITIVE);
   OutPayloadLength index (blen (t_payload t))].

Definition reference_lines (index : Z) (r : atarix_bib_reference_view_t) : list output :=
  [OutObjectId index (ref_object_id r); OutAddress index (ref_address r);
   OutLength index (ref_length r); OutFormatVersion index (ref_format_major r) (ref_format_minor r);
   OutIntegrityKind index (ref_integrity_kind r);
   OutIntegrityLength index (ref_integrity_length r)].

(** Of a record of a reference type, the reference of the first record of that
    type is printed; of any other, that it is there. *)
Definition record_output (h : bib_header) (ts : list tlv) (index : Z) (t : tlv)
  : bool * list output :=
  if is_reference_type (t_type t) then
    match find_spec [] h ts (t_type t) with
    | inl e => (true, record_head index t ++ [ErrReference index (error_name e)])
    | inr r => (false, record_head index t ++ reference_lines index r)
    end
  else
    (false, record_head index t ++
       [if flag_set (t_flags t) ATARIX_BIB_TLV_FLAG_SENSITIVE
        then OutRedacted index else OutOpaque index]).

Fixpoint records_output (h : bib_header) (ts : list tlv) (index : nat) (l : list tlv)
  : Z * list output :=
  match l with
  | [] => (0, [])
  | t :: l' =>
    let '(stop, out) := record_output h ts (Z.of_nat index) t in
    if (stop : bool) then (2, out)
    else let '(result, rest) := records_output h ts (S index) l' in (result, out ++ rest)
  end.

Definition block_output (h : bib_header) (ts : list tlv) : Z * list output :=
  let '(result, out) := records_output h ts 0 ts in (result, header_output h ++ out).

Section valid.
Context (m post : bytes) (h : bib_header) (gap : bytes) (ts : list tlv)
  (Hvalid : bib_valid h gap ts) (Hm : m = bib_image h gap ts ++ post).

Lemma find_spec_error type e : find_spec [] h ts type = inl e -> e <> ATARIX_BIB_OK.
Proof.
  unfold find_spec, reference_of. destruct (list_find _ _) as [[i t]|]; [|by intros [= <-]].
  destruct (_ <? _); [by intros [= <-]|]. destruct (_ <? _); [by intros [= <-]|done].
Qed.

Lemma dump_record_valid i t :
  ts !! i = Some t ->
  dump_record m (view_header 0 h) (Z.of_nat i) = Some (record_output h ts (Z.of_nat i) t).
Proof.
  intros Ht. unfold dump_record, record_output.
  pose proof (reader_record_valid m [] post h gap ts Hm Hvalid i t fresh_record Ht) as Hr.
  change (blen []) with 0 in Hr. rewrite Hr, bind_some. rewrite bind_some.
  rewrite decide_False by (intros Hn; by apply Hn). cbn [view_record rv_type rv_flags rv_payload_length].
  destruct (is_reference_type _).
  - pose proof (find_reference_valid m [] post h gap ts Hm Hvalid (t_type t) blank_reference) as Hf.
    change (blen []) with 0 in Hf. rewrite Hf, bind_some. clear Hf.
    destruct (find_spec [] h ts (t_type t)) as [e|r] eqn:Hspec; rewrite bind_some.
    + apply find_spec_error in Hspec. by rewrite decide_True.
    + rewrite decide_False by (intros Hn; by apply Hn). reflexivity.
  - unfold record_head. by destruct (flag_set (t_flags t) ATARIX_BIB_TLV_FLAG_SENSITIVE).
Qed.

Lemma dump_loop_valid fuel i :
  (i <= length ts < i + fuel)%nat ->
  dump_loop fuel m (view_header 0 h) (Z.of_nat i) =
  Some (records_output h ts i (drop i ts)).
Proof.
  pose proof (bvd_count _ _ _ Hvalid) as Hcount.
  pose proof (hw_count _ (bvd_header _ _ _ Hvalid)) as Hfit.
  revert i. induction fuel as [|fuel IH]; intros i Hi; [lia|].
  cbn [dump_loop]. cbn [view_header bv_tlv_count].
  destruct (Z.ltb_spec (Z.of_nat i) (bh_tlv_count h)); [|by rewrite drop_ge by lia].
  destruct (lookup_lt_is_Some_2 ts i) as [t Ht]; [lia|].
  pose proof (dump_record_valid i t Ht) as Hr. cbn [view_header] in Hr, IH.
  rewrite Hr, bind_some, (drop_S _ _ _ Ht). cbn [records_output].
  destruct (record_output _ _ _ _) as [[] out]; [done|].
  unfold fits in Hfit. rewrite uint_small by (unfold fits; lia).
  replace (Z.of_nat i + 1) with (Z.of_nat (S i)) by lia.
  rewrite IH, bind_some by lia. by destruct (records_output _ _ _ _).
Qed.
End valid.

Lemma dump_valid m h gap ts rest post :
  bib_valid h gap ts -> bytes_ok rest -> m = (bib_image h gap ts ++ rest) ++ post ->
  dump_bib m (blen (bib_image h gap ts ++ rest)) = Some (block_output h ts).
Proof.
  intros Hv Hrest Hm. unfold dump_bib.
  pose proof (reader_open_valid zero_view m [] h gap ts rest Hv Hrest post Hm) as Hopen.
  change (blen []) with 0 in Hopen. rewrite Hopen, bind_some, bind_some.
  rewrite decide_False by (intros Hn; by apply Hn).
  pose proof (bvd_total _ _ _ Hv). pose proof (blen_enc_tlvs_count ts).
  pose proof (blen_nonneg gap).
  pose proof (dump_loop_valid m (rest ++ post) h gap ts Hv) as Hloop.
  ospecialize (Hloop _ (record_fuel (view_header 0 h)) 0%nat _).
  - by rewrite Hm, <-app_assoc.
  - unfold record_fuel. cbn [view_header bv_total_length]. lia.
  - change (Z.of_nat 0) with 0 in Hloop. rewrite Hloop, bind_some, drop_0.
    unfold block_output. by destruct (records_output _ _ _ _).
Qed.

(** Any buffer holds a valid block, or is refused by the reader. *)
Lemma dump_any m length :
  bytes_ok m -> 0 <= length <= blen m ->
  (exists h gap ts rest post, m = (bib_image h gap ts ++ rest) ++ post /\
     length = blen (bib_image h gap ts ++ rest) /\ bib_valid h gap ts /\
     dump_bib m length = Some (block_output h ts)) \/
  (exists e, e <> ATARIX_BIB_OK /\ dump_bib m length = Some (2, [ErrInvalid (error_name e) e])).
Proof.
  intros Hok Hl.
  destruct (load_bytes_in_range m 0 length) as (win & Hwin & _); [lia..|].
  pose proof (load_bytes_ok _ _ _ _ Hok Hwin) as Hwok.
  apply load_bytes_inv in Hwin as (pre & post & Hm & Hpre & ->).
  destruct pre; [|unfold blen in Hpre; cbn [List.length] in Hpre; lia]. clear Hpre.
  destruct (Z.ltb_spec (blen win) 64) as [Hs|Hs].
  { right. exists ATARIX_BIB_E_WINDOW. split; [done|].
    unfold dump_bib, atarix_bib_reader_open, ATARIX_BIB_HEADER_SIZE_V1.
    apply Z.ltb_lt in Hs as ->. done. }
  destruct (reader_open_total zero_view m [] win post) as (e & v & Hopen & _); [done..|].
  change (blen []) with 0 in Hopen.
  destruct (decide (e = ATARIX_BIB_OK)) as [->|Hne].
  - left. destruct (reader_open_inv zero_view m [] win post v Hm Hwok Hopen)
      as (h & gap & ts & rest & -> & Hv & _).
    exists h, gap, ts, rest, post. split_and!; try done.
    apply (dump_valid m h gap ts rest post); try done. by apply Forall_app in Hwok as [_ ?].
  - right. exists e. split; [done|]. unfold dump_bib. rewrite Hopen, !bind_some.
    by rewrite decide_True.
Qed.

(** ** Properties *)

(** What the printer does with any buffer: if the reader accepts the buffer,
    it prints the header, then every record in order, up to a reference that
    cannot be read; if the reader refuses it, it prints the name of the error on
    stderr, nothing of the buffer, and fails with 2. It never reads outside. *)
Theorem bibdump_output m length :
  bytes_ok m -> 0 <= length <= blen m ->
  (exists h gap ts rest post, m = (bib_image h gap ts ++ rest) ++ post /\
     length = blen (bib_image h gap ts ++ rest) /\ bib_valid h gap ts /\
     dump_bib m length = Some (block_output h ts)) \/
  (exists e, e <> ATARIX_BIB_OK /\ dump_bib m length = Some (2, [ErrInvalid (error_name e) e])).
Proof. apply dump_any. Qed.

(** The same record to an onlooker: of a reference type, the same payload. *)
Definition same_public (t t' : tlv) : Prop :=
  t_type t = t_type t' /\ t_flags t = t_flags t' /\ blen (t_payload t) = blen (t_payload t') /\
  (is_reference_type (t_type t) = true -> t_payload t = t_payload t').

Definition same_header (h h' : bib_header) : Prop :=
  bh_total_length h = bh_total_length h' /\ bh_flags h = bh_flags h' /\
  bh_boot_id h = bh_boot_id h' /\ bh_producer_id h = bh_producer_id h' /\
  bh_created_counter h = bh_created_counter h' /\ bh_tlv_count h = bh_tlv_count h'.

(** References agree up to the position of their integrity data, which is not printed. *)
Definition reference_agree (a b : atarix_bib_error_t + atarix_bib_reference_view_t) : Prop :=
  match a, b with
  | inl e, inl e' => e = e'
  | inr r, inr r' => forall index, reference_lines index r = reference_lines index r'
  | _, _ => False
  end.

Lemma reference_of_agree o o' t t' :
  t_payload t = t_payload t' -> reference_agree (reference_of [] o t) (reference_of [] o' t').
Proof.
  intros Hp. unfold reference_of. rewrite Hp.
  destruct (_ <? _); [done|]. by destruct (_ <? _).
Qed.

Lemma list_find_agree ts ts' type :
  Forall2 same_public ts ts' ->
  match list_find (fun t => t_type t = type) ts, list_find (fun t => t_type t = type) ts' with
  | Some (i, t), Some (j, t') => t_type t = type /\ same_public t t'
  | None, None => True
  | _, _ => False
  end.
Proof.
  induction 1 as [|t t' ts ts' Ht _ IH]; [done|]. cbn [list_find].
  destruct Ht as (Hty & Hrest). rewrite <-Hty.
  destruct (decide (t_type t = type)); [by split|].
  destruct (list_find _ ts) as [[]|], (list_find _ ts') as [[]|]; done.
Qed.

Lemma find_spec_agree h h' ts ts' type :
  Forall2 same_public ts ts' -> is_reference_type type = true ->
  reference_agree (find_spec [] h ts type) (find_spec [] h' ts' type).
Proof.
  intros Hts Hty. unfold find_spec. pose proof (list_find_agree ts ts' type Hts) as Ha.
  destruct (list_find _ ts) as [[i t]|], (list_find _ ts') as [[j t']|]; try done.
  destruct Ha as (<- & _ & _ & _ & Hp). by apply reference_of_agree, Hp.
Qed.

Lemma records_output_agree h h' ts ts' i l l' :
  Forall2 same_public ts ts' -> Forall2 same_public l l' ->
  records_output h ts i l = records_output h' ts' i l'.
Proof.
  intros Hts Hl. revert i. induction Hl as [|t t' l l' Ht _ IH]; intros i; [done|].
  cbn [records_output]. rewrite <-IH.
  assert (Hout : record_output h ts (Z.of_nat i) t = record_output h' ts' (Z.of_nat i) t').
  { destruct Ht as (Hty & Hfl & Hlen & Hp). unfold record_output, record_head.
    rewrite <-Hty, <-Hfl, <-Hlen. destruct (is_reference_type (t_type t)) eqn:Href; [|done].
    pose proof (find_spec_agree h h' ts ts' (t_type t) Hts Href) as Ha.
    destruct (find_spec [] h _ _), (find_spec [] h' _ _); try done; cbn in Ha; by rewrite Ha. }
  by rewrite Hout.
Qed.

(** The printer does not disclose payloads of non-reference records (noninterference): two
    accepted buffers whose headers and records agree except for the checksum,
    padding, and the payload bytes of records that are not references are
    printed alike. *)
Theorem bibdump_hides_payloads m m' h h' gap gap' ts ts' post post' :
  bib_valid h gap ts -> bib_valid h' gap' ts' -> same_header h h' ->
  Forall2 same_public ts ts' ->
  m = bib_image h gap ts ++ post -> m' = bib_image h' gap' ts' ++ post' ->
  dump_bib m (blen (bib_image h gap ts)) = dump_bib m' (blen (bib_image h' gap' ts')).
Proof.
  intros Hv Hv' (H1 & H2 & H3 & H4 & H5 & H6) Hts Hm Hm'.
  pose proof (dump_valid m h gap ts [] post Hv (Forall_nil_2 _)) as Hd.
  pose proof (dump_valid m' h' gap' ts' [] post' Hv' (Forall_nil_2 _)) as Hd'.
  rewrite !app_nil_r in Hd, Hd'. rewrite Hd, Hd' by done.
  unfold block_output, header_output.
  rewrite (records_output_agree h h' ts ts' 0 ts ts'), H1, H2, H3, H4, H5, H6 by done. done.
Qed.

(** Which of the listed lines a line is. *)
Ltac in_list H :=
  repeat (apply elem_of_cons in H as [H|H]; [try discriminate H|]);
  try (by apply elem_of_nil in H).

(** Where a line with an address comes from. *)
Lemma records_output_address h ts i l k a :
  OutAddress k a ∈ (records_output h ts i l).2 ->
  exists n t r, l !! n = Some t /\ k = Z.of_nat (i + n) /\
    find_spec [] h ts (t_type t) = inr r /\ a = ref_address r.
Proof.
  revert i. induction l as [|t l IH]; intros i; cbn [records_output]; [by intros ?%elem_of_nil|].
  assert (Hhead : forall s, OutAddress k a ∈ (record_output h ts (Z.of_nat i) t).2 ->
    s = (record_output h ts (Z.of_nat i) t).1 ->
    exists r, k = Z.of_nat i /\ find_spec [] h ts (t_type t) = inr r /\ a = ref_address r).
  { intros _ Hin _. revert Hin. unfold record_output, record_head, reference_lines.
    destruct (is_reference_type _);
      [destruct (find_spec _ _ _ _) as [e|r]
      |destruct (flag_set (t_flags t) ATARIX_BIB_TLV_FLAG_SENSITIVE)];
      cbn [snd app]; intros Hin; in_list Hin.
    exists r. by injection Hin as -> ->. }
  destruct (record_output h ts (Z.of_nat i) t) as [[] out] eqn:Hr; cbn [fst snd] in *.
  { intros Hin. destruct (Hhead true Hin eq_refl) as (r & -> & ? & ?).
    exists 0%nat, t, r. by rewrite Nat.add_0_r. }
  destruct (records_output h ts (S i) l) as [res rest] eqn:Hrest. cbn [snd].
  intros [Hin|Hin]%elem_of_app.
  - destruct (Hhead false Hin eq_refl) as (r & -> & ? & ?).
    exists 0%nat, t, r. by rewrite Nat.add_0_r.
  - specialize (IH (S i)). rewrite Hrest in IH. destruct (IH Hin) as (n & t' & r & ? & -> & ?).
    exists (S n), t', r. split; [done|]. split; [f_equal; lia|done].
Qed.

Lemma records_output_reference h ts i l n t :
  (records_output h ts i l).1 = 0 -> l !! n = Some t -> is_reference_type (t_type t) = true ->
  exists r, find_spec [] h ts (t_type t) = inr r /\
    forall line, line ∈ reference_lines (Z.of_nat (i + n)) r -> line ∈ (records_output h ts i l).2.
Proof.
  revert i n. induction l as [|t0 l IH]; intros i n; [done|]. cbn [records_output].
  destruct (record_output h ts (Z.of_nat i) t0) as [[] out] eqn:Hr; [done|].
  specialize (IH (S i)). destruct (records_output h ts (S i) l) as [res rest].
  cbn [fst snd] in *. intros Hres Hn Href. destruct n as [|n].
  - injection Hn as ->. unfold record_output in Hr. rewrite Href in Hr.
    destruct (find_spec _ _ _ _) as [e|r]; [done|]. injection Hr as <-. exists r.
    split; [done|]. intros line Hin. rewrite Nat.add_0_r in Hin.
    apply elem_of_app. left. do 3 right. exact Hin.
  - destruct (IH n Hres Hn Href) as (r & Hspec & Hin). exists r. split; [done|].
    intros line Hline. apply elem_of_app. right. apply Hin.
    by replace (S i + n)%nat with (i + S n)%nat by lia.
Qed.

Lemma find_spec_first h ts type j t r :
  list_find (fun t => t_type t = type) ts = Some (j, t) -> find_spec [] h ts type = inr r ->
  ref_object_id r = le_at 8 (t_payload t) 0 /\ ref_address r = le_at 8 (t_payload t) 8.
Proof.
  intros Hf. unfold find_spec. rewrite Hf. unfold reference_of.
  destruct (_ <? _); [done|]. destruct (_ <? _); [done|]. by intros [= <-].
Qed.

Lemma block_output_address h ts k a :
  OutAddress k a ∈ (block_output h ts).2 <-> OutAddress k a ∈ (records_output h ts 0 ts).2.
Proof.
  unfold block_output. destruct (records_output h ts 0 ts) as [res out]. cbn [snd].
  rewrite elem_of_app. split; [|by right]. intros [Hin|Hin]; [|done].
  unfold header_output, print_header_flags in Hin. in_list Hin.
Qed.

(** C24. A repeated reference is printed as the first of its type: in the output
    of a block printed to the end, the address at index [i] of a reference record
    is the address of the first record [j] of that type, and no other, even when
    [i] and [j] are different records with different addresses. *)
Theorem bibdump_prints_first_reference m h gap ts post out i j t t' :
  bib_valid h gap ts -> m = bib_image h gap ts ++ post ->
  dump_bib m (blen (bib_image h gap ts)) = Some (0, out) ->
  ts !! i = Some t -> is_reference_type (t_type t) = true ->
  list_find (fun x => t_type x = t_type t) ts = Some (j, t') ->
  forall a, OutAddress (Z.of_nat i) a ∈ out <-> a = le_at 8 (t_payload t') 8.
Proof.
  intros Hv Hm Hd Ht Href Hj a.
  pose proof (dump_valid m h gap ts [] post Hv (Forall_nil_2 _)) as Hdump.
  rewrite !app_nil_r in Hdump. rewrite Hdump in Hd by done. apply (inj Some) in Hd.
  assert (Hres : (records_output h ts 0 ts).1 = 0).
  { unfold block_output in Hd. destruct (records_output h ts 0 ts). by injection Hd as -> _. }
  destruct (records_output_reference h ts 0 ts i t Hres Ht Href) as (r & Hspec & Hin).
  destruct (find_spec_first h ts _ j t' r Hj Hspec) as [_ Haddr].
  replace out with (block_output h ts).2 by (by rewrite Hd). rewrite block_output_address. split.
  - intros Ha. apply records_output_address in Ha as (n & t0 & r0 & Hn & Hk & Hs & ->).
    apply Nat2Z.inj in Hk. simpl in Hk. subst n. rewrite Ht in Hn. injection Hn as <-.
    congruence.
  - intros ->. apply Hin. rewrite <-Haddr. right. left.
Qed.

(** A record flagged SENSITIVE is redacted only if it is not a reference: of
    a sensitive reference record (such as the entropy seed), the first of its
    type, the object identity and the address in its payload are printed. *)
Theorem bibdump_discloses_sensitive_reference m h gap ts post out i t :
  bib_valid h gap ts -> m = bib_image h gap ts ++ post ->
  dump_bib m (blen (bib_image h gap ts)) = Some (0, out) ->
  list_find (fun x => t_type x = t_type t) ts = Some (i, t) ->
  is_reference_type (t_type t) = true ->
  flag_set (t_flags t) ATARIX_BIB_TLV_FLAG_SENSITIVE = true ->
  OutObjectId (Z.of_nat i) (le_at 8 (t_payload t) 0) ∈ out /\
  OutAddress (Z.of_nat i) (le_at 8 (t_payload t) 8) ∈ out.
Proof.
  intros Hv Hm Hd Hi Href _. apply list_find_Some in Hi as Ht. destruct Ht as (Ht & _).
  pose proof (dump_valid m h gap ts [] post Hv (Forall_nil_2 _)) as Hdump.
  rewrite !app_nil_r in Hdump. rewrite Hdump in Hd by done. apply (inj Some) in Hd.
  unfold block_output in Hd.
  destruct (records_output h ts 0 ts) as [res o] eqn:Hrec. injection Hd as -> <-.
  destruct (records_output_reference h ts 0 ts i t) as (r & Hspec & Hin);
    [by rewrite Hrec|done|done|].
  rewrite Hrec in Hin. cbn [snd Nat.add] in Hin.
  destruct (find_spec_first h ts _ i t r Hi Hspec) as [<- <-].
  split; do 8 right; apply Hin; [left|right; left].
Qed.

(** ** Witnesses *)

(** A block with two audit logs and a sensitive entropy seed. *)
Definition sample_log (address : Z) : tlv :=
  padded_tlv ATARIX_BIB_TLV_AUDIT_LOG_REFERENCE 0 (enc_reference 19 address 0x100 1 0).

Definition sample_seed : tlv :=
  padded_tlv ATARIX_BIB_TLV_ENTROPY_SEED_REFERENCE ATARIX_BIB_TLV_FLAG_SENSITIVE
    (enc_reference 20 0x50000 0x20 1 0).

Definition sample_dump_records : list tlv :=
  sample_records ++ [sample_log 0x30000; sample_log 0x40000; sample_seed].

Definition sample_dump_header : bib_header :=
  built_header (fresh_header 0 1 2 3) sample_dump_records.

Definition sample_dump_block : bytes := bib_image sample_dump_header [] sample_dump_records.

Lemma sample_dump_valid : bib_valid sample_dump_header [] sample_dump_records.
Proof.
  apply built_image_valid; try done.
  - apply Forall_app. split; [apply sample_records_wf|].
    repeat (apply Forall_cons_2; [by apply padded_tlv_wf; auto with atarix|]). constructor.
  - by repeat constructor.
Qed.

Lemma bibdump_output_witness :
  let m := sample_dump_block ++ [0; 0] in
  (exists h gap ts rest post, m = (bib_image h gap ts ++ rest) ++ post /\
     blen sample_dump_block + 1 = blen (bib_image h gap ts ++ rest) /\ bib_valid h gap ts /\
     dump_bib m (blen sample_dump_block + 1) = Some (block_output h ts)) \/
  (exists e, e <> ATARIX_BIB_OK /\
     dump_bib m (blen sample_dump_block + 1) = Some (2, [ErrInvalid (error_name e) e])).
Proof.
  intros m. apply bibdump_output.
  - by apply (bool_decide_unpack _); vm_compute.
  - by vm_compute.
Defined.

Lemma bibdump_hides_payloads_witness :
  let secret b := padded_tlv ATARIX_BIB_TLV_BOOT_ARGUMENTS ATARIX_BIB_TLV_FLAG_SENSITIVE [b; 7] in
  let block b := bib_image (built_header (fresh_header 0 1 2 3) (sample_records ++ [secret b])) []
                   (sample_records ++ [secret b]) in
  dump_bib (block 1 ++ []) (blen (block 1)) = dump_bib (block 2 ++ [9]) (blen (block 2)).
Proof.
  intros secret block.
  assert (Hsecret : forall b, byte_ok b -> bib_valid (built_header (fresh_header 0 1 2 3)
    (sample_records ++ [secret b])) [] (sample_records ++ [secret b])).
  { intros b Hb. apply built_image_valid; try done.
    - apply Forall_app. split; [apply sample_records_wf|].
      apply Forall_cons_2; [|constructor]. apply padded_tlv_wf; try done.
      do 2 (apply Forall_cons_2; [done|]). apply Forall_nil_2.
    - by repeat constructor. }
  apply (bibdump_hides_payloads _ _ _ _ [] [] _ _ [] [9] (Hsecret 1 ltac:(done)) (Hsecret 2 ltac:(done)));
    [by repeat split|by repeat constructor|reflexivity|reflexivity].
Defined.

Lemma bibdump_prints_first_reference_witness :
  exists out, dump_bib (sample_dump_block ++ []) (blen sample_dump_block) = Some (0, out) /\
    (forall a, OutAddress 3 a ∈ out <-> a = 0x30000) /\
    le_at 8 (t_payload (sample_log 0x40000)) 8 = 0x40000.
Proof.
  eexists. split; [vm_compute; reflexivity|]. split; [|by vm_compute].
  refine (bibdump_prints_first_reference (sample_dump_block ++ []) sample_dump_header []
    sample_dump_records [] _ 3 2 (sample_log 0x40000) (sample_log 0x30000) sample_dump_valid
    eq_refl _ eq_refl eq_refl _); [vm_compute; reflexivity|vm_compute; reflexivity].
Defined.

Lemma bibdump_discloses_sensitive_reference_witness :
  exists out, dump_bib (sample_dump_block ++ []) (blen sample_dump_block) = Some (0, out) /\
    OutObjectId 4 20 ∈ out /\ OutAddress 4 0x50000 ∈ out.
Proof.
  eexists. split; [vm_compute; reflexivity|].
  apply (bibdump_discloses_sensitive_reference (sample_dump_block ++ []) sample_dump_header []
    sample_dump_records [] _ 4 sample_seed sample_dump_valid eq_refl);
    vm_compute; reflexivity.
Defined.
