(* ===== verification/BibDumpTool.v ===== *)
(** * The command line tool atarix-bibdump

    [read_file] and [main] of [tools/bibdump/bibdump.c], and the text of what
    [dump_bib] prints. What the C library does is a [host]: whether a path can be
    opened, what the stream then answers, whether an allocation succeeds. The
    result of the tool is its exit code and the trace of its calls. *)

From S2P Require Import Prelude Host Crc BibFormat BibBuilder BibReader BibDump.
From stdpp Require Import strings.
#[local] Open Scope Z_scope.

(** ** Text *)

(** [(int)error]. *)
Definition error_code (error : atarix_bib_error_t) : Z :=
  match error with
  | ATARIX_BIB_OK => 0
  | ATARIX_BIB_E_WINDOW => 1
  | ATARIX_BIB_E_MAGIC => 2
  | ATARIX_BIB_E_VERSION => 3
  | ATARIX_BIB_E_HEADER_LENGTH => 4
  | ATARIX_BIB_E_TOTAL_LENGTH => 5
  | ATARIX_BIB_E_CRC => 6
  | ATARIX_BIB_E_HEADER_RESERVED => 7
  | ATARIX_BIB_E_TLV_BOUNDS => 8
  | ATARIX_BIB_E_TLV_RESERVED => 9
  | ATARIX_BIB_E_UNKNOWN_MANDATORY => 10
  | ATARIX_BIB_E_REQUIRED_RECORD => 11
  | ATARIX_BIB_E_REFERENCE_OVERFLOW => 12
  | ATARIX_BIB_E_REFERENCE_AUTHORITY => 13
  | ATARIX_BIB_E_REFERENCE_INTEGRITY => 14
  end.

(** [record[%u].name: value] *)
Definition record_line (index : Z) (name value : string) : string :=
  "record[" +:+ dec index +:+ "]." +:+ name +:+ ": " +:+ value +:+ newline.

Definition render (o : output) : event :=
  match o with
  | OutFormat => Stdout ("format: ATARIX-BIB" +:+ newline)
  | OutVersion => Stdout ("version: 1.0" +:+ newline)
  | OutTotalLength total_length => Stdout ("total-length: " +:+ dec total_length +:+ newline)
  | OutHeaderFlags flags names =>
    Stdout ("flags: 0x" +:+ hex 4 flags +:+
      text_concat (map (fun name => " " +:+ name) names) +:+ newline)
  | OutBootId boot_id => Stdout ("boot-id: 0x" +:+ hex 16 boot_id +:+ newline)
  | OutProducerId producer_id => Stdout ("producer-id: 0x" +:+ hex 16 producer_id +:+ newline)
  | OutCreatedCounter created_counter =>
    Stdout ("created-counter: " +:+ dec created_counter +:+ newline)
  | OutRecordCount tlv_count => Stdout ("record-count: " +:+ dec tlv_count +:+ newline)
  | OutType index type name =>
    Stdout (record_line index "type" ("0x" +:+ hex 4 type +:+ " " +:+ name))
  | OutFlags index flags mandatory sensitive =>
    Stdout (record_line index "flags" ("0x" +:+ hex 4 flags +:+
      (if mandatory then " mandatory" else EmptyString) +:+ (if sensitive then " sensitive" else EmptyString)))
  | OutPayloadLength index payload_length =>
    Stdout (record_line index "payload-length" (dec payload_length))
  | OutObjectId index object_id =>
    Stdout (record_line index "object-id" ("0x" +:+ hex 16 object_id))
  | OutAddress index address => Stdout (record_line index "address" ("0x" +:+ hex 16 address))
  | OutLength index length => Stdout (record_line index "length" (dec length))
  | OutFormatVersion index format_major format_minor =>
    Stdout (record_line index "format" (dec format_major +:+ "." +:+ dec format_minor))
  | OutIntegrityKind index integrity_kind =>
    Stdout (record_line index "integrity-kind" (dec integrity_kind))
  | OutIntegrityLength index integrity_length =>
    Stdout (record_line index "integrity-length" (dec integrity_length))
  | OutRedacted index => Stdout (record_line index "payload" "<redacted>")
  | OutOpaque index => Stdout (record_line index "payload" "<opaque>")
  | ErrInvalid name error =>
    Stderr ("atarix-bibdump: invalid BIB: " +:+ name +:+ " (" +:+ dec (error_code error) +:+
      ")" +:+ newline)
  | ErrRecord index name =>
    Stderr ("atarix-bibdump: record " +:+ dec index +:+ ": " +:+ name +:+ newline)
  | ErrReference index name =>
    Stderr ("atarix-bibdump: reference " +:+ dec index +:+ ": " +:+ name +:+ newline)
  end.

(** ** The environment *)

(** An open stream: whether seeking to the end succeeds, the position told there,
    whether seeking back succeeds, and the bytes that reading then delivers. *)
Record stream : Type := Stream {
  st_seek_end : bool;
  st_tell : Z;
  st_seek_set : bool;
  st_bytes : bytes
}.

(** [h_malloc n] is the block of [n] bytes with its indeterminate contents. *)
Record host : Type := Host {
  h_fopen : string -> option stream;
  h_strerror : string -> string;
  h_malloc : Z -> option bytes
}.

(** What the C standard promises: a block has the size asked for, and memory and
    files consist of bytes. *)
Record host_ok (h : host) : Prop := {
  ho_malloc : forall n block, h_malloc h n = Some block -> blen block = n /\ bytes_ok block;
  ho_bytes : forall path s, h_fopen h path = Some s -> bytes_ok (st_bytes s)
}.

(** ** The tool *)

(** The status, the buffer with its length, and the trace. *)
Definition read_file (h : host) (path : string) : Z * option (bytes * Z) * list event :=
  match h_fopen h path with
  | None =>
    (1, None, [Stderr ("atarix-bibdump: cannot open " +:+ path +:+ ": " +:+
                       h_strerror h path +:+ newline)])
  | Some stream =>
    let size := st_tell stream in
    if negb (st_seek_end stream) || (size <? 0) || negb (st_seek_set stream) then
      (1, None, [Fopen path; Stderr ("atarix-bibdump: cannot size " +:+ path +:+ newline); Fclose])
    else if ATARIX_BIB_RECOMMENDED_MAX_SIZE_V1 <? size then
      (1, None, [Fopen path; Stderr ("atarix-bibdump: " +:+ path +:+
         " exceeds the BIB v1 diagnostic limit" +:+ newline); Fclose])
    else
      let wanted := if size =? 0 then 1 else size in
      match h_malloc h wanted with
      | None =>
        (1, None, [Fopen path; Stderr ("atarix-bibdump: allocation failed" +:+ newline); Fclose])
      | Some block =>
        let got := take (Z.to_nat size) (st_bytes stream) in
        if negb (size =? 0) && negb (blen got =? size) then
          (1, None, [Fopen path; Malloc wanted;
             Stderr ("atarix-bibdump: cannot read " +:+ path +:+ newline); Free; Fclose])
        else
          let data := if size =? 0 then block else got ++ drop (Z.to_nat size) block in
          (0, Some (data, size), [Fopen path; Malloc wanted; Fclose])
      end
  end.

(** The exit code and the trace. *)
Definition main (h : host) (argv : list string) : option (Z * list event) :=
  if negb (length argv =? 2)%nat then Some (64, [Stderr ("usage: atarix-bibdump FILE" +:+ newline)])
  else
    path ← argv !! 1%nat;
    match read_file h path with
    | (0, Some (buffer, length), trace) =>
      '(result, out) ← dump_bib buffer length;
      Some (result, trace ++ map render out ++ [Free])
    | (_, _, trace) => Some (1, trace)
    end.

(** ** What the tool does *)

(** The contents of a file, when it can be read and is within the limit. *)
Definition file_contents (h : host) (path : string) : option bytes :=
  s ← h_fopen h path;
  guard (st_seek_end s = true /\ st_seek_set s = true /\
         0 <= st_tell s <= ATARIX_BIB_RECOMMENDED_MAX_SIZE_V1 /\ st_tell s <= blen (st_bytes s));;
  h_malloc h (Z.max 1 (st_tell s));;
  Some (take (Z.to_nat (st_tell s)) (st_bytes s)).

Lemma read_file_cases h path :
  host_ok h ->
  match file_contents h path with
  | None => exists trace, read_file h path = (1, None, trace) /\ no_leak trace /\
      stdout_text trace = EmptyString
  | Some file => exists rest, bytes_ok (file ++ rest) /\
      read_file h path = (0, Some (file ++ rest, blen file),
        [Fopen path; Malloc (Z.max 1 (blen file)); Fclose])
  end.
Proof.
  intros [Hmalloc Hbytes]. unfold file_contents, read_file.
  destruct (h_fopen h path) as [s|] eqn:Hopen; [|by eexists]. rewrite bind_some.
  specialize (Hbytes _ _ Hopen). destruct s as [seek_end tell seek_set content]. cbn [st_seek_end
    st_tell st_seek_set st_bytes] in *.
  destruct seek_end; [|by eexists]. cbn [negb orb].
  destruct (Z.ltb_spec tell 0); [rewrite option_guard_False by lia; by eexists|].
  destruct seek_set; [|by rewrite option_guard_False by (by intros (_ & ? & _)); eexists]. cbn [negb orb].
  destruct (Z.ltb_spec ATARIX_BIB_RECOMMENDED_MAX_SIZE_V1 tell);
    [rewrite option_guard_False by lia; by eexists|].
  assert (Hgot : blen (take (Z.to_nat tell) content) = Z.min tell (blen content))
    by (unfold blen; rewrite length_take; lia).
  replace (if tell =? 0 then 1 else tell) with (Z.max 1 tell)
    by (destruct (Z.eqb_spec tell 0); lia).
  destruct (Z.leb_spec tell (blen content)).
  - rewrite option_guard_True by done.
    destruct (h_malloc h (Z.max 1 tell)) as [block|] eqn:Hb; [|by eexists]. rewrite bind_some.
    apply Hmalloc in Hb as [Hl Hbok].
    replace (blen (take _ content) =? tell) with true by lia. rewrite andb_false_r.
    exists (drop (Z.to_nat tell) block). split.
    + apply Forall_app. split; [by apply Forall_take|by apply Forall_drop].
    + destruct (Z.eqb_spec tell 0) as [->|]; [done|].
      do 4 f_equal; lia.
  - rewrite option_guard_False by lia.
    destruct (h_malloc h (Z.max 1 tell)) as [block|] eqn:Hb; [|by eexists].
    pose proof (blen_nonneg content).
    replace (tell =? 0) with false by lia. replace (blen (take _ content) =? tell) with false by lia.
    by eexists.
Qed.

Lemma render_text out : Forall is_text (map render out).
Proof. induction out as [|o out IH]; constructor; [by destruct o|done]. Qed.

(** The trace of a run that prints between reading the file and freeing it. *)
Lemma dump_trace path n out :
  let trace := [Fopen path; Malloc n; Fclose] ++ map render out ++ [Free] in
  no_leak trace /\ stdout_text trace = stdout_text (map render out) /\
  stderr_text trace = stderr_text (map render out).
Proof.
  cbn zeta. unfold no_leak. rewrite !stdout_app, !stderr_app, holds_app.
  split.
  { change (holds [Fopen path; Malloc n; Fclose] _) with (Some (0%nat, 1%nat)).
    by rewrite bind_some, holds_app, (holds_text _ _ (render_text out)). }
  split; apply string_app_nil.
Qed.

(** ** Properties *)

(** C14. What atarix-bibdump does, whatever the environment and the arguments: it
    terminates, closes every stream it opened and frees every block it allocated
    on every path; without exactly one argument it exits with 64; when the file
    cannot be opened, sized, allocated for or read, or is over 64 KiB, it exits
    with 1 and prints nothing on stdout; otherwise it prints exactly the text of
    the block the file starts with, or refuses the file with 2 and the name and
    number of the error on stderr, and nothing on stdout. *)
Theorem bibdump_tool_exit h argv :
  host_ok h ->
  exists code trace, main h argv = Some (code, trace) /\ no_leak trace /\
  ((length argv <> 2%nat /\ code = 64 /\ stdout_text trace = EmptyString) \/
   exists prog path, argv = [prog; path] /\
   match file_contents h path with
   | None => code = 1 /\ stdout_text trace = EmptyString
   | Some file =>
     (exists bh gap ts rest, file = bib_image bh gap ts ++ rest /\ bib_valid bh gap ts /\
        code = fst (block_output bh ts) /\
        stdout_text trace = stdout_text (map render (snd (block_output bh ts))) /\
        stderr_text trace = stderr_text (map render (snd (block_output bh ts)))) \/
     (exists e, e <> ATARIX_BIB_OK /\ code = 2 /\ stdout_text trace = EmptyString /\
        stderr_text trace = ("atarix-bibdump: invalid BIB: " +:+ error_name e +:+ " (" +:+
          dec (error_code e) +:+ ")" +:+ newline)%string)
   end).
Proof.
  intros Hh. unfold main.
  destruct (Nat.eqb_spec (length argv) 2) as [Hl|]; cbn [negb];
    [|do 2 eexists; split; [done|split; [done|by left]]].
  destruct argv as [|prog [|path [|]]]; try done. cbn [lookup list_lookup]. rewrite bind_some.
  pose proof (read_file_cases h path Hh) as Hread. destruct (file_contents h path) as [file|] eqn:Hfile.
  - destruct Hread as (rest0 & Hok & ->).
    destruct (dump_any (file ++ rest0) (blen file)) as [D|D];
      [done|rewrite blen_app; pose proof (blen_nonneg file); pose proof (blen_nonneg rest0); lia|..].
    + destruct D as (bh & gap & ts & rest & post & Hm & Hlen & Hv & ->). rewrite bind_some.
      destruct (block_output bh ts) as [code out] eqn:Hout.
      destruct (dump_trace path (Z.max 1 (blen file)) out) as (Hleak & Hso & Hse).
      do 2 eexists. split; [reflexivity|]. split; [exact Hleak|]. right. exists prog, path.
      split; [done|]. rewrite Hfile. left. exists bh, gap, ts, rest. rewrite Hout.
      apply app_inj_1 in Hm as [Hm _]; [done|]. unfold blen in Hlen. lia.
    + destruct D as (e & He & ->). rewrite bind_some.
      destruct (dump_trace path (Z.max 1 (blen file)) [ErrInvalid (error_name e) e])
        as (Hleak & Hso & Hse).
      do 2 eexists. split; [reflexivity|]. split; [exact Hleak|]. right. exists prog, path.
      split; [done|]. rewrite Hfile. right. exists e. split; [done|]. split; [done|].
      split; [exact Hso|]. rewrite Hse. apply string_app_nil.
  - destruct Hread as (trace & -> & Hleak & Hout). exists 1, trace. split; [done|].
    split; [done|]. right. exists prog, path. by rewrite Hfile.
Qed.

(** An environment where every file can be read and memory is plentiful. *)
Definition ordinary_host (files : string -> option bytes) : host :=
  Host (fun path => file ← files path; Some (Stream true (blen file) true file))
    (fun _ => "No such file or directory"%string)
    (fun n => if 0 <=? n then Some (replicate (Z.to_nat n) 0) else None).

Lemma ordinary_host_ok files :
  (forall path file, files path = Some file -> bytes_ok file) -> host_ok (ordinary_host files).
Proof.
  intros Hf. split; cbn [ordinary_host h_malloc h_fopen].
  - intros n block. destruct (Z.leb_spec 0 n); [|done]. intros [= <-]. split.
    + unfold blen. rewrite length_replicate. lia.
    + by apply Forall_replicate.
  - intros path s. destruct (files path) as [file|] eqn:Hp; [|done]. intros [= <-].
    by apply (Hf path).
Qed.

Lemma bibdump_tool_exit_witness :
  host_ok (ordinary_host (fun _ => Some [])) /\
  exists code trace, main (ordinary_host (fun _ => Some [])) ["atarix-bibdump"; "empty"]%string =
    Some (code, trace) /\ no_leak trace.
Proof.
  assert (Hh : host_ok (ordinary_host (fun _ => Some [])))
    by (apply ordinary_host_ok; intros _ ? [= <-]; constructor).
  split; [exact Hh|].
  destruct (bibdump_tool_exit _ ["atarix-bibdump"; "empty"]%string Hh) as (code & trace & H & Hl & _).
  exists code, trace. split; [exact H|exact Hl].
Defined.
