(* ===== verification/BibText.v ===== *)
(** * What the printed text discloses

    The text of [atarix-bibdump] read back: the lines it prints on stdout and
    stderr, with its exit code, determine the public view of the block it was given
    and are determined by it. The public view has the header members that are
    printed, the type, flags and payload length of every record up to the first
    reference that cannot be read, and the members of references; it has no byte
    of any other payload. *)

From S2P Require Import Prelude Host Text Crc BibFormat BibBuilder BibReader BibDump BibDumpTool.
From stdpp Require Import strings.
#[local] Open Scope Z_scope.

(** ** The public view *)

(** The members of a reference that are printed. *)
Record public_reference : Type := PublicReference {
  pr_object_id : Z;
  pr_address : Z;
  pr_length : Z;
  pr_format : Z * Z;
  pr_integrity : Z * Z
}.

Definition reference_view (r : atarix_bib_reference_view_t) : public_reference :=
  PublicReference (ref_object_id r) (ref_address r) (ref_length r)
    (ref_format_major r, ref_format_minor r) (ref_integrity_kind r, ref_integrity_length r).

(** [pv_reference] is [None] for a record that is not a reference, and has the
    reason for a reference that cannot be read. *)
Record public_record : Type := PublicRecord {
  pv_type : Z;
  pv_flags : Z;
  pv_length : Z;
  pv_reference : option (atarix_bib_error_t + public_reference)
}.

Definition record_view (h : bib_header) (ts : list tlv) (t : tlv) : public_record :=
  PublicRecord (t_type t) (t_flags t) (blen (t_payload t))
    (if is_reference_type (t_type t)
     then Some (match find_spec [] h ts (t_type t) with
                | inl e => inl e
                | inr r => inr (reference_view r)
                end)
     else None).

Definition unreadable (v : public_record) : bool :=
  match pv_reference v with Some (inl _) => true | _ => false end.

(** The records up to the first that cannot be read, that one included. *)
Fixpoint records_view (h : bib_header) (ts l : list tlv) : list public_record :=
  match l with
  | [] => []
  | t :: l' =>
    let v := record_view h ts t in
    if unreadable v then [v] else v :: records_view h ts l'
  end.

Record public_view : Type := PublicView {
  vw_total_length : Z;
  vw_flags : Z;
  vw_boot_id : Z;
  vw_producer_id : Z;
  vw_created_counter : Z;
  vw_record_count : Z;
  vw_records : list public_record
}.

Definition view_of_block (h : bib_header) (ts : list tlv) : public_view :=
  PublicView (bh_total_length h) (bh_flags h) (bh_boot_id h) (bh_producer_id h)
    (bh_created_counter h) (bh_tlv_count h) (records_view h ts ts).

(** ** Lines *)

(** A line of stdout: the record it is about, the name, and the value. *)
Definition parts (o : output) : option Z * string * string :=
  match o with
  | OutFormat => (None, "format", "ATARIX-BIB")
  | OutVersion => (None, "version", "1.0")
  | OutTotalLength n => (None, "total-length", dec n)
  | OutHeaderFlags flags names =>
    (None, "flags", "0x" +:+ hex 4 flags +:+ text_concat (map (fun name => " " +:+ name) names))
  | OutBootId n => (None, "boot-id", "0x" +:+ hex 16 n)
  | OutProducerId n => (None, "producer-id", "0x" +:+ hex 16 n)
  | OutCreatedCounter n => (None, "created-counter", dec n)
  | OutRecordCount n => (None, "record-count", dec n)
  | OutType index type name => (Some index, "type", "0x" +:+ hex 4 type +:+ " " +:+ name)
  | OutFlags index flags mandatory sensitive =>
    (Some index, "flags", "0x" +:+ hex 4 flags +:+
      (if mandatory then " mandatory" else EmptyString) +:+
      (if sensitive then " sensitive" else EmptyString))
  | OutPayloadLength index n => (Some index, "payload-length", dec n)
  | OutObjectId index n => (Some index, "object-id", "0x" +:+ hex 16 n)
  | OutAddress index n => (Some index, "address", "0x" +:+ hex 16 n)
  | OutLength index n => (Some index, "length", dec n)
  | OutFormatVersion index major minor => (Some index, "format", dec major +:+ "." +:+ dec minor)
  | OutIntegrityKind index n => (Some index, "integrity-kind", dec n)
  | OutIntegrityLength index n => (Some index, "integrity-length", dec n)
  | OutRedacted index => (Some index, "payload", "<redacted>")
  | OutOpaque index => (Some index, "payload", "<opaque>")
  | ErrInvalid _ _ | ErrRecord _ _ | ErrReference _ _ => (None, EmptyString, EmptyString)
  end%string.

(** A colon, and the brackets around an index. *)
Definition colon : Ascii.ascii := Ascii.ascii_of_nat 58.
Definition bracket : Ascii.ascii := Ascii.ascii_of_nat 93.

Definition label (index : option Z) (name : string) : string :=
  match index with
  | None => name
  | Some i => "record[" +:+ dec i +:+ String bracket ("." +:+ name)
  end%string.

Definition line (o : output) : string :=
  let '(index, name, value) := parts o in
  (label index name +:+ String colon (" " +:+ value))%string.

Definition on_stdout (o : output) : bool :=
  match o with ErrInvalid _ _ | ErrRecord _ _ | ErrReference _ _ => false | _ => true end.

Lemma render_line o : on_stdout o = true -> render o = Stdout (line o +:+ newline).
Proof.
  destruct o; try done; intros _; unfold line; cbn [parts label render];
    unfold record_line; f_equal.
  all: repeat (rewrite string_app_assoc || rewrite append_cons); reflexivity.
Qed.

(** What the code gives an output: a name that goes with the value, and values of
    the types that are printed. *)
Definition canonical (o : output) : Prop :=
  match o with
  | OutTotalLength n | OutCreatedCounter n | OutRecordCount n => 0 <= n
  | OutHeaderFlags flags names => fits 16 flags /\ OutHeaderFlags flags names = print_header_flags flags
  | OutBootId n | OutProducerId n => fits 64 n
  | OutType index type name => 0 <= index /\ fits 16 type /\ name = type_name type
  | OutFlags index flags _ _ => 0 <= index /\ fits 16 flags
  | OutPayloadLength index n | OutLength index n | OutIntegrityKind index n
  | OutIntegrityLength index n => 0 <= index /\ 0 <= n
  | OutObjectId index n | OutAddress index n => 0 <= index /\ fits 64 n
  | OutFormatVersion index major minor => 0 <= index /\ 0 <= major /\ 0 <= minor
  | OutRedacted index | OutOpaque index => 0 <= index
  | ErrReference index name => 0 <= index /\ exists e, name = error_name e
  | OutFormat | OutVersion => True
  | ErrInvalid _ _ | ErrRecord _ _ => False
  end.

Lemma delimiters : delimiter colon /\ delimiter bracket /\ delimiter newline_char /\
  delimiter (Ascii.ascii_of_nat 46).
Proof. split_and!; by apply delimiter_dec. Qed.

(** A name has no colon or bracket, also not where the label of a record has one. *)
Definition plain (s : string) : bool := free colon s && free bracket s && negb (bool_decide (String.get 6 s = Some (Ascii.ascii_of_nat 91))).

Lemma label_inj i i' name name' :
  plain name = true -> plain name' = true ->
  (forall k, i = Some k -> 0 <= k) -> (forall k, i' = Some k -> 0 <= k) ->
  label i name = label i' name' -> i = i' /\ name = name'.
Proof.
  destruct delimiters as (_ & Hb & _). unfold plain.
  rewrite !andb_true_iff, !negb_true_iff, !bool_decide_eq_false. intros [_ Hn] [_ Hn'] Hi Hi' Heq.
  destruct i as [i|], i' as [i'|]; cbn [label] in Heq.
  - apply append_inj_l in Heq. apply split_at_char in Heq as [Hd Heq]; [|by apply dec_free..].
    apply append_inj_l in Heq. apply dec_inj in Hd; [|by auto..]. by subst.
  - subst name'. by destruct Hn'.
  - subst name. by destruct Hn.
  - done.
Qed.

(** *** A line determines the output *)

Lemma parts_plain o : on_stdout o = true -> plain (parts o).1.2 = true.
Proof. by destruct o. Qed.

Lemma plain_label index name :
  plain name = true -> free colon (label index name) = true.
Proof.
  destruct delimiters as (Hc & _). unfold plain. rewrite !andb_true_iff. intros [[Hn _] _].
  destruct index as [i|]; [|done]. unfold label.
  rewrite free_app, free_app, dec_free by done. exact Hn.
Qed.

Lemma canonical_index o k : canonical o -> (parts o).1.1 = Some k -> 0 <= k.
Proof. destruct o; cbn; intros Hc [= <-]; first [exact Hc|exact (proj1 Hc)]. Qed.

Lemma line_parts o o' :
  on_stdout o = true -> on_stdout o' = true -> canonical o -> canonical o' ->
  line o = line o' -> parts o = parts o'.
Proof.
  intros Ho Ho' Hc Hc' Heq. unfold line in Heq.
  pose proof (parts_plain o Ho) as Hp. pose proof (parts_plain o' Ho') as Hp'.
  pose proof (canonical_index o) as Hi. pose proof (canonical_index o') as Hi'.
  destruct (parts o) as [[i name] value], (parts o') as [[i' name'] value']. cbn [fst snd] in *.
  apply split_at_char in Heq as [Hl Hv]; [|by apply plain_label..].
  apply append_inj_l in Hv as ->. apply label_inj in Hl as [-> ->]; auto.
Qed.

(** Numbers that were printed alike, of the types that are printed. *)
Ltac same_numbers :=
  repeat match goal with
  | H : ("0x" +:+ _ = "0x" +:+ _)%string |- _ => apply append_inj_l in H
  | H : (hex _ _ +:+ _ = hex _ _ +:+ _)%string |- _ =>
    let H' := fresh in apply hex_app_inj in H as [H' H]
  | H : dec _ = dec _ |- _ => apply dec_inj in H; [|lia..]
  | H : hex _ _ = hex _ _ |- _ => apply hex_inj in H; [|unfold fits in *; lia..]
  end.

Lemma parts_inj o o' :
  on_stdout o = true -> on_stdout o' = true -> canonical o -> canonical o' ->
  parts o = parts o' -> o = o'.
Proof.
  intros Ho Ho' Hc Hc' Heq.
  assert (Hn : (parts o).1.2 = (parts o').1.2) by congruence.
  assert (Hi : (parts o).1.1 = (parts o').1.1) by congruence.
  assert (Hv : (parts o).2 = (parts o').2) by congruence. clear Heq.
  destruct o, o'; try discriminate; clear Ho Ho' Hn; cbn [parts canonical fst snd] in *;
    try injection Hi as <-; destruct_and?; same_numbers; try congruence.
  - destruct mandatory, mandatory0, sensitive, sensitive0; (discriminate || congruence).
  - apply split_at_char in Hv as [Hmajor Hminor]; [|by apply dec_free, delimiters..].
    same_numbers. congruence.
Qed.

Lemma line_inj o o' :
  on_stdout o = true -> on_stdout o' = true -> canonical o -> canonical o' ->
  line o = line o' -> o = o'.
Proof. intros. by apply parts_inj, line_parts. Qed.

(** *** Lines have no newline inside *)

Lemma names_free : forall flags,
  fits 16 flags -> forall names, OutHeaderFlags flags names = print_header_flags flags ->
  free newline_char (text_concat (map (fun name => " " +:+ name)%string names)) = true.
Proof.
  intros flags _ names [= ->].
  by destruct (flags =? 0), (flag_set flags _), (flag_set flags _), (flag_set flags _),
    (flag_set flags _).
Qed.

Lemma type_name_free type : free newline_char (type_name type) = true.
Proof. unfold type_name. by repeat case_match. Qed.

Lemma line_free o : on_stdout o = true -> canonical o -> free newline_char (line o) = true.
Proof.
  intros Ho Hc. destruct delimiters as (_ & _ & Hd & _).
  assert (Hcolon : forall s, free newline_char (String colon s) = free newline_char s) by done.
  assert (Hbracket : forall s, free newline_char (String bracket s) = free newline_char s) by done.
  destruct o; try discriminate; clear Ho; unfold line; cbn [parts label canonical] in *;
    repeat first [rewrite free_app | rewrite dec_free by done | rewrite hex_free by done
                 | rewrite Hcolon | rewrite Hbracket]; try reflexivity.
  - destruct Hc as [Hf Hn]. by rewrite (names_free _ Hf _ Hn).
  - destruct Hc as (_ & _ & ->). by rewrite type_name_free.
  - by destruct mandatory, sensitive.
Qed.

(** ** The text determines what was printed *)

(** Lines on stdout, then at most one line on stderr. *)
Definition well_ordered (out : list output) : Prop :=
  exists std err, out = std ++ err /\ Forall (fun o => on_stdout o = true) std /\
    (err = [] \/ exists index name, err = [ErrReference index name]).

Lemma stdout_lines std :
  Forall (fun o => on_stdout o = true) std ->
  stdout_text (map render std) = text_concat (map (fun s => (s +:+ newline)%string) (map line std)) /\
  stderr_text (map render std) = EmptyString.
Proof.
  induction 1 as [|o std Ho _ [IH IH']]; [done|]. cbn [map].
  change (render o :: map render std) with ([render o] ++ map render std).
  rewrite stdout_app, stderr_app, IH, IH', (render_line o Ho). split; [|done].
  cbn [text_concat foldr map]. unfold stdout_text. cbn. by rewrite string_app_nil.
Qed.

Lemma error_line_inj i i' name name' :
  0 <= i -> 0 <= i' -> (exists e, name = error_name e) -> (exists e, name' = error_name e) ->
  stderr_text [render (ErrReference i name)] = stderr_text [render (ErrReference i' name')] ->
  i = i' /\ name = name'.
Proof.
  intros Hi Hi' [e ->] [e' ->] Heq. destruct delimiters as (Hcolon & _).
  unfold stderr_text in Heq. cbn [omap list_omap render text_concat foldr] in Heq.
  rewrite !string_app_nil in Heq. apply append_inj_l in Heq.
  apply (split_at_char colon (dec i) (dec i')) in Heq as [Hd Heq]; [|by apply dec_free..].
  apply dec_inj in Hd; [|done..]. split; [done|]. 
  destruct e, e'; first [reflexivity|discriminate Heq].
Qed.

Lemma text_determines_output out out' :
  well_ordered out -> well_ordered out' -> Forall canonical out -> Forall canonical out' ->
  stdout_text (map render out) = stdout_text (map render out') ->
  stderr_text (map render out) = stderr_text (map render out') ->
  out = out'.
Proof.
  intros (std & err & -> & Hs & He) (std' & err' & -> & Hs' & He').
  rewrite !Forall_app. intros [Hc Hce] [Hc' Hce'].
  rewrite !map_app, !stdout_app, !stderr_app.
  destruct (stdout_lines std Hs) as [-> ->], (stdout_lines std' Hs') as [-> ->].
  assert (Hnone : forall err, (err = [] \/ exists index name, err = [ErrReference index name]) ->
    stdout_text (map render err) = EmptyString) by (by intros ? [->|(? & ? & ->)]).
  rewrite !Hnone, !string_app_nil by done. intros Hstd Herr.
  assert (Hstdeq : map line std = map line std').
  { apply lines_inj; [| |done]; apply Forall_map; rewrite Forall_forall in *; intros o Ho;
      apply line_free; auto. }
  f_equal.
  - clear -Hs Hs' Hc Hc' Hstdeq. revert std' Hs' Hc' Hstdeq.
    induction Hs as [|o std Ho _ IH]; intros [|o' std'] Hs' Hc' Heq; try done.
    apply Forall_cons in Hc as [Ho1 Hc], Hs' as [Ho' Hs'], Hc' as [Ho1' Hc'].
    injection Heq as Hl Heq. f_equal; [by apply line_inj|by apply IH].
  - destruct He as [->|(i & name & ->)], He' as [->|(i' & name' & ->)]; try done.
    rewrite Forall_singleton in Hce, Hce'. destruct Hce as [Hi Hn], Hce' as [Hi' Hn'].
    destruct (error_line_inj i i' name name' Hi Hi' Hn Hn' Herr) as [-> ->]. done.
Qed.

(** ** What is printed for a valid block *)

Lemma le_at_range n b k : bytes_ok b -> 0 <= n -> 0 <= le_at n b k < 256 ^ n.
Proof.
  intros Hb Hn. unfold le_at.
  pose proof (le_value_range (take (Z.to_nat n) (drop (Z.to_nat k) b))) as Hr.
  assert (Hl : blen (take (Z.to_nat n) (drop (Z.to_nat k) b)) <= n)
    by (unfold blen; rewrite length_take; lia).
  pose proof (Z.pow_le_mono_r 256 _ _ ltac:(lia) Hl).
  specialize (Hr ltac:(by apply Forall_take, Forall_drop)). lia.
Qed.

(** A property of listed lines, one by one. *)
Ltac each_line tac :=
  repeat (apply Forall_cons_2; [cbn [canonical on_stdout]; split_and?; tac|]); apply Forall_nil_2.

Section block.
Context (h : bib_header) (gap : bytes) (ts : list tlv) (Hvalid : bib_valid h gap ts).

(** The printed members of a reference have their types. *)
Lemma reference_lines_canonical type r index :
  find_spec [] h ts type = inr r -> 0 <= index -> Forall canonical (reference_lines index r).
Proof.
  intros Hf Hi. unfold find_spec in Hf.
  destruct (list_find _ ts) as [[i t]|] eqn:Hl; [|discriminate].
  apply list_find_Some in Hl as (Ht & _ & _).
  pose proof (Forall_lookup_1 _ _ _ _ (bvd_records _ _ _ Hvalid) Ht) as Hwf.
  pose proof (tw_payload _ Hwf) as Hok. unfold reference_of in Hf.
  destruct (_ <? _); [discriminate|]. destruct (_ <? _); [discriminate|]. injection Hf as <-.
  pose proof (fun n k => le_at_range n (t_payload t) k Hok) as Hr.
  assert (Hfits : forall k, fits 64 (le_at 8 (t_payload t) k))
    by (intros k; apply (Hr 8 k); lia).
  assert (Hpos : forall n k, 0 <= n -> 0 <= le_at n (t_payload t) k) by (intros; by apply Hr).
  unfold reference_lines. cbn [ref_object_id ref_address ref_length ref_format_major ref_format_minor
    ref_integrity_kind ref_integrity_length].
  each_line ltac:(first [done|apply Hfits|apply Hpos; lia]).
Qed.

Lemma record_output_canonical i t :
  ts !! i = Some t -> Forall canonical (record_output h ts (Z.of_nat i) t).2.
Proof.
  intros Ht. pose proof (Forall_lookup_1 _ _ _ _ (bvd_records _ _ _ Hvalid) Ht) as Hwf.
  assert (Hhead : Forall canonical (record_head (Z.of_nat i) t)).
  { pose proof (blen_nonneg (t_payload t)). pose proof (tw_type _ Hwf). pose proof (tw_flags _ Hwf).
    unfold record_head. each_line ltac:(done || lia). }
  unfold record_output. destruct (is_reference_type (t_type t)).
  - destruct (find_spec [] h ts (t_type t)) as [e|r] eqn:Hf; cbn [snd]; apply Forall_app;
      (split; [done|]).
    + constructor; [|done]. split; [lia|]. by exists e.
    + eapply reference_lines_canonical; [done|lia].
  - apply Forall_app. split; [done|]. constructor; [|done].
    destruct (flag_set _ _); cbn; lia.
Qed.

(** Where the lines of a record go. *)
Lemma record_output_ordered i t :
  (exists std index name, record_output h ts i t = (true, std ++ [ErrReference index name]) /\
     Forall (fun o => on_stdout o = true) std) \/
  (exists std, record_output h ts i t = (false, std) /\ Forall (fun o => on_stdout o = true) std).
Proof.
  unfold record_output. destruct (is_reference_type (t_type t)).
  - destruct (find_spec [] h ts (t_type t)) as [e|r]; [left|right].
    + do 3 eexists. split; [done|]. each_line done.
    + eexists. split; [done|]. each_line done.
  - right. eexists. split; [done|]. destruct (flag_set _ _); each_line done.
Qed.

Lemma records_output_canonical i l :
  drop i ts = l -> Forall canonical (records_output h ts i l).2 /\ well_ordered (records_output h ts i l).2.
Proof.
  revert i. induction l as [|t l IH]; intros i Hl; cbn [records_output].
  { split; [done|]. exists [], []. by split_and!; [|constructor|left]. }
  assert (Ht : ts !! i = Some t) by (rewrite <-(Nat.add_0_r i), <-lookup_drop, Hl; done).
  assert (Hl' : drop (S i) ts = l) by (by rewrite <-Nat.add_1_r, <-drop_drop, Hl).
  pose proof (record_output_canonical i t Ht) as Hc.
  destruct (IH (S i) Hl') as [Hrc (std' & err & Hrest & Hs' & He)].
  destruct (record_output_ordered (Z.of_nat i) t) as [(std & index & name & Hr & Hs)|(std & Hr & Hs)];
    rewrite Hr in Hc |- *; cbn [snd] in *.
  - split; [done|]. exists std, [ErrReference index name]. split_and!; [done|done|right; by do 2 eexists].
  - destruct (records_output h ts (S i) l) as [res rest]. cbn [snd] in *. subst rest.
    split; [by apply Forall_app|]. exists (std ++ std'), err. rewrite app_assoc.
    split_and!; [done|by apply Forall_app|done].
Qed.

Lemma block_output_canonical :
  Forall canonical (block_output h ts).2 /\ well_ordered (block_output h ts).2.
Proof.
  destruct (records_output_canonical 0 ts eq_refl) as [Hc (std & err & Hout & Hs & He)].
  unfold block_output. destruct (records_output h ts 0 ts) as [res out]. cbn [snd] in *.
  pose proof (bvd_header _ _ _ Hvalid) as Hw.
  split.
  - apply Forall_app. split; [|done]. unfold header_output.
    pose proof (hw_flags _ Hw). pose proof (hw_total _ Hw). pose proof (hw_boot _ Hw).
    pose proof (hw_producer _ Hw). pose proof (hw_created _ Hw). pose proof (hw_count _ Hw).
    each_line ltac:(unfold fits in *; done || lia).
  - exists (header_output h ++ std), err. subst out. rewrite app_assoc.
    split_and!; [done| |done]. apply Forall_app. split; [|done]. each_line done.
Qed.
End block.

(** ** The output and the public view *)

(** What is printed for a record, from its public view. *)
Definition view_output (index : Z) (v : public_record) : list output :=
  [OutType index (pv_type v) (type_name (pv_type v));
   OutFlags index (pv_flags v) (flag_set (pv_flags v) ATARIX_BIB_TLV_FLAG_MANDATORY)
     (flag_set (pv_flags v) ATARIX_BIB_TLV_FLAG_SENSITIVE);
   OutPayloadLength index (pv_length v)] ++
  match pv_reference v with
  | Some (inl e) => [ErrReference index (error_name e)]
  | Some (inr r) =>
    [OutObjectId index (pr_object_id r); OutAddress index (pr_address r);
     OutLength index (pr_length r); OutFormatVersion index (pr_format r).1 (pr_format r).2;
     OutIntegrityKind index (pr_integrity r).1; OutIntegrityLength index (pr_integrity r).2]
  | None =>
    [if flag_set (pv_flags v) ATARIX_BIB_TLV_FLAG_SENSITIVE then OutRedacted index else OutOpaque index]
  end.

Lemma record_output_view h ts index t :
  record_output h ts index t =
  (unreadable (record_view h ts t), view_output index (record_view h ts t)).
Proof.
  unfold record_output, record_view, unreadable, view_output, record_head. cbn [pv_type pv_flags
    pv_length pv_reference].
  destruct (is_reference_type (t_type t)); [|done].
  by destruct (find_spec [] h ts (t_type t)) as [e|r].
Qed.

Lemma error_name_inj e e' : error_name e = error_name e' -> e = e'.
Proof. by destruct e, e'. Qed.

(** The lines of a record determine its view, whatever follows them. *)
Lemma view_output_inj index v v' x x' :
  view_output index v ++ x = view_output index v' ++ x' -> v = v' /\ x = x'.
Proof.
  destruct v as [type flags n ref], v' as [type' flags' n' ref'].
  unfold view_output. cbn [pv_type pv_flags pv_length pv_reference app].
  intros Heq. injection Heq as <- _ <- _ _ <- Heq.
  destruct ref as [[e|[o a l [f g] [j k]]]|], ref' as [[e'|[o' a' l' [f' g'] [j' k']]]|];
    cbn [app pr_object_id pr_address pr_length pr_format pr_integrity fst snd] in Heq;
    try discriminate Heq; try (by destruct (flag_set flags ATARIX_BIB_TLV_FLAG_SENSITIVE)).
  - injection Heq as He ->. apply error_name_inj in He as ->. done.
  - by injection Heq as -> -> -> -> -> -> -> ->.
  - by injection Heq as ->.
Qed.

Lemma records_output_cons h ts i t l :
  records_output h ts i (t :: l) =
  (if unreadable (record_view h ts t) then 2 else (records_output h ts (S i) l).1,
   view_output (Z.of_nat i) (record_view h ts t) ++
   if unreadable (record_view h ts t) then [] else (records_output h ts (S i) l).2).
Proof.
  cbn [records_output]. rewrite record_output_view.
  destruct (unreadable _); [by rewrite app_nil_r|]. by destruct (records_output h ts (S i) l).
Qed.

Lemma view_output_not_nil index v x : view_output index v ++ x <> [].
Proof. discriminate. Qed.

Lemma records_output_inj h h' ts ts' i l l' :
  (records_output h ts i l).2 = (records_output h' ts' i l').2 ->
  records_view h ts l = records_view h' ts' l'.
Proof.
  revert i l'. induction l as [|t l IH]; intros i [|t' l'] Heq; [done|..];
    rewrite ?records_output_cons in Heq; cbn [snd records_output] in Heq.
  - symmetry in Heq. by apply view_output_not_nil in Heq.
  - by apply view_output_not_nil in Heq.
  - apply view_output_inj in Heq as [Hv Hx]. cbn [records_view]. rewrite Hv in Hx |- *.
    destruct (unreadable _); [done|]. f_equal. by apply (IH (S i)).
Qed.

Lemma records_view_output h h' ts ts' i l l' :
  records_view h ts l = records_view h' ts' l' ->
  records_output h ts i l = records_output h' ts' i l'.
Proof.
  revert i l'. induction l as [|t l IH]; intros i [|t' l'] Heq; [done|..]; cbn [records_view] in Heq;
    rewrite ?records_output_cons.
  - by destruct (unreadable _).
  - by destruct (unreadable _).
  - assert (Hv : record_view h ts t = record_view h' ts' t')
      by (destruct (unreadable (record_view h ts t)), (unreadable (record_view h' ts' t')); congruence).
    rewrite Hv in Heq |- *. destruct (unreadable (record_view h' ts' t')); [done|].
    rewrite (IH (S i) l'); [done|congruence].
Qed.

Lemma block_output_view h h' ts ts' :
  (block_output h ts).2 = (block_output h' ts').2 <-> view_of_block h ts = view_of_block h' ts'.
Proof.
  unfold block_output, view_of_block. split.
  - intros Heq. pose proof (records_output_inj h h' ts ts' 0 ts ts') as Hr.
    destruct (records_output h ts 0 ts) as [res out], (records_output h' ts' 0 ts') as [res' out'].
    cbn [snd] in *. unfold header_output in Heq.
    injection Heq as -> -> _ -> -> -> -> Hout. by rewrite Hr.
  - intros [= Ht Hf Hb Hp Hc Hn Hr]. rewrite (records_view_output h h' ts ts' 0 ts ts' Hr).
    destruct (records_output h' ts' 0 ts') as [res' out']. cbn [snd]. unfold header_output.
    by rewrite Ht, Hf, Hb, Hp, Hc, Hn.
Qed.

(** ** The tool on an accepted file *)

(** What can be observed of a run. *)
Definition observation (r : option (Z * list event)) : option (Z * string * string) :=
  '(code, trace) ← r; Some (code, stdout_text trace, stderr_text trace).

(** The file starts with a valid block. *)
Definition file_holds (hst : host) (path : string) (h : bib_header) (ts : list tlv) : Prop :=
  exists gap rest, bib_valid h gap ts /\ file_contents hst path = Some (bib_image h gap ts ++ rest).

Lemma observation_block hst prog path h ts :
  host_ok hst -> file_holds hst path h ts ->
  observation (main hst [prog; path]) =
    Some ((block_output h ts).1, stdout_text (map render (block_output h ts).2),
          stderr_text (map render (block_output h ts).2)).
Proof.
  intros Hh (gap & rest & Hv & Hfile). pose proof (read_file_cases hst path Hh) as Hread.
  rewrite Hfile in Hread. destruct Hread as (slack & Hok & Hread).
  unfold main. cbn [length Nat.eqb negb lookup list_lookup]. rewrite bind_some, Hread.
  assert (Hrest : bytes_ok rest) by (by apply Forall_app in Hok as [[_ ?]%Forall_app _]).
  rewrite (dump_valid _ h gap ts rest slack Hv Hrest eq_refl), bind_some.
  destruct (block_output h ts) as [code out]. cbn [fst snd].
  destruct (dump_trace path (Z.max 1 (blen (bib_image h gap ts ++ rest))) out) as (_ & Ho & He).
  unfold observation. rewrite bind_some. cbn zeta in Ho, He. rewrite Ho, He. reflexivity.
Qed.

(** The exit code is part of the view. *)
Lemma block_output_code h h' ts ts' :
  view_of_block h ts = view_of_block h' ts' -> (block_output h ts).1 = (block_output h' ts').1.
Proof.
  intros [= _ _ _ _ _ _ Hr]. unfold block_output.
  rewrite (records_view_output h h' ts ts' 0 ts ts' Hr). by destruct (records_output h' ts' 0 ts').
Qed.

(** C23. Printing discloses exactly the public view (noninterference, and its
    converse): for two files that start with valid blocks, in any two environments
    in which they can be read, the exit code, stdout and stderr of atarix-bibdump
    are the same if and only if the blocks have the same public view. So no byte
    of the payload of a record that is not a reference, no padding, no checksum
    and nothing behind the block has any influence on the text, and everything
    the view has can be read off the text. *)
Theorem bibdump_discloses_public_view hst hst' prog prog' path path' h h' ts ts' :
  host_ok hst -> host_ok hst' -> file_holds hst path h ts -> file_holds hst' path' h' ts' ->
  observation (main hst [prog; path]) = observation (main hst' [prog'; path']) <->
  view_of_block h ts = view_of_block h' ts'.
Proof.
  intros Hh Hh' Hf Hf'.
  rewrite (observation_block _ _ _ _ _ Hh Hf), (observation_block _ _ _ _ _ Hh' Hf').
  rewrite <-block_output_view. split.
  - intros [= _ Hso Hse]. destruct Hf as (gap & rest & Hv & _), Hf' as (gap' & rest' & Hv' & _).
    destruct (block_output_canonical h gap ts Hv) as [Hc Hw].
    destruct (block_output_canonical h' gap' ts' Hv') as [Hc' Hw'].
    by apply text_determines_output.
  - intros Heq. pose proof (proj1 (block_output_view h h' ts ts') Heq) as Hview.
    by rewrite (block_output_code _ _ _ _ Hview), Heq.
Qed.

(** Two blocks that differ in a byte of a boot argument, and in their checksums. *)
Definition argument_records (b : Z) : list tlv :=
  sample_records ++ [padded_tlv ATARIX_BIB_TLV_BOOT_ARGUMENTS 0 [b; 7]].

Definition argument_header (b : Z) : bib_header :=
  built_header (fresh_header 0 1 2 3) (argument_records b).

Lemma argument_valid b : byte_ok b -> bib_valid (argument_header b) [] (argument_records b).
Proof.
  intros Hb. apply built_image_valid; try done.
  - apply Forall_app. split; [apply sample_records_wf|].
    apply Forall_cons_2; [|constructor]. apply padded_tlv_wf; try done.
    do 2 (apply Forall_cons_2; [done|]). apply Forall_nil_2.
  - by repeat constructor.
Qed.

Definition argument_host (b : Z) : host :=
  ordinary_host (fun _ => Some (bib_image (argument_header b) [] (argument_records b) ++ [b])).

Lemma bibdump_discloses_public_view_witness :
  observation (main (argument_host 1) ["atarix-bibdump"; "a"]%string) =
  observation (main (argument_host 2) ["atarix-bibdump"; "b"]%string).
Proof.
  refine (proj2 (bibdump_discloses_public_view (argument_host 1) (argument_host 2) _ _ _ _
    (argument_header 1) (argument_header 2) (argument_records 1) (argument_records 2) _ _ _ _) _).
  - apply ordinary_host_ok. intros _ file [= <-]. apply (bool_decide_unpack _). vm_compute. exact I.
  - apply ordinary_host_ok. intros _ file [= <-]. apply (bool_decide_unpack _). vm_compute. exact I.
  - exists [], [1]. split; [by apply argument_valid|]. vm_compute. reflexivity.
  - exists [], [2]. split; [by apply argument_valid|]. vm_compute. reflexivity.
  - vm_compute. reflexivity.
Defined.
