(* ===== verification/BibEvidence.v ===== *)
(** * From capture to printed evidence

    The path of a Boot Information Block through the whole system: the capture of
    [src/sim/sim_bib.c] publishes it, its bytes are saved as a file, and
    [atarix-bibdump] prints that file. The repository records one such run, in
    [evidence/atx-bib-001] (the bytes) and [docs/evidence/atx-bib-001] (the
    text), for the configuration of [tests/sim/test_sim_bib_capture.c]; the model
    is checked against it. *)

From S2P Require Import Prelude Host Crc BibFormat BibBuilder BibReader SimBib BibDump BibDumpTool.
From stdpp Require Import strings.
#[local] Open Scope Z_scope.

(** ** What is printed for a capture *)

Definition text_of_lines (lines : list string) : string :=
  text_concat (map (fun line => line +:+ newline) lines).

Definition header_flag_text (flags : Z) : string :=
  (if flags =? 0 then " none" else EmptyString) +:+
  (if flag_set flags ATARIX_BIB_FLAG_RECOVERY_BOOT then " recovery" else EmptyString) +:+
  (if flag_set flags ATARIX_BIB_FLAG_DEGRADED_BOOT then " degraded" else EmptyString) +:+
  (if flag_set flags ATARIX_BIB_FLAG_SECURE_POLICY_ACTIVE then " secure-policy" else EmptyString) +:+
  (if flag_set flags ATARIX_BIB_FLAG_DIAGNOSTIC_BOOT then " diagnostic" else EmptyString).

(** The lines of a mandatory reference of format 1.0 without integrity data. *)
Definition reference_text (record type_line : string) (object_id address length : Z)
  : list string :=
  [record +:+ ".type: " +:+ type_line;
   record +:+ ".flags: 0x0001 mandatory";
   record +:+ ".payload-length: 40";
   record +:+ ".object-id: 0x" +:+ hex 16 object_id;
   record +:+ ".address: 0x" +:+ hex 16 address;
   record +:+ ".length: " +:+ dec length;
   record +:+ ".format: 1.0";
   record +:+ ".integrity-kind: 0";
   record +:+ ".integrity-length: 0"].

Definition capture_text (c : atarix_sim_bib_capture_config_t) : list string :=
  ["format: ATARIX-BIB";
   "version: 1.0";
   "total-length: 176";
   "flags: 0x" +:+ hex 4 (sbc_header_flags c) +:+ header_flag_text (sbc_header_flags c);
   "boot-id: 0x" +:+ hex 16 (sbc_boot_id c);
   "producer-id: 0x" +:+ hex 16 (sbc_producer_id c);
   "created-counter: " +:+ dec (sbc_created_counter c);
   "record-count: 2"] ++
  reference_text "record[0]" "0x0001 service-directory-reference"
    (sbc_service_object_id c) (sbc_service_address c) (sbc_service_length c) ++
  reference_text "record[1]" "0x0002 memory-map-reference"
    (sbc_memory_object_id c) (sbc_memory_address c) (sbc_memory_length c).

(** ** The recorded run *)

Definition evidence_config : atarix_sim_bib_capture_config_t :=
  SimBibConfig ATARIX_BIB_FLAG_DIAGNOSTIC_BOOT 0x454D554C41544F52 0x4154415249580001 1
    0x1001 0x00100000 0x00002000 0x1002 0x00200000 0x00003000.

Definition evidence_capture : bytes :=
  [0x41; 0x54; 0x41; 0x52; 0x58; 0x42; 0x49; 0x42; 0x01; 0x00; 0x00; 0x00; 0x40; 0x00; 0x08; 0x00;
   0xB0; 0x00; 0x00; 0x00; 0xB6; 0x2B; 0x2D; 0x9E; 0x52; 0x4F; 0x54; 0x41; 0x4C; 0x55; 0x4D; 0x45;
   0x01; 0x00; 0x58; 0x49; 0x52; 0x41; 0x54; 0x41; 0x01; 0x00; 0x00; 0x00; 0x00; 0x00; 0x00; 0x00;
   0x40; 0x00; 0x00; 0x00; 0x02; 0x00; 0x00; 0x00; 0x00; 0x00; 0x00; 0x00; 0x00; 0x00; 0x00; 0x00;
   0x01; 0x00; 0x01; 0x00; 0x38; 0x00; 0x00; 0x00; 0x28; 0x00; 0x00; 0x00; 0x00; 0x00; 0x00; 0x00;
   0x01; 0x10; 0x00; 0x00; 0x00; 0x00; 0x00; 0x00; 0x00; 0x00; 0x10; 0x00; 0x00; 0x00; 0x00; 0x00;
   0x00; 0x20; 0x00; 0x00; 0x00; 0x00; 0x00; 0x00; 0x01; 0x00; 0x00; 0x00; 0x00; 0x00; 0x00; 0x00;
   0x00; 0x00; 0x00; 0x00; 0x00; 0x00; 0x00; 0x00; 0x02; 0x00; 0x01; 0x00; 0x38; 0x00; 0x00; 0x00;
   0x28; 0x00; 0x00; 0x00; 0x00; 0x00; 0x00; 0x00; 0x02; 0x10; 0x00; 0x00; 0x00; 0x00; 0x00; 0x00;
   0x00; 0x00; 0x20; 0x00; 0x00; 0x00; 0x00; 0x00; 0x00; 0x30; 0x00; 0x00; 0x00; 0x00; 0x00; 0x00;
   0x01; 0x00; 0x00; 0x00; 0x00; 0x00; 0x00; 0x00; 0x00; 0x00; 0x00; 0x00; 0x00; 0x00; 0x00; 0x00].

Definition evidence_text : list string :=
  ["format: ATARIX-BIB";
   "version: 1.0";
   "total-length: 176";
   "flags: 0x0008 diagnostic";
   "boot-id: 0x454d554c41544f52";
   "producer-id: 0x4154415249580001";
   "created-counter: 1";
   "record-count: 2";
   "record[0].type: 0x0001 service-directory-reference";
   "record[0].flags: 0x0001 mandatory";
   "record[0].payload-length: 40";
   "record[0].object-id: 0x0000000000001001";
   "record[0].address: 0x0000000000100000";
   "record[0].length: 8192";
   "record[0].format: 1.0";
   "record[0].integrity-kind: 0";
   "record[0].integrity-length: 0";
   "record[1].type: 0x0002 memory-map-reference";
   "record[1].flags: 0x0001 mandatory";
   "record[1].payload-length: 40";
   "record[1].object-id: 0x0000000000001002";
   "record[1].address: 0x0000000000200000";
   "record[1].length: 12288";
   "record[1].format: 1.0";
   "record[1].integrity-kind: 0";
   "record[1].integrity-length: 0"].

Lemma evidence_text_capture : capture_text evidence_config = evidence_text.
Proof. by vm_compute. Qed.

Lemma evidence_capture_image :
  built_image (capture_header evidence_config)
    [service_tlv evidence_config; memory_tlv evidence_config] = evidence_capture.
Proof. by vm_compute. Qed.

(** ** Printing a capture *)

Lemma capture_references c h :
  config_ok c ->
  (exists at_, find_spec [] h [service_tlv c; memory_tlv c] ATARIX_BIB_TLV_SERVICE_DIRECTORY_REFERENCE =
    inr (BibReferenceView (sbc_service_object_id c) (sbc_service_address c)
           (sbc_service_length c) 1 0 0 at_ 0)) /\
  (exists at_, find_spec [] h [service_tlv c; memory_tlv c] ATARIX_BIB_TLV_MEMORY_MAP_REFERENCE =
    inr (BibReferenceView (sbc_memory_object_id c) (sbc_memory_address c)
           (sbc_memory_length c) 1 0 0 at_ 0)).
Proof.
  intros []. unfold UINT64_MAX in *. split; eexists.
  - change (find_spec [] h _ _) with
      (reference_of [] (record_start h [service_tlv c; memory_tlv c] 0) (service_tlv c)).
    unfold service_tlv at 2. by rewrite reference_of_reference by (done || unfold fits; lia).
  - change (find_spec [] h _ _) with
      (reference_of [] (record_start h [service_tlv c; memory_tlv c] 1) (memory_tlv c)).
    unfold memory_tlv at 2. by rewrite reference_of_reference by (done || unfold fits; lia).
Qed.

Lemma header_flags_text flags :
  render (print_header_flags flags) =
  Stdout ("flags: 0x" +:+ hex 4 flags +:+ header_flag_text flags +:+ newline).
Proof.
  unfold print_header_flags, header_flag_text. cbn [render]. do 3 f_equal.
  destruct (flags =? 0), (flag_set flags ATARIX_BIB_FLAG_RECOVERY_BOOT),
    (flag_set flags ATARIX_BIB_FLAG_DEGRADED_BOOT),
    (flag_set flags ATARIX_BIB_FLAG_SECURE_POLICY_ACTIVE),
    (flag_set flags ATARIX_BIB_FLAG_DIAGNOSTIC_BOOT); reflexivity.
Qed.

Definition printed (line : string) : event := Stdout (line +:+ newline).

Lemma printed_stdout lines : stdout_text (map printed lines) = text_of_lines lines.
Proof.
  unfold stdout_text, text_of_lines. f_equal.
  induction lines as [|line lines IH]; [done|]. cbn. by f_equal.
Qed.

Lemma printed_stderr lines : stderr_text (map printed lines) = EmptyString.
Proof. unfold stderr_text. by induction lines. Qed.

(** The six lines after the head of a reference record. *)
Lemma reference_lines_text index record o a l at_ :
  record = ("record[" +:+ dec index +:+ "]")%string ->
  map render (reference_lines index (BibReferenceView o a l 1 0 0 at_ 0)) =
  map printed (drop 3 (reference_text record EmptyString o a l)).
Proof.
  intros ->. cbn [map reference_lines reference_text drop render ref_object_id ref_address ref_length
    ref_format_major ref_format_minor ref_integrity_kind ref_integrity_length].
  unfold printed, record_line.
  generalize (dec index) (hex 16 o) (hex 16 a) (dec l). intros i s1 s2 s3.
  change (dec 0) with "0"%string. change (dec 1) with "1"%string.
  by rewrite !string_app_assoc.
Qed.

Lemma service_text c at_ :
  map render (record_head 0 (service_tlv c) ++
    reference_lines 0 (BibReferenceView (sbc_service_object_id c) (sbc_service_address c)
      (sbc_service_length c) 1 0 0 at_ 0)) =
  map printed (reference_text "record[0]" "0x0001 service-directory-reference"
    (sbc_service_object_id c) (sbc_service_address c) (sbc_service_length c)).
Proof.
  rewrite map_app, (reference_lines_text 0 "record[0]") by done.
  unfold record_head, service_tlv, padded_tlv. cbn [t_type t_flags t_payload].
  by rewrite blen_enc_reference.
Qed.

Lemma memory_text c at_ :
  map render (record_head 1 (memory_tlv c) ++
    reference_lines 1 (BibReferenceView (sbc_memory_object_id c) (sbc_memory_address c)
      (sbc_memory_length c) 1 0 0 at_ 0)) =
  map printed (reference_text "record[1]" "0x0002 memory-map-reference"
    (sbc_memory_object_id c) (sbc_memory_address c) (sbc_memory_length c)).
Proof.
  rewrite map_app, (reference_lines_text 1 "record[1]") by done.
  unfold record_head, memory_tlv, padded_tlv. cbn [t_type t_flags t_payload].
  by rewrite blen_enc_reference.
Qed.

Lemma header_text c :
  map render (header_output (built_header (capture_header c) [service_tlv c; memory_tlv c])) =
  map printed (take 8 (capture_text c)).
Proof.
  unfold header_output, capture_text, capture_header, built_header, sealed_header, fresh_header.
  cbn [map bh_flags bh_boot_id bh_producer_id bh_created_counter bh_total_length bh_tlv_count
    app take length]. rewrite header_flags_text.
  change (64 + blen (enc_tlvs _)) with 176. change (Z.of_nat 2) with 2.
  unfold printed. cbn [render]. by rewrite !string_app_assoc.
Qed.

Lemma capture_output c :
  config_ok c ->
  let ts := [service_tlv c; memory_tlv c] in
  let '(code, out) := block_output (built_header (capture_header c) ts) ts in
  code = 0 /\ stdout_text (map render out) = text_of_lines (capture_text c) /\
  stderr_text (map render out) = EmptyString.
Proof.
  intros Hc ts. set (h := built_header _ _). destruct (capture_references c h Hc) as [[p Hs] [q Hm]].
  unfold block_output, ts, records_output, record_output.
  change (t_type (service_tlv c)) with ATARIX_BIB_TLV_SERVICE_DIRECTORY_REFERENCE.
  change (t_type (memory_tlv c)) with ATARIX_BIB_TLV_MEMORY_MAP_REFERENCE.
  rewrite Hs, Hm.
  change (is_reference_type ATARIX_BIB_TLV_SERVICE_DIRECTORY_REFERENCE) with true.
  change (is_reference_type ATARIX_BIB_TLV_MEMORY_MAP_REFERENCE) with true. cbv iota beta.
  split; [done|]. change (Z.of_nat 0) with 0. change (Z.of_nat 1) with 1.
  rewrite app_nil_r, (map_app render (header_output h)), (map_app render (_ ++ _)).
  rewrite service_text, memory_text. unfold h, ts. rewrite header_text, <-!map_app.
  split; [exact (printed_stdout _)|exact (printed_stderr _)].
Qed.

(** The bytes that a capture leaves at the start of the buffer. *)
Definition captured (c : atarix_sim_bib_capture_config_t) : bytes :=
  built_image (capture_header c) [service_tlv c; memory_tlv c].

Lemma capture_bytes c m capacity out :
  atarix_bib_header_flags_are_known (sbc_header_flags c) = true ->
  ATARIX_SIM_BIB_CAPTURE_SIZE <= capacity <= UINT32_MAX -> capacity <= blen m ->
  exists m', atarix_sim_bib_capture (Some c) (Some m) capacity (Some out) =
      Some (ATARIX_BIB_BUILDER_OK, Some m', Some ATARIX_SIM_BIB_CAPTURE_SIZE) /\
    load_bytes m' 0 ATARIX_SIM_BIB_CAPTURE_SIZE = Some (captured c).
Proof.
  unfold ATARIX_SIM_BIB_CAPTURE_SIZE. intros Hk Hc Hm.
  destruct (capture_run c m capacity out) as (b & ts & _ & _ & ->); [lia|done|done|].
  destruct (Z.ltb_spec capacity 176); [lia|]. eexists. split; [done|].
  exact (load_bytes_app [] (captured c) _ 0 176 eq_refl eq_refl).
Qed.

Lemma print_captured c h prog path :
  config_ok c -> atarix_bib_header_flags_are_known (sbc_header_flags c) = true ->
  host_ok h -> file_contents h path = Some (captured c) ->
  exists trace, main h [prog; path] = Some (0, trace) /\ no_leak trace /\
    stdout_text trace = text_of_lines (capture_text c) /\ stderr_text trace = EmptyString.
Proof.
  intros Hc Hk Hh Hfile. pose proof (read_file_cases h path Hh) as Hread. rewrite Hfile in Hread.
  destruct Hread as (rest & Hok & Hread). unfold main. cbn [length Nat.eqb negb lookup list_lookup].
  rewrite bind_some, Hread.
  pose proof (capture_valid c Hc Hk) as Hvalid. pose proof (capture_output c Hc) as Hout.
  cbn zeta in Hout.
  set (bh := built_header (capture_header c) [service_tlv c; memory_tlv c]) in *.
  pose proof (dump_valid (captured c ++ rest) bh [] [service_tlv c; memory_tlv c] [] rest Hvalid
    (Forall_nil_2 _)) as Hdump.
  rewrite app_nil_r in Hdump. change (bib_image bh [] _) with (captured c) in Hdump.
  rewrite Hdump by done. clear Hdump. rewrite bind_some.
  destruct (block_output bh [service_tlv c; memory_tlv c]) as [code out].
  destruct Hout as (-> & Hso & Hse).
  destruct (dump_trace path (Z.max 1 (blen (captured c))) out) as (Hleak & Ho & He).
  eexists. split; [reflexivity|]. split; [exact Hleak|]. split; [by rewrite Ho|by rewrite He].
Qed.

(** ** Properties *)

(** C13. End to end: a configuration whose ranges do not wrap is captured into a
    buffer, the captured bytes are a file, and in any environment in which that
    file can be read atarix-bibdump exits with 0 and prints the configuration:
    exactly the lines [capture_text], every flag, identifier, address and length
    in its place, and nothing on stderr. *)
Theorem bib_capture_printed c m capacity out :
  config_ok c -> atarix_bib_header_flags_are_known (sbc_header_flags c) = true ->
  ATARIX_SIM_BIB_CAPTURE_SIZE <= capacity <= UINT32_MAX -> capacity <= blen m ->
  exists m' file, atarix_sim_bib_capture (Some c) (Some m) capacity (Some out) =
      Some (ATARIX_BIB_BUILDER_OK, Some m', Some ATARIX_SIM_BIB_CAPTURE_SIZE) /\
    load_bytes m' 0 ATARIX_SIM_BIB_CAPTURE_SIZE = Some file /\
    forall h prog path, host_ok h -> file_contents h path = Some file ->
    exists trace, main h [prog; path] = Some (0, trace) /\ no_leak trace /\
      stdout_text trace = text_of_lines (capture_text c) /\ stderr_text trace = EmptyString.
Proof.
  intros Hc Hk Hcap Hm. destruct (capture_bytes c m capacity out Hk Hcap Hm) as (m' & Hrun & Hload).
  exists m', (captured c). split; [done|]. split; [done|]. intros. by apply print_captured.
Qed.

Lemma evidence_config_ok : config_ok evidence_config.
Proof. split; vm_compute; intuition discriminate. Qed.

Lemma bib_capture_printed_witness :
  exists m' file, atarix_sim_bib_capture (Some evidence_config) (Some (replicate 200 0xFF)) 190 (Some 0) =
      Some (ATARIX_BIB_BUILDER_OK, Some m', Some ATARIX_SIM_BIB_CAPTURE_SIZE) /\
    load_bytes m' 0 ATARIX_SIM_BIB_CAPTURE_SIZE = Some file.
Proof.
  destruct (bib_capture_printed evidence_config (replicate 200 0xFF) 190 0 evidence_config_ok eq_refl
    ltac:(vm_compute; intuition discriminate) ltac:(vm_compute; discriminate))
    as (m' & file & Hrun & Hload & _).
  exists m', file. exact (conj Hrun Hload).
Defined.

(** C27. The model reproduces the recorded run: the capture of the configuration of
    the repository's test leaves exactly the recorded 176 bytes, checksum
    included, and atarix-bibdump prints exactly the recorded text for a file that
    holds them. *)
Theorem bib_evidence_reproduced m out h prog path :
  ATARIX_SIM_BIB_CAPTURE_SIZE <= blen m -> host_ok h ->
  file_contents h path = Some evidence_capture ->
  exists m' trace,
    atarix_sim_bib_capture (Some evidence_config) (Some m) ATARIX_SIM_BIB_CAPTURE_SIZE (Some out) =
      Some (ATARIX_BIB_BUILDER_OK, Some m', Some ATARIX_SIM_BIB_CAPTURE_SIZE) /\
    load_bytes m' 0 ATARIX_SIM_BIB_CAPTURE_SIZE = Some evidence_capture /\
    main h [prog; path] = Some (0, trace) /\ stdout_text trace = text_of_lines evidence_text /\
    stderr_text trace = EmptyString.
Proof.
  rewrite <-evidence_capture_image, <-evidence_text_capture. intros Hm Hh Hfile.
  destruct (capture_bytes evidence_config m ATARIX_SIM_BIB_CAPTURE_SIZE out eq_refl) as (m' & Hrun & Hload);
    [split; vm_compute; discriminate|exact Hm|].
  destruct (print_captured evidence_config h prog path evidence_config_ok eq_refl Hh Hfile)
    as (trace & Hmain & _ & Hso & Hse).
  exists m', trace. exact (conj Hrun (conj Hload (conj Hmain (conj Hso Hse)))).
Qed.

Lemma bib_evidence_reproduced_witness :
  exists trace,
    main (ordinary_host (fun _ => Some evidence_capture)) ["atarix-bibdump"; "capture"]%string =
      Some (0, trace) /\ stdout_text trace = text_of_lines evidence_text.
Proof.
  destruct (bib_evidence_reproduced (replicate 176 0) 0
    (ordinary_host (fun _ => Some evidence_capture)) "atarix-bibdump" "capture")
    as (m' & trace & _ & _ & Hrun & Htext & _).
  - vm_compute. discriminate.
  - apply ordinary_host_ok. intros _ file [= <-]. by apply (bool_decide_unpack _); vm_compute.
  - vm_compute. reflexivity.
  - exists trace. exact (conj Hrun Htext).
Defined.
