(* ===== verification/Registries.v ===== *)
(** * Identifier registries and their predicates

    [include/atarix/resource_types.h] and [service_ids.h] (the 16-bit numbers a
    discovery handle and a directory entry carry), the operation numbers of
    [operations.h], the node addresses of [sim_types.h], the flags and dependency
    types of [discovery.h], and the constants and inline predicates of
    [directory.h], [index.h] and [identity_eeprom.h], headers whose structures no
    code of the repository reads or writes yet. *)

From S2P Require Import Prelude Capability.

(** ** resource_types.h *)

Definition ATARIX_RESOURCE_INVALID : Z := 0x0000.
Definition ATARIX_RESOURCE_MAILBOX : Z := 0x0001.
Definition ATARIX_RESOURCE_DMA : Z := 0x0002.
Definition ATARIX_RESOURCE_TIMER : Z := 0x0003.
Definition ATARIX_RESOURCE_INTERRUPT_CONTROLLER : Z := 0x0004.
Definition ATARIX_RESOURCE_GPIO : Z := 0x0005.
Definition ATARIX_RESOURCE_UART : Z := 0x0006.
Definition ATARIX_RESOURCE_FABRIC_MEMORY : Z := 0x0007.
Definition ATARIX_RESOURCE_SHARED_MEMORY : Z := 0x0008.
Definition ATARIX_RESOURCE_EVENT_QUEUE : Z := 0x0009.
Definition ATARIX_RESOURCE_ENUMERATION_FABRIC : Z := 0x000A.
Definition ATARIX_RESOURCE_MANAGEMENT_FABRIC : Z := 0x000B.
Definition ATARIX_RESOURCE_TRANSPORT_FABRIC : Z := 0x000C.
Definition ATARIX_RESOURCE_SUPERVISOR : Z := 0x0010.
Definition ATARIX_RESOURCE_HEALTH_MONITOR : Z := 0x0011.
Definition ATARIX_RESOURCE_PROVISIONING_ENGINE : Z := 0x0012.
Definition ATARIX_RESOURCE_VALIDATION_ENGINE : Z := 0x0013.
Definition ATARIX_RESOURCE_LOGIC_ANALYZER : Z := 0x1000.
Definition ATARIX_RESOURCE_OSCILLOSCOPE : Z := 0x1001.
Definition ATARIX_RESOURCE_DSP : Z := 0x1002.
Definition ATARIX_RESOURCE_PATTERN_GENERATOR : Z := 0x1003.
Definition ATARIX_RESOURCE_PROTOCOL_DECODER : Z := 0x1004.
Definition ATARIX_RESOURCE_COUNTER_BANK : Z := 0x1005.
Definition ATARIX_RESOURCE_TRIGGER_ROUTER : Z := 0x1006.
Definition ATARIX_RESOURCE_TRACE_BUFFER : Z := 0x1007.
Definition ATARIX_RESOURCE_CPU : Z := 0x2000.
Definition ATARIX_RESOURCE_CPU_DIAGNOSTICS : Z := 0x2001.
Definition ATARIX_RESOURCE_CPU_TRACE : Z := 0x2002.
Definition ATARIX_RESOURCE_CPU_HEALTH : Z := 0x2003.
Definition ATARIX_RESOURCE_CPU_BOOT_STATUS : Z := 0x2004.
Definition ATARIX_RESOURCE_NETWORK_INTERFACE : Z := 0x3000.
Definition ATARIX_RESOURCE_PACKET_ENGINE : Z := 0x3001.
Definition ATARIX_RESOURCE_NETWORK_BOOT : Z := 0x3002.
Definition ATARIX_RESOURCE_BLOCK_STORAGE : Z := 0x4000.
Definition ATARIX_RESOURCE_FILE_STORAGE : Z := 0x4001.
Definition ATARIX_RESOURCE_ROM_STORAGE : Z := 0x4002.
Definition ATARIX_RESOURCE_CONFIGURATION_STORAGE : Z := 0x4003.
Definition ATARIX_RESOURCE_GPU : Z := 0x6000.
Definition ATARIX_RESOURCE_AI_ACCELERATOR : Z := 0x6001.
Definition ATARIX_RESOURCE_VECTOR_ENGINE : Z := 0x6002.
Definition ATARIX_RESOURCE_FPGA_COMPUTE : Z := 0x6003.
Definition ATARIX_RESOURCE_CRYPTO_ENGINE : Z := 0x6004.
Definition ATARIX_RESOURCE_EXPERIMENTAL_BEGIN : Z := 0x8000.
Definition ATARIX_RESOURCE_EXPERIMENTAL_END : Z := 0xFFFF.

Definition atarix_resource_is_experimental (resource_type : Z) : bool :=
  (ATARIX_RESOURCE_EXPERIMENTAL_BEGIN <=? resource_type) &&
  (resource_type <=? ATARIX_RESOURCE_EXPERIMENTAL_END).

(** ** service_ids.h *)

Definition ATARIX_SERVICE_INVALID : Z := 0x0000.
Definition ATARIX_SERVICE_DISCOVERY : Z := 0x0001.
Definition ATARIX_SERVICE_DIRECTORY : Z := 0x0002.
Definition ATARIX_SERVICE_PROVISIONING : Z := 0x0003.
Definition ATARIX_SERVICE_VALIDATION : Z := 0x0004.
Definition ATARIX_SERVICE_MONITOR : Z := 0x0005.
Definition ATARIX_SERVICE_HEALTH : Z := 0x0006.
Definition ATARIX_SERVICE_FAULT_LOG : Z := 0x0007.
Definition ATARIX_SERVICE_EVENT_LOG : Z := 0x0008.
Definition ATARIX_SERVICE_TIMEBASE : Z := 0x0009.
Definition ATARIX_SERVICE_MAILBOX : Z := 0x000A.
Definition ATARIX_SERVICE_DMA : Z := 0x000B.
Definition ATARIX_SERVICE_INTERRUPT_ROUTING : Z := 0x000C.
Definition ATARIX_SERVICE_RECOVERY : Z := 0x000D.
Definition ATARIX_SERVICE_INSTRUMENTATION : Z := 0x1000.
Definition ATARIX_SERVICE_CAPTURE : Z := 0x1001.
Definition ATARIX_SERVICE_ANALYSIS : Z := 0x1002.
Definition ATARIX_SERVICE_TRACE : Z := 0x1003.
Definition ATARIX_SERVICE_LOGIC_ANALYZER : Z := 0x1004.
Definition ATARIX_SERVICE_OSCILLOSCOPE : Z := 0x1005.
Definition ATARIX_SERVICE_PATTERN_GENERATOR : Z := 0x1006.
Definition ATARIX_SERVICE_PROTOCOL_DECODER : Z := 0x1007.
Definition ATARIX_SERVICE_COUNTERS : Z := 0x1008.
Definition ATARIX_SERVICE_TRIGGER_ROUTER : Z := 0x1009.
Definition ATARIX_SERVICE_CPU_DIAGNOSTICS : Z := 0x2000.
Definition ATARIX_SERVICE_CPU_HEALTH : Z := 0x2001.
Definition ATARIX_SERVICE_CPU_TRACE : Z := 0x2002.
Definition ATARIX_SERVICE_CPU_BOOT_STATUS : Z := 0x2003.
Definition ATARIX_SERVICE_CPU_VALIDATION : Z := 0x2004.
Definition ATARIX_SERVICE_NETWORK_INTERFACE : Z := 0x3000.
Definition ATARIX_SERVICE_NETWORK_BOOT : Z := 0x3001.
Definition ATARIX_SERVICE_PACKET_TRANSPORT : Z := 0x3002.
Definition ATARIX_SERVICE_TIME_SYNC : Z := 0x3003.
Definition ATARIX_SERVICE_BLOCK_STORAGE : Z := 0x4000.
Definition ATARIX_SERVICE_FILE_STORAGE : Z := 0x4001.
Definition ATARIX_SERVICE_ROM_STORAGE : Z := 0x4002.
Definition ATARIX_SERVICE_CONFIGURATION_STORAGE : Z := 0x4003.
Definition ATARIX_SERVICE_GPU_COMPUTE : Z := 0x6000.
Definition ATARIX_SERVICE_AI_ACCELERATION : Z := 0x6001.
Definition ATARIX_SERVICE_VECTOR_COMPUTE : Z := 0x6002.
Definition ATARIX_SERVICE_FPGA_COMPUTE : Z := 0x6003.
Definition ATARIX_SERVICE_CRYPTO_ACCELERATION : Z := 0x6004.
Definition ATARIX_SERVICE_EXPERIMENTAL_BEGIN : Z := 0x8000.
Definition ATARIX_SERVICE_EXPERIMENTAL_END : Z := 0xFFFF.

Definition atarix_service_is_experimental (service_id : Z) : bool :=
  (ATARIX_SERVICE_EXPERIMENTAL_BEGIN <=? service_id) &&
  (service_id <=? ATARIX_SERVICE_EXPERIMENTAL_END).

(** ** operations.h *)

Definition ATARIX_OPERATION_RESET : Z := 0x00000004.
Definition ATARIX_OPERATION_CAPTURE : Z := 0x00000005.
Definition ATARIX_OPERATION_STIMULATE : Z := 0x00000006.
Definition ATARIX_OPERATION_BOOT : Z := 0x00000007.
Definition ATARIX_OPERATION_RECOVER : Z := 0x00000008.
Definition ATARIX_OPERATION_PROVISION : Z := 0x00000009.
Definition ATARIX_OPERATION_ENUMERATE : Z := 0x0000000A.
Definition ATARIX_OPERATION_VALIDATE : Z := 0x0000000B.
Definition ATARIX_OPERATION_MONITOR : Z := 0x0000000C.
Definition ATARIX_OPERATION_BIND : Z := 0x0000000D.
Definition ATARIX_OPERATION_DELEGATE : Z := 0x0000000E.
Definition ATARIX_OPERATION_REVOKE : Z := 0x0000000F.
Definition ATARIX_OPERATION_TRACE_START : Z := 0x00001000.
Definition ATARIX_OPERATION_TRACE_STOP : Z := 0x00001001.
Definition ATARIX_OPERATION_TRACE_EXPORT : Z := 0x00001002.
Definition ATARIX_OPERATION_TRIGGER_ARM : Z := 0x00001003.
Definition ATARIX_OPERATION_TRIGGER_FIRE : Z := 0x00001004.
Definition ATARIX_OPERATION_PATTERN_LOAD : Z := 0x00001005.
Definition ATARIX_OPERATION_PATTERN_START : Z := 0x00001006.
Definition ATARIX_OPERATION_PATTERN_STOP : Z := 0x00001007.
Definition ATARIX_OPERATION_CPU_READ_HEALTH : Z := 0x00002000.
Definition ATARIX_OPERATION_CPU_READ_BOOT_STATUS : Z := 0x00002001.
Definition ATARIX_OPERATION_CPU_HOLD_RESET : Z := 0x00002002.
Definition ATARIX_OPERATION_CPU_RELEASE_RESET : Z := 0x00002003.
Definition ATARIX_OPERATION_CPU_CAPTURE_TRACE : Z := 0x00002004.
Definition ATARIX_OPERATION_CPU_VALIDATE : Z := 0x00002005.
Definition ATARIX_OPERATION_EXPERIMENTAL_END : Z := 0xFFFFFFFF.

(** ** directory.h *)

Definition ATARIX_DIRECTORY_VERSION_MAJOR_V1 : Z := 1.
Definition ATARIX_DIRECTORY_VERSION_MINOR_V0 : Z := 0.
Definition ATARIX_DIRECTORY_HEADER_SIZE_V1 : Z := 32.
Definition ATARIX_DIRECTORY_ENTRY_SIZE_V1 : Z := 56.
Definition ATARIX_DIRECTORY_BINDING_INVALID : Z := 0x00000000.
Definition ATARIX_DIRECTORY_BINDING_MAILBOX : Z := 0x00000001.
Definition ATARIX_DIRECTORY_BINDING_TRANSPORT_HANDLE : Z := 0x00000002.
Definition ATARIX_DIRECTORY_BINDING_SHARED_MEMORY : Z := 0x00000003.
Definition ATARIX_DIRECTORY_BINDING_SUPERVISOR_CALL : Z := 0x00000004.
Definition ATARIX_DIRECTORY_BINDING_FABRIC_SERVICE : Z := 0x00000005.
Definition ATARIX_DIRECTORY_BINDING_NETWORK_ENDPOINT : Z := 0x00000006.
Definition ATARIX_DIRECTORY_BINDING_STORAGE_ENDPOINT : Z := 0x00000007.
Definition ATARIX_DIRECTORY_FLAG_RESTRICTED : Z := 1 .<< 2.
Definition ATARIX_DIRECTORY_FLAG_RECOVERY_ONLY : Z := 1 .<< 3.
Definition ATARIX_DIRECTORY_FLAG_DEVELOPMENT_ONLY : Z := 1 .<< 4.
Definition ATARIX_DIRECTORY_FLAG_HOTPLUG_CAPABLE : Z := 1 .<< 5.
Definition ATARIX_DIRECTORY_FLAG_INSTRUMENTED : Z := 1 .<< 6.

Definition ATARIX_DIRECTORY_MAGIC_ATDR : Z := 0x52445441.
Definition ATARIX_DIRECTORY_FLAG_AVAILABLE : Z := 1 .<< 0.
Definition ATARIX_DIRECTORY_FLAG_AUTHORIZED : Z := 1 .<< 1.

Definition atarix_directory_magic_is_valid (magic : Z) : bool :=
  magic =? ATARIX_DIRECTORY_MAGIC_ATDR.

Definition atarix_directory_entry_is_available (flags : Z) : bool :=
  negb (flags .& ATARIX_DIRECTORY_FLAG_AVAILABLE =? 0).

Definition atarix_directory_entry_is_authorized (flags : Z) : bool :=
  negb (flags .& ATARIX_DIRECTORY_FLAG_AUTHORIZED =? 0).

(** ** index.h *)

Definition ATARIX_INDEX_ABI_VERSION_1 : Z := 1.
Definition ATARIX_INDEX_QUERY_PAYLOAD_SIZE_V1 : Z := 16.
Definition ATARIX_INDEX_REPLY_PAYLOAD_SIZE_V1 : Z := 16.
Definition ATARIX_INDEX_PROJECTION_NONE : Z := 0x00.

Definition ATARIX_INDEX_QUERY_EXACT : Z := 0.
Definition ATARIX_INDEX_QUERY_RANGE : Z := 1.
Definition ATARIX_INDEX_QUERY_FILTER : Z := 2.
Definition ATARIX_INDEX_QUERY_BITMAP : Z := 3.
Definition ATARIX_INDEX_QUERY_ORDERED : Z := 4.

Definition ATARIX_INDEX_PROJECTION_AUDIT_WINDOW : Z := 1.
Definition ATARIX_INDEX_PROJECTION_HUMAN_READABLE : Z := 2.
Definition ATARIX_INDEX_PROJECTION_DIAGNOSTIC : Z := 4.

Definition atarix_index_query_type_known (query_type : Z) : bool :=
  (query_type =? ATARIX_INDEX_QUERY_EXACT) || (query_type =? ATARIX_INDEX_QUERY_RANGE) ||
  (query_type =? ATARIX_INDEX_QUERY_FILTER) || (query_type =? ATARIX_INDEX_QUERY_BITMAP) ||
  (query_type =? ATARIX_INDEX_QUERY_ORDERED).

Definition atarix_index_projection_flags_valid (flags : Z) : bool :=
  let known := u8 (ATARIX_INDEX_PROJECTION_AUDIT_WINDOW .|
                   ATARIX_INDEX_PROJECTION_HUMAN_READABLE .|
                   ATARIX_INDEX_PROJECTION_DIAGNOSTIC) in
  (flags .& u8 (Z.lnot known)) =? 0.

(** ** discovery.h *)

Definition ATARIX_DISCOVERY_RECORD_ALIGNMENT_V1 : Z := 8.
Definition ATARIX_DISCOVERY_FLAG_BOOT_REQUIRED : Z := 1 .<< 0.
Definition ATARIX_DISCOVERY_FLAG_RUNTIME_PROVIDER : Z := 1 .<< 1.
Definition ATARIX_DISCOVERY_FLAG_INSTRUMENTED : Z := 1 .<< 2.
Definition ATARIX_DISCOVERY_FLAG_CPU_RESOURCE_PROVIDER : Z := 1 .<< 3.
Definition ATARIX_DISCOVERY_FLAG_HOTPLUG_CAPABLE : Z := 1 .<< 4.
Definition ATARIX_DISCOVERY_FLAG_EXPERIMENTAL : Z := 1 .<< 5.
Definition ATARIX_DISCOVERY_DEPENDENCY_UNSPECIFIED : Z := 0x0000.
Definition ATARIX_DISCOVERY_DEPENDENCY_REQUIRES : Z := 0x0001.
Definition ATARIX_DISCOVERY_DEPENDENCY_OPTIONAL : Z := 0x0002.
Definition ATARIX_DISCOVERY_DEPENDENCY_CONFLICTS : Z := 0x0003.

(** ** sim_types.h *)

Definition ATARIX_SIM_NODE_SUPERVISOR : Z := 0x0000.
Definition ATARIX_SIM_NODE_FABRIC_BASE : Z := 0x0001.
Definition ATARIX_SIM_NODE_FABRIC_MAX : Z := 0x00FF.
Definition ATARIX_SIM_NODE_CPU_BASE : Z := 0x0100.
Definition ATARIX_SIM_NODE_CPU_MAX : Z := 0x01FF.
Definition ATARIX_SIM_NODE_STORAGE_BASE : Z := 0x0200.
Definition ATARIX_SIM_NODE_STORAGE_MAX : Z := 0x02FF.
Definition ATARIX_SIM_NODE_DISPLAY_BASE : Z := 0x0300.
Definition ATARIX_SIM_NODE_DISPLAY_MAX : Z := 0x03FF.
Definition ATARIX_SIM_NODE_NETWORK_BASE : Z := 0x0400.
Definition ATARIX_SIM_NODE_NETWORK_MAX : Z := 0x04FF.
Definition ATARIX_SIM_NODE_PERIPHERAL_BASE : Z := 0x0500.
Definition ATARIX_SIM_NODE_PERIPHERAL_MAX : Z := 0x05FF.
Definition ATARIX_SIM_NODE_TEST_BASE : Z := 0xFF00.
Definition ATARIX_SIM_NODE_TEST_MAX : Z := 0xFFFF.

(** ** identity_eeprom.h *)

Definition ATARIX_IDENTITY_FORMAT_VERSION_V1 : Z := 0x0001.
Definition ATARIX_IDENTITY_BLOCK_SIZE_V1 : Z := 512.
Definition ATARIX_FACTORY_TEST_SIGNATURE_NONE : Z := 0x0000000000000000.
Definition ATARIX_FACTORY_TEST_SIGNATURE_PASS : Z := 0x4154495854455354.
Definition ATARIX_VENDOR_INVALID : Z := 0x00000000.
Definition ATARIX_VENDOR_RESERVED : Z := 0x00000001.
Definition ATARIX_VENDOR_HOMEBREW_END : Z := 0xFFFFFFFF.
Definition ATARIX_BOARD_CLASS_INVALID : Z := 0x0000.
Definition ATARIX_BOARD_CLASS_CPU_CARD : Z := 0x0001.
Definition ATARIX_BOARD_CLASS_MEMORY_CARD : Z := 0x0002.
Definition ATARIX_BOARD_CLASS_NETWORK_CARD : Z := 0x0003.
Definition ATARIX_BOARD_CLASS_STORAGE_CARD : Z := 0x0004.
Definition ATARIX_BOARD_CLASS_SUPERVISOR_CARD : Z := 0x0005.
Definition ATARIX_BOARD_CLASS_BACKPLANE_CONTROLLER : Z := 0x0006.
Definition ATARIX_BOARD_CLASS_DEVELOPMENT_CARD : Z := 0x0007.
Definition ATARIX_BOARD_CLASS_HOMEBREW_CARD : Z := 0x0008.
Definition ATARIX_BOARD_CLASS_PROTOTYPE_CARD : Z := 0x0009.
Definition ATARIX_BOARD_CLASS_UNPROVISIONED_CARD : Z := 0x000A.
Definition ATARIX_BOARD_CLASS_VENDOR_SPECIFIC : Z := 0xFFFF.
Definition ATARIX_TRUST_CLASS_INVALID : Z := 0x0000.
Definition ATARIX_TRUST_CLASS_UNKNOWN : Z := 0x0001.
Definition ATARIX_TRUST_CLASS_HOMEBREW : Z := 0x0002.
Definition ATARIX_TRUST_CLASS_DEVELOPMENT : Z := 0x0003.
Definition ATARIX_TRUST_CLASS_FACTORY : Z := 0x0004.
Definition ATARIX_TRUST_CLASS_PLATFORM_CRITICAL : Z := 0x0005.
Definition ATARIX_TRUST_CLASS_VENDOR_SPECIFIC : Z := 0xFFFF.
Definition ATARIX_ID_STATUS_PRESENT : Z := 1 .<< 0.
Definition ATARIX_ID_STATUS_READABLE : Z := 1 .<< 1.
Definition ATARIX_ID_STATUS_HEADER_VALID : Z := 1 .<< 2.
Definition ATARIX_ID_STATUS_CRC_VALID : Z := 1 .<< 3.
Definition ATARIX_ID_STATUS_IDENTITY_VALID : Z := 1 .<< 4.
Definition ATARIX_ID_STATUS_POLICY_ACCEPTED : Z := 1 .<< 5.
Definition ATARIX_ID_STATUS_VALID : Z := 1 .<< 6.
Definition ATARIX_ID_STATUS_ERROR : Z := 1 .<< 7.
Definition ATARIX_ID_CAP_MAILBOX_ENDPOINT : Z := 1 .<< 0.
Definition ATARIX_ID_CAP_DISCOVERY_ROM : Z := 1 .<< 1.
Definition ATARIX_ID_CAP_DMA_HARDWARE : Z := 1 .<< 2.
Definition ATARIX_ID_CAP_INTERRUPT_HARDWARE : Z := 1 .<< 3.
Definition ATARIX_ID_CAP_BOOT_CAPABLE : Z := 1 .<< 4.
Definition ATARIX_ID_CAP_RECOVERY_CAPABLE : Z := 1 .<< 5.
Definition ATARIX_ID_CAP_SUPERVISOR_FACING : Z := 1 .<< 6.
Definition ATARIX_ID_CAP_FABRIC_MEMORY : Z := 1 .<< 7.
Definition ATARIX_ID_CAP_NETWORK : Z := 1 .<< 8.
Definition ATARIX_ID_CAP_STORAGE : Z := 1 .<< 9.
Definition ATARIX_ID_CAP_INSTRUMENTATION : Z := 1 .<< 10.
Definition ATARIX_ID_CAP_DEVELOPMENT_EXPERIMENTAL : Z := 1 .<< 11.

Definition ATARIX_IDENTITY_MAGIC_ATIX : Z := 0x58495441.
Definition ATARIX_VENDOR_HOMEBREW_BASE : Z := 0xFFF00000.

Definition atarix_identity_vendor_is_homebrew (vendor_id : Z) : bool :=
  ATARIX_VENDOR_HOMEBREW_BASE <=? vendor_id.

Definition atarix_identity_magic_is_valid (magic : Z) : bool :=
  magic =? ATARIX_IDENTITY_MAGIC_ATIX.

(** ** The registries as a whole *)

(** The standard identifiers, without the invalid number and the bounds of the
    experimental range. *)
Definition resource_registry : list Z :=
  [ATARIX_RESOURCE_MAILBOX; ATARIX_RESOURCE_DMA; ATARIX_RESOURCE_TIMER;
   ATARIX_RESOURCE_INTERRUPT_CONTROLLER; ATARIX_RESOURCE_GPIO; ATARIX_RESOURCE_UART;
   ATARIX_RESOURCE_FABRIC_MEMORY; ATARIX_RESOURCE_SHARED_MEMORY;
   ATARIX_RESOURCE_EVENT_QUEUE; ATARIX_RESOURCE_ENUMERATION_FABRIC;
   ATARIX_RESOURCE_MANAGEMENT_FABRIC; ATARIX_RESOURCE_TRANSPORT_FABRIC;
   ATARIX_RESOURCE_SUPERVISOR; ATARIX_RESOURCE_HEALTH_MONITOR;
   ATARIX_RESOURCE_PROVISIONING_ENGINE; ATARIX_RESOURCE_VALIDATION_ENGINE;
   ATARIX_RESOURCE_LOGIC_ANALYZER; ATARIX_RESOURCE_OSCILLOSCOPE; ATARIX_RESOURCE_DSP;
   ATARIX_RESOURCE_PATTERN_GENERATOR; ATARIX_RESOURCE_PROTOCOL_DECODER;
   ATARIX_RESOURCE_COUNTER_BANK; ATARIX_RESOURCE_TRIGGER_ROUTER;
   ATARIX_RESOURCE_TRACE_BUFFER; ATARIX_RESOURCE_CPU; ATARIX_RESOURCE_CPU_DIAGNOSTICS;
   ATARIX_RESOURCE_CPU_TRACE; ATARIX_RESOURCE_CPU_HEALTH; ATARIX_RESOURCE_CPU_BOOT_STATUS;
   ATARIX_RESOURCE_NETWORK_INTERFACE; ATARIX_RESOURCE_PACKET_ENGINE;
   ATARIX_RESOURCE_NETWORK_BOOT; ATARIX_RESOURCE_BLOCK_STORAGE;
   ATARIX_RESOURCE_FILE_STORAGE; ATARIX_RESOURCE_ROM_STORAGE;
   ATARIX_RESOURCE_CONFIGURATION_STORAGE; ATARIX_RESOURCE_GPU;
   ATARIX_RESOURCE_AI_ACCELERATOR; ATARIX_RESOURCE_VECTOR_ENGINE;
   ATARIX_RESOURCE_FPGA_COMPUTE; ATARIX_RESOURCE_CRYPTO_ENGINE].

Definition service_registry : list Z :=
  [ATARIX_SERVICE_DISCOVERY; ATARIX_SERVICE_DIRECTORY; ATARIX_SERVICE_PROVISIONING;
   ATARIX_SERVICE_VALIDATION; ATARIX_SERVICE_MONITOR; ATARIX_SERVICE_HEALTH;
   ATARIX_SERVICE_FAULT_LOG; ATARIX_SERVICE_EVENT_LOG; ATARIX_SERVICE_TIMEBASE;
   ATARIX_SERVICE_MAILBOX; ATARIX_SERVICE_DMA; ATARIX_SERVICE_INTERRUPT_ROUTING;
   ATARIX_SERVICE_RECOVERY; ATARIX_SERVICE_INSTRUMENTATION; ATARIX_SERVICE_CAPTURE;
   ATARIX_SERVICE_ANALYSIS; ATARIX_SERVICE_TRACE; ATARIX_SERVICE_LOGIC_ANALYZER;
   ATARIX_SERVICE_OSCILLOSCOPE; ATARIX_SERVICE_PATTERN_GENERATOR;
   ATARIX_SERVICE_PROTOCOL_DECODER; ATARIX_SERVICE_COUNTERS; ATARIX_SERVICE_TRIGGER_ROUTER;
   ATARIX_SERVICE_CPU_DIAGNOSTICS; ATARIX_SERVICE_CPU_HEALTH; ATARIX_SERVICE_CPU_TRACE;
   ATARIX_SERVICE_CPU_BOOT_STATUS; ATARIX_SERVICE_CPU_VALIDATION;
   ATARIX_SERVICE_NETWORK_INTERFACE; ATARIX_SERVICE_NETWORK_BOOT;
   ATARIX_SERVICE_PACKET_TRANSPORT; ATARIX_SERVICE_TIME_SYNC; ATARIX_SERVICE_BLOCK_STORAGE;
   ATARIX_SERVICE_FILE_STORAGE; ATARIX_SERVICE_ROM_STORAGE;
   ATARIX_SERVICE_CONFIGURATION_STORAGE; ATARIX_SERVICE_GPU_COMPUTE;
   ATARIX_SERVICE_AI_ACCELERATION; ATARIX_SERVICE_VECTOR_COMPUTE;
   ATARIX_SERVICE_FPGA_COMPUTE; ATARIX_SERVICE_CRYPTO_ACCELERATION].

Definition board_classes : list Z :=
  [ATARIX_BOARD_CLASS_INVALID; ATARIX_BOARD_CLASS_CPU_CARD; ATARIX_BOARD_CLASS_MEMORY_CARD;
   ATARIX_BOARD_CLASS_NETWORK_CARD; ATARIX_BOARD_CLASS_STORAGE_CARD;
   ATARIX_BOARD_CLASS_SUPERVISOR_CARD; ATARIX_BOARD_CLASS_BACKPLANE_CONTROLLER;
   ATARIX_BOARD_CLASS_DEVELOPMENT_CARD; ATARIX_BOARD_CLASS_HOMEBREW_CARD;
   ATARIX_BOARD_CLASS_PROTOTYPE_CARD; ATARIX_BOARD_CLASS_UNPROVISIONED_CARD;
   ATARIX_BOARD_CLASS_VENDOR_SPECIFIC].

Definition trust_classes : list Z :=
  [ATARIX_TRUST_CLASS_INVALID; ATARIX_TRUST_CLASS_UNKNOWN; ATARIX_TRUST_CLASS_HOMEBREW;
   ATARIX_TRUST_CLASS_DEVELOPMENT; ATARIX_TRUST_CLASS_FACTORY;
   ATARIX_TRUST_CLASS_PLATFORM_CRITICAL; ATARIX_TRUST_CLASS_VENDOR_SPECIFIC].

Definition binding_types : list Z :=
  [ATARIX_DIRECTORY_BINDING_INVALID; ATARIX_DIRECTORY_BINDING_MAILBOX;
   ATARIX_DIRECTORY_BINDING_TRANSPORT_HANDLE; ATARIX_DIRECTORY_BINDING_SHARED_MEMORY;
   ATARIX_DIRECTORY_BINDING_SUPERVISOR_CALL; ATARIX_DIRECTORY_BINDING_FABRIC_SERVICE;
   ATARIX_DIRECTORY_BINDING_NETWORK_ENDPOINT; ATARIX_DIRECTORY_BINDING_STORAGE_ENDPOINT].

Definition dependency_types : list Z :=
  [ATARIX_DISCOVERY_DEPENDENCY_UNSPECIFIED; ATARIX_DISCOVERY_DEPENDENCY_REQUIRES;
   ATARIX_DISCOVERY_DEPENDENCY_OPTIONAL; ATARIX_DISCOVERY_DEPENDENCY_CONFLICTS].

Definition identity_status_flags : list Z :=
  [ATARIX_ID_STATUS_PRESENT; ATARIX_ID_STATUS_READABLE; ATARIX_ID_STATUS_HEADER_VALID;
   ATARIX_ID_STATUS_CRC_VALID; ATARIX_ID_STATUS_IDENTITY_VALID;
   ATARIX_ID_STATUS_POLICY_ACCEPTED; ATARIX_ID_STATUS_VALID; ATARIX_ID_STATUS_ERROR].

Definition identity_capability_flags : list Z :=
  [ATARIX_ID_CAP_MAILBOX_ENDPOINT; ATARIX_ID_CAP_DISCOVERY_ROM; ATARIX_ID_CAP_DMA_HARDWARE;
   ATARIX_ID_CAP_INTERRUPT_HARDWARE; ATARIX_ID_CAP_BOOT_CAPABLE;
   ATARIX_ID_CAP_RECOVERY_CAPABLE; ATARIX_ID_CAP_SUPERVISOR_FACING;
   ATARIX_ID_CAP_FABRIC_MEMORY; ATARIX_ID_CAP_NETWORK; ATARIX_ID_CAP_STORAGE;
   ATARIX_ID_CAP_INSTRUMENTATION; ATARIX_ID_CAP_DEVELOPMENT_EXPERIMENTAL].

Definition directory_flags : list Z :=
  [ATARIX_DIRECTORY_FLAG_AVAILABLE; ATARIX_DIRECTORY_FLAG_AUTHORIZED;
   ATARIX_DIRECTORY_FLAG_RESTRICTED; ATARIX_DIRECTORY_FLAG_RECOVERY_ONLY;
   ATARIX_DIRECTORY_FLAG_DEVELOPMENT_ONLY; ATARIX_DIRECTORY_FLAG_HOTPLUG_CAPABLE;
   ATARIX_DIRECTORY_FLAG_INSTRUMENTED].

Definition discovery_flags : list Z :=
  [ATARIX_DISCOVERY_FLAG_BOOT_REQUIRED; ATARIX_DISCOVERY_FLAG_RUNTIME_PROVIDER;
   ATARIX_DISCOVERY_FLAG_INSTRUMENTED; ATARIX_DISCOVERY_FLAG_CPU_RESOURCE_PROVIDER;
   ATARIX_DISCOVERY_FLAG_HOTPLUG_CAPABLE; ATARIX_DISCOVERY_FLAG_EXPERIMENTAL].
Definition operation_registry : list Z :=
  [ATARIX_OPERATION_READ; ATARIX_OPERATION_WRITE; ATARIX_OPERATION_CONTROL;
   ATARIX_OPERATION_RESET; ATARIX_OPERATION_CAPTURE; ATARIX_OPERATION_STIMULATE;
   ATARIX_OPERATION_BOOT; ATARIX_OPERATION_RECOVER; ATARIX_OPERATION_PROVISION;
   ATARIX_OPERATION_ENUMERATE; ATARIX_OPERATION_VALIDATE; ATARIX_OPERATION_MONITOR;
   ATARIX_OPERATION_BIND; ATARIX_OPERATION_DELEGATE; ATARIX_OPERATION_REVOKE;
   ATARIX_OPERATION_TRACE_START; ATARIX_OPERATION_TRACE_STOP; ATARIX_OPERATION_TRACE_EXPORT;
   ATARIX_OPERATION_TRIGGER_ARM; ATARIX_OPERATION_TRIGGER_FIRE; ATARIX_OPERATION_PATTERN_LOAD;
   ATARIX_OPERATION_PATTERN_START; ATARIX_OPERATION_PATTERN_STOP;
   ATARIX_OPERATION_CPU_READ_HEALTH; ATARIX_OPERATION_CPU_READ_BOOT_STATUS;
   ATARIX_OPERATION_CPU_HOLD_RESET; ATARIX_OPERATION_CPU_RELEASE_RESET;
   ATARIX_OPERATION_CPU_CAPTURE_TRACE; ATARIX_OPERATION_CPU_VALIDATE].

(** The classes of an enumeration whose members exclude one another. *)
Definition class_registries : list (list Z) :=
  [board_classes; trust_classes; binding_types; dependency_types].

(** The flags of an enumeration whose members are combined. *)
Definition flag_registries : list (list Z) :=
  [identity_status_flags; identity_capability_flags; directory_flags; discovery_flags].

(** The blocks of simulated node addresses. *)
Definition node_blocks : list (Z * Z) :=
  [(ATARIX_SIM_NODE_SUPERVISOR, ATARIX_SIM_NODE_SUPERVISOR);
   (ATARIX_SIM_NODE_FABRIC_BASE, ATARIX_SIM_NODE_FABRIC_MAX);
   (ATARIX_SIM_NODE_CPU_BASE, ATARIX_SIM_NODE_CPU_MAX);
   (ATARIX_SIM_NODE_STORAGE_BASE, ATARIX_SIM_NODE_STORAGE_MAX);
   (ATARIX_SIM_NODE_DISPLAY_BASE, ATARIX_SIM_NODE_DISPLAY_MAX);
   (ATARIX_SIM_NODE_NETWORK_BASE, ATARIX_SIM_NODE_NETWORK_MAX);
   (ATARIX_SIM_NODE_PERIPHERAL_BASE, ATARIX_SIM_NODE_PERIPHERAL_MAX);
   (ATARIX_SIM_NODE_TEST_BASE, ATARIX_SIM_NODE_TEST_MAX)].

(** The blocks in increasing order, so that they are disjoint. *)
Fixpoint increasing (from : Z) (blocks : list (Z * Z)) : bool :=
  match blocks with
  | [] => true
  | (base, max) :: rest => (from <=? base) && (base <=? max) && increasing (max + 1) rest
  end.

Lemma increasing_above from blocks address :
  increasing from blocks = true -> address < from ->
  filter (fun b => b.1 <= address <= b.2) blocks = [].
Proof.
  revert from. induction blocks as [|[base max] blocks IH]; intros from; [done|]. cbn [increasing].
  rewrite !andb_true_iff, !Z.leb_le. intros [[? ?] Hi] Ha.
  rewrite filter_cons_False by (cbn; lia). apply (IH (max + 1)); [done|lia].
Qed.

Lemma increasing_disjoint from blocks address :
  increasing from blocks = true ->
  (length (filter (fun b => b.1 <= address <= b.2)%Z blocks) <= 1)%nat.
Proof.
  revert from. induction blocks as [|[base max] blocks IH]; intros from; [cbn; lia|]. cbn [increasing].
  rewrite !andb_true_iff, !Z.leb_le. intros [[? ?] Hi].
  destruct (decide (base <= address <= max)).
  - rewrite filter_cons_True by done.
    rewrite (increasing_above (max + 1)); [cbn; lia|done|lia].
  - rewrite filter_cons_False by done. by apply (IH (max + 1)).
Qed.

(** The registries are sound: no two standard resource types, and no two
    standard services, share a number; each number is nonzero, fits the 16 bits
    it has in a discovery handle, and is outside the experimental range. *)
Theorem registries_sound :
  (NoDup resource_registry /\ NoDup service_registry) /\
  Forall (fun t => 0 < t < 2 ^ 16 /\ atarix_resource_is_experimental t = false) resource_registry /\
  Forall (fun s => 0 < s < 2 ^ 16 /\ atarix_service_is_experimental s = false) service_registry.
Proof.
  split; [split; by apply (bool_decide_unpack _); vm_compute|].
  split; repeat (apply Forall_cons_2; [by repeat split|]); constructor.
Qed.

(** Which flag bytes of an index query are valid: exactly the combinations
    of the three projections. *)
Theorem index_projection_flags_iff flags :
  fits 8 flags ->
  atarix_index_projection_flags_valid flags = true <-> flags < 8.
Proof.
  intros [Hl Hu]. revert flags Hl Hu.
  assert (H : Forall (fun n => atarix_index_projection_flags_valid (Z.of_nat n) = true <->
    Z.of_nat n < 8) (seq 0 256)) by (by apply (bool_decide_unpack _); vm_compute).
  rewrite Forall_seq in H. intros flags Hl Hu. specialize (H (Z.to_nat flags)).
  rewrite Z2Nat.id in H by done. apply H. lia.
Qed.

Lemma index_projection_flags_iff_witness :
  atarix_index_projection_flags_valid 5 = true <-> 5 < 8.
Proof. by apply index_projection_flags_iff. Defined.

(** The number spaces are sound: the operations are distinct, nonzero and outside
    the experimental range; the members of each class are distinct; the members of
    each set of flags are distinct single bits, so that combinations can be told
    apart; and no address belongs to two of the node blocks. *)
Theorem number_spaces_sound :
  NoDup operation_registry /\
  Forall (fun o => 0 < o < ATARIX_OPERATION_EXPERIMENTAL_BEGIN) operation_registry /\
  Forall (fun l => NoDup l) class_registries /\
  Forall (fun l => NoDup l /\ Forall (fun f => f = 2 ^ Z.log2 f) l) flag_registries /\
  (forall address, (length (filter (fun b => b.1 <= address <= b.2)%Z node_blocks) <= 1)%nat).
Proof.
  split_and!; [by apply (bool_decide_unpack _); vm_compute..|]. intros address.
  apply (increasing_disjoint 0). by vm_compute.
Qed.
