(* ===== verification/Discovery.v ===== *)
(** * Discovery: handles, records, database

    [include/atarix/discovery.h], [include/atarix/discovery_database.h] and
    [src/discovery/discovery_database.c]: the handle packing, the layout of the
    discovery image and its records, and the database the parser fills. The
    database keeps four caller-provided arrays, each described by a pointer, a
    capacity and a count; the model groups these three members in a [table]. *)

From S2P Require Import Prelude.

(** ** discovery.h *)

Definition ATARIX_DISCOVERY_MAGIC_ATDX : Z := 0x58445441.
Definition ATARIX_DISCOVERY_VERSION_MAJOR_V1 : Z := 1.
Definition ATARIX_DISCOVERY_VERSION_MINOR_V0 : Z := 0.
Definition ATARIX_DISCOVERY_HEADER_SIZE_V1 : Z := 32.
Definition ATARIX_DISCOVERY_RECORD_HEADER_SIZE_V1 : Z := 8.

Definition ATARIX_DISCOVERY_RECORD_RESERVED : Z := 0x0000.
Definition ATARIX_DISCOVERY_RECORD_RESOURCE : Z := 0x0001.
Definition ATARIX_DISCOVERY_RECORD_SERVICE : Z := 0x0002.
Definition ATARIX_DISCOVERY_RECORD_PROVIDER : Z := 0x0003.
Definition ATARIX_DISCOVERY_RECORD_DEPENDENCY : Z := 0x0004.
Definition ATARIX_DISCOVERY_RECORD_INSTRUMENTATION : Z := 0x0005.
Definition ATARIX_DISCOVERY_RECORD_VENDOR_BEGIN : Z := 0x8000.
Definition ATARIX_DISCOVERY_RECORD_VENDOR_END : Z := 0xFFFE.
Definition ATARIX_DISCOVERY_RECORD_END : Z := 0xFFFF.

Definition atarix_discovery_handle_provider16 (handle : Z) : Z :=
  u16 ((handle .>> 48) .& 0xFFFF).

Definition atarix_discovery_handle_type (handle : Z) : Z :=
  u16 ((handle .>> 32) .& 0xFFFF).

Definition atarix_discovery_handle_instance (handle : Z) : Z :=
  u32 (handle .& 0xFFFFFFFF).

Definition atarix_discovery_make_handle (provider_id_low16 type_id instance_id : Z) : Z :=
  u64 (provider_id_low16 .<< 48) .| u64 (type_id .<< 32) .| instance_id.

Definition atarix_discovery_magic_is_valid (magic : Z) : bool :=
  magic =? ATARIX_DISCOVERY_MAGIC_ATDX.

Definition atarix_discovery_record_is_vendor_specific (type : Z) : bool :=
  (ATARIX_DISCOVERY_RECORD_VENDOR_BEGIN <=? type) &&
  (type <=? ATARIX_DISCOVERY_RECORD_VENDOR_END).

(** ** discovery_database.h *)

Record atarix_resource_entry_t : Type := ResourceEntry {
  re_handle : Z;
  re_resource_type : Z;
  re_resource_version : Z;
  re_resource_flags : Z;
  re_provider_id : Z;
  re_instance_id : Z
}.

Record atarix_service_entry_t : Type := ServiceEntry {
  se_handle : Z;
  se_service_id : Z;
  se_service_version : Z;
  se_service_flags : Z;
  se_provider_id : Z;
  se_instance_id : Z
}.

Record atarix_dependency_entry_t : Type := DependencyEntry {
  de_consumer_handle : Z;
  de_provider_handle : Z;
  de_dependency_type : Z;
  de_dependency_version : Z;
  de_dependency_flags : Z
}.

Record atarix_instrumentation_entry_t : Type := InstrumentationEntry {
  ie_handle : Z;
  ie_observed_handle : Z;
  ie_instrumentation_type : Z;
  ie_instrumentation_version : Z;
  ie_instrumentation_flags : Z
}.

(** A caller's array (possibly null), its capacity and the number in use. *)
Record table (A : Type) : Type := Table {
  tb_entries : option (list A);
  tb_capacity : nat;
  tb_count : nat
}.
Arguments Table {A} _ _ _.
Arguments tb_entries {A} _.
Arguments tb_capacity {A} _.
Arguments tb_count {A} _.

Record atarix_discovery_database_t : Type := DiscoveryDatabase {
  db_resources : table atarix_resource_entry_t;
  db_services : table atarix_service_entry_t;
  db_dependencies : table atarix_dependency_entry_t;
  db_instrumentation : table atarix_instrumentation_entry_t
}.

Definition atarix_discovery_database_init (db : option atarix_discovery_database_t)
  : option atarix_discovery_database_t :=
  match db with
  | None => None
  | Some _ =>
    Some (DiscoveryDatabase (Table None 0 0) (Table None 0 0) (Table None 0 0) (Table None 0 0))
  end.

(** The loop [for (i = 0; i < count; ++i) if (entries[i].handle == handle) ...]:
    entered at [i] with [n] entries to go, the entry it stops at. *)
Fixpoint scan_entries {A} (handle_of : A -> Z) (n i : nat) (entries : list A) (handle : Z)
  : option (option A) :=
  match n with
  | O => Some None
  | S n' =>
    e ← entries !! i;
    if handle_of e =? handle then Some (Some e)
    else scan_entries handle_of n' (S i) entries handle
  end.

(** The scan of one table, skipped when its array is null. *)
Definition scan_table {A} (handle_of : A -> Z) (t : table A) (handle : Z) : option (option A) :=
  match tb_entries t with
  | None => Some None
  | Some entries => scan_entries handle_of (tb_count t) 0 entries handle
  end.

Definition atarix_discovery_find_resource (db : option atarix_discovery_database_t) (handle : Z)
  : option (option atarix_resource_entry_t) :=
  match db with
  | None => Some None
  | Some d => scan_table re_handle (db_resources d) handle
  end.

Definition atarix_discovery_find_service (db : option atarix_discovery_database_t) (handle : Z)
  : option (option atarix_service_entry_t) :=
  match db with
  | None => Some None
  | Some d => scan_table se_handle (db_services d) handle
  end.

Definition atarix_discovery_database_contains_handle (db : option atarix_discovery_database_t)
    (handle : Z) : option bool :=
  match db with
  | None => Some false
  | Some d =>
    found ← scan_table re_handle (db_resources d) handle;
    if bool_decide (found <> None) then Some true
    else
      found ← scan_table se_handle (db_services d) handle;
      if bool_decide (found <> None) then Some true
      else
        found ← scan_table ie_handle (db_instrumentation d) handle;
        Some (bool_decide (found <> None))
  end.

(** ** Handles *)

Lemma make_handle_value p t i :
  fits 16 p -> fits 16 t -> fits 32 i ->
  atarix_discovery_make_handle p t i = i + 2 ^ 32 * t + 2 ^ 48 * p.
Proof.
  unfold fits. intros Hp Ht Hi. unfold atarix_discovery_make_handle.
  rewrite !uint_small by (unfold fits; rewrite Z.shiftl_mul_pow2 by lia; lia).
  rewrite <-Z.lor_assoc, (Z.lor_comm (p .<< 48)), (Z.lor_comm (t .<< 32)).
  rewrite (lor_shiftl_add 32), (lor_shiftl_add 48) by (unfold fits; lia). done.
Qed.

(** Handle packing round trip: the three members of a handle come back from
    the packed value, and every 64-bit handle is the packing of its members. *)
Theorem discovery_handle_roundtrip p t i h :
  fits 16 p -> fits 16 t -> fits 32 i -> fits 64 h ->
  atarix_discovery_handle_provider16 (atarix_discovery_make_handle p t i) = p /\
  atarix_discovery_handle_type (atarix_discovery_make_handle p t i) = t /\
  atarix_discovery_handle_instance (atarix_discovery_make_handle p t i) = i /\
  fits 64 (atarix_discovery_make_handle p t i) /\
  atarix_discovery_make_handle (atarix_discovery_handle_provider16 h)
    (atarix_discovery_handle_type h) (atarix_discovery_handle_instance h) = h.
Proof.
  intros Hp Ht Hi Hh.
  assert (Hmembers : forall x, atarix_discovery_handle_provider16 x = x / 2 ^ 48 mod 2 ^ 16 /\
    atarix_discovery_handle_type x = x / 2 ^ 32 mod 2 ^ 16 /\
    atarix_discovery_handle_instance x = x mod 2 ^ 32).
  { intros x. unfold atarix_discovery_handle_provider16, atarix_discovery_handle_type,
      atarix_discovery_handle_instance, uint.
    change 0xFFFF with (Z.ones 16). change 0xFFFFFFFF with (Z.ones 32).
    rewrite !Z.land_ones, !Z.mod_mod, !Z.shiftr_div_pow2 by lia. done. }
  destruct (Hmembers (atarix_discovery_make_handle p t i)) as (-> & -> & ->).
  destruct (Hmembers h) as (-> & -> & ->). rewrite (make_handle_value p t i) by done.
  rewrite make_handle_value by (apply Z.mod_pos_bound; lia).
  unfold fits in *. change (2 ^ 48) with (2 ^ 32 * 2 ^ 16).
  rewrite <-!Z.div_div by lia.
  assert (E : (i + 2 ^ 32 * t + 2 ^ 32 * 2 ^ 16 * p) / 2 ^ 32 = t + 2 ^ 16 * p)
    by (symmetry; apply (Z.div_unique _ _ _ i); lia).
  assert (E' : (t + 2 ^ 16 * p) / 2 ^ 16 = p)
    by (symmetry; apply (Z.div_unique _ _ _ t); lia).
  rewrite E, E'. split_and!.
  - apply Z.mod_small. lia.
  - symmetry. apply (Z.mod_unique _ _ p); lia.
  - symmetry. apply (Z.mod_unique _ _ (t + 2 ^ 16 * p)); lia.
  - lia.
  - lia.
  - pose proof (Z.div_mod h (2 ^ 32)). pose proof (Z.div_mod (h / 2 ^ 32) (2 ^ 16)).
    rewrite (Z.mod_small (h / 2 ^ 32 / 2 ^ 16)); [lia|].
    rewrite Z.div_div by lia. split; [apply Z.div_pos; lia|apply Z.div_lt_upper_bound; lia].
Qed.

Lemma discovery_handle_roundtrip_witness :
  atarix_discovery_handle_provider16 (atarix_discovery_make_handle 3 0x2100 1) = 3 /\
  atarix_discovery_handle_type (atarix_discovery_make_handle 3 0x2100 1) = 0x2100 /\
  atarix_discovery_handle_instance (atarix_discovery_make_handle 3 0x2100 1) = 1 /\
  fits 64 (atarix_discovery_make_handle 3 0x2100 1) /\
  atarix_discovery_make_handle (atarix_discovery_handle_provider16 0x123456789ABCDEF)
    (atarix_discovery_handle_type 0x123456789ABCDEF)
    (atarix_discovery_handle_instance 0x123456789ABCDEF) = 0x123456789ABCDEF.
Proof. by apply discovery_handle_roundtrip. Defined.

(** ** Tables as lists *)

(** The entries in use. *)
Definition live {A} (t : table A) : list A :=
  match tb_entries t with Some l => take (tb_count t) l | None => [] end.

(** The room a table offers. *)
Definition room {A} (t : table A) : nat :=
  match tb_entries t with Some _ => tb_capacity t | None => 0%nat end.

(** The caller's arrays are as long as the capacities say, and the counts do
    not exceed them. *)
Definition table_wf {A} (t : table A) : Prop :=
  match tb_entries t with
  | Some l => (tb_count t <= tb_capacity t <= length l)%nat
  | None => True
  end.

Record database_wf (d : atarix_discovery_database_t) : Prop := {
  dw_resources : table_wf (db_resources d);
  dw_services : table_wf (db_services d);
  dw_dependencies : table_wf (db_dependencies d);
  dw_instrumentation : table_wf (db_instrumentation d)
}.

Lemma length_live {A} (t : table A) :
  table_wf t -> is_Some (tb_entries t) -> length (live t) = tb_count t.
Proof.
  unfold table_wf, live. intros Hw [l Hl]. rewrite Hl in *. rewrite length_take. lia.
Qed.

Lemma scan_entries_spec {A} (handle_of : A -> Z) n i l h :
  (i + n <= length l)%nat ->
  scan_entries handle_of n i l h =
  Some (snd <$> list_find (fun e => handle_of e = h) (take n (drop i l))).
Proof.
  revert i. induction n as [|n IH]; intros i Hl; [done|]. cbn [scan_entries].
  destruct (lookup_lt_is_Some_2 l i) as [e He]; [lia|]. rewrite He. cbn [mbind option_bind].
  rewrite (drop_S _ _ _ He). cbn [take list_find].
  destruct (Z.eqb_spec (handle_of e) h); [by rewrite decide_True|].
  rewrite decide_False, IH by (done || lia). by destruct (list_find _ _) as [[]|].
Qed.

(** On a well-formed table the scan never leaves the array, and finds the first
    live entry with the handle. *)
Lemma scan_table_spec {A} (handle_of : A -> Z) (t : table A) h :
  table_wf t ->
  scan_table handle_of t h = Some (snd <$> list_find (fun e => handle_of e = h) (live t)).
Proof.
  unfold table_wf, scan_table, live. destruct (tb_entries t) as [l|]; [|done].
  intros [? ?]. rewrite scan_entries_spec by lia. by rewrite drop_0.
Qed.

Lemma list_find_is_Some {A} (handle_of : A -> Z) (l : list A) h :
  bool_decide ((snd <$> list_find (fun e => handle_of e = h) l) <> None) =
  bool_decide (h ∈ map handle_of l).
Proof.
  apply bool_decide_ext. rewrite list_elem_of_fmap. split.
  - destruct (list_find _ _) as [[i e]|] eqn:E; [|done]. intros _.
    apply list_find_Some in E as (Hi & <- & _). exists e. split; [done|].
    by eapply list_elem_of_lookup_2.
  - intros (e & -> & He) Hn.
    destruct (list_find_elem_of (fun e' => handle_of e' = handle_of e) l e He) as [x Hx]; [done|].
    by rewrite Hx in Hn.
Qed.

(** The handles a new record must not repeat. *)
Definition database_handles (d : atarix_discovery_database_t) : list Z :=
  map re_handle (live (db_resources d)) ++ map se_handle (live (db_services d)) ++
  map ie_handle (live (db_instrumentation d)).

Lemma contains_handle_spec d h :
  database_wf d ->
  atarix_discovery_database_contains_handle (Some d) h =
  Some (bool_decide (h ∈ database_handles d)).
Proof.
  intros []. unfold atarix_discovery_database_contains_handle, database_handles.
  rewrite (scan_table_spec re_handle) by done. cbn [mbind option_bind].
  rewrite list_find_is_Some. case_bool_decide.
  { rewrite bool_decide_eq_true_2; [done|]. rewrite !elem_of_app. by left. }
  rewrite (scan_table_spec se_handle) by done. cbn [mbind option_bind].
  rewrite list_find_is_Some. case_bool_decide.
  { rewrite bool_decide_eq_true_2; [done|]. rewrite !elem_of_app. by right; left. }
  rewrite (scan_table_spec ie_handle) by done. cbn [mbind option_bind].
  rewrite list_find_is_Some. f_equal. apply bool_decide_ext. rewrite !elem_of_app. tauto.
Qed.
