(* ===== verification/DiscoveryParser.v ===== *)
(** * Discovery: validation, iteration, parsing

    [include/atarix/discovery_parser.h] and [src/discovery/discovery_validate.c],
    [discovery_iterator.c], [discovery_parser.c]. An image is read through
    pointers to packed structures laid over the caller's bytes: the image starts
    at offset 0 of the memory [m], a record pointer is an offset, and a member
    is a little-endian load at its offset in the structure ([discovery.h]). The
    result [None] of an operation is an access outside [m] or outside an array
    of the database, or a loop that did not end within its fuel. *)

From S2P Require Import Prelude Crc Discovery.

Inductive atarix_discovery_result_t : Type :=
| ATARIX_DISCOVERY_OK
| ATARIX_DISCOVERY_ERROR_NULL
| ATARIX_DISCOVERY_ERROR_TOO_SMALL
| ATARIX_DISCOVERY_ERROR_BAD_MAGIC
| ATARIX_DISCOVERY_ERROR_UNSUPPORTED_VERSION
| ATARIX_DISCOVERY_ERROR_BAD_LENGTH
| ATARIX_DISCOVERY_ERROR_BAD_ALIGNMENT
| ATARIX_DISCOVERY_ERROR_TRUNCATED_RECORD
| ATARIX_DISCOVERY_ERROR_MISSING_END
| ATARIX_DISCOVERY_ERROR_DUPLICATE_HANDLE
| ATARIX_DISCOVERY_ERROR_CAPACITY
| ATARIX_DISCOVERY_ERROR_BAD_CRC.

#[export] Instance atarix_discovery_result_eq_dec : EqDecision atarix_discovery_result_t.
Proof. solve_decision. Defined.

(** ** discovery_iterator.c *)

Definition atarix_is_aligned8 (value : Z) : bool := aligned8 value.

(** [header] says whether the header pointer is non-null; it points at offset 0. *)
Definition atarix_discovery_first_record (header : bool) (image_size : Z) : option Z :=
  if negb header || (image_size <? ATARIX_DISCOVERY_HEADER_SIZE_V1) then None
  else Some ATARIX_DISCOVERY_HEADER_SIZE_V1.

(** The inner option is the returned pointer. *)
Definition atarix_discovery_next_record (m : bytes) (header : bool) (image_size : Z)
    (record : option Z) : option (option Z) :=
  match record with
  | None => Some None
  | Some r =>
    if negb header then Some None
    else
      length ← load_le 4 m (r + 4);
      if length <? ATARIX_DISCOVERY_RECORD_HEADER_SIZE_V1 then Some None
      else
        let next := r + length in
        if image_size <=? next then Some None
        else if negb (atarix_is_aligned8 next) then Some None
        else Some (Some next)
  end.

(** ** discovery_validate.c *)

Definition atarix_offset_aligned8 (offset : Z) : bool := aligned8 offset.

(** One bit step: the mask is all ones when the low bit is set. *)
Definition discovery_crc_bit (crc : Z) : Z :=
  (crc .>> 1) .^ (0xEDB88320 .& u32 (0 - (crc .& 1))).

Definition atarix_crc32_iso_hdlc (data : bytes) (length : Z) : option Z :=
  crc ← for_bytes (fun crc b => Nat.iter 8 discovery_crc_bit (crc .^ b))
          (Z.to_nat length) data 0 0xFFFFFFFF;
  Some (u32 (Z.lnot crc)).

(** [sizeof(image_copy_stack)] *)
Definition image_copy_size : Z := 512.

Definition atarix_discovery_crc_valid (m : bytes) (image_size : Z) : option bool :=
  expected_header_crc ← load_le 4 m 24;
  expected_image_crc ← load_le 4 m 28;
  header_copy ← load_bytes m 0 ATARIX_DISCOVERY_HEADER_SIZE_V1;
  header_copy ← store_le 4 header_copy 24 0;
  header_copy ← store_le 4 header_copy 28 0;
  actual_header_crc ← atarix_crc32_iso_hdlc header_copy ATARIX_DISCOVERY_HEADER_SIZE_V1;
  if negb (actual_header_crc =? expected_header_crc) then Some false
  else if image_copy_size <? image_size then Some true
  else
    image_copy ← load_bytes m 0 image_size;
    image_copy ← store_le 4 image_copy 28 0;
    total_length ← load_le 4 m 8;
    actual_image_crc ← atarix_crc32_iso_hdlc image_copy total_length;
    Some (actual_image_crc =? expected_image_crc).

(** The record walk, entered at [offset]: an error, or the number of records
    seen and whether the END record was. *)
Fixpoint validate_loop (fuel : nat) (m : bytes) (total_length offset records_seen : Z)
  : option (atarix_discovery_result_t + Z * bool) :=
  if offset <? total_length then
    match fuel with
    | O => None
    | S fuel' =>
      if negb (atarix_offset_aligned8 offset)
      then Some (inl ATARIX_DISCOVERY_ERROR_BAD_ALIGNMENT)
      else if total_length - offset <? ATARIX_DISCOVERY_RECORD_HEADER_SIZE_V1
      then Some (inl ATARIX_DISCOVERY_ERROR_TRUNCATED_RECORD)
      else
        length ← load_le 4 m (offset + 4);
        if (length <? ATARIX_DISCOVERY_RECORD_HEADER_SIZE_V1) ||
           negb (atarix_offset_aligned8 length)
        then Some (inl ATARIX_DISCOVERY_ERROR_BAD_LENGTH)
        else if total_length - offset <? length
        then Some (inl ATARIX_DISCOVERY_ERROR_TRUNCATED_RECORD)
        else
          type ← load_le 2 m offset;
          if type =? ATARIX_DISCOVERY_RECORD_END
          then Some (inr (u32 (records_seen + 1), true))
          else validate_loop fuel' m total_length (offset + length) (u32 (records_seen + 1))
    end
  else Some (inr (records_seen, false)).

Definition atarix_discovery_validate (image : option bytes) (image_size : Z)
  : option atarix_discovery_result_t :=
  match image with
  | None => Some ATARIX_DISCOVERY_ERROR_NULL
  | Some m =>
    if image_size <? ATARIX_DISCOVERY_HEADER_SIZE_V1
    then Some ATARIX_DISCOVERY_ERROR_TOO_SMALL
    else
      magic ← load_le 4 m 0;
      if negb (atarix_discovery_magic_is_valid magic)
      then Some ATARIX_DISCOVERY_ERROR_BAD_MAGIC
      else
        version_major ← load_le 2 m 4;
        if negb (version_major =? ATARIX_DISCOVERY_VERSION_MAJOR_V1)
        then Some ATARIX_DISCOVERY_ERROR_UNSUPPORTED_VERSION
        else
          total_length ← load_le 4 m 8;
          if (total_length <? ATARIX_DISCOVERY_HEADER_SIZE_V1) ||
             (image_size <? total_length) || negb (atarix_offset_aligned8 total_length)
          then Some ATARIX_DISCOVERY_ERROR_BAD_LENGTH
          else
            crc_valid ← atarix_discovery_crc_valid m image_size;
            if negb crc_valid then Some ATARIX_DISCOVERY_ERROR_BAD_CRC
            else
              walk ← validate_loop (S (Z.to_nat total_length)) m total_length
                       ATARIX_DISCOVERY_HEADER_SIZE_V1 0;
              match walk with
              | inl error => Some error
              | inr (records_seen, saw_end) =>
                if negb saw_end then Some ATARIX_DISCOVERY_ERROR_MISSING_END
                else
                  record_count ← load_le 4 m 12;
                  if negb (record_count =? 0) && negb (records_seen =? record_count)
                  then Some ATARIX_DISCOVERY_ERROR_BAD_LENGTH
                  else Some ATARIX_DISCOVERY_OK
              end
  end.

(** ** discovery_parser.c *)

(** [count >= capacity || !entries] *)
Definition table_full {A} (t : table A) : bool :=
  (tb_capacity t <=? tb_count t)%nat ||
  match tb_entries t with None => true | Some _ => false end.

(** [entries[count] = entry; count++]: the element must exist. *)
Definition table_push {A} (t : table A) (entry : A) : option (table A) :=
  match tb_entries t with
  | None => None
  | Some entries =>
    if (tb_count t <? length entries)%nat
    then Some (Table (Some (<[tb_count t := entry]> entries)) (tb_capacity t) (S (tb_count t)))
    else None
  end.

Definition add_resource (db : atarix_discovery_database_t) (m : bytes) (record : Z)
  : option (atarix_discovery_result_t * atarix_discovery_database_t) :=
  resource_handle ← load_le 8 m (record + 16);
  contained ← atarix_discovery_database_contains_handle (Some db) resource_handle;
  if (contained : bool) then Some (ATARIX_DISCOVERY_ERROR_DUPLICATE_HANDLE, db)
  else if table_full (db_resources db) then Some (ATARIX_DISCOVERY_ERROR_CAPACITY, db)
  else
    resource_type_id ← load_le 2 m (record + 8);
    resource_version ← load_le 2 m (record + 10);
    resource_flags ← load_le 4 m (record + 12);
    provider_id ← load_le 4 m (record + 24);
    instance_id ← load_le 4 m (record + 28);
    t ← table_push (db_resources db)
       (ResourceEntry resource_handle resource_type_id resource_version resource_flags
          provider_id instance_id);
    Some (ATARIX_DISCOVERY_OK,
          DiscoveryDatabase t (db_services db) (db_dependencies db) (db_instrumentation db)).

Definition add_service (db : atarix_discovery_database_t) (m : bytes) (record : Z)
  : option (atarix_discovery_result_t * atarix_discovery_database_t) :=
  service_handle ← load_le 8 m (record + 16);
  contained ← atarix_discovery_database_contains_handle (Some db) service_handle;
  if (contained : bool) then Some (ATARIX_DISCOVERY_ERROR_DUPLICATE_HANDLE, db)
  else if table_full (db_services db) then Some (ATARIX_DISCOVERY_ERROR_CAPACITY, db)
  else
    service_id ← load_le 2 m (record + 8);
    service_version ← load_le 2 m (record + 10);
    service_flags ← load_le 4 m (record + 12);
    provider_id ← load_le 4 m (record + 24);
    instance_id ← load_le 4 m (record + 28);
    t ← table_push (db_services db)
       (ServiceEntry service_handle service_id service_version service_flags
          provider_id instance_id);
    Some (ATARIX_DISCOVERY_OK,
          DiscoveryDatabase (db_resources db) t (db_dependencies db) (db_instrumentation db)).

Definition add_dependency (db : atarix_discovery_database_t) (m : bytes) (record : Z)
  : option (atarix_discovery_result_t * atarix_discovery_database_t) :=
  if table_full (db_dependencies db) then Some (ATARIX_DISCOVERY_ERROR_CAPACITY, db)
  else
    consumer_handle ← load_le 8 m (record + 8);
    provider_handle ← load_le 8 m (record + 16);
    dependency_type ← load_le 2 m (record + 24);
    dependency_version ← load_le 2 m (record + 26);
    dependency_flags ← load_le 4 m (record + 28);
    t ← table_push (db_dependencies db)
       (DependencyEntry consumer_handle provider_handle dependency_type dependency_version
          dependency_flags);
    Some (ATARIX_DISCOVERY_OK,
          DiscoveryDatabase (db_resources db) (db_services db) t (db_instrumentation db)).

Definition add_instrumentation (db : atarix_discovery_database_t) (m : bytes) (record : Z)
  : option (atarix_discovery_result_t * atarix_discovery_database_t) :=
  instrumentation_handle ← load_le 8 m (record + 16);
  contained ← atarix_discovery_database_contains_handle (Some db) instrumentation_handle;
  if (contained : bool) then Some (ATARIX_DISCOVERY_ERROR_DUPLICATE_HANDLE, db)
  else if table_full (db_instrumentation db) then Some (ATARIX_DISCOVERY_ERROR_CAPACITY, db)
  else
    observed_handle ← load_le 8 m (record + 24);
    instrumentation_type ← load_le 2 m (record + 8);
    instrumentation_version ← load_le 2 m (record + 10);
    instrumentation_flags ← load_le 4 m (record + 12);
    t ← table_push (db_instrumentation db)
       (InstrumentationEntry instrumentation_handle observed_handle instrumentation_type
          instrumentation_version instrumentation_flags);
    Some (ATARIX_DISCOVERY_OK,
          DiscoveryDatabase (db_resources db) (db_services db) (db_dependencies db) t).

(** The [switch] on the record type. *)
Definition parse_record (db : atarix_discovery_database_t) (m : bytes) (record type : Z)
  : option (atarix_discovery_result_t * atarix_discovery_database_t) :=
  if type =? ATARIX_DISCOVERY_RECORD_RESOURCE then add_resource db m record
  else if type =? ATARIX_DISCOVERY_RECORD_SERVICE then add_service db m record
  else if type =? ATARIX_DISCOVERY_RECORD_DEPENDENCY then add_dependency db m record
  else if type =? ATARIX_DISCOVERY_RECORD_INSTRUMENTATION then add_instrumentation db m record
  else Some (ATARIX_DISCOVERY_OK, db).

(** [while (record)]. *)
Fixpoint parse_loop (fuel : nat) (m : bytes) (image_size : Z) (record : option Z)
    (db : atarix_discovery_database_t)
  : option (atarix_discovery_result_t * atarix_discovery_database_t) :=
  match record with
  | None => Some (ATARIX_DISCOVERY_ERROR_MISSING_END, db)
  | Some r =>
    match fuel with
    | O => None
    | S fuel' =>
      type ← load_le 2 m r;
      if type =? ATARIX_DISCOVERY_RECORD_END then Some (ATARIX_DISCOVERY_OK, db)
      else
        '(result, db') ← parse_record db m r type;
        if decide (result <> ATARIX_DISCOVERY_OK) then Some (result, db')
        else
          next ← atarix_discovery_next_record m true image_size (Some r);
          parse_loop fuel' m image_size next db'
    end
  end.

(** Returns the result and what is behind [db]. *)
Definition atarix_discovery_parse (image : option bytes) (image_size : Z)
    (db : option atarix_discovery_database_t)
  : option (atarix_discovery_result_t * option atarix_discovery_database_t) :=
  match db with
  | None => Some (ATARIX_DISCOVERY_ERROR_NULL, db)
  | Some d =>
    result ← atarix_discovery_validate image image_size;
    if decide (result <> ATARIX_DISCOVERY_OK) then Some (result, db)
    else
      m ← image;
      '(result, d') ← parse_loop (S (Z.to_nat image_size)) m image_size
         (atarix_discovery_first_record true image_size) d;
      Some (result, Some d')
  end.

(** ** Images *)

(** The variable members of [struct atarix_discovery_header_v1]. *)
Record discovery_header : Type := DiscoveryHeader {
  dh_version_minor : Z;
  dh_total_length : Z;
  dh_record_count : Z;
  dh_provider_id : Z;
  dh_flags : Z;
  dh_header_crc32 : Z;
  dh_image_crc32 : Z
}.

Definition raw_dheader (magic major : Z) (h : discovery_header) : bytes :=
  le_bytes 4 magic ++ le_bytes 2 major ++ le_bytes 2 (dh_version_minor h) ++
  le_bytes 4 (dh_total_length h) ++ le_bytes 4 (dh_record_count h) ++
  le_bytes 4 (dh_provider_id h) ++ le_bytes 4 (dh_flags h) ++
  le_bytes 4 (dh_header_crc32 h) ++ le_bytes 4 (dh_image_crc32 h).

Definition enc_dheader (h : discovery_header) : bytes :=
  raw_dheader ATARIX_DISCOVERY_MAGIC_ATDX ATARIX_DISCOVERY_VERSION_MAJOR_V1 h.

(** The header as it is while the image checksum, or both, are computed. *)
Definition with_crcs (h : discovery_header) (header_crc image_crc : Z) : discovery_header :=
  DiscoveryHeader (dh_version_minor h) (dh_total_length h) (dh_record_count h)
    (dh_provider_id h) (dh_flags h) header_crc image_crc.

Record dheader_wf (h : discovery_header) : Prop := {
  dhw_minor : fits 16 (dh_version_minor h);
  dhw_total : fits 32 (dh_total_length h);
  dhw_count : fits 32 (dh_record_count h);
  dhw_provider : fits 32 (dh_provider_id h);
  dhw_flags : fits 32 (dh_flags h);
  dhw_hcrc : fits 32 (dh_header_crc32 h);
  dhw_icrc : fits 32 (dh_image_crc32 h)
}.

(** A record: its type, version, and the bytes after the record header. *)
Record drecord : Type := DRecord {
  dr_type : Z;
  dr_version : Z;
  dr_payload : bytes
}.

Definition drecord_length (r : drecord) : Z := 8 + blen (dr_payload r).

Definition enc_drecord (r : drecord) : bytes :=
  (le_bytes 2 (dr_type r) ++ le_bytes 2 (dr_version r) ++ le_bytes 4 (drecord_length r)) ++
  dr_payload r.

Definition enc_drecords (rs : list drecord) : bytes := concat (map enc_drecord rs).

Record drecord_wf (r : drecord) : Prop := {
  drw_type : fits 16 (dr_type r);
  drw_version : fits 16 (dr_version r);
  drw_length : fits 32 (drecord_length r);
  drw_aligned : (8 | drecord_length r);
  drw_payload : bytes_ok (dr_payload r)
}.

(** What a valid image of [image_size] bytes consists of: header, records, the
    END record, and bytes up to the total length that nothing describes. *)
Record image_valid (image_size : Z) (h : discovery_header) (rs : list drecord) (fin : drecord)
    (slack : bytes) : Prop := {
  iv_header : dheader_wf h;
  iv_records : Forall drecord_wf rs;
  iv_types : Forall (fun r => dr_type r <> ATARIX_DISCOVERY_RECORD_END) rs;
  iv_end : drecord_wf fin;
  iv_end_type : dr_type fin = ATARIX_DISCOVERY_RECORD_END;
  iv_slack : bytes_ok slack;
  iv_total : dh_total_length h = 32 + blen (enc_drecords (rs ++ [fin])) + blen slack;
  iv_fits : dh_total_length h <= image_size;
  iv_aligned : (8 | dh_total_length h);
  iv_count : dh_record_count h = 0 \/ dh_record_count h = Z.of_nat (S (length rs));
  iv_header_crc : dh_header_crc32 h = crc_of poly_iso_hdlc (enc_dheader (with_crcs h 0 0));
  iv_image_crc : image_size <= image_copy_size ->
    dh_image_crc32 h = crc_of poly_iso_hdlc
      (enc_dheader (with_crcs h (dh_header_crc32 h) 0) ++ enc_drecords (rs ++ [fin]) ++ slack)
}.

Definition discovery_image (h : discovery_header) (rs : list drecord) (fin : drecord)
    (slack : bytes) : bytes :=
  enc_dheader h ++ enc_drecords (rs ++ [fin]) ++ slack.

(** ** The checksum *)

Lemma discovery_crc_bit_spec crc : discovery_crc_bit crc = crc_bit poly_iso_hdlc crc.
Proof.
  unfold discovery_crc_bit, crc_bit. rewrite land_1_testbit.
  by destruct (Z.testbit crc 0).
Qed.

Lemma lnot_u32 x : fits 32 x -> u32 (Z.lnot x) = x .^ UINT32_MAX.
Proof.
  intros Hx. apply Z.bits_inj'. intros i Hi. unfold uint. rewrite Z.lxor_spec.
  change UINT32_MAX with (Z.ones 32).
  destruct (decide (i < 32)).
  - rewrite Z.mod_pow2_bits_low, Z.lnot_spec, Z.ones_spec_low by lia. by destruct (Z.testbit x i).
  - rewrite Z.mod_pow2_bits_high, Z.ones_spec_high, (testbit_fits 32) by (done || lia). done.
Qed.

Lemma crc32_iso_hdlc_spec data n bs :
  bytes_ok data -> load_bytes data 0 n = Some bs ->
  atarix_crc32_iso_hdlc data n = Some (crc_of poly_iso_hdlc bs).
Proof.
  intros Hok Hbs. unfold atarix_crc32_iso_hdlc.
  pose proof (load_bytes_ok _ _ _ _ Hok Hbs) as Hb.
  rewrite (for_bytes_crc poly_iso_hdlc discovery_crc_bit _ _ _ bs);
    [|apply discovery_crc_bit_spec|].
  - cbn [mbind option_bind]. rewrite lnot_u32; [done|]. by apply crc_run_fits.
  - apply load_bytes_length in Hbs as Hl. pose proof (blen_nonneg bs).
    by rewrite Z2Nat.id by lia.
Qed.

(** ** Structure members *)

Lemma magic_major_fit : fits 32 ATARIX_DISCOVERY_MAGIC_ATDX /\ fits 16 1.
Proof. by split. Qed.

Lemma blen_raw_dheader magic major h : blen (raw_dheader magic major h) = 32.
Proof. done. Qed.

Lemma raw_dheader_ok magic major h : bytes_ok (raw_dheader magic major h).
Proof. unfold raw_dheader. split_app; auto with atarix. Qed.

Lemma raw_dheader_split b :
  bytes_ok b -> 32 <= blen b ->
  exists magic major h rest, b = raw_dheader magic major h ++ rest /\
    fits 32 magic /\ fits 16 major /\ dheader_wf h /\ bytes_ok rest.
Proof.
  intros Hb Hl.
  take_next 4%nat b magic b1. take_next 2%nat b1 major b2. take_next 2%nat b2 minor b3.
  take_next 4%nat b3 tot b4. take_next 4%nat b4 count b5. take_next 4%nat b5 provider b6.
  take_next 4%nat b6 flags b7. take_next 4%nat b7 hcrc b8. take_next 4%nat b8 icrc b9.
  exists magic, major, (DiscoveryHeader minor tot count provider flags hcrc icrc), b9.
  split; [unfold raw_dheader; by rewrite <-!app_assoc|]. by split_and!.
Qed.

Lemma blen_enc_drecord r : blen (enc_drecord r) = drecord_length r.
Proof.
  unfold enc_drecord, drecord_length. rewrite !blen_app, !blen_le_bytes. lia.
Qed.

Lemma drecord_length_ge r : 8 <= drecord_length r.
Proof. unfold drecord_length. pose proof (blen_nonneg (dr_payload r)). lia. Qed.

Lemma enc_drecords_cons r rs : enc_drecords (r :: rs) = enc_drecord r ++ enc_drecords rs.
Proof. done. Qed.

Lemma enc_drecords_app rs rs' : enc_drecords (rs ++ rs') = enc_drecords rs ++ enc_drecords rs'.
Proof. unfold enc_drecords. by rewrite map_app, concat_app. Qed.

Lemma enc_drecord_ok r : drecord_wf r -> bytes_ok (enc_drecord r).
Proof. intros []. unfold enc_drecord. split_app; auto with atarix. Qed.

Lemma enc_drecords_ok rs : Forall drecord_wf rs -> bytes_ok (enc_drecords rs).
Proof.
  induction 1; [constructor|]. rewrite enc_drecords_cons. apply Forall_app.
  auto using enc_drecord_ok.
Qed.

(** ** The record walk *)

Lemma raw_drecord_split b :
  bytes_ok b -> 8 <= blen b ->
  exists type version length rest,
    b = (le_bytes 2 type ++ le_bytes 2 version ++ le_bytes 4 length) ++ rest /\
    fits 16 type /\ fits 16 version /\ fits 32 length /\ bytes_ok rest.
Proof.
  intros Hb Hl. take_next 2%nat b type b1. take_next 2%nat b1 version b2.
  take_next 4%nat b2 len b3. exists type, version, len, b3.
  rewrite <-!app_assoc. by split_and!.
Qed.

(** A record header whose length fits what follows begins a record. *)
Lemma raw_drecord_decode type version len rest :
  fits 16 type -> fits 16 version -> fits 32 len -> bytes_ok rest ->
  8 <= len <= 8 + blen rest -> (8 | len) ->
  exists r rest', (le_bytes 2 type ++ le_bytes 2 version ++ le_bytes 4 len) ++ rest =
      enc_drecord r ++ rest' /\
    drecord_wf r /\ dr_type r = type /\ drecord_length r = len.
Proof.
  intros Ht Hv Hl Hok Hr Ha.
  exists (DRecord type version (take (Z.to_nat (len - 8)) rest)), (drop (Z.to_nat (len - 8)) rest).
  assert (Hp : blen (take (Z.to_nat (len - 8)) rest) = len - 8)
    by (unfold blen in *; rewrite length_take; lia).
  assert (Hlen : drecord_length (DRecord type version (take (Z.to_nat (len - 8)) rest)) = len)
    by (unfold drecord_length; cbn [dr_payload]; lia).
  split; [|split; [|done]].
  - unfold enc_drecord. rewrite Hlen. cbn [dr_type dr_version dr_payload].
    by rewrite <-(app_assoc (le_bytes 2 type ++ _)), take_drop.
  - split; rewrite ?Hlen; try done. by apply Forall_take.
Qed.

Lemma raw_drecord_reads a type version len tail :
  fits 16 type -> fits 32 len ->
  let m := a ++ (le_bytes 2 type ++ le_bytes 2 version ++ le_bytes 4 len) ++ tail in
  load_le 2 m (blen a) = Some type /\ load_le 4 m (blen a + 4) = Some len.
Proof.
  intros Ht Hl m. split.
  - rewrite <-(Z.add_0_r (blen a)). by apply (load_le_block 2).
  - by apply (load_le_block 4).
Qed.

Section walk.
Context (m img post : bytes) (Hm : m = img ++ post) (Hok : bytes_ok img)
  (Hsmall : blen img <= UINT32_MAX).

Lemma record_reads a r rest :
  img = a ++ enc_drecord r ++ rest -> drecord_wf r ->
  load_le 2 m (blen a) = Some (dr_type r) /\
  load_le 4 m (blen a + 4) = Some (drecord_length r).
Proof.
  intros Himg [Ht _ Hl _ _].
  replace m with (a ++ (le_bytes 2 (dr_type r) ++ le_bytes 2 (dr_version r) ++
    le_bytes 4 (drecord_length r)) ++ dr_payload r ++ rest ++ post).
  - by apply raw_drecord_reads.
  - rewrite Hm, Himg. unfold enc_drecord. by rewrite <-!app_assoc.
Qed.

(** One step of the walk, on any bytes. *)
Lemma walk_step a b :
  img = a ++ b -> (8 | blen a) -> 0 < blen b -> (8 | blen img) ->
  (exists type version len rest,
     b = (le_bytes 2 type ++ le_bytes 2 version ++ le_bytes 4 len) ++ rest /\
     load_le 2 m (blen a) = Some type /\ load_le 4 m (blen a + 4) = Some len /\
     fits 16 type /\ fits 16 version /\ fits 32 len /\ bytes_ok rest).
Proof.
  intros Himg Ha Hb Hi.
  assert (8 <= blen b).
  { rewrite Himg, blen_app in Hi. destruct Ha as [x Hx], Hi as [y Hy]. lia. }
  destruct (raw_drecord_split b) as (type & version & len & rest & -> & ? & ? & ? & ?).
  { rewrite Himg in Hok. by apply Forall_app in Hok as [_ ?]. }
  { done. }
  exists type, version, len, rest. split; [done|].
  destruct (raw_drecord_reads a type version len (rest ++ post)) as [R1 R2]; [done..|].
  replace m with (a ++ (le_bytes 2 type ++ le_bytes 2 version ++ le_bytes 4 len) ++ rest ++ post)
    by (rewrite Hm, Himg; by rewrite <-!app_assoc).
  by split_and!.
Qed.

Lemma validate_loop_total fuel a b seen :
  img = a ++ b -> (8 | blen a) -> (8 | blen img) -> blen b < 8 * Z.of_nat fuel ->
  is_Some (validate_loop fuel m (blen img) (blen a) seen).
Proof.
  revert a b seen. induction fuel as [|fuel IH]; intros a b seen Himg Ha Hi Hf.
  { pose proof (blen_nonneg b). lia. }
  cbn [validate_loop].
  destruct (Z.ltb_spec (blen a) (blen img)) as [Hlt|]; [|by eexists].
  unfold atarix_offset_aligned8, ATARIX_DISCOVERY_RECORD_HEADER_SIZE_V1.
  apply aligned8_spec in Ha as Ha'. rewrite Ha'. cbn [negb].
  destruct (Z.ltb_spec (blen img - blen a) 8); [by eexists|].
  assert (Hbi : blen img = blen a + blen b) by (by rewrite Himg, blen_app).
  destruct (walk_step a b) as (type & version & len & rest & Hb & -> & -> & ? & ? & ? & ?);
    [done|done|lia|done|]. cbn [mbind option_bind].
  destruct (Z.ltb_spec len 8); [by eexists|].
  destruct (aligned8 len) eqn:Hal; [|by eexists]. cbn [negb orb].
  destruct (Z.ltb_spec (blen img - blen a) len); [by eexists|].
  destruct (_ =? _); [by eexists|]. apply aligned8_spec in Hal.
  assert (Hbl : blen b = 8 + blen rest) by (rewrite Hb, blen_app; done).
  destruct (raw_drecord_decode type version len rest) as (r & rest' & Hr & Hwf & _ & Hlr);
    [done..|lia|done|].
  replace (blen a + len) with (blen (a ++ enc_drecord r)) by (rewrite blen_app, blen_enc_drecord; lia).
  apply (IH _ rest').
  - by rewrite <-app_assoc, <-Hr, <-Hb.
  - rewrite blen_app, blen_enc_drecord, Hlr. by apply Z.divide_add_r.
  - done.
  - rewrite Hb, Hr, blen_app, blen_enc_drecord in Hf. lia.
Qed.

(** One step over an encoded record. *)
Lemma validate_step fuel a r rest seen :
  img = a ++ enc_drecord r ++ rest -> (8 | blen a) -> drecord_wf r ->
  validate_loop (S fuel) m (blen img) (blen a) seen =
  if dr_type r =? ATARIX_DISCOVERY_RECORD_END then Some (inr (u32 (seen + 1), true))
  else validate_loop fuel m (blen img) (blen (a ++ enc_drecord r)) (u32 (seen + 1)).
Proof.
  intros Himg Ha Hr. destruct (record_reads a r rest Himg Hr) as [R1 R2].
  assert (Hi : blen img = blen a + (drecord_length r + blen rest))
    by (by rewrite Himg, !blen_app, blen_enc_drecord).
  pose proof (drecord_length_ge r). pose proof (blen_nonneg rest).
  apply aligned8_spec in Ha. pose proof (drw_aligned _ Hr) as Hal. apply aligned8_spec in Hal.
  cbn [validate_loop]. unfold atarix_offset_aligned8, ATARIX_DISCOVERY_RECORD_HEADER_SIZE_V1.
  destruct (Z.ltb_spec (blen a) (blen img)); [|lia]. rewrite Ha. cbn [negb].
  destruct (Z.ltb_spec (blen img - blen a) 8); [lia|]. rewrite R2. cbn [mbind option_bind].
  destruct (Z.ltb_spec (drecord_length r) 8); [lia|]. rewrite Hal. cbn [negb orb].
  destruct (Z.ltb_spec (blen img - blen a) (drecord_length r)); [lia|].
  rewrite R1. cbn [mbind option_bind]. by rewrite blen_app, blen_enc_drecord.
Qed.

(** The walk over records that do not end it, up to the END record. *)
Lemma validate_loop_enc fuel a rs fin rest seen :
  img = a ++ enc_drecords rs ++ enc_drecord fin ++ rest ->
  (8 | blen a) -> Forall drecord_wf rs -> drecord_wf fin ->
  Forall (fun r => dr_type r <> ATARIX_DISCOVERY_RECORD_END) rs ->
  dr_type fin = ATARIX_DISCOVERY_RECORD_END ->
  0 <= seen <= blen a -> (length rs < fuel)%nat ->
  validate_loop fuel m (blen img) (blen a) seen =
  Some (inr (seen + Z.of_nat (S (length rs)), true)).
Proof.
  intros Himg Ha Hrs Hfin Ht Hft Hs Hf. revert fuel a seen Himg Ha Hs Ht Hf.
  unfold UINT32_MAX in Hsmall.
  induction Hrs as [|r rs Hr _ IH]; intros fuel a seen Himg Ha Hs Ht Hf;
    (destruct fuel as [|fuel]; [simpl in Hf; lia|]); cbn [length] in *.
  - rewrite (validate_step fuel a fin rest) by done. rewrite Hft, Z.eqb_refl.
    assert (blen img = blen a + (drecord_length fin + blen rest))
      by (rewrite Himg; change (enc_drecords []) with (@nil Z); rewrite app_nil_l, !blen_app,
            blen_enc_drecord; done).
    pose proof (drecord_length_ge fin). pose proof (blen_nonneg rest).
    by rewrite uint_small by (unfold fits; lia).
  - apply Forall_cons_iff in Ht as [Htr Ht]. rewrite enc_drecords_cons, <-app_assoc in Himg.
    rewrite (validate_step fuel a r (enc_drecords rs ++ enc_drecord fin ++ rest)) by done.
    apply Z.eqb_neq in Htr. rewrite Htr.
    assert (blen img = blen a + (drecord_length r + blen (enc_drecords rs ++ enc_drecord fin ++ rest)))
      by (by rewrite Himg, !blen_app, blen_enc_drecord).
    pose proof (drecord_length_ge r).
    pose proof (blen_nonneg (enc_drecords rs ++ enc_drecord fin ++ rest)).
    rewrite uint_small by (unfold fits; lia).
    rewrite IH; [do 3 f_equal; lia|by rewrite <-app_assoc| | |done|lia];
      rewrite blen_app, blen_enc_drecord; [|lia].
    apply Z.divide_add_r; [done|apply Hr].
Qed.

(** A walk that finds the END record has walked over encoded records. *)
Lemma validate_loop_inv fuel a b seen n :
  img = a ++ b -> (8 | blen a) -> (8 | blen img) -> 0 <= seen <= blen a ->
  validate_loop fuel m (blen img) (blen a) seen = Some (inr (n, true)) ->
  exists rs fin rest, b = enc_drecords rs ++ enc_drecord fin ++ rest /\
    Forall drecord_wf rs /\ drecord_wf fin /\
    Forall (fun r => dr_type r <> ATARIX_DISCOVERY_RECORD_END) rs /\
    dr_type fin = ATARIX_DISCOVERY_RECORD_END /\ n = seen + Z.of_nat (S (length rs)).
Proof.
  revert a b seen. induction fuel as [|fuel IH]; intros a b seen Himg Ha Hi Hs Hrun.
  { cbn [validate_loop] in Hrun. by destruct (_ <? _). }
  assert (Hbi : blen img = blen a + blen b) by (by rewrite Himg, blen_app).
  assert (Hlt : blen a < blen img).
  { cbn [validate_loop] in Hrun. by destruct (Z.ltb_spec (blen a) (blen img)). }
  destruct (walk_step a b) as (type & version & len & rest & Hb & R1 & R2 & ? & ? & ? & ?);
    [done|done|lia|done|].
  assert (Hl : 8 <= len <= blen b /\ (8 | len)).
  { cbn [validate_loop] in Hrun. unfold atarix_offset_aligned8,
      ATARIX_DISCOVERY_RECORD_HEADER_SIZE_V1 in Hrun. rewrite <-aligned8_spec.
    destruct (Z.ltb_spec (blen a) (blen img)); [|done]. destruct (aligned8 (blen a)); [|done].
    cbn [negb] in Hrun. destruct (Z.ltb_spec (blen img - blen a) 8); [done|].
    rewrite R2 in Hrun. cbn [mbind option_bind] in Hrun.
    destruct (Z.ltb_spec len 8); [done|]. destruct (aligned8 len); [|done]. cbn [negb orb] in Hrun.
    destruct (Z.ltb_spec (blen img - blen a) len); [done|]. split; [lia|done]. }
  assert (Hbl : blen b = 8 + blen rest) by (rewrite Hb, blen_app; done).
  destruct (raw_drecord_decode type version len rest) as (r & rest' & Hr & Hwf & Htr & Hlr);
    [done..|lia|tauto|].
  rewrite Hr in Hb. rewrite Hb in Himg. unfold UINT32_MAX in Hsmall.
  rewrite (validate_step fuel a r rest') in Hrun by done.
  rewrite uint_small in Hrun by (unfold fits; lia).
  destruct (Z.eqb_spec (dr_type r) ATARIX_DISCOVERY_RECORD_END) as [E|E].
  - exists [], r, rest'. simplify_eq. by split_and!.
  - apply IH with (b := rest') in Hrun as (rs & fin & rest'' & -> & ? & ? & ? & ? & ->).
    + exists (r :: rs), fin, rest''. rewrite enc_drecords_cons, Hb, <-app_assoc.
      split_and!; try done; [by constructor..|]. cbn [length]. lia.
    + by rewrite <-app_assoc.
    + rewrite blen_app, blen_enc_drecord. apply Z.divide_add_r; [done|apply Hwf].
    + done.
    + rewrite blen_app, blen_enc_drecord. lia.
Qed.
End walk.

(** ** The header *)

Section header.
Context (m body post : bytes) (magic major : Z) (h : discovery_header).

Let raw := raw_dheader magic major h.

Context (Hm : m = (raw ++ body) ++ post) (Hmagic : fits 32 magic)
  (Hmajor : fits 16 major) (Hh : dheader_wf h) (Hok : bytes_ok body).

Lemma dheader_reads :
  load_le 4 m 0 = Some magic /\ load_le 2 m 4 = Some major /\
  load_le 4 m 8 = Some (dh_total_length h) /\ load_le 4 m 12 = Some (dh_record_count h) /\
  load_le 4 m 24 = Some (dh_header_crc32 h) /\ load_le 4 m 28 = Some (dh_image_crc32 h).
Proof.
  destruct Hh. rewrite Hm, <-app_assoc.
  split_and!;
    [by apply (load_le_block 4 [] raw)|by apply (load_le_block 2 [] raw)
    |by apply (load_le_block 4 [] raw)..].
Qed.

Let zeroed := raw_dheader magic major (with_crcs h 0 0).
Let unsummed := raw_dheader magic major (with_crcs h (dh_header_crc32 h) 0).
Let covered := take (Z.to_nat (dh_total_length h - 32)) body.

Lemma header_copy_crc :
  atarix_crc32_iso_hdlc zeroed ATARIX_DISCOVERY_HEADER_SIZE_V1 =
  Some (crc_of poly_iso_hdlc zeroed).
Proof. apply crc32_iso_hdlc_spec; [apply raw_dheader_ok|by apply load_bytes_whole]. Qed.

Lemma image_copy_crc :
  32 <= dh_total_length h <= 32 + blen body ->
  atarix_crc32_iso_hdlc (unsummed ++ body) (dh_total_length h) =
  Some (crc_of poly_iso_hdlc (unsummed ++ covered)).
Proof.
  intros Ht. apply crc32_iso_hdlc_spec; [apply Forall_app; split; [apply raw_dheader_ok|done]|].
  unfold covered. rewrite <-(take_drop (Z.to_nat (dh_total_length h - 32)) body) at 1.
  rewrite app_assoc. apply load_bytes_prefix. rewrite blen_app. unfold unsummed.
  rewrite blen_raw_dheader. unfold blen in *. rewrite length_take. lia.
Qed.

(** The copies, and the comparison of whatever their checksums are. *)
Lemma crc_valid_compare c1 c2 :
  atarix_crc32_iso_hdlc zeroed ATARIX_DISCOVERY_HEADER_SIZE_V1 = Some c1 ->
  atarix_crc32_iso_hdlc (unsummed ++ body) (dh_total_length h) = Some c2 ->
  atarix_discovery_crc_valid m (32 + blen body) =
  Some ((c1 =? dh_header_crc32 h) &&
        ((image_copy_size <? 32 + blen body) || (c2 =? dh_image_crc32 h))).
Proof.
  intros H1 H2. destruct dheader_reads as (_ & _ & R8 & _ & R24 & R28).
  unfold atarix_discovery_crc_valid. rewrite R24, R28. cbn [mbind option_bind].
  rewrite Hm, <-app_assoc,
    (load_bytes_prefix raw _ ATARIX_DISCOVERY_HEADER_SIZE_V1) by done. cbn [mbind option_bind].
  replace (store_le 4 raw 24 0) with (Some (raw_dheader magic major (with_crcs h 0 (dh_image_crc32 h))))
    by reflexivity.
  cbn [mbind option_bind].
  replace (store_le 4 _ 28 0) with (Some zeroed) by reflexivity.
  rewrite bind_some, H1, bind_some.
  destruct (c1 =? _); cbn [negb andb]; [|done].
  destruct (image_copy_size <? _); [done|]. cbn [orb].
  rewrite (app_assoc raw), (load_bytes_prefix (raw ++ body))
    by (by rewrite blen_app; unfold raw; rewrite blen_raw_dheader).
  cbn [mbind option_bind]. unfold store_le. rewrite store_bytes_app_l by done.
  replace (store_bytes raw 28 _) with (Some unsummed) by reflexivity.
  cbn [mbind option_bind]. rewrite <-Hm, R8. cbn [mbind option_bind]. by rewrite H2.
Qed.

Lemma crc_valid_spec :
  32 <= dh_total_length h <= 32 + blen body ->
  atarix_discovery_crc_valid m (32 + blen body) =
  Some ((crc_of poly_iso_hdlc zeroed =? dh_header_crc32 h) &&
        ((image_copy_size <? 32 + blen body) ||
         (crc_of poly_iso_hdlc (unsummed ++ covered) =? dh_image_crc32 h))).
Proof. intros. by apply crc_valid_compare; [apply header_copy_crc|apply image_copy_crc]. Qed.

(** The checks of [atarix_discovery_validate] on the decoded header, in order;
    [valid] is the outcome of the checksum comparison. *)
Lemma validate_header valid :
  (32 <= dh_total_length h <= 32 + blen body ->
   atarix_discovery_crc_valid m (32 + blen body) = Some valid) ->
  atarix_discovery_validate (Some m) (32 + blen body) =
  if negb (magic =? ATARIX_DISCOVERY_MAGIC_ATDX) then Some ATARIX_DISCOVERY_ERROR_BAD_MAGIC
  else if negb (major =? 1) then Some ATARIX_DISCOVERY_ERROR_UNSUPPORTED_VERSION
  else if (dh_total_length h <? 32) || (32 + blen body <? dh_total_length h) ||
          negb (aligned8 (dh_total_length h)) then Some ATARIX_DISCOVERY_ERROR_BAD_LENGTH
  else if negb valid then Some ATARIX_DISCOVERY_ERROR_BAD_CRC
  else
    walk ← validate_loop (S (Z.to_nat (dh_total_length h))) m (dh_total_length h) 32 0;
    match walk with
    | inl error => Some error
    | inr (records_seen, saw_end) =>
      if negb saw_end then Some ATARIX_DISCOVERY_ERROR_MISSING_END
      else if negb (dh_record_count h =? 0) && negb (records_seen =? dh_record_count h)
      then Some ATARIX_DISCOVERY_ERROR_BAD_LENGTH
      else Some ATARIX_DISCOVERY_OK
    end.
Proof.
  intros Hcrc. destruct dheader_reads as (R0 & R4 & R8 & R12 & _).
  pose proof (blen_nonneg body).
  unfold atarix_discovery_validate, ATARIX_DISCOVERY_HEADER_SIZE_V1,
    ATARIX_DISCOVERY_VERSION_MAJOR_V1, atarix_discovery_magic_is_valid, atarix_offset_aligned8.
  destruct (Z.ltb_spec (32 + blen body) 32); [lia|]. rewrite R0, bind_some.
  destruct (magic =? _); [cbn [negb]|done]. rewrite R4, bind_some.
  destruct (major =? 1); [cbn [negb]|done]. rewrite R8, bind_some.
  destruct (Z.ltb_spec (dh_total_length h) 32); [done|].
  destruct (Z.ltb_spec (32 + blen body) (dh_total_length h)); [done|].
  destruct (negb (aligned8 _)); [done|]. cbn [orb]. rewrite Hcrc, bind_some by done.
  destruct (negb _); [done|].
  destruct (validate_loop _ _ _ _ _) as [[|[seen []]]|]; [done| |done..].
  rewrite !bind_some. cbn [negb]. by rewrite R12, bind_some.
Qed.
End header.

(** An image cut short of its total length is refused: for its size when the header
    is incomplete, and for its total length otherwise. *)
Lemma validate_truncated h body n :
  dheader_wf h -> dh_total_length h = 32 + blen body -> (n < 32 + length body)%nat ->
  let image := take n (enc_dheader h ++ body) in
  atarix_discovery_validate (Some image) (blen image) =
  Some (if (n <? 32)%nat then ATARIX_DISCOVERY_ERROR_TOO_SMALL
        else ATARIX_DISCOVERY_ERROR_BAD_LENGTH).
Proof.
  intros Hh Ht Hn image. unfold image. destruct (Nat.ltb_spec n 32) as [Hs|Hs].
  - unfold atarix_discovery_validate, ATARIX_DISCOVERY_HEADER_SIZE_V1.
    rewrite (proj2 (Z.ltb_lt _ _)); [done|]. unfold blen. rewrite length_take. lia.
  - destruct magic_major_fit as [Hmg Hmj].
    rewrite take_app_ge by exact Hs. change (length (enc_dheader h)) with 32%nat.
    set (rest := take (n - 32) body).
    assert (blen rest < blen body) as Hrest
      by (unfold rest, blen; rewrite length_take; lia).
    replace (blen (enc_dheader h ++ rest)) with (32 + blen rest) by (rewrite blen_app; done).
    change (enc_dheader h) with (raw_dheader ATARIX_DISCOVERY_MAGIC_ATDX 1 h).
    rewrite (validate_header _ rest [] ATARIX_DISCOVERY_MAGIC_ATDX 1 h
      (eq_sym (app_nil_r _)) Hmg Hmj Hh false) by (rewrite Ht; lia).
    rewrite !Z.eqb_refl, Ht. cbn [negb].
    rewrite (proj2 (Z.ltb_lt (32 + blen rest) (32 + blen body))), orb_true_r by lia. done.
Qed.

(** ** What validation accepts *)

Lemma length_enc_drecords rs : (length rs <= length (enc_drecords rs))%nat.
Proof.
  induction rs as [|r rs IH]; [done|]. rewrite enc_drecords_cons, length_app.
  pose proof (drecord_length_ge r). pose proof (blen_enc_drecord r).
  unfold blen in *. cbn [length]. lia.
Qed.

(** The checksums of a valid image verify. *)
Lemma valid_crc_valid image_size h rs fin slack m body post :
  image_valid image_size h rs fin slack ->
  m = (raw_dheader ATARIX_DISCOVERY_MAGIC_ATDX 1 h ++ body) ++ post ->
  image_size = 32 + blen body -> bytes_ok body ->
  take (Z.to_nat (dh_total_length h - 32)) body = enc_drecords (rs ++ [fin]) ++ slack ->
  32 <= dh_total_length h <= 32 + blen body ->
  atarix_discovery_crc_valid m (32 + blen body) = Some true.
Proof.
  intros Hiv Hm -> Hbok Hcov Hle. destruct magic_major_fit as [Hmg Hmj].
  pose proof (iv_header _ _ _ _ _ Hiv) as Hh.
  rewrite (crc_valid_spec m body post _ _ h Hm) by assumption.
  rewrite Hcov. apply f_equal. apply andb_true_intro. split.
  - apply (proj2 (Z.eqb_eq _ _)). exact (eq_sym (iv_header_crc _ _ _ _ _ Hiv)).
  - destruct (Z.ltb_spec image_copy_size (32 + blen body)) as [|Hsz]; [reflexivity|].
    apply (proj2 (Z.eqb_eq _ _)). exact (eq_sym (iv_image_crc _ _ _ _ _ Hiv Hsz)).
Qed.

Lemma validate_valid image_size h rs fin slack m tail post :
  image_valid image_size h rs fin slack ->
  m = (discovery_image h rs fin slack ++ tail) ++ post ->
  image_size = dh_total_length h + blen tail -> bytes_ok tail ->
  atarix_discovery_validate (Some m) image_size = Some ATARIX_DISCOVERY_OK.
Proof.
  intros Hiv Hm -> Htail. pose proof Hiv as [Hh Hrs Hty Hfin Hft Hsl Htot Hfits Hal Hcount _ _].
  set (body := (enc_drecords (rs ++ [fin]) ++ slack) ++ tail).
  assert (Hbl : 32 + blen body = dh_total_length h + blen tail)
    by (unfold body; rewrite !blen_app; lia).
  pose proof (blen_nonneg (enc_drecords (rs ++ [fin]))). pose proof (blen_nonneg slack).
  pose proof (blen_nonneg tail). apply aligned8_spec in Hal as Hal'.
  assert (Hcov : take (Z.to_nat (dh_total_length h - 32)) body = enc_drecords (rs ++ [fin]) ++ slack).
  { unfold body. apply take_app_length'. rewrite length_app. unfold blen in *. lia. }
  assert (Hm' : m = (raw_dheader ATARIX_DISCOVERY_MAGIC_ATDX 1 h ++ body) ++ post)
    by (rewrite Hm; unfold discovery_image, body; rewrite <-!app_assoc; reflexivity).
  assert (Hbok : bytes_ok body).
  { unfold body. split_app; try done. apply enc_drecords_ok. by apply Forall_app; split; [|constructor]. }
  destruct magic_major_fit as [Hmg Hmj].
  rewrite <-Hbl in Hiv |- *. assert (Hle : 32 <= dh_total_length h <= 32 + blen body) by lia.
  assert (Hcv : atarix_discovery_crc_valid m (32 + blen body) = Some true)
    by exact (valid_crc_valid _ h rs fin slack m body post Hiv Hm' eq_refl Hbok Hcov Hle).
  clear Hiv.
  rewrite (validate_header m body post ATARIX_DISCOVERY_MAGIC_ATDX 1 h Hm')
    with (valid := true) by (first [assumption|done]).
  rewrite Hal', !Z.eqb_refl. cbn [negb].
  destruct (Z.ltb_spec (dh_total_length h) 32); [lia|].
  destruct (Z.ltb_spec (32 + blen body) (dh_total_length h)); [lia|]. cbn [orb].
  assert (Hd : dh_total_length h = blen (discovery_image h rs fin slack))
    by (unfold discovery_image, enc_dheader; rewrite !blen_app, blen_raw_dheader; lia).
  pose proof (length_enc_drecords (rs ++ [fin])) as Hlen. rewrite length_app in Hlen.
  rewrite Hd at 2. change 32 with (blen (enc_dheader h)).
  rewrite (validate_loop_enc m (discovery_image h rs fin slack) (tail ++ post))
    with (rs := rs) (fin := fin) (rest := slack).
  - rewrite bind_some. cbn [negb]. destruct Hcount as [-> | ->]; [done|].
    rewrite Z.add_0_l, Z.eqb_refl, andb_false_r. done.
  - by rewrite Hm, <-app_assoc.
  - unfold UINT32_MAX. rewrite <-Hd. pose proof (dhw_total _ Hh). unfold fits in *. lia.
  - unfold discovery_image. rewrite enc_drecords_app, enc_drecords_cons.
    change (enc_drecords []) with (@nil Z). by rewrite app_nil_r, <-!app_assoc.
  - by exists 4.
  - done.
  - done.
  - done.
  - done.
  - split; [lia|apply blen_nonneg].
  - unfold blen in *. lia.
Qed.

(** Any memory of at least a header's size begins with some header. *)
Lemma image_split m image_size :
  bytes_ok m -> 32 <= image_size <= blen m ->
  exists magic major h body post,
    m = (raw_dheader magic major h ++ body) ++ post /\ image_size = 32 + blen body /\
    fits 32 magic /\ fits 16 major /\ dheader_wf h /\ bytes_ok body.
Proof.
  intros Hm Hs.
  assert (Hl : blen (take (Z.to_nat image_size) m) = image_size)
    by (unfold blen in *; rewrite length_take; lia).
  destruct (raw_dheader_split (take (Z.to_nat image_size) m))
    as (magic & major & h & body & Hb & ? & ? & ? & ?); [by apply Forall_take|lia|].
  exists magic, major, h, body, (drop (Z.to_nat image_size) m).
  rewrite <-Hb, take_drop. split; [done|]. split; [|done].
  rewrite <-Hl at 1. rewrite Hb, blen_app, blen_raw_dheader. done.
Qed.

(** The bytes the walk ranges over: the first [total_length] of the image. *)
Lemma covered_split magic major h body :
  32 <= dh_total_length h <= 32 + blen body ->
  exists covered tail, body = covered ++ tail /\ blen (raw_dheader magic major h ++ covered) =
    dh_total_length h /\ covered = take (Z.to_nat (dh_total_length h - 32)) body.
Proof.
  intros Ht. eexists _, (drop (Z.to_nat (dh_total_length h - 32)) body).
  rewrite take_drop. split; [done|]. split; [|reflexivity].
  rewrite blen_app, blen_raw_dheader. unfold blen in *. rewrite length_take. lia.
Qed.

Lemma fits32_le_max v : fits 32 v -> v <= UINT32_MAX.
Proof. unfold fits, UINT32_MAX. lia. Qed.

Lemma crc_valid_total m body post magic major h :
  m = (raw_dheader magic major h ++ body) ++ post -> fits 32 magic -> fits 16 major ->
  dheader_wf h -> bytes_ok body ->
  exists valid, 32 <= dh_total_length h <= 32 + blen body ->
    atarix_discovery_crc_valid m (32 + blen body) = Some valid.
Proof.
  intros Hm Hmg Hmj Hh Hok. eexists. intros Ht.
  exact (crc_valid_spec m body post magic major h Hm Hmg Hmj Hh Hok Ht).
Qed.

Lemma validate_loop_error fuel m total_length offset seen error :
  validate_loop fuel m total_length offset seen = Some (inl error) ->
  error <> ATARIX_DISCOVERY_OK.
Proof.
  revert offset seen. induction fuel as [|fuel IH]; intros offset seen; cbn [validate_loop];
    (destruct (_ <? _); [|done]); [done|].
  destruct (negb _); [by intros [= <-]|]. destruct (_ <? _); [by intros [= <-]|].
  destruct (load_le 4 _ _) as [len|]; [|done]. rewrite bind_some.
  destruct (_ || _); [by intros [= <-]|]. destruct (_ <? _); [by intros [= <-]|].
  destruct (load_le 2 _ _) as [type|]; [|done]. rewrite bind_some.
  destruct (_ =? _); [done|]. apply IH.
Qed.

(** The checks that validation makes before the walk, all passed. *)
Lemma validate_ok_inv m image_size magic major h body post :
  m = (raw_dheader magic major h ++ body) ++ post -> image_size = 32 + blen body ->
  fits 32 magic -> fits 16 major -> dheader_wf h -> bytes_ok body ->
  atarix_discovery_validate (Some m) image_size = Some ATARIX_DISCOVERY_OK ->
  magic = ATARIX_DISCOVERY_MAGIC_ATDX /\ major = 1 /\
  32 <= dh_total_length h <= 32 + blen body /\ (8 | dh_total_length h) /\
  atarix_discovery_crc_valid m (32 + blen body) = Some true /\
  exists n, validate_loop (S (Z.to_nat (dh_total_length h))) m (dh_total_length h) 32 0 =
      Some (inr (n, true)) /\ (dh_record_count h = 0 \/ dh_record_count h = n).
Proof.
  intros Hm -> Hmg Hmj Hh Hok Hval.
  destruct (crc_valid_total m body post magic major h Hm Hmg Hmj Hh Hok) as [valid Hv].
  rewrite (validate_header m body post magic major h Hm Hmg Hmj Hh valid Hv) in Hval.
  destruct (Z.eqb_spec magic ATARIX_DISCOVERY_MAGIC_ATDX) as [->|]; [|done].
  destruct (Z.eqb_spec major 1) as [->|]; [|done]. cbn [negb] in Hval.
  destruct (Z.ltb_spec (dh_total_length h) 32); [done|].
  destruct (Z.ltb_spec (32 + blen body) (dh_total_length h)); [done|].
  destruct (aligned8 _) eqn:Hal; [|done]. apply aligned8_spec in Hal. cbn [negb orb] in Hval.
  rewrite Hv by done. destruct valid; [|done]. cbn [negb] in Hval.
  destruct (validate_loop _ _ _ _ _) as [[error|[n []]]|] eqn:Hwalk; [|..|done];
    rewrite bind_some in Hval; [|cbn [negb] in Hval..]; [|clear Hwalk|done].
  { apply validate_loop_error in Hwalk. by apply (inj Some) in Hval. }
  split_and!; try done. exists n. split; [done|].
  destruct (Z.eqb_spec (dh_record_count h) 0); [by left|right].
  by destruct (Z.eqb_spec n (dh_record_count h)).
Qed.

(** What the checksum comparison accepts. *)
Lemma crc_valid_inv m body post magic major h :
  m = (raw_dheader magic major h ++ body) ++ post -> fits 32 magic -> fits 16 major ->
  dheader_wf h -> bytes_ok body -> 32 <= dh_total_length h <= 32 + blen body ->
  atarix_discovery_crc_valid m (32 + blen body) = Some true ->
  dh_header_crc32 h = crc_of poly_iso_hdlc (raw_dheader magic major (with_crcs h 0 0)) /\
  (32 + blen body <= image_copy_size ->
   dh_image_crc32 h = crc_of poly_iso_hdlc
     (raw_dheader magic major (with_crcs h (dh_header_crc32 h) 0) ++
      take (Z.to_nat (dh_total_length h - 32)) body)).
Proof.
  intros Hm Hmg Hmj Hh Hok Ht Hv.
  rewrite (crc_valid_spec m body post magic major h) in Hv by assumption.
  apply (inj Some) in Hv. apply andb_prop in Hv as [H1 H2].
  apply (proj1 (Z.eqb_eq _ _)) in H1. split; [exact (eq_sym H1)|]. intros Hle.
  apply orb_prop in H2 as [H2|H2]; [apply (proj1 (Z.ltb_lt _ _)) in H2; clear H1; lia|].
  apply (proj1 (Z.eqb_eq _ _)) in H2. exact (eq_sym H2).
Qed.

(** ** Validation, as properties *)

Lemma validate_ok_image m image_size :
  bytes_ok m -> image_size <= blen m ->
  atarix_discovery_validate (Some m) image_size = Some ATARIX_DISCOVERY_OK ->
  exists h rs fin slack tail post,
    m = (discovery_image h rs fin slack ++ tail) ++ post /\
    image_size = dh_total_length h + blen tail /\
    image_valid image_size h rs fin slack.
Proof.
  intros Hm Hs Hval.
  assert (32 <= image_size).
  { unfold atarix_discovery_validate, ATARIX_DISCOVERY_HEADER_SIZE_V1 in Hval.
    destruct (Z.ltb_spec image_size 32); [done|lia]. }
  destruct (image_split m image_size) as (magic & major & h & body & post & Em & Es & ? & ? & ? & Hok);
    [done..|].
  apply (validate_ok_inv m image_size magic major h body post) in Hval
    as (-> & -> & Ht & Hal & Hcrc & n & Hwalk & Hcount); [|done..].
  pose proof (crc_valid_inv m body post ATARIX_DISCOVERY_MAGIC_ATDX 1 h) as Hinv.
  destruct Hinv as [Hhc Hic]; [assumption..|].
  destruct (covered_split ATARIX_DISCOVERY_MAGIC_ATDX 1 h body Ht)
    as (covered & tail & Hb & Hl & Hc).
  rewrite <-Hc in Hic. rewrite Hb in Hok. apply Forall_app in Hok as [Hcok Htok].
  set (raw := raw_dheader ATARIX_DISCOVERY_MAGIC_ATDX 1 h) in *.
  assert (Em' : m = (raw ++ covered) ++ (tail ++ post)) by (rewrite Em, Hb, <-!app_assoc; reflexivity).
  assert (Hrok : bytes_ok (raw ++ covered)) by (apply Forall_app; split; [apply raw_dheader_ok|exact Hcok]).
  assert (Hal' : (8 | blen (raw ++ covered))) by (rewrite Hl; exact Hal).
  assert (Hmax : blen (raw ++ covered) <= UINT32_MAX).
  { rewrite Hl. apply fits32_le_max. by apply dhw_total. }
  rewrite <-Hl in Hwalk at 2.
  destruct (validate_loop_inv m (raw ++ covered) (tail ++ post) Em' Hrok Hmax _ raw covered 0 n
    eq_refl (ex_intro _ 4 eq_refl) Hal' (conj (Z.le_refl 0) (blen_nonneg raw)) Hwalk)
    as (rs & fin & slack & Hcov & Hrs & Hfin & Hty & Hft & Hn).
  assert (Hall : enc_drecords rs ++ enc_drecord fin ++ slack = enc_drecords (rs ++ [fin]) ++ slack).
  { rewrite enc_drecords_app, enc_drecords_cons, <-app_assoc.
    change (enc_drecords []) with (@nil Z). by rewrite app_nil_r. }
  rewrite Hall in Hcov.
  assert (Htot : blen body = blen covered + blen tail) by (by rewrite Hb, blen_app).
  rewrite blen_app in Hl. change (blen raw) with 32 in Hl.
  exists h, rs, fin, slack, tail, post. split_and!.
  - rewrite Em', Hcov. unfold discovery_image. rewrite <-!app_assoc. reflexivity.
  - clear Hhc Hic. lia.
  - rewrite Hcov in Hcok. apply Forall_app in Hcok as [_ Hsok]. split; try assumption.
    + rewrite <-Hl, Hcov, blen_app. apply Z.add_assoc.
    + rewrite Es. apply Ht.
    + rewrite <-Z.add_0_l in Hn. rewrite Hn in Hcount. rewrite !Z.add_0_l in Hcount. exact Hcount.
    + rewrite Hcov in Hic. rewrite Es. exact Hic.
Qed.

(** An image of one resource and the END record: its header, and the payload. *)
Definition sample_dheader : discovery_header := DiscoveryHeader 0 72 2 7 0 855131331 3682558804.

Definition sample_resource : drecord :=
  DRecord ATARIX_DISCOVERY_RECORD_RESOURCE 1
    (le_bytes 2 5 ++ le_bytes 2 1 ++ le_bytes 4 0 ++ le_bytes 8 0x0100000000000001 ++
     le_bytes 4 7 ++ le_bytes 4 0).

Definition sample_end : drecord := DRecord ATARIX_DISCOVERY_RECORD_END 1 [].

Definition sample_dimage : bytes :=
  discovery_image sample_dheader [sample_resource] sample_end [].

(** C4. Validation accepts exactly the valid images: a buffer is accepted iff it
    begins with the encoding of a header, records of which the last and only the
    last is END, and undescribed bytes up to the total length, with lengths,
    alignment, record count and checksums as [image_valid] says. *)
Theorem discovery_validate_accepts_iff m image_size :
  bytes_ok m -> image_size <= blen m ->
  atarix_discovery_validate (Some m) image_size = Some ATARIX_DISCOVERY_OK <->
  exists h rs fin slack tail post,
    m = (discovery_image h rs fin slack ++ tail) ++ post /\
    image_size = dh_total_length h + blen tail /\
    image_valid image_size h rs fin slack.
Proof.
  intros Hm Hs. split; [by apply validate_ok_image|].
  intros (h & rs & fin & slack & tail & post & Em & Es & Hv).
  apply (validate_valid image_size h rs fin slack m tail post); try assumption.
  rewrite Em in Hm. by apply Forall_app in Hm as [[_ Hm]%Forall_app _].
Qed.

Lemma discovery_validate_accepts_iff_witness :
  bytes_ok sample_dimage /\ exists h rs fin slack tail post,
    sample_dimage = (discovery_image h rs fin slack ++ tail) ++ post /\
    72 = dh_total_length h + blen tail /\ image_valid 72 h rs fin slack.
Proof.
  assert (Hok : bytes_ok sample_dimage) by (by apply (bool_decide_unpack _); vm_compute).
  split; [exact Hok|].
  apply (discovery_validate_accepts_iff sample_dimage 72 Hok); [discriminate|by vm_compute].
Defined.

Lemma validate_total m image_size :
  bytes_ok m -> image_size <= blen m ->
  is_Some (atarix_discovery_validate (Some m) image_size).
Proof.
  intros Hm Hs. destruct (Z.ltb_spec image_size 32) as [Hsm|].
  { exists ATARIX_DISCOVERY_ERROR_TOO_SMALL.
    unfold atarix_discovery_validate, ATARIX_DISCOVERY_HEADER_SIZE_V1.
    by rewrite (proj2 (Z.ltb_lt _ _) Hsm). }
  destruct (image_split m image_size) as (magic & major & h & body & post & Em & Es & Hmg & Hmj & Hh & Hok);
    [done..|]. subst image_size.
  destruct (crc_valid_total m body post magic major h Em Hmg Hmj Hh Hok) as [valid Hv].
  rewrite (validate_header m body post magic major h Em Hmg Hmj Hh valid Hv). clear Hv.
  destruct (negb _); [by eexists|]. destruct (negb _); [by eexists|].
  destruct (Z.ltb_spec (dh_total_length h) 32); [by eexists|].
  destruct (Z.ltb_spec (32 + blen body) (dh_total_length h)); [by eexists|]. cbn [orb].
  destruct (aligned8 _) eqn:Hal; [|by eexists]. apply aligned8_spec in Hal. cbn [negb].
  destruct (negb _); [by eexists|].
  destruct (covered_split magic major h body) as (covered & tail & Hb & Hl & _); [done|].
  set (raw := raw_dheader magic major h) in *.
  assert (Hw : is_Some (validate_loop (S (Z.to_nat (dh_total_length h))) m
    (blen (raw ++ covered)) (blen raw) 0)).
  { apply (validate_loop_total m (raw ++ covered) (tail ++ post)) with (b := covered).
    - rewrite Em, Hb, <-!app_assoc. reflexivity.
    - rewrite Hb in Hok. apply Forall_app in Hok as [? _].
      apply Forall_app; split; [apply raw_dheader_ok|done].
    - done.
    - by exists 4.
    - by rewrite Hl.
    - rewrite <-Hl. rewrite blen_app. change (blen raw) with 32. lia. }
  rewrite Hl in Hw. change (blen raw) with 32 in Hw.
  destruct Hw as [[error|[n []]] ->]; rewrite bind_some; [by eexists| |by eexists].
  cbn [negb]. destruct (_ && _); by eexists.
Qed.

(** C20. Validation is memory safe and ends on every input: when the buffer has
    the [image_size] bytes the caller says it has, a result is returned and no
    byte outside the buffer is read, whatever its bytes are. *)
Theorem discovery_validate_total m image_size :
  bytes_ok m -> image_size <= blen m ->
  is_Some (atarix_discovery_validate (Some m) image_size).
Proof. apply validate_total. Qed.

Lemma discovery_validate_total_witness :
  bytes_ok (0x41 :: replicate 40 0) /\
  is_Some (atarix_discovery_validate (Some (0x41 :: replicate 40 0)) 41).
Proof.
  assert (Hok : bytes_ok (0x41 :: replicate 40 0)) by (by apply (bool_decide_unpack _); vm_compute).
  split; [exact Hok|]. apply discovery_validate_total; [exact Hok|by vm_compute].
Defined.

(** What validation says of a valid header over any covered bytes. *)
Lemma validate_covered_crc image_size h covered tail m post :
  dheader_wf h -> bytes_ok covered -> bytes_ok tail ->
  dh_total_length h = 32 + blen covered -> image_size = dh_total_length h + blen tail ->
  (8 | dh_total_length h) ->
  dh_header_crc32 h = crc_of poly_iso_hdlc (enc_dheader (with_crcs h 0 0)) ->
  m = ((enc_dheader h ++ covered) ++ tail) ++ post ->
  image_size <= image_copy_size ->
  crc_of poly_iso_hdlc (enc_dheader (with_crcs h (dh_header_crc32 h) 0) ++ covered) <>
    dh_image_crc32 h ->
  atarix_discovery_validate (Some m) image_size = Some ATARIX_DISCOVERY_ERROR_BAD_CRC.
Proof.
  intros Hh Hcok Htok Htot -> Hal Hhc Hm Hsz Hne.
  assert (Hm' : m = (raw_dheader ATARIX_DISCOVERY_MAGIC_ATDX 1 h ++ (covered ++ tail)) ++ post)
    by (rewrite Hm, <-!app_assoc; reflexivity).
  assert (Hbl : dh_total_length h + blen tail = 32 + blen (covered ++ tail))
    by (clear Hhc Hne; rewrite blen_app; lia).
  assert (Hbok : bytes_ok (covered ++ tail)) by (apply Forall_app; split; assumption).
  pose proof (blen_nonneg covered) as Hc0. pose proof (blen_nonneg tail) as Ht0.
  assert (Hle : 32 <= dh_total_length h <= 32 + blen (covered ++ tail)) by (clear Hhc Hne; lia).
  destruct magic_major_fit as [Hmg Hmj].
  assert (Hcov : take (Z.to_nat (dh_total_length h - 32)) (covered ++ tail) = covered).
  { apply take_app_length'. clear Hhc Hne. unfold blen in *. lia. }
  assert (Hcv : atarix_discovery_crc_valid m (32 + blen (covered ++ tail)) = Some false).
  { rewrite (crc_valid_spec m _ post _ _ h Hm') by assumption. rewrite Hcov. apply f_equal.
    apply andb_false_iff. right. rewrite <-Hbl, (proj2 (Z.ltb_ge _ _) Hsz).
    apply (proj2 (Z.eqb_neq _ _)). exact Hne. }
  clear Hne Hhc. rewrite Hbl in Hsz |- *.
  rewrite (validate_header m _ post ATARIX_DISCOVERY_MAGIC_ATDX 1 h Hm') with (valid := false)
    by (first [assumption|intros _; exact Hcv]).
  apply aligned8_spec in Hal. rewrite Hal, !Z.eqb_refl. cbn [negb].
  destruct (Z.ltb_spec (dh_total_length h) 32); [lia|].
  by destruct (Z.ltb_spec (32 + blen (covered ++ tail)) (dh_total_length h)); [lia|].
Qed.

(** C34. Corruption of a small image is detected: change any run of at most four
    consecutive bytes after the header of a valid image that is validated with
    a size of at most 512, and validation returns BAD_CRC. *)
Theorem discovery_corruption_detected image_size h rs fin slack tail m post a xs ys b :
  image_valid image_size h rs fin slack -> image_size <= 512 ->
  image_size = dh_total_length h + blen tail ->
  enc_drecords (rs ++ [fin]) ++ slack = a ++ xs ++ b ->
  length xs = length ys -> (length xs <= 4)%nat -> xs <> ys -> bytes_ok ys -> bytes_ok tail ->
  m = ((enc_dheader h ++ a ++ ys ++ b) ++ tail) ++ post ->
  atarix_discovery_validate (Some m) image_size = Some ATARIX_DISCOVERY_ERROR_BAD_CRC.
Proof.
  intros Hv Hsz Hs Himg Hl H4 Hne Hys Htok Hm.
  pose proof Hv as [Hh Hrs _ Hfin _ Hsok Htot _ Hal _ _ _].
  assert (Hok : bytes_ok (enc_drecords (rs ++ [fin]) ++ slack)).
  { apply Forall_app; split; [|exact Hsok]. apply enc_drecords_ok, Forall_app.
    split; [exact Hrs|constructor; [exact Hfin|constructor]]. }
  assert (Hlen : blen (enc_drecords (rs ++ [fin]) ++ slack) = blen (a ++ ys ++ b))
    by (rewrite Himg; unfold blen; rewrite !length_app; lia).
  rewrite Himg in Hok. apply Forall_app in Hok as [Ha [Hxs Hb]%Forall_app].
  apply (validate_covered_crc image_size h (a ++ ys ++ b) tail m post); try assumption.
  - apply Forall_app; split; [assumption|]. apply Forall_app; split; assumption.
  - rewrite <-Hlen, blen_app, Htot. symmetry. apply Z.add_assoc.
  - exact (iv_header_crc _ _ _ _ _ Hv).
  - rewrite (iv_image_crc _ _ _ _ _ Hv Hsz), Himg. intros Heq. symmetry in Heq. revert Heq.
    rewrite !(app_assoc (enc_dheader _)).
    apply (checksum_burst (f := crc_of poly_iso_hdlc)); try assumption.
    apply Forall_app; split; [apply raw_dheader_ok|assumption].
Qed.

Lemma sample_resource_wf : drecord_wf sample_resource.
Proof. split; [by split..|by exists 4|]. by apply (bool_decide_unpack _); vm_compute. Qed.

Lemma sample_end_wf : drecord_wf sample_end.
Proof. split; [by split..|by exists 1|constructor]. Qed.

Lemma sample_dimage_valid : image_valid 72 sample_dheader [sample_resource] sample_end [].
Proof.
  split; [by repeat split| | | | | |by vm_compute|by vm_compute|by exists 9|by right| |].
  - constructor; [apply sample_resource_wf|constructor].
  - by repeat constructor.
  - apply sample_end_wf.
  - reflexivity.
  - constructor.
  - by vm_compute.
  - intros _. by vm_compute.
Qed.

Lemma discovery_corruption_detected_witness :
  let body := enc_drecords [sample_resource; sample_end] in
  let damaged := take 20 body ++ [1; 2] ++ drop 22 body in
  atarix_discovery_validate (Some (((enc_dheader sample_dheader ++ damaged) ++ []) ++ [])) 72 =
    Some ATARIX_DISCOVERY_ERROR_BAD_CRC.
Proof.
  intros body damaged.
  apply (discovery_corruption_detected 72 sample_dheader [sample_resource] sample_end [] [] _ []
    (take 20 body) (take 2 (drop 20 body)) [1; 2] (drop 22 body));
    [exact sample_dimage_valid|lia|by vm_compute|by vm_compute|by vm_compute|vm_compute; lia
    |by vm_compute| |constructor|reflexivity].
  by apply (bool_decide_unpack _); vm_compute.
Defined.

(** C35. The payload of a large image is not checked at all: when the buffer is
    longer than 512 bytes, replacing every record by one of the same type and
    length, with any other contents, gives another accepted image. *)
Theorem discovery_large_image_unchecked image_size h rs fin slack rs' slack' tail m post :
  image_valid image_size h rs fin slack -> 512 < image_size ->
  image_size = dh_total_length h + blen tail -> bytes_ok tail ->
  Forall2 (fun r r' => dr_type r = dr_type r' /\ drecord_length r = drecord_length r') rs rs' ->
  Forall drecord_wf rs' -> bytes_ok slack' -> blen slack = blen slack' ->
  m = (discovery_image h rs' fin slack' ++ tail) ++ post ->
  atarix_discovery_validate (Some m) image_size = Some ATARIX_DISCOVERY_OK.
Proof.
  intros Hv Hlarge Hs Htok Hsame Hrs' Hsl' Hsl Hm.
  apply (validate_valid image_size h rs' fin slack' m tail post); try assumption.
  assert (Hlen : blen (enc_drecords rs) = blen (enc_drecords rs')).
  { clear -Hsame. induction Hsame as [|r r' rs rs' [_ Hl] _ IH]; [done|].
    by rewrite !enc_drecords_cons, !blen_app, !blen_enc_drecord, Hl, IH. }
  split; try apply Hv; try assumption.
  - pose proof (iv_types _ _ _ _ _ Hv) as Hty. clear -Hsame Hty.
    induction Hsame as [|r r' rs rs' [E _] _ IH]; [constructor|].
    apply Forall_cons_iff in Hty as [? ?]. constructor; [by rewrite <-E|auto].
  - rewrite (iv_total _ _ _ _ _ Hv), !enc_drecords_app, !blen_app, Hlen, Hsl. reflexivity.
  - rewrite <-(Forall2_length _ _ _ Hsame). apply Hv.
  - intros Hsz. unfold image_copy_size in Hsz. apply Z.lt_nge in Hlarge. contradiction.
Qed.

Lemma discovery_large_image_unchecked_witness :
  let other := DRecord ATARIX_DISCOVERY_RECORD_RESOURCE 9 (replicate 24 0xAA) in
  atarix_discovery_validate
    (Some ((discovery_image sample_dheader [other] sample_end [] ++ replicate 528 0) ++ [])) 600 =
  Some ATARIX_DISCOVERY_OK.
Proof.
  intros other.
  apply (discovery_large_image_unchecked 600 sample_dheader [sample_resource] sample_end []
    [other] [] (replicate 528 0) _ []);
    [|lia|by vm_compute|by apply (bool_decide_unpack _); vm_compute|by repeat constructor
    | |constructor|reflexivity|reflexivity].
  - destruct sample_dimage_valid as [H1 H2 H3 H4 H5 H6 H7 H8 H9 H10 H11 _].
    split; try assumption; [apply Z.le_trans with 72; [exact H8|lia]|].
    intros Hsz. exfalso. clear -Hsz. unfold image_copy_size in Hsz. lia.
  - constructor; [|constructor]. split; [by split..|by exists 4|].
    by apply (bool_decide_unpack _); vm_compute.
Defined.
