(* ===== verification/DiscoveryCatalog.v ===== *)
(** * Discovery: what parsing an image builds

    The abstract side of [atarix_discovery_parse] ([DiscoveryParser.v]): a
    catalog is four lists of entries, a record of an image adds an entry to one
    of them, and parsing a valid image is adding its records in order. The
    database of the code represents a catalog through its arrays and counts
    ([catalog_of]), with the capacities as [limits]. The parser relies on typed
    records being as long as the structures of [discovery.h]; what it does when
    they are not is the last section. *)

From S2P Require Import Prelude Crc Discovery DiscoveryParser.

Record catalog : Type := Catalog {
  cat_resources : list atarix_resource_entry_t;
  cat_services : list atarix_service_entry_t;
  cat_dependencies : list atarix_dependency_entry_t;
  cat_instrumentation : list atarix_instrumentation_entry_t
}.

Record limits : Type := Limits {
  lim_resources : nat;
  lim_services : nat;
  lim_dependencies : nat;
  lim_instrumentation : nat
}.

(** The handles of a catalog: one space for resources, services and instrumentation. *)
Definition catalog_handles (c : catalog) : list Z :=
  map re_handle (cat_resources c) ++ map se_handle (cat_services c) ++
  map ie_handle (cat_instrumentation c).

Definition catalog_of (d : atarix_discovery_database_t) : catalog :=
  Catalog (live (db_resources d)) (live (db_services d)) (live (db_dependencies d))
    (live (db_instrumentation d)).

Definition limits_of (d : atarix_discovery_database_t) : limits :=
  Limits (room (db_resources d)) (room (db_services d)) (room (db_dependencies d))
    (room (db_instrumentation d)).

(** ** The entry a record describes *)

Definition resource_of (r : drecord) : atarix_resource_entry_t :=
  let p := dr_payload r in
  ResourceEntry (le_at 8 p 8) (le_at 2 p 0) (le_at 2 p 2) (le_at 4 p 4) (le_at 4 p 16)
    (le_at 4 p 20).

Definition service_of (r : drecord) : atarix_service_entry_t :=
  let p := dr_payload r in
  ServiceEntry (le_at 8 p 8) (le_at 2 p 0) (le_at 2 p 2) (le_at 4 p 4) (le_at 4 p 16)
    (le_at 4 p 20).

Definition dependency_of (r : drecord) : atarix_dependency_entry_t :=
  let p := dr_payload r in
  DependencyEntry (le_at 8 p 0) (le_at 8 p 8) (le_at 2 p 16) (le_at 2 p 18) (le_at 4 p 20).

Definition instrumentation_of (r : drecord) : atarix_instrumentation_entry_t :=
  let p := dr_payload r in
  InstrumentationEntry (le_at 8 p 8) (le_at 8 p 16) (le_at 2 p 0) (le_at 2 p 2) (le_at 4 p 4).

(** ** Adding a record *)

(** An entry goes in if its handle, where it has one, is new and there is room. *)
Definition admission (c : catalog) (handle : option Z) (used limit : nat)
  : atarix_discovery_result_t :=
  match handle with
  | Some h => if bool_decide (h ∈ catalog_handles c) then ATARIX_DISCOVERY_ERROR_DUPLICATE_HANDLE
              else if (limit <=? used)%nat then ATARIX_DISCOVERY_ERROR_CAPACITY
              else ATARIX_DISCOVERY_OK
  | None => if (limit <=? used)%nat then ATARIX_DISCOVERY_ERROR_CAPACITY else ATARIX_DISCOVERY_OK
  end.

Definition if_admitted (result : atarix_discovery_result_t) (c c' : catalog)
  : atarix_discovery_result_t * catalog :=
  (result, if decide (result = ATARIX_DISCOVERY_OK) then c' else c).

Definition spec_add (lim : limits) (c : catalog) (r : drecord)
  : atarix_discovery_result_t * catalog :=
  if dr_type r =? ATARIX_DISCOVERY_RECORD_RESOURCE then
    if_admitted (admission c (Some (re_handle (resource_of r)))
        (length (cat_resources c)) (lim_resources lim)) c
      (Catalog (cat_resources c ++ [resource_of r]) (cat_services c) (cat_dependencies c)
        (cat_instrumentation c))
  else if dr_type r =? ATARIX_DISCOVERY_RECORD_SERVICE then
    if_admitted (admission c (Some (se_handle (service_of r)))
        (length (cat_services c)) (lim_services lim)) c
      (Catalog (cat_resources c) (cat_services c ++ [service_of r]) (cat_dependencies c)
        (cat_instrumentation c))
  else if dr_type r =? ATARIX_DISCOVERY_RECORD_DEPENDENCY then
    if_admitted (admission c None (length (cat_dependencies c)) (lim_dependencies lim)) c
      (Catalog (cat_resources c) (cat_services c) (cat_dependencies c ++ [dependency_of r])
        (cat_instrumentation c))
  else if dr_type r =? ATARIX_DISCOVERY_RECORD_INSTRUMENTATION then
    if_admitted (admission c (Some (ie_handle (instrumentation_of r)))
        (length (cat_instrumentation c)) (lim_instrumentation lim)) c
      (Catalog (cat_resources c) (cat_services c) (cat_dependencies c)
        (cat_instrumentation c ++ [instrumentation_of r]))
  else (ATARIX_DISCOVERY_OK, c).

(** Records in order, up to the first that is refused. *)
Fixpoint spec_parse (lim : limits) (c : catalog) (rs : list drecord)
  : atarix_discovery_result_t * catalog :=
  match rs with
  | [] => (ATARIX_DISCOVERY_OK, c)
  | r :: rs' =>
    let '(result, c') := spec_add lim c r in
    if decide (result = ATARIX_DISCOVERY_OK) then spec_parse lim c' rs' else (result, c')
  end.

(** A record of a type that the parser reads has the members it reads. *)
Definition typed_complete (r : drecord) : Prop :=
  1 <= dr_type r <= 5 -> dr_type r <> ATARIX_DISCOVERY_RECORD_PROVIDER -> 24 <= blen (dr_payload r).

(** ** Tables *)

Lemma table_full_spec {A} (t : table A) :
  table_wf t -> table_full t = (room t <=? length (live t))%nat.
Proof.
  unfold table_wf, table_full, room, live. destruct (tb_entries t) as [l|].
  - intros [? ?]. rewrite orb_false_r, length_take. f_equal. lia.
  - intros _. by rewrite orb_true_r.
Qed.

Lemma table_push_spec {A} (t : table A) e :
  table_wf t -> table_full t = false ->
  exists t', table_push t e = Some t' /\ table_wf t' /\ live t' = live t ++ [e] /\ room t' = room t.
Proof.
  unfold table_wf, table_full, table_push, room, live. destruct t as [[l|] cap n];
    cbn [tb_entries tb_capacity tb_count]; [|by rewrite orb_true_r].
  intros [Hn Hc]. rewrite orb_false_r. intros Hf%Nat.leb_gt.
  destruct (Nat.ltb_spec n (length l)); [|lia]. eexists. split; [done|].
  cbn [tb_entries tb_capacity tb_count]. rewrite length_insert. split_and!; [lia..| |done].
  rewrite (take_S_r _ _ e) by (apply list_lookup_insert_eq; lia).
  by rewrite take_insert_ge by lia.
Qed.

(** ** Reading a record *)

Lemma record_field n m a r rest k :
  m = a ++ enc_drecord r ++ rest -> drecord_wf r -> 0 <= n -> 0 <= k ->
  k + n <= blen (dr_payload r) ->
  load_le n m (blen a + (8 + k)) = Some (le_at n (dr_payload r) k).
Proof.
  intros -> Hr Hn Hk Hl. unfold enc_drecord. set (hd := le_bytes 2 _ ++ _).
  replace (a ++ (hd ++ dr_payload r) ++ rest) with ((a ++ hd) ++ dr_payload r ++ rest)
    by (by rewrite <-!app_assoc).
  replace (blen a + (8 + k)) with (blen (a ++ hd) + k)
    by (rewrite blen_app; unfold hd; rewrite !blen_app, !blen_le_bytes; lia).
  apply load_le_at; try done. apply Hr.
Qed.

(** ** The database represents a catalog *)

Record represents (lim : limits) (c : catalog) (d : atarix_discovery_database_t) : Prop := {
  rep_wf : database_wf d;
  rep_catalog : catalog_of d = c;
  rep_limits : limits_of d = lim
}.

(** What a step of the parser does to a represented catalog. *)
Definition implements (lim : limits)
    (run : option (atarix_discovery_result_t * atarix_discovery_database_t))
    (spec : atarix_discovery_result_t * catalog) : Prop :=
  exists d', run = Some (spec.1, d') /\ represents lim spec.2 d'.

Section add.
Context (lim : limits) (c : catalog) (d : atarix_discovery_database_t)
  (m a : bytes) (r : drecord) (rest : bytes)
  (Hd : represents lim c d) (Hm : m = a ++ enc_drecord r ++ rest) (Hr : drecord_wf r)
  (Hp : 24 <= blen (dr_payload r)).

Lemma member n off k :
  off = 8 + k -> 0 <= n -> 0 <= k -> k + n <= 24 ->
  load_le n m (blen a + off) = Some (le_at n (dr_payload r) k).
Proof. intros -> ???. apply (record_field n m a r rest); (done || lia). Qed.

(** The checks before an entry is stored, and storing it; [put] is the
    database with one of its tables replaced. *)
Lemma add_entry {A} (handle : option Z) (t : table A) (e : A)
    (put : table A -> atarix_discovery_database_t) c' :
  table_wf t ->
  (forall t', table_wf t' -> live t' = live t ++ [e] -> room t' = room t ->
    represents lim c' (put t')) ->
  implements lim
    (contained ← match handle with
                 | Some h => atarix_discovery_database_contains_handle (Some d) h
                 | None => Some false
                 end;
     if (contained : bool) then Some (ATARIX_DISCOVERY_ERROR_DUPLICATE_HANDLE, d)
     else if table_full t then Some (ATARIX_DISCOVERY_ERROR_CAPACITY, d)
     else t' ← table_push t e; Some (ATARIX_DISCOVERY_OK, put t'))
    (if_admitted (admission c handle (length (live t)) (room t)) c c').
Proof.
  intros Ht Hput. pose proof Hd as [Hwf Hc _]. unfold implements.
  assert (Hcontained : match handle with
    | Some h => atarix_discovery_database_contains_handle (Some d) h
    | None => Some false end =
    Some match handle with Some h => bool_decide (h ∈ catalog_handles c) | None => false end).
  { destruct handle as [h|]; [|done]. rewrite contains_handle_spec by done. by rewrite <-Hc. }
  rewrite Hcontained, bind_some, table_full_spec by done.
  unfold if_admitted, admission.
  destruct handle as [h|]; [case_bool_decide|]; [by exists d| |];
    (destruct (Nat.leb_spec (room t) (length (live t))) as [|Hroom]; [by exists d|]);
    (destruct (table_push_spec t e) as (t' & -> & ? & ? & ?);
      [done|rewrite table_full_spec by done; by apply Nat.leb_gt|]);
    exists (put t'); by split; [|apply Hput].
Qed.

(** Rewrite the member loads, then apply [add_entry] with the table, the entry
    and the database around the table. *)
Ltac add_spec handle t e put :=
  rewrite ?bind_some;
  lazymatch goal with
  | |- implements _ _ (if_admitted _ _ ?c') =>
    let Hadd := fresh in
    pose proof (add_entry handle t e put c') as Hadd;
    destruct Hd as [[] <- <-]; apply Hadd; [done|];
    let Hl := fresh in let Hr := fresh in
    intros t' ? Hl Hr;
    split; [by split|unfold catalog_of; cbn; by rewrite Hl|unfold limits_of; cbn; by rewrite Hr]
  end.

Lemma add_resource_spec :
  implements lim (add_resource d m (blen a))
    (if_admitted (admission c (Some (re_handle (resource_of r)))
        (length (cat_resources c)) (lim_resources lim)) c
      (Catalog (cat_resources c ++ [resource_of r]) (cat_services c) (cat_dependencies c)
        (cat_instrumentation c))).
Proof.
  unfold add_resource.
  rewrite (member 8 16 8), (member 2 8 0), (member 2 10 2), (member 4 12 4),
    (member 4 24 16), (member 4 28 20) by done.
  add_spec (Some (re_handle (resource_of r))) (db_resources d) (resource_of r)
    (fun t => DiscoveryDatabase t (db_services d) (db_dependencies d) (db_instrumentation d)).
Qed.

Lemma add_service_spec :
  implements lim (add_service d m (blen a))
    (if_admitted (admission c (Some (se_handle (service_of r)))
        (length (cat_services c)) (lim_services lim)) c
      (Catalog (cat_resources c) (cat_services c ++ [service_of r]) (cat_dependencies c)
        (cat_instrumentation c))).
Proof.
  unfold add_service.
  rewrite (member 8 16 8), (member 2 8 0), (member 2 10 2), (member 4 12 4),
    (member 4 24 16), (member 4 28 20) by done.
  add_spec (Some (se_handle (service_of r))) (db_services d) (service_of r)
    (fun t => DiscoveryDatabase (db_resources d) t (db_dependencies d) (db_instrumentation d)).
Qed.

Lemma add_dependency_spec :
  implements lim (add_dependency d m (blen a))
    (if_admitted (admission c None (length (cat_dependencies c)) (lim_dependencies lim)) c
      (Catalog (cat_resources c) (cat_services c) (cat_dependencies c ++ [dependency_of r])
        (cat_instrumentation c))).
Proof.
  unfold add_dependency.
  rewrite (member 8 8 0), (member 8 16 8), (member 2 24 16), (member 2 26 18),
    (member 4 28 20) by done.
  add_spec (@None Z) (db_dependencies d) (dependency_of r)
    (fun t => DiscoveryDatabase (db_resources d) (db_services d) t (db_instrumentation d)).
Qed.

Lemma add_instrumentation_spec :
  implements lim (add_instrumentation d m (blen a))
    (if_admitted (admission c (Some (ie_handle (instrumentation_of r)))
        (length (cat_instrumentation c)) (lim_instrumentation lim)) c
      (Catalog (cat_resources c) (cat_services c) (cat_dependencies c)
        (cat_instrumentation c ++ [instrumentation_of r]))).
Proof.
  unfold add_instrumentation.
  rewrite (member 8 16 8), (member 8 24 16), (member 2 8 0), (member 2 10 2),
    (member 4 12 4) by done.
  add_spec (Some (ie_handle (instrumentation_of r))) (db_instrumentation d) (instrumentation_of r)
    (fun t => DiscoveryDatabase (db_resources d) (db_services d) (db_dependencies d) t).
Qed.
End add.

Lemma parse_record_spec lim c d m a r rest :
  represents lim c d -> m = a ++ enc_drecord r ++ rest -> drecord_wf r -> typed_complete r ->
  implements lim (parse_record d m (blen a) (dr_type r)) (spec_add lim c r).
Proof.
  intros Hd Hm Hr Hp. unfold parse_record, spec_add, typed_complete in *.
  unfold ATARIX_DISCOVERY_RECORD_RESOURCE, ATARIX_DISCOVERY_RECORD_SERVICE,
    ATARIX_DISCOVERY_RECORD_DEPENDENCY, ATARIX_DISCOVERY_RECORD_INSTRUMENTATION,
    ATARIX_DISCOVERY_RECORD_PROVIDER in *.
  destruct (Z.eqb_spec (dr_type r) 1); [eapply add_resource_spec; (done || lia)|].
  destruct (Z.eqb_spec (dr_type r) 2); [eapply add_service_spec; (done || lia)|].
  destruct (Z.eqb_spec (dr_type r) 4); [eapply add_dependency_spec; (done || lia)|].
  destruct (Z.eqb_spec (dr_type r) 5); [eapply add_instrumentation_spec; (done || lia)|].
  by exists d.
Qed.

(** ** The loop over the records *)

Lemma record_header_reads m a r rest :
  m = a ++ enc_drecord r ++ rest -> drecord_wf r ->
  load_le 2 m (blen a) = Some (dr_type r) /\
  load_le 4 m (blen a + 4) = Some (drecord_length r).
Proof. intros Hm. apply (record_reads m m []) with (rest := rest); [by rewrite app_nil_r|done]. Qed.

Lemma next_record_spec m image_size a r rest :
  m = a ++ enc_drecord r ++ rest -> drecord_wf r -> (8 | blen a) ->
  blen a + drecord_length r < image_size ->
  atarix_discovery_next_record m true image_size (Some (blen a)) =
  Some (Some (blen (a ++ enc_drecord r))).
Proof.
  intros Hm Hr Ha Hlt. destruct (record_header_reads m a r rest Hm Hr) as [_ Hl].
  unfold atarix_discovery_next_record, ATARIX_DISCOVERY_RECORD_HEADER_SIZE_V1. cbn [negb].
  rewrite Hl, bind_some. pose proof (drecord_length_ge r).
  destruct (Z.ltb_spec (drecord_length r) 8); [lia|].
  destruct (Z.leb_spec image_size (blen a + drecord_length r)); [lia|].
  rewrite (proj2 (aligned8_spec _)).
  - cbn [negb]. by rewrite blen_app, blen_enc_drecord.
  - apply Z.divide_add_r; [done|apply Hr].
Qed.

Lemma parse_loop_spec lim m image_size rs fin fuel a rest c d :
  m = a ++ enc_drecords rs ++ enc_drecord fin ++ rest ->
  blen a + blen (enc_drecords rs) + drecord_length fin <= image_size -> (8 | blen a) ->
  Forall drecord_wf rs -> drecord_wf fin -> Forall typed_complete rs ->
  Forall (fun r => dr_type r <> ATARIX_DISCOVERY_RECORD_END) rs ->
  dr_type fin = ATARIX_DISCOVERY_RECORD_END ->
  represents lim c d -> (length rs < fuel)%nat ->
  implements lim (parse_loop fuel m image_size (Some (blen a)) d) (spec_parse lim c rs).
Proof.
  intros Hm Hs Ha Hrs Hfin. revert fuel a c d Hm Hs Ha.
  induction Hrs as [|r rs Hr _ IH]; intros fuel a c d Hm Hs Ha Hcs Hts Hft Hd Hf;
    (destruct fuel as [|fuel]; [simpl in Hf; lia|]); cbn [parse_loop spec_parse].
  { destruct (record_header_reads m a fin rest Hm Hfin) as [-> _].
    rewrite bind_some, Hft, Z.eqb_refl. by exists d. }
  apply Forall_cons_iff in Hcs as [Hc Hcs]. apply Forall_cons_iff in Hts as [Ht Hts].
  rewrite enc_drecords_cons in Hm, Hs. rewrite blen_app, blen_enc_drecord in Hs.
  rewrite <-app_assoc in Hm. cbn [length] in Hf.
  destruct (record_header_reads m a r _ Hm Hr) as [-> _]. rewrite bind_some.
  rewrite (proj2 (Z.eqb_neq _ _) Ht).
  destruct (parse_record_spec lim c d m a r _ Hd Hm Hr Hc) as (d' & -> & Hd'). rewrite bind_some.
  destruct (spec_add lim c r) as [result c']; cbn [fst snd] in *.
  destruct (decide (result = ATARIX_DISCOVERY_OK)) as [->|Hne].
  - rewrite decide_False by (intros Hn; by apply Hn).
    pose proof (drecord_length_ge fin). pose proof (blen_nonneg (enc_drecords rs)).
    rewrite (next_record_spec m image_size a r _ Hm Hr) by (done || lia). rewrite bind_some.
    apply IH; try done; [by rewrite <-app_assoc|rewrite blen_app, blen_enc_drecord; lia| |lia].
    rewrite blen_app, blen_enc_drecord. apply Z.divide_add_r; [done|apply Hr].
  - rewrite decide_True by done. by exists d'.
Qed.

Lemma discovery_parse_catalog image_size h rs fin slack tail post m lim c d :
  image_valid image_size h rs fin slack -> Forall typed_complete rs ->
  image_size = dh_total_length h + blen tail -> bytes_ok tail ->
  m = (discovery_image h rs fin slack ++ tail) ++ post ->
  represents lim c d ->
  exists d', atarix_discovery_parse (Some m) image_size (Some d) =
      Some (fst (spec_parse lim c rs), Some d') /\
    represents lim (snd (spec_parse lim c rs)) d'.
Proof.
  intros Hv Hcs Hs Htok Hm Hd. unfold atarix_discovery_parse.
  rewrite (validate_valid image_size h rs fin slack m tail post Hv Hm Hs Htok).
  pose proof Hv as [_ Hrs Hts Hfin Hft _ Htot Hfits _ _ _ _]. clear Hv.
  rewrite bind_some. rewrite decide_False by (intros Hn; by apply Hn). rewrite bind_some.
  rewrite enc_drecords_app, enc_drecords_cons, !blen_app, blen_enc_drecord in Htot.
  change (blen (enc_drecords [])) with 0 in Htot.
  pose proof (blen_nonneg (enc_drecords rs)). pose proof (blen_nonneg slack).
  pose proof (drecord_length_ge fin). pose proof (length_enc_drecords rs).
  unfold atarix_discovery_first_record, ATARIX_DISCOVERY_HEADER_SIZE_V1.
  rewrite (proj2 (Z.ltb_ge _ _)) by lia. cbn [negb orb].
  destruct (parse_loop_spec lim m image_size rs fin (S (Z.to_nat image_size)) (enc_dheader h)
    (slack ++ tail ++ post) c d) as (d' & Hrun & Hd'); try done.
  - rewrite Hm. unfold discovery_image. rewrite enc_drecords_app, enc_drecords_cons.
    change (enc_drecords []) with (@nil Z). rewrite app_nil_r, <-!app_assoc. reflexivity.
  - change (blen (enc_dheader h)) with 32. lia.
  - by exists 4.
  - unfold blen in *. lia.
  - change (blen (enc_dheader h)) with 32 in Hrun. rewrite Hrun, bind_some. by exists d'.
Qed.

(** C5. Refinement: parsing a valid image into a database adds its records to
    the catalog the database represents, in order, up to the first that is
    refused; it gives the same result as the specification, leaves the database
    well formed, and never leaves the buffer or an array. The typed records must
    be at least as long as their structures. *)
Theorem discovery_parse_refines image_size h rs fin slack tail post m lim c d :
  image_valid image_size h rs fin slack -> Forall typed_complete rs ->
  image_size = dh_total_length h + blen tail -> bytes_ok tail ->
  m = (discovery_image h rs fin slack ++ tail) ++ post ->
  represents lim c d ->
  exists d', atarix_discovery_parse (Some m) image_size (Some d) =
      Some (fst (spec_parse lim c rs), Some d') /\
    represents lim (snd (spec_parse lim c rs)) d'.
Proof. apply discovery_parse_catalog. Qed.

(** A database with room for two resources and nothing else. *)
Definition sample_database : atarix_discovery_database_t :=
  let empty := ResourceEntry 0 0 0 0 0 0 in
  DiscoveryDatabase (Table (Some [empty; empty]) 2 0) (Table None 0 0) (Table None 0 0)
    (Table None 0 0).

Lemma sample_database_wf : database_wf sample_database.
Proof. split; [split; vm_compute; lia|done..]. Qed.

Lemma sample_database_represents :
  represents (Limits 2 0 0 0) (Catalog [] [] [] []) sample_database.
Proof. split; [exact sample_database_wf|done..]. Qed.

Lemma sample_typed : Forall typed_complete [sample_resource].
Proof. repeat constructor. intros _ _. vm_compute. discriminate. Qed.

Lemma discovery_parse_refines_witness :
  fst (spec_parse (Limits 2 0 0 0) (Catalog [] [] [] []) [sample_resource]) = ATARIX_DISCOVERY_OK /\
  exists d', atarix_discovery_parse (Some ((sample_dimage ++ []) ++ [])) 72 (Some sample_database) =
      Some (fst (spec_parse (Limits 2 0 0 0) (Catalog [] [] [] []) [sample_resource]), Some d') /\
    represents (Limits 2 0 0 0)
      (snd (spec_parse (Limits 2 0 0 0) (Catalog [] [] [] []) [sample_resource])) d'.
Proof.
  split; [by vm_compute|].
  apply (discovery_parse_refines 72 sample_dheader [sample_resource] sample_end [] [] []);
    [exact sample_dimage_valid|exact sample_typed|reflexivity|constructor|reflexivity
    |exact sample_database_represents].
Defined.

(** ** Handles stay unique *)

Lemma NoDup_added {A} (l l' : list A) x : l' ≡ₚ x :: l -> NoDup l -> x ∉ l -> NoDup l'.
Proof. intros -> ??. by constructor. Qed.

(** What a successful addition does, whichever table it goes to. *)
Inductive grows (d : atarix_discovery_database_t) : atarix_discovery_database_t -> Prop :=
| grows_refl : grows d d
| grows_resource t e :
    re_handle e ∉ database_handles d -> table_wf t -> live t = live (db_resources d) ++ [e] ->
    room t = room (db_resources d) ->
    grows d (DiscoveryDatabase t (db_services d) (db_dependencies d) (db_instrumentation d))
| grows_service t e :
    se_handle e ∉ database_handles d -> table_wf t -> live t = live (db_services d) ++ [e] ->
    room t = room (db_services d) ->
    grows d (DiscoveryDatabase (db_resources d) t (db_dependencies d) (db_instrumentation d))
| grows_dependency t e :
    table_wf t -> live t = live (db_dependencies d) ++ [e] -> room t = room (db_dependencies d) ->
    grows d (DiscoveryDatabase (db_resources d) (db_services d) t (db_instrumentation d))
| grows_instrumentation t e :
    ie_handle e ∉ database_handles d -> table_wf t ->
    live t = live (db_instrumentation d) ++ [e] -> room t = room (db_instrumentation d) ->
    grows d (DiscoveryDatabase (db_resources d) (db_services d) (db_dependencies d) t).

Record database_inv (lim : limits) (d : atarix_discovery_database_t) : Prop := {
  di_wf : database_wf d;
  di_handles : NoDup (database_handles d);
  di_limits : limits_of d = lim
}.

Lemma grows_inv lim d d' : database_inv lim d -> grows d d' -> database_inv lim d'.
Proof.
  intros [Hwf Hn <-] Hg. pose proof Hwf as [H1 H2 H3 H4].
  destruct Hg as [|t e Hx Ht Hl Hr|t e Hx Ht Hl Hr|t e Ht Hl Hr|t e Hx Ht Hl Hr];
    (split; [by split| |unfold limits_of; cbn; by rewrite ?Hr]); unfold database_handles in *;
    cbn [db_resources db_services db_dependencies db_instrumentation] in *; [done|..|done|];
    rewrite Hl, map_app; cbn [map]; apply (NoDup_added _ _ _) with (3 := Hx); try done;
    solve_Permutation.
Qed.

(** A successful run of the parser on one record: an error leaves the database
    alone, and success grows it. *)
Definition step_ok (d : atarix_discovery_database_t)
    (run : option (atarix_discovery_result_t * atarix_discovery_database_t)) : Prop :=
  match run with Some (_, d') => grows d d' | None => True end.

Lemma add_entry_ok {A} (put : table A -> atarix_discovery_database_t) d t (e : A) :
  table_wf t -> table_full t = false ->
  (forall t', table_wf t' -> live t' = live t ++ [e] -> room t' = room t -> grows d (put t')) ->
  step_ok d (t' ← table_push t e; Some (ATARIX_DISCOVERY_OK, put t')).
Proof.
  intros Ht Hf Hput. destruct (table_push_spec t e Ht Hf) as (t' & -> & ? & ? & ?).
  by apply Hput.
Qed.

(** Peel the member loads: one that fails makes the run fail. *)
Ltac peel_loads :=
  repeat match goal with
  | |- step_ok _ (load_le ?n ?m ?a ≫= _) =>
    destruct (load_le n m a); [rewrite bind_some|exact I]
  end.

Ltac peel_checks :=
  rewrite ?contains_handle_spec, ?bind_some by done;
  try (case_bool_decide; [exact (grows_refl _)|]);
  match goal with |- context [table_full ?t] => destruct (table_full t) eqn:? end;
  [exact (grows_refl _)|].

Lemma parse_record_ok d m record type :
  database_wf d -> step_ok d (parse_record d m record type).
Proof.
  intros Hwf. pose proof Hwf as [H1 H2 H3 H4]. unfold parse_record.
  destruct (type =? _).
  { unfold add_resource. peel_loads. peel_checks. peel_loads.
    apply (add_entry_ok (fun t => DiscoveryDatabase t _ _ _)); try done.
    intros. eapply grows_resource; [|eassumption..]; done. }
  destruct (type =? _).
  { unfold add_service. peel_loads. peel_checks. peel_loads.
    apply (add_entry_ok (fun t => DiscoveryDatabase _ t _ _)); try done.
    intros. eapply grows_service; [|eassumption..]; done. }
  destruct (type =? _).
  { unfold add_dependency. peel_checks. peel_loads.
    apply (add_entry_ok (fun t => DiscoveryDatabase _ _ t _)); try done.
    intros. eapply grows_dependency; eassumption. }
  destruct (type =? _); [|constructor].
  unfold add_instrumentation. peel_loads. peel_checks. peel_loads.
  apply (add_entry_ok (fun t => DiscoveryDatabase _ _ _ t)); try done.
  intros. eapply grows_instrumentation; [|eassumption..]; done.
Qed.

Lemma parse_loop_inv lim fuel m image_size record d result d' :
  database_inv lim d -> parse_loop fuel m image_size record d = Some (result, d') ->
  database_inv lim d'.
Proof.
  revert record d. induction fuel as [|fuel IH]; intros [r|] d Hd; cbn [parse_loop];
    [done|by intros [= _ <-]| |by intros [= _ <-]].
  destruct (load_le 2 m r) as [type|]; [|done]. rewrite bind_some.
  destruct (type =? _); [by intros [= _ <-]|].
  pose proof (parse_record_ok d m r type (di_wf _ _ Hd)) as Hok.
  destruct (parse_record d m r type) as [[res d1]|]; [|done]. rewrite bind_some.
  pose proof (grows_inv _ _ _ Hd Hok) as Hd1.
  destruct (decide _); [by intros [= _ <-]|].
  destruct (atarix_discovery_next_record _ _ _ _) as [next|]; [|done]. rewrite bind_some.
  by apply IH.
Qed.

Lemma parse_inv lim image image_size d result d' :
  database_inv lim d ->
  atarix_discovery_parse image image_size (Some d) = Some (result, d') ->
  exists d1, d' = Some d1 /\ database_inv lim d1.
Proof.
  intros Hd. unfold atarix_discovery_parse.
  destruct (atarix_discovery_validate image image_size) as [res|]; [|done]. rewrite bind_some.
  destruct (decide _); [intros [= _ <-]; by exists d|].
  destruct image as [m|]; [|done]. rewrite bind_some.
  destruct (parse_loop _ _ _ _ _) as [[res' d1]|] eqn:Hrun; [|done]. rewrite bind_some.
  intros [= _ <-]. exists d1. split; [done|]. by eapply parse_loop_inv.
Qed.

(** ** Outcomes of parsing *)

(** The types of record that are read through a structure of 32 bytes. *)
Definition typed_record (type : Z) : Prop :=
  1 <= type <= 5 /\ type <> ATARIX_DISCOVERY_RECORD_PROVIDER.

(** The entries already in the tables stay where they are. *)
Record keeps (d d' : atarix_discovery_database_t) : Prop := {
  kp_resources : live (db_resources d) `prefix_of` live (db_resources d');
  kp_services : live (db_services d) `prefix_of` live (db_services d');
  kp_dependencies : live (db_dependencies d) `prefix_of` live (db_dependencies d');
  kp_instrumentation : live (db_instrumentation d) `prefix_of` live (db_instrumentation d')
}.

#[export] Instance keeps_preorder : PreOrder keeps.
Proof.
  split; [by constructor|]. intros d1 d2 d3 [] []. by constructor; etrans.
Qed.

Lemma grows_keeps d d' : grows d d' -> keeps d d'.
Proof.
  destruct 1; [done|..]; constructor; cbn; try done;
    match goal with H : live _ = _ |- _ => rewrite H end; by apply prefix_app_r.
Qed.

(** A member load inside the buffer succeeds. *)
Ltac read_members :=
  repeat match goal with
  | |- is_Some (load_le ?n ?m ?a ≫= _) =>
    let Hv := fresh in
    destruct (load_le_in_range m a n) as [? Hv]; [lia..|]; rewrite Hv, bind_some; clear Hv
  end.

Lemma push_total {A} (t : table A) e (put : table A -> atarix_discovery_database_t) :
  table_wf t -> table_full t = false ->
  is_Some (t' ← table_push t e; Some (ATARIX_DISCOVERY_OK, put t')).
Proof. intros Ht Hf. destruct (table_push_spec t e Ht Hf) as (t' & -> & _). by eexists. Qed.

(** The parser leaves the buffer only behind a record shorter than its structure. *)
Lemma parse_record_total d m r type :
  database_wf d -> 0 <= r -> (typed_record type -> r + 32 <= blen m) ->
  is_Some (parse_record d m r type).
Proof.
  intros Hwf Hr Hm. pose proof Hwf as [H1 H2 H3 H4]. unfold parse_record, typed_record in *.
  unfold ATARIX_DISCOVERY_RECORD_RESOURCE, ATARIX_DISCOVERY_RECORD_SERVICE,
    ATARIX_DISCOVERY_RECORD_DEPENDENCY, ATARIX_DISCOVERY_RECORD_INSTRUMENTATION,
    ATARIX_DISCOVERY_RECORD_PROVIDER in *.
  destruct (Z.eqb_spec type 1); [|destruct (Z.eqb_spec type 2); [|destruct (Z.eqb_spec type 4);
    [|destruct (Z.eqb_spec type 5); [|by eexists]]]]; specialize (Hm ltac:(lia));
    [unfold add_resource|unfold add_service|unfold add_dependency|unfold add_instrumentation];
    read_members; rewrite ?contains_handle_spec, ?bind_some by done;
    try (case_bool_decide; [by eexists|]);
    match goal with |- context [table_full ?t] => destruct (table_full t) eqn:? end;
    try (by eexists); read_members; by apply push_total.
Qed.

(** The records parsed one after the other, each of them with success. *)
Fixpoint parse_records (m : bytes) (offset : Z) (rs : list drecord)
    (d : atarix_discovery_database_t) : option atarix_discovery_database_t :=
  match rs with
  | [] => Some d
  | r :: rs' =>
    '(result, d') ← parse_record d m offset (dr_type r);
    if decide (result = ATARIX_DISCOVERY_OK)
    then parse_records m (offset + drecord_length r) rs' d' else None
  end.

(** What a run over records at [offset] can come to: a result and a database that
    has grown, or a record, reached by parsing those before it, whose reading
    leaves the buffer. *)
Definition outcome_ok (lim : limits) (m : bytes) (offset : Z) (rs : list drecord)
    (d : atarix_discovery_database_t)
    (run : option (atarix_discovery_result_t * atarix_discovery_database_t)) : Prop :=
  match run with
  | Some (_, d') => database_inv lim d' /\ keeps d d'
  | None => exists rs1 r rs2 d1, rs = rs1 ++ r :: rs2 /\ parse_records m offset rs1 d = Some d1 /\
      parse_record d1 m (offset + blen (enc_drecords rs1)) (dr_type r) = None /\
      database_inv lim d1
  end.

Lemma parse_loop_outcome lim m image_size rs fin fuel a rest d :
  m = a ++ enc_drecords rs ++ enc_drecord fin ++ rest ->
  blen a + blen (enc_drecords rs) + drecord_length fin <= image_size -> (8 | blen a) ->
  Forall drecord_wf rs -> drecord_wf fin ->
  Forall (fun r => dr_type r <> ATARIX_DISCOVERY_RECORD_END) rs ->
  dr_type fin = ATARIX_DISCOVERY_RECORD_END ->
  database_inv lim d -> (length rs < fuel)%nat ->
  outcome_ok lim m (blen a) rs d (parse_loop fuel m image_size (Some (blen a)) d).
Proof.
  intros Hm Hs Ha Hrs Hfin. revert fuel a d Hm Hs Ha.
  induction Hrs as [|r rs Hr _ IH]; intros fuel a d Hm Hs Ha Hts Hft Hd Hf;
    (destruct fuel as [|fuel]; [simpl in Hf; lia|]); cbn [parse_loop].
  { destruct (record_header_reads m a fin rest Hm Hfin) as [-> _].
    rewrite bind_some, Hft, Z.eqb_refl. by split. }
  apply Forall_cons_iff in Hts as [Ht Hts].
  rewrite enc_drecords_cons in Hm, Hs. rewrite blen_app, blen_enc_drecord in Hs.
  rewrite <-app_assoc in Hm. cbn [length] in Hf.
  destruct (record_header_reads m a r _ Hm Hr) as [-> _]. rewrite bind_some.
  rewrite (proj2 (Z.eqb_neq _ _) Ht).
  pose proof (parse_record_ok d m (blen a) (dr_type r) (di_wf _ _ Hd)) as Hok.
  destruct (parse_record d m (blen a) (dr_type r)) as [[result d']|] eqn:Hrec; cycle 1.
  { exists [], r, rs, d. split_and!; try done. cbn. by rewrite Z.add_0_r. }
  rewrite bind_some. cbn in Hok. pose proof (grows_inv _ _ _ Hd Hok) as Hd'.
  pose proof (grows_keeps _ _ Hok) as Hk.
  destruct (decide (result = ATARIX_DISCOVERY_OK)) as [->|Hne];
    [|by rewrite decide_True by done].
  rewrite decide_False by (intros Hn; by apply Hn).
  pose proof (drecord_length_ge fin). pose proof (blen_nonneg (enc_drecords rs)).
  rewrite (next_record_spec m image_size a r _ Hm Hr) by (done || lia). rewrite bind_some.
  specialize (IH fuel (a ++ enc_drecord r) d'). rewrite blen_app, blen_enc_drecord in IH |- *.
  ospecialize (IH _ _ _ Hts Hft Hd' _); [by rewrite <-app_assoc|lia| |lia|].
  { apply Z.divide_add_r; [done|apply Hr]. }
  destruct (parse_loop _ _ _ _ _) as [[result' d1]|]; cbn [outcome_ok] in *.
  - destruct IH as [Hi Hk']. split; [done|]. by etrans.
  - destruct IH as (rs1 & r1 & rs2 & d1 & -> & Hrun & Hnone & Hi).
    exists (r :: rs1), r1, rs2, d1. cbn [app parse_records]. rewrite Hrec, bind_some.
    rewrite decide_True by done. split_and!; try done.
    rewrite enc_drecords_cons, blen_app, blen_enc_drecord. by rewrite Z.add_assoc.
Qed.

Lemma short_record_room image_size h rs1 r rs2 fin slack :
  image_valid image_size h (rs1 ++ r :: rs2) fin slack ->
  32 + blen (enc_drecords rs1) + drecord_length r + 8 <= image_size.
Proof.
  intros [_ _ _ _ _ _ Htot Hfits _ _ _ _].
  rewrite <-app_assoc, <-app_comm_cons, !enc_drecords_app, !enc_drecords_cons, !enc_drecords_app,
    !enc_drecords_cons, !blen_app, !blen_enc_drecord in Htot.
  pose proof (blen_nonneg (enc_drecords rs2)). pose proof (blen_nonneg (enc_drecords [])).
  pose proof (blen_nonneg slack). pose proof (drecord_length_ge fin). lia.
Qed.

Lemma parse_outcome lim m image_size d :
  bytes_ok m -> image_size <= blen m -> database_inv lim d ->
  match atarix_discovery_parse (Some m) image_size (Some d) with
  | Some (result, d') => exists d1, d' = Some d1 /\ database_inv lim d1 /\ keeps d d1
  | None => exists h rs1 r rs2 fin slack rest d1,
      image_valid image_size h (rs1 ++ r :: rs2) fin slack /\
      m = discovery_image h (rs1 ++ r :: rs2) fin slack ++ rest /\
      parse_records m 32 rs1 d = Some d1 /\
      parse_record d1 m (32 + blen (enc_drecords rs1)) (dr_type r) = None /\
      typed_record (dr_type r) /\ blen m < 32 + blen (enc_drecords rs1) + 32 /\
      32 + blen (enc_drecords rs1) + drecord_length r + 8 <= image_size /\ 8 <= drecord_length r
  end.
Proof.
  intros Hm Hs Hd. destruct (validate_total m image_size Hm Hs) as [res Hval].
  unfold atarix_discovery_parse. rewrite Hval, bind_some.
  destruct (decide (res <> ATARIX_DISCOVERY_OK)) as [|Hres]; [by exists d|].
  apply dec_stable in Hres as ->. rewrite bind_some.
  apply validate_ok_image in Hval as (h & rs & fin & slack & tail & post & Em & Es & Hv); [|done..].
  pose proof Hv as [_ Hrs Hts Hfin Hft _ Htot Hfits _ _ _ _].
  rewrite enc_drecords_app, enc_drecords_cons, !blen_app, blen_enc_drecord in Htot.
  change (blen (enc_drecords [])) with 0 in Htot.
  pose proof (blen_nonneg (enc_drecords rs)). pose proof (blen_nonneg slack).
  pose proof (drecord_length_ge fin). pose proof (length_enc_drecords rs).
  unfold atarix_discovery_first_record, ATARIX_DISCOVERY_HEADER_SIZE_V1.
  rewrite (proj2 (Z.ltb_ge _ _)) by lia. cbn [negb orb].
  pose proof (parse_loop_outcome lim m image_size rs fin (S (Z.to_nat image_size)) (enc_dheader h)
    (slack ++ tail ++ post) d) as Hout. change (blen (enc_dheader h)) with 32 in Hout.
  ospecialize (Hout _ _ _ Hrs Hfin Hts Hft Hd _).
  - rewrite Em. unfold discovery_image. rewrite enc_drecords_app, enc_drecords_cons.
    change (enc_drecords []) with (@nil Z). rewrite app_nil_r, <-!app_assoc. reflexivity.
  - lia.
  - by exists 4.
  - unfold blen in *. lia.
  - destruct (parse_loop _ _ _ _ _) as [[result d1]|]; cbn [mbind option_bind outcome_ok] in *.
    { by exists d1. }
    destruct Hout as (rs1 & r & rs2 & d1 & -> & Hrun & Hnone & Hd1).
    exists h, rs1, r, rs2, fin, slack, (tail ++ post), d1.
    pose proof (short_record_room _ _ _ _ _ _ _ Hv). pose proof (drecord_length_ge r).
    assert (Hno : ~ (typed_record (dr_type r) -> 32 + blen (enc_drecords rs1) + 32 <= blen m)).
    { intros Hin. pose proof (blen_nonneg (enc_drecords rs1)).
      destruct (parse_record_total d1 m (32 + blen (enc_drecords rs1)) (dr_type r)) as [? Hsome];
        [apply Hd1|lia|done|]. by rewrite Hsome in Hnone. }
    split_and!; try done; [by rewrite Em, <-app_assoc| |].
    + unfold typed_record in *. lia.
    + unfold typed_record in *. lia.
Qed.

(** C17. Parsing any bytes. In a buffer of at least [image_size] bytes, whatever they
    are, a parse ends. Either it returns a result, and then, OK or error, the
    database is well formed, every count is within its capacity, no handle occurs
    twice among the resources, services and instrumentation, the arrays and
    capacities are the caller's, and every entry that was there is still at its
    place; or it reads past the buffer, and then the image is valid and the parse
    has come, through records parsed with success, to a record of a type with a
    structure of 32 bytes that is shorter than it and closer than 32 bytes to the
    buffer's end. With 16 readable bytes behind the image it always returns. *)
Theorem discovery_parse_invariant lim m image_size d :
  bytes_ok m -> image_size <= blen m -> database_inv lim d ->
  match atarix_discovery_parse (Some m) image_size (Some d) with
  | Some (result, d') => exists d1, d' = Some d1 /\ database_inv lim d1 /\ keeps d d1
  | None => exists h rs1 r rs2 fin slack rest d1,
      let offset := 32 + blen (enc_drecords rs1) in
      image_valid image_size h (rs1 ++ r :: rs2) fin slack /\
      m = discovery_image h (rs1 ++ r :: rs2) fin slack ++ rest /\
      parse_records m 32 rs1 d = Some d1 /\ parse_record d1 m offset (dr_type r) = None /\
      typed_record (dr_type r) /\ drecord_length r < 32 /\ blen m < offset + 32
  end /\
  (image_size + 16 <= blen m ->
   is_Some (atarix_discovery_parse (Some m) image_size (Some d))).
Proof.
  intros Hm Hs Hd. pose proof (parse_outcome lim m image_size d Hm Hs Hd) as Hout.
  split; [|intros Hslack];
    destruct (atarix_discovery_parse (Some m) image_size (Some d)) as [[result d']|]; [done| |by eexists|].
  - destruct Hout as (h & rs1 & r & rs2 & fin & slack & rest & d1 & Hv & Hmm & H1 & H2 & H3 & H4 & H5 & _).
    exists h, rs1, r, rs2, fin, slack, rest, d1. cbv zeta. split_and!; (done || lia).
  - destruct Hout as (h & rs1 & r & rs2 & fin & slack & rest & d1 & _ & _ & _ & _ & _ & H4 & H5 & H6).
    lia.
Qed.

Definition sample_parsed : atarix_discovery_database_t :=
  DiscoveryDatabase
    (Table (Some [resource_of sample_resource; ResourceEntry 0 0 0 0 0 0]) 2 1)
    (Table None 0 0) (Table None 0 0) (Table None 0 0).

(** Parsing the sample image enters its resource; then the same image is refused for
    its handle, and the entry stays. *)
Lemma discovery_parse_invariant_witness :
  exists d1 d2,
    atarix_discovery_parse (Some sample_dimage) 72 (Some sample_database) =
      Some (ATARIX_DISCOVERY_OK, Some d1) /\
    database_handles d1 = [0x0100000000000001] /\ database_inv (Limits 2 0 0 0) d1 /\
    atarix_discovery_parse (Some sample_dimage) 72 (Some d1) =
      Some (ATARIX_DISCOVERY_ERROR_DUPLICATE_HANDLE, Some d2) /\
    database_inv (Limits 2 0 0 0) d2 /\ keeps d1 d2.
Proof.
  assert (Hok : bytes_ok sample_dimage)
    by (by apply (bool_decide_unpack (bytes_ok sample_dimage)); vm_compute).
  assert (Hs : 72 <= blen sample_dimage) by (vm_compute; discriminate).
  assert (Hd : database_inv (Limits 2 0 0 0) sample_database)
    by (split; [exact sample_database_wf|constructor|reflexivity]).
  pose proof (discovery_parse_invariant (Limits 2 0 0 0) sample_dimage 72 sample_database Hok Hs Hd)
    as [H1 _].
  assert (E1 : atarix_discovery_parse (Some sample_dimage) 72 (Some sample_database) =
    Some (ATARIX_DISCOVERY_OK, Some sample_parsed)) by (by vm_compute).
  assert (E2 : atarix_discovery_parse (Some sample_dimage) 72 (Some sample_parsed) =
    Some (ATARIX_DISCOVERY_ERROR_DUPLICATE_HANDLE, Some sample_parsed)) by (by vm_compute).
  rewrite E1 in H1. destruct H1 as (d1 & [= <-] & Hd1 & _).
  pose proof (discovery_parse_invariant (Limits 2 0 0 0) sample_dimage 72 sample_parsed Hok Hs Hd1)
    as [H2 _].
  rewrite E2 in H2. destruct H2 as (d2 & [= <-] & Hd2 & Hk).
  exists sample_parsed, sample_parsed.
  refine (conj E1 (conj _ (conj Hd1 (conj E2 (conj Hd2 Hk))))). vm_compute. reflexivity.
Defined.

(** ** Looking up what was parsed *)

Definition of_type (type : Z) (rs : list drecord) : list drecord :=
  filter (fun r => dr_type r = type) rs.

(** A parse that ends with OK has appended every typed record. *)
Lemma spec_parse_ok lim rs c c' :
  spec_parse lim c rs = (ATARIX_DISCOVERY_OK, c') ->
  cat_resources c' =
    cat_resources c ++ map resource_of (of_type ATARIX_DISCOVERY_RECORD_RESOURCE rs) /\
  cat_services c' =
    cat_services c ++ map service_of (of_type ATARIX_DISCOVERY_RECORD_SERVICE rs).
Proof.
  unfold of_type. revert c. induction rs as [|r rs IH]; intros c; cbn [spec_parse].
  { intros [= <-]. by rewrite !app_nil_r. }
  destruct (spec_add lim c r) as [result c1] eqn:Hadd.
  destruct (decide _) as [->|]; [|by intros [= ? _]]. intros [Hres Hser]%IH.
  rewrite Hres, Hser. rewrite !filter_cons. unfold spec_add, if_admitted in Hadd.
  unfold ATARIX_DISCOVERY_RECORD_RESOURCE, ATARIX_DISCOVERY_RECORD_SERVICE,
    ATARIX_DISCOVERY_RECORD_DEPENDENCY, ATARIX_DISCOVERY_RECORD_INSTRUMENTATION in *.
  destruct (Z.eqb_spec (dr_type r) 1) as [E1|];
    [|destruct (Z.eqb_spec (dr_type r) 2) as [E2|];
      [|destruct (Z.eqb_spec (dr_type r) 4) as [|]; [|destruct (Z.eqb_spec (dr_type r) 5) as [|]]]];
    apply pair_equal_spec in Hadd as [Ha <-]; try rewrite (decide_True _ _ Ha);
    rewrite ?(decide_True (P := dr_type r = 1)), ?(decide_True (P := dr_type r = 2)),
      ?(decide_False (P := dr_type r = 1)), ?(decide_False (P := dr_type r = 2)) by congruence;
    cbn [cat_resources cat_services map]; by rewrite <-?app_assoc.
Qed.

(** With unique handles the first entry with a handle is the only one. *)
Lemma list_find_unique {A} (handle_of : A -> Z) (l : list A) e h :
  NoDup (map handle_of l) ->
  snd <$> list_find (fun e => handle_of e = h) l = Some e <-> e ∈ l /\ handle_of e = h.
Proof.
  intros Hn. split.
  - destruct (list_find _ _) as [[i e']|] eqn:E; [|done]. intros [= ->].
    apply list_find_Some in E as (Hi & Hh & _). split; [|done]. by eapply list_elem_of_lookup_2.
  - intros [He Hh].
    destruct (list_find_elem_of (fun e' => handle_of e' = h) l e He Hh) as [[i e'] Hf].
    rewrite Hf. cbn. apply list_find_Some in Hf as (Hi & Hh' & _). f_equal.
    apply list_elem_of_lookup in He as [j Hj].
    assert (i = j) as ->.
    { eapply (NoDup_lookup (map handle_of l)); [done|by rewrite list_lookup_fmap, Hi|].
      rewrite list_lookup_fmap, Hj. cbn. congruence. }
    congruence.
Qed.

Lemma spec_parse_entries rs type {A} (entry_of : drecord -> A) (l : list A) e :
  l = [] ++ map entry_of (of_type type rs) ->
  e ∈ l <-> exists r, r ∈ rs /\ dr_type r = type /\ e = entry_of r.
Proof.
  intros ->. cbn [app]. rewrite list_elem_of_fmap. unfold of_type. split.
  - intros (r & -> & [Ht Hr]%list_elem_of_filter). by exists r.
  - intros (r & Hr & Ht & ->). exists r. split; [done|]. by apply list_elem_of_filter.
Qed.

(** C11. End to end: after a valid image has been parsed with OK into an empty
    database, looking up a resource (service) handle gives exactly the entry
    that the image's resource (service) record with that handle describes, and
    nothing for any other handle. *)
Theorem discovery_lookup_after_parse image_size h rs fin slack tail post m d d' :
  image_valid image_size h rs fin slack -> Forall typed_complete rs ->
  image_size = dh_total_length h + blen tail -> bytes_ok tail ->
  m = (discovery_image h rs fin slack ++ tail) ++ post ->
  database_wf d -> catalog_of d = Catalog [] [] [] [] ->
  atarix_discovery_parse (Some m) image_size (Some d) = Some (ATARIX_DISCOVERY_OK, Some d') ->
  forall handle,
  (exists e, atarix_discovery_find_resource (Some d') handle = Some e /\ forall r,
     e = Some r <-> exists rec, rec ∈ rs /\ dr_type rec = ATARIX_DISCOVERY_RECORD_RESOURCE /\
                      r = resource_of rec /\ re_handle r = handle) /\
  (exists e, atarix_discovery_find_service (Some d') handle = Some e /\ forall s,
     e = Some s <-> exists rec, rec ∈ rs /\ dr_type rec = ATARIX_DISCOVERY_RECORD_SERVICE /\
                      s = service_of rec /\ se_handle s = handle).
Proof.
  intros Hv Hcs Hs Htok Hm Hwf Hempty Hparse handle.
  pose proof (Build_represents (limits_of d) _ d Hwf Hempty eq_refl) as Hd.
  assert (Hinv : database_inv (limits_of d) d).
  { split; [done| |done].
    change (database_handles d) with (catalog_handles (catalog_of d)). rewrite Hempty. constructor. }
  destruct (discovery_parse_catalog image_size h rs fin slack tail post m _ _ d Hv Hcs Hs Htok Hm Hd)
    as (d1 & Hrun & Hd1).
  clear Hv. rewrite Hparse in Hrun. injection Hrun as Hok <-.
  destruct (spec_parse _ _ rs) as [res c'] eqn:Hspec. cbn [fst snd] in *. subst res.
  apply spec_parse_ok in Hspec as [Hres Hser].
  apply (parse_inv _ _ _ _ _ _ Hinv) in Hparse as (d2 & [= <-] & [[Hw1 Hw2 _ _] Hn _]).
  pose proof (rep_catalog _ _ _ Hd1) as Hc. subst c'. cbn [catalog_of cat_resources cat_services] in *.
  apply NoDup_app in Hn as (Hn1 & _ & (Hn2 & _)%NoDup_app).
  split; (eexists; split; [by apply scan_table_spec|]); intros x.
  - rewrite (list_find_unique re_handle) by done.
    rewrite (spec_parse_entries rs _ resource_of _ x Hres). split;
      [intros [(r & ? & ? & ?) ?]; by exists r|intros (r & ? & ? & ? & ?); split; [by exists r|done]].
  - rewrite (list_find_unique se_handle) by done.
    rewrite (spec_parse_entries rs _ service_of _ x Hser). split;
      [intros [(r & ? & ? & ?) ?]; by exists r|intros (r & ? & ? & ? & ?); split; [by exists r|done]].
Qed.

Lemma discovery_lookup_after_parse_witness :
  exists d', atarix_discovery_parse (Some sample_dimage) 72 (Some sample_database) =
      Some (ATARIX_DISCOVERY_OK, Some d') /\
  exists e, atarix_discovery_find_resource (Some d') 0x0100000000000001 = Some e /\ forall r,
     e = Some r <-> exists rec, rec ∈ [sample_resource] /\
       dr_type rec = ATARIX_DISCOVERY_RECORD_RESOURCE /\
       r = resource_of rec /\ re_handle r = 0x0100000000000001.
Proof.
  eexists. split; [vm_compute; reflexivity|].
  refine (proj1 (discovery_lookup_after_parse 72 sample_dheader [sample_resource] sample_end [] [] []
    sample_dimage sample_database _ sample_dimage_valid sample_typed _ _ _ sample_database_wf _ _ _));
    [reflexivity|constructor|by rewrite !app_nil_r|reflexivity|vm_compute; reflexivity].
Defined.

(** ** Short records *)

Lemma load_le_out m a n : blen m < a + n -> load_le n m a = None.
Proof.
  intros Hl. unfold load_le, load_bytes. rewrite decide_False; [done|]. intros [_ [_ ?]]. lia.
Qed.

Lemma empty_incomplete type version :
  type = ATARIX_DISCOVERY_RECORD_RESOURCE \/ type = ATARIX_DISCOVERY_RECORD_SERVICE \/
    type = ATARIX_DISCOVERY_RECORD_INSTRUMENTATION ->
  ~ typed_complete (DRecord type version []).
Proof.
  unfold typed_complete. cbn [dr_type dr_payload]. intros Ht Hc.
  assert (24 <= blen []) as Hl; [|by vm_compute in Hl].
  apply Hc; destruct Ht as [-> | [-> | ->]]; vm_compute; intuition discriminate.
Qed.

(** C33. Over-read: the parser checks a record's length against the image but not
    against its type. A valid 48-byte image of one RESOURCE, SERVICE or
    INSTRUMENTATION record that is only a record header, with END behind it,
    is not complete for its type, and makes [atarix_discovery_parse] read its
    handle at offset 48, past the end of the buffer. *)
Theorem discovery_short_record_overread h type version fin d :
  image_valid 48 h [DRecord type version []] fin [] ->
  type = ATARIX_DISCOVERY_RECORD_RESOURCE \/ type = ATARIX_DISCOVERY_RECORD_SERVICE \/
    type = ATARIX_DISCOVERY_RECORD_INSTRUMENTATION ->
  ~ typed_complete (DRecord type version []) /\
  atarix_discovery_parse (Some (discovery_image h [DRecord type version []] fin [])) 48 (Some d) =
  None.
Proof.
  intros Hv Ht. split; [by apply empty_incomplete|]. set (r := DRecord type version []) in *.
  set (m := discovery_image h [r] fin []).
  pose proof (iv_total _ _ _ _ _ Hv) as Htot. pose proof (iv_fits _ _ _ _ _ Hv) as Hfits.
  change [r] with ([r] ++ []) in Htot. cbn [app] in Htot.
  rewrite !enc_drecords_cons, !blen_app, !blen_enc_drecord in Htot.
  change (drecord_length r) with 8 in Htot. change (blen (enc_drecords [])) with 0 in Htot.
  change (blen []) with 0 in Htot. pose proof (drecord_length_ge fin).
  assert (Htail : 48 = dh_total_length h + blen []) by (change (blen []) with 0; lia).
  assert (Hm : m = (discovery_image h [r] fin [] ++ []) ++ []) by (by rewrite !app_nil_r).
  pose proof (validate_valid 48 h [r] fin [] m [] [] Hv Hm Htail (Forall_nil_2 _)) as Hval.
  pose proof (iv_records _ _ _ _ _ Hv) as Hr. apply Forall_cons_iff in Hr as [Hr _]. clear Hv.
  assert (Hsplit : m = enc_dheader h ++ enc_drecord r ++ enc_drecord fin).
  { unfold m, discovery_image. cbn [app]. rewrite !enc_drecords_cons.
    change (enc_drecords []) with (@nil Z). by rewrite !app_nil_r. }
  assert (Hlen : blen m = 48).
  { rewrite Hsplit, !blen_app, !blen_enc_drecord. change (blen (enc_dheader h)) with 32.
    change (drecord_length r) with 8. lia. }
  unfold atarix_discovery_parse. rewrite Hval, bind_some.
  rewrite decide_False by (intros Hn; by apply Hn). rewrite bind_some.
  change (atarix_discovery_first_record true 48) with (Some 32). cbn [parse_loop].
  destruct (record_header_reads m (enc_dheader h) r _ Hsplit Hr) as [Hty _].
  change (blen (enc_dheader h)) with 32 in Hty. rewrite Hty, bind_some.
  unfold r. cbn [dr_type].
  assert (Hout : load_le 8 m (32 + 16) = None) by (apply load_le_out; rewrite Hlen; done).
  assert (parse_record d m 32 type = None /\
    (type =? ATARIX_DISCOVERY_RECORD_END) = false) as [Hrec Hend].
  { unfold parse_record. destruct Ht as [-> | [-> | ->]]; (split; [|done]);
      [unfold add_resource|unfold add_service|unfold add_instrumentation];
      rewrite Hout; reflexivity. }
  rewrite Hend, Hrec. reflexivity.
Qed.

Definition short_dheader : discovery_header := DiscoveryHeader 0 48 2 7 0 1200882575 1665680824.

Lemma short_dimage_valid :
  image_valid 48 short_dheader [DRecord ATARIX_DISCOVERY_RECORD_RESOURCE 1 []] sample_end [].
Proof.
  split; [by repeat split| | | | | |by vm_compute|by vm_compute|by exists 6|by right| |].
  - constructor; [|constructor]. split; [by split..|by exists 1|constructor].
  - by repeat constructor.
  - apply sample_end_wf.
  - reflexivity.
  - constructor.
  - by vm_compute.
  - intros _. by vm_compute.
Qed.

Lemma discovery_short_record_overread_witness :
  atarix_discovery_parse
    (Some (discovery_image short_dheader [DRecord ATARIX_DISCOVERY_RECORD_RESOURCE 1 []] sample_end []))
    48 (Some sample_database) = None.
Proof.
  refine (proj2 (discovery_short_record_overread short_dheader ATARIX_DISCOVERY_RECORD_RESOURCE 1
    sample_end _ short_dimage_valid _)). by left.
Defined.
