(* ===== verification/MkDiscovery.v ===== *)
(** * The discovery image generator

    [tools/mkdiscovery/mkdiscovery.c]: the profiles it knows, the records it
    appends, and the checksums it patches in. The image buffer is the memory;
    a packed structure is the concatenation of its members' bytes; a function
    that writes through a pointer returns what is behind it, and messages are a
    trace of Host. The command line and the output file are in MkDiscoveryTool.
    What it builds is then put through the validator and the parser of the
    library. *)

From S2P Require Import Prelude Host Crc Registries Discovery DiscoveryParser DiscoveryCatalog.
From stdpp Require Import strings.
#[local] Open Scope Z_scope.

Definition MKDISCOVERY_MAX_IMAGE : Z := 4096.

Definition mk_crc_bit (crc : Z) : Z :=
  let mask := u32 (0 - (crc .& 1)) in
  (crc .>> 1) .^ (0xEDB88320 .& mask).

Definition crc32_iso_hdlc (data : bytes) (length : Z) : option Z :=
  crc ← for_bytes (fun crc byte => Nat.iter 8 mk_crc_bit (crc .^ byte))
          (Z.to_nat length) data 0 0xFFFFFFFF;
  Some (u32 (Z.lnot crc)).

Definition patch_crc32 (image : bytes) (image_length : Z) : option bytes :=
  image ← store_le 4 image 24 0;
  image ← store_le 4 image 28 0;
  header_crc32 ← crc32_iso_hdlc image ATARIX_DISCOVERY_HEADER_SIZE_V1;
  image ← store_le 4 image 24 header_crc32;
  image_crc32 ← crc32_iso_hdlc image image_length;
  store_le 4 image 28 image_crc32.

(** The status, the image and [*offset]. *)
Definition append_bytes (image : bytes) (image_capacity offset : Z) (src : bytes) (length : Z)
  : option (Z * bytes * Z) :=
  if u64 (image_capacity - offset) <? length then Some (1, image, offset)
  else
    data ← load_bytes src 0 length;
    image ← store_bytes image offset data;
    Some (0, image, u64 (offset + length)).

Definition append_end (image : bytes) (image_capacity offset : Z) : option (Z * bytes * Z) :=
  let end_record := le_bytes 2 ATARIX_DISCOVERY_RECORD_END ++ le_bytes 2 1 ++ le_bytes 4 8 in
  append_bytes image image_capacity offset end_record 8.

Definition append_resource (image : bytes) (image_capacity offset type provider_id instance_id : Z)
  : option (Z * bytes * Z) :=
  let record :=
    le_bytes 2 ATARIX_DISCOVERY_RECORD_RESOURCE ++ le_bytes 2 1 ++ le_bytes 4 32 ++
    le_bytes 2 type ++ le_bytes 2 1 ++ le_bytes 4 0 ++
    le_bytes 8 (atarix_discovery_make_handle (u16 provider_id) type instance_id) ++
    le_bytes 4 provider_id ++ le_bytes 4 instance_id in
  append_bytes image image_capacity offset record 32.

Definition append_service (image : bytes)
    (image_capacity offset service_id provider_id instance_id : Z)
  : option (Z * bytes * Z) :=
  let record :=
    le_bytes 2 ATARIX_DISCOVERY_RECORD_SERVICE ++ le_bytes 2 1 ++ le_bytes 4 32 ++
    le_bytes 2 service_id ++ le_bytes 2 1 ++ le_bytes 4 0 ++
    le_bytes 8 (atarix_discovery_make_handle (u16 provider_id) service_id instance_id) ++
    le_bytes 4 provider_id ++ le_bytes 4 instance_id in
  append_bytes image image_capacity offset record 32.

(** The locals of [build_profile] that its branches change. *)
Record profile_state : Type := ProfileState {
  ps_image : bytes;
  ps_offset : Z;
  ps_provider_id : Z;
  ps_record_count : Z;
  ps_append_status : Z
}.

(** [append_status |= append(...); record_count++;] *)
Definition append_step (append : bytes -> Z -> option (Z * bytes * Z)) (s : profile_state)
  : option profile_state :=
  '(status, image, offset) ← append (ps_image s) (ps_offset s);
  Some (ProfileState image offset (ps_provider_id s) (u32 (ps_record_count s + 1))
          (ps_append_status s .| status)).

(** [provider_id = id; header->provider_id = provider_id;] *)
Definition set_provider (id : Z) (s : profile_state) : option profile_state :=
  image ← store_le 4 (ps_image s) 16 id;
  Some (ProfileState image (ps_offset s) id (ps_record_count s) (ps_append_status s)).

(** The chain of [strcmp]: the inner [None] is an unknown profile. *)
Definition profile_records (profile : string) (image_capacity : Z) (s : profile_state)
  : option (option profile_state) :=
  let resource type s :=
    append_step (fun image offset =>
      append_resource image image_capacity offset type (ps_provider_id s) 1) s in
  let service id s :=
    append_step (fun image offset =>
      append_service image image_capacity offset id (ps_provider_id s) 1) s in
  if decide (profile = "minimal"%string) then Some (Some s)
  else if decide (profile = "cpu-card"%string) then
    s ← resource ATARIX_RESOURCE_CPU s;
    s ← resource ATARIX_RESOURCE_CPU_HEALTH s;
    s ← service ATARIX_SERVICE_CPU_DIAGNOSTICS s;
    s ← service ATARIX_SERVICE_CPU_HEALTH s;
    Some (Some s)
  else if decide (profile = "supervisor"%string) then
    s ← set_provider 1 s;
    s ← resource ATARIX_RESOURCE_SUPERVISOR s;
    s ← service ATARIX_SERVICE_HEALTH s;
    Some (Some s)
  else if decide (profile = "instrumentation"%string) then
    s ← set_provider 5 s;
    s ← resource ATARIX_RESOURCE_LOGIC_ANALYZER s;
    s ← service ATARIX_SERVICE_INSTRUMENTATION s;
    Some (Some s)
  else Some None.

(** The messages on stderr. *)
Definition unknown_profile (profile : string) : list event :=
  [Stderr ("unknown profile: " +:+ profile +:+ newline)].

Definition profile_does_not_fit : list event :=
  [Stderr ("profile does not fit discovery image capacity" +:+ newline)].

(** The status, the image, [*image_length], and what is printed. *)
Definition build_profile (profile : string) (image : bytes) (image_capacity image_length : Z)
  : option (Z * bytes * Z * list event) :=
  image ← memset image 0 0 image_capacity;
  image ← store_le 4 image 0 ATARIX_DISCOVERY_MAGIC_ATDX;
  image ← store_le 2 image 4 ATARIX_DISCOVERY_VERSION_MAJOR_V1;
  image ← store_le 2 image 6 ATARIX_DISCOVERY_VERSION_MINOR_V0;
  image ← store_le 4 image 16 3;
  records ← profile_records profile image_capacity
    (ProfileState image ATARIX_DISCOVERY_HEADER_SIZE_V1 3 0 0);
  match records with
  | None => Some (1, image, image_length, unknown_profile profile)
  | Some s =>
    s ← append_step (fun image offset => append_end image image_capacity offset) s;
    if negb (ps_append_status s =? 0) then Some (1, ps_image s, image_length, profile_does_not_fit)
    else
      image ← store_le 4 (ps_image s) 8 (u32 (ps_offset s));
      image ← store_le 4 image 12 (ps_record_count s);
      image ← patch_crc32 image (ps_offset s);
      Some (0, image, ps_offset s, [])
  end.

(** ** What a profile describes *)

Definition resource_record (type provider : Z) : drecord :=
  DRecord ATARIX_DISCOVERY_RECORD_RESOURCE 1
    (le_bytes 2 type ++ le_bytes 2 1 ++ le_bytes 4 0 ++
     le_bytes 8 (atarix_discovery_make_handle (u16 provider) type 1) ++
     le_bytes 4 provider ++ le_bytes 4 1).

Definition service_record (id provider : Z) : drecord :=
  DRecord ATARIX_DISCOVERY_RECORD_SERVICE 1
    (le_bytes 2 id ++ le_bytes 2 1 ++ le_bytes 4 0 ++
     le_bytes 8 (atarix_discovery_make_handle (u16 provider) id 1) ++
     le_bytes 4 provider ++ le_bytes 4 1).

Definition end_record : drecord := DRecord ATARIX_DISCOVERY_RECORD_END 1 [].

(** The provider and the records of a profile. *)
Definition profile_spec (profile : string) : option (Z * list drecord) :=
  if decide (profile = "minimal"%string) then Some (3, [])
  else if decide (profile = "cpu-card"%string) then
    Some (3, [resource_record ATARIX_RESOURCE_CPU 3; resource_record ATARIX_RESOURCE_CPU_HEALTH 3;
              service_record ATARIX_SERVICE_CPU_DIAGNOSTICS 3;
              service_record ATARIX_SERVICE_CPU_HEALTH 3])
  else if decide (profile = "supervisor"%string) then
    Some (1, [resource_record ATARIX_RESOURCE_SUPERVISOR 1;
              service_record ATARIX_SERVICE_HEALTH 1])
  else if decide (profile = "instrumentation"%string) then
    Some (5, [resource_record ATARIX_RESOURCE_LOGIC_ANALYZER 5;
              service_record ATARIX_SERVICE_INSTRUMENTATION 5])
  else None.

(** The header of the finished image, checksums included. *)
Definition bare_dheader (provider total count : Z) : discovery_header :=
  DiscoveryHeader 0 total count provider 0 0 0.

Definition profile_header (provider : Z) (rs : list drecord) : discovery_header :=
  let h := bare_dheader provider (32 + blen (enc_drecords (rs ++ [end_record])))
             (Z.of_nat (S (length rs))) in
  let header_crc := crc_of poly_iso_hdlc (enc_dheader h) in
  let h := with_crcs h header_crc 0 in
  with_crcs h header_crc
    (crc_of poly_iso_hdlc (enc_dheader h ++ enc_drecords (rs ++ [end_record]))).

(** ** Appending *)

Lemma append_bytes_spec image cap offset src length :
  blen image = cap -> cap < 2 ^ 64 -> 0 <= offset <= cap -> length = blen src ->
  append_bytes image cap offset src length =
  if cap - offset <? length then Some (1, image, offset)
  else
    image' ← store_bytes image offset src;
    Some (0, image', offset + length).
Proof.
  intros Hi Hc Ho ->. unfold append_bytes.
  rewrite uint_small by (unfold fits; lia).
  destruct (Z.ltb_spec (cap - offset) (blen src)); [done|].
  rewrite load_bytes_whole, bind_some by done. pose proof (blen_nonneg src).
  destruct (store_bytes image offset src); [|done].
  rewrite !bind_some. by rewrite uint_small by (unfold fits; lia).
Qed.

(** The state of the build after the records [rs]: exact while they fit, failed
    from the first that does not. *)
Record progress (cap : Z) (h : discovery_header) (rs : list drecord) (s : profile_state) : Prop := {
  pg_size : blen (ps_image s) = cap;
  pg_offset : 0 <= ps_offset s <= cap;
  pg_provider : ps_provider_id s = dh_provider_id h;
  pg_count : ps_record_count s = Z.of_nat (length rs);
  pg_fits : 32 + blen (enc_drecords rs) <= cap ->
    ps_append_status s = 0 /\ ps_offset s = 32 + blen (enc_drecords rs) /\
    ps_image s = enc_dheader h ++ enc_drecords rs ++
      replicate (Z.to_nat (cap - ps_offset s)) 0;
  pg_full : cap < 32 + blen (enc_drecords rs) -> ps_append_status s <> 0
}.

Lemma store_next pre bs n :
  blen bs <= Z.of_nat n ->
  store_bytes (pre ++ replicate n 0) (blen pre) bs =
  Some (pre ++ bs ++ replicate (n - length bs) 0).
Proof.
  intros Hl. replace n with (length bs + (n - length bs))%nat at 1 by (unfold blen in *; lia).
  rewrite replicate_add. apply store_bytes_app; [done|]. apply length_replicate.
Qed.

Lemma enc_drecords_snoc rs r : enc_drecords (rs ++ [r]) = enc_drecords rs ++ enc_drecord r.
Proof.
  rewrite enc_drecords_app, enc_drecords_cons. change (enc_drecords []) with (@nil Z).
  by rewrite app_nil_r.
Qed.

Ltac simpl_state :=
  cbn [ps_image ps_offset ps_provider_id ps_record_count ps_append_status].

Lemma append_step_progress cap h rs s r append :
  progress cap h rs s -> cap < 2 ^ 64 -> Z.of_nat (length rs) < 2 ^ 31 ->
  (forall image offset, append image offset =
     append_bytes image cap offset (enc_drecord r) (drecord_length r)) ->
  exists s', append_step append s = Some s' /\ progress cap h (rs ++ [r]) s'.
Proof.
  intros [Hsize Ho Hp Hn Hfits Hfull] Hc Hrs Happ. pose proof (drecord_length_ge r) as H8.
  pose proof (blen_enc_drecord r) as Hr. pose proof (blen_nonneg (enc_drecords rs)).
  assert (Hcount : u32 (ps_record_count s + 1) = Z.of_nat (length (rs ++ [r])))
    by (rewrite uint_small by (unfold fits; lia); rewrite length_app; cbn [length]; lia).
  assert (Henc : blen (enc_drecords (rs ++ [r])) = blen (enc_drecords rs) + drecord_length r)
    by (by rewrite enc_drecords_snoc, blen_app, Hr).
  unfold append_step. rewrite Happ, append_bytes_spec by (done || lia).
  destruct (Z.ltb_spec (cap - ps_offset s) (drecord_length r)) as [Hlt|Hge].
  { eexists. split; [done|]. split; simpl_state; rewrite ?Henc; try done.
    - intros Hle. destruct Hfits as (_ & Heq & _); lia.
    - intros _ [_ ?]%Z.lor_eq_0_iff. done. }
  destruct (decide (32 + blen (enc_drecords rs) <= cap)) as [Hle|Hgt].
  - destruct (Hfits Hle) as (Hst & Hoff & Himg).
    assert (Hstore : store_bytes (ps_image s) (ps_offset s) (enc_drecord r) =
      Some ((enc_dheader h ++ enc_drecords rs) ++ enc_drecord r ++
            replicate (Z.to_nat (cap - ps_offset s) - length (enc_drecord r)) 0)).
    { rewrite Himg, app_assoc, <-store_next by lia. f_equal. rewrite Hoff. by rewrite blen_app. }
    rewrite Hstore, !bind_some. eexists. split; [done|].
    assert (Hrest : (Z.to_nat (cap - ps_offset s) - length (enc_drecord r))%nat =
      Z.to_nat (cap - (ps_offset s + drecord_length r))) by (unfold blen in Hr; lia).
    rewrite Hrest. split; simpl_state; rewrite ?Henc; try done; try lia.
    + rewrite !blen_app, Hr, blen_replicate. change (blen (enc_dheader h)) with 32. lia.
    + intros _. rewrite Hst. split; [done|]. split; [lia|].
      by rewrite enc_drecords_snoc, <-!app_assoc.
  - destruct (store_bytes (ps_image s) (ps_offset s) (enc_drecord r)) as [image'|] eqn:Hstore;
      [|apply store_bytes_None in Hstore; lia].
    rewrite !bind_some. eexists. split; [done|]. apply blen_store_bytes in Hstore.
    split; simpl_state; rewrite ?Henc; try done; try lia.
    intros _ [? _]%Z.lor_eq_0_iff. apply Hfull in H0; lia.
Qed.

Lemma resource_step cap h rs s type p :
  progress cap h rs s -> dh_provider_id h = p -> cap < 2 ^ 64 -> Z.of_nat (length rs) < 2 ^ 31 ->
  exists s', append_step (fun image offset =>
      append_resource image cap offset type (ps_provider_id s) 1) s = Some s' /\
    progress cap h (rs ++ [resource_record type p]) s'.
Proof.
  intros Hs Hp Hc Hl. apply (append_step_progress cap h rs s _ _ Hs Hc Hl).
  intros image offset. rewrite (pg_provider _ _ _ _ Hs), Hp. reflexivity.
Qed.

Lemma service_step cap h rs s id p :
  progress cap h rs s -> dh_provider_id h = p -> cap < 2 ^ 64 -> Z.of_nat (length rs) < 2 ^ 31 ->
  exists s', append_step (fun image offset =>
      append_service image cap offset id (ps_provider_id s) 1) s = Some s' /\
    progress cap h (rs ++ [service_record id p]) s'.
Proof.
  intros Hs Hp Hc Hl. apply (append_step_progress cap h rs s _ _ Hs Hc Hl).
  intros image offset. rewrite (pg_provider _ _ _ _ Hs), Hp. reflexivity.
Qed.

Lemma set_provider_step cap s p id :
  progress cap (bare_dheader p 0 0) [] s -> 32 <= cap ->
  exists s', set_provider id s = Some s' /\ progress cap (bare_dheader id 0 0) [] s'.
Proof.
  intros [Hsize Ho Hp Hn Hfits Hfull] Hc.
  destruct (Hfits Hc) as (Hst & Hoff & Himg). unfold set_provider, store_le.
  rewrite Himg, store_bytes_app_l by (change (16 + 4 <= 32); lia).
  replace (store_bytes (enc_dheader (bare_dheader p 0 0)) 16 (le_bytes (Z.to_nat 4) id))
    with (Some (enc_dheader (bare_dheader id 0 0))) by reflexivity.
  rewrite !bind_some. eexists. split; [done|].
  split; simpl_state; try done.
  transitivity (blen (ps_image s)); [|done]. rewrite Himg, !(blen_app (enc_dheader _)). reflexivity.
Qed.

(** One append of a branch: step the state and go on. *)
Ltac append_next step Hs :=
  lazymatch type of Hs with
  | progress _ _ _ ?s =>
    let s' := fresh "s" in let Hs' := fresh "Hs" in
    edestruct step as (s' & -> & Hs'); [exact Hs|try reflexivity; try assumption..|];
    rewrite bind_some; clear Hs; rename Hs' into Hs; cbn [app] in Hs
  end.

Lemma profile_records_progress profile cap s p rs :
  progress cap (bare_dheader 3 0 0) [] s -> 32 <= cap < 2 ^ 64 ->
  profile_spec profile = Some (p, rs) ->
  exists s', profile_records profile cap s = Some (Some s') /\
    progress cap (bare_dheader p 0 0) rs s'.
Proof.
  intros Hs [Hc Hc'] Hprof. unfold profile_spec in Hprof. unfold profile_records.
  destruct (decide (profile = "minimal"%string)).
  { injection Hprof as <- <-. by exists s. }
  destruct (decide (profile = "cpu-card"%string)).
  { injection Hprof as <- <-. append_next resource_step Hs. append_next resource_step Hs.
    append_next service_step Hs. append_next service_step Hs. by eexists. }
  destruct (decide (profile = "supervisor"%string)).
  { injection Hprof as <- <-. append_next (set_provider_step cap s 3 1) Hs.
    append_next resource_step Hs. append_next service_step Hs. by eexists. }
  destruct (decide (profile = "instrumentation"%string)); [|done].
  injection Hprof as <- <-. append_next (set_provider_step cap s 3 5) Hs.
  append_next resource_step Hs. append_next service_step Hs. by eexists.
Qed.

(** ** The header and the checksums *)

Lemma header_store n raw raw' post k v :
  k + n <= blen raw -> 0 <= n -> store_le n raw k v = Some raw' ->
  store_le n (raw ++ post) k v = Some (raw' ++ post).
Proof.
  intros Hk Hn Hs. unfold store_le in *.
  rewrite store_bytes_app_l by (rewrite blen_le_bytes, Z2Nat.id; done). by rewrite Hs.
Qed.

(** The generator's checksum loop is the validator's. *)
Lemma mk_crc_agrees data length : crc32_iso_hdlc data length = atarix_crc32_iso_hdlc data length.
Proof. reflexivity. Qed.

Lemma mk_crc_spec data n bs :
  bytes_ok data -> load_bytes data 0 n = Some bs ->
  crc32_iso_hdlc data n = Some (crc_of poly_iso_hdlc bs).
Proof. rewrite mk_crc_agrees. apply crc32_iso_hdlc_spec. Qed.

Lemma enc_dheader_ok h : bytes_ok (enc_dheader h).
Proof. apply raw_dheader_ok. Qed.

Lemma patch_crc32_spec h body post :
  bytes_ok body -> bytes_ok post ->
  let h1 := with_crcs h (crc_of poly_iso_hdlc (enc_dheader (with_crcs h 0 0))) 0 in
  patch_crc32 (enc_dheader h ++ body ++ post) (32 + blen body) =
  Some (enc_dheader (with_crcs h1 (dh_header_crc32 h1)
          (crc_of poly_iso_hdlc (enc_dheader h1 ++ body))) ++ body ++ post).
Proof.
  intros Hbody Hpost h1. unfold patch_crc32.
  rewrite (header_store 4 (enc_dheader h) (enc_dheader (with_crcs h 0 (dh_image_crc32 h)))) by done.
  rewrite bind_some.
  rewrite (header_store 4 _ (enc_dheader (with_crcs h 0 0))) by done. rewrite bind_some.
  assert (Hok : bytes_ok (body ++ post)) by (by apply Forall_app).
  rewrite (mk_crc_spec _ _ (enc_dheader (with_crcs h 0 0)));
    [|by apply Forall_app; split; [apply enc_dheader_ok|]|by apply load_bytes_prefix].
  subst h1. generalize (crc_of poly_iso_hdlc (enc_dheader (with_crcs h 0 0))). intros c1.
  rewrite bind_some.
  rewrite (header_store 4 _ (enc_dheader (with_crcs h c1 0))) by done. rewrite bind_some.
  rewrite (mk_crc_spec _ _ (enc_dheader (with_crcs h c1 0) ++ body));
    [|by apply Forall_app; split; [apply enc_dheader_ok|]
    |by rewrite app_assoc; apply load_bytes_prefix; rewrite blen_app].
  generalize (crc_of poly_iso_hdlc (enc_dheader (with_crcs h c1 0) ++ body)). intros c2.
  rewrite bind_some. by apply header_store.
Qed.

Lemma initial_image image cap :
  blen image = cap -> 32 <= cap ->
  memset image 0 0 cap =
  Some (raw_dheader 0 0 (bare_dheader 0 0 0) ++ replicate (Z.to_nat (cap - 32)) 0).
Proof.
  intros Hi Hc. rewrite memset_prefix by lia. f_equal.
  rewrite drop_ge by (unfold blen in *; lia). rewrite app_nil_r.
  replace (Z.to_nat cap) with (32 + Z.to_nat (cap - 32))%nat by lia. by rewrite replicate_add.
Qed.

Lemma initial_progress cap :
  32 <= cap ->
  progress cap (bare_dheader 3 0 0) []
    (ProfileState (enc_dheader (bare_dheader 3 0 0) ++ replicate (Z.to_nat (cap - 32)) 0)
      ATARIX_DISCOVERY_HEADER_SIZE_V1 3 0 0).
Proof.
  intros Hc. unfold ATARIX_DISCOVERY_HEADER_SIZE_V1.
  assert (blen (enc_drecords []) = 0) by done.
  split; simpl_state; try done; try lia.
  rewrite blen_app, blen_replicate. change (blen (enc_dheader _)) with 32. lia.
Qed.

(** ** The profiles *)

Lemma profile_spec_cases (P : Z -> list drecord -> Prop) profile p rs :
  profile_spec profile = Some (p, rs) ->
  P 3 [] ->
  P 3 [resource_record ATARIX_RESOURCE_CPU 3; resource_record ATARIX_RESOURCE_CPU_HEALTH 3;
       service_record ATARIX_SERVICE_CPU_DIAGNOSTICS 3; service_record ATARIX_SERVICE_CPU_HEALTH 3] ->
  P 1 [resource_record ATARIX_RESOURCE_SUPERVISOR 1; service_record ATARIX_SERVICE_HEALTH 1] ->
  P 5 [resource_record ATARIX_RESOURCE_LOGIC_ANALYZER 5;
       service_record ATARIX_SERVICE_INSTRUMENTATION 5] ->
  P p rs.
Proof. unfold profile_spec. intros Hp H1 H2 H3 H4. repeat case_decide; by simplify_eq. Qed.

Lemma resource_record_wf type p : drecord_wf (resource_record type p).
Proof. split; [by split..|by exists 4|]. cbn [dr_payload resource_record]. split_app; auto with atarix. Qed.

Lemma service_record_wf id p : drecord_wf (service_record id p).
Proof. split; [by split..|by exists 4|]. cbn [dr_payload service_record]. split_app; auto with atarix. Qed.

Lemma end_record_wf : drecord_wf end_record.
Proof. split; [by split..|by exists 1|constructor]. Qed.

Record profile_ok (p : Z) (rs : list drecord) : Prop := {
  po_provider : fits 32 p;
  po_wf : Forall drecord_wf rs;
  po_typed : Forall typed_complete rs;
  po_types : Forall (fun r => dr_type r <> ATARIX_DISCOVERY_RECORD_END) rs;
  po_count : (length rs <= 4)%nat;
  po_total : blen (enc_drecords (rs ++ [end_record])) = 32 * Z.of_nat (length rs) + 8
}.

Lemma profile_spec_ok profile p rs : profile_spec profile = Some (p, rs) -> profile_ok p rs.
Proof.
  intros Hp. pose proof resource_record_wf. pose proof service_record_wf.
  assert (forall type p, typed_complete (resource_record type p)) by (by intros ? ? _ _).
  assert (forall id p, typed_complete (service_record id p)) by (by intros ? ? _ _).
  apply (profile_spec_cases profile_ok _ _ _ Hp);
    (split; [by split| | | |cbn [length]; lia|done]);
    repeat (apply Forall_cons_2; [auto; done|]); apply Forall_nil_2.
Qed.

Lemma with_crcs_twice h a b c d : with_crcs (with_crcs h a b) c d = with_crcs h c d.
Proof. reflexivity. Qed.

Lemma header_crc_with h a b : dh_header_crc32 (with_crcs h a b) = a.
Proof. reflexivity. Qed.

Lemma image_crc_with h a b : dh_image_crc32 (with_crcs h a b) = b.
Proof. reflexivity. Qed.

Lemma profile_header_crcs p rs :
  bytes_ok (enc_drecords (rs ++ [end_record])) ->
  exists c1 c2, profile_header p rs =
    with_crcs (bare_dheader p (32 + blen (enc_drecords (rs ++ [end_record])))
      (Z.of_nat (S (length rs)))) c1 c2 /\ fits 32 c1 /\ fits 32 c2.
Proof.
  intros Hok. unfold profile_header. rewrite with_crcs_twice. do 2 eexists.
  split; [reflexivity|].
  split; apply (checksum_fits (f := crc_of poly_iso_hdlc)); [apply enc_dheader_ok|].
  apply Forall_app; split; [apply enc_dheader_ok|exact Hok].
Qed.

Lemma profile_header_valid p rs :
  profile_ok p rs ->
  image_valid (dh_total_length (profile_header p rs)) (profile_header p rs) rs end_record [].
Proof.
  intros [Hp Hwf _ Hty Hn Ht].
  assert (Htotal : dh_total_length (profile_header p rs) =
    32 + blen (enc_drecords (rs ++ [end_record]))) by reflexivity.
  assert (Hok : bytes_ok (enc_drecords (rs ++ [end_record]))).
  { apply enc_drecords_ok, Forall_app. split; [done|]. constructor; [apply end_record_wf|done]. }
  split; try assumption.
  - destruct (profile_header_crcs p rs Hok) as (c1 & c2 & -> & Hc1 & Hc2). clear Htotal.
    split; unfold bare_dheader, with_crcs;
      cbn [dh_version_minor dh_total_length dh_record_count dh_provider_id dh_flags
        dh_header_crc32 dh_image_crc32]; [done| | | |done|exact Hc1|exact Hc2];
      [rewrite Ht| |exact Hp]; unfold fits; lia.
  - apply end_record_wf.
  - reflexivity.
  - constructor.
  - rewrite Htotal. change (blen []) with 0. symmetry. apply Z.add_0_r.
  - apply Z.le_refl.
  - rewrite Htotal, Ht. exists (5 + 4 * Z.of_nat (length rs)). lia.
  - right. reflexivity.
  - unfold profile_header. rewrite !with_crcs_twice, header_crc_with. reflexivity.
  - intros _. rewrite app_nil_r. unfold profile_header.
    rewrite !with_crcs_twice, header_crc_with, image_crc_with. reflexivity.
Qed.

(** ** Building a profile *)

Definition profile_total (rs : list drecord) : Z := 32 + blen (enc_drecords (rs ++ [end_record])).

(** The stores after the records: lengths, count, checksums. *)
Lemma finish_image p rs n :
  profile_ok p rs ->
  let body := enc_drecords (rs ++ [end_record]) in
  (image ← store_le 4 (enc_dheader (bare_dheader p 0 0) ++ body ++ replicate n 0) 8
     (u32 (profile_total rs));
   image ← store_le 4 image 12 (Z.of_nat (length (rs ++ [end_record])));
   patch_crc32 image (profile_total rs)) =
  Some (discovery_image (profile_header p rs) rs end_record [] ++ replicate n 0).
Proof.
  intros [Hp Hwf _ _ Hn Ht] body. unfold profile_total. fold body in Ht |- *.
  rewrite uint_small by (unfold fits; clearbody body; lia).
  rewrite (header_store 4 _ (enc_dheader (bare_dheader p (32 + blen body) 0))) by done.
  rewrite bind_some, length_app, Nat.add_comm. cbn [length Nat.add].
  rewrite (header_store 4 _ (enc_dheader (bare_dheader p (32 + blen body)
    (Z.of_nat (S (length rs)))))) by done.
  rewrite bind_some, patch_crc32_spec.
  - unfold discovery_image, profile_header. fold body.
    rewrite header_crc_with, app_nil_r, <-app_assoc. reflexivity.
  - apply enc_drecords_ok, Forall_app. split; [done|]. constructor; [apply end_record_wf|done].
  - by apply Forall_replicate.
Qed.

Lemma build_profile_known profile image cap len p rs :
  profile_spec profile = Some (p, rs) -> blen image = cap -> 32 <= cap < 2 ^ 64 ->
  if decide (profile_total rs <= cap)
  then build_profile profile image cap len =
    Some (0, discovery_image (profile_header p rs) rs end_record [] ++
             replicate (Z.to_nat (cap - profile_total rs)) 0, profile_total rs, [])
  else exists image',
    build_profile profile image cap len = Some (1, image', len, profile_does_not_fit).
Proof.
  intros Hprof Hi Hc. pose proof (profile_spec_ok _ _ _ Hprof) as Hok. unfold build_profile.
  rewrite initial_image by lia. rewrite bind_some.
  rewrite (header_store 4 _ (raw_dheader ATARIX_DISCOVERY_MAGIC_ATDX 0 (bare_dheader 0 0 0)))
    by done. rewrite bind_some.
  rewrite (header_store 2 _ (enc_dheader (bare_dheader 0 0 0))) by done. rewrite bind_some.
  rewrite (header_store 2 _ (enc_dheader (bare_dheader 0 0 0))) by done. rewrite bind_some.
  rewrite (header_store 4 _ (enc_dheader (bare_dheader 3 0 0))) by done. rewrite bind_some.
  destruct (profile_records_progress profile cap _ p rs (initial_progress cap (proj1 Hc)) Hc Hprof)
    as (s & -> & Hs).
  rewrite bind_some. pose proof (po_count _ _ Hok).
  destruct (append_step_progress cap _ rs s end_record
    (fun image offset => append_end image cap offset) Hs) as (s' & -> & Hs');
    [lia|lia|reflexivity|]. rewrite bind_some. destruct Hs' as [_ _ _ Hcount Hfits Hfull].
  case_decide as Htot; unfold profile_total in Htot.
  - destruct (Hfits Htot) as (Hst & Hoff & ->). rewrite Hst, Hcount, Hoff. cbn [Z.eqb negb].
    pose proof (finish_image p rs (Z.to_nat (cap - profile_total rs)) Hok) as Hfin.
    cbn zeta in Hfin. unfold profile_total in *.
    destruct (store_le 4 _ 8 _) as [i1|]; [|discriminate]. cbn [mbind option_bind] in Hfin |- *.
    destruct (store_le 4 i1 12 _) as [i2|]; [|discriminate]. cbn [mbind option_bind] in Hfin |- *.
    by rewrite Hfin.
  - rewrite (proj2 (Z.eqb_neq _ _)) by (apply Hfull; lia). by eexists.
Qed.

Lemma build_profile_unknown profile image cap len :
  profile_spec profile = None -> blen image = cap -> 32 <= cap < 2 ^ 64 ->
  exists image',
    build_profile profile image cap len = Some (1, image', len, unknown_profile profile).
Proof.
  intros Hprof Hi Hc. unfold build_profile. rewrite initial_image by lia. rewrite bind_some.
  rewrite (header_store 4 _ (raw_dheader ATARIX_DISCOVERY_MAGIC_ATDX 0 (bare_dheader 0 0 0)))
    by done. rewrite bind_some.
  rewrite (header_store 2 _ (enc_dheader (bare_dheader 0 0 0))) by done. rewrite bind_some.
  rewrite (header_store 2 _ (enc_dheader (bare_dheader 0 0 0))) by done. rewrite bind_some.
  rewrite (header_store 4 _ (enc_dheader (bare_dheader 3 0 0))) by done. rewrite bind_some.
  unfold profile_records, profile_spec in *.
  do 4 (destruct (decide _); [done|]). rewrite bind_some. by eexists.
Qed.

(** C12. The generator implements its profile table: in any buffer of at least a
    header's size, whatever it held, a known profile that fits gives exactly the
    encoding of the profile's header and records followed by zeros, and its
    length, and nothing is printed; a known profile that does not fit, and an
    unknown profile, give an error with its message and leave the length alone. No
    access leaves the buffer. *)
Theorem mkdiscovery_build_profile profile image cap len :
  blen image = cap -> 32 <= cap < 2 ^ 64 ->
  match profile_spec profile with
  | Some (p, rs) =>
    if decide (profile_total rs <= cap)
    then build_profile profile image cap len =
      Some (0, discovery_image (profile_header p rs) rs end_record [] ++
               replicate (Z.to_nat (cap - profile_total rs)) 0, profile_total rs, [])
    else exists image',
      build_profile profile image cap len = Some (1, image', len, profile_does_not_fit)
  | None => exists image',
      build_profile profile image cap len = Some (1, image', len, unknown_profile profile)
  end.
Proof.
  intros Hi Hc. destruct (profile_spec profile) as [[p rs]|] eqn:Hprof.
  - by apply build_profile_known.
  - by apply build_profile_unknown.
Qed.

Lemma mkdiscovery_build_profile_witness :
  exists image', build_profile "supervisor" (replicate 100 0xEE) 100 7 =
    Some (1, image', 7, profile_does_not_fit).
Proof.
  exact (mkdiscovery_build_profile "supervisor" (replicate 100 0xEE) 100 7 eq_refl
    ltac:(lia)).
Defined.

(** A build that succeeds has written a valid image of a known profile. *)
Lemma build_profile_ok profile image cap len image' n :
  blen image = cap -> 32 <= cap < 2 ^ 64 ->
  build_profile profile image cap len = Some (0, image', n, []) ->
  exists p rs rest, profile_spec profile = Some (p, rs) /\ profile_ok p rs /\
    n = dh_total_length (profile_header p rs) /\
    image' = discovery_image (profile_header p rs) rs end_record [] ++ replicate rest 0.
Proof.
  intros Hi Hc Hrun. destruct (profile_spec profile) as [[p rs]|] eqn:Hprof.
  - pose proof (build_profile_known profile image cap len p rs Hprof Hi Hc) as Hb.
    case_decide; [|by destruct Hb as [? Hb]; rewrite Hb in Hrun].
    rewrite Hb in Hrun. apply (inj Some) in Hrun. apply pair_equal_spec in Hrun as [Hrun _].
    apply pair_equal_spec in Hrun as [Hrun <-].
    apply pair_equal_spec in Hrun as [_ <-].
    exists p, rs, (Z.to_nat (cap - profile_total rs)).
    split; [reflexivity|]. split; [by apply (profile_spec_ok profile)|]. split; reflexivity.
  - destruct (build_profile_unknown profile image cap len Hprof Hi Hc) as [? Hb].
    by rewrite Hb in Hrun.
Qed.

(** A database with room for two resources and a service. *)
Definition sample_mk_database : atarix_discovery_database_t :=
  DiscoveryDatabase (Table (Some (replicate 2 (ResourceEntry 0 0 0 0 0 0))) 2 0)
    (Table (Some [ServiceEntry 0 0 0 0 0 0]) 1 0) (Table None 0 0) (Table None 0 0).

Lemma sample_mk_database_represents :
  represents (Limits 2 1 0 0) (Catalog [] [] [] []) sample_mk_database.
Proof. split; [split; (done || (split; vm_compute; lia))|done..]. Qed.

(** What parsing a generated image does, whatever the database. *)
Lemma build_parse profile image cap len image' n lim c d :
  blen image = cap -> 32 <= cap < 2 ^ 64 ->
  build_profile profile image cap len = Some (0, image', n, []) ->
  represents lim c d ->
  exists p rs d', profile_spec profile = Some (p, rs) /\
    atarix_discovery_parse (Some image') n (Some d) =
      Some (fst (spec_parse lim c rs), Some d') /\
    represents lim (snd (spec_parse lim c rs)) d'.
Proof.
  intros Hi Hc Hb Hd.
  destruct (build_profile_ok profile image cap len image' n Hi Hc Hb)
    as (p & rs & rest & Hprof & Hok & Hn & Himg).
  pose proof (profile_header_valid p rs Hok) as Hv. rewrite <-Hn in Hv.
  assert (Hs : n = dh_total_length (profile_header p rs) + blen [])
    by (rewrite Hn; symmetry; apply Z.add_0_r).
  rewrite <-(app_nil_r (discovery_image _ _ _ _)) in Himg.
  destruct (discovery_parse_catalog n _ rs end_record [] [] _ image' lim c d Hv (po_typed _ _ Hok)
    Hs (Forall_nil_2 _) Himg Hd) as (d' & Hparse & Hd').
  by exists p, rs, d'.
Qed.

(** Every generated image is valid: whatever the profile and the buffer, an
    image that [build_profile] reports as built passes [atarix_discovery_validate]
    at the length it reports. *)
Theorem mkdiscovery_image_validates profile image cap len image' n :
  blen image = cap -> 32 <= cap < 2 ^ 64 ->
  build_profile profile image cap len = Some (0, image', n, []) ->
  atarix_discovery_validate (Some image') n = Some ATARIX_DISCOVERY_OK.
Proof.
  intros Hi Hc Hb.
  destruct (build_profile_ok profile image cap len image' n Hi Hc Hb)
    as (p & rs & rest & Hprof & Hok & Hn & Himg).
  pose proof (profile_header_valid p rs Hok) as Hv. rewrite <-Hn in Hv.
  rewrite <-(app_nil_r (discovery_image _ _ _ _)) in Himg.
  apply (validate_valid n _ rs end_record [] image' [] _ Hv Himg); [|constructor].
  rewrite Hn. symmetry. apply Z.add_0_r.
Qed.

Lemma mkdiscovery_image_validates_witness :
  exists image' n, build_profile "cpu-card" (replicate 200 0) 200 0 = Some (0, image', n, []) /\
    atarix_discovery_validate (Some image') n = Some ATARIX_DISCOVERY_OK.
Proof.
  do 2 eexists. split; [vm_compute; reflexivity|].
  apply (mkdiscovery_image_validates "cpu-card" (replicate 200 0) 200 0);
    [reflexivity|lia|vm_compute; reflexivity].
Defined.

(** C30. Round trip of the generator through the parser, for the profiles
    "minimal" and "supervisor": parsing the generated image into an empty
    database with room for one resource and one service gives OK and exactly the
    entries of the profile. *)
Theorem mkdiscovery_parse_roundtrip profile image cap len image' n r1 s1 d1 i1 d :
  blen image = cap -> 32 <= cap < 2 ^ 64 ->
  build_profile profile image cap len = Some (0, image', n, []) ->
  profile = "minimal"%string \/ profile = "supervisor"%string ->
  represents (Limits (S r1) (S s1) d1 i1) (Catalog [] [] [] []) d ->
  exists p rs d', profile_spec profile = Some (p, rs) /\
    atarix_discovery_parse (Some image') n (Some d) = Some (ATARIX_DISCOVERY_OK, Some d') /\
    catalog_of d' =
      Catalog (map resource_of (of_type ATARIX_DISCOVERY_RECORD_RESOURCE rs))
        (map service_of (of_type ATARIX_DISCOVERY_RECORD_SERVICE rs)) [] [].
Proof.
  intros Hi Hc Hb Hp Hd.
  destruct (build_parse profile image cap len image' n _ _ d Hi Hc Hb Hd)
    as (p & rs & d' & Hprof & Hparse & [_ Hcat _]).
  exists p, rs, d'. split; [done|].
  assert (Hspec : spec_parse (Limits (S r1) (S s1) d1 i1) (Catalog [] [] [] []) rs =
    (ATARIX_DISCOVERY_OK, Catalog (map resource_of (of_type ATARIX_DISCOVERY_RECORD_RESOURCE rs))
        (map service_of (of_type ATARIX_DISCOVERY_RECORD_SERVICE rs)) [] [])).
  { destruct Hp as [-> | ->]; vm_compute in Hprof; injection Hprof as <- <-; vm_compute; reflexivity. }
  rewrite Hspec in Hparse, Hcat. by split.
Qed.

Lemma mkdiscovery_parse_roundtrip_witness :
  exists image' n, build_profile "supervisor" (replicate 200 0) 200 0 = Some (0, image', n, []) /\
  exists p rs d', profile_spec "supervisor" = Some (p, rs) /\
    atarix_discovery_parse (Some image') n (Some sample_mk_database) =
      Some (ATARIX_DISCOVERY_OK, Some d') /\
    catalog_of d' =
      Catalog (map resource_of (of_type ATARIX_DISCOVERY_RECORD_RESOURCE rs))
        (map service_of (of_type ATARIX_DISCOVERY_RECORD_SERVICE rs)) [] [].
Proof.
  do 2 eexists. split; [vm_compute; reflexivity|].
  apply (mkdiscovery_parse_roundtrip "supervisor" (replicate 200 0) 200 0 _ _ 1 0 0 0);
    [reflexivity|lia|vm_compute; reflexivity|by right|exact sample_mk_database_represents].
Defined.

(** A service whose handle a resource before it has: unless a resource is refused, the
    service is, and nothing behind it is looked at. *)
Lemma spec_parse_collision lim rs r rest c :
  Forall (fun r => dr_type r = ATARIX_DISCOVERY_RECORD_RESOURCE) rs ->
  dr_type r = ATARIX_DISCOVERY_RECORD_SERVICE ->
  se_handle (service_of r) ∈ catalog_handles c ++ map (fun r => re_handle (resource_of r)) rs ->
  exists result c', spec_parse lim c (rs ++ r :: rest) = (result, c') /\
    cat_services c' = cat_services c /\
    (result = ATARIX_DISCOVERY_ERROR_DUPLICATE_HANDLE \/
     result = ATARIX_DISCOVERY_ERROR_CAPACITY) /\
    ((length (cat_resources c) + length rs <= lim_resources lim)%nat ->
     result = ATARIX_DISCOVERY_ERROR_DUPLICATE_HANDLE).
Proof.
  intros Hrs Hr. revert c. induction Hrs as [|r1 rs Hr1 _ IH]; intros c Hin;
    cbn [app spec_parse map] in *; unfold spec_add, if_admitted, admission.
  - rewrite app_nil_r in Hin. rewrite Hr. cbn. rewrite bool_decide_eq_true_2 by done. cbn.
    eexists _, _. split; [reflexivity|]. by split_and!; [|left|].
  - rewrite Hr1. cbn [Z.eqb Pos.eqb ATARIX_DISCOVERY_RECORD_RESOURCE].
    case_bool_decide as Hdup; cbn.
    { eexists _, _. split; [reflexivity|]. by split_and!; [|left|]. }
    destruct (Nat.leb_spec (lim_resources lim) (length (cat_resources c))) as [Hfull|Hroom]; cbn.
    { eexists _, _. split; [reflexivity|]. split_and!; [done|by right|lia]. }
    edestruct IH as (result & c' & Hparse & Hser & Hres & Hcap); [|exists result, c'; split; [exact Hparse|]].
    + cbn [cat_resources cat_services cat_dependencies cat_instrumentation catalog_handles].
      unfold catalog_handles in *. cbn [cat_resources cat_services cat_instrumentation].
      rewrite map_app. cbn [map]. rewrite ?elem_of_app, ?elem_of_cons in *. tauto.
    + split; [exact Hser|]. split; [exact Hres|]. intros Hl. apply Hcap.
      cbn [cat_resources]. rewrite length_app. cbn [length]. lia.
Qed.

(** C31. The profiles "cpu-card" and "instrumentation" never parse: a resource type
    and a service of theirs have the same number (0x2000 and 0x1000), so with the
    same provider and instance they get the same handle. Whatever the buffer the
    image was built in and whatever a well-formed database already holds, the parser of the
    library refuses the generated image, with DUPLICATE_HANDLE or CAPACITY, before
    any service is entered; and when there is room for the profile's resources (two
    and one) it is the shared handle that is refused, with DUPLICATE_HANDLE. *)
Theorem mkdiscovery_duplicate_handle profile image cap len image' n lim c d :
  blen image = cap -> 32 <= cap < 2 ^ 64 ->
  build_profile profile image cap len = Some (0, image', n, []) ->
  profile = "cpu-card"%string \/ profile = "instrumentation"%string ->
  represents lim c d ->
  exists p rs result d', profile_spec profile = Some (p, rs) /\
    atarix_discovery_parse (Some image') n (Some d) = Some (result, Some d') /\
    cat_services (catalog_of d') = cat_services c /\
    (result = ATARIX_DISCOVERY_ERROR_DUPLICATE_HANDLE \/
     result = ATARIX_DISCOVERY_ERROR_CAPACITY) /\
    ((length (cat_resources c) + length (of_type ATARIX_DISCOVERY_RECORD_RESOURCE rs) <=
        lim_resources lim)%nat ->
     result = ATARIX_DISCOVERY_ERROR_DUPLICATE_HANDLE).
Proof.
  intros Hi Hc Hb Hp Hd.
  destruct (build_parse profile image cap len image' n _ _ d Hi Hc Hb Hd)
    as (p & rs & d' & Hprof & Hparse & [_ Hcat _]).
  assert (exists rs1 r rest, rs = rs1 ++ r :: rest /\
    Forall (fun r => dr_type r = ATARIX_DISCOVERY_RECORD_RESOURCE) rs1 /\
    dr_type r = ATARIX_DISCOVERY_RECORD_SERVICE /\
    se_handle (service_of r) ∈ map (fun r => re_handle (resource_of r)) rs1 /\
    length (of_type ATARIX_DISCOVERY_RECORD_RESOURCE rs) = length rs1)
    as (rs1 & r & rest & Hrs & Hres & Hser & Hin & Hlen).
  { destruct Hp as [-> | ->]; vm_compute in Hprof; injection Hprof as <- <-.
    - eexists [_; _], _, _. split; [reflexivity|]. split_and!;
        [by repeat constructor|done|apply list_elem_of_here|done].
    - eexists [_], _, _. split; [reflexivity|]. split_and!;
        [by repeat constructor|done|apply list_elem_of_here|done]. }
  destruct (spec_parse_collision lim rs1 r rest c Hres Hser) as (result & c' & Hspec & H);
    [apply elem_of_app; by right|].
  rewrite Hrs, Hspec in Hparse, Hcat. exists p, rs, result, d'.
  split; [done|]. split; [exact Hparse|]. rewrite Hcat, Hlen. exact H.
Qed.

(** An empty database with a single slot for resources. *)
Definition narrow_mk_database : atarix_discovery_database_t :=
  DiscoveryDatabase (Table (Some [ResourceEntry 0 0 0 0 0 0]) 1 0)
    (Table (Some [ServiceEntry 0 0 0 0 0 0]) 1 0) (Table None 0 0) (Table None 0 0).

Lemma narrow_mk_database_represents :
  represents (Limits 1 1 0 0) (Catalog [] [] [] []) narrow_mk_database.
Proof. split; [split; (done || (split; vm_compute; lia))|done..]. Qed.

Lemma mkdiscovery_duplicate_handle_witness :
  (exists image' n, build_profile "instrumentation" (replicate 200 0) 200 0 = Some (0, image', n, []) /\
   exists d', atarix_discovery_parse (Some image') n (Some sample_mk_database) =
      Some (ATARIX_DISCOVERY_ERROR_DUPLICATE_HANDLE, Some d') /\
    cat_services (catalog_of d') = []) /\
  (exists image' n, build_profile "cpu-card" (replicate 200 0) 200 0 = Some (0, image', n, []) /\
   exists result d', atarix_discovery_parse (Some image') n (Some narrow_mk_database) =
      Some (result, Some d') /\
    (result = ATARIX_DISCOVERY_ERROR_DUPLICATE_HANDLE \/
     result = ATARIX_DISCOVERY_ERROR_CAPACITY) /\
    cat_services (catalog_of d') = []).
Proof.
  split; do 2 eexists; (split; [vm_compute; reflexivity|]).
  - edestruct (mkdiscovery_duplicate_handle "instrumentation" (replicate 200 0) 200 0)
      as (p & rs & result & d' & Hprof & Hparse & Hser & _ & Hdup);
      [reflexivity|lia|vm_compute; reflexivity|by right|exact sample_mk_database_represents|].
    vm_compute in Hprof. injection Hprof as <- <-. rewrite Hdup in Hparse by (apply Nat.leb_le; vm_compute; reflexivity).
    exists d'. split; [exact Hparse|exact Hser].
  - edestruct (mkdiscovery_duplicate_handle "cpu-card" (replicate 200 0) 200 0)
      as (p & rs & result & d' & _ & Hparse & Hser & Hres & _);
      [reflexivity|lia|vm_compute; reflexivity|by left|exact narrow_mk_database_represents|].
    exists result, d'. split; [exact Hparse|]. split; [exact Hres|exact Hser].
Defined.
