(* ===== verification/MkDiscoveryTool.v ===== *)
(** * The command line tool mkdiscovery

    [main] of [tools/mkdiscovery/mkdiscovery.c]: the argument loop, the image on
    the stack, and the output file. The files are a map from paths to contents;
    what the C library and the device do with the output is a [device]. The
    result is the exit code, the files, and the trace of calls. *)

From S2P Require Import Prelude Host Crc Registries Discovery DiscoveryParser DiscoveryCatalog MkDiscovery.
From stdpp Require Import strings gmap.
#[local] Open Scope Z_scope.

(** ** The environment *)

(** Whether a path can be opened for writing, how many of the bytes handed to
    [fwrite] it accepts, and how many of the accepted ones are in the file once
    [fclose] has flushed the stream. *)
Record device : Type := Device {
  dv_fopen : string -> bool;
  dv_fwrite : string -> bytes -> nat;
  dv_fclose : string -> bytes -> nat
}.

(** Every byte written arrives. *)
Definition reliable (d : device) (path : string) : Prop :=
  dv_fopen d path = true /\
  (forall data, dv_fwrite d path data = length data) /\
  (forall data, dv_fclose d path data = length data).

(** ** The tool *)

(** The loop over [argv]: the last value of each option, where [++i] skips it. *)
Fixpoint argument_loop (fuel : nat) (argv : list string) (i : nat) (profile output : option string)
  : option (option string * option string) :=
  if (i <? length argv)%nat then
    match fuel with
    | O => None
    | S fuel' =>
      arg ← argv !! i;
      if bool_decide (arg = "--profile"%string) && (i + 1 <? length argv)%nat then
        value ← argv !! (i + 1)%nat;
        argument_loop fuel' argv (i + 2) (Some value) output
      else if bool_decide (arg = "--output"%string) && (i + 1 <? length argv)%nat then
        value ← argv !! (i + 1)%nat;
        argument_loop fuel' argv (i + 2) profile (Some value)
      else argument_loop fuel' argv (i + 1) profile output
    end
  else Some (profile, output).

Definition usage (name : string) : string :=
  "usage: " +:+ name +:+
  " --profile <minimal|cpu-card|supervisor|instrumentation> --output <file>" +:+ newline.

(** [image] is the local array with its indeterminate contents. *)
Definition main (d : device) (files : gmap string bytes) (image : bytes) (argv : list string)
  : option (Z * gmap string bytes * list event) :=
  '(profile, output) ← argument_loop (length argv) argv 1 None None;
  match profile, output with
  | Some profile, Some output =>
    '(status, image, image_length, messages) ← build_profile profile image MKDISCOVERY_MAX_IMAGE 0;
    if negb (status =? 0) then Some (1, files, messages)
    else if negb (dv_fopen d output) then Some (1, files, messages)
    else
      data ← load_bytes image 0 image_length;
      let accepted := take (dv_fwrite d output data) data in
      let stored := take (dv_fclose d output accepted) accepted in
      Some (if blen accepted =? image_length then 0 else 1,
            <[output := stored]> files, messages ++ [Fopen output; Fclose])
  | _, _ =>
    name ← argv !! 0%nat;
    Some (2, files, [Stderr (usage name)])
  end.

(** ** The arguments *)

(** The settings that a list of arguments makes, read from the left. *)
Fixpoint settings (args : list string) (profile output : option string)
  : option string * option string :=
  match args with
  | arg :: ((value :: rest) as after) =>
    if decide (arg = "--profile"%string) then settings rest (Some value) output
    else if decide (arg = "--output"%string) then settings rest profile (Some value)
    else settings after profile output
  | _ => (profile, output)
  end.

Lemma argument_loop_settings fuel argv i profile output :
  (length argv <= i + fuel)%nat ->
  argument_loop fuel argv i profile output = Some (settings (drop i argv) profile output).
Proof.
  revert i profile output. induction fuel as [|fuel IH]; intros i profile output Hf; cbn [argument_loop];
    (destruct (Nat.ltb_spec i (length argv)); [|by rewrite drop_ge by lia]); [lia|].
  destruct (lookup_lt_is_Some_2 argv i) as [arg Harg]; [done|].
  rewrite Harg, bind_some, (drop_S _ _ _ Harg).
  destruct (Nat.ltb_spec (i + 1) (length argv)).
  - destruct (lookup_lt_is_Some_2 argv (i + 1)) as [value Hvalue]; [done|].
    rewrite Hvalue, !bind_some, !andb_true_r.
    rewrite Nat.add_1_r in *. rewrite (drop_S _ _ _ Hvalue). cbn [settings].
    replace (i + 2)%nat with (S (S i)) by lia.
    do 2 (case_bool_decide; [by rewrite decide_True, IH by (done || lia)|
                             rewrite decide_False by done]).
    by rewrite IH, (drop_S _ _ _ Hvalue) by lia.
  - rewrite !andb_false_r, IH, Nat.add_1_r, drop_ge by lia. done.
Qed.

(** ** What the tool does *)

(** The image of a profile, header to END record. *)
Definition profile_image (p : Z) (rs : list drecord) : bytes :=
  discovery_image (profile_header p rs) rs end_record [].

Lemma blen_profile_image p rs : blen (profile_image p rs) = profile_total rs.
Proof.
  unfold profile_image, discovery_image, profile_total, enc_dheader.
  by rewrite !blen_app, blen_raw_dheader, Z.add_0_r.
Qed.

Lemma profile_image_valid p rs :
  profile_ok p rs ->
  atarix_discovery_validate (Some (profile_image p rs)) (blen (profile_image p rs)) =
  Some ATARIX_DISCOVERY_OK.
Proof.
  intros Hok. replace (blen _) with (dh_total_length (profile_header p rs))
    by (rewrite blen_profile_image; reflexivity).
  apply (validate_valid (dh_total_length (profile_header p rs)) (profile_header p rs) rs
    end_record [] (profile_image p rs) [] []).
  - by apply profile_header_valid.
  - by rewrite !app_nil_r.
  - symmetry. apply Z.add_0_r.
  - constructor.
Qed.

(** What a successful opening writes. *)
Definition written (d : device) (output : string) (image : bytes) : Z * bytes :=
  let accepted := take (dv_fwrite d output image) image in
  (if blen accepted =? blen image then 0 else 1,
   take (dv_fclose d output accepted) accepted).

Lemma main_settings d files image name args profile output :
  blen image = MKDISCOVERY_MAX_IMAGE -> settings args None None = (Some profile, Some output) ->
  main d files image (name :: args) =
  Some match profile_spec profile with
       | None => (1, files, unknown_profile profile)
       | Some (p, rs) =>
         if dv_fopen d output
         then let '(code, stored) := written d output (profile_image p rs) in
              (code, <[output := stored]> files, [Fopen output; Fclose])
         else (1, files, [])
       end.
Proof.
  intros Hi Hs. unfold main. rewrite argument_loop_settings by (cbn [length]; lia).
  change (drop 1 (name :: args)) with args. rewrite Hs, bind_some.
  assert (Hcap : 32 <= MKDISCOVERY_MAX_IMAGE < 2 ^ 64) by (unfold MKDISCOVERY_MAX_IMAGE; lia).
  destruct (profile_spec profile) as [[p rs]|] eqn:Hprof.
  - pose proof (profile_spec_ok _ _ _ Hprof) as Hok.
    pose proof (build_profile_known profile image _ 0 p rs Hprof Hi Hcap) as Hb.
    rewrite decide_True in Hb.
    + rewrite Hb, bind_some. cbn [Z.eqb negb]. destruct (dv_fopen d output); [|done]. cbn [negb].
      fold (profile_image p rs). rewrite <-(blen_profile_image p rs).
      rewrite load_bytes_prefix by done. reflexivity.
    + unfold profile_total, MKDISCOVERY_MAX_IMAGE. rewrite (po_total _ _ Hok).
      pose proof (po_count _ _ Hok). lia.
  - destruct (build_profile_unknown profile image _ 0 Hprof Hi Hcap) as [image' ->]. done.
Qed.

Lemma main_usage d files image name args :
  (forall profile output, settings args None None <> (Some profile, Some output)) ->
  main d files image (name :: args) = Some (2, files, [Stderr (usage name)]).
Proof.
  intros Hs. unfold main. rewrite argument_loop_settings by (cbn [length]; lia).
  change (drop 1 (name :: args)) with args. rewrite bind_some.
  destruct (settings args None None) as [[profile|] [output|]]; [by edestruct Hs|done..].
Qed.

Lemma written_reliable d output image :
  reliable d output -> written d output image = (0, image).
Proof.
  intros (_ & Hw & Hc). unfold written. rewrite Hw, firstn_all, Z.eqb_refl, Hc, firstn_all. done.
Qed.

(** ** Properties *)

(** C15. What mkdiscovery does, whatever the stack held, the arguments and the
    device: it terminates, and closes the file if it opened one; without both
    options it exits with 2 and prints the usage, for an unknown profile it exits
    with 1 and names it, and for a file that cannot be opened with 1 and silently,
    and the files are as before; otherwise no file but the output
    changes, the output holds the beginning of the profile's image, and the exit
    code is 0 exactly if [fwrite] took all of it; on a reliable device the exit
    code is 0, and the file is the whole image, which the library validates. *)
Theorem mkdiscovery_tool_exit d files image name args :
  blen image = MKDISCOVERY_MAX_IMAGE ->
  exists code files' trace, main d files image (name :: args) = Some (code, files', trace) /\
  no_leak trace /\
  match settings args None None with
  | (Some profile, Some output) =>
    match profile_spec profile with
    | None => code = 1 /\ files' = files /\
        stderr_text trace = ("unknown profile: " +:+ profile +:+ newline)%string
    | Some (p, rs) =>
      let file := profile_image p rs in
      stderr_text trace = EmptyString /\
      if dv_fopen d output
      then (forall path, path <> output -> files' !! path = files !! path) /\
        (exists n, files' !! output = Some (take n file)) /\
        (code = 0 <-> (length file <= dv_fwrite d output file)%nat) /\
        (reliable d output -> code = 0 /\ files' !! output = Some file /\
           atarix_discovery_validate (Some file) (blen file) = Some ATARIX_DISCOVERY_OK)
      else code = 1 /\ files' = files
    end
  | _ => code = 2 /\ files' = files /\ stderr_text trace = usage name
  end.
Proof.
  intros Hi. destruct (settings args None None) as [[profile|] [output|]] eqn:Hs;
    try (rewrite main_usage by (by rewrite Hs); do 3 eexists; split; [reflexivity|];
         split; [done|]; split; [done|]; split; [done|apply string_app_nil]).
  rewrite (main_settings _ _ _ _ _ _ _ Hi Hs).
  destruct (profile_spec profile) as [[p rs]|] eqn:Hprof; cycle 1.
  { do 3 eexists. split; [reflexivity|]. split; [done|]. split; [done|]. split; [done|].
    apply string_app_nil. }
  destruct (dv_fopen d output); [|by do 3 eexists].
  pose proof (profile_spec_ok _ _ _ Hprof) as Hok. pose proof (profile_image_valid p rs Hok) as Hv.
  pose proof (written_reliable d output (profile_image p rs)) as Hrel. revert Hv Hrel.
  generalize (profile_image p rs). intros file Hv Hrel. cbn zeta.
  destruct (written d output file) as [code stored] eqn:Hw.
  exists code, (<[output := stored]> files), [Fopen output; Fclose].
  split; [done|]. split; [done|]. split; [done|].
  split; [intros path Hp; by apply lookup_insert_ne|]. rewrite lookup_insert_eq.
  split; [|split].
  - injection Hw as _ <-. eexists. by rewrite take_take.
  - injection Hw as <- _. unfold blen. rewrite length_take.
    destruct (Z.eqb_spec (Z.of_nat (dv_fwrite d output file `min` length file)%nat)
      (Z.of_nat (length file)));
      split; (done || lia).
  - intros Hr. specialize (Hrel Hr). injection Hrel as -> ->. done.
Qed.

(** The device of the witnesses: it opens every path and accepts every byte, and
    keeps the first [kept] of them. *)
Definition sample_device (kept : nat) : device :=
  Device (fun _ => true) (fun _ data => length data) (fun _ _ => kept).

Definition sample_mk_args : list string := ["--profile"; "supervisor"; "--output"; "rom"]%string.

Lemma mkdiscovery_tool_exit_witness :
  exists code files' trace,
    main (sample_device 500) {["other"%string := [1]]} (replicate 4096 0xEE)
      ("mkdiscovery"%string :: sample_mk_args) = Some (code, files', trace) /\ no_leak trace.
Proof.
  destruct (mkdiscovery_tool_exit (sample_device 500) {["other"%string := [1]]} (replicate 4096 0xEE)
    "mkdiscovery" sample_mk_args) as (code & files' & trace & Hrun & Hleak & _);
    [vm_compute; reflexivity|].
  exists code, files', trace. exact (conj Hrun Hleak).
Defined.

(** C32. A lost write is not noticed: the result of [fclose] is ignored, so whenever
    [fwrite] has buffered the whole image but the device keeps fewer bytes of it
    when the stream is flushed, mkdiscovery exits with 0, prints nothing, and leaves
    exactly the bytes that were kept, which are not the image. The library refuses
    every such file: as too small when the header is incomplete, and for its total
    length otherwise. *)
Theorem mkdiscovery_tool_lost_write d files image name args profile output p rs :
  let file := profile_image p rs in
  let kept := dv_fclose d output file in
  blen image = MKDISCOVERY_MAX_IMAGE ->
  settings args None None = (Some profile, Some output) ->
  profile_spec profile = Some (p, rs) ->
  dv_fopen d output = true ->
  dv_fwrite d output file = length file ->
  (kept < length file)%nat ->
  exists files' stored,
    main d files image (name :: args) = Some (0, files', [Fopen output; Fclose]) /\
    files' !! output = Some stored /\ stored = take kept file /\ stored <> file /\
    atarix_discovery_validate (Some stored) (blen stored) =
      Some (if (kept <? 32)%nat then ATARIX_DISCOVERY_ERROR_TOO_SMALL
            else ATARIX_DISCOVERY_ERROR_BAD_LENGTH).
Proof.
  intros file kept Hi Hs Hprof Hopen Hwrite Hkept.
  pose proof (profile_spec_ok _ _ _ Hprof) as Hok.
  assert (atarix_discovery_validate (Some (take kept file)) (blen (take kept file)) =
    Some (if (kept <? 32)%nat then ATARIX_DISCOVERY_ERROR_TOO_SMALL
          else ATARIX_DISCOVERY_ERROR_BAD_LENGTH)) as Hv.
  { pose proof (iv_header _ _ _ _ _ (profile_header_valid p rs Hok)) as Hh. subst file.
    unfold profile_image, discovery_image in *. apply validate_truncated; [exact Hh| |].
    - by rewrite app_nil_r.
    - rewrite length_app in Hkept. exact Hkept. }
  rewrite (main_settings _ _ _ _ _ _ _ Hi Hs), Hprof, Hopen. unfold written. fold file.
  rewrite Hwrite, firstn_all, Z.eqb_refl. fold kept. do 2 eexists. split; [reflexivity|].
  rewrite lookup_insert_eq. split; [reflexivity|]. split; [reflexivity|]. split; [|exact Hv].
  intros Heq. apply (f_equal length) in Heq. rewrite length_take in Heq. lia.
Qed.

(** Nothing kept, and a header with half a record kept. *)
Lemma mkdiscovery_tool_lost_write_witness :
  (exists files' stored,
    main (sample_device 0) ∅ (replicate 4096 0xEE) ("mkdiscovery"%string :: sample_mk_args) =
      Some (0, files', [Fopen "rom"; Fclose]) /\ files' !! "rom"%string = Some stored /\
    atarix_discovery_validate (Some stored) (blen stored) = Some ATARIX_DISCOVERY_ERROR_TOO_SMALL) /\
  (exists files' stored,
    main (sample_device 50) ∅ (replicate 4096 0xEE) ("mkdiscovery"%string :: sample_mk_args) =
      Some (0, files', [Fopen "rom"; Fclose]) /\ files' !! "rom"%string = Some stored /\
    atarix_discovery_validate (Some stored) (blen stored) = Some ATARIX_DISCOVERY_ERROR_BAD_LENGTH).
Proof.
  split.
  - destruct (mkdiscovery_tool_lost_write (sample_device 0) ∅ (replicate 4096 0xEE) "mkdiscovery"
      sample_mk_args "supervisor" "rom" 1
      [resource_record ATARIX_RESOURCE_SUPERVISOR 1; service_record ATARIX_SERVICE_HEALTH 1])
      as (files' & stored & Hrun & Hfile & _ & _ & Hv);
      [vm_compute; reflexivity|reflexivity|reflexivity|reflexivity|reflexivity
      |apply Nat.ltb_lt; vm_compute; reflexivity|].
    exists files', stored. exact (conj Hrun (conj Hfile Hv)).
  - destruct (mkdiscovery_tool_lost_write (sample_device 50) ∅ (replicate 4096 0xEE) "mkdiscovery"
      sample_mk_args "supervisor" "rom" 1
      [resource_record ATARIX_RESOURCE_SUPERVISOR 1; service_record ATARIX_SERVICE_HEALTH 1])
      as (files' & stored & Hrun & Hfile & _ & _ & Hv);
      [vm_compute; reflexivity|reflexivity|reflexivity|reflexivity|reflexivity
      |apply Nat.ltb_lt; vm_compute; reflexivity|].
    exists files', stored. exact (conj Hrun (conj Hfile Hv)).
Defined.
