(* ===== verification/Agreement.v ===== *)
(** * Agreement between the parts

    What the parts of the program duplicate or share without calling each other,
    and must agree on: three implementations of the CRC-32 of mailboxes and
    discovery images and two of the CRC-32C of Boot Information Blocks, and the
    layout of the packed structures, which the headers declare and the encodings of
    the model and the discovery parser follow. *)

From S2P Require Import Prelude Crc Layouts Mailbox Capability BibFormat BibBuilder BibReader BibLayouts Registries Discovery DiscoveryParser MkDiscovery.
From stdpp Require Import strings.
#[local] Open Scope Z_scope.

(** ** What the headers assert about their structures *)

Definition offset_is (l : layout) (name : string) (offset : Z) : bool :=
  bool_decide (offsetof l name = Some offset).

Definition mailbox_static_asserts : list bool :=
  [sizeof atarix_mailbox_header_v1_layout =? ATARIX_MAILBOX_HEADER_SIZE_V1].

Definition capability_static_asserts : list bool :=
  [sizeof atarix_capability_record_v1_layout =? ATARIX_CAPABILITY_RECORD_SIZE_V1].

Definition memory_static_asserts : list bool :=
  [sizeof atarix_memory_descriptor_v1_layout =? 44].

Definition bib_static_asserts : list bool :=
  [sizeof atarix_bib_header_v1_layout =? ATARIX_BIB_HEADER_SIZE_V1;
   offset_is atarix_bib_header_v1_layout "magic" 0;
   offset_is atarix_bib_header_v1_layout "version_major" 8;
   offset_is atarix_bib_header_v1_layout "version_minor" 10;
   offset_is atarix_bib_header_v1_layout "header_length" 12;
   offset_is atarix_bib_header_v1_layout "flags" 14;
   offset_is atarix_bib_header_v1_layout "total_length" 16;
   offset_is atarix_bib_header_v1_layout "crc32c" 20;
   offset_is atarix_bib_header_v1_layout "boot_id" 24;
   offset_is atarix_bib_header_v1_layout "producer_id" 32;
   offset_is atarix_bib_header_v1_layout "created_counter" 40;
   offset_is atarix_bib_header_v1_layout "tlv_offset" 48;
   offset_is atarix_bib_header_v1_layout "tlv_count" 52;
   offset_is atarix_bib_header_v1_layout "reserved" 56;
   sizeof atarix_bib_tlv_header_v1_layout =? ATARIX_BIB_TLV_HEADER_SIZE_V1;
   offset_is atarix_bib_tlv_header_v1_layout "type" 0;
   offset_is atarix_bib_tlv_header_v1_layout "flags" 2;
   offset_is atarix_bib_tlv_header_v1_layout "length" 4;
   offset_is atarix_bib_tlv_header_v1_layout "payload_length" 8;
   offset_is atarix_bib_tlv_header_v1_layout "reserved" 12;
   sizeof atarix_bib_reference_fixed_v1_layout =? ATARIX_BIB_REFERENCE_FIXED_SIZE_V1;
   sizeof atarix_bib_identity_fixed_v1_layout =? ATARIX_BIB_IDENTITY_FIXED_SIZE_V1].

Definition discovery_static_asserts : list bool :=
  [sizeof atarix_discovery_header_v1_layout =? ATARIX_DISCOVERY_HEADER_SIZE_V1;
   sizeof atarix_discovery_record_header_v1_layout =? ATARIX_DISCOVERY_RECORD_HEADER_SIZE_V1;
   sizeof atarix_discovery_resource_record_v1_layout =? 32;
   sizeof atarix_discovery_service_record_v1_layout =? 32;
   sizeof atarix_discovery_dependency_record_v1_layout =? 32;
   sizeof atarix_discovery_instrumentation_record_v1_layout =? 32].

Definition directory_static_asserts : list bool :=
  [sizeof atarix_directory_header_v1_layout =? ATARIX_DIRECTORY_HEADER_SIZE_V1;
   sizeof atarix_directory_entry_v1_layout =? ATARIX_DIRECTORY_ENTRY_SIZE_V1].

Definition index_static_asserts : list bool :=
  [sizeof atarix_payload_index_query_v1_layout =? ATARIX_INDEX_QUERY_PAYLOAD_SIZE_V1;
   sizeof atarix_payload_index_reply_v1_layout =? ATARIX_INDEX_REPLY_PAYLOAD_SIZE_V1].

Definition identity_static_asserts : list bool :=
  [sizeof atarix_identity_eeprom_v1_layout =? ATARIX_IDENTITY_BLOCK_SIZE_V1].

Definition static_asserts : list bool :=
  mailbox_static_asserts ++ capability_static_asserts ++ memory_static_asserts ++
  bib_static_asserts ++ discovery_static_asserts ++ directory_static_asserts ++
  index_static_asserts ++ identity_static_asserts.

(** ** Checksums *)

(** C26. The duplicated checksums agree: on any readable bytes the mailbox, the
    discovery validator and the image generator compute the same CRC-32, although
    one conditionally and the others arithmetically select the polynomial; and
    the checksum the reader computes in place, skipping the stored field, is the
    builder's checksum of a copy of the block with that field zeroed. *)
Theorem crc_implementations_agree :
  (forall data n, bytes_ok data -> 0 <= n <= blen data ->
     exists crc, atarix_mailbox_crc32 (Some data) n = Some crc /\
       atarix_crc32_iso_hdlc data n = Some crc /\ MkDiscovery.crc32_iso_hdlc data n = Some crc) /\
  (forall pre img post, 24 <= blen img ->
     crc32c_with_zeroed_field (pre ++ img ++ post) (blen pre) (blen img) =
     crc32c (zeroed_crc img) (blen img)).
Proof.
  split.
  - intros data n Hok Hn. destruct (load_bytes_in_range data 0 n) as (bs & Hbs & _); [lia..|].
    exists (crc_of poly_iso_hdlc bs).
    split; [exact (atarix_mailbox_crc32_spec _ _ _ Hbs)|].
    split; [exact (crc32_iso_hdlc_spec _ _ _ Hok Hbs)|exact (mk_crc_spec _ _ _ Hok Hbs)].
  - intros pre img post Hl. destruct (split_crc img Hl) as (a & c & b & -> & Ha & Hc & ->).
    rewrite (crc32c_with_zeroed_field_spec pre a c b post) by (done || rewrite !blen_app; lia).
    symmetry. apply crc32c_spec, load_bytes_whole.
    rewrite !blen_app, blen_replicate. lia.
Qed.

Lemma crc_implementations_agree_witness :
  (exists crc, atarix_mailbox_crc32 (Some [49; 50; 51]) 3 = Some crc /\
     atarix_crc32_iso_hdlc [49; 50; 51] 3 = Some crc /\
     MkDiscovery.crc32_iso_hdlc [49; 50; 51] 3 = Some crc) /\
  crc32c_with_zeroed_field ([9] ++ replicate 32 7 ++ []) (blen [9]) (blen (replicate 32 7)) =
    crc32c (zeroed_crc (replicate 32 7)) (blen (replicate 32 7)).
Proof.
  destruct crc_implementations_agree as [H1 H2]. split.
  - apply H1; [by apply (bool_decide_unpack _); vm_compute|by split; vm_compute].
  - apply H2. by vm_compute.
Defined.

(** ** Layouts *)

(** The named members of a record, as the database keeps them. *)
Definition named_resource (m : bytes) (p : Z) : option atarix_resource_entry_t :=
  let member := read_member atarix_discovery_resource_record_v1_layout m p in
  handle ← member "resource_handle";
  type ← member "resource_type_id";
  version ← member "resource_version";
  flags ← member "resource_flags";
  provider ← member "provider_id";
  instance ← member "instance_id";
  Some (ResourceEntry handle type version flags provider instance).

Definition named_service (m : bytes) (p : Z) : option atarix_service_entry_t :=
  let member := read_member atarix_discovery_service_record_v1_layout m p in
  handle ← member "service_handle";
  id ← member "service_id";
  version ← member "service_version";
  flags ← member "service_flags";
  provider ← member "provider_id";
  instance ← member "instance_id";
  Some (ServiceEntry handle id version flags provider instance).

Definition named_dependency (m : bytes) (p : Z) : option atarix_dependency_entry_t :=
  let member := read_member atarix_discovery_dependency_record_v1_layout m p in
  consumer ← member "consumer_handle";
  provider ← member "provider_handle";
  type ← member "dependency_type";
  version ← member "dependency_version";
  flags ← member "dependency_flags";
  Some (DependencyEntry consumer provider type version flags).

Definition named_instrumentation (m : bytes) (p : Z) : option atarix_instrumentation_entry_t :=
  let member := read_member atarix_discovery_instrumentation_record_v1_layout m p in
  handle ← member "instrumentation_handle";
  observed ← member "observed_handle";
  type ← member "instrumentation_type";
  version ← member "instrumentation_version";
  flags ← member "instrumentation_flags";
  Some (InstrumentationEntry handle observed type version flags).

(** Entering a record in its table: refused when its handle is in the database
    already, or the table is full. *)
Definition enter {A} (db : atarix_discovery_database_t) (handle : option Z) (entry : option A)
    (t : table A) (put : table A -> atarix_discovery_database_t)
  : option (atarix_discovery_result_t * atarix_discovery_database_t) :=
  h ← handle;
  contained ← atarix_discovery_database_contains_handle (Some db) h;
  if (contained : bool) then Some (ATARIX_DISCOVERY_ERROR_DUPLICATE_HANDLE, db)
  else if table_full t then Some (ATARIX_DISCOVERY_ERROR_CAPACITY, db)
  else e ← entry; t' ← table_push t e; Some (ATARIX_DISCOVERY_OK, put t').

Definition set_resources (d : atarix_discovery_database_t) t :=
  DiscoveryDatabase t (db_services d) (db_dependencies d) (db_instrumentation d).
Definition set_services (d : atarix_discovery_database_t) t :=
  DiscoveryDatabase (db_resources d) t (db_dependencies d) (db_instrumentation d).
Definition set_dependencies (d : atarix_discovery_database_t) t :=
  DiscoveryDatabase (db_resources d) (db_services d) t (db_instrumentation d).
Definition set_instrumentation (d : atarix_discovery_database_t) t :=
  DiscoveryDatabase (db_resources d) (db_services d) (db_dependencies d) t.

(** Both sides load the same members; their order does not matter, since a member
    outside of the memory makes both undefined. *)
Ltac same_loads :=
  repeat match goal with
  | |- context [load_le ?k ?m ?q] =>
    destruct (load_le k m q); rewrite ?bind_some; cbn [mbind option_bind]
  | |- context [atarix_discovery_database_contains_handle ?d ?h] =>
    destruct (atarix_discovery_database_contains_handle d h) as [[]|]; rewrite ?bind_some
  | |- context [if table_full ?t then _ else _] => destruct (table_full t)
  end; try done.

Lemma add_resource_by_name db m p :
  add_resource db m p =
  enter db (read_member atarix_discovery_resource_record_v1_layout m p "resource_handle")
    (named_resource m p) (db_resources db) (set_resources db).
Proof. unfold add_resource, enter, named_resource. members. same_loads. Qed.

Lemma add_service_by_name db m p :
  add_service db m p =
  enter db (read_member atarix_discovery_service_record_v1_layout m p "service_handle")
    (named_service m p) (db_services db) (set_services db).
Proof. unfold add_service, enter, named_service. members. same_loads. Qed.

Lemma add_dependency_by_name db m p :
  add_dependency db m p =
  if table_full (db_dependencies db) then Some (ATARIX_DISCOVERY_ERROR_CAPACITY, db)
  else e ← named_dependency m p; t ← table_push (db_dependencies db) e;
       Some (ATARIX_DISCOVERY_OK, set_dependencies db t).
Proof. unfold add_dependency, named_dependency. members. same_loads. Qed.

Lemma add_instrumentation_by_name db m p :
  add_instrumentation db m p =
  enter db (read_member atarix_discovery_instrumentation_record_v1_layout m p
              "instrumentation_handle")
    (named_instrumentation m p) (db_instrumentation db) (set_instrumentation db).
Proof. unfold add_instrumentation, enter, named_instrumentation. members. same_loads. Qed.

(** The encodings of the model and the parser's reads follow the declared
    structures, for which every size and offset that the headers assert holds. The
    header and record encodings of a Boot Information Block, the discovery header and
    the records of the image generator are the members of the declared structures, in
    order, and the discovery parser enters the members of the record structures by
    name. The byte positions of the Boot Information Block's code are in
    [BibLayouts]. *)
Theorem model_follows_layouts :
  Forall (eq true) static_asserts /\
  (forall h, enc_header h = encode atarix_bib_header_v1_layout
     [le_value ATARIX_BIB_MAGIC; ATARIX_BIB_VERSION_MAJOR_V1; bh_version_minor h;
      sizeof atarix_bib_header_v1_layout; bh_flags h; bh_total_length h; bh_crc32c h;
      bh_boot_id h; bh_producer_id h; bh_created_counter h; bh_tlv_offset h;
      bh_tlv_count h; 0]) /\
  (forall t, enc_tlv_header t = encode atarix_bib_tlv_header_v1_layout
     [t_type t; t_flags t; tlv_length t; blen (t_payload t); 0]) /\
  (forall object_id address length major minor,
     enc_reference object_id address length major minor =
     encode atarix_bib_reference_fixed_v1_layout
       [object_id; address; length; major; minor; 0; 0]) /\
  (forall h, enc_dheader h = encode atarix_discovery_header_v1_layout
     [ATARIX_DISCOVERY_MAGIC_ATDX; ATARIX_DISCOVERY_VERSION_MAJOR_V1; dh_version_minor h;
      dh_total_length h; dh_record_count h; dh_provider_id h; dh_flags h;
      dh_header_crc32 h; dh_image_crc32 h]) /\
  (forall type provider, enc_drecord (resource_record type provider) =
     encode atarix_discovery_resource_record_v1_layout
       [ATARIX_DISCOVERY_RECORD_RESOURCE; 1; sizeof atarix_discovery_resource_record_v1_layout;
        type; 1; 0; atarix_discovery_make_handle (u16 provider) type 1; provider; 1]) /\
  (forall id provider, enc_drecord (service_record id provider) =
     encode atarix_discovery_service_record_v1_layout
       [ATARIX_DISCOVERY_RECORD_SERVICE; 1; sizeof atarix_discovery_service_record_v1_layout;
        id; 1; 0; atarix_discovery_make_handle (u16 provider) id 1; provider; 1]) /\
  (forall db m p, add_resource db m p =
     enter db (read_member atarix_discovery_resource_record_v1_layout m p "resource_handle")
       (named_resource m p) (db_resources db) (set_resources db)) /\
  (forall db m p, add_service db m p =
     enter db (read_member atarix_discovery_service_record_v1_layout m p "service_handle")
       (named_service m p) (db_services db) (set_services db)) /\
  (forall db m p, add_dependency db m p =
     if table_full (db_dependencies db) then Some (ATARIX_DISCOVERY_ERROR_CAPACITY, db)
     else e ← named_dependency m p; t ← table_push (db_dependencies db) e;
          Some (ATARIX_DISCOVERY_OK, set_dependencies db t)) /\
  (forall db m p, add_instrumentation db m p =
     enter db (read_member atarix_discovery_instrumentation_record_v1_layout m p
                 "instrumentation_handle")
       (named_instrumentation m p) (db_instrumentation db) (set_instrumentation db)).
Proof.
  split_and!.
  - by vm_compute; repeat constructor.
  - reflexivity.
  - reflexivity.
  - reflexivity.
  - reflexivity.
  - reflexivity.
  - reflexivity.
  - exact add_resource_by_name.
  - exact add_service_by_name.
  - exact add_dependency_by_name.
  - exact add_instrumentation_by_name.
Qed.
