(* ===== verification/TestVectors.v ===== *)
(** * The repository's tests, run on the model

    The assertions of the test programs of [src/tests], as tables of inputs and
    expected results, evaluated on the definitions of this development: what the
    test suite expects of the C code holds of its model. The test of the capture is
    covered by BibEvidence. *)

From S2P Require Import Prelude Crc Ring Mailbox Capability Memory BibFormat BibBuilder BibReader Registries Discovery DiscoveryParser MkDiscovery Sim System.
From stdpp Require Import gmap strings.
#[local] Open Scope Z_scope.

(** ** tests/ring *)

Definition ring_vectors : list (Z * Z * Z * atarix_ring_status_t) :=
  [(ATARIX_RING_SUPERVISOR, ATARIX_RING_DRIVER, ATARIX_RING_OPERATION_MANAGE, ATARIX_RING_STATUS_ALLOW);
   (ATARIX_RING_FABRIC, ATARIX_RING_DRIVER, ATARIX_RING_OPERATION_REQUEST, ATARIX_RING_STATUS_ALLOW);
   (ATARIX_RING_QUARANTINE, ATARIX_RING_SUPERVISOR, ATARIX_RING_OPERATION_REQUEST, ATARIX_RING_STATUS_DENY);
   (ATARIX_RING_QUARANTINE, ATARIX_RING_APPLICATION, ATARIX_RING_OPERATION_REQUEST, ATARIX_RING_STATUS_DENY);
   (ATARIX_RING_APPLICATION, ATARIX_RING_QUARANTINE, ATARIX_RING_OPERATION_REQUEST, ATARIX_RING_STATUS_DENY);
   (ATARIX_RING_APPLICATION, ATARIX_RING_APPLICATION, ATARIX_RING_OPERATION_REQUEST, ATARIX_RING_STATUS_ALLOW);
   (ATARIX_RING_DRIVER, ATARIX_RING_DRIVER, ATARIX_RING_OPERATION_OBSERVE, ATARIX_RING_STATUS_ALLOW);
   (ATARIX_RING_SUPERVISOR, ATARIX_RING_QUARANTINE, ATARIX_RING_OPERATION_RECOVER, ATARIX_RING_STATUS_ALLOW);
   (ATARIX_RING_SUPERVISOR, ATARIX_RING_APPLICATION, ATARIX_RING_OPERATION_QUARANTINE, ATARIX_RING_STATUS_ALLOW);
   (ATARIX_RING_APPLICATION, ATARIX_RING_DRIVER, ATARIX_RING_OPERATION_QUARANTINE, ATARIX_RING_STATUS_DENY);
   (ATARIX_RING_APPLICATION, ATARIX_RING_SUPERVISOR, ATARIX_RING_OPERATION_REQUEST, ATARIX_RING_STATUS_DENY);
   (ATARIX_RING_DRIVER, ATARIX_RING_FABRIC, ATARIX_RING_OPERATION_REQUEST, ATARIX_RING_STATUS_DENY)].

Theorem ring_tests :
  Forall (fun '(requester, target, operation, status) =>
    atarix_ring_can_access requester target operation = status) ring_vectors.
Proof. by repeat constructor. Qed.

(** ** tests/mailbox *)

(** Sequence numbers in order of arrival, with the status of each. *)
Definition sequence_statuses (seqs : list Z) : list atarix_mailbox_status_t :=
  (fix run window seqs :=
     match seqs with
     | [] => []
     | s :: rest =>
       let '(status, window) := atarix_mailbox_sequence_accept window s in
       status :: run window rest
     end) (Some (SequenceWindow 0 0)) seqs.

Theorem mailbox_sequence_tests :
  sequence_statuses [7; 7] = [ATARIX_MAILBOX_STATUS_OK; ATARIX_MAILBOX_STATUS_DUPLICATE] /\
  sequence_statuses [100; 99; 102; 101] =
    [ATARIX_MAILBOX_STATUS_OK; ATARIX_MAILBOX_STATUS_OUT_OF_ORDER;
     ATARIX_MAILBOX_STATUS_SEQUENCE_ERROR; ATARIX_MAILBOX_STATUS_OK] /\
  sequence_statuses [10; 11; 11; 10; 13; 12] =
    [ATARIX_MAILBOX_STATUS_OK; ATARIX_MAILBOX_STATUS_OK; ATARIX_MAILBOX_STATUS_DUPLICATE;
     ATARIX_MAILBOX_STATUS_OUT_OF_ORDER; ATARIX_MAILBOX_STATUS_SEQUENCE_ERROR;
     ATARIX_MAILBOX_STATUS_OK].
Proof. by vm_compute. Qed.

Definition authorize_vectors : list (Z * Z * Z * atarix_mailbox_status_t) :=
  [(ATARIX_RING_QUARANTINE, ATARIX_RING_APPLICATION, ATARIX_MAILBOX_MESSAGE_PING, ATARIX_MAILBOX_STATUS_RING_DENIED);
   (ATARIX_RING_APPLICATION, ATARIX_RING_QUARANTINE, ATARIX_MAILBOX_MESSAGE_PING, ATARIX_MAILBOX_STATUS_RING_DENIED);
   (ATARIX_RING_SUPERVISOR, ATARIX_RING_QUARANTINE, ATARIX_MAILBOX_MESSAGE_STATUS_QUERY, ATARIX_MAILBOX_STATUS_OK);
   (ATARIX_RING_APPLICATION, ATARIX_RING_FABRIC, ATARIX_MAILBOX_MESSAGE_STATUS_QUERY, ATARIX_MAILBOX_STATUS_RING_DENIED);
   (ATARIX_RING_FABRIC, ATARIX_RING_DRIVER, ATARIX_MAILBOX_MESSAGE_STATUS_QUERY, ATARIX_MAILBOX_STATUS_OK);
   (ATARIX_RING_APPLICATION, ATARIX_RING_SUPERVISOR, ATARIX_MAILBOX_MESSAGE_STATUS_QUERY, ATARIX_MAILBOX_STATUS_RING_DENIED);
   (ATARIX_RING_DRIVER, ATARIX_RING_SUPERVISOR, ATARIX_MAILBOX_MESSAGE_STATUS_QUERY, ATARIX_MAILBOX_STATUS_RING_DENIED);
   (ATARIX_RING_SUPERVISOR, ATARIX_RING_DRIVER, ATARIX_MAILBOX_MESSAGE_STATUS_QUERY, ATARIX_MAILBOX_STATUS_OK)].

Theorem mailbox_authorize_tests :
  Forall (fun '(source, target, type, status) =>
    atarix_mailbox_ring_authorize source target type = status) authorize_vectors.
Proof. by repeat constructor. Qed.

(** Builds a header, changes it and the payload, and validates. *)
Definition build_and_validate (type : Z) (payload : bytes)
    (change : atarix_mailbox_header_v1_t -> atarix_mailbox_header_v1_t) (received : bytes)
  : option (atarix_mailbox_status_t * option atarix_mailbox_status_t) :=
  '(status, header) ← atarix_mailbox_build_header (Some null_header) type 1 (Some payload) (blen payload);
  match status, header with
  | ATARIX_MAILBOX_STATUS_OK, Some h =>
    result ← atarix_mailbox_validate_header (Some (change h)) (Some received) (blen received);
    Some (status, Some result)
  | _, _ => Some (status, None)
  end.

(** ["ATARIX"] with its terminating zero. *)
Definition atarix_payload : bytes := [65; 84; 65; 82; 73; 88; 0].

Definition with_header (h : atarix_mailbox_header_v1_t) (magic type length crc : Z)
  : atarix_mailbox_header_v1_t := MailboxHeader magic type length (mh_sequence h) crc.

Theorem mailbox_header_tests :
  let ok := ATARIX_MAILBOX_STATUS_OK in
  let query := ATARIX_MAILBOX_MESSAGE_STATUS_QUERY in
  let ping := ATARIX_MAILBOX_MESSAGE_PING in
  build_and_validate ping atarix_payload id atarix_payload = Some (ok, Some ok) /\
  build_and_validate ping atarix_payload id (64 :: drop 1 atarix_payload) =
    Some (ok, Some ATARIX_MAILBOX_STATUS_CRC_MISMATCH) /\
  build_and_validate ping atarix_payload
    (fun h => with_header h (mh_magic h) (mh_type h) (mh_length h) (mh_crc32 h .^ 1)) atarix_payload =
    Some (ok, Some ATARIX_MAILBOX_STATUS_CRC_MISMATCH) /\
  build_and_validate ping (replicate 4096 0xA5) id (replicate 4096 0xA5) = Some (ok, Some ok) /\
  build_and_validate ping (replicate 4096 0xA5)
    (fun h => with_header h (mh_magic h) (mh_type h) 4097 (mh_crc32 h)) (replicate 4096 0xA5) =
    Some (ok, Some ATARIX_MAILBOX_STATUS_INVALID_LENGTH) /\
  build_and_validate query [1; 2; 3; 4]
    (fun h => with_header h 0 (mh_type h) (mh_length h) (mh_crc32 h)) [1; 2; 3; 4] =
    Some (ok, Some ATARIX_MAILBOX_STATUS_INVALID_HEADER) /\
  build_and_validate query [1; 2; 3; 4]
    (fun h => with_header h (mh_magic h) ATARIX_MAILBOX_MESSAGE_INVALID (mh_length h) (mh_crc32 h))
    [1; 2; 3; 4] = Some (ok, Some ATARIX_MAILBOX_STATUS_UNKNOWN_TYPE) /\
  build_and_validate query [1; 2; 3; 4]
    (fun h => with_header h (mh_magic h) (mh_type h) 5 (mh_crc32 h)) [1; 2; 3; 4] =
    Some (ok, Some ATARIX_MAILBOX_STATUS_INVALID_LENGTH) /\
  build_and_validate ATARIX_MAILBOX_MESSAGE_INVALID [0] id [0] =
    Some (ATARIX_MAILBOX_STATUS_UNKNOWN_TYPE, None).
Proof. by vm_compute. Qed.

(** ** tests/memory *)

(** The valid descriptor with some members changed. *)
Definition descriptor (magic version flags source destination length capability : Z)
  : option atarix_memory_descriptor_v1_t :=
  Some (MemoryDescriptor magic version 0 flags source 0 destination 0 length capability 1 0).

Theorem memory_tests :
  let magic := ATARIX_MEMORY_DESCRIPTOR_MAGIC in
  let version := ATARIX_MEMORY_DESCRIPTOR_VERSION_V1 in
  let validate := atarix_validate_descriptor in
  validate None = ATARIX_MEMORY_STATUS_NULL_DESCRIPTOR /\
  validate (descriptor magic version 1 0x1001 0x2002 512 0x7777) = ATARIX_MEMORY_STATUS_OK /\
  validate (descriptor 0xDEADBEEF version 1 0x1001 0x2002 512 0x7777) = ATARIX_MEMORY_STATUS_BAD_MAGIC /\
  validate (descriptor magic 99 1 0x1001 0x2002 512 0x7777) = ATARIX_MEMORY_STATUS_BAD_VERSION /\
  validate (descriptor magic version 1 0x1001 0x2002 0 0x7777) = ATARIX_MEMORY_STATUS_ZERO_LENGTH /\
  validate (descriptor magic version 1 0x1001 0x2002 (ATARIX_MEMORY_DESCRIPTOR_MAX_LENGTH_V1 + 1) 0x7777) =
    ATARIX_MEMORY_STATUS_LENGTH_EXCEEDED /\
  validate (descriptor magic version 1 0x1001 0x2002 512 0) = ATARIX_MEMORY_STATUS_MISSING_CAPABILITY /\
  validate (descriptor magic version 1 0 0x2002 512 0x7777) = ATARIX_MEMORY_STATUS_MISSING_SOURCE /\
  validate (descriptor magic version 1 0x1001 0 512 0x7777) = ATARIX_MEMORY_STATUS_MISSING_DESTINATION /\
  map (fun flags => validate (descriptor magic version flags 0x1001 0x2002 512 0x7777)) [0; 3; 0x80] =
    replicate 3 ATARIX_MEMORY_STATUS_BAD_FLAGS.
Proof. by vm_compute. Qed.

(** ** tests/capability *)

(** [make_capability] of the tests. *)
Definition test_capability (id operation minimum maximum flags lifetime : Z)
  : atarix_capability_record_v1_t :=
  CapabilityRecord id operation (atarix_discovery_make_handle 3 1 1) minimum maximum flags 0
    lifetime (atarix_discovery_make_handle 1 1 1) ATARIX_TRUST_IDENTIFIED 0.

(** Parent and child ring ranges, flags, and the expected status. *)
Definition delegation_vectors : list (Z * Z * Z * Z * Z * Z * atarix_policy_status_t) :=
  let read := ATARIX_CAPABILITY_FLAG_READ_ALLOWED in
  let delegable := read .| ATARIX_CAPABILITY_FLAG_DELEGATION_ALLOWED in
  let denied := ATARIX_POLICY_STATUS_DELEGATION_DENIED in
  [(0, 3, delegable, 1, 1, read, ATARIX_POLICY_STATUS_OK);
   (1, 3, delegable, 2, 2, read, ATARIX_POLICY_STATUS_OK);
   (2, 3, delegable, 3, 3, read, ATARIX_POLICY_STATUS_OK);
   (3, 3, delegable, 2, 2, read, denied);
   (2, 3, delegable, 1, 1, read, denied);
   (1, 3, delegable, 0, 0, read, denied);
   (0, 3, read, 3, 3, read, denied);
   (0xFFFE, 0xFFFE, delegable, 0, 0, read, denied);
   (0, 3, delegable, 3, 3, read .| ATARIX_CAPABILITY_FLAG_WRITE_ALLOWED, denied);
   (3, 3, delegable, 0, 0, read, denied)].

Theorem capability_delegation_tests :
  Forall (fun '(pmin, pmax, pflags, cmin, cmax, cflags, status) =>
    atarix_capability_delegation_validate
      (Some (test_capability 101 ATARIX_OPERATION_READ pmin pmax pflags 0))
      (Some (test_capability 102 ATARIX_OPERATION_READ cmin cmax cflags 0)) = status)
    delegation_vectors.
Proof. by repeat constructor. Qed.

(** Status and decision for a caller, its ring, the two trust levels, the request
    flags and a capability; the time is 100. *)
Definition policy_outcome (caller ring issuer owner request_flags : Z)
    (c : atarix_capability_record_v1_t)
  : atarix_policy_status_t * option atarix_policy_decision_t :=
  let '(status, result) := atarix_policy_evaluate
    (Some (PolicyRequest caller 42 1 ring issuer owner (target_handle c) (operation_id c) 100
       request_flags (Some c))) (Some blank_result) in
  (status, result_decision <$> result).

Definition policy_vectors
  : list (Z * Z * Z * Z * Z * atarix_capability_record_v1_t * atarix_policy_status_t) :=
  let read := ATARIX_OPERATION_READ in
  let limited := ATARIX_CAPABILITY_FLAG_READ_ALLOWED .| ATARIX_CAPABILITY_FLAG_TIME_LIMITED in
  let wide := test_capability 7 read 0 3 1 0 in
  let ring r wire status := (42, r, 3, 1, 0, test_capability 11 read wire wire 1 0, status) in
  [(42, 2, 3, 1, 0, wide, ATARIX_POLICY_STATUS_OK);
   (43, 2, 3, 1, 0, wide, ATARIX_POLICY_STATUS_OWNER_MISMATCH);
   (42, 2, 3, ATARIX_TRUST_REVOKED, 0, wide, ATARIX_POLICY_STATUS_UNTRUSTED_OWNER);
   (42, 2, ATARIX_TRUST_UNTRUSTED, 1, 0, wide, ATARIX_POLICY_STATUS_UNTRUSTED_ISSUER);
   (42, 2, 3, 1, 0, test_capability 19 read 2 3 1 0, ATARIX_POLICY_STATUS_OK);
   (42, 2, 3, 1, 1, test_capability 19 read 2 3 1 0, ATARIX_POLICY_STATUS_REVOKED);
   (42, 2, 3, 1, 0, test_capability 19 read 2 3 limited 99, ATARIX_POLICY_STATUS_EXPIRED);
   (42, 2, 3, 1, 0, test_capability 19 read 2 3 limited 100, ATARIX_POLICY_STATUS_OK);
   (42, 2, 3, 1, 0, test_capability 19 read 2 3 limited 0, ATARIX_POLICY_STATUS_EXPIRED);
   (42, 2, 3, 3, 1, test_capability 19 read 2 3 1 0, ATARIX_POLICY_STATUS_REVOKED);
   (42, 1, 3, 1, 1, test_capability 301 ATARIX_OPERATION_CONTROL 1 1 4 0, ATARIX_POLICY_STATUS_REVOKED);
   ring 3 3 ATARIX_POLICY_STATUS_OK; ring 2 2 ATARIX_POLICY_STATUS_OK;
   ring 1 1 ATARIX_POLICY_STATUS_OK; ring 0 0 ATARIX_POLICY_STATUS_OK;
   ring 3 0 ATARIX_POLICY_STATUS_RING_DENIED; ring 2 1 ATARIX_POLICY_STATUS_RING_DENIED;
   ring 1 0xFFFF ATARIX_POLICY_STATUS_RING_DENIED; ring 0 0xFFFE ATARIX_POLICY_STATUS_RING_DENIED;
   ring (-1) 0xFFFF ATARIX_POLICY_STATUS_OK; ring (-2) 0xFFFE ATARIX_POLICY_STATUS_OK].

Theorem capability_policy_tests :
  Forall (fun '(caller, ring, issuer, owner, request_flags, c, status) =>
    policy_outcome caller ring issuer owner request_flags c =
    (status, Some (if decide (status = ATARIX_POLICY_STATUS_OK)
                   then ATARIX_POLICY_DECISION_ALLOW else ATARIX_POLICY_DECISION_DENY)))
    policy_vectors.
Proof. by repeat constructor. Qed.

Theorem capability_record_tests :
  let validate c := atarix_capability_record_validate (Some c) in
  atarix_capability_record_validate None = ATARIX_POLICY_STATUS_NULL /\
  validate (test_capability 1 ATARIX_OPERATION_READ 0 3 1 0) = ATARIX_POLICY_STATUS_OK /\
  validate (test_capability 1 ATARIX_OPERATION_INVALID 0 3 1 0) =
    ATARIX_POLICY_STATUS_INVALID_CAPABILITY /\
  validate (test_capability 1 ATARIX_OPERATION_READ 3 0 1 0) =
    ATARIX_POLICY_STATUS_INVALID_CAPABILITY /\
  atarix_capability_record_allows_operation
    (Some (test_capability 1 ATARIX_OPERATION_READ 0 3 1 0)) ATARIX_OPERATION_READ = true /\
  atarix_capability_record_allows_operation
    (Some (test_capability 1 ATARIX_OPERATION_READ 0 3 1 0)) ATARIX_OPERATION_WRITE = false /\
  atarix_capability_is_destructive ATARIX_CAPABILITY_FLAG_DESTRUCTIVE_OPERATION = true /\
  atarix_capability_requires_supervisor ATARIX_CAPABILITY_FLAG_REQUIRES_SUPERVISOR_APPROVAL = true.
Proof. by vm_compute. Qed.

(** ** tests/discovery *)

(** The helpers of [discovery_test_utils.h]: a header of provider 3, the records,
    and the checksums patched over [length] bytes. *)
Definition test_discovery (total count : Z) (rs : list drecord) (length : Z) : option bytes :=
  patch_crc32 (enc_dheader (bare_dheader 3 total count) ++ enc_drecords rs) length.

Definition empty_database : atarix_discovery_database_t :=
  DiscoveryDatabase (Table None 0 0) (Table None 0 0) (Table None 0 0) (Table None 0 0).

Definition resources_only : atarix_discovery_database_t :=
  DiscoveryDatabase (Table (Some (replicate 4 (ResourceEntry 0 0 0 0 0 0))) 4 0) (Table None 0 0)
    (Table None 0 0) (Table None 0 0).

(** Two resources of one handle. *)
Definition duplicate_records : list drecord :=
  let record type instance := DRecord ATARIX_DISCOVERY_RECORD_RESOURCE 1
    (le_bytes 2 type ++ le_bytes 2 1 ++ le_bytes 4 0 ++
     le_bytes 8 (atarix_discovery_make_handle 3 ATARIX_RESOURCE_CPU 1) ++ le_bytes 4 3 ++
     le_bytes 4 instance) in
  [record ATARIX_RESOURCE_CPU 1; record ATARIX_RESOURCE_CPU_HEALTH 2; end_record].

Theorem discovery_tests :
  let validate image n := m ← image; atarix_discovery_validate (Some m) n in
  let parse image n db := m ← image; atarix_discovery_parse (Some m) n (Some db) in
  validate (test_discovery 40 1 [end_record] 40) 40 = Some ATARIX_DISCOVERY_OK /\
  validate (m ← test_discovery 40 1 [end_record] 40; Some (<[39%nat := 1]> m)) 40 =
    Some ATARIX_DISCOVERY_ERROR_BAD_CRC /\
  validate (test_discovery 32 0 [end_record] 32) 40 = Some ATARIX_DISCOVERY_ERROR_MISSING_END /\
  validate (test_discovery 7 1 [end_record] 40) 40 = Some ATARIX_DISCOVERY_ERROR_BAD_LENGTH /\
  validate (test_discovery 48 2 [DRecord 0x8000 1 []; end_record] 48) 48 = Some ATARIX_DISCOVERY_OK /\
  parse (test_discovery 40 1 [end_record] 40) 40 empty_database =
    Some (ATARIX_DISCOVERY_OK, Some empty_database) /\
  (fst <$> parse (test_discovery 104 3 duplicate_records 104) 104 resources_only) =
    Some ATARIX_DISCOVERY_ERROR_DUPLICATE_HANDLE.
Proof. by vm_compute. Qed.

(** ** tests/bib *)

(** [make_golden_vector] of [test_bib_vectors.c], without its checksum. *)
Definition golden_header : bib_header :=
  BibHeader 0 0 176 0 0x1122334455667788 0x8877665544332211 1 64 2.

Definition golden_vector : bytes :=
  enc_header golden_header ++
  enc_tlv (Tlv ATARIX_BIB_TLV_SERVICE_DIRECTORY_REFERENCE ATARIX_BIB_TLV_FLAG_MANDATORY
    (enc_reference 0x1001 0x100000 0x2000 1 0) []) ++
  enc_tlv (Tlv ATARIX_BIB_TLV_MEMORY_MAP_REFERENCE ATARIX_BIB_TLV_FLAG_MANDATORY
    (enc_reference 0x1002 0x200000 0x3000 1 0) []).

(** [seal_crc]: the checksum over the block with its field zeroed. *)
Definition seal_crc (m : bytes) : option bytes :=
  m ← store_le 4 m 20 0; crc ← crc32c m 176; store_le 4 m 20 crc.

(** The reader's answer for the golden vector, with stores before and after the
    checksum is sealed. *)
Definition bib_outcome (before after : bytes -> option bytes) (window : Z)
  : option atarix_bib_error_t :=
  m ← before golden_vector; m ← seal_crc m; m ← after m;
  fst <$> atarix_bib_reader_open (Some zero_view) m (Some 0) window.

Definition bib_vectors : list ((bytes -> option bytes) * (bytes -> option bytes) * Z * atarix_bib_error_t) :=
  let none := Some in
  [(none, none, 176, ATARIX_BIB_OK);
   (none, none, 63, ATARIX_BIB_E_WINDOW);
   (none, none, 175, ATARIX_BIB_E_TOTAL_LENGTH);
   (none, fun m => store_le 1 m 0 64, 176, ATARIX_BIB_E_MAGIC);
   (fun m => store_le 2 m 8 2, none, 176, ATARIX_BIB_E_VERSION);
   (none, fun m => store_le 4 m 16 175, 176, ATARIX_BIB_E_TOTAL_LENGTH);
   (none, fun m => b ← load8 m 100; store_le 1 m 100 (b .^ 1), 176, ATARIX_BIB_E_CRC);
   (none, fun m => m ← store_le 2 m 64 0x7000; store_le 4 m 20 0, 176, ATARIX_BIB_E_CRC);
   (fun m => store_le 4 m 68 64, none, 176, ATARIX_BIB_E_TLV_BOUNDS);
   (fun m => store_le 2 m 64 0x7000, none, 176, ATARIX_BIB_E_UNKNOWN_MANDATORY);
   (fun m => store_le 2 m 64 ATARIX_BIB_TLV_MEMORY_MAP_REFERENCE, none, 176, ATARIX_BIB_E_REQUIRED_RECORD);
   (fun m => m ← store_le 8 m 88 (UINT64_MAX - 15); store_le 8 m 96 32, none, 176,
      ATARIX_BIB_E_REFERENCE_OVERFLOW);
   (fun m => m ← store_le 2 m 64 0x7000; store_le 2 m 66 0, none, 176, ATARIX_BIB_E_REQUIRED_RECORD)].

Theorem bib_tests :
  (m ← seal_crc golden_vector; load_le 4 m 20) = Some 0x25F8A83A /\
  map (fun '(before, after, window, _) => bib_outcome before after window) bib_vectors =
  map (fun '(_, _, _, error) => Some error) bib_vectors.
Proof. by vm_compute. Qed.

(** ** tests/sim *)

(** The statuses of a test program's calls, run in uninitialized memory; [None] if
    one faults. *)
Definition sim_statuses (s : system) (rs : list request) : option (list response) :=
  fst <$> answers (run s rs).

(** The counters of a node at the end. *)
Definition sim_counters (s : system) (rs : list request) (l : loc) : option (Z * Z) :=
  '(_, s') ← run s rs; n ← nodes (sys_world s') !! l; Some (tx_count n, rx_count n).

Definition sim_setup : list request :=
  [FabricInit; NodeInit (Some 1%positive) ATARIX_SIM_NODE_SUPERVISOR (Some "supervisor"%string);
   NodeInit (Some 2%positive) ATARIX_SIM_NODE_FABRIC_BASE (Some "fabric"%string);
   EndpointInit (Some 3%positive) (Some 1%positive);
   EndpointInit (Some 4%positive) (Some 2%positive)].

(** [test_sim_version_query]: a query without a payload, and its reply. *)
Definition version_query : list request :=
  sim_setup ++
  [MailboxSend (Some 1%positive) (Some 5%positive) ATARIX_MAILBOX_MESSAGE_VERSION_QUERY 2 None 0;
   MailboxReceive (Some 4%positive) (Some 5%positive);
   MailboxSend (Some 2%positive) (Some 6%positive) ATARIX_MAILBOX_MESSAGE_VERSION_REPLY 2
     (Some 9%positive) 4;
   MailboxReceive (Some 3%positive) (Some 6%positive)].

(** [test_sim_reject_invalid]: the test changes the packet between the calls. *)
Definition send_ping (sequence : Z) : request :=
  MailboxSend (Some 1%positive) (Some 5%positive) ATARIX_MAILBOX_MESSAGE_PING sequence
    (Some 8%positive) 4.

Definition tamper (type length crc32 : Z) : request :=
  ForgePacket 5%positive
    (SimPacket (MailboxHeader ATARIX_MAILBOX_MAGIC_V1 type length 1 crc32) (Some 8%positive) 4).

Definition receive_ping : request := MailboxReceive (Some 4%positive) (Some 5%positive).

Definition ping_crc : Z := payload_crc [1; 2; 3; 4].

Definition reject_invalid : list request :=
  sim_setup ++
  [send_ping 1; tamper ATARIX_MAILBOX_MESSAGE_PING 4 (ping_crc .^ 1); receive_ping;
   send_ping 1; tamper 0x7FFF 4 ping_crc; receive_ping;
   send_ping 1; receive_ping; receive_ping;
   send_ping 0; receive_ping;
   send_ping 2; tamper ATARIX_MAILBOX_MESSAGE_PING (ATARIX_MAILBOX_MAX_PAYLOAD_V1 + 1) ping_crc;
   receive_ping].

(** [test_sim_fabric_capacity]: 257 nodes with consecutive identifiers. *)
Definition many_nodes : system :=
  System (World (list_to_map ((fun l => (Pos.of_nat l, SimNode 0 None 0 0)) <$> seq 1 257)) ∅)
    (SimFabric (replicate 256 (FabricSlot 0 None)) 0) ∅ ∅.

Definition attach_node (i : nat) : list request :=
  [NodeInit (Some (Pos.of_nat i)) (ATARIX_SIM_NODE_TEST_BASE + Z.of_nat i - 1) None;
   FabricAttach (Some (Pos.of_nat i))].

Theorem sim_tests :
  sim_statuses test_memory ping_pong = Some ping_pong_answers /\
  sim_counters test_memory ping_pong 1%positive = Some (1, 1) /\
  sim_counters test_memory ping_pong 2%positive = Some (1, 1) /\
  sim_statuses test_memory version_query =
    Some (replicate 5 Done ++ replicate 4 (MailboxStatus ATARIX_MAILBOX_STATUS_OK)) /\
  drop 5 <$> sim_statuses test_memory reject_invalid = Some
    [MailboxStatus ATARIX_MAILBOX_STATUS_OK; Done; MailboxStatus ATARIX_MAILBOX_STATUS_CRC_MISMATCH;
     MailboxStatus ATARIX_MAILBOX_STATUS_OK; Done; MailboxStatus ATARIX_MAILBOX_STATUS_UNKNOWN_TYPE;
     MailboxStatus ATARIX_MAILBOX_STATUS_OK; MailboxStatus ATARIX_MAILBOX_STATUS_OK;
     MailboxStatus ATARIX_MAILBOX_STATUS_DUPLICATE;
     MailboxStatus ATARIX_MAILBOX_STATUS_OK; MailboxStatus ATARIX_MAILBOX_STATUS_OUT_OF_ORDER;
     MailboxStatus ATARIX_MAILBOX_STATUS_OK; Done;
     MailboxStatus ATARIX_MAILBOX_STATUS_INVALID_LENGTH] /\
  snd <$> sim_counters test_memory reject_invalid 2%positive = Some 1 /\
  sim_counters test_memory (sim_setup ++ [RecordTx (Some 1%positive); RecordRx (Some 1%positive);
    RecordRx (Some 1%positive); NodeInit None 0 None; RecordTx None; RecordRx None]) 1%positive =
    Some (1, 2).
Proof. by vm_compute. Qed.

Theorem sim_fabric_tests :
  sim_statuses test_memory [FabricInit; NodeInit (Some 1%positive) ATARIX_SIM_NODE_SUPERVISOR None;
    FabricCount; FabricLookup ATARIX_SIM_NODE_FABRIC_BASE; FabricAttach (Some 1%positive); FabricCount;
    FabricLookup ATARIX_SIM_NODE_SUPERVISOR; FabricLookup ATARIX_SIM_NODE_FABRIC_BASE] =
  Some [Done; Done; NodeCount 0; FoundNode None; AttachStatus ATARIX_SIM_FABRIC_STATUS_OK;
        NodeCount 1; FoundNode (Some 1%positive); FoundNode None] /\
  sim_statuses test_memory [FabricInit; NodeInit (Some 1%positive) ATARIX_SIM_NODE_FABRIC_BASE None;
    NodeInit (Some 2%positive) ATARIX_SIM_NODE_FABRIC_BASE None; FabricAttach (Some 1%positive);
    FabricAttach (Some 2%positive); FabricCount] =
  Some [Done; Done; Done; AttachStatus ATARIX_SIM_FABRIC_STATUS_OK;
        AttachStatus ATARIX_SIM_FABRIC_STATUS_DUPLICATE_NODE; NodeCount 1] /\
  drop 512 <$> sim_statuses many_nodes (concat (attach_node <$> seq 1 256) ++ FabricCount ::
    attach_node 257) =
  Some [NodeCount 256; Done; AttachStatus ATARIX_SIM_FABRIC_STATUS_FULL].
Proof. by vm_compute. Qed.
